(* ===== verification/_CoqProject ===== *)
-Q . S2P
Prelude.v
GoStrings.v
GoNet.v
Addressing.v
Types.v
Heap.v
DeepCopy.v
World.v
Proto.v
Clients.v
Listers.v
Sha1.v
Runner.v
TestHelpers.v
IpTables.v
Iface.v
Traces.v
Safety.v
Config.v
History.v
Json.v
OvnCommon.v
BridgeMappings.v
OvnController.v
HelperLinux.v
OvnNetworks.v
OvnPorts.v
Nbctl.v
NbParse.v
NbNetworks.v
NbStart.v
NbShared.v
NbPods.v
NbWorkers.v
Reconciler.v
Cluster.v
NetworkController.v
Notify.v
NotifyProps.v
NodeIter.v
ApiServer.v
Fakes.v
Registration.v
Schema.v
OpenApi.v
Informers.v
Chain.v
ProviderNetworkController.v
NbReconcile.v
ClusterNetworks.v
ClusterProps.v
Agent.v
AgentProps.v
Sync.v
PodController.v
CniServer.v
CniSocket.v
CniMain.v
AgentMain.v
Settled.v
Operator.v
Annotation.v
CniProps.v
CniWait.v
PodToCni.v
Kube.v
Shim.v
