(* ===== verification/Prelude.v ===== *)
(** * ovn4nfv-k8s-plugin: a verification library

    The plugin gives Kubernetes pods interfaces on OVN networks.  Its parts:

    - the operator (pkg/controller) reconciles Network, ProviderNetwork and
      NetworkChaining objects and pods; it makes logical switches and ports with
      ovn-nbctl (internal/pkg/ovn), writes the addresses it gets on the pod as an
      annotation, and tells the nodes about provider networks and routes over
      gRPC (internal/pkg/nfnNotify);
    - the agent on every node (cmd/nfn-agent) keeps the VLAN interfaces, bridges
      and bridge mappings that provider networks need, and sets the routes of
      chain members (internal/pkg/utils/chain.go);
    - the CNI server in the agent (internal/pkg/cniserver), called by the CNI
      executable (internal/pkg/cnishim), reads the pod's annotation and plugs the
      interfaces (cmd/ovn4nfvk8s-cni/app/helper_linux.go).

    ** How code is modelled

    World.v: a Go function with effects is a computation in the monad [M E],
    over the package variables ([Globals], one record for the process) and an
    environment [E].  Everything outside the process is a class over [E] whose
    methods may answer anything: [ExecWorld] (executables), [IPTWorld]
    (go-iptables), [RouteWorld], [LinkWorld] and [NodeWorld] (netlink, ns, exec,
    docker), [KubeWorld], [PodWorld] and [KubeClient] (API server), [NotifyWorld]
    (gRPC and the client sets), [ChainWorld] (pod lists), [CniWorld] (CNI
    libraries and net/http), [ConfigWorld] (files, gcfg, client-go),
    [SocketWorld] (file system and listener), [AgentLibs], [OperatorLibs] and
    [CliWorld] (libraries of the main programs), [RestWorld], [ClientLibs],
    [CacheWorld], [IndexerWorld] and [GrpcWorld] (client-go and gRPC under the
    generated code), [FakeWorld] and [SchemeWorld] (client-go's testing package
    and the schemes of apimachinery);
    [mapstructure.Decode] is a function argument.  Where the code relies on what
    a library documents, that is a class of laws ([IPTLaws], [CniLaws],
    [JsonLaws], [SocketLaws], [MergePatch], [BackoffLaws], [MetaCopiers],
    [IndexerLaws], [GrpcLaws], [TrackerLaws], [HonestServer] of the API server)
    with a concrete instance.  Two services have an abstract specification of
    their own, which the documentation of their commands or requests gives: the
    northbound database of OVN behind ovn-nbctl ([NbServer], and [NbShared] when
    others write it too) and the objects of
    the API server behind the generated clients ([RestServer]).

    A run gives a value, a panic (index or slice out of range, nil dereference)
    or a block (waiting forever on a nil channel), the new state, and the list of
    events: commands with their answers, messages, reads and writes at the API
    server.  Logging is left out.

    [wp m Q s] says that the run of [m] from [s] ends in [Q]; definitions are
    total functions, so it is never vacuous.  Superseded attempts of a retried
    command are events too; theorems on the commands of an operation look at the
    attempt that counts ([compress]), [runOVNretry_bounded] at all of them.

    ** Files, from the bottom up

    - Prelude: automation, iteration order of Go maps.  GoStrings, GoNet, Json:
      the standard-library functions that the program calls (strings; net and
      math/big; encoding/json), executable.  Sha1: crypto/sha1 and the interface
      name of config.go.
    - Types: the custom resources, pods and protobuf messages.  Heap and
      DeepCopy: the same resources as Go lays them out, structs over a heap of
      arrays, and the generated deep copies (zz_generated.deepcopy.go).  World:
      the monad and its rules.  Proto: the getters of the messages and the gRPC
      stubs (nfn.pb.go).  Traces: plans of effects and what it means to follow one.
      Safety: what a function never does, whatever the environment answers.
    - Addressing (common.go: NextIP, the gateway of createOvnLS); Runner
      (ovn/utils.go); IpTables and Iface (internal/pkg/network).
    - Clients, Listers, Informers (pkg/generated): the typed clients as the
      requests that they build, the listers, the informer factory.  ApiServer:
      what the API server makes of the requests, the contract of the typed
      clients, and the notification server on them.  Fakes: the fake clients over
      their object tracker, against the typed clients on the server.
      Registration: the init functions and the schemes that they fill.
    - Schema: Go types with their struct tags, the two directions of
      encoding/json on their values, OpenAPI schemas and what they admit.
      OpenApi: the types of the custom resources, their generated definitions
      (zz_generated.openapi.go) and the deployed schemas (deploy/crds).
    - OvnCommon (ovn/common.go) with BridgeMappings (what the mappings text
      means); OvnController (ovn/ovn.go, node/node.go) with OvnNetworks and
      OvnPorts (what its operations run and return).
    - Nbctl: the northbound database and what each command of ovn-nbctl does to
      it; NbParse: the command lines of the operator read back as such commands;
      NbNetworks, NbStart, NbReconcile: what the operations of OvnCommon and
      OvnController do to the database, on top of what they run.  NbShared: the
      same with others at work on the database, as rely-guarantee triples;
      NbPods: the ports of pods by these triples; NbWorkers: networks and pods
      that are handled at the same time.
    - Config (internal/pkg/config/config.go): flags, configuration file and
      [overrideFields].
    - Reconciler: the reconcile loop as a client of the interface
      [Reconcilable]; NetworkController and ProviderNetworkController (the latter
      also network chains) are its instances.  PodController: pods.
    - History: assertions on everything that ran so far.  Cluster: an API server
      that refuses writes on stale versions, histories of reconciles on it, and
      the invariant that the finalizers keep, for any [Reconcilable] with
      [Managed] and [GuardedOps]; ClusterNetworks and ClusterProps: networks and
      provider networks.
    - Notify with NotifyProps (nfnNotify/server.go), NodeIter (the channel
      between nodeListIterator and the loop of sendMsg, as two processes); Chain (utils/chain.go).
    - HelperLinux (app/helper_linux.go, ContainerAddRoute); Agent with
      AgentProps (the handlers of cmd/nfn-agent); AgentMain: the rest of
      cmd/nfn-agent, its goroutines as a step relation.
    - CniServer with CniProps (cniserver, cnishim) and CniWait (the wait of
      cmdAdd for the annotation); CniSocket: the server's unix
      socket; CniMain (cmd/ovn4nfvk8s-cni); Annotation: the way of the annotation
      from the operator to the CNI server; Kube (internal/pkg/kube).
    - TestHelpers (internal/pkg/testing): scripts of expected commands.
    - Compositions: Sync (a subscription: operator and agent), PodToCni (operator
      and CNI server), Shim (CNI plugin and CNI server).
    - Settled: what the handlers of the operator never take back; Operator
      (cmd/nfn-operator, SetupNotifServer, registration of the controllers): the
      operator's goroutines as a step relation.

    Definitions keep the names of the Go functions; the body of a loop or a
    shared fragment is a definition of its own, named after what it does.

    ** What the theorems show

    - End to end: an annotation printed by [AddLogicalPorts] survives the JSON
      patch and is decoded by the CNI server ([annotation_roundtrip]); a pod gets
      the interfaces that it asked for, from its reconcile to its CNI result
      ([pod_gets_its_interfaces]); the plugin's request is understood by the
      server ([shim_request_served]); a subscription brings operator and agent
      into step ([subscription_synchronises]).
    - The northbound database: a network is made whole or the error says so
      ([CreateNetwork_realises]), and what the status of the object then means
      ([createNetwork_state]); what is made can be taken away without a trace
      ([create_delete_roundtrip], [pod_ports_reclaimed]); restarts change
      nothing ([SetupOvnUtils_idempotent]); the gateway that was written is read
      back ([created_gateway]).  Networks and pods that are handled at the same
      time do not harm each other ([network_created_among_others],
      [pod_added_among_others]).
    - Histories: no switch of a network is orphaned ([networks_guarded],
      [provider_networks_guarded]), a deleted network is let go or its deletion
      retried ([dying_network_let_go]).
    - Processes, for every interleaving of their goroutines: the order of the
      operator's start ([operator_order]); the agent's machine
      ([agent_process_refines]) and its end when the stream is lost
      ([lost_stream_ends_agent]).
    - Controllers: the order of finalizer, OVN, messages and status on every
      branch ([NetworkReconcile_effects], [ProviderNetworkReconcile_effects],
      [PodReconcile_effects], [createChain_effects]).
    - OVN: each operation follows its plan of commands and stops at the first
      failure (the [_plan] theorems), [DeleteLogicalPorts_exact], the gateway
      cache, start-up without panics, and the bounds of both waiting loops.
    - Notifications: who gets a message, by selector, and in which order; the
      channel that feeds the loop ([nodeListIterator_channel]); what becomes of
      the state that is to be recorded ([SendNotif_states]).
    - Generated code: copies are deep ([generated_copies_deep]), the clients do
      what their interface says ([typed_clients_contract]), informers run once
      ([informers_run_once]), listers show the cache ([listers_contract]), the
      stubs hand over what was sent ([stubs_deliver]), the fake clients stand in
      for the typed ones ([fakes_stand_in]) but for a status that comes with an
      update and for finalizers ([fakes_differ]), every scheme knows the kinds
      ([schemes_know_the_kinds]).
    - The resources as JSON: what is printed is read again
      ([resources_round_trip]); what the deployed schemas admit can be written
      back by a controller if it has a spec ([admitted_written_back]); the
      generated definitions are those of the types and of the deployed schemas,
      but for six that are missing ([definitions_of_types]).
    - Agent: it refines a two-phase machine ([receive_refines]); what a VLAN
      network and a synchronisation do to the node.
    - Start: the precedence of the configuration ([InitConfig_precedence]) and
      the typing of [overrideFields]; who can reach the CNI server's socket
      ([Start_secure]); its wait for the annotation is bounded ([cmdAdd_waits]).
    - Data: round trips of bridge mappings, chains and annotations, gateways
      within their subnet, routes of chain members, interface names of fifteen
      characters.

    Several of these record behaviour that is surely not meant (for example
    [insync_deletes_vlans] and [SendNotif_any_not_deleted]): they state what the
    code does.

    ** Bounds

    [retry_loop] has the code's own bound of 200 retries, the polls of ovn.go 30
    rounds, cmdDel ten indices, the back-off of cmdAdd fourteen reads.  [parse_json] runs with twice the length of the
    text plus two units of fuel; [parse_json_fuel] shows that more never changes
    its answer.  Other loops range over lists.  Go's integers appear as list
    indexes, prefix lengths and IPv4 addresses, in [Z] or [nat]: the values are
    far from the machine's limits; SHA-1 words are reduced modulo 2^32.  Strings
    are bytes; case folding and white space are those of ASCII.

    ** What is assumed

    A handler runs to its end before the next one starts, also where goroutines
    share variables without a lock (the client map); stages of a start-up and
    handlers interleave freely.  In the histories of Cluster.v reads of the API
    server are current, a write on a stale version is refused, and other clients
    leave the finalizers and the CNI type of our objects alone.  [SocketLaws]
    supposes that nobody else changes the run directory between two calls.
    [NbServer] supposes that nobody else writes the database during an operation
    and that a command that fails did all of its work or none; the theorems on
    the database are about names and texts that ovn-nbctl takes as they are
    ([plain], [plain_network]).  [NbShared] lets others write between any two
    commands and during every wait; in NbWorkers.v these are creations of
    networks and additions of pods' ports, not deletions.  [RestServer] supposes
    that nobody else writes during a request.  [TrackerLaws] is what client-go
    documents of its object tracker, [SchemeWorld] what apimachinery does of its
    schemes; the library's metadata is a parameter of the JSON form.

    ** Not modelled

    The protobuf runtime; logging; the texts of the errors of encoding/json.  The scheduling of the manager's
    queue (a request that reports an error is taken to be retried) and the time
    that sleeps take.

    ** Limits

    Deletions by other writers of the northbound database while an operation is
    at work, other writers during one request at the API server, and the
    lock-free client map at the granularity of single accesses are outside the
    models above. *)

From stdpp Require Export base gmap strings list pretty.
From Stdlib Require Export Lia.

Declare Scope ovn_scope.
Delimit Scope ovn_scope with ovn.
Open Scope ovn_scope.

(** Let [simpl] evaluate string concatenation. *)
#[global] Arguments String.append : simpl nomatch.

(** ** Automation shared by every file

    [ovn] collects resolution hints, [ovn_rw] the rewrite rules that evaluate
    the string and event helpers. *)
Create HintDb ovn.
Create HintDb quiet.
Create Rewrite HintDb ovn_rw.

(** Split every conjunction and existential of the context, then simplify
    equations between constructors. *)
Ltac inv_all :=
  repeat match goal with
         | H : _ /\ _ |- _ => destruct H
         | H : exists _, _ |- _ => destruct H
         end; simplify_eq/=.

(** Case analysis on the scrutinee of the first [match] of the goal. *)
Ltac break_goal :=
  match goal with
  | |- context [match ?x with _ => _ end] =>
      lazymatch x with
      | context [match _ with _ => _ end] => fail
      | _ => let E := fresh "E" in destruct x eqn:E
      end
  end.

(** The same in a hypothesis. *)
Ltac break_hyp H :=
  match type of H with
  | context [match ?x with _ => _ end] =>
      lazymatch x with
      | context [match _ with _ => _ end] => fail
      | _ => let E := fresh "E" in destruct x eqn:E
      end
  end.

(** Go's [e1 == e2] on strings, as a boolean. *)
Notation "a == b" := (bool_decide (a = b)) (at level 70, no associativity) : ovn_scope.

(** ** Iteration order of a Go map

    The order in which [range] visits a map is chosen by the runtime.  The
    choice is a list of naturals read as successive picks among the remaining
    entries: any list of picks denotes a permutation, and every permutation is
    denoted by some list of picks. *)
Section pick_order.
Context {A : Type}.

Fixpoint pick_order_aux (n : nat) (picks : list nat) (l : list A) : list A :=
  match n with
  | 0 => l
  | S n' =>
      let k := Nat.modulo (hd 0 picks) (length l) in
      match l !! k with
      | Some x => x :: pick_order_aux n' (tail picks) (delete k l)
      | None => l
      end
  end.

Definition pick_order (picks : list nat) (l : list A) : list A :=
  pick_order_aux (length l) picks l.

Lemma pick_order_aux_perm n picks l : pick_order_aux n picks l ≡ₚ l.
Proof.
  revert picks l; induction n as [|n IH]; intros picks l; simpl; [done|].
  destruct (l !! _) as [x|] eqn:Hx; [|done].
  rewrite (IH _ (delete _ l)). by rewrite <- delete_Permutation.
Qed.

Lemma pick_order_perm picks l : pick_order picks l ≡ₚ l.
Proof. apply pick_order_aux_perm. Qed.

Lemma elem_of_pick_order picks l x : x ∈ pick_order picks l <-> x ∈ l.
Proof. by rewrite pick_order_perm. Qed.

Lemma pick_order_complete l l' :
  l' ≡ₚ l -> exists picks, pick_order picks l = l'.
Proof.
  unfold pick_order. revert l. induction l' as [|x l' IH]; intros l Hp.
  - apply Permutation_nil_l in Hp. subst. by exists [].
  - assert (Hin : x ∈ l) by (rewrite <- Hp; left).
    apply list_elem_of_lookup in Hin as [k Hk].
    assert (Hd : l' ≡ₚ delete k l).
    { apply (Permutation_cons_inv (a:=x)).
      by rewrite Hp, <- delete_Permutation. }
    destruct (IH _ Hd) as [picks Hpk]. exists (k :: picks).
    rewrite <- (Permutation_length Hp); simpl.
    assert (Hlt := lookup_lt_Some _ _ _ Hk).
    rewrite Nat.mod_small, Hk; [|done]. f_equal.
    by rewrite (Permutation_length Hd).
Qed.
End pick_order.

#[export] Hint Resolve pick_order_perm : ovn.
