(* ===== verification/GoStrings.v ===== *)
(** * GoStrings: the functions of Go's [strings] package that the program uses

    Strings are byte strings ([String.string]).  The functions that Go defines
    on runes ([ToLower], [EqualFold], [Fields], [TrimSpace]) are given on ASCII
    bytes, the alphabet of Kubernetes object names, OVN names and tool output;
    other bytes are neither letters nor white space.  [Split] and [Trim] are
    given at a one-byte separator or cutset, the only way the program calls
    them. *)

From S2P Require Import Prelude.
From Stdlib Require Import Ascii.

#[local] Open Scope string_scope.

(** ** Characters *)

Definition ascii_between (lo hi c : ascii) : bool :=
  (nat_of_ascii lo <=? nat_of_ascii c)%nat && (nat_of_ascii c <=? nat_of_ascii hi)%nat.

Definition is_digit : ascii -> bool := ascii_between "0" "9".
Definition is_upper : ascii -> bool := ascii_between "A" "Z".

(** ASCII white space: [\t \n \v \f \r] and the blank. *)
Definition is_space (c : ascii) : bool :=
  ascii_between "009" "013" c || Ascii.eqb c " ".

Definition lower_char (c : ascii) : ascii :=
  if is_upper c then ascii_of_nat (nat_of_ascii c + 32) else c.

(** ** Characters of a string, membership *)

Fixpoint string_forall (p : ascii -> bool) (s : string) : bool :=
  match s with
  | EmptyString => true
  | String c s' => p c && string_forall p s'
  end.

(** [free c s]: the character [c] does not occur in [s]. *)
Definition free (c : ascii) (s : string) : bool :=
  string_forall (fun d => negb (Ascii.eqb d c)) s.

(** ** The functions *)

Fixpoint HasPrefix (s p : string) {struct p} : bool :=
  match p, s with
  | EmptyString, _ => true
  | String a p', String b s' => Ascii.eqb a b && HasPrefix s' p'
  | String _ _, EmptyString => false
  end.

Fixpoint drop_string (n : nat) (s : string) : string :=
  match n, s with
  | S n', String _ s' => drop_string n' s'
  | _, _ => s
  end.

Fixpoint take_string (n : nat) (s : string) : string :=
  match n, s with
  | S n', String c s' => String c (take_string n' s')
  | _, _ => EmptyString
  end.

Fixpoint Contains (s sub : string) : bool :=
  HasPrefix s sub ||
  match s with
  | EmptyString => false
  | String _ s' => Contains s' sub
  end.

Fixpoint Split (s : string) (sep : ascii) : list string :=
  match s with
  | EmptyString => [EmptyString]
  | String c s' =>
      if Ascii.eqb c sep then EmptyString :: Split s' sep
      else match Split s' sep with
           | w :: ws => String c w :: ws
           | [] => [String c EmptyString]
           end
  end.

Fixpoint Join (l : list string) (sep : string) : string :=
  match l with
  | [] => EmptyString
  | [w] => w
  | w :: ws => w +:+ sep +:+ Join ws sep
  end.

Fixpoint string_rev_app (s acc : string) : string :=
  match s with
  | EmptyString => acc
  | String c s' => string_rev_app s' (String c acc)
  end.
Definition string_rev (s : string) : string := string_rev_app s EmptyString.

(** Drop the longest prefix whose characters satisfy [p]. *)
Fixpoint trim_left_fun (p : ascii -> bool) (s : string) : string :=
  match s with
  | String c s' => if p c then trim_left_fun p s' else s
  | EmptyString => EmptyString
  end.

(** Drop the longest suffix whose characters satisfy [p]. *)
Fixpoint trim_right_fun (p : ascii -> bool) (s : string) : string :=
  match s with
  | EmptyString => EmptyString
  | String c s' =>
      match trim_right_fun p s' with
      | EmptyString => if p c then EmptyString else String c EmptyString
      | t => String c t
      end
  end.

Definition TrimLeft (s : string) (cut : ascii) : string :=
  trim_left_fun (fun c => Ascii.eqb c cut) s.
Definition TrimRight (s : string) (cut : ascii) : string :=
  trim_right_fun (fun c => Ascii.eqb c cut) s.
Definition Trim (s : string) (cut : ascii) : string :=
  TrimRight (TrimLeft s cut) cut.
Definition TrimSpace (s : string) : string :=
  trim_right_fun is_space (trim_left_fun is_space s).

Definition TrimPrefix (s p : string) : string :=
  if HasPrefix s p then drop_string (String.length p) s else s.

(** Maximal runs of non-blank characters; [cur] is the run being read. *)
Fixpoint fields_aux (s cur : string) : list string :=
  match s with
  | EmptyString => match cur with EmptyString => [] | _ => [string_rev cur] end
  | String c s' =>
      if is_space c
      then match cur with
           | EmptyString => fields_aux s' EmptyString
           | _ => string_rev cur :: fields_aux s' EmptyString
           end
      else fields_aux s' (String c cur)
  end.
Definition Fields (s : string) : list string := fields_aux s EmptyString.

(** [strings.Replace(s, old, new, -1)] for a non-empty [old]; the fuel is the
    length of [s], which bounds the number of steps. *)
Fixpoint replace_aux (fuel : nat) (s old new : string) : string :=
  match fuel, s with
  | S n, String c s' =>
      if HasPrefix s old
      then new +:+ replace_aux n (drop_string (String.length old) s) old new
      else String c (replace_aux n s' old new)
  | _, _ => s
  end.
Definition ReplaceAll (s old new : string) : string :=
  replace_aux (String.length s) s old new.

Fixpoint ToLower (s : string) : string :=
  match s with
  | EmptyString => EmptyString
  | String c s' => String (lower_char c) (ToLower s')
  end.

Definition EqualFold (s t : string) : bool := (ToLower s == ToLower t)%ovn.

(** [fmt.Sprintf("%d", z)]. *)
Definition fmt_d (z : Z) : string := pretty z.

Definition hex_digit (n : nat) : ascii :=
  if (n <? 10)%nat then ascii_of_nat (48 + n) else ascii_of_nat (87 + n).

(** [fmt.Sprintf("%02x", b)] for a value [b] below 256. *)
Definition fmt_02x (b : Z) : string :=
  String (hex_digit (Z.to_nat (Z.modulo (Z.div b 16) 16)))
         (String (hex_digit (Z.to_nat (Z.modulo b 16))) EmptyString).

(** [fmt.Sprintf("%q", s)]: escapes of [strconv.Quote] for ASCII text; a byte
    above 127 is written as an invalid one. *)
Definition backslash : ascii := "092".
Definition quote_char (c : ascii) : string :=
  let n := nat_of_ascii c in
  let esc (d : ascii) := String backslash (String d EmptyString) in
  if (n =? 34)%nat || (n =? 92)%nat then esc c
  else if (32 <=? n)%nat && (n <=? 126)%nat then String c EmptyString
  else if (n =? 7)%nat then esc "a"%char else if (n =? 8)%nat then esc "b"%char
  else if (n =? 12)%nat then esc "f"%char else if (n =? 10)%nat then esc "n"%char
  else if (n =? 13)%nat then esc "r"%char else if (n =? 9)%nat then esc "t"%char
  else if (n =? 11)%nat then esc "v"%char
  else esc "x"%char +:+ fmt_02x (Z.of_nat n).
Fixpoint quote_chars (s : string) : string :=
  match s with EmptyString => EmptyString | String c s' => quote_char c +:+ quote_chars s' end.
Definition Quote (s : string) : string :=
  String "034" (quote_chars s +:+ String "034" EmptyString).

(** ** Lemmas *)

Lemma append_assoc (a b c : string) : (a +:+ b) +:+ c = a +:+ (b +:+ c).
Proof. induction a as [|x a IH]; simpl; [done|]. by rewrite IH. Qed.

Lemma append_empty_r (a : string) : a +:+ "" = a.
Proof. induction a as [|x a IH]; simpl; [done|]. by rewrite IH. Qed.

Lemma string_forall_app p a b :
  string_forall p (a +:+ b) = string_forall p a && string_forall p b.
Proof.
  induction a as [|x a IH]; simpl; [done|]. rewrite IH. by destruct (p x).
Qed.

Lemma free_app c a b : free c (a +:+ b) = free c a && free c b.
Proof. apply string_forall_app. Qed.

Lemma HasPrefix_app p s : HasPrefix (p +:+ s) p = true.
Proof. induction p as [|x p IH]; simpl; [done|]. by rewrite Ascii.eqb_refl. Qed.

Lemma HasPrefix_spec s p : HasPrefix s p = true <-> exists t, s = p +:+ t.
Proof.
  split; [|intros [t ->]; apply HasPrefix_app].
  revert s; induction p as [|x p IH]; intros s; simpl; [by eexists|].
  destruct s as [|y s]; [done|]. intros [Hxy Hp]%andb_true_iff.
  apply Ascii.eqb_eq in Hxy as ->. destruct (IH _ Hp) as [t ->]. by exists t.
Qed.

(** [Contains] decides the substring relation. *)
Lemma Contains_spec s sub :
  Contains s sub = true <-> exists a b, s = a +:+ sub +:+ b.
Proof.
  split.
  - induction s as [|x s IH]; simpl; rewrite orb_true_iff; intros [H|H].
    + apply HasPrefix_spec in H as [t Ht]. by exists "", t.
    + done.
    + apply HasPrefix_spec in H as [t Ht]. by exists "", t.
    + destruct (IH H) as (a & b & ->). by exists (String x a), b.
  - intros (a & b & ->). induction a as [|x a IH].
    + change ("" +:+ sub +:+ b) with (sub +:+ b).
      destruct (sub +:+ b) eqn:E; simpl; rewrite <- E, HasPrefix_app; done.
    + cbn [String.append Contains]. rewrite IH. by rewrite orb_true_r.
Qed.

Lemma Contains_refl s : Contains s s = true.
Proof. apply Contains_spec. exists "", "". by rewrite append_empty_r. Qed.

Lemma Split_not_nil s sep : Split s sep <> [].
Proof. destruct s as [|c s]; simpl; [done|]. by repeat case_match. Qed.

(** Splitting in front of a separator-free word. *)
Lemma Split_cons w s sep :
  free sep w = true -> Split (w +:+ String sep s) sep = w :: Split s sep.
Proof.
  unfold free. induction w as [|x w IH]; simpl.
  - by rewrite Ascii.eqb_refl.
  - intros [Hx Hw]%andb_true_iff. apply negb_true_iff in Hx.
    by rewrite Hx, (IH Hw).
Qed.

Lemma Split_free w sep : free sep w = true -> Split w sep = [w].
Proof.
  unfold free. induction w as [|x w IH]; simpl; [done|].
  intros [Hx Hw]%andb_true_iff. apply negb_true_iff in Hx.
  by rewrite Hx, (IH Hw).
Qed.

(** [Split] inverts [Join] on separator-free words. *)
Lemma Split_Join sep ws :
  ws <> [] -> Forall (fun w => free sep w = true) ws ->
  Split (Join ws (String sep "")) sep = ws.
Proof.
  induction ws as [|w ws IH]; [done|]. intros _ [Hw Hws]%Forall_cons.
  destruct ws as [|w' ws]; [by apply Split_free|].
  change (Join (w :: w' :: ws) (String sep ""))
    with (w +:+ String sep (Join (w' :: ws) (String sep ""))).
  rewrite Split_cons by done. by rewrite IH.
Qed.

Lemma trim_left_id p s :
  match s with EmptyString => True | String c _ => p c = false end ->
  trim_left_fun p s = s.
Proof. destruct s; simpl; [done|]. by intros ->. Qed.

Lemma trim_left_forall p s :
  string_forall (fun c => negb (p c)) s = true -> trim_left_fun p s = s.
Proof.
  destruct s as [|c s]; simpl; [done|].
  intros [Hc _]%andb_true_iff. apply negb_true_iff in Hc. by rewrite Hc.
Qed.

Lemma trim_right_forall p s :
  string_forall (fun c => negb (p c)) s = true -> trim_right_fun p s = s.
Proof.
  induction s as [|c s IH]; simpl; [done|].
  intros [Hc Hs]%andb_true_iff. apply negb_true_iff in Hc.
  rewrite (IH Hs), Hc. by destruct s.
Qed.

(** Words without blanks are fixed by [TrimSpace]. *)
Definition no_space (s : string) : bool :=
  string_forall (fun c => negb (is_space c)) s.

Lemma TrimSpace_no_space s : no_space s = true -> TrimSpace s = s.
Proof.
  intros H. unfold TrimSpace.
  rewrite (trim_left_forall is_space s H). by apply trim_right_forall.
Qed.

Lemma trim_left_app p a b :
  string_forall p a = true -> trim_left_fun p (a +:+ b) = trim_left_fun p b.
Proof.
  induction a as [|c a IH]; simpl; [done|].
  intros [Hc Ha]%andb_true_iff. by rewrite Hc, IH.
Qed.

Lemma trim_right_app p a b :
  string_forall p b = true -> trim_right_fun p (a +:+ b) = trim_right_fun p a.
Proof.
  intros Hb. induction a as [|c a IH]; simpl; [|by rewrite IH].
  induction b as [|d b IHb]; simpl in *; [done|].
  apply andb_true_iff in Hb as [Hd Hb]. by rewrite (IHb Hb), Hd.
Qed.

Lemma length_append a b :
  String.length (a +:+ b) = (String.length a + String.length b)%nat.
Proof. induction a as [|x a IH]; simpl; [done|]. by rewrite IH. Qed.

Lemma take_string_app a b : take_string (String.length a) (a +:+ b) = a.
Proof. induction a as [|c a IH]; simpl; [by destruct b|]. by rewrite IH. Qed.

Lemma lower_char_idemp c : lower_char (lower_char c) = lower_char c.
Proof. by destruct c as [[] [] [] [] [] [] [] []]. Qed.

Lemma ToLower_idemp s : ToLower (ToLower s) = ToLower s.
Proof. induction s as [|c s IH]; simpl; [done|]. by rewrite lower_char_idemp, IH. Qed.

Lemma EqualFold_lower s t : ToLower s = ToLower t -> EqualFold s t = true.
Proof. intros H. unfold EqualFold. by apply bool_decide_eq_true. Qed.

(** Every element followed by the separator: what a loop that appends builds. *)
Definition Terminated (l : list string) (sep : string) : string :=
  foldr (fun w acc => w +:+ sep +:+ acc) "" l.

Lemma Terminated_snoc l w sep : Terminated (l ++ [w])%list sep = Terminated l sep +:+ w +:+ sep.
Proof.
  induction l as [|x l IH]; simpl; [by rewrite append_empty_r|]. by rewrite IH, !append_assoc.
Qed.

Lemma Terminated_Join l sep : l <> [] -> Terminated l sep = Join l sep +:+ sep.
Proof.
  induction l as [|x l IH]; [done|]. intros _. destruct l as [|y l]; simpl; [by rewrite append_empty_r|].
  simpl in IH. rewrite IH by done. by rewrite !append_assoc.
Qed.

#[export] Hint Resolve Split_not_nil TrimSpace_no_space : ovn.
