(* ===== verification/GoNet.v ===== *)
(** * GoNet: the part of Go's [net] and [math/big] packages that the program uses

    An [IP] is a list of bytes (integers in [0, 256)) as in Go: 4 bytes, 16
    bytes, or any other length when it is built from raw bytes.  The parsers
    and printers are those of Go 1.14, the release of the build images
    (a leading zero in an IPv4 octet is accepted). *)

From S2P Require Import Prelude.
From S2P Require Import GoStrings.
From Stdlib Require Import Ascii.

#[local] Open Scope Z_scope.

Definition is_byte (b : Z) : Prop := 0 <= b < 256.
#[global] Arguments is_byte _ /.

Definition digit_val (c : ascii) : Z := Z.of_nat (nat_of_ascii c) - 48.

(** [big = 0xFFFFFF], the bound above which the number readers fail. *)
Definition dtoi_big : Z := 16777215.

Fixpoint dtoi_aux (n : Z) (s : string) : option (Z * string) :=
  match s with
  | String c s' =>
      if is_digit c then
        let n' := n * 10 + digit_val c in
        if dtoi_big <=? n' then None else dtoi_aux n' s'
      else Some (n, s)
  | EmptyString => Some (n, s)
  end.

(** Decimal number at the head of [s] and the rest of the string. *)
Definition dtoi (s : string) : option (Z * string) :=
  match s with
  | String c _ => if is_digit c then dtoi_aux 0 s else None
  | EmptyString => None
  end.

Definition hex_val (c : ascii) : option Z :=
  if is_digit c then Some (digit_val c)
  else if ascii_between "a" "f" c then Some (Z.of_nat (nat_of_ascii c) - 87)
  else if ascii_between "A" "F" c then Some (Z.of_nat (nat_of_ascii c) - 55)
  else None.

Fixpoint xtoi_aux (n : Z) (s : string) : option (Z * string) :=
  match s with
  | String c s' =>
      match hex_val c with
      | Some v => let n' := n * 16 + v in
                  if dtoi_big <=? n' then None else xtoi_aux n' s'
      | None => Some (n, s)
      end
  | EmptyString => Some (n, s)
  end.

Definition xtoi (s : string) : option (Z * string) :=
  match s with
  | String c _ => match hex_val c with Some _ => xtoi_aux 0 s | None => None end
  | EmptyString => None
  end.

Definition v4InV6Prefix : list Z := [0;0;0;0;0;0;0;0;0;0;255;255].

(** The remaining [k] octets; [first] tells that no dot is expected yet. *)
Fixpoint parse_octets (k : nat) (first : bool) (s : string) : option (list Z) :=
  match k with
  | O => match s with EmptyString => Some [] | _ => None end
  | S k' =>
      let s1 := if first then Some s
                else match s with
                     | String c r => if Ascii.eqb c "." then Some r else None
                     | EmptyString => None
                     end in
      s1 ≫= fun s1 => dtoi s1 ≫= fun '(n, r) =>
      if 255 <? n then None
      else parse_octets k' false r ≫= fun l => Some (n :: l)
  end.

Definition parseIPv4 (s : string) : option (list Z) :=
  parse_octets 4 true s ≫= fun l => Some (v4InV6Prefix ++ l).

(** One round of the IPv6 loop per 16-bit group.  [acc] holds the bytes read,
    [ell] the position of the ellipsis; the result is the bytes read, the
    ellipsis and the unread text. *)
Fixpoint parse_groups (k : nat) (acc : list Z) (ell : option nat) (s : string)
  : option (list Z * option nat * string) :=
  match k with
  | O => Some (acc, ell, s)
  | S k' =>
      xtoi s ≫= fun '(n, r) =>
      if 65535 <? n then None else
      match r with
      | String "." _ =>
          if bool_decide (ell = None) && negb (bool_decide (length acc = 12%nat)) then None
          else if (12 <? Z.of_nat (length acc)) then None
          else parse_octets 4 true s ≫= fun l => Some (acc ++ l, ell, EmptyString)
      | _ =>
          let acc' := acc ++ [Z.div n 256; Z.modulo n 256] in
          match r with
          | EmptyString => Some (acc', ell, EmptyString)
          | String c r1 =>
              if negb (Ascii.eqb c ":") then None else
              match r1 with
              | EmptyString => None
              | String c1 r2 =>
                  if Ascii.eqb c1 ":" then
                    if bool_decide (ell <> None) then None
                    else match r2 with
                         | EmptyString => Some (acc', Some (length acc'), EmptyString)
                         | _ => parse_groups k' acc' (Some (length acc')) r2
                         end
                  else parse_groups k' acc' ell r1
              end
          end
      end
  end.

Definition expand_ellipsis (acc : list Z) (ell : option nat) : option (list Z) :=
  if bool_decide (length acc < 16)%nat then
    match ell with
    | None => None
    | Some e => Some (take e acc ++ replicate (16 - length acc) 0 ++ drop e acc)
    end
  else if bool_decide (ell = None) then Some acc else None.

Definition parseIPv6 (s : string) : option (list Z) :=
  let '(ell, s1) := match s with
                    | String ":" (String ":" r) => (Some 0%nat, r)
                    | _ => (None, s)
                    end in
  match ell, s1 with
  | Some _, EmptyString => Some (replicate 16 0)
  | _, _ => parse_groups 8 [] ell s1 ≫= fun '(acc, ell', rest) =>
            match rest with
            | EmptyString => expand_ellipsis acc ell'
            | _ => None
            end
  end.

(** [net.ParseIP]: the first dot or colon decides the format. *)
Fixpoint parse_ip_kind (whole s : string) : option (list Z) :=
  match s with
  | EmptyString => None
  | String c s' =>
      if Ascii.eqb c "." then parseIPv4 whole
      else if Ascii.eqb c ":" then parseIPv6 whole
      else parse_ip_kind whole s'
  end.
Definition ParseIP (s : string) : option (list Z) := parse_ip_kind s s.

(** [net.CIDRMask]. *)
Fixpoint CIDRMask (n : nat) (len : nat) : list Z :=
  match len with
  | O => []
  | S len' => if (8 <=? n)%nat then 255 :: CIDRMask (n - 8) len'
              else (256 - 2 ^ (8 - Z.of_nat n)) :: CIDRMask 0 len'
  end.

(** Leading one bits of a byte, or [None] when the ones are not a prefix. *)
Definition byte_ones (v : Z) : option Z :=
  list_find (fun k => v = 256 - 2 ^ (8 - k)) [0;1;2;3;4;5;6;7;8] ≫= fun r => Some r.2.

Fixpoint simpleMaskLength (m : list Z) : option Z :=
  match m with
  | [] => Some 0
  | v :: m' =>
      if v == 255 then (fun n => n + 8) <$> simpleMaskLength m'
      else byte_ones v ≫= fun k =>
           if forallb (fun x => x == 0) m' then Some k else None
  end.

(** The [ones] result of [IPMask.Size]. *)
Definition Mask_ones (m : list Z) : Z := default 0 (simpleMaskLength m).

Definition To4 (ip : list Z) : option (list Z) :=
  if bool_decide (length ip = 4%nat) then Some ip
  else if bool_decide (length ip = 16%nat) && (take 12 ip == v4InV6Prefix)
       then Some (drop 12 ip) else None.

Definition To16 (ip : list Z) : option (list Z) :=
  if bool_decide (length ip = 4%nat) then Some (v4InV6Prefix ++ ip)
  else if bool_decide (length ip = 16%nat) then Some ip else None.

(** [IP.Mask]; [None] is the nil address. *)
Definition IP_Mask (ip mask : list Z) : option (list Z) :=
  let mask := if bool_decide (length mask = 16%nat) && bool_decide (length ip = 4%nat)
                 && (take 12 mask == replicate 12 255) then drop 12 mask else mask in
  let ip := if bool_decide (length mask = 4%nat) && bool_decide (length ip = 16%nat)
               && (take 12 ip == v4InV6Prefix) then drop 12 ip else ip in
  if bool_decide (length ip = length mask) then Some (zip_with Z.land ip mask) else None.

Record IPNet := { net_ip : list Z; net_mask : list Z }.

Fixpoint split_slash (s : string) : option (string * string) :=
  match s with
  | EmptyString => None
  | String c s' => if Ascii.eqb c "/" then Some (EmptyString, s')
                   else split_slash s' ≫= fun '(a, b) => Some (String c a, b)
  end.

(** [net.ParseCIDR]; [None] is a [ParseError]. *)
Definition ParseCIDR (s : string) : option (list Z * IPNet) :=
  split_slash s ≫= fun '(addr, mask) =>
  let '(iplen, ip) := match parseIPv4 addr with
                      | Some ip => (4%nat, Some ip)
                      | None => (16%nat, parseIPv6 addr)
                      end in
  ip ≫= fun ip => dtoi mask ≫= fun '(n, rest) =>
  if negb (rest == EmptyString) || (8 * Z.of_nat iplen <? n) then None else
  let m := CIDRMask (Z.to_nat n) iplen in
  Some (ip, {| net_ip := default [] (IP_Mask ip m); net_mask := m |}).

(** ** Printing *)

Definition ubtoa (b : Z) : string := fmt_d b.

Definition hexString (ip : list Z) : string := foldr (fun b s => fmt_02x b +:+ s) EmptyString ip.

(** Lower-case hexadecimal without leading zeros, for a 16-bit group. *)
Definition appendHex (n : Z) : string :=
  let ds := [Z.div n 4096; Z.div n 256 mod 16; Z.div n 16 mod 16; n mod 16] in
  let fix strip (l : list Z) : list Z :=
    match l with
    | [d] => [d]
    | d :: l' => if d == 0 then strip l' else l
    | [] => []
    end in
  foldr (fun d s => String (hex_digit (Z.to_nat d)) s) EmptyString (strip ds).

Fixpoint groups_of (ip : list Z) : list Z :=
  match ip with
  | a :: b :: r => (a * 256 + b) :: groups_of r
  | _ => []
  end.

(** Length of the zero run at the head. *)
Fixpoint zero_run (gs : list Z) : nat :=
  match gs with
  | g :: gs' => if g == 0 then S (zero_run gs') else O
  | [] => O
  end.

(** First longest run of zero groups: start and length. *)
Fixpoint best_run (i : nat) (gs : list Z) (best : nat * nat) : nat * nat :=
  match gs with
  | [] => best
  | _ :: gs' =>
      let r := zero_run gs in
      best_run (S i) gs' (if (best.2 <? r)%nat then (i, r) else best)
  end.

Fixpoint print_groups (sep : bool) (gs : list Z) : string :=
  match gs with
  | [] => EmptyString
  | g :: gs' => (if sep then ":" else "") +:+ appendHex g +:+ print_groups true gs'
  end.

Definition print_ipv6 (ip : list Z) : string :=
  let gs := groups_of ip in
  let '(e0, len) := best_run 0 gs (0%nat, 0%nat) in
  if (len <=? 1)%nat then print_groups false gs
  else print_groups false (take e0 gs) +:+ "::" +:+ print_groups false (drop (e0 + len) gs).

(** [IP.String]. *)
Definition IP_String (ip : list Z) : string :=
  if bool_decide (ip = []) then "<nil>" else
  match To4 ip with
  | Some [a; b; c; d] =>
      ubtoa a +:+ "." +:+ ubtoa b +:+ "." +:+ ubtoa c +:+ "." +:+ ubtoa d
  | _ => if negb (bool_decide (length ip = 16%nat)) then "?" +:+ hexString ip
         else print_ipv6 ip
  end.

(** ** [math/big]: an integer from and to big-endian bytes *)

Definition SetBytes (l : list Z) : Z := foldl (fun acc b => acc * 256 + b) 0 l.

Fixpoint int_bytes (fuel : nat) (z : Z) (acc : list Z) : list Z :=
  match fuel with
  | O => acc
  | S n => if z <=? 0 then acc else int_bytes n (z / 256) (z mod 256 :: acc)
  end.

(** [Int.Bytes]: the minimal representation.  The fuel is a bound on the
    number of bytes of [z]. *)
Definition Bytes (z : Z) : list Z := int_bytes (S (Z.to_nat (Z.log2 z))) z [].

(** ** Hardware addresses: [net.ParseMAC] and [HardwareAddr.String] *)

(** [xtoi2 s e]: the two hexadecimal digits at the start of [s]; a third
    character must be [e]. *)
Definition xtoi2 (s : string) (e : ascii) : option Z :=
  match s with
  | String a (String b rest) =>
      if match rest with String c _ => negb (Ascii.eqb c e) | EmptyString => false end then None
      else match hex_val a, hex_val b with
           | Some x, Some y => Some (x * 16 + y)
           | _, _ => None
           end
  | _ => None
  end.

(** [n] groups of two digits, three characters apart. *)
Fixpoint mac_pairs (n : nat) (s : string) (sep : ascii) : option (list Z) :=
  match n with
  | O => Some []
  | S n' => b ← xtoi2 s sep; bs ← mac_pairs n' (drop_string 3 s) sep; Some (b :: bs)
  end.

(** [n] groups of four digits, five characters apart. *)
Fixpoint mac_quads (n : nat) (s : string) (sep : ascii) : option (list Z) :=
  match n with
  | O => Some []
  | S n' =>
      b ← xtoi2 (take_string 2 s) "000";
      c ← xtoi2 (drop_string 2 s) sep;
      bs ← mac_quads n' (drop_string 5 s) sep;
      Some (b :: c :: bs)
  end.

Definition mac_length (n : nat) : bool := ((n =? 6) || (n =? 8) || (n =? 20))%nat.

(** [s[i]]. *)
Definition char_at (i : nat) (s : string) : ascii :=
  match drop_string i s with String c _ => c | EmptyString => "000" end.

Definition ParseMAC (s : string) : option (list Z) :=
  let len := String.length s in
  if (len <? 14)%nat then None
  else if Ascii.eqb (char_at 2 s) ":" || Ascii.eqb (char_at 2 s) "-" then
    let n := ((len + 1) / 3)%nat in
    if negb ((len + 1) mod 3 =? 0)%nat || negb (mac_length n) then None
    else mac_pairs n s (char_at 2 s)
  else if Ascii.eqb (char_at 4 s) "." then
    let n := (2 * (len + 1) / 5)%nat in
    if negb ((len + 1) mod 5 =? 0)%nat || negb (mac_length n) then None
    else mac_quads (n / 2) s (char_at 4 s)
  else None.

Definition HardwareAddr_String (hw : list Z) : string := Join (map fmt_02x hw) ":".

Example ParseMAC_colon : ParseMAC "0a:00:00:0F:00:01" = Some [10; 0; 0; 15; 0; 1].
Proof. vm_compute. reflexivity. Qed.
Example ParseMAC_dot : HardwareAddr_String <$> ParseMAC "0a00.000f.0001" = Some "0a:00:00:0f:00:01".
Proof. vm_compute. reflexivity. Qed.
