(* ===== verification/Addressing.v ===== *)
(** * Addressing: [NextIP], [ipToInt] and [intToIP] of internal/pkg/ovn/common.go,
    and the gateway address that [createOvnLS] gives to a logical switch. *)

From S2P Require Import Prelude.
From S2P Require Import GoStrings.
From S2P Require Import GoNet.
From Stdlib Require Import Ascii.

#[local] Open Scope Z_scope.

(** ** Definitions *)

(** [ipToInt] reads the 4-byte form when there is one, else the 16-byte form
    ([To16] of an address of any other length is nil, the integer 0). *)
Definition ipToInt (ip : list Z) : Z :=
  match To4 ip with
  | Some v => SetBytes v
  | None => SetBytes (default [] (To16 ip))
  end.

Definition intToIP (i : Z) : list Z := Bytes i.

Definition NextIP (ip : list Z) : list Z := intToIP (ipToInt ip + 1).

(** The address part of [createOvnLS]: the configured gateway as a CIDR or a
    plain address, else the first address of the subnet; always with the
    prefix length of the subnet. *)
Definition gateway_ip (gatewayIP : string) : option (list Z) :=
  if gatewayIP == "" then None
  else match ParseCIDR gatewayIP with
       | Some (gwIP, _) => Some gwIP
       | None => ParseIP gatewayIP
       end.

Definition gateway_ip_mask (cidr : IPNet) (gatewayIP : string) : string :=
  let firstIP := NextIP (net_ip cidr) in
  let n := Mask_ones (net_mask cidr) in
  match gateway_ip gatewayIP with
  | None => IP_String firstIP +:+ "/" +:+ fmt_d n
  | Some gwIP => IP_String gwIP +:+ "/" +:+ fmt_d n
  end.

(** ** Bytes and integers *)

Lemma foldl_base l acc :
  foldl (fun acc b => acc * 256 + b) acc l = acc * 256 ^ Z.of_nat (length l) + SetBytes l.
Proof.
  unfold SetBytes. revert acc. induction l as [|b l IH]; intros acc.
  - simpl. lia.
  - cbn [foldl]. rewrite IH, (IH (0 * 256 + b)). cbn [length].
    rewrite Nat2Z.inj_succ, Z.pow_succ_r by lia. ring.
Qed.

Lemma SetBytes_snoc l b : SetBytes (l ++ [b]) = SetBytes l * 256 + b.
Proof. unfold SetBytes. by rewrite foldl_app. Qed.

Lemma SetBytes_nonneg l : Forall is_byte l -> 0 <= SetBytes l.
Proof.
  induction l as [|b l IH] using rev_ind; [done|].
  rewrite SetBytes_snoc, Forall_app, Forall_singleton. intros [Hl Hb].
  specialize (IH Hl). simpl in Hb. lia.
Qed.

Lemma SetBytes_pos b l :
  0 < b -> Forall is_byte l -> 0 < SetBytes (b :: l).
Proof.
  intros Hb Hl. unfold SetBytes. cbn [foldl]. rewrite foldl_base.
  assert (0 <= SetBytes l) by by apply SetBytes_nonneg.
  assert (0 < 256 ^ Z.of_nat (length l)) by (apply Z.pow_pos_nonneg; lia). nia.
Qed.

Lemma int_bytes_SetBytes l acc fuel :
  Forall is_byte l -> (match l with b :: _ => 0 < b | [] => True end) ->
  (length l <= fuel)%nat -> int_bytes fuel (SetBytes l) acc = l ++ acc.
Proof.
  revert acc fuel. induction l as [|b l IH] using rev_ind; intros acc fuel Hl Hhd Hf.
  - by destruct fuel.
  - rewrite length_app in Hf. simpl in Hf. destruct fuel as [|fuel]; [lia|].
    rewrite Forall_app, Forall_singleton in Hl. destruct Hl as [Hl Hb]. simpl in Hb.
    assert (Hpos : 0 < SetBytes (l ++ [b])).
    { destruct l as [|c l]; [by apply SetBytes_pos|].
      apply SetBytes_pos; [done|].
      apply Forall_cons in Hl as [_ Hl]. apply Forall_app. split; [done|].
      by apply Forall_singleton. }
    cbn [int_bytes]. rewrite (proj2 (Z.leb_gt _ _) Hpos).
    rewrite SetBytes_snoc. rewrite Z.div_add_l, Z.div_small, Z.add_0_r by lia.
    rewrite (Z.add_comm (_ * _)), Z.mod_add, Z.mod_small by lia.
    rewrite IH; [by rewrite <- app_assoc|done| |lia].
    by destruct l.
Qed.

Lemma SetBytes_lower b l :
  0 < b -> Forall is_byte l -> 256 ^ Z.of_nat (length l) <= SetBytes (b :: l).
Proof.
  intros Hb Hl. unfold SetBytes. cbn [foldl]. rewrite foldl_base.
  assert (0 <= SetBytes l) by by apply SetBytes_nonneg.
  assert (0 < 256 ^ Z.of_nat (length l)) by (apply Z.pow_pos_nonneg; lia). nia.
Qed.

(** [Bytes] inverts [SetBytes] on byte strings without a leading zero. *)
Lemma Bytes_SetBytes b l :
  0 < b -> Forall is_byte (b :: l) -> Bytes (SetBytes (b :: l)) = b :: l.
Proof.
  intros Hb Hl. unfold Bytes. rewrite int_bytes_SetBytes; [by rewrite app_nil_r|done|done|].
  apply Forall_cons in Hl as [_ Hl].
  assert (H := Z.log2_le_mono _ _ (SetBytes_lower b l Hb Hl)).
  replace 256 with (2 ^ 8) in H by done. rewrite <- Z.pow_mul_r in H by lia.
  rewrite Z.log2_pow2 in H by lia. cbn [length]. lia.
Qed.

(** Splitting the integer of a dotted quad. *)
Lemma SetBytes_quad a b c d :
  SetBytes [a; b; c; d] = ((a * 256 + b) * 256 + c) * 256 + d.
Proof. unfold SetBytes. simpl. lia. Qed.

Lemma quad_bytes z :
  0 <= z < 2 ^ 32 ->
  exists a b c d, Forall is_byte [a; b; c; d] /\ SetBytes [a; b; c; d] = z.
Proof.
  intros Hz.
  exists (z / 256 / 256 / 256), (z / 256 / 256 mod 256), (z / 256 mod 256), (z mod 256).
  rewrite SetBytes_quad. split; [repeat constructor|]; simpl;
  Z.to_euclidean_division_equations; lia.
Qed.

(** ** [NextIP] *)

Lemma ipToInt_v4 a b c d : ipToInt [a; b; c; d] = SetBytes [a; b; c; d].
Proof. done. Qed.

(** Successor of a quad, as a quad, when it neither overflows nor loses its
    leading byte. *)
Lemma NextIP_quad a b c d :
  Forall is_byte [a; b; c; d] -> 1 <= a -> SetBytes [a; b; c; d] < 2 ^ 32 - 1 ->
  exists a' b' c' d', NextIP [a; b; c; d] = [a'; b'; c'; d'] /\
    Forall is_byte [a'; b'; c'; d'] /\
    SetBytes [a'; b'; c'; d'] = SetBytes [a; b; c; d] + 1.
Proof.
  intros Hb Ha Hlt. assert (H0 := SetBytes_nonneg _ Hb).
  destruct (quad_bytes (SetBytes [a; b; c; d] + 1)) as (a' & b' & c' & d' & Hb' & He); [lia|].
  exists a', b', c', d'. split; [|done]. unfold NextIP, intToIP.
  rewrite ipToInt_v4, <- He. apply Bytes_SetBytes; [|done].
  rewrite !SetBytes_quad in He. rewrite !Forall_cons in Hb, Hb'. simpl in *. lia.
Qed.

(** ** Masks *)

(** Anding a byte with the mask of its first [8 - k] bits rounds it down. *)
Lemma land_mask_byte v k :
  is_byte v -> 0 <= k <= 8 -> Z.land v (256 - 2 ^ k) = v - v mod 2 ^ k.
Proof.
  intros Hv Hk.
  assert (H : forallb (fun v => forallb (fun k => Z.eqb (Z.land v (256 - 2 ^ k)) (v - v mod 2 ^ k))
                         (seqZ 0 9)) (seqZ 0 256) = true) by (vm_compute; reflexivity).
  rewrite forallb_forall in H. specialize (H v).
  rewrite forallb_forall in H. apply Z.eqb_eq, H; apply list_elem_of_In, elem_of_seqZ; simpl in Hv; lia.
Qed.

Lemma CIDRMask_length n len : length (CIDRMask n len) = len.
Proof.
  revert n. induction len as [|len IH]; intros n; cbn [CIDRMask]; [done|].
  case_match; simpl; by rewrite IH.
Qed.

#[local] Arguments CIDRMask : simpl never.

(** The four mask bytes of a /n, by exhausting [n]. *)
Lemma CIDRMask_bytes n :
  (n <= 32)%nat ->
  exists k1 k2 k3 k4, CIDRMask n 4 = [256 - 2 ^ k1; 256 - 2 ^ k2; 256 - 2 ^ k3; 256 - 2 ^ k4]
    /\ 0 <= k1 <= 8 /\ 0 <= k2 <= 8 /\ 0 <= k3 <= 8 /\ 0 <= k4 <= 8
    /\ ((n <= 31)%nat -> 1 <= k4) /\ Mask_ones (CIDRMask n 4) = Z.of_nat n.
Proof.
  intros Hn.
  exists (8 - Z.min 8 (Z.of_nat n)), (8 - Z.min 8 (Z.max 0 (Z.of_nat n - 8))),
    (8 - Z.min 8 (Z.max 0 (Z.of_nat n - 16))), (8 - Z.min 8 (Z.max 0 (Z.of_nat n - 24))).
  do 33 (destruct n as [|n]; [vm_compute; intuition (try lia; try discriminate)|]). lia.
Qed.

Lemma IP_Mask_quad a b c d m :
  length m = 4%nat -> IP_Mask [a; b; c; d] m = Some (zip_with Z.land [a; b; c; d] m).
Proof. intros Hm. unfold IP_Mask. rewrite Hm. simpl. by rewrite Hm. Qed.

Lemma IP_Mask_v4in6 a b c d m :
  length m = 4%nat ->
  IP_Mask (v4InV6Prefix ++ [a; b; c; d]) m = Some (zip_with Z.land [a; b; c; d] m).
Proof. destruct m as [|? [|? [|? [|? [|]]]]]; try done. Qed.

(** The first address of a network of prefix length at most 31: it stays in
    the network, and is the network address plus one. *)
Lemma NextIP_in_network a b c d n :
  Forall is_byte [a; b; c; d] -> 1 <= a -> (n <= 31)%nat ->
  IP_Mask [a; b; c; d] (CIDRMask n 4) = Some [a; b; c; d] ->
  NextIP [a; b; c; d] = [a; b; c; d + 1] /\ d + 1 < 256 /\
  IP_Mask [a; b; c; d + 1] (CIDRMask n 4) = Some [a; b; c; d].
Proof.
  intros Hb Ha Hn.
  destruct (CIDRMask_bytes n) as (k1 & k2 & k3 & k4 & Hm & H1 & H2 & H3 & H4 & H31 & _); [lia|].
  specialize (H31 Hn). rewrite !IP_Mask_quad by by rewrite CIDRMask_length.
  rewrite Hm. cbn [zip_with]. intros [= E1 E2 E3 E4].
  rewrite !Forall_cons in Hb. simpl in Hb.
  rewrite land_mask_byte in E4 by (simpl; lia).
  assert (Hd0 : d mod 2 ^ k4 = 0) by lia.
  assert (Hp : 2 <= 2 ^ k4) by (apply (Z.pow_le_mono_r 2 1 k4); lia).
  assert (Hp8 : 2 ^ k4 <= 256) by (apply (Z.pow_le_mono_r 2 k4 8); lia).
  assert (Hd1 : (d + 1) mod 2 ^ k4 = 1).
  { rewrite Z.add_mod by lia. rewrite Hd0, Z.add_0_l, Z.mod_mod, Z.mod_small by lia. done. }
  assert (Hd : d + 1 < 256).
  { assert (d <> 255); [|lia]. intros ->.
    assert (Hdiv : 256 mod 2 ^ k4 = 0).
    { change 256 with (2 ^ 8). replace 8 with ((8 - k4) + k4) by lia.
      rewrite Z.pow_add_r by lia. apply Z.mod_mul. lia. }
    change 256 with (255 + 1) in Hdiv. lia. }
  split; [|split; [done|]].
  - unfold NextIP, intToIP. rewrite ipToInt_v4.
    replace (SetBytes [a; b; c; d] + 1) with (SetBytes [a; b; c; d + 1])
      by (rewrite !SetBytes_quad; lia).
    apply Bytes_SetBytes; [lia|]. repeat constructor; simpl; lia.
  - rewrite E1, E2, E3. rewrite land_mask_byte by (simpl; lia).
    rewrite Hd1. do 4 f_equal. f_equal. lia.
Qed.

(** ** Printing and parsing dotted quads *)

Definition starts_with_digit (s : string) : bool :=
  match s with String c _ => is_digit c | EmptyString => false end.

Lemma dtoi_aux_app n s m rest :
  dtoi_aux n s = Some (m, "") -> starts_with_digit rest = false ->
  dtoi_aux n (s +:+ rest) = Some (m, rest).
Proof.
  intros H Hr. revert n H. induction s as [|c s IH]; intros n; simpl.
  - intros [= <-]. destruct rest as [|c rest]; simpl in *; [done|]. by rewrite Hr.
  - repeat case_match; try done. apply IH.
Qed.

Definition dec_ok (b : Z) : bool :=
  match dtoi (ubtoa b) with
  | Some (m, r) => Z.eqb m b && (r == "") && starts_with_digit (ubtoa b)
                   && free "." (ubtoa b) && free ":" (ubtoa b) && free "/" (ubtoa b)
  | None => false
  end.

Lemma dec_ok_byte b : is_byte b -> dec_ok b = true.
Proof.
  intros Hb.
  assert (H : forallb dec_ok (seqZ 0 256) = true) by (vm_compute; reflexivity).
  rewrite forallb_forall in H. apply H, list_elem_of_In, elem_of_seqZ. simpl in Hb. lia.
Qed.

Lemma dtoi_ubtoa b rest :
  is_byte b -> starts_with_digit rest = false ->
  dtoi (ubtoa b +:+ rest) = Some (b, rest).
Proof.
  intros Hb Hr. assert (H := dec_ok_byte b Hb). unfold dec_ok in H.
  destruct (dtoi (ubtoa b)) as [[m r]|] eqn:E; [|done].
  rewrite !andb_true_iff, Z.eqb_eq, bool_decide_eq_true in H. inv_all.
  unfold dtoi in *. destruct (ubtoa b) as [|c s] eqn:Eb; [done|].
  cbn [String.append]. destruct (is_digit c); [|done]. by apply (dtoi_aux_app 0 (String c s)).
Qed.

Lemma ubtoa_free b :
  is_byte b -> free "." (ubtoa b) = true /\ free ":" (ubtoa b) = true /\ free "/" (ubtoa b) = true.
Proof.
  intros Hb. assert (H := dec_ok_byte b Hb). unfold dec_ok in H.
  destruct (dtoi (ubtoa b)) as [[m r]|]; [|done]. rewrite !andb_true_iff in H. tauto.
Qed.

Lemma ubtoa_digit b : is_byte b -> starts_with_digit (ubtoa b) = true.
Proof.
  intros Hb. assert (H := dec_ok_byte b Hb). unfold dec_ok in H.
  destruct (dtoi (ubtoa b)) as [[m r]|]; [|done]. rewrite !andb_true_iff in H. tauto.
Qed.

Lemma parse_octets_first k b rest :
  is_byte b -> starts_with_digit rest = false ->
  parse_octets (S k) true (ubtoa b +:+ rest) =
  parse_octets k false rest ≫= fun l => Some (b :: l).
Proof.
  intros Hb Hr. cbn [parse_octets]. cbn [mbind option_bind].
  rewrite (dtoi_ubtoa b rest Hb Hr). cbn -[Z.ltb parse_octets].
  by rewrite (proj2 (Z.ltb_ge 255 b)) by (simpl in Hb; lia).
Qed.

Lemma parse_octets_next k b rest :
  is_byte b -> starts_with_digit rest = false ->
  parse_octets (S k) false ("." +:+ ubtoa b +:+ rest) =
  parse_octets k false rest ≫= fun l => Some (b :: l).
Proof. intros Hb Hr. exact (parse_octets_first k b rest Hb Hr). Qed.

Lemma parse_octets_quad a b c d rest :
  Forall is_byte [a; b; c; d] -> starts_with_digit rest = false ->
  parse_octets 4 true
    (ubtoa a +:+ "." +:+ ubtoa b +:+ "." +:+ ubtoa c +:+ "." +:+ ubtoa d +:+ rest)
  = match rest with EmptyString => Some [a; b; c; d] | _ => None end.
Proof.
  rewrite !Forall_cons. intros (Ha & Hb & Hc & Hd & _) Hr.
  rewrite parse_octets_first by done.
  rewrite !parse_octets_next by done.
  by destruct rest.
Qed.

Lemma parse_ip_kind_skip w a rest :
  free "." a = true -> free ":" a = true ->
  parse_ip_kind w (a +:+ rest) = parse_ip_kind w rest.
Proof.
  unfold free. induction a as [|c a IH]; simpl; [done|].
  rewrite !andb_true_iff, !negb_true_iff. intros [-> ?] [-> ?]. by apply IH.
Qed.

Lemma IP_String_quad a b c d :
  IP_String [a; b; c; d] = ubtoa a +:+ "." +:+ ubtoa b +:+ "." +:+ ubtoa c +:+ "." +:+ ubtoa d.
Proof. done. Qed.

Lemma parseIPv4_String a b c d :
  Forall is_byte [a; b; c; d] ->
  parseIPv4 (IP_String [a; b; c; d]) = Some (v4InV6Prefix ++ [a; b; c; d]).
Proof.
  intros H. unfold parseIPv4. rewrite IP_String_quad.
  rewrite <- (append_empty_r (ubtoa d)).
  by rewrite (parse_octets_quad a b c d "").
Qed.

Lemma ParseIP_String a b c d :
  Forall is_byte [a; b; c; d] ->
  ParseIP (IP_String [a; b; c; d]) = Some (v4InV6Prefix ++ [a; b; c; d]).
Proof.
  intros H. unfold ParseIP. rewrite IP_String_quad at 2.
  pose proof H as H'. rewrite Forall_cons in H'. destruct H' as [Ha _].
  destruct (ubtoa_free a Ha) as (? & ? & ?).
  rewrite parse_ip_kind_skip by done. cbn [String.append parse_ip_kind].
  rewrite Ascii.eqb_refl. by apply parseIPv4_String.
Qed.

Lemma split_slash_app a b :
  free "/" a = true -> split_slash (a +:+ String "/" b) = Some (a, b).
Proof.
  unfold free. induction a as [|c a IH]; simpl; [done|].
  rewrite andb_true_iff, negb_true_iff. intros [-> H]. by rewrite (IH H).
Qed.

Lemma IP_String_no_slash a b c d :
  Forall is_byte [a; b; c; d] -> free "/" (IP_String [a; b; c; d]) = true.
Proof.
  rewrite !Forall_cons. intros (Ha & Hb & Hc & Hd & _). rewrite IP_String_quad, !free_app.
  destruct (ubtoa_free a Ha) as (_ & _ & ->), (ubtoa_free b Hb) as (_ & _ & ->),
    (ubtoa_free c Hc) as (_ & _ & ->), (ubtoa_free d Hd) as (_ & _ & ->). done.
Qed.

(** A printed IPv4 address with a prefix length parses as a CIDR. *)
Lemma ParseCIDR_String a b c d n :
  Forall is_byte [a; b; c; d] -> (n <= 32)%nat ->
  ParseCIDR (IP_String [a; b; c; d] +:+ "/" +:+ fmt_d (Z.of_nat n)) =
  Some (v4InV6Prefix ++ [a; b; c; d],
        {| net_ip := zip_with Z.land [a; b; c; d] (CIDRMask n 4); net_mask := CIDRMask n 4 |}).
Proof.
  intros H Hn. unfold ParseCIDR. cbn [String.append].
  rewrite split_slash_app by by apply IP_String_no_slash.
  cbn [mbind option_bind]. rewrite parseIPv4_String by done. cbn [mbind option_bind].
  change (fmt_d (Z.of_nat n)) with (ubtoa (Z.of_nat n)).
  rewrite <- (append_empty_r (ubtoa _)), dtoi_ubtoa by (done || simpl; lia).
  cbn [mbind option_bind].
  rewrite (proj2 (Z.ltb_ge (8 * Z.of_nat 4) (Z.of_nat n))) by lia.
  rewrite bool_decide_eq_true_2 by done. simpl negb. cbn [orb].
  rewrite Nat2Z.id, IP_Mask_v4in6; [done|]. apply CIDRMask_length.
Qed.

(** ** What [ParseCIDR] returns *)

Lemma digit_val_range c : is_digit c = true -> 0 <= digit_val c <= 9.
Proof.
  unfold is_digit, ascii_between, digit_val. rewrite andb_true_iff, !Nat.leb_le.
  change (nat_of_ascii "0") with 48%nat. change (nat_of_ascii "9") with 57%nat. lia.
Qed.

Lemma dtoi_nonneg s n r : dtoi s = Some (n, r) -> 0 <= n.
Proof.
  assert (H : forall s k, 0 <= k -> dtoi_aux k s = Some (n, r) -> 0 <= n).
  { clear s. induction s as [|c s IH]; simpl; intros k Hk; [by intros [= <- _]|].
    destruct (is_digit c) eqn:Hc; [|by intros [= <- _]].
    case_match; [done|]. apply IH. apply digit_val_range in Hc. lia. }
  unfold dtoi. destruct s as [|c s]; [done|]. case_match; [|done]. by apply H.
Qed.

Lemma parse_octets_bytes k first s l :
  parse_octets k first s = Some l -> length l = k /\ Forall is_byte l.
Proof.
  revert first s l. induction k as [|k IH]; intros first s l; simpl.
  - destruct s; [|done]. by intros [= <-].
  - intros (s1 & _ & H)%bind_Some. apply bind_Some in H as ([n r] & Hd & H).
    destruct (255 <? n) eqn:Hn; [done|]. apply bind_Some in H as (l' & Hl & [= <-]).
    destruct (IH _ _ _ Hl) as [Hlen Hb]. apply dtoi_nonneg in Hd.
    apply Z.ltb_ge in Hn. simpl. split; [lia|]. constructor; simpl; [lia|done].
Qed.

Lemma parse_groups_length k acc ell s acc' ell' r :
  parse_groups k acc ell s = Some (acc', ell', r) ->
  (length acc + 2 * k <= 16)%nat -> (length acc' <= 16)%nat.
Proof.
  revert acc ell s. induction k as [|k IH]; intros acc ell s; cbn [parse_groups].
  - intros [= <- _ _]. lia.
  - intros ([n rest] & _ & H)%bind_Some Hk.
    assert (Hacc : length (acc ++ [n / 256; n mod 256]) = (length acc + 2)%nat)
      by by rewrite length_app.
    repeat (case_match; simplify_eq; try lia);
      try (eapply IH; [done|lia]); try done.
    apply bind_Some in H as (l & Hl & [= <- _ _]). apply parse_octets_bytes in Hl as [Hl _].
    rewrite length_app. lia.
Qed.

Lemma parseIPv6_length s ip : parseIPv6 s = Some ip -> length ip = 16%nat.
Proof.
  unfold parseIPv6.
  assert (H : forall ell s1, parse_groups 8 [] ell s1 ≫= (fun '(acc, ell', rest) =>
     match rest with EmptyString => expand_ellipsis acc ell' | _ => None end) = Some ip ->
     length ip = 16%nat).
  { intros ell s1 ([[acc ell'] rest] & Hg & H)%bind_Some.
    apply parse_groups_length in Hg; [|simpl; lia]. destruct rest; [|done].
    unfold expand_ellipsis in H. repeat case_match; simplify_eq.
    - rewrite !length_app, length_replicate, length_take, length_drop.
      rewrite bool_decide_eq_true in *. lia.
    - rewrite bool_decide_eq_false in *. lia. }
  repeat case_match; simplify_eq; try (by eapply H). by intros [= <-].
Qed.

Lemma IP_Mask_16 ip m :
  length ip = 16%nat -> length m = 16%nat -> IP_Mask ip m = Some (zip_with Z.land ip m).
Proof.
  intros Hi Hm. unfold IP_Mask.
  rewrite (bool_decide_eq_false_2 (length ip = 4%nat)) by lia.
  rewrite andb_false_r. cbn [andb]. rewrite (bool_decide_eq_false_2 (length m = 4%nat)) by lia.
  cbn [andb]. by rewrite bool_decide_eq_true_2 by lia.
Qed.

(** An IPv4 network: four masked bytes under a /n with [n <= 32]. *)
Lemma ParseCIDR_v4 s ip cidr :
  ParseCIDR s = Some (ip, cidr) -> length (net_ip cidr) = 4%nat ->
  exists q n, length q = 4%nat /\ Forall is_byte q /\ (n <= 32)%nat /\
    net_mask cidr = CIDRMask n 4 /\ net_ip cidr = zip_with Z.land q (CIDRMask n 4).
Proof.
  unfold ParseCIDR. intros ([addr mask] & _ & H)%bind_Some Hlen.
  destruct (parseIPv4 addr) as [ip4|] eqn:E4.
  - apply bind_Some in H as (ip0 & [= <-] & H).
    apply bind_Some in H as ([n r] & Hd & H). apply dtoi_nonneg in Hd.
    case_match eqn:Hc; [done|]. simplify_eq. apply orb_false_iff in Hc as [_ Hc].
    apply Z.ltb_ge in Hc.
    unfold parseIPv4 in E4. apply bind_Some in E4 as (q & Hq & [= <-]).
    apply parse_octets_bytes in Hq as [Hq Hb].
    exists q, (Z.to_nat n). repeat split; try done; [lia|]. cbn [net_ip].
    destruct q as [|a [|b [|c [|d [|]]]]]; try done.
    change (default [] (IP_Mask (v4InV6Prefix ++ [a; b; c; d]) (CIDRMask (Z.to_nat n) 4))
            = zip_with Z.land [a; b; c; d] (CIDRMask (Z.to_nat n) 4)).
    by rewrite IP_Mask_v4in6 by apply CIDRMask_length.
  - exfalso. apply bind_Some in H as (ip0 & E6 & H).
    apply bind_Some in H as ([n r] & Hd & H). case_match; [done|]. simplify_eq.
    apply parseIPv6_length in E6. revert Hlen. cbn [net_ip].
    rewrite IP_Mask_16 by (rewrite ?CIDRMask_length; done).
    cbn [from_option id]. rewrite length_zip_with, CIDRMask_length. lia.
Qed.

Lemma masked_byte v k :
  is_byte v -> 0 <= k <= 8 ->
  is_byte (Z.land v (256 - 2 ^ k)) /\
  Z.land (Z.land v (256 - 2 ^ k)) (256 - 2 ^ k) = Z.land v (256 - 2 ^ k).
Proof.
  intros Hv Hk. split; [|by rewrite <- Z.land_assoc, Z.land_diag].
  rewrite land_mask_byte by done.
  assert (Hp : 0 < 2 ^ k) by (apply Z.pow_pos_nonneg; lia).
  assert (H := Z.mod_pos_bound v (2 ^ k) Hp).
  assert (v mod 2 ^ k <= v) by (apply Z.mod_le; simpl in Hv; lia). simpl in *. lia.
Qed.

(** The network address of a /n: bytes, and a fixed point of the mask. *)
Lemma network_quad q n :
  length q = 4%nat -> Forall is_byte q -> (n <= 32)%nat ->
  exists a b c d, zip_with Z.land q (CIDRMask n 4) = [a; b; c; d] /\
    Forall is_byte [a; b; c; d] /\
    IP_Mask [a; b; c; d] (CIDRMask n 4) = Some [a; b; c; d].
Proof.
  intros Hl Hb Hn. destruct q as [|a [|b [|c [|d [|]]]]]; try done.
  destruct (CIDRMask_bytes n Hn) as (k1 & k2 & k3 & k4 & Hm & H1 & H2 & H3 & H4 & _ & _).
  rewrite Hm. cbn [zip_with]. do 4 eexists. split; [done|].
  rewrite !Forall_cons in Hb. destruct Hb as (Ha & Hb & Hc & Hd & _).
  destruct (masked_byte a k1 Ha H1), (masked_byte b k2 Hb H2),
    (masked_byte c k3 Hc H3), (masked_byte d k4 Hd H4).
  split; [by repeat (constructor; [done|])|].
  rewrite IP_Mask_quad by done. cbn [zip_with]. congruence.
Qed.

Lemma gateway_ip_mask_default cidr :
  gateway_ip_mask cidr "" =
  IP_String (NextIP (net_ip cidr)) +:+ "/" +:+ fmt_d (Mask_ones (net_mask cidr)).
Proof. done. Qed.

(** ** Properties *)

(** the default gateway written for an IPv4 subnet with a prefix of at
    most 31 bits and a non-zero first octet is a well-formed CIDR string; read
    back, it is the network address plus one, in the very same network and
    with the same mask. *)
Theorem default_gateway_in_subnet s ip cidr :
  ParseCIDR s = Some (ip, cidr) -> length (net_ip cidr) = 4%nat ->
  Mask_ones (net_mask cidr) <= 31 -> 1 <= hd 0 (net_ip cidr) ->
  exists gw, ParseCIDR (gateway_ip_mask cidr "") = Some (v4InV6Prefix ++ gw, cidr) /\
    length gw = 4%nat /\ SetBytes gw = SetBytes (net_ip cidr) + 1.
Proof.
  intros Hs Hlen Hones Hhd.
  destruct (ParseCIDR_v4 _ _ _ Hs Hlen) as (q & n & Hq & Hbq & Hn & Hm & Hip).
  destruct (network_quad q n Hq Hbq Hn) as (a & b & c & d & Hz & Hb & Hfix).
  destruct (CIDRMask_bytes n Hn) as (_ & _ & _ & _ & _ & _ & _ & _ & _ & _ & Hone).
  rewrite Hm, Hone in Hones. rewrite Hip, Hz in Hhd. simpl in Hhd.
  destruct (NextIP_in_network a b c d n Hb Hhd ltac:(lia) Hfix) as (Hnext & Hd & Hmask).
  exists [a; b; c; d + 1]. split; [|split; [done|]].
  - rewrite gateway_ip_mask_default, Hip, Hz, Hnext, Hm, Hone.
    rewrite ParseCIDR_String; [| |lia].
    + rewrite IP_Mask_quad in Hmask by apply CIDRMask_length.
      apply (inj Some) in Hmask. rewrite Hmask, <- Hz, <- Hip, <- Hm. by destruct cidr.
    + rewrite !Forall_cons in *. simpl in Hb |- *. intuition lia.
  - rewrite Hip, Hz, !SetBytes_quad. lia.
Qed.

Lemma default_gateway_in_subnet_witness :
  exists gw, ParseCIDR (gateway_ip_mask {| net_ip := [10; 233; 64; 0]; net_mask := [255; 255; 192; 0] |} "")
    = Some (v4InV6Prefix ++ gw, {| net_ip := [10; 233; 64; 0]; net_mask := [255; 255; 192; 0] |}) /\
    length gw = 4%nat /\ SetBytes gw = SetBytes [10; 233; 64; 0] + 1.
Proof.
  eapply (default_gateway_in_subnet "10.233.64.0/18"); [vm_compute; reflexivity|done| |done].
  vm_compute; discriminate.
Defined.

(** a configured IPv4 gateway, written either as an address or with any
    prefix length of its own, is kept as the gateway address, and its prefix
    length is replaced by the one of the subnet. *)
Theorem configured_gateway_kept a b c d m cidr :
  Forall is_byte [a; b; c; d] -> (m <= 32)%nat ->
  let plain := IP_String [a; b; c; d] in
  let out := plain +:+ "/" +:+ fmt_d (Mask_ones (net_mask cidr)) in
  gateway_ip_mask cidr plain = out /\
  gateway_ip_mask cidr (plain +:+ "/" +:+ fmt_d (Z.of_nat m)) = out.
Proof.
  intros Hb Hm plain out.
  assert (Hstr : IP_String (v4InV6Prefix ++ [a; b; c; d]) = plain) by done.
  assert (Hne : forall r, (plain +:+ r == "") = false).
  { intros r. apply bool_decide_eq_false. unfold plain. rewrite IP_String_quad.
    rewrite Forall_cons in Hb. destruct Hb as [Ha _]. apply ubtoa_digit in Ha.
    by destruct (ubtoa a). }
  unfold gateway_ip_mask, gateway_ip. split.
  - assert (Hne0 := Hne ""). rewrite append_empty_r in Hne0. rewrite Hne0.
    assert (Hc : ParseCIDR plain = None).
    { unfold ParseCIDR. assert (Hf := IP_String_no_slash _ _ _ _ Hb). fold plain in Hf.
      assert (Hs : forall t, free "/" t = true -> split_slash t = None); [|by rewrite Hs].
      clear. unfold free. induction t as [|x t IH]; simpl; [done|].
      rewrite andb_true_iff, negb_true_iff. intros [-> H]. by rewrite IH. }
    rewrite Hc. unfold plain at 1. rewrite ParseIP_String by done. by rewrite Hstr.
  - rewrite Hne. unfold plain at 1. rewrite ParseCIDR_String by done. by rewrite Hstr.
Qed.

Lemma configured_gateway_kept_witness :
  gateway_ip_mask {| net_ip := [172; 16; 33; 0]; net_mask := [255; 255; 255; 0] |} "172.16.33.1"
    = "172.16.33.1/24".
Proof.
  exact (proj1 (configured_gateway_kept 172 16 33 1 32
    {| net_ip := [172; 16; 33; 0]; net_mask := [255; 255; 255; 0] |}
    ltac:(repeat constructor; simpl; lia) ltac:(lia))).
Defined.

(** The successor of an address in 0.0.0.0/8 loses its leading byte: the
    default gateway of such a subnet is not an address. *)
Lemma default_gateway_zero_octet :
  gateway_ip_mask {| net_ip := [0; 0; 0; 0]; net_mask := [255; 0; 0; 0] |} "" = "?01/8" /\
  ParseCIDR "?01/8" = None.
Proof. split; vm_compute; reflexivity. Qed.
