(* ===== verification/Types.v ===== *)
(** * Types: API objects and protocol messages

    - [v1alpha1]: the custom resources of pkg/apis/k8s/v1alpha1
      (network_types.go, providernetwork_types.go, networkchaining_types.go);
    - the Kubernetes pod, reduced to the fields that the program reads;
    - [pb]: the messages of internal/pkg/nfnNotify/proto/nfn.pb.go, an optional
      sub-message being a Go pointer, with the nil-safe getters.

    Go structs are records, a nil pointer is [None], a slice is a list.  Type
    and list metadata, which no code path reads, are left out. *)

From S2P Require Import Prelude.

#[local] Open Scope string_scope.
#[local] Set Warnings "-register-all".

(** ** Object metadata (k8s.io/apimachinery)

    A deletion timestamp counts seconds from Go's zero time. *)
Record ObjectMeta := mkMeta {
  Name : string;
  Namespace : string;
  Finalizers : list string;
  DeletionTimestamp : option Z;
  Labels : gmap string string;
}.

(** [Time.IsZero] on a pointer: nil or the zero time. *)
Definition IsZero (t : option Z) : bool :=
  match t with None => true | Some z => bool_decide (z = 0%Z) end.

(** ** Custom resources *)

Definition Created := "Created".
Definition CreateInternalError := "CreateInternalError".
Definition DeleteInternalError := "DeleteInternalError".

Record IpSubnet := {
  sub_Name : string; Subnet : string; Gateway : string; ExcludeIps : string
}.
Record Route := { Dst : string; GW : string }.
Record DnsSpec := {
  Nameservers : list string; Domain : string; Search : list string; Options : list string
}.

Record NetworkSpec := {
  nw_CniType : string; nw_Ipv4Subnets : list IpSubnet; nw_Ipv6Subnets : list IpSubnet;
  nw_DNS : DnsSpec; nw_Routes : list Route
}.
Record NetworkStatus := { nw_State : string }.
Record Network := mkNetwork {
  nw_meta : ObjectMeta; nw_Spec : NetworkSpec; nw_Status : NetworkStatus
}.

Record VlanSpec := {
  vs_VlanId : string; VlanNodeSelector : string; vs_NodeLabelList : list string;
  vs_ProviderInterfaceName : string; LogicalInterfaceName : string
}.
Record DirectSpec := {
  DirectNodeSelector : string; ds_NodeLabelList : list string; ds_ProviderInterfaceName : string
}.
Record ProviderNetworkSpec := {
  pn_CniType : string; pn_Ipv4Subnets : list IpSubnet; pn_Ipv6Subnets : list IpSubnet;
  pn_DNS : DnsSpec; pn_Routes : list Route; ProviderNetType : string;
  pn_Vlan : VlanSpec; pn_Direct : DirectSpec
}.
Record ProviderNetworkStatus := { pn_State : string }.
Record ProviderNetwork := mkProviderNetwork {
  pn_meta : ObjectMeta; pn_Spec : ProviderNetworkSpec; pn_Status : ProviderNetworkStatus
}.

Record RoutingNetwork := { NetworkName : string; rn_GatewayIP : string; rn_Subnet : string }.
Record RouteSpec := {
  LeftNetwork : list RoutingNetwork; RightNetwork : list RoutingNetwork;
  NetworkChain : string; rs_Namespace : string
}.
Record NetworkChainingSpec := { ChainType : string; RoutingSpec : RouteSpec }.
Record NetworkChainingStatus := { nc_State : string }.
Record NetworkChaining := mkNetworkChaining {
  nc_meta : ObjectMeta; nc_Spec : NetworkChainingSpec; nc_Status : NetworkChainingStatus
}.

(** Assignments [x.Status.State = st] and [x.ObjectMeta.Finalizers = fs]. *)
Definition set_finalizers (fs : list string) (m : ObjectMeta) : ObjectMeta :=
  mkMeta (Name m) (Namespace m) fs (DeletionTimestamp m) (Labels m).

(** ** Pods *)

Record Pod := {
  pod_Name : string; pod_Namespace : string; HostNetwork : bool; NodeName : string;
  Annotations : gmap string string; ContainerIDs : list string
}.

(** ** JSON values, as [encoding/json] decodes them into [interface{}]

    A number keeps its text; an object keeps its members in order. *)
Inductive Json :=
| JNull
| JBool (b : bool)
| JNumber (text : string)
| JString (s : string)
| JArray (l : list Json)
| JObject (members : list (string * Json)).

(** ** Protocol messages *)

Record VlanInfo := { VlanId : string; vi_ProviderIntf : string; LogicalIntf : string }.
Record DirectInfo := { di_ProviderIntf : string }.
Record ProviderNetworkCreate := {
  pc_ProviderNwName : string; Vlan : option VlanInfo; Direct : option DirectInfo
}.
Record ProviderNetworkRemove := {
  pr_ProviderNwName : string; VlanLogicalIntf : string; DirectProviderIntf : string
}.
Record RouteData := { rd_Dst : string; rd_Gw : string }.
Record ContainerRouteInsert := { ContainerId : string; ins_Route : list RouteData }.
Record ContainerRouteRemove := { rem_ContainerId : string; rem_Route : list RouteData }.
Record InSync := { NodeIntfIpAddress : string; NodeIntfMacAddress : string }.

Inductive Payload :=
| Notification_InSync (m : InSync)
| Notification_ProviderNwCreate (m : ProviderNetworkCreate)
| Notification_ProviderNwRemove (m : ProviderNetworkRemove)
| Notification_ContainterRtInsert (m : ContainerRouteInsert)
| Notification_ContainterRtRemove (m : ContainerRouteRemove).

Record Notification := { CniType : string; payload : option Payload }.
Record SubscribeContext := { sc_NodeName : string }.

(** [var msg pb.Notification]. *)
Definition zeroNotification : Notification := {| CniType := ""; payload := None |}.

(** Getters on possibly nil sub-messages. *)
Definition GetVlanId (v : option VlanInfo) : string := from_option VlanId "" v.
Definition GetLogicalIntf (v : option VlanInfo) : string := from_option LogicalIntf "" v.
Definition GetVlanProviderIntf (v : option VlanInfo) : string := from_option vi_ProviderIntf "" v.
Definition GetDirectProviderIntf (d : option DirectInfo) : string := from_option di_ProviderIntf "" d.

(** ** Decidable equality *)

#[global] Instance RouteData_eq_dec : EqDecision RouteData.
Proof. solve_decision. Defined.
#[global] Instance VlanInfo_eq_dec : EqDecision VlanInfo.
Proof. solve_decision. Defined.
#[global] Instance DirectInfo_eq_dec : EqDecision DirectInfo.
Proof. solve_decision. Defined.
#[global] Instance ProviderNetworkCreate_eq_dec : EqDecision ProviderNetworkCreate.
Proof. solve_decision. Defined.
#[global] Instance ProviderNetworkRemove_eq_dec : EqDecision ProviderNetworkRemove.
Proof. solve_decision. Defined.
#[global] Instance ContainerRouteInsert_eq_dec : EqDecision ContainerRouteInsert.
Proof. solve_decision. Defined.
#[global] Instance ContainerRouteRemove_eq_dec : EqDecision ContainerRouteRemove.
Proof. solve_decision. Defined.
#[global] Instance InSync_eq_dec : EqDecision InSync.
Proof. solve_decision. Defined.
#[global] Instance Payload_eq_dec : EqDecision Payload.
Proof. solve_decision. Defined.
#[global] Instance Notification_eq_dec : EqDecision Notification.
Proof. solve_decision. Defined.

(** ** Routing information of a chain member (internal/pkg/utils/chain.go) *)
Record RoutingInfo := {
  ri_Name : string; ri_Namespace : string; ri_Id : string; ri_Node : string;
  LeftNetworkRoute : Route; RightNetworkRoute : Route; DynamicNetworkRoutes : list Route
}.

#[global] Instance Route_eq_dec : EqDecision Route.
Proof. solve_decision. Defined.
#[global] Instance RoutingInfo_eq_dec : EqDecision RoutingInfo.
Proof. solve_decision. Defined.
