(* ===== verification/Heap.v ===== *)
(** * Heap: pointers, slices and deep copies

    A heap is the list of the arrays allocated so far; an array holds values of
    one of the types that [Elem] knows.  A pointer is an array with an index
    ([new(T)] makes an array of one), a slice an array with an offset and a
    length; [None] is nil.  Go evaluates on a heap where every pointer is good:
    a bad one is the result [None] of the monad [H].

    The interface [Copier] is what the deep copy of a type promises; pairs,
    slices of pointer-free values and slices of copied values keep it. *)

From S2P Require Import Prelude.

#[local] Open Scope list_scope.
#[local] Set Warnings "-register-all".

(** What a value is once its pointers are followed; a nil slice is not an empty
    one.  Equal trees are what [reflect.DeepEqual] calls equal. *)
Inductive tree :=
| TString (s : string)
| TNumber (z : Z)
| TNil
| TList (l : list tree)
| TPair (a b : tree).

Section heap.
Context {C : Type}.

Abbreviation heap := (list C).
Definition H (A : Type) : Type := heap -> option (A * heap).

#[global] Instance H_ret : MRet H := fun A a h => Some (a, h).
#[global] Instance H_bind : MBind H := fun A B k m h =>
  match m h with Some (a, h') => k a h' | None => None end.

(** The arrays of values of type [A], with Go's zero value. *)
Class Elem (A : Type) := {
  to_cell : list A -> C;
  of_cell : C -> option (list A);
  zero : A;
  of_to l : of_cell (to_cell l) = Some l
}.

(** Pointers and slices carry the type of what they lead to. *)
Record ref (A : Type) := mkRef { r_arr : nat; r_idx : nat }.
Record slice (A : Type) := mkSlice { s_arr : nat; s_off : nat; s_len : nat }.
#[global] Arguments mkRef {A}.
#[global] Arguments r_arr {A}.
#[global] Arguments r_idx {A}.
#[global] Arguments mkSlice {A}.
#[global] Arguments s_arr {A}.
#[global] Arguments s_off {A}.
#[global] Arguments s_len {A}.

Section ops.
Context {A : Type} `{!Elem A}.

Definition array (h : heap) (l : nat) : option (list A) := c ← h !! l; of_cell c.

Definition alloc (l : list A) : H nat := fun h => Some (length h, h ++ [to_cell l]).

Definition load (r : ref A) : H A := fun h =>
  l ← array h (r_arr r); x ← l !! r_idx r; Some (x, h).

Definition store (r : ref A) (x : A) : H () := fun h =>
  l ← array h (r_arr r); _ ← l !! r_idx r;
  Some ((), <[r_arr r := to_cell (<[r_idx r := x]> l)]> h).

(** [new(T)]. *)
Definition new : H (ref A) := l ← alloc [zero]; mret (mkRef l 0).

(** The elements of a slice. *)
Definition elements (h : heap) (s : slice A) : option (list A) :=
  l ← array h (s_arr s);
  if (s_off s + s_len s <=? length l)%nat then Some (take (s_len s) (drop (s_off s) l)) else None.

(** [make([]T, n)]. *)
Definition make (n : nat) : H (slice A) := l ← alloc (replicate n zero); mret (mkSlice l 0 n).

(** [&s[i]]. *)
Definition at_index (s : slice A) (i : nat) : ref A := mkRef (s_arr s) (s_off s + i).

(** [copy(dst, src)] for slices of the same length. *)
Definition copy_elements (dst src : slice A) : H () := fun h =>
  xs ← elements h src; l ← array h (s_arr dst);
  Some ((), <[s_arr dst := to_cell (take (s_off dst) l ++ xs ++ drop (s_off dst + s_len dst) l)]> h).

(** [if in != nil { *out = make([]T, len( *in)); copy( *out, *in) }] *)
Definition copy_slice (s : option (slice A)) : H (option (slice A)) :=
  match s with
  | None => mret None
  | Some s => out ← make (s_len s); copy_elements out s;; mret (Some out)
  end.

(** The same with a loop that copies the elements one by one. *)
Fixpoint copy_each (into : A -> H A) (n : nat) (i : nat) (out s : slice A) : H () :=
  match n with
  | O => mret ()
  | S n' =>
      x ← load (at_index s i);
      x' ← into x;
      store (at_index out i) x';;
      copy_each into n' (S i) out s
  end.

Definition copy_items (into : A -> H A) (s : option (slice A)) : H (option (slice A)) :=
  match s with
  | None => mret None
  | Some s => out ← make (s_len s); copy_each into (s_len s) 0 out s;; mret (Some out)
  end.

(** [in.DeepCopy()] for a pointer [in], from the type's [DeepCopyInto]. *)
Definition DeepCopy (into : A -> H A) (p : option (ref A)) : H (option (ref A)) :=
  match p with
  | None => mret None
  | Some r =>
      out ← new;
      x ← load r;
      x' ← into x;
      store out x';;
      mret (Some out)
  end.

(** [DeepCopyObject]: nil stays a nil interface. *)
Definition DeepCopyObject (into : A -> H A) (p : option (ref A)) : H (option (ref A)) :=
  c ← DeepCopy into p;
  match c with Some c => mret (Some c) | None => mret None end.
End ops.

(** ** The interface

    [see h x] is the tree of [x] on [h] and the arrays that it is made of. *)
Class Copier (A : Type) := {
  see : heap -> A -> option (tree * list nat);
  copy : A -> H A;
  (** only the arrays of [x] matter, and they exist *)
  see_frame h h' x t ls :
    see h x = Some (t, ls) -> (forall l, l ∈ ls -> h' !! l = h !! l) -> see h' x = Some (t, ls);
  see_bound h x t ls l : see h x = Some (t, ls) -> l ∈ ls -> (l < length h)%nat;
  (** a copy adds arrays only, is equal, and is made of new ones *)
  copy_spec h x t ls :
    see h x = Some (t, ls) -> exists x' nh ls',
      copy x h = Some (x', h ++ nh) /\ see (h ++ nh) x' = Some (t, ls') /\
      forall l, l ∈ ls' -> (length h <= l)%nat
}.

Lemma see_app {A} `{!Copier A} h nh x t ls :
  see h x = Some (t, ls) -> see (h ++ nh) x = Some (t, ls).
Proof.
  intros Hx. eapply see_frame; [done|]. intros l Hl. apply lookup_app_l. by eapply see_bound.
Qed.

(** ** Values without pointers *)

(** A type without pointers: assignment copies it. *)
Class Flat (A : Type) := tree_of : A -> tree.

#[global] Instance flat_copier {A} `{!Flat A} : Copier A.

Proof.
  refine {| see h x := Some (tree_of x, []); copy x := mret x |}.
  - done.
  - by intros h x t ls l [= <- <-] Hl%not_elem_of_nil.
  - intros h x t ls [= <- <-]. exists x, [], []. rewrite app_nil_r.
    split; [done|]. split; [done|]. by intros l Hl%not_elem_of_nil.
Defined.

(** ** Pairs *)
Section pair.
Context {A B : Type} `{!Copier A, !Copier B}.

Definition see_pair (h : heap) (x : A * B) : option (tree * list nat) :=
  '(t1, l1) ← see h x.1; '(t2, l2) ← see h x.2; Some (TPair t1 t2, l1 ++ l2).

Definition copy_pair (x : A * B) : H (A * B) := a ← copy x.1; b ← copy x.2; mret (a, b).

Lemma see_pair_Some h x t ls :
  see_pair h x = Some (t, ls) <-> exists t1 l1 t2 l2,
    see h x.1 = Some (t1, l1) /\ see h x.2 = Some (t2, l2) /\ t = TPair t1 t2 /\ ls = l1 ++ l2.
Proof.
  unfold see_pair. split.
  - intros ([t1 l1] & H1 & ([t2 l2] & H2 & [= <- <-])%bind_Some)%bind_Some. eauto 8.
  - intros (t1 & l1 & t2 & l2 & -> & -> & -> & ->). done.
Qed.

#[global] Instance pair_copier : Copier (A * B).
Proof.
  refine {| see := see_pair; copy := copy_pair |}.
  - intros h h' x t ls (t1 & l1 & t2 & l2 & H1 & H2 & -> & ->)%see_pair_Some Hf.
    apply see_pair_Some. do 4 eexists. split_and!; [..|done|done].
    + eapply see_frame; [done|]. intros l Hl. apply Hf, elem_of_app. by left.
    + eapply see_frame; [done|]. intros l Hl. apply Hf, elem_of_app. by right.
  - intros h x t ls l (t1 & l1 & t2 & l2 & H1 & H2 & -> & ->)%see_pair_Some [Hl|Hl]%elem_of_app.
    + exact (see_bound _ _ _ _ _ H1 Hl).
    + exact (see_bound _ _ _ _ _ H2 Hl).
  - intros h [a b] t ls (t1 & l1 & t2 & l2 & H1 & H2 & -> & ->)%see_pair_Some. cbn in *.
    destruct (copy_spec _ _ _ _ H1) as (a' & n1 & k1 & Hc1 & Hs1 & Hf1).
    destruct (copy_spec _ _ _ _ (see_app _ n1 _ _ _ H2)) as (b' & n2 & k2 & Hc2 & Hs2 & Hf2).
    exists (a', b'), (n1 ++ n2), (k1 ++ k2). rewrite app_assoc. split; [|split].
    + unfold copy_pair, mbind, H_bind. cbn. by rewrite Hc1, Hc2.
    + apply see_pair_Some. do 4 eexists. cbn. split_and!; [by apply see_app|done|done|done].
    + intros l [Hl|Hl]%elem_of_app; [by apply Hf1|]. apply Hf2 in Hl. rewrite length_app in Hl. lia.
Defined.
End pair.

(** A type that is a tuple up to names, whose copy does what the tuple's does. *)
Definition iso_copier {A B} `{!Copier B} (to : A -> B) (back : B -> A) (into : A -> H A)
    (Hto : forall y, to (back y) = y)
    (Hinto : forall x h, into x h = (y ← copy (to x); mret (back y)) h) : Copier A.
Proof.
  refine {| see h x := see h (to x); copy := into |}.
  - intros h h' x t ls. apply see_frame.
  - intros h x t ls l. apply see_bound.
  - intros h x t ls (y & nh & ls' & Hc & Hs & Hf)%copy_spec. exists (back y), nh, ls'.
    rewrite Hinto. unfold mbind, H_bind. rewrite Hc, Hto. done.
Defined.

(** ** Slices *)
Section slices.
Context {A : Type} `{!Elem A, !Copier A}.

Definition see_all (h : heap) (xs : list A) : option (list (tree * list nat)) := mapM (see h) xs.

Definition see_slice (h : heap) (s : option (slice A)) : option (tree * list nat) :=
  match s with
  | None => Some (TNil, [])
  | Some s =>
      xs ← elements h s; ts ← see_all h xs;
      Some (TList (map fst ts), s_arr s :: concat (map snd ts))
  end.

Lemma see_slice_Some h (s : slice A) t ls :
  see_slice h (Some s) = Some (t, ls) <-> exists xs ts,
    elements h s = Some xs /\ see_all h xs = Some ts /\
    t = TList (map fst ts) /\ ls = s_arr s :: concat (map snd ts).
Proof.
  cbn. split.
  - intros (xs & H1 & (ts & H2 & [= <- <-])%bind_Some)%bind_Some. eauto 6.
  - intros (xs & ts & -> & Hts & -> & ->). cbn. by rewrite Hts.
Qed.

Lemma elements_array h (s : slice A) xs : elements h s = Some xs -> is_Some (array h (s_arr s)).
Proof. unfold elements. intros (l & Hl & _)%bind_Some. eauto. Qed.

Lemma array_bound h l xs : array h l = Some xs -> (l < length h)%nat.
Proof. unfold array. intros (c & Hc & _)%bind_Some. by eapply lookup_lt_Some. Qed.

Lemma array_frame h h' l : h' !! l = h !! l -> array h' l = array h l.
Proof. unfold array. by intros ->. Qed.

Lemma elements_frame h h' (s : slice A) : h' !! s_arr s = h !! s_arr s -> elements h' s = elements h s.
Proof. unfold elements. intros Hl. by rewrite (array_frame _ _ _ Hl). Qed.

Lemma length_elements h (s : slice A) xs : elements h s = Some xs -> length xs = s_len s.
Proof.
  unfold elements. intros (l & Hl & H)%bind_Some. case_match eqn:Hle; [|done]. apply Nat.leb_le in Hle.
  injection H as <-. rewrite length_take, length_drop. lia.
Qed.

Lemma see_all_frame h h' xs ts :
  see_all h xs = Some ts -> (forall l, l ∈ concat (map snd ts) -> h' !! l = h !! l) -> see_all h' xs = Some ts.
Proof.
  unfold see_all. rewrite !mapM_Some. induction 1 as [|x [t l] xs ts Hx Hxs IH]; cbn; [by constructor|].
  intros Hf. constructor; [|apply IH; intros k Hk; apply Hf, elem_of_app; by right].
  eapply see_frame; [done|]. intros k Hk. apply Hf, elem_of_app. by left.
Qed.

Lemma see_all_bound h xs ts l : see_all h xs = Some ts -> l ∈ concat (map snd ts) -> (l < length h)%nat.
Proof.
  unfold see_all. rewrite mapM_Some. induction 1 as [|x [t k] xs ts Hx Hxs IH]; cbn; [by intros ?%not_elem_of_nil|].
  intros [Hl|Hl]%elem_of_app; [exact (see_bound _ _ _ _ _ Hx Hl)|by apply IH].
Qed.

Lemma see_slice_frame h h' (s : option (slice A)) t ls :
  see_slice h s = Some (t, ls) -> (forall l, l ∈ ls -> h' !! l = h !! l) -> see_slice h' s = Some (t, ls).
Proof.
  destruct s as [s|]; [|done]. rewrite !see_slice_Some. intros (xs & ts & Hx & Hts & -> & ->) Hf.
  exists xs, ts. split_and!; [|eapply see_all_frame; [done|]|done|done].
  - rewrite <- Hx. apply elements_frame, Hf. by left.
  - intros l Hl. apply Hf. by right.
Qed.

Lemma see_slice_bound h (s : option (slice A)) t ls l : see_slice h s = Some (t, ls) -> l ∈ ls -> (l < length h)%nat.
Proof.
  destruct s as [s|]; [|by intros [= <- <-] ?%not_elem_of_nil].
  rewrite see_slice_Some. intros (xs & ts & Hx & Hts & -> & ->) [->|Hl]%elem_of_cons.
  - apply elements_array in Hx as [ys Hy]. by eapply array_bound.
  - by eapply see_all_bound.
Qed.

(** *** The new array *)

Lemma array_new (h : heap) (l : list A) nh : array (h ++ to_cell l :: nh) (length h) = Some l.
Proof. unfold array. rewrite lookup_app_r, Nat.sub_diag by done. cbn. apply of_to. Qed.

Lemma elements_app h nh (s : slice A) xs : elements h s = Some xs -> elements (h ++ nh) s = Some xs.
Proof.
  intros Hx. rewrite <- Hx. apply elements_frame, lookup_app_l.
  apply elements_array in Hx as [ys Hy]. by eapply array_bound.
Qed.

Lemma insert_new (h : heap) c c' nh : <[length h := c']> (h ++ c :: nh) = h ++ c' :: nh.
Proof. rewrite insert_app_r_alt, Nat.sub_diag by done. done. Qed.

Lemma elements_whole (h : heap) (l : list A) nh :
  elements (h ++ to_cell l :: nh) (mkSlice (length h) 0 (length l)) = Some l.
Proof.
  unfold elements. cbn. rewrite array_new. cbn. rewrite Nat.leb_refl. by rewrite drop_0, take_ge.
Qed.

(** The [i]-th element of a slice. *)
Lemma load_elements h (s : slice A) xs i x :
  elements h s = Some xs -> xs !! i = Some x -> load (at_index s i) h = Some (x, h).
Proof.
  unfold elements, load. intros (l & Hl & H)%bind_Some Hi. cbn. rewrite Hl. cbn.
  case_match eqn:Hle; [|done]. injection H as <-.
  apply lookup_take_Some in Hi as [Hi Hlt]. rewrite lookup_drop in Hi. by rewrite Hi.
Qed.

(** *** Elements copied one by one *)

(** Changing the new array leaves what is made of later ones. *)
Lemma see_all_new h c c' nh ys tys :
  see_all (h ++ c :: nh) ys = Some tys -> (forall l, l ∈ concat (map snd tys) -> (length h < l)%nat) ->
  see_all (h ++ c' :: nh) ys = Some tys.
Proof.
  intros Hs Hf. eapply see_all_frame; [done|]. intros l Hl. apply Hf in Hl.
  rewrite !lookup_app_r by lia. destruct (l - length h)%nat eqn:Hd; [lia|done].
Qed.

Lemma see_all_app h nh xs ts : see_all h xs = Some ts -> see_all (h ++ nh) xs = Some ts.
Proof. intros Hx. eapply see_all_frame; [done|]. intros l Hl. apply lookup_app_l. by eapply see_all_bound. Qed.

Lemma see_all_snoc h xs ts x t l :
  see_all h xs = Some ts -> see h x = Some (t, l) -> see_all h (xs ++ [x]) = Some (ts ++ [(t, l)]).
Proof. unfold see_all. rewrite !mapM_Some. intros. apply Forall2_app; [done|]. by constructor. Qed.

Lemma see_all_cons h x xs ts :
  see_all h (x :: xs) = Some ts -> exists t l ts',
    ts = (t, l) :: ts' /\ see h x = Some (t, l) /\ see_all h xs = Some ts'.
Proof.
  unfold see_all. rewrite mapM_Some. intros H. inversion H as [|? [t l] ? ts' Hx Hxs]; subst.
  exists t, l, ts'. by rewrite mapM_Some.
Qed.

Lemma copy_each_spec h (s : slice A) pre zs tzs ys tys nh :
  elements h s = Some (pre ++ zs) -> length pre = length ys -> see_all h zs = Some tzs ->
  see_all (h ++ to_cell (ys ++ replicate (length zs) zero) :: nh) ys = Some tys ->
  (forall l, l ∈ concat (map snd tys) -> (length h < l)%nat) ->
  exists ys' tys' nh',
    copy_each copy (length zs) (length ys) (mkSlice (length h) 0 (s_len s)) s
      (h ++ to_cell (ys ++ replicate (length zs) zero) :: nh) = Some ((), h ++ to_cell ys' :: nh') /\
    see_all (h ++ to_cell ys' :: nh') ys' = Some tys' /\ length ys' = (length ys + length zs)%nat /\
    map fst tys' = map fst tys ++ map fst tzs /\
    (forall l, l ∈ concat (map snd tys') -> (length h < l)%nat).
Proof.
  revert pre tzs ys tys nh. induction zs as [|z zs IH]; intros pre tzs ys tys nh Hel Hpre Hz Hy Hf.
  { exists ys, tys, nh. injection Hz as <-. cbn in *. rewrite app_nil_r in *.
    split_and!; [done|done|lia|by rewrite app_nil_r|done]. }
  apply see_all_cons in Hz as (t & k & tzs' & -> & Hsz & Hzs).
  cbn [length replicate copy_each]. set (h0 := h ++ _ :: nh) in *.
  assert (Hload : load (at_index s (length ys)) h0 = Some (z, h0)).
  { eapply load_elements; [by apply elements_app|]. by rewrite <- Hpre, list_lookup_middle. }
  destruct (copy_spec h0 z t k) as (z' & n1 & k' & Hc & Hs' & Hf'); [by apply see_app|].
  unfold mbind, H_bind. rewrite Hload, Hc.
  unfold h0 at 1. rewrite <- app_assoc. cbn [app]. unfold store. cbn [at_index r_arr r_idx s_arr s_off].
  rewrite array_new. cbn [mbind option_bind]. rewrite Nat.add_0_l, lookup_app_r, Nat.sub_diag by done. cbn.
  rewrite insert_new, insert_app_r_alt, Nat.sub_diag by done. cbn [list_insert insert].
  assert (Hlen : S (length ys) = length (ys ++ [z'])) by (rewrite length_app; cbn; lia).
  replace (ys ++ z' :: replicate (length zs) zero) with ((ys ++ [z']) ++ replicate (length zs) zero)
    by by rewrite <- app_assoc.
  rewrite Hlen.
  assert (Hg : forall l, l ∈ k' -> (length h < l)%nat).
  { intros l Hl. apply Hf' in Hl. unfold h0 in Hl. rewrite length_app in Hl. cbn in Hl. lia. }
  destruct (IH (pre ++ [z]) tzs' (ys ++ [z']) (tys ++ [(t, k')]) (nh ++ n1))
    as (ys' & tys' & nh' & Hrun & Hall & Hl & Ht & Hn).
  - by rewrite <- app_assoc.
  - rewrite !length_app. cbn. lia.
  - done.
  - apply (see_all_new _ (to_cell (ys ++ replicate (S (length zs)) zero))); [|].
    + change (h ++ ?c :: nh ++ n1) with (h ++ (c :: nh) ++ n1). rewrite app_assoc.
      apply see_all_snoc; [by apply see_all_app|done].
    + intros l. rewrite map_app, concat_app. intros [Hl|Hl]%elem_of_app; [by apply Hf|].
      cbn in Hl. rewrite app_nil_r in Hl. by apply Hg.
  - intros l. rewrite map_app, concat_app. intros [Hl|Hl]%elem_of_app; [by apply Hf|].
    cbn in Hl. rewrite app_nil_r in Hl. by apply Hg.
  - exists ys', tys', nh'. split; [exact Hrun|]. split; [done|].
    split; [rewrite Hl, length_app; cbn; lia|]. split; [|done].
    rewrite Ht, map_app, <- app_assoc. done.
Qed.

Lemma copy_items_spec h (s : option (slice A)) t ls :
  see_slice h s = Some (t, ls) -> exists (s' : option (slice A)) nh ls',
    copy_items copy s h = Some (s', h ++ nh) /\ see_slice (h ++ nh) s' = Some (t, ls') /\
    forall l, l ∈ ls' -> (length h <= l)%nat.
Proof.
  destruct s as [s|].
  2: { intros [= <- <-]. exists None, [], []. rewrite app_nil_r. split; [done|]. split; [done|].
       by intros l ?%not_elem_of_nil. }
  rewrite see_slice_Some. intros (xs & ts & Hx & Hts & -> & ->). assert (Hn := length_elements _ _ _ Hx).
  destruct (copy_each_spec h s [] xs ts [] [] []) as (ys & tys & nh & Hrun & Hall & Hl & Ht & Hf);
    [done|done|done|done|by intros l ?%not_elem_of_nil|].
  exists (Some (mkSlice (length h) 0 (s_len s))), (to_cell ys :: nh), (length h :: concat (map snd tys)).
  cbn [app length] in Hrun. rewrite Hn in Hrun. split; [|split].
  - unfold copy_items, make, alloc, mbind, H_bind, mret, H_ret. by rewrite Hrun.
  - apply see_slice_Some. exists ys, tys. split_and!; [|done|by rewrite Ht|done].
    cbn in Hl. rewrite <- Hn, <- Hl. apply elements_whole.
  - intros l [->|Hl2]%elem_of_cons; [done|]. apply Hf in Hl2. lia.
Qed.

#[global] Instance items_copier : Copier (option (slice A)) | 10 := {|
  see := see_slice; copy := copy_items copy;
  see_frame := see_slice_frame; see_bound := see_slice_bound; copy_spec := copy_items_spec
|}.
End slices.

(** Slices of pointer-free values are copied at once. *)
Section flat_slices.
Context {A : Type} `{!Elem A, !Flat A}.

Lemma see_all_flat h xs : see_all h xs = Some (map (fun x => (tree_of x, [])) xs).
Proof. unfold see_all. apply mapM_Some. induction xs; cbn; by constructor. Qed.

Lemma copy_slice_spec h (s : option (slice A)) t ls :
  see_slice h s = Some (t, ls) -> exists (s' : option (slice A)) nh ls',
    copy_slice s h = Some (s', h ++ nh) /\ see_slice (h ++ nh) s' = Some (t, ls') /\
    forall l, l ∈ ls' -> (length h <= l)%nat.
Proof.
  destruct s as [s|].
  2: { intros [= <- <-]. exists None, [], []. rewrite app_nil_r. split; [done|]. split; [done|].
       by intros l ?%not_elem_of_nil. }
  rewrite see_slice_Some. intros (xs & ts & Hx & Hts & -> & ->). assert (Hn := length_elements _ _ _ Hx).
  rewrite see_all_flat in Hts. injection Hts as <-.
  exists (Some (mkSlice (length h) 0 (s_len s))), [to_cell xs], [length h]. split; [|split].
  - unfold copy_slice, make, alloc, mbind, H_bind, mret, H_ret, copy_elements.
    cbn [s_arr s_off s_len]. rewrite (elements_app _ _ _ _ Hx), array_new. cbn [mbind option_bind].
    rewrite take_0, Nat.add_0_l, drop_ge, app_nil_r by (by rewrite length_replicate).
    cbn [app]. by rewrite insert_new.
  - apply see_slice_Some. exists xs, (map (fun x => (tree_of x, [])) xs). split_and!.
    + rewrite <- Hn. apply elements_whole.
    + apply see_all_flat.
    + by rewrite map_map.
    + cbn. f_equal. clear Hx Hn. by induction xs.
  - by intros l ->%list_elem_of_singleton.
Qed.

#[global] Instance slice_copier : Copier (option (slice A)) | 1 := {|
  see := see_slice; copy := copy_slice;
  see_frame := see_slice_frame; see_bound := see_slice_bound; copy_spec := copy_slice_spec
|}.
End flat_slices.

(** ** Pointers *)
Section pointers.
Context {A : Type} `{!Elem A, !Copier A}.

(** What a pointer leads to, with the array that it points into. *)
Definition see_ref (h : heap) (p : option (ref A)) : option (tree * list nat) :=
  match p with
  | None => Some (TNil, [])
  | Some r => '(x, _) ← load r h; '(t, ls) ← see h x; Some (TList [t], r_arr r :: ls)
  end.

(** Writes outside the arrays of a pointer leave what it leads to. *)
Lemma see_ref_frame h h' (p : option (ref A)) t ls :
  see_ref h p = Some (t, ls) -> (forall l, l ∈ ls -> h' !! l = h !! l) -> see_ref h' p = Some (t, ls).
Proof.
  destruct p as [r|]; [|done]. unfold see_ref, load. intros ([x h1] & Hl & ([t1 l1] & Hs & [= <- <-])%bind_Some)%bind_Some.
  apply bind_Some in Hl as (l & Ha & (y & Hy & [= -> <-])%bind_Some). intros Hf.
  rewrite (array_frame h h') by (apply Hf; by left). rewrite Ha. cbn. rewrite Hy. cbn.
  rewrite (see_frame _ h' _ _ _ Hs); [done|]. intros k Hk. apply Hf. by right.
Qed.

Lemma see_ref_bound h (p : option (ref A)) t ls l : see_ref h p = Some (t, ls) -> l ∈ ls -> (l < length h)%nat.
Proof.
  destruct p as [r|]; [|by intros [= <- <-] ?%not_elem_of_nil]. unfold see_ref, load.
  intros ([x h1] & Hl & ([t1 l1] & Hs & [= <- <-])%bind_Some)%bind_Some.
  apply bind_Some in Hl as (l0 & Ha & (y & Hy & [= -> <-])%bind_Some).
  intros [->|Hin]%elem_of_cons; [by eapply array_bound|exact (see_bound _ _ _ _ _ Hs Hin)].
Qed.

(** [DeepCopy] of a pointer that is not nil: the new array, the copy in it, and
    the arrays of the copy behind it. *)
Lemma DeepCopy_new h r t ls :
  see_ref h (Some r) = Some (t, ls) -> exists x' nh t1 ls',
    DeepCopy copy (Some r) h = Some (Some (mkRef (length h) 0), h ++ to_cell [x'] :: nh) /\
    (forall c, see (h ++ c :: nh) x' = Some (t1, ls')) /\
    t = TList [t1] /\ forall l, l ∈ ls' -> (length h < l)%nat.
Proof.
  intros Hp. assert (Hp2 := see_ref_frame _ (h ++ [to_cell [zero]]) _ _ _ Hp
    ltac:(intros l Hl; apply lookup_app_l; by eapply see_ref_bound)).
  cbn [see_ref] in Hp2. apply bind_Some in Hp2 as ([x h1] & Hl & Hx).
  apply bind_Some in Hx as ([t1 l1] & Hs & [= <- <-]).
  assert (Hh1 : h1 = h ++ [to_cell [zero]]).
  { unfold load in Hl. apply bind_Some in Hl as (? & _ & (? & _ & [= _ ->])%bind_Some). done. }
  subst h1. destruct (copy_spec _ _ _ _ Hs) as (x' & nh & ls' & Hc & Hs' & Hf).
  assert (Hf' : forall l, l ∈ ls' -> (length h < l)%nat).
  { intros l Hl2. apply Hf in Hl2. rewrite length_app in Hl2. cbn in Hl2. lia. }
  exists x', nh, t1, ls'. split; [|split; [|by split]].
  - unfold DeepCopy, new, alloc, mbind, H_bind, mret, H_ret. rewrite Hl, Hc. unfold store.
    cbn [r_arr r_idx]. rewrite <- app_assoc. cbn [app]. rewrite array_new. cbn. by rewrite insert_new.
  - intros c. eapply see_frame; [exact Hs'|]. intros l Hl2. apply Hf' in Hl2.
    rewrite <- app_assoc, !lookup_app_r by lia. destruct (l - length h)%nat eqn:Hd; [lia|done].
Qed.

Lemma see_ref_new h x nh t ls :
  see (h ++ to_cell [x] :: nh) x = Some (t, ls) ->
  see_ref (h ++ to_cell [x] :: nh) (Some (mkRef (length h) 0)) = Some (TList [t], length h :: ls).
Proof. intros Hs. cbn [see_ref]. unfold load. cbn [r_arr r_idx]. rewrite array_new. cbn. by rewrite Hs. Qed.

(** Nothing that was there changes, the result is equal, and made of new arrays. *)
Lemma DeepCopy_spec h p t ls :
  see_ref h p = Some (t, ls) -> exists p' nh ls',
    DeepCopy copy p h = Some (p', h ++ nh) /\ see_ref (h ++ nh) p' = Some (t, ls') /\
    (p = None <-> p' = None) /\ forall l, l ∈ ls' -> (length h <= l)%nat.
Proof.
  destruct p as [r|].
  2: { intros [= <- <-]. exists None, [], []. rewrite app_nil_r. split_and!; try done.
       by intros l ?%not_elem_of_nil. }
  intros (x' & nh & t1 & ls' & Hc & Hs & -> & Hf)%DeepCopy_new.
  exists (Some (mkRef (length h) 0)), (to_cell [x'] :: nh), (length h :: ls').
  split; [done|]. split; [by apply see_ref_new|]. split; [done|].
  intros l [->|Hl2]%elem_of_cons; [done|]. apply Hf in Hl2. lia.
Qed.

(** After a copy each of the two can be changed without the other: whatever
    heap [h2] a run goes on to, the original is seen unchanged if only new
    arrays were written, and the copy if only old ones were. *)
Lemma DeepCopy_apart h (p : option (ref A)) t ls :
  see_ref h p = Some (t, ls) -> exists p' nh ls',
    DeepCopy copy p h = Some (p', h ++ nh) /\ see_ref (h ++ nh) p' = Some (t, ls') /\
    (p = None <-> p' = None) /\
    (forall h2, (forall l, (l < length h)%nat -> h2 !! l = h !! l) -> see_ref h2 p = Some (t, ls)) /\
    (forall h2, (forall l, (length h <= l)%nat -> h2 !! l = (h ++ nh) !! l) -> see_ref h2 p' = Some (t, ls')).
Proof.
  intros Hp. destruct (DeepCopy_spec _ _ _ _ Hp) as (p' & nh & ls' & Hc & Hs & Hn & Hf).
  exists p', nh, ls'. split; [done|]. split; [done|]. split; [done|]. split.
  - intros h2 Hh2. eapply see_ref_frame; [done|]. intros l Hl. apply Hh2. by eapply see_ref_bound.
  - intros h2 Hh2. eapply see_ref_frame; [done|]. intros l Hl. by apply Hh2, Hf.
Qed.

Lemma DeepCopyObject_eq (p : option (ref A)) h : DeepCopyObject copy p h = DeepCopy copy p h.
Proof.
  unfold DeepCopyObject, mbind, H_bind. destruct (DeepCopy copy p h) as [[[r|] h']|]; done.
Qed.
End pointers.
End heap.
Arguments H : clear implicits.
