(* ===== verification/DeepCopy.v ===== *)
(** * DeepCopy: pkg/apis/k8s/v1alpha1/zz_generated.deepcopy.go

    The deep copies of the custom resources, on the heap of Heap.v.  A struct
    that holds slices has a record of its own here (H..., for heap), with the
    fields of Go; structs without pointers are those of Types.v.  A method
    [DeepCopyInto] gives the value that it stores through its argument.

    [ObjectMeta] and [ListMeta] are the library's: their types, the arrays that
    they use and their [DeepCopyInto] are parameters, and [MetaCopiers] says
    that they are copied as everything else is. *)

From S2P Require Import Prelude.
From S2P Require Import Types.
From S2P Require Import Heap.

#[local] Open Scope string_scope.
#[local] Open Scope list_scope.

(** ** Types *)

(** k8s.io/apimachinery: types, zero values. *)
Record MetaTypes := mkMetaTypes {
  TypeMeta : Type; HObjectMeta : Type; HListMeta : Type; LibCell : Type;
  zero_TypeMeta : TypeMeta; zero_ObjectMeta : HObjectMeta; zero_ListMeta : HListMeta;
  tree_TypeMeta : TypeMeta -> tree
}.

Record HDnsSpec := mkHDnsSpec {
  h_Nameservers : option (slice string); h_Domain : string; h_Search : option (slice string); h_Options : option (slice string)
}.
Record HDirectSpec := mkHDirectSpec {
  h_DirectNodeSelector : string; h_ds_NodeLabelList : option (slice string); h_ds_ProviderInterfaceName : string
}.
Record HVlanSpec := mkHVlanSpec {
  h_VlanId : string; h_VlanNodeSelector : string; h_vs_NodeLabelList : option (slice string); h_vs_ProviderInterfaceName : string; h_LogicalInterfaceName : string
}.
Record HRouteSpec := mkHRouteSpec {
  h_LeftNetwork : option (slice RoutingNetwork); h_RightNetwork : option (slice RoutingNetwork); h_NetworkChain : string; h_rs_Namespace : string
}.
Record HNetworkSpec := mkHNetworkSpec {
  h_nw_CniType : string; h_nw_Ipv4Subnets : option (slice IpSubnet); h_nw_Ipv6Subnets : option (slice IpSubnet); h_nw_DNS : HDnsSpec; h_nw_Routes : option (slice Route)
}.
Record HProviderNetworkSpec := mkHProviderNetworkSpec {
  h_pn_CniType : string; h_pn_Ipv4Subnets : option (slice IpSubnet); h_pn_Ipv6Subnets : option (slice IpSubnet); h_pn_DNS : HDnsSpec; h_pn_Routes : option (slice Route); h_ProviderNetType : string; h_pn_Vlan : HVlanSpec; h_pn_Direct : HDirectSpec
}.
Record HNetworkChainingSpec := mkHNetworkChainingSpec {
  h_ChainType : string; h_RoutingSpec : HRouteSpec
}.
Record HNetwork (M : MetaTypes) := mkHNetwork {
  h_nw_TypeMeta : TypeMeta M; h_nw_ObjectMeta : HObjectMeta M; h_nw_Spec : HNetworkSpec; h_nw_Status : NetworkStatus
}.
Arguments mkHNetwork {M}.
Arguments h_nw_TypeMeta {M}.
Arguments h_nw_ObjectMeta {M}.
Arguments h_nw_Spec {M}.
Arguments h_nw_Status {M}.
Record HProviderNetwork (M : MetaTypes) := mkHProviderNetwork {
  h_pn_TypeMeta : TypeMeta M; h_pn_ObjectMeta : HObjectMeta M; h_pn_Spec : HProviderNetworkSpec; h_pn_Status : ProviderNetworkStatus
}.
Arguments mkHProviderNetwork {M}.
Arguments h_pn_TypeMeta {M}.
Arguments h_pn_ObjectMeta {M}.
Arguments h_pn_Spec {M}.
Arguments h_pn_Status {M}.
Record HNetworkChaining (M : MetaTypes) := mkHNetworkChaining {
  h_nc_TypeMeta : TypeMeta M; h_nc_ObjectMeta : HObjectMeta M; h_nc_Spec : HNetworkChainingSpec; h_nc_Status : NetworkChainingStatus
}.
Arguments mkHNetworkChaining {M}.
Arguments h_nc_TypeMeta {M}.
Arguments h_nc_ObjectMeta {M}.
Arguments h_nc_Spec {M}.
Arguments h_nc_Status {M}.
Record HNetworkList (M : MetaTypes) := mkHNetworkList {
  h_nwl_TypeMeta : TypeMeta M; h_nwl_ListMeta : HListMeta M; h_nwl_Items : option (slice (HNetwork M))
}.
Arguments mkHNetworkList {M}.
Arguments h_nwl_TypeMeta {M}.
Arguments h_nwl_ListMeta {M}.
Arguments h_nwl_Items {M}.
Record HProviderNetworkList (M : MetaTypes) := mkHProviderNetworkList {
  h_pnl_TypeMeta : TypeMeta M; h_pnl_ListMeta : HListMeta M; h_pnl_Items : option (slice (HProviderNetwork M))
}.
Arguments mkHProviderNetworkList {M}.
Arguments h_pnl_TypeMeta {M}.
Arguments h_pnl_ListMeta {M}.
Arguments h_pnl_Items {M}.
Record HNetworkChainingList (M : MetaTypes) := mkHNetworkChainingList {
  h_ncl_TypeMeta : TypeMeta M; h_ncl_ListMeta : HListMeta M; h_ncl_Items : option (slice (HNetworkChaining M))
}.
Arguments mkHNetworkChainingList {M}.
Arguments h_ncl_TypeMeta {M}.
Arguments h_ncl_ListMeta {M}.
Arguments h_ncl_Items {M}.

(** The arrays. *)
Inductive cell (M : MetaTypes) :=
| CLib (c : LibCell M)
| CString (l : list string)
| CIpSubnet (l : list IpSubnet)
| CRoute (l : list Route)
| CRoutingNetwork (l : list RoutingNetwork)
| CNetworkStatus (l : list NetworkStatus)
| CProviderNetworkStatus (l : list ProviderNetworkStatus)
| CNetworkChainingStatus (l : list NetworkChainingStatus)
| CDnsSpec (l : list HDnsSpec)
| CDirectSpec (l : list HDirectSpec)
| CVlanSpec (l : list HVlanSpec)
| CRouteSpec (l : list HRouteSpec)
| CNetworkSpec (l : list HNetworkSpec)
| CProviderNetworkSpec (l : list HProviderNetworkSpec)
| CNetworkChainingSpec (l : list HNetworkChainingSpec)
| CNetwork (l : list (HNetwork M))
| CProviderNetwork (l : list (HProviderNetwork M))
| CNetworkChaining (l : list (HNetworkChaining M))
| CNetworkList (l : list (HNetworkList M))
| CProviderNetworkList (l : list (HProviderNetworkList M))
| CNetworkChainingList (l : list (HNetworkChainingList M)).
Arguments CLib {M}.
Arguments CString {M}.
Arguments CIpSubnet {M}.
Arguments CRoute {M}.
Arguments CRoutingNetwork {M}.
Arguments CNetworkStatus {M}.
Arguments CProviderNetworkStatus {M}.
Arguments CNetworkChainingStatus {M}.
Arguments CDnsSpec {M}.
Arguments CDirectSpec {M}.
Arguments CVlanSpec {M}.
Arguments CRouteSpec {M}.
Arguments CNetworkSpec {M}.
Arguments CProviderNetworkSpec {M}.
Arguments CNetworkChainingSpec {M}.
Arguments CNetwork {M}.
Arguments CProviderNetwork {M}.
Arguments CNetworkChaining {M}.
Arguments CNetworkList {M}.
Arguments CProviderNetworkList {M}.
Arguments CNetworkChainingList {M}.

(** ** Zero values, trees *)
Section instances.
Context {M : MetaTypes}.
Implicit Types c : cell M.

#[global] Instance elem_String : Elem (C:=cell M) string := {|
  to_cell := CString; of_cell c := match c with CString l => Some l | _ => None end;
  zero := ""; of_to l := eq_refl |}.
#[global] Instance elem_IpSubnet : Elem (C:=cell M) IpSubnet := {|
  to_cell := CIpSubnet; of_cell c := match c with CIpSubnet l => Some l | _ => None end;
  zero := Build_IpSubnet "" "" "" ""; of_to l := eq_refl |}.
#[global] Instance elem_Route : Elem (C:=cell M) Route := {|
  to_cell := CRoute; of_cell c := match c with CRoute l => Some l | _ => None end;
  zero := Build_Route "" ""; of_to l := eq_refl |}.
#[global] Instance elem_RoutingNetwork : Elem (C:=cell M) RoutingNetwork := {|
  to_cell := CRoutingNetwork; of_cell c := match c with CRoutingNetwork l => Some l | _ => None end;
  zero := Build_RoutingNetwork "" "" ""; of_to l := eq_refl |}.
#[global] Instance elem_NetworkStatus : Elem (C:=cell M) NetworkStatus := {|
  to_cell := CNetworkStatus; of_cell c := match c with CNetworkStatus l => Some l | _ => None end;
  zero := Build_NetworkStatus ""; of_to l := eq_refl |}.
#[global] Instance elem_ProviderNetworkStatus : Elem (C:=cell M) ProviderNetworkStatus := {|
  to_cell := CProviderNetworkStatus; of_cell c := match c with CProviderNetworkStatus l => Some l | _ => None end;
  zero := Build_ProviderNetworkStatus ""; of_to l := eq_refl |}.
#[global] Instance elem_NetworkChainingStatus : Elem (C:=cell M) NetworkChainingStatus := {|
  to_cell := CNetworkChainingStatus; of_cell c := match c with CNetworkChainingStatus l => Some l | _ => None end;
  zero := Build_NetworkChainingStatus ""; of_to l := eq_refl |}.
#[global] Instance elem_DnsSpec : Elem (C:=cell M) HDnsSpec := {|
  to_cell := CDnsSpec; of_cell c := match c with CDnsSpec l => Some l | _ => None end;
  zero := (mkHDnsSpec None "" None None); of_to l := eq_refl |}.
#[global] Instance elem_DirectSpec : Elem (C:=cell M) HDirectSpec := {|
  to_cell := CDirectSpec; of_cell c := match c with CDirectSpec l => Some l | _ => None end;
  zero := (mkHDirectSpec "" None ""); of_to l := eq_refl |}.
#[global] Instance elem_VlanSpec : Elem (C:=cell M) HVlanSpec := {|
  to_cell := CVlanSpec; of_cell c := match c with CVlanSpec l => Some l | _ => None end;
  zero := (mkHVlanSpec "" "" None "" ""); of_to l := eq_refl |}.
#[global] Instance elem_RouteSpec : Elem (C:=cell M) HRouteSpec := {|
  to_cell := CRouteSpec; of_cell c := match c with CRouteSpec l => Some l | _ => None end;
  zero := (mkHRouteSpec None None "" ""); of_to l := eq_refl |}.
#[global] Instance elem_NetworkSpec : Elem (C:=cell M) HNetworkSpec := {|
  to_cell := CNetworkSpec; of_cell c := match c with CNetworkSpec l => Some l | _ => None end;
  zero := (mkHNetworkSpec "" None None (mkHDnsSpec None "" None None) None); of_to l := eq_refl |}.
#[global] Instance elem_ProviderNetworkSpec : Elem (C:=cell M) HProviderNetworkSpec := {|
  to_cell := CProviderNetworkSpec; of_cell c := match c with CProviderNetworkSpec l => Some l | _ => None end;
  zero := (mkHProviderNetworkSpec "" None None (mkHDnsSpec None "" None None) None "" (mkHVlanSpec "" "" None "" "") (mkHDirectSpec "" None "")); of_to l := eq_refl |}.
#[global] Instance elem_NetworkChainingSpec : Elem (C:=cell M) HNetworkChainingSpec := {|
  to_cell := CNetworkChainingSpec; of_cell c := match c with CNetworkChainingSpec l => Some l | _ => None end;
  zero := (mkHNetworkChainingSpec "" (mkHRouteSpec None None "" "")); of_to l := eq_refl |}.
#[global] Instance elem_Network : Elem (C:=cell M) (HNetwork M) := {|
  to_cell := CNetwork; of_cell c := match c with CNetwork l => Some l | _ => None end;
  zero := (mkHNetwork (zero_TypeMeta M) (zero_ObjectMeta M) (mkHNetworkSpec "" None None (mkHDnsSpec None "" None None) None) (Build_NetworkStatus "")); of_to l := eq_refl |}.
#[global] Instance elem_ProviderNetwork : Elem (C:=cell M) (HProviderNetwork M) := {|
  to_cell := CProviderNetwork; of_cell c := match c with CProviderNetwork l => Some l | _ => None end;
  zero := (mkHProviderNetwork (zero_TypeMeta M) (zero_ObjectMeta M) (mkHProviderNetworkSpec "" None None (mkHDnsSpec None "" None None) None "" (mkHVlanSpec "" "" None "" "") (mkHDirectSpec "" None "")) (Build_ProviderNetworkStatus "")); of_to l := eq_refl |}.
#[global] Instance elem_NetworkChaining : Elem (C:=cell M) (HNetworkChaining M) := {|
  to_cell := CNetworkChaining; of_cell c := match c with CNetworkChaining l => Some l | _ => None end;
  zero := (mkHNetworkChaining (zero_TypeMeta M) (zero_ObjectMeta M) (mkHNetworkChainingSpec "" (mkHRouteSpec None None "" "")) (Build_NetworkChainingStatus "")); of_to l := eq_refl |}.
#[global] Instance elem_NetworkList : Elem (C:=cell M) (HNetworkList M) := {|
  to_cell := CNetworkList; of_cell c := match c with CNetworkList l => Some l | _ => None end;
  zero := (mkHNetworkList (zero_TypeMeta M) (zero_ListMeta M) None); of_to l := eq_refl |}.
#[global] Instance elem_ProviderNetworkList : Elem (C:=cell M) (HProviderNetworkList M) := {|
  to_cell := CProviderNetworkList; of_cell c := match c with CProviderNetworkList l => Some l | _ => None end;
  zero := (mkHProviderNetworkList (zero_TypeMeta M) (zero_ListMeta M) None); of_to l := eq_refl |}.
#[global] Instance elem_NetworkChainingList : Elem (C:=cell M) (HNetworkChainingList M) := {|
  to_cell := CNetworkChainingList; of_cell c := match c with CNetworkChainingList l => Some l | _ => None end;
  zero := (mkHNetworkChainingList (zero_TypeMeta M) (zero_ListMeta M) None); of_to l := eq_refl |}.

#[global] Instance flat_string : Flat string := TString.
#[global] Instance flat_TypeMeta : Flat (TypeMeta M) := tree_TypeMeta M.
#[global] Instance flat_IpSubnet : Flat IpSubnet := fun x => TList [TString (sub_Name x); TString (Subnet x); TString (Gateway x); TString (ExcludeIps x)].
#[global] Instance flat_Route : Flat Route := fun x => TList [TString (Dst x); TString (GW x)].
#[global] Instance flat_RoutingNetwork : Flat RoutingNetwork := fun x => TList [TString (NetworkName x); TString (rn_GatewayIP x); TString (rn_Subnet x)].
#[global] Instance flat_NetworkStatus : Flat NetworkStatus := fun x => TList [TString (nw_State x)].
#[global] Instance flat_ProviderNetworkStatus : Flat ProviderNetworkStatus := fun x => TList [TString (pn_State x)].
#[global] Instance flat_NetworkChainingStatus : Flat NetworkChainingStatus := fun x => TList [TString (nc_State x)].
End instances.

(** The metadata of the library: [ObjectMeta.DeepCopyInto], [ListMeta.DeepCopyInto]. *)
Class MetaCopiers (M : MetaTypes) := {
  objectmeta_copier :: Copier (C:=cell M) (HObjectMeta M);
  listmeta_copier :: Copier (C:=cell M) (HListMeta M)
}.

(** A struct's copy does what the copy of the tuple of its fields does. *)
Ltac copier_tac into :=
  first
    [ by intros y; repeat destruct y as [y ?]
    | intros x h; destruct x; unfold into; cbn;
      unfold mbind, H_bind, mret, H_ret, copy_pair; cbn;
      repeat (match goal with
              | |- context [match ?m with Some _ => _ | None => _ end] => destruct m as [[? ?]|]
              end; cbn; unfold mbind, H_bind, mret, H_ret); reflexivity ].

(** ** The methods *)
Section methods.
Context {M : MetaTypes} `{!MetaCopiers M}.
Abbreviation H := (Heap.H (cell M)).

Definition IpSubnet_DeepCopyInto (x : IpSubnet) : H IpSubnet := mret x.
Definition IpSubnet_DeepCopy : option (ref IpSubnet) -> H (option (ref IpSubnet)) := DeepCopy IpSubnet_DeepCopyInto.

Definition Route_DeepCopyInto (x : Route) : H Route := mret x.
Definition Route_DeepCopy : option (ref Route) -> H (option (ref Route)) := DeepCopy Route_DeepCopyInto.

Definition RoutingNetwork_DeepCopyInto (x : RoutingNetwork) : H RoutingNetwork := mret x.
Definition RoutingNetwork_DeepCopy : option (ref RoutingNetwork) -> H (option (ref RoutingNetwork)) := DeepCopy RoutingNetwork_DeepCopyInto.

Definition NetworkStatus_DeepCopyInto (x : NetworkStatus) : H NetworkStatus := mret x.
Definition NetworkStatus_DeepCopy : option (ref NetworkStatus) -> H (option (ref NetworkStatus)) := DeepCopy NetworkStatus_DeepCopyInto.

Definition ProviderNetworkStatus_DeepCopyInto (x : ProviderNetworkStatus) : H ProviderNetworkStatus := mret x.
Definition ProviderNetworkStatus_DeepCopy : option (ref ProviderNetworkStatus) -> H (option (ref ProviderNetworkStatus)) := DeepCopy ProviderNetworkStatus_DeepCopyInto.

Definition NetworkChainingStatus_DeepCopyInto (x : NetworkChainingStatus) : H NetworkChainingStatus := mret x.
Definition NetworkChainingStatus_DeepCopy : option (ref NetworkChainingStatus) -> H (option (ref NetworkChainingStatus)) := DeepCopy NetworkChainingStatus_DeepCopyInto.

Definition DnsSpec_DeepCopyInto (x : HDnsSpec) : H HDnsSpec :=
  nameservers ← copy_slice (h_Nameservers x);
  search ← copy_slice (h_Search x);
  options ← copy_slice (h_Options x);
  mret (mkHDnsSpec nameservers (h_Domain x) search options).
Definition DnsSpec_DeepCopy : option (ref HDnsSpec) -> H (option (ref HDnsSpec)) := DeepCopy DnsSpec_DeepCopyInto.
#[global] Instance DnsSpec_copier : Copier (C:=cell M) HDnsSpec.
Proof.
  refine (iso_copier (fun x => (h_Nameservers x, h_Domain x, h_Search x, h_Options x)) (fun '(a, b, c, d) => mkHDnsSpec a b c d)
            DnsSpec_DeepCopyInto _ _); copier_tac DnsSpec_DeepCopyInto.
Defined.

Definition DirectSpec_DeepCopyInto (x : HDirectSpec) : H HDirectSpec :=
  nodelabellist ← copy_slice (h_ds_NodeLabelList x);
  mret (mkHDirectSpec (h_DirectNodeSelector x) nodelabellist (h_ds_ProviderInterfaceName x)).
Definition DirectSpec_DeepCopy : option (ref HDirectSpec) -> H (option (ref HDirectSpec)) := DeepCopy DirectSpec_DeepCopyInto.
#[global] Instance DirectSpec_copier : Copier (C:=cell M) HDirectSpec.
Proof.
  refine (iso_copier (fun x => (h_DirectNodeSelector x, h_ds_NodeLabelList x, h_ds_ProviderInterfaceName x)) (fun '(a, b, c) => mkHDirectSpec a b c)
            DirectSpec_DeepCopyInto _ _); copier_tac DirectSpec_DeepCopyInto.
Defined.

Definition VlanSpec_DeepCopyInto (x : HVlanSpec) : H HVlanSpec :=
  nodelabellist ← copy_slice (h_vs_NodeLabelList x);
  mret (mkHVlanSpec (h_VlanId x) (h_VlanNodeSelector x) nodelabellist (h_vs_ProviderInterfaceName x) (h_LogicalInterfaceName x)).
Definition VlanSpec_DeepCopy : option (ref HVlanSpec) -> H (option (ref HVlanSpec)) := DeepCopy VlanSpec_DeepCopyInto.
#[global] Instance VlanSpec_copier : Copier (C:=cell M) HVlanSpec.
Proof.
  refine (iso_copier (fun x => (h_VlanId x, h_VlanNodeSelector x, h_vs_NodeLabelList x, h_vs_ProviderInterfaceName x, h_LogicalInterfaceName x)) (fun '(a, b, c, d, e) => mkHVlanSpec a b c d e)
            VlanSpec_DeepCopyInto _ _); copier_tac VlanSpec_DeepCopyInto.
Defined.

Definition RouteSpec_DeepCopyInto (x : HRouteSpec) : H HRouteSpec :=
  leftnetwork ← copy_slice (h_LeftNetwork x);
  rightnetwork ← copy_slice (h_RightNetwork x);
  mret (mkHRouteSpec leftnetwork rightnetwork (h_NetworkChain x) (h_rs_Namespace x)).
Definition RouteSpec_DeepCopy : option (ref HRouteSpec) -> H (option (ref HRouteSpec)) := DeepCopy RouteSpec_DeepCopyInto.
#[global] Instance RouteSpec_copier : Copier (C:=cell M) HRouteSpec.
Proof.
  refine (iso_copier (fun x => (h_LeftNetwork x, h_RightNetwork x, h_NetworkChain x, h_rs_Namespace x)) (fun '(a, b, c, d) => mkHRouteSpec a b c d)
            RouteSpec_DeepCopyInto _ _); copier_tac RouteSpec_DeepCopyInto.
Defined.

Definition NetworkSpec_DeepCopyInto (x : HNetworkSpec) : H HNetworkSpec :=
  ipv4subnets ← copy_slice (h_nw_Ipv4Subnets x);
  ipv6subnets ← copy_slice (h_nw_Ipv6Subnets x);
  dns ← DnsSpec_DeepCopyInto (h_nw_DNS x);
  routes ← copy_slice (h_nw_Routes x);
  mret (mkHNetworkSpec (h_nw_CniType x) ipv4subnets ipv6subnets dns routes).
Definition NetworkSpec_DeepCopy : option (ref HNetworkSpec) -> H (option (ref HNetworkSpec)) := DeepCopy NetworkSpec_DeepCopyInto.
#[global] Instance NetworkSpec_copier : Copier (C:=cell M) HNetworkSpec.
Proof.
  refine (iso_copier (fun x => (h_nw_CniType x, h_nw_Ipv4Subnets x, h_nw_Ipv6Subnets x, h_nw_DNS x, h_nw_Routes x)) (fun '(a, b, c, d, e) => mkHNetworkSpec a b c d e)
            NetworkSpec_DeepCopyInto _ _); copier_tac NetworkSpec_DeepCopyInto.
Defined.

Definition ProviderNetworkSpec_DeepCopyInto (x : HProviderNetworkSpec) : H HProviderNetworkSpec :=
  ipv4subnets ← copy_slice (h_pn_Ipv4Subnets x);
  ipv6subnets ← copy_slice (h_pn_Ipv6Subnets x);
  dns ← DnsSpec_DeepCopyInto (h_pn_DNS x);
  routes ← copy_slice (h_pn_Routes x);
  vlan ← VlanSpec_DeepCopyInto (h_pn_Vlan x);
  direct ← DirectSpec_DeepCopyInto (h_pn_Direct x);
  mret (mkHProviderNetworkSpec (h_pn_CniType x) ipv4subnets ipv6subnets dns routes (h_ProviderNetType x) vlan direct).
Definition ProviderNetworkSpec_DeepCopy : option (ref HProviderNetworkSpec) -> H (option (ref HProviderNetworkSpec)) := DeepCopy ProviderNetworkSpec_DeepCopyInto.
#[global] Instance ProviderNetworkSpec_copier : Copier (C:=cell M) HProviderNetworkSpec.
Proof.
  refine (iso_copier (fun x => (h_pn_CniType x, h_pn_Ipv4Subnets x, h_pn_Ipv6Subnets x, h_pn_DNS x, h_pn_Routes x, h_ProviderNetType x, h_pn_Vlan x, h_pn_Direct x)) (fun '(a, b, c, d, e, f, g, h) => mkHProviderNetworkSpec a b c d e f g h)
            ProviderNetworkSpec_DeepCopyInto _ _); copier_tac ProviderNetworkSpec_DeepCopyInto.
Defined.

Definition NetworkChainingSpec_DeepCopyInto (x : HNetworkChainingSpec) : H HNetworkChainingSpec :=
  routingspec ← RouteSpec_DeepCopyInto (h_RoutingSpec x);
  mret (mkHNetworkChainingSpec (h_ChainType x) routingspec).
Definition NetworkChainingSpec_DeepCopy : option (ref HNetworkChainingSpec) -> H (option (ref HNetworkChainingSpec)) := DeepCopy NetworkChainingSpec_DeepCopyInto.
#[global] Instance NetworkChainingSpec_copier : Copier (C:=cell M) HNetworkChainingSpec.
Proof.
  refine (iso_copier (fun x => (h_ChainType x, h_RoutingSpec x)) (fun '(a, b) => mkHNetworkChainingSpec a b)
            NetworkChainingSpec_DeepCopyInto _ _); copier_tac NetworkChainingSpec_DeepCopyInto.
Defined.

Definition Network_DeepCopyInto (x : (HNetwork M)) : H (HNetwork M) :=
  objectmeta ← copy (h_nw_ObjectMeta x);
  spec ← NetworkSpec_DeepCopyInto (h_nw_Spec x);
  mret (mkHNetwork (h_nw_TypeMeta x) objectmeta spec (h_nw_Status x)).
Definition Network_DeepCopy : option (ref (HNetwork M)) -> H (option (ref (HNetwork M))) := DeepCopy Network_DeepCopyInto.
Definition Network_DeepCopyObject : option (ref (HNetwork M)) -> H (option (ref (HNetwork M))) :=
  DeepCopyObject Network_DeepCopyInto.
#[global] Instance Network_copier : Copier (C:=cell M) (HNetwork M).
Proof.
  refine (iso_copier (fun x => (h_nw_TypeMeta x, h_nw_ObjectMeta x, h_nw_Spec x, h_nw_Status x)) (fun '(a, b, c, d) => mkHNetwork a b c d)
            Network_DeepCopyInto _ _); copier_tac Network_DeepCopyInto.
Defined.

Definition ProviderNetwork_DeepCopyInto (x : (HProviderNetwork M)) : H (HProviderNetwork M) :=
  objectmeta ← copy (h_pn_ObjectMeta x);
  spec ← ProviderNetworkSpec_DeepCopyInto (h_pn_Spec x);
  mret (mkHProviderNetwork (h_pn_TypeMeta x) objectmeta spec (h_pn_Status x)).
Definition ProviderNetwork_DeepCopy : option (ref (HProviderNetwork M)) -> H (option (ref (HProviderNetwork M))) := DeepCopy ProviderNetwork_DeepCopyInto.
Definition ProviderNetwork_DeepCopyObject : option (ref (HProviderNetwork M)) -> H (option (ref (HProviderNetwork M))) :=
  DeepCopyObject ProviderNetwork_DeepCopyInto.
#[global] Instance ProviderNetwork_copier : Copier (C:=cell M) (HProviderNetwork M).
Proof.
  refine (iso_copier (fun x => (h_pn_TypeMeta x, h_pn_ObjectMeta x, h_pn_Spec x, h_pn_Status x)) (fun '(a, b, c, d) => mkHProviderNetwork a b c d)
            ProviderNetwork_DeepCopyInto _ _); copier_tac ProviderNetwork_DeepCopyInto.
Defined.

Definition NetworkChaining_DeepCopyInto (x : (HNetworkChaining M)) : H (HNetworkChaining M) :=
  objectmeta ← copy (h_nc_ObjectMeta x);
  spec ← NetworkChainingSpec_DeepCopyInto (h_nc_Spec x);
  mret (mkHNetworkChaining (h_nc_TypeMeta x) objectmeta spec (h_nc_Status x)).
Definition NetworkChaining_DeepCopy : option (ref (HNetworkChaining M)) -> H (option (ref (HNetworkChaining M))) := DeepCopy NetworkChaining_DeepCopyInto.
Definition NetworkChaining_DeepCopyObject : option (ref (HNetworkChaining M)) -> H (option (ref (HNetworkChaining M))) :=
  DeepCopyObject NetworkChaining_DeepCopyInto.
#[global] Instance NetworkChaining_copier : Copier (C:=cell M) (HNetworkChaining M).
Proof.
  refine (iso_copier (fun x => (h_nc_TypeMeta x, h_nc_ObjectMeta x, h_nc_Spec x, h_nc_Status x)) (fun '(a, b, c, d) => mkHNetworkChaining a b c d)
            NetworkChaining_DeepCopyInto _ _); copier_tac NetworkChaining_DeepCopyInto.
Defined.

Definition NetworkList_DeepCopyInto (x : (HNetworkList M)) : H (HNetworkList M) :=
  listmeta ← copy (h_nwl_ListMeta x);
  items ← copy_items Network_DeepCopyInto (h_nwl_Items x);
  mret (mkHNetworkList (h_nwl_TypeMeta x) listmeta items).
Definition NetworkList_DeepCopy : option (ref (HNetworkList M)) -> H (option (ref (HNetworkList M))) := DeepCopy NetworkList_DeepCopyInto.
Definition NetworkList_DeepCopyObject : option (ref (HNetworkList M)) -> H (option (ref (HNetworkList M))) :=
  DeepCopyObject NetworkList_DeepCopyInto.
#[global] Instance NetworkList_copier : Copier (C:=cell M) (HNetworkList M).
Proof.
  refine (iso_copier (fun x => (h_nwl_TypeMeta x, h_nwl_ListMeta x, h_nwl_Items x)) (fun '(a, b, c) => mkHNetworkList a b c)
            NetworkList_DeepCopyInto _ _); copier_tac NetworkList_DeepCopyInto.
Defined.

Definition ProviderNetworkList_DeepCopyInto (x : (HProviderNetworkList M)) : H (HProviderNetworkList M) :=
  listmeta ← copy (h_pnl_ListMeta x);
  items ← copy_items ProviderNetwork_DeepCopyInto (h_pnl_Items x);
  mret (mkHProviderNetworkList (h_pnl_TypeMeta x) listmeta items).
Definition ProviderNetworkList_DeepCopy : option (ref (HProviderNetworkList M)) -> H (option (ref (HProviderNetworkList M))) := DeepCopy ProviderNetworkList_DeepCopyInto.
Definition ProviderNetworkList_DeepCopyObject : option (ref (HProviderNetworkList M)) -> H (option (ref (HProviderNetworkList M))) :=
  DeepCopyObject ProviderNetworkList_DeepCopyInto.
#[global] Instance ProviderNetworkList_copier : Copier (C:=cell M) (HProviderNetworkList M).
Proof.
  refine (iso_copier (fun x => (h_pnl_TypeMeta x, h_pnl_ListMeta x, h_pnl_Items x)) (fun '(a, b, c) => mkHProviderNetworkList a b c)
            ProviderNetworkList_DeepCopyInto _ _); copier_tac ProviderNetworkList_DeepCopyInto.
Defined.

Definition NetworkChainingList_DeepCopyInto (x : (HNetworkChainingList M)) : H (HNetworkChainingList M) :=
  listmeta ← copy (h_ncl_ListMeta x);
  items ← copy_items NetworkChaining_DeepCopyInto (h_ncl_Items x);
  mret (mkHNetworkChainingList (h_ncl_TypeMeta x) listmeta items).
Definition NetworkChainingList_DeepCopy : option (ref (HNetworkChainingList M)) -> H (option (ref (HNetworkChainingList M))) := DeepCopy NetworkChainingList_DeepCopyInto.
Definition NetworkChainingList_DeepCopyObject : option (ref (HNetworkChainingList M)) -> H (option (ref (HNetworkChainingList M))) :=
  DeepCopyObject NetworkChainingList_DeepCopyInto.
#[global] Instance NetworkChainingList_copier : Copier (C:=cell M) (HNetworkChainingList M).
Proof.
  refine (iso_copier (fun x => (h_ncl_TypeMeta x, h_ncl_ListMeta x, h_ncl_Items x)) (fun '(a, b, c) => mkHNetworkChainingList a b c)
            NetworkChainingList_DeepCopyInto _ _); copier_tac NetworkChainingList_DeepCopyInto.
Defined.

(** [updatePnStatus] of server.go up to the call of the API server: the copy
    gets the new state. *)
Definition copy_with_state (pn : option (ref (HProviderNetwork M))) (status : string)
  : H (option (ref (HProviderNetwork M))) :=
  pnCopy ← ProviderNetwork_DeepCopy pn;
  match pnCopy with
  | None => fun _ => None                    (* nil pointer dereference *)
  | Some r =>
      x ← load r;
      store r (mkHProviderNetwork (h_pn_TypeMeta x) (h_pn_ObjectMeta x) (h_pn_Spec x)
                 (Build_ProviderNetworkStatus status));;
      mret (Some r)
  end.

(** ** Properties *)

(** A deep copy [m]: it adds arrays to the heap and changes none, what it
    returns is nil exactly if its argument is, and is equal to it and made of
    new arrays; so writes to new arrays never show through the argument, and
    writes to old ones never through the result. *)
Definition deep {A} `{!Elem (C:=cell M) A, !Copier (C:=cell M) A}
    (m : option (ref A) -> H (option (ref A))) : Prop :=
  forall h p t ls, see_ref h p = Some (t, ls) -> exists p' nh ls',
    m p h = Some (p', h ++ nh) /\ see_ref (h ++ nh) p' = Some (t, ls') /\
    (p = None <-> p' = None) /\
    (forall h2, (forall l, (l < length h)%nat -> h2 !! l = h !! l) -> see_ref h2 p = Some (t, ls)) /\
    (forall h2, (forall l, (length h <= l)%nat -> h2 !! l = (h ++ nh) !! l) -> see_ref h2 p' = Some (t, ls')).

Lemma deep_copy {A} `{!Elem (C:=cell M) A, !Copier (C:=cell M) A} : deep (DeepCopy (copy (A:=A))).
Proof. intros h p t ls. apply DeepCopy_apart. Qed.

Lemma deep_object {A} `{!Elem (C:=cell M) A, !Copier (C:=cell M) A} : deep (DeepCopyObject (copy (A:=A))).
Proof. intros h p t ls Hp. rewrite DeepCopyObject_eq. by apply DeepCopy_apart. Qed.

(** C22: the generated copies of all custom resources and of their parts are deep:
    nothing that was there changes, the copy is equal to the original, nil for
    nil down to each slice, and neither can be changed through the other. *)
Theorem generated_copies_deep :
  (deep Network_DeepCopy /\ deep ProviderNetwork_DeepCopy /\ deep NetworkChaining_DeepCopy) /\
  (deep NetworkList_DeepCopy /\ deep ProviderNetworkList_DeepCopy /\ deep NetworkChainingList_DeepCopy) /\
  (deep Network_DeepCopyObject /\ deep ProviderNetwork_DeepCopyObject /\ deep NetworkChaining_DeepCopyObject /\
   deep NetworkList_DeepCopyObject /\ deep ProviderNetworkList_DeepCopyObject /\
   deep NetworkChainingList_DeepCopyObject) /\
  (deep NetworkSpec_DeepCopy /\ deep ProviderNetworkSpec_DeepCopy /\ deep NetworkChainingSpec_DeepCopy /\
   deep DnsSpec_DeepCopy /\ deep VlanSpec_DeepCopy /\ deep DirectSpec_DeepCopy /\ deep RouteSpec_DeepCopy) /\
  (deep IpSubnet_DeepCopy /\ deep Route_DeepCopy /\ deep RoutingNetwork_DeepCopy /\
   deep NetworkStatus_DeepCopy /\ deep ProviderNetworkStatus_DeepCopy /\ deep NetworkChainingStatus_DeepCopy).
Proof.
  repeat match goal with
  | |- _ /\ _ => split
  | |- deep (A:=?A) _ => exact (deep_copy (A:=A)) || exact (deep_object (A:=A))
  end.
Qed.

(** the status that [updatePnStatus] sends to the API server is set on a copy:
    the network that it was called with is seen unchanged, and the copy differs
    from it in its state only. *)
Theorem copy_with_state_keeps_original r st h t ls :
  see_ref h (Some r) = Some (t, ls) ->
  exists r' nh rest old ls',
    copy_with_state (Some r) st h = Some (Some r', h ++ nh) /\
    see_ref (h ++ nh) (Some r) = Some (t, ls) /\
    t = TList [TPair rest old] /\
    see_ref (h ++ nh) (Some r') = Some (TList [TPair rest (TList [TString st])], ls').
Proof.
  intros Hp. destruct (DeepCopy_new _ _ _ _ Hp) as (x & nh & t1 & ls' & Hc & Hs & -> & Hf).
  set (y := mkHProviderNetwork (h_pn_TypeMeta x) (h_pn_ObjectMeta x) (h_pn_Spec x)
              (Build_ProviderNetworkStatus st)).
  assert (Hy : exists rest old k, t1 = TPair rest old /\
    see (h ++ to_cell [y] :: nh) y = Some (TPair rest (TList [TString st]), k)).
  { set (hh := h ++ to_cell [y] :: nh).
    assert (Hx : see_pair hh (h_pn_TypeMeta x, h_pn_ObjectMeta x, h_pn_Spec x, h_pn_Status x) = Some (t1, ls'))
      by exact (Hs (to_cell [y])).
    apply see_pair_Some in Hx as (rest & l1 & old & l2 & H1 & H2 & -> & ->).
    exists rest, old, (l1 ++ []). split; [done|].
    change (see hh y) with (see_pair hh (h_pn_TypeMeta x, h_pn_ObjectMeta x, h_pn_Spec x, Build_ProviderNetworkStatus st)).
    apply see_pair_Some. by exists rest, l1, (TList [TString st]), []. }
  destruct Hy as (rest & old & k & -> & Hy).
  exists (mkRef (length h) 0), (to_cell [y] :: nh), rest, old, (length h :: k).
  split; [|split; [|split; [done|exact (see_ref_new _ _ _ _ _ Hy)]]].
  - unfold copy_with_state, mbind, H_bind. change ProviderNetwork_DeepCopy with (DeepCopy (copy (A:=HProviderNetwork M))).
    rewrite Hc. unfold load, store. cbn [r_arr r_idx]. rewrite array_new. cbn [mbind option_bind lookup list_lookup].
    rewrite array_new. cbn [mbind option_bind list_insert insert]. by rewrite insert_new.
  - eapply see_ref_frame; [done|]. intros l Hl. apply lookup_app_l. exact (see_ref_bound _ _ _ _ _ Hp Hl).
Qed.
End methods.

(** ** A concrete run

    Object metadata with a name and finalizers. *)
Definition demo_types : MetaTypes :=
  mkMetaTypes string (string * option (slice string)) string () "" ("", None) "" TString.

#[global] Instance demo_copiers : MetaCopiers demo_types := {|
  objectmeta_copier := pair_copier (C:=cell demo_types) (A:=string) (B:=option (slice string));
  listmeta_copier := flat_copier (C:=cell demo_types) (A:=string)
|}.

Definition demo_pn_struct : HProviderNetwork demo_types :=
  mkHProviderNetwork (M:=demo_types) "ProviderNetwork" ("pn1", Some (mkSlice 0 0 1))
    (mkHProviderNetworkSpec "ovn4nfv" (Some (mkSlice 1 0 1)) None (mkHDnsSpec None "" None None) None "VLAN"
       (mkHVlanSpec "100" "specific" (Some (mkSlice 0 1 1)) "eth1" "eth1.100") (mkHDirectSpec "" None ""))
    (Build_ProviderNetworkStatus "").

(** The finalizers and the node labels are two parts of one array. *)
Definition demo_heap : list (cell demo_types) :=
  [CString ["nfnCleanUpProviderNetwork"; "disk=ssd"];
   CIpSubnet [Build_IpSubnet "s" "172.16.33.0/24" "" ""];
   CProviderNetwork [demo_pn_struct]].

Definition demo_tree : tree :=
  match see_ref demo_heap (Some (mkRef (A:=HProviderNetwork demo_types) 2 0)) with
  | Some (t, _) => t | None => TNil
  end.

Lemma generated_copies_deep_witness :
  let p := Some (mkRef (A:=HProviderNetwork demo_types) 2 0) in
  (exists p' nh ls', ProviderNetwork_DeepCopy p demo_heap = Some (p', demo_heap ++ nh) /\
     see_ref (demo_heap ++ nh) p' = Some (demo_tree, ls')) /\
  demo_tree <> TNil /\
  option_map (fun r => (fst r, length (snd r))) (ProviderNetwork_DeepCopy p demo_heap)
    = Some (Some (mkRef 3 0), 7).
Proof.
  split; [|split; [vm_compute; discriminate|vm_compute; reflexivity]].
  destruct (@generated_copies_deep demo_types demo_copiers) as [(_ & H & _) _].
  destruct (H demo_heap (Some (mkRef 2 0)) demo_tree [2; 0; 1; 0] ltac:(vm_compute; reflexivity))
    as (p' & nh & ls' & Hc & Hs & _).
  by exists p', nh, ls'.
Defined.

Lemma copy_with_state_keeps_original_witness :
  let r := mkRef (A:=HProviderNetwork demo_types) 2 0 in
  exists r' nh rest old ls',
    copy_with_state (Some r) "Created" demo_heap = Some (Some r', demo_heap ++ nh) /\
    see_ref (demo_heap ++ nh) (Some r) = Some (demo_tree, [2; 0; 1; 0]) /\
    demo_tree = TList [TPair rest old] /\
    see_ref (demo_heap ++ nh) (Some r') = Some (TList [TPair rest (TList [TString "Created"])], ls').
Proof.
  exact (@copy_with_state_keeps_original demo_types demo_copiers (mkRef 2 0) "Created" demo_heap demo_tree
    [2; 0; 1; 0] ltac:(vm_compute; reflexivity)).
Defined.
