(* ===== verification/World.v ===== *)
(** * World: effects, package state and the program logic

    A Go function with effects is a computation [M E A].  It runs in a state
    made of the package-level variables of the process ([Globals]) and of the
    environment [E], everything outside the process, and returns

    - an outcome: a value, a run-time panic, or a block (the goroutine waits
      forever on a channel);
    - the new state;
    - the events it produced, in order: each use of the environment.

    Go's multiple results are tuples whose last component is the error
    ([None] for nil). *)

From S2P Require Import Prelude.
From S2P Require Import GoStrings.
From S2P Require Import GoNet.
From S2P Require Import Types.

#[local] Open Scope string_scope.
#[local] Open Scope list_scope.

(** ** Errors

    [ErrorString m] is the value of [errors.New(m)], which [fmt.Errorf] also
    returns here as no call wraps with %w.  Any other dynamic type comes from
    code outside the repository. *)
Inductive error :=
| ErrorString (msg : string)
| OtherError (dyn_type msg : string).

#[global] Instance error_eq_dec : EqDecision error.
Proof. solve_decision. Defined.

(** The [Error()] method. *)
Definition Error (e : error) : string :=
  match e with ErrorString m => m | OtherError _ m => m end.

Definition Errorf (m : string) : option error := Some (ErrorString m).

(** [reflect.DeepEqual(err, fmt.Errorf(m))] for a non-nil [err]: the same
    dynamic type and the same text. *)
Definition DeepEqualErrorf (e : error) (m : string) : bool := e == ErrorString m.

(** ** Package state *)

(** [execHelper] of internal/pkg/ovn/utils.go (the [exec] interface is the
    environment itself). *)
Record execHelper := {
  nbctlPath : string; vsctlPath : string; ipPath : string; hostIP : string; hostPort : string
}.

Record OVNNetworkConf := { conf_Subnet : string; conf_GatewayIP : string; conf_ExcludeIPs : string }.

(** [Controller] of internal/pkg/ovn/ovn.go. *)
Record Controller := { gatewayCache : gmap string string }.

(** [client] of internal/pkg/nfnNotify/server.go; a stream is named by a
    number, [None] is the nil interface. *)
Record client := { context : SubscribeContext; stream : option nat }.

Record Globals := mkGlobals {
  runner : option execHelper;              (* ovn.runner *)
  ovnConf : option OVNNetworkConf;         (* ovn.ovnConf *)
  ovnCtl : option Controller;              (* ovn.ovnCtl *)
  notifServer : option (gmap string client); (* nfn.notifServer.clientList *)
  pnClientset : bool;                      (* nfn.pnClientset is not nil *)
  kubeClientset : bool;                    (* nfn.kubeClientset is not nil *)
  chainRoutingInfo : list RoutingInfo;     (* chaining.chainRoutingInfo *)
  inSync : bool;                           (* agent: inSync *)
  pnCreateStore : list ProviderNetworkCreate (* agent: pnCreateStore *)
}.

Definition set_runner r g := mkGlobals r (ovnConf g) (ovnCtl g) (notifServer g) (pnClientset g)
  (kubeClientset g) (chainRoutingInfo g) (inSync g) (pnCreateStore g).
Definition set_ovnConf c g := mkGlobals (runner g) c (ovnCtl g) (notifServer g) (pnClientset g)
  (kubeClientset g) (chainRoutingInfo g) (inSync g) (pnCreateStore g).
Definition set_ovnCtl c g := mkGlobals (runner g) (ovnConf g) c (notifServer g) (pnClientset g)
  (kubeClientset g) (chainRoutingInfo g) (inSync g) (pnCreateStore g).
Definition set_notifServer n g := mkGlobals (runner g) (ovnConf g) (ovnCtl g) n (pnClientset g)
  (kubeClientset g) (chainRoutingInfo g) (inSync g) (pnCreateStore g).
Definition set_chainRoutingInfo r g := mkGlobals (runner g) (ovnConf g) (ovnCtl g) (notifServer g)
  (pnClientset g) (kubeClientset g) r (inSync g) (pnCreateStore g).
Definition set_inSync b g := mkGlobals (runner g) (ovnConf g) (ovnCtl g) (notifServer g)
  (pnClientset g) (kubeClientset g) (chainRoutingInfo g) b (pnCreateStore g).
Definition set_pnCreateStore l g := mkGlobals (runner g) (ovnConf g) (ovnCtl g) (notifServer g)
  (pnClientset g) (kubeClientset g) (chainRoutingInfo g) (inSync g) l.

(** The variables of a process that has not run anything yet. *)
Definition initGlobals : Globals := mkGlobals None None None None false false [] false [].

(** ** Events *)

Inductive Event :=
| ECmd (path : string) (args : list string) (out stderr : string) (err : option error)
| ESleep (seconds : Z)
| EQuery (what : string)                       (* a read without effect outside *)
| ENetlink (op : string) (args : list string) (err : option error)
| EIPTables (op : string) (args : list string) (err : option error)
| ENetns (path : string) (enter : bool)
| ESend (stream : nat) (msg : Notification) (err : option error)
| EUpdateNetwork (n : Network) (err : option error)
| EStatusNetwork (n : Network) (err : option error)
| EUpdatePn (p : ProviderNetwork) (err : option error)
| EStatusPn (p : ProviderNetwork) (err : option error)
| EClientUpdatePn (ns : string) (p : ProviderNetwork) (err : option error)
| EUpdateNc (c : NetworkChaining) (err : option error)
| EStatusNc (c : NetworkChaining) (err : option error)
| EPatchPod (name patch : string) (err : option error)
| EPatch (kind name patch : string) (err : option error)
| EFile (op path : string) (err : option error).

(** The pause of [runOVNretry] between two attempts. *)
Definition is_retry_pause (e : Event) : bool :=
  match e with ESleep z => bool_decide (z = 2%Z) | _ => false end.

Definition starts_with_pause (es : list Event) : bool :=
  match es with e :: _ => is_retry_pause e | [] => false end.

(** The events with every superseded attempt removed: a command followed by
    the retry pause was refused by the server and is run again. *)
Fixpoint compress (es : list Event) : list Event :=
  match es with
  | [] => []
  | ECmd p a o s e :: es' =>
      if starts_with_pause es' then compress es' else ECmd p a o s e :: compress es'
  | e :: es' => if is_retry_pause e then compress es' else e :: compress es'
  end.

(** The commands of an event list, without the path of the executable. *)
Definition cmd_of (e : Event) : option (string * list string) :=
  match e with ECmd p a _ _ _ => Some (p, a) | _ => None end.
Definition cmds (es : list Event) : list (string * list string) := omap cmd_of es.

(** ** The monad *)

Inductive Res (A : Type) :=
| Val (a : A)
| Panic (why : string)
| Block.
Arguments Val {A} _.
Arguments Panic {A} _.
Arguments Block {A}.

Record St (E : Type) := mkSt { glob : Globals; env : E }.
Arguments mkSt {E} _ _.
Arguments glob {E} _.
Arguments env {E} _.

Definition M (E A : Type) : Type := St E -> Res A * St E * list Event.

#[global] Instance M_ret E : MRet (M E) := fun A a s => (Val a, s, []).
#[global] Instance M_bind E : MBind (M E) := fun A B k m s =>
  match m s with
  | (Val a, s1, e1) => let '(r, s2, e2) := k a s1 in (r, s2, e1 ++ e2)
  | (Panic w, s1, e1) => (Panic w, s1, e1)
  | (Block, s1, e1) => (Block, s1, e1)
  end.

Section ops.
Context {E : Type}.

Definition panic {A} (why : string) : M E A := fun s => (Panic why, s, []).
Definition block {A} : M E A := fun s => (Block, s, []).
Definition get_glob : M E Globals := fun s => (Val (glob s), s, []).
Definition mod_glob (f : Globals -> Globals) : M E () :=
  fun s => (Val (), mkSt (f (glob s)) (env s), []).

(** A use of the environment: an answer, a new environment, one event. *)
Definition prim {A} (f : E -> A * E) (ev : A -> Event) : M E A :=
  fun s => let '(a, e') := f (env s) in (Val a, mkSt (glob s) e', [ev a]).

Definition deref {A} (o : option A) : M E A :=
  match o with Some a => mret a | None => panic "nil pointer dereference" end.

(** [l[i]]. *)
Definition index {A} (l : list A) (i : Z) : M E A :=
  if (i <? 0)%Z then panic "index out of range"
  else match l !! Z.to_nat i with
       | Some a => mret a
       | None => panic "index out of range"
       end.

(** [s[:n]] on a string. *)
Definition slice_to (s : string) (n : nat) : M E string :=
  if (n <=? String.length s)%nat then mret (take_string n s)
  else panic "slice bounds out of range".

(** [for _, x := range xs]: [L] are the variables that the body updates;
    [inr r] leaves the function with result [r]. *)
Fixpoint for_range {X L R} (body : X -> L -> M E (L + R)) (xs : list X) (l : L) : M E (L + R) :=
  match xs with
  | [] => mret (inl l)
  | x :: xs' =>
      body x l ≫= fun r =>
      match r with
      | inl l' => for_range body xs' l'
      | inr ret => mret (inr ret)
      end
  end.
End ops.

(** ** Equations *)

Section equations.
Context {E : Type}.

Lemma ret_bind {A B} (a : A) (k : A -> M E B) s : (mret a ≫= k) s = k a s.
Proof. unfold mbind, M_bind. simpl. by destruct (k a s) as [[r s2] e2]. Qed.

(** Dropping the last character. *)
Lemma slice_last w c :
  @slice_to E (w +:+ String c "") (String.length (w +:+ String c "") - 1) = mret w.
Proof.
  unfold slice_to. rewrite length_append. cbn [String.length]. rewrite Nat.add_sub.
  rewrite (proj2 (Nat.leb_le _ _)) by lia. by rewrite take_string_app.
Qed.

Lemma index_0 {A} (x : A) l : @index E A (x :: l) 0 = mret x.
Proof. done. Qed.

Lemma index_1 {A} (x y : A) l : @index E A (x :: y :: l) 1 = mret y.
Proof. done. Qed.
End equations.

#[export] Hint Rewrite @ret_bind @index_0 @index_1 : ovn_rw.

(** ** Program logic

    [wp m Q s]: running [m] in [s] gives an outcome, a state and a compressed
    event list that satisfy [Q].  Every computation is total, so [wp] is total
    correctness; the side condition that the events do not start with a retry
    pause makes compression compositional. *)
Definition wp {E A} (m : M E A) (Q : Res A -> St E -> list Event -> Prop) (s : St E) : Prop :=
  let '(r, s', es) := m s in starts_with_pause es = false /\ Q r s' (compress es).

Lemma compress_app e1 e2 :
  starts_with_pause e2 = false -> compress (e1 ++ e2) = compress e1 ++ compress e2.
Proof.
  intros H2. induction e1 as [|e e1 IH]; [done|].
  assert (Hs : starts_with_pause (e1 ++ e2) = starts_with_pause e1)
    by (destruct e1; [exact H2|done]).
  simpl. rewrite Hs, IH. by repeat case_match.
Qed.

Lemma starts_with_pause_app e1 e2 :
  starts_with_pause e1 = false -> starts_with_pause e2 = false ->
  starts_with_pause (e1 ++ e2) = false.
Proof. by destruct e1. Qed.

Section wp.
Context {E : Type}.
Implicit Types s : St E.

Lemma wp_mono {A} (m : M E A) (P Q : Res A -> St E -> list Event -> Prop) s :
  (forall r s' es, P r s' es -> Q r s' es) -> wp m P s -> wp m Q s.
Proof. unfold wp. destruct (m s) as [[r s'] es]. intuition eauto. Qed.

Lemma wp_and {A} (m : M E A) (P Q : Res A -> St E -> list Event -> Prop) s :
  wp m P s -> wp m Q s -> wp m (fun r s' es => P r s' es /\ Q r s' es) s.
Proof. unfold wp. destruct (m s) as [[r s'] es]. intuition eauto. Qed.

Lemma wp_elim {A} (m : M E A) Q s r s' es :
  wp m Q s -> m s = (r, s', es) -> Q r s' (compress es).
Proof. unfold wp. intros H Hm. rewrite Hm in H. tauto. Qed.

Lemma wp_ret {A} (a : A) (Q : Res A -> St E -> list Event -> Prop) s :
  Q (Val a) s [] -> wp (mret a) Q s.
Proof. done. Qed.

Lemma wp_panic {A} w (Q : Res A -> St E -> list Event -> Prop) s :
  Q (Panic w) s [] -> wp (panic w) Q s.
Proof. done. Qed.

Lemma wp_block {A} (Q : Res A -> St E -> list Event -> Prop) s :
  Q Block s [] -> wp block Q s.
Proof. done. Qed.

(** The continuation sees the events of the first computation in front. *)
Definition after {A B} (k : A -> M E B) (Q : Res B -> St E -> list Event -> Prop)
    (r : Res A) s (e1 : list Event) : Prop :=
  match r with
  | Val a => wp (k a) (fun r2 s2 e2 => Q r2 s2 (e1 ++ e2)) s
  | Panic w => Q (Panic w) s e1
  | Block => Q Block s e1
  end.

Lemma wp_bind {A B} (m : M E A) (k : A -> M E B) Q s :
  wp m (after k Q) s -> wp (m ≫= k) Q s.
Proof.
  unfold wp, mbind, M_bind, after. destruct (m s) as [[[a|w|] s1] e1]; [|done..].
  unfold wp. destruct (k a s1) as [[r s2] e2]. intros (H1 & H2 & HQ).
  split; [by apply starts_with_pause_app|]. by rewrite compress_app.
Qed.

Lemma wp_get_glob Q s : Q (Val (glob s)) s [] -> wp get_glob Q s.
Proof. done. Qed.

Lemma wp_mod_glob f Q s : Q (Val ()) (mkSt (f (glob s)) (env s)) [] -> wp (mod_glob f) Q s.
Proof. done. Qed.

Lemma wp_prim {A} (f : E -> A * E) ev Q s :
  (forall a e', f (env s) = (a, e') -> is_retry_pause (ev a) = false /\
     Q (Val a) (mkSt (glob s) e') [ev a]) ->
  wp (prim f ev) Q s.
Proof.
  unfold wp, prim. destruct (f (env s)) as [a e'] eqn:Hf. intros H.
  destruct (H a e' eq_refl) as [Hp HQ]. split; [done|].
  simpl. destruct (ev a); try done. simpl in *. by rewrite Hp.
Qed.

(** The same when any answer will do. *)
Lemma wp_ask {A} (f : E -> A * E) ev Q s :
  (forall a e', is_retry_pause (ev a) = false /\ Q (Val a) (mkSt (glob s) e') [ev a]) ->
  wp (prim f ev) Q s.
Proof. intros H. apply wp_prim. intros a e' _. apply H. Qed.

(** Loop rule: [I done l es] holds before each round, [done] being the
    elements visited; a round keeps it or leaves the function. *)
Lemma wp_for_range {X L R} (body : X -> L -> M E (L + R))
    (I : list X -> L -> St E -> list Event -> Prop)
    (Q : Res (L + R) -> St E -> list Event -> Prop) xs l s :
  I [] l s [] ->
  (forall dn x rest l s es, xs = dn ++ x :: rest -> I dn l s es ->
     wp (body x l) (fun r s' es' =>
       match r with
       | Val (inl l') => I (dn ++ [x]) l' s' (es ++ es')
       | Val (inr ret) => Q (Val (inr ret)) s' (es ++ es')
       | Panic w => Q (Panic w) s' (es ++ es')
       | Block => Q Block s' (es ++ es')
       end) s) ->
  (forall l s es, I xs l s es -> Q (Val (inl l)) s es) ->
  wp (for_range body xs l) Q s.
Proof.
  intros HI Hbody Hend.
  enough (G : forall rest dn l s es, xs = dn ++ rest -> I dn l s es ->
    wp (for_range body rest l) (fun r s' es' => Q r s' (es ++ es')) s).
  { specialize (G xs [] l s [] eq_refl HI). done. }
  induction rest as [|x rest IH]; intros dn l' s' es Hxs HI'.
  - apply wp_ret. rewrite app_nil_r in *. subst. by apply Hend.
  - cbn [for_range]. apply wp_bind. eapply wp_mono; [|by eapply Hbody].
    intros [[l2|ret]|w|] s2 e2; cbn [after]; [| |done|done].
    + intros HI2.
      apply (wp_mono _ (fun r s' es' => Q r s' ((es ++ e2) ++ es'))).
      { intros r s3 e3. by rewrite <- app_assoc. }
      apply (IH (dn ++ [x])); [|done]. by rewrite <- app_assoc.
    + intros HQ. apply wp_ret. by rewrite app_nil_r.
Qed.
End wp.

#[export] Hint Resolve wp_ret : ovn.

(** One structural step of a [wp] goal. *)
Ltac wp_step :=
  lazymatch goal with
  | |- wp (mret _) _ _ => apply wp_ret
  | |- wp (_ ≫= _) _ _ => apply wp_bind
  | |- wp (deref (Some _)) _ _ => apply wp_ret
  | |- wp (deref None) _ _ => apply wp_panic
  | |- wp (panic _) _ _ => apply wp_panic
  | |- wp block _ _ => apply wp_block
  | |- wp get_glob _ _ => apply wp_get_glob
  | |- wp (mod_glob _) _ _ => apply wp_mod_glob
  | |- after _ _ (Val _) _ _ => cbn [after]
  | |- after _ _ (Panic _) _ _ => cbn [after]
  | |- after _ _ Block _ _ => cbn [after]
  end.
Ltac wp_steps := repeat wp_step.
