(* ===== verification/Proto.v ===== *)
(** * Proto: the generated messages and stubs of nfnNotify/proto/nfn.pb.go

    The nil-safe getters of the messages, a nil pointer being [None], and the
    stubs of the service: the client's [Subscribe] and [Recv], the server's
    handler and [Send].  The streams themselves are gRPC's ([GrpcWorld]);
    [GrpcLaws] is what its documentation says of a stream that has not been
    lost: messages arrive once and in order. *)

From S2P Require Import Prelude.
From S2P Require Import Types.
From S2P Require Import World.

#[local] Open Scope string_scope.
#[local] Open Scope list_scope.

(** ** Getters *)

Definition GetNodeName (m : option SubscribeContext) : string := from_option sc_NodeName "" m.

Definition GetCniType (m : option Notification) : string := from_option CniType "" m.
Definition GetPayload (m : option Notification) : option Payload := m ≫= payload.

Definition GetInSync (m : option Notification) : option InSync :=
  match GetPayload m with Some (Notification_InSync x) => Some x | _ => None end.
Definition GetProviderNwCreate (m : option Notification) : option ProviderNetworkCreate :=
  match GetPayload m with Some (Notification_ProviderNwCreate x) => Some x | _ => None end.
Definition GetProviderNwRemove (m : option Notification) : option ProviderNetworkRemove :=
  match GetPayload m with Some (Notification_ProviderNwRemove x) => Some x | _ => None end.
Definition GetContainterRtInsert (m : option Notification) : option ContainerRouteInsert :=
  match GetPayload m with Some (Notification_ContainterRtInsert x) => Some x | _ => None end.
Definition GetContainterRtRemove (m : option Notification) : option ContainerRouteRemove :=
  match GetPayload m with Some (Notification_ContainterRtRemove x) => Some x | _ => None end.

Definition GetCreateName (m : option ProviderNetworkCreate) : string := from_option pc_ProviderNwName "" m.
Definition GetCreateVlan (m : option ProviderNetworkCreate) : option VlanInfo := m ≫= Vlan.
Definition GetCreateDirect (m : option ProviderNetworkCreate) : option DirectInfo := m ≫= Direct.

Definition GetRemoveName (m : option ProviderNetworkRemove) : string := from_option pr_ProviderNwName "" m.
Definition GetVlanLogicalIntf (m : option ProviderNetworkRemove) : string := from_option VlanLogicalIntf "" m.
Definition GetDirectProviderIntfName (m : option ProviderNetworkRemove) : string := from_option DirectProviderIntf "" m.

Definition GetDst (m : option RouteData) : string := from_option rd_Dst "" m.
Definition GetGw (m : option RouteData) : string := from_option rd_Gw "" m.

Definition GetInsertContainerId (m : option ContainerRouteInsert) : string := from_option ContainerId "" m.
Definition GetInsertRoute (m : option ContainerRouteInsert) : list RouteData := from_option ins_Route [] m.
Definition GetRemoveContainerId (m : option ContainerRouteRemove) : string := from_option rem_ContainerId "" m.
Definition GetRemoveRoute (m : option ContainerRouteRemove) : list RouteData := from_option rem_Route [] m.

Definition GetNodeIntfIpAddress (m : option InSync) : string := from_option NodeIntfIpAddress "" m.
Definition GetNodeIntfMacAddress (m : option InSync) : string := from_option NodeIntfMacAddress "" m.

(** ** gRPC

    A stream is a number, the same at both ends; what [RecvMsg] fills in is what
    it returns. *)
Class GrpcWorld (E : Type) := {
  NewStream : string -> E -> (nat + error) * E;
  ClientSendMsg : nat -> SubscribeContext -> E -> option error * E;
  CloseSend : nat -> E -> option error * E;
  ClientRecvMsg : nat -> E -> (Notification + error) * E;
  ServerRecvMsg : nat -> E -> (SubscribeContext + error) * E;
  ServerSendMsg : nat -> Notification -> E -> option error * E
}.

Section stubs.
Context {E : Type} `{!GrpcWorld E}.

(** [nfnNotifyClient.Subscribe]. *)
Definition client_Subscribe (in_ : SubscribeContext) : E -> (nat + error) * E := fun e =>
  let '(stream, e) := NewStream "/nfnNotify/Subscribe" e in
  match stream with
  | inr err => (inr err, e)
  | inl x =>
      let '(err, e) := ClientSendMsg x in_ e in
      match err with Some err => (inr err, e) | None =>
      let '(err, e) := CloseSend x e in
      match err with Some err => (inr err, e) | None => (inl x, e) end end
  end.

(** [nfnNotifySubscribeClient.Recv]. *)
Definition Recv (x : nat) : E -> (option Notification * option error) * E := fun e =>
  let '(m, e) := ClientRecvMsg x e in
  match m with inr err => ((None, Some err), e) | inl m => ((Some m, None), e) end.

(** [nfnNotifySubscribeServer.Send]. *)
Definition server_Send (x : nat) (m : Notification) : E -> option error * E := ServerSendMsg x m.

(** [_NfnNotify_Subscribe_Handler]: [srv] is the server's [Subscribe]. *)
Definition Subscribe_Handler (srv : SubscribeContext -> nat -> M E (option error)) (stream : nat)
  : M E (option error) :=
  m ← prim (ServerRecvMsg stream) (fun _ => EQuery "RecvMsg");
  match m with inr err => mret (Some err) | inl m => srv m stream end.

(** [UnimplementedNfnNotifyServer.Subscribe]. *)
Definition Unimplemented_Subscribe (req : SubscribeContext) (srv : nat) : M E (option error) :=
  mret (Some (OtherError "*status.Error"
    "rpc error: code = Unimplemented desc = method Subscribe not implemented")).
End stubs.

(** ** What gRPC promises

    [up] and [down]: the messages on their way. *)
Class GrpcLaws (E : Type) `{!GrpcWorld E} := {
  up : E -> nat -> list SubscribeContext;
  down : E -> nat -> list Notification;
  law_new n e : let '(s, e') := NewStream n e in forall x, s = inl x -> up e' x = [] /\ down e' x = [];
  law_up x c e : let '(err, e') := ClientSendMsg x c e in
    down e' x = down e x /\ (err = None -> up e' x = up e x ++ [c]);
  law_close x e : let '(_, e') := CloseSend x e in up e' x = up e x /\ down e' x = down e x;
  law_up_recv x e : let '(r, e') := ServerRecvMsg x e in
    down e' x = down e x /\ forall c, r = inl c -> up e x = c :: up e' x;
  law_down x m e : let '(err, e') := ServerSendMsg x m e in
    down e' x = match err with None => down e x ++ [m] | Some _ => down e x end;
  law_down_recv x e : let '(r, e') := ClientRecvMsg x e in
    match r with inl m => down e x = m :: down e' x | inr _ => down e' x = down e x end
}.

Section delivery.
Context {E : Type} `{!GrpcWorld E, !GrpcLaws E}.

(** The server sends and the agent receives on one stream, in any order: the
    messages sent and those received, both without an error. *)
Variant stream_op := OpSend (m : Notification) | OpRecv.

Definition stream_step (x : nat) (c : list Notification * list Notification * E) (o : stream_op)
  : list Notification * list Notification * E :=
  let '(sent, got, e) := c in
  match o with
  | OpSend m => let '(err, e) := server_Send x m e in
                (match err with None => sent ++ [m] | Some _ => sent end, got, e)
  | OpRecv => let '((m, err), e) := Recv x e in
              (sent, match m with Some m => got ++ [m] | None => got end, e)
  end.

Lemma stream_step_fifo x sent got e o :
  sent = got ++ down e x ->
  let '(sent', got', e') := stream_step x (sent, got, e) o in sent' = got' ++ down e' x.
Proof.
  intros Hs. destruct o as [m|]; cbn [stream_step].
  - unfold server_Send. pose proof (law_down x m e) as H. destruct (ServerSendMsg x m e) as [err e'].
    rewrite H. destruct err; [done|]. by rewrite Hs, app_assoc.
  - unfold Recv. pose proof (law_down_recv x e) as H. destruct (ClientRecvMsg x e) as [[m|err] e'].
    + by rewrite Hs, H, <- app_assoc.
    + by rewrite H.
Qed.

Lemma stream_fifo x ops sent got e :
  sent = got ++ down e x ->
  let '(sent', got', e') := foldl (stream_step x) (sent, got, e) ops in sent' = got' ++ down e' x.
Proof.
  revert sent got e. induction ops as [|o ops IH]; intros sent got e Hs; cbn [foldl]; [done|].
  pose proof (stream_step_fifo x sent got e o Hs) as H. destruct (stream_step x _ o) as [[sent1 got1] e1].
  by apply IH.
Qed.

Lemma client_Subscribe_up in_ e x e1 :
  client_Subscribe in_ e = (inl x, e1) -> up e1 x = [in_] /\ down e1 x = [].
Proof.
  unfold client_Subscribe. pose proof (law_new "/nfnNotify/Subscribe" e) as Hn.
  destruct (NewStream _ e) as [[y|err] e']; [|done]. destruct (Hn y eq_refl) as [Hu Hd].
  pose proof (law_up y in_ e') as Hs. destruct (ClientSendMsg y in_ e') as [[err|] e2]; [done|].
  destruct Hs as [Hd2 Hu2]. pose proof (law_close y e2) as Hc.
  destruct (CloseSend y e2) as [[err|] e3]; [done|]. destruct Hc as [Hu3 Hd3].
  intros [= <- <-]. rewrite Hu3, Hd3, Hd2, Hd, Hu2, Hu by done. done.
Qed.

(** ** Properties *)

(** over the generated stubs, once the agent's [Subscribe] has returned a
    stream: the server's handler either fails to receive and reports it, or runs
    the operator's [Subscribe] with the very context that the agent sent; and
    from then on, however sends and receives interleave, what the agent has
    received is what the server has sent without an error, once each and in
    order, short of the messages still on their way. *)
Theorem stubs_deliver in_ e x e1 srv g :
  client_Subscribe in_ e = (inl x, e1) ->
  exists r e2,
    Subscribe_Handler srv x (mkSt g e1) =
      (let '(res, s, es) := match r with inr err => mret (Some err) | inl _ => srv in_ x end (mkSt g e2) in
       (res, s, EQuery "RecvMsg" :: es)) /\
    (forall c, r = inl c -> c = in_) /\
    forall ops, let '(sent, got, e3) := foldl (stream_step x) ([], [], e2) ops in
      sent = got ++ down e3 x.
Proof.
  intros [Hu Hd]%client_Subscribe_up. pose proof (law_up_recv x e1) as Hr.
  unfold Subscribe_Handler, mbind, M_bind, prim. cbn [env glob].
  destruct (ServerRecvMsg x e1) as [r e2]. destruct Hr as [Hd2 Hup].
  assert (Hin : forall c, r = inl c -> c = in_).
  { intros c Hc. specialize (Hup c Hc). rewrite Hu in Hup. by injection Hup as ->. }
  exists r, e2. split; [|split; [done|]].
  - destruct r as [c|err]; cbn; [|done]. rewrite (Hin c eq_refl). by destruct (srv in_ x _) as [[res s] es].
  - intros ops. apply stream_fifo. by rewrite Hd2, Hd.
Qed.
End delivery.

(** ** A concrete stream: number 0, its two queues, messages never lost *)

Definition Pipe : Type := list SubscribeContext * list Notification.

#[global] Instance pipe_grpc : GrpcWorld Pipe := {|
  NewStream _ e := (inl 0%nat, ([], []));
  ClientSendMsg x c e := if (x =? 0)%nat then (None, (e.1 ++ [c], e.2)) else (Some (ErrorString "EOF"), e);
  CloseSend _ e := (None, e);
  ClientRecvMsg x e :=
    match (x =? 0)%nat, e.2 with true, m :: ms => (inl m, (e.1, ms)) | _, _ => (inr (ErrorString "EOF"), e) end;
  ServerRecvMsg x e :=
    match (x =? 0)%nat, e.1 with true, c :: cs => (inl c, (cs, e.2)) | _, _ => (inr (ErrorString "EOF"), e) end;
  ServerSendMsg x m e := if (x =? 0)%nat then (None, (e.1, e.2 ++ [m])) else (Some (ErrorString "EOF"), e)
|}.

#[global] Instance pipe_laws : GrpcLaws Pipe.
Proof.
  refine (Build_GrpcLaws Pipe _ (fun e x => if (x =? 0)%nat then e.1 else []) (fun e x => if (x =? 0)%nat then e.2 else [])
            _ _ _ _ _ _).
  - intros n e x [= <-]. done.
  - intros x c e. cbn. destruct (x =? 0)%nat eqn:Hx; cbn; by rewrite ?Hx.
  - intros x e. done.
  - intros x e. cbn. destruct (x =? 0)%nat eqn:Hx; [|cbn; by rewrite ?Hx].
    destruct e as [[|c cs] ms]; cbn; rewrite ?Hx; (split; [done|]); by intros c' [= <-].
  - intros x m e. cbn. destruct (x =? 0)%nat eqn:Hx; cbn; by rewrite ?Hx.
  - intros x e. cbn. destruct (x =? 0)%nat eqn:Hx; [|cbn; by rewrite ?Hx].
    destruct e as [cs [|m ms]]; cbn; by rewrite ?Hx.
Defined.

Definition pipe_node : SubscribeContext := {| sc_NodeName := "node1" |}.
Definition pipe_msg (ip : string) : Notification :=
  {| CniType := "ovn4nfv";
     payload := Some (Notification_InSync {| NodeIntfIpAddress := ip; NodeIntfMacAddress := "" |}) |}.
Definition pipe_srv (c : SubscribeContext) (ss : nat) : M Pipe (option error) := mret (Errorf (sc_NodeName c)).

Lemma stubs_deliver_witness :
  (exists r e2,
    Subscribe_Handler pipe_srv 0 (mkSt initGlobals ([pipe_node], [])) =
      (let '(res, s, es) := match r with inr err => mret (Some err) | inl _ => pipe_srv pipe_node 0 end (mkSt initGlobals e2) in
       (res, s, EQuery "RecvMsg" :: es)) /\
    (forall c, r = inl c -> c = pipe_node) /\
    forall ops, let '(sent, got, e3) := foldl (stream_step 0) ([], [], e2) ops in sent = got ++ down e3 0%nat) /\
  (foldl (stream_step 0) ([], [], ([], [])) [OpRecv; OpSend (pipe_msg "a"); OpSend (pipe_msg "b"); OpRecv]).1 =
    ([pipe_msg "a"; pipe_msg "b"], [pipe_msg "a"]).
Proof.
  split; [|reflexivity].
  exact (@stubs_deliver Pipe pipe_grpc pipe_laws pipe_node ([], []) 0%nat ([pipe_node], []) pipe_srv initGlobals eq_refl).
Defined.
