(* ===== verification/Clients.v ===== *)
(** * Clients: the generated clients (pkg/generated/clientset/versioned)

    A typed client builds a request with client-go's builder and sends it.  The
    builder's calls are kept as they are made, in their order, and what sending
    does is the environment's: [rest] answers an interaction of the type of
    [Rest].  The three typed clients (typed/k8s/v1alpha1/network.go,
    networkchaining.go, providernetwork.go), the group's client (k8s_client.go)
    and the client set (clientset.go).

    [RESTClient] of the nil client is nil; the typed clients are made from
    clients that [NewForConfig] has returned, which are not nil. *)

From Stdlib Require Import SpecFloat.
From S2P Require Import Prelude.
From S2P Require Import Types.
From S2P Require Import World.

#[local] Open Scope string_scope.
#[local] Open Scope list_scope.

(** ** The library's side

    Options keep the fields that the code reads or writes; [lo_other] and
    [go_other] stand for the others. *)

Record GetOptions := { go_other : string }.
Record ListOptions := mkListOptions {
  LabelSelector : string; FieldSelector : string; Watch : bool; TimeoutSeconds : option Z; lo_other : string
}.
(** A pointer to options that no code path reads. *)
Definition DeleteOptions : Type := option string.

Record NetworkList := { nw_ListMeta : string; nw_Items : list Network }.
Record NetworkChainingList := { nc_ListMeta : string; nc_Items : list NetworkChaining }.
Record ProviderNetworkList := { pn_ListMeta : string; pn_Items : list ProviderNetwork }.

Variant Body :=
| BNetwork (o : Network)
| BNetworkChaining (o : NetworkChaining)
| BProviderNetwork (o : ProviderNetwork)
| BDeleteOptions (o : DeleteOptions)
| BData (data : string).

Variant Verb := GET | POST | PUT | DELETE | PATCH (pt : string).

(** The calls on a request. *)
Variant Call :=
| CNamespace (namespace : string)
| CResource (resource : string)
| CName (name : string)
| CSubResource (subresources : list string)
| CGetParams (o : GetOptions)
| CListParams (o : ListOptions)
| CTimeout (d : Z)
| CBody (b : Body).

Definition Request : Type := Verb * list Call.

(** What an answer is decoded into. *)
Variant Into : Type -> Type :=
| INetwork : Into Network
| INetworkList : Into NetworkList
| INetworkChaining : Into NetworkChaining
| INetworkChainingList : Into NetworkChainingList
| IProviderNetwork : Into ProviderNetwork
| IProviderNetworkList : Into ProviderNetworkList.

(** The last call of a chain: [Do().Into(result)] on a zero result,
    [Do().Error()], [Watch()] (a watch is a number). *)
Variant Rest : Type -> Type :=
| DoInto {T} (r : Request) (k : Into T) : Rest (T * option error)
| DoError (r : Request) : Rest (option error)
| DoWatch (r : Request) : Rest (nat * option error).

(** A [rest.Interface] is a number. *)
Class RestWorld (E : Type) := rest : nat -> forall A, Rest A -> E -> A * E.
Arguments rest {E _} _ {A}.

(** ** [int64] and durations *)

Definition int64 (x : Z) : Z := ((x + 2 ^ 63) mod 2 ^ 64 - 2 ^ 63)%Z.
Definition Second : Z := 1000000000.

(** The prologue of the functions that take list options. *)
Definition list_timeout (opts : ListOptions) : Z :=
  match TimeoutSeconds opts with
  | Some s => int64 (int64 s * Second)
  | None => 0
  end.

Definition set_Watch (b : bool) (o : ListOptions) : ListOptions :=
  mkListOptions (LabelSelector o) (FieldSelector o) b (TimeoutSeconds o) (lo_other o).

(** ** k8s_client.go *)

(** [rest.Config]: the fields that the code reads or writes. *)
Record Config := mkConfig {
  GroupVersion : option (string * string); APIPath : string; NegotiatedSerializer : string;
  UserAgent : string; RateLimiter : option nat; QPS : spec_float; Burst : Z; config_other : string
}.

Record K8sV1alpha1Client := { restClient : nat }.

Definition RESTClient (c : option K8sV1alpha1Client) : option nat :=
  match c with None => None | Some c => Some (restClient c) end.

Class ClientLibs (E : Type) := {
  RESTClientFor : Config -> E -> (nat + error) * E;
  NewDiscoveryClientForConfig : Config -> E -> (nat + error) * E;
  NewTokenBucketRateLimiter : spec_float -> Z -> E -> nat * E;
  NewDiscoveryClient : nat -> nat;
  DefaultKubernetesUserAgent : string;
  codecs : string                       (* scheme.Codecs.WithoutConversion() *)
}.

Definition SchemeGroupVersion : string * string := ("k8s.plugin.opnfv.org", "v1alpha1").

(** ** typed/k8s/v1alpha1/network.go *)

Record networks := { nw_client : nat; nw_ns : string }.

Section networks.
Context {E : Type} `{!RestWorld E}.

Definition newNetworks (c : K8sV1alpha1Client) (namespace : string) : networks :=
  {| nw_client := restClient c; nw_ns := namespace |}.

Definition networks_Get (c : networks) (name : string) (options : GetOptions) : E -> (Network * option error) * E :=
  rest (nw_client c) (DoInto (GET,
    [CNamespace (nw_ns c); CResource "networks"; CName name; CGetParams options]) INetwork).

Definition networks_List (c : networks) (opts : ListOptions) : E -> (NetworkList * option error) * E :=
  let timeout := list_timeout opts in
  rest (nw_client c) (DoInto (GET,
    [CNamespace (nw_ns c); CResource "networks"; CListParams opts; CTimeout timeout]) INetworkList).

Definition networks_Watch (c : networks) (opts : ListOptions) : E -> (nat * option error) * E :=
  let timeout := list_timeout opts in
  let opts := set_Watch true opts in
  rest (nw_client c) (DoWatch (GET,
    [CNamespace (nw_ns c); CResource "networks"; CListParams opts; CTimeout timeout])).

Definition networks_Create (c : networks) (network : Network) : E -> (Network * option error) * E :=
  rest (nw_client c) (DoInto (POST,
    [CNamespace (nw_ns c); CResource "networks"; CBody (BNetwork network)]) INetwork).

Definition networks_Update (c : networks) (network : Network) : E -> (Network * option error) * E :=
  rest (nw_client c) (DoInto (PUT,
    [CNamespace (nw_ns c); CResource "networks"; CName (Name (nw_meta network)); CBody (BNetwork network)]) INetwork).

Definition networks_UpdateStatus (c : networks) (network : Network) : E -> (Network * option error) * E :=
  rest (nw_client c) (DoInto (PUT,
    [CNamespace (nw_ns c); CResource "networks"; CName (Name (nw_meta network)); CSubResource ["status"];
     CBody (BNetwork network)]) INetwork).

Definition networks_Delete (c : networks) (name : string) (options : DeleteOptions) : E -> option error * E :=
  rest (nw_client c) (DoError (DELETE,
    [CNamespace (nw_ns c); CResource "networks"; CName name; CBody (BDeleteOptions options)])).

Definition networks_DeleteCollection (c : networks) (options : DeleteOptions) (listOptions : ListOptions)
  : E -> option error * E :=
  let timeout := list_timeout listOptions in
  rest (nw_client c) (DoError (DELETE,
    [CNamespace (nw_ns c); CResource "networks"; CListParams listOptions; CTimeout timeout;
     CBody (BDeleteOptions options)])).

Definition networks_Patch (c : networks) (name pt data : string) (subresources : list string)
  : E -> (Network * option error) * E :=
  rest (nw_client c) (DoInto (PATCH pt,
    [CNamespace (nw_ns c); CResource "networks"; CSubResource subresources; CName name; CBody (BData data)]) INetwork).
End networks.

(** ** typed/k8s/v1alpha1/networkchaining.go *)

Record networkChainings := { nc_client : nat; nc_ns : string }.

Section networkChainings.
Context {E : Type} `{!RestWorld E}.

Definition newNetworkChainings (c : K8sV1alpha1Client) (namespace : string) : networkChainings :=
  {| nc_client := restClient c; nc_ns := namespace |}.

Definition networkChainings_Get (c : networkChainings) (name : string) (options : GetOptions) : E -> (NetworkChaining * option error) * E :=
  rest (nc_client c) (DoInto (GET,
    [CNamespace (nc_ns c); CResource "networkchainings"; CName name; CGetParams options]) INetworkChaining).

Definition networkChainings_List (c : networkChainings) (opts : ListOptions) : E -> (NetworkChainingList * option error) * E :=
  let timeout := list_timeout opts in
  rest (nc_client c) (DoInto (GET,
    [CNamespace (nc_ns c); CResource "networkchainings"; CListParams opts; CTimeout timeout]) INetworkChainingList).

Definition networkChainings_Watch (c : networkChainings) (opts : ListOptions) : E -> (nat * option error) * E :=
  let timeout := list_timeout opts in
  let opts := set_Watch true opts in
  rest (nc_client c) (DoWatch (GET,
    [CNamespace (nc_ns c); CResource "networkchainings"; CListParams opts; CTimeout timeout])).

Definition networkChainings_Create (c : networkChainings) (networkChaining : NetworkChaining) : E -> (NetworkChaining * option error) * E :=
  rest (nc_client c) (DoInto (POST,
    [CNamespace (nc_ns c); CResource "networkchainings"; CBody (BNetworkChaining networkChaining)]) INetworkChaining).

Definition networkChainings_Update (c : networkChainings) (networkChaining : NetworkChaining) : E -> (NetworkChaining * option error) * E :=
  rest (nc_client c) (DoInto (PUT,
    [CNamespace (nc_ns c); CResource "networkchainings"; CName (Name (nc_meta networkChaining)); CBody (BNetworkChaining networkChaining)]) INetworkChaining).

Definition networkChainings_UpdateStatus (c : networkChainings) (networkChaining : NetworkChaining) : E -> (NetworkChaining * option error) * E :=
  rest (nc_client c) (DoInto (PUT,
    [CNamespace (nc_ns c); CResource "networkchainings"; CName (Name (nc_meta networkChaining)); CSubResource ["status"];
     CBody (BNetworkChaining networkChaining)]) INetworkChaining).

Definition networkChainings_Delete (c : networkChainings) (name : string) (options : DeleteOptions) : E -> option error * E :=
  rest (nc_client c) (DoError (DELETE,
    [CNamespace (nc_ns c); CResource "networkchainings"; CName name; CBody (BDeleteOptions options)])).

Definition networkChainings_DeleteCollection (c : networkChainings) (options : DeleteOptions) (listOptions : ListOptions)
  : E -> option error * E :=
  let timeout := list_timeout listOptions in
  rest (nc_client c) (DoError (DELETE,
    [CNamespace (nc_ns c); CResource "networkchainings"; CListParams listOptions; CTimeout timeout;
     CBody (BDeleteOptions options)])).

Definition networkChainings_Patch (c : networkChainings) (name pt data : string) (subresources : list string)
  : E -> (NetworkChaining * option error) * E :=
  rest (nc_client c) (DoInto (PATCH pt,
    [CNamespace (nc_ns c); CResource "networkchainings"; CSubResource subresources; CName name; CBody (BData data)]) INetworkChaining).
End networkChainings.

(** ** typed/k8s/v1alpha1/providernetwork.go *)

Record providerNetworks := { pn_client : nat; pn_ns : string }.

Section providerNetworks.
Context {E : Type} `{!RestWorld E}.

Definition newProviderNetworks (c : K8sV1alpha1Client) (namespace : string) : providerNetworks :=
  {| pn_client := restClient c; pn_ns := namespace |}.

Definition providerNetworks_Get (c : providerNetworks) (name : string) (options : GetOptions) : E -> (ProviderNetwork * option error) * E :=
  rest (pn_client c) (DoInto (GET,
    [CNamespace (pn_ns c); CResource "providernetworks"; CName name; CGetParams options]) IProviderNetwork).

Definition providerNetworks_List (c : providerNetworks) (opts : ListOptions) : E -> (ProviderNetworkList * option error) * E :=
  let timeout := list_timeout opts in
  rest (pn_client c) (DoInto (GET,
    [CNamespace (pn_ns c); CResource "providernetworks"; CListParams opts; CTimeout timeout]) IProviderNetworkList).

Definition providerNetworks_Watch (c : providerNetworks) (opts : ListOptions) : E -> (nat * option error) * E :=
  let timeout := list_timeout opts in
  let opts := set_Watch true opts in
  rest (pn_client c) (DoWatch (GET,
    [CNamespace (pn_ns c); CResource "providernetworks"; CListParams opts; CTimeout timeout])).

Definition providerNetworks_Create (c : providerNetworks) (providerNetwork : ProviderNetwork) : E -> (ProviderNetwork * option error) * E :=
  rest (pn_client c) (DoInto (POST,
    [CNamespace (pn_ns c); CResource "providernetworks"; CBody (BProviderNetwork providerNetwork)]) IProviderNetwork).

Definition providerNetworks_Update (c : providerNetworks) (providerNetwork : ProviderNetwork) : E -> (ProviderNetwork * option error) * E :=
  rest (pn_client c) (DoInto (PUT,
    [CNamespace (pn_ns c); CResource "providernetworks"; CName (Name (pn_meta providerNetwork)); CBody (BProviderNetwork providerNetwork)]) IProviderNetwork).

Definition providerNetworks_UpdateStatus (c : providerNetworks) (providerNetwork : ProviderNetwork) : E -> (ProviderNetwork * option error) * E :=
  rest (pn_client c) (DoInto (PUT,
    [CNamespace (pn_ns c); CResource "providernetworks"; CName (Name (pn_meta providerNetwork)); CSubResource ["status"];
     CBody (BProviderNetwork providerNetwork)]) IProviderNetwork).

Definition providerNetworks_Delete (c : providerNetworks) (name : string) (options : DeleteOptions) : E -> option error * E :=
  rest (pn_client c) (DoError (DELETE,
    [CNamespace (pn_ns c); CResource "providernetworks"; CName name; CBody (BDeleteOptions options)])).

Definition providerNetworks_DeleteCollection (c : providerNetworks) (options : DeleteOptions) (listOptions : ListOptions)
  : E -> option error * E :=
  let timeout := list_timeout listOptions in
  rest (pn_client c) (DoError (DELETE,
    [CNamespace (pn_ns c); CResource "providernetworks"; CListParams listOptions; CTimeout timeout;
     CBody (BDeleteOptions options)])).

Definition providerNetworks_Patch (c : providerNetworks) (name pt data : string) (subresources : list string)
  : E -> (ProviderNetwork * option error) * E :=
  rest (pn_client c) (DoInto (PATCH pt,
    [CNamespace (pn_ns c); CResource "providernetworks"; CSubResource subresources; CName name; CBody (BData data)]) IProviderNetwork).
End providerNetworks.

(** ** k8s_client.go and clientset.go: making clients *)

Definition Networks (c : K8sV1alpha1Client) (namespace : string) : networks := newNetworks c namespace.
Definition NetworkChainings (c : K8sV1alpha1Client) (namespace : string) : networkChainings :=
  newNetworkChainings c namespace.
Definition ProviderNetworks (c : K8sV1alpha1Client) (namespace : string) : providerNetworks :=
  newProviderNetworks c namespace.

Record Clientset := { k8sV1alpha1 : K8sV1alpha1Client; DiscoveryClient : nat }.

Definition K8sV1alpha1 (c : Clientset) : K8sV1alpha1Client := k8sV1alpha1 c.
Definition Discovery (c : option Clientset) : option nat :=
  match c with None => None | Some c => Some (DiscoveryClient c) end.

Section making.
Context {E : Type} `{!ClientLibs E}.

(** The error that it returns is always nil. *)
Definition setConfigDefaults (config : Config) : Config :=
  mkConfig (Some SchemeGroupVersion) "/apis" codecs
    (if bool_decide (UserAgent config = "") then DefaultKubernetesUserAgent else UserAgent config)
    (RateLimiter config) (QPS config) (Burst config) (config_other config).

Definition v1alpha1_NewForConfig (c : Config) : E -> (K8sV1alpha1Client + error) * E := fun e =>
  let '(client, e) := RESTClientFor (setConfigDefaults c) e in
  match client with
  | inr err => (inr err, e)
  | inl client => (inl {| restClient := client |}, e)
  end.

Definition v1alpha1_New (c : nat) : K8sV1alpha1Client := {| restClient := c |}.

(** [NewForConfigOrDie]: [None] is its panic. *)
Definition v1alpha1_NewForConfigOrDie (c : Config) : E -> option K8sV1alpha1Client * E := fun e =>
  let '(client, e) := v1alpha1_NewForConfig c e in
  match client with inr _ => (None, e) | inl client => (Some client, e) end.

(** [configShallowCopy.QPS > 0] on a [float32]. *)
Definition positive (q : spec_float) : bool := SFltb (S754_zero false) q.

Definition set_RateLimiter (r : nat) (c : Config) : Config :=
  mkConfig (GroupVersion c) (APIPath c) (NegotiatedSerializer c) (UserAgent c) (Some r) (QPS c) (Burst c) (config_other c).

Definition burst_message : string :=
  "Burst is required to be greater than 0 when RateLimiter is not set and QPS is set to greater than 0".

(** The two clients of one configuration. *)
Definition make_clients (config : Config) : E -> (Clientset + error) * E := fun e =>
  let '(cs, e) := v1alpha1_NewForConfig config e in
  match cs with
  | inr err => (inr err, e)
  | inl cs =>
      let '(dc, e) := NewDiscoveryClientForConfig config e in
      match dc with
      | inr err => (inr err, e)
      | inl dc => (inl {| k8sV1alpha1 := cs; DiscoveryClient := dc |}, e)
      end
  end.

Definition clientset_NewForConfig (c : Config) : E -> (Clientset + error) * E := fun e =>
  if bool_decide (RateLimiter c = None) && positive (QPS c) then
    if (Burst c <=? 0)%Z then (inr (ErrorString burst_message), e)
    else let '(r, e) := NewTokenBucketRateLimiter (QPS c) (Burst c) e in make_clients (set_RateLimiter r c) e
  else make_clients c e.

(** The library's discovery client for a configuration, or its panic. *)
Definition clientset_NewForConfigOrDie (c : Config) : E -> option Clientset * E := fun e =>
  let '(cs, e) := v1alpha1_NewForConfigOrDie c e in
  match cs with
  | None => (None, e)
  | Some cs =>
      let '(dc, e) := NewDiscoveryClientForConfig c e in
      match dc with inr _ => (None, e) | inl dc => (Some {| k8sV1alpha1 := cs; DiscoveryClient := dc |}, e) end
  end.

Definition clientset_New (c : nat) : Clientset :=
  {| k8sV1alpha1 := v1alpha1_New c; DiscoveryClient := NewDiscoveryClient c |}.

(** ** Properties *)

(** The two clients of [NewForConfig] share one rate limiter, that of the
    configuration or a new one for a positive QPS; a positive QPS without a
    positive burst is refused before any client is made. *)
Theorem NewForConfig_limits (c : Config) (e : E) :
  match RateLimiter c, positive (QPS c), (Burst c <=? 0)%Z with
  | None, true, true => clientset_NewForConfig c e = (inr (ErrorString burst_message), e)
  | None, true, false =>
      let '(r, e1) := NewTokenBucketRateLimiter (QPS c) (Burst c) e in
      clientset_NewForConfig c e = make_clients (set_RateLimiter r c) e1 /\
      RateLimiter (setConfigDefaults (set_RateLimiter r c)) = Some r
  | _, _, _ => clientset_NewForConfig c e = make_clients c e /\ RateLimiter (setConfigDefaults c) = RateLimiter c
  end.
Proof.
  unfold clientset_NewForConfig. destruct (RateLimiter c) as [r|] eqn:Hr;
    [rewrite bool_decide_eq_false_2 by done; cbn; by rewrite Hr|].
  rewrite bool_decide_eq_true_2 by done. cbn [andb].
  destruct (positive (QPS c)); [|cbn; by rewrite Hr]. destruct (Burst c <=? 0)%Z; [done|].
  by destruct (NewTokenBucketRateLimiter _ _ e).
Qed.
End making.

(** The time-out of a list request is exact for up to about 292 years and wraps
    around beyond, where it can be negative. *)
Theorem list_timeout_exact opts s :
  TimeoutSeconds opts = Some s -> (Z.abs s <= 9223372036)%Z -> list_timeout opts = (s * Second)%Z.
Proof.
  intros Hs Hb. unfold list_timeout, int64, Second. rewrite Hs.
  rewrite (Z.mod_small (s + 2 ^ 63)) by lia. rewrite Z.mod_small by lia. lia.
Qed.

Lemma list_timeout_wraps :
  list_timeout (mkListOptions "" "" false (Some 9223372037%Z) "") = (-9223372036709551616)%Z.
Proof. reflexivity. Qed.
