(* ===== verification/Listers.v ===== *)
(** * Listers: the generated listers (pkg/generated/listers/k8s/v1alpha1)

    A lister reads an indexer of client-go, the cache that an informer fills;
    the cache's objects are pointers of any type, so that a lister asserts the
    type of what it finds ([None]: the assertion panics).  [IndexerLaws] is what
    the cache's documentation says of an indexer keyed by
    [MetaNamespaceKeyFunc]. *)

From S2P Require Import Prelude.
From S2P Require Import GoStrings.
From S2P Require Import Types.
From S2P Require Import World.
From Stdlib Require Import Ascii.

#[local] Open Scope string_scope.
#[local] Open Scope list_scope.

(** What an indexer holds: nil, one of our objects, or something else. *)
Variant Cached :=
| CNil | CNetwork (o : Network) | CNetworkChaining (o : NetworkChaining) | CProviderNetwork (o : ProviderNetwork)
| COther (meta : ObjectMeta).

Definition as_network (c : Cached) : option Network := match c with CNetwork o => Some o | _ => None end.
Definition as_networkChaining (c : Cached) : option NetworkChaining :=
  match c with CNetworkChaining o => Some o | _ => None end.
Definition as_providerNetwork (c : Cached) : option ProviderNetwork :=
  match c with CProviderNetwork o => Some o | _ => None end.

(** Indexers are numbers, selectors their texts.  The two lists are what
    [ListAll] and [ListAllByNamespace] hand to the function that appends. *)
Class IndexerWorld (E : Type) := {
  GetByKey : nat -> string -> E -> Cached * bool * option error;
  ListAll : nat -> string -> E -> list Cached * option error;
  ListAllByNamespace : nat -> string -> string -> E -> list Cached * option error;
  NewNotFound : string * string -> string -> error
}.

Definition Resource (r : string) : string * string := ("k8s.plugin.opnfv.org", r).

Section listers.
Context {E : Type} `{!IndexerWorld E}.

(** ** network.go *)

Record networkLister := { nwl_indexer : nat }.
Record networkNamespaceLister := { nwln_indexer : nat; nwln_namespace : string }.

Definition NewNetworkLister (indexer : nat) : networkLister := {| nwl_indexer := indexer |}.

Definition networkLister_List (s : networkLister) (selector : string) (e : E) : option (list Network * option error) :=
  let '(objs, err) := ListAll (nwl_indexer s) selector e in
  ret ← mapM as_network objs; Some (ret, err).

Definition networkLister_Networks (s : networkLister) (namespace : string) : networkNamespaceLister :=
  {| nwln_indexer := nwl_indexer s; nwln_namespace := namespace |}.

Definition networkNamespaceLister_List (s : networkNamespaceLister) (selector : string) (e : E)
  : option (list Network * option error) :=
  let '(objs, err) := ListAllByNamespace (nwln_indexer s) (nwln_namespace s) selector e in
  ret ← mapM as_network objs; Some (ret, err).

Definition networkNamespaceLister_Get (s : networkNamespaceLister) (name : string) (e : E)
  : option (option Network * option error) :=
  let '(obj, exists_, err) := GetByKey (nwln_indexer s) (nwln_namespace s +:+ "/" +:+ name) e in
  match err with
  | Some err => Some (None, Some err)
  | None =>
      if negb exists_ then Some (None, Some (NewNotFound (Resource "network") name)) else
      o ← as_network obj; Some (Some o, None)
  end.

(** ** networkchaining.go *)

Record networkChainingLister := { ncl_indexer : nat }.
Record networkChainingNamespaceLister := { ncln_indexer : nat; ncln_namespace : string }.

Definition NewNetworkChainingLister (indexer : nat) : networkChainingLister := {| ncl_indexer := indexer |}.

Definition networkChainingLister_List (s : networkChainingLister) (selector : string) (e : E) : option (list NetworkChaining * option error) :=
  let '(objs, err) := ListAll (ncl_indexer s) selector e in
  ret ← mapM as_networkChaining objs; Some (ret, err).

Definition networkChainingLister_NetworkChainings (s : networkChainingLister) (namespace : string) : networkChainingNamespaceLister :=
  {| ncln_indexer := ncl_indexer s; ncln_namespace := namespace |}.

Definition networkChainingNamespaceLister_List (s : networkChainingNamespaceLister) (selector : string) (e : E)
  : option (list NetworkChaining * option error) :=
  let '(objs, err) := ListAllByNamespace (ncln_indexer s) (ncln_namespace s) selector e in
  ret ← mapM as_networkChaining objs; Some (ret, err).

Definition networkChainingNamespaceLister_Get (s : networkChainingNamespaceLister) (name : string) (e : E)
  : option (option NetworkChaining * option error) :=
  let '(obj, exists_, err) := GetByKey (ncln_indexer s) (ncln_namespace s +:+ "/" +:+ name) e in
  match err with
  | Some err => Some (None, Some err)
  | None =>
      if negb exists_ then Some (None, Some (NewNotFound (Resource "networkchaining") name)) else
      o ← as_networkChaining obj; Some (Some o, None)
  end.

(** ** providernetwork.go *)

Record providerNetworkLister := { pnl_indexer : nat }.
Record providerNetworkNamespaceLister := { pnln_indexer : nat; pnln_namespace : string }.

Definition NewProviderNetworkLister (indexer : nat) : providerNetworkLister := {| pnl_indexer := indexer |}.

Definition providerNetworkLister_List (s : providerNetworkLister) (selector : string) (e : E) : option (list ProviderNetwork * option error) :=
  let '(objs, err) := ListAll (pnl_indexer s) selector e in
  ret ← mapM as_providerNetwork objs; Some (ret, err).

Definition providerNetworkLister_ProviderNetworks (s : providerNetworkLister) (namespace : string) : providerNetworkNamespaceLister :=
  {| pnln_indexer := pnl_indexer s; pnln_namespace := namespace |}.

Definition providerNetworkNamespaceLister_List (s : providerNetworkNamespaceLister) (selector : string) (e : E)
  : option (list ProviderNetwork * option error) :=
  let '(objs, err) := ListAllByNamespace (pnln_indexer s) (pnln_namespace s) selector e in
  ret ← mapM as_providerNetwork objs; Some (ret, err).

Definition providerNetworkNamespaceLister_Get (s : providerNetworkNamespaceLister) (name : string) (e : E)
  : option (option ProviderNetwork * option error) :=
  let '(obj, exists_, err) := GetByKey (pnln_indexer s) (pnln_namespace s +:+ "/" +:+ name) e in
  match err with
  | Some err => Some (None, Some err)
  | None =>
      if negb exists_ then Some (None, Some (NewNotFound (Resource "providernetwork") name)) else
      o ← as_providerNetwork obj; Some (Some o, None)
  end.
End listers.

(** ** The cache *)

Definition cached_meta (c : Cached) : ObjectMeta :=
  match c with
  | CNil => mkMeta "" "" [] None ∅
  | CNetwork o => nw_meta o
  | CNetworkChaining o => nc_meta o
  | CProviderNetwork o => pn_meta o
  | COther m => m
  end.

(** [MetaNamespaceKeyFunc]. *)
Definition meta_key (m : ObjectMeta) : string :=
  if bool_decide (Namespace m = "") then Name m else Namespace m +:+ "/" +:+ Name m.

Class IndexerLaws (E : Type) `{!IndexerWorld E} := {
  content : nat -> E -> gmap string Cached;
  content_keys h e k c : content h e !! k = Some c -> k = meta_key (cached_meta c) /\ c <> CNil;
  get_by_key h k e : GetByKey h k e =
    match content h e !! k with Some c => (c, true, None) | None => (CNil, false, None) end;
  list_all h e : exists l, ListAll h "" e = (l, None) /\ l ≡ₚ (map_to_list (content h e)).*2;
  list_by_namespace h ns e : exists l, ListAllByNamespace h ns "" e = (l, None) /\
    l ≡ₚ filter (fun c => ns = "" \/ Namespace (cached_meta c) = ns) (map_to_list (content h e)).*2
}.

Section cache.
Context {E : Type} `{!IndexerWorld E, !IndexerLaws E}.

(** A namespace has no slash. *)
Definition no_slash (s : string) : bool := free "/" s.

(** The objects of [h] are all of one kind, with names that the API allows. *)
Definition holds_only {T} (wrap : T -> Cached) (h : nat) (e : E) : Prop :=
  forall k c, content h e !! k = Some c -> exists x, c = wrap x /\
    Namespace (cached_meta c) <> "" /\ no_slash (Namespace (cached_meta c)) = true.

(** What a lister over [h] promises. *)
Record lister_contract {T} (wrap : T -> Cached) (res : string) (h : nat) (e : E)
    (list_ : string -> E -> option (list T * option error))
    (ns_list : string -> string -> E -> option (list T * option error))
    (get : string -> string -> E -> option (option T * option error)) : Prop := {
  lc_list : exists l, list_ "" e = Some (l, None) /\ map wrap l ≡ₚ (map_to_list (content h e)).*2;
  lc_ns_list ns : ns <> "" -> exists l, ns_list ns "" e = Some (l, None) /\
    map wrap l ≡ₚ filter (fun c => Namespace (cached_meta c) = ns) (map_to_list (content h e)).*2;
  lc_get ns name : no_slash ns = true ->
    (exists x k, content h e !! k = Some (wrap x) /\ Namespace (cached_meta (wrap x)) = ns /\
       Name (cached_meta (wrap x)) = name /\ get ns name e = Some (Some x, None)) \/
    (get ns name e = Some (None, Some (NewNotFound (Resource res) name)) /\
     forall k c, content h e !! k = Some c -> ~ (Namespace (cached_meta c) = ns /\ Name (cached_meta c) = name))
}.

Lemma slash_inj a b x y :
  no_slash a = true -> no_slash b = true -> a +:+ "/" +:+ x = b +:+ "/" +:+ y -> a = b /\ x = y.
Proof.
  unfold no_slash. intros Ha Hb Heq. change (a +:+ String "/" x = b +:+ String "/" y) in Heq.
  assert (Hs : Split (a +:+ String "/" x) "/" = Split (b +:+ String "/" y) "/") by by rewrite Heq.
  rewrite !Split_cons in Hs by done. injection Hs as -> _. split; [done|].
  apply (inj (String.append b)) in Heq. by injection Heq.
Qed.

Lemma mapM_wrap {T} (as_ : Cached -> option T) (wrap : T -> Cached) l :
  (forall x, as_ (wrap x) = Some x) -> (forall c, c ∈ l -> exists x, c = wrap x) ->
  exists xs, mapM as_ l = Some xs /\ map wrap xs = l.
Proof.
  intros Hw. induction l as [|c l IH]; intros Hl; [by exists []|].
  destruct (Hl c ltac:(left)) as [x ->]. destruct (IH ltac:(intros; apply Hl; by right)) as (xs & Hxs & <-).
  exists (x :: xs). cbn. by rewrite Hw, Hxs.
Qed.

Lemma in_content h e c : c ∈ (map_to_list (content h e)).*2 <-> exists k, content h e !! k = Some c.
Proof.
  rewrite list_elem_of_fmap. split.
  - intros ([k c'] & -> & Hin%elem_of_map_to_list). by exists k.
  - intros [k Hk%elem_of_map_to_list]. by exists (k, c).
Qed.

Section kind.
Context {T : Type} (as_ : Cached -> option T) (wrap : T -> Cached) (res : string) (h : nat) (e : E).
Hypothesis as_wrap : forall x, as_ (wrap x) = Some x.
Hypothesis only : holds_only wrap h e.

Lemma listed l : l ⊆ (map_to_list (content h e)).*2 -> exists xs, mapM as_ l = Some xs /\ map wrap xs = l.
Proof.
  intros Hl. apply mapM_wrap; [done|]. intros c Hc%Hl. apply in_content in Hc as [k Hk].
  destruct (only k c Hk) as (x & -> & _). by exists x.
Qed.

Lemma list_contract : exists l,
  (let '(objs, err) := ListAll h "" e in ret ← mapM as_ objs; Some (ret, err)) = Some (l, None) /\
  map wrap l ≡ₚ (map_to_list (content h e)).*2.
Proof.
  destruct (list_all h e) as (l & -> & Hl). destruct (listed l) as (xs & -> & <-); [by rewrite Hl|].
  by exists xs.
Qed.

Lemma ns_list_contract ns : ns <> "" -> exists l,
  (let '(objs, err) := ListAllByNamespace h ns "" e in ret ← mapM as_ objs; Some (ret, err)) = Some (l, None) /\
  map wrap l ≡ₚ filter (fun c => Namespace (cached_meta c) = ns) (map_to_list (content h e)).*2.
Proof.
  intros Hns. destruct (list_by_namespace h ns e) as (l & -> & Hl).
  destruct (listed l) as (xs & -> & <-).
  { rewrite Hl. intros c [_ Hc]%list_elem_of_filter. exact Hc. }
  exists xs. split; [done|]. rewrite Hl. apply Permutation_refl'. apply list_filter_iff. naive_solver.
Qed.

Lemma get_contract ns name : no_slash ns = true ->
  let get := let '(obj, exists_, err) := GetByKey h (ns +:+ "/" +:+ name) e in
    match err with
    | Some err => Some (None, Some err)
    | None => if negb exists_ then Some (None, Some (NewNotFound (Resource res) name)) else o ← as_ obj; Some (Some o, None)
    end in
  (exists x k, content h e !! k = Some (wrap x) /\ Namespace (cached_meta (wrap x)) = ns /\
     Name (cached_meta (wrap x)) = name /\ get = Some (Some x, None)) \/
  (get = Some (None, Some (NewNotFound (Resource res) name)) /\
   forall k c, content h e !! k = Some c -> ~ (Namespace (cached_meta c) = ns /\ Name (cached_meta c) = name)).
Proof.
  intros Hns. cbv zeta. rewrite get_by_key. destruct (content h e !! (ns +:+ "/" +:+ name)) as [c|] eqn:Hc.
  - left. destruct (only _ _ Hc) as (x & -> & Hne & Hsl). exists x, (ns +:+ "/" +:+ name).
    destruct (content_keys _ _ _ _ Hc) as [Hk _]. unfold meta_key in Hk. rewrite bool_decide_eq_false_2 in Hk by done.
    apply slash_inj in Hk as [Hk1 Hk2]; [|done..]. cbn [negb]. rewrite as_wrap. cbn.
    split; [done|]. by rewrite Hk1, Hk2.
  - right. split; [done|]. intros k c Hk [Hn Hm]. destruct (content_keys _ _ _ _ Hk) as [-> _].
    destruct (only _ _ Hk) as (_ & _ & Hne & _). unfold meta_key in Hk. rewrite bool_decide_eq_false_2 in Hk by done.
    rewrite Hn, Hm in Hk. congruence.
Qed.
End kind.

(** ** Properties *)

(** a lister over a cache of objects of its kind never panics: it lists
    exactly the objects of the cache, those of one namespace exactly when asked
    for a namespace, and gets the object of the namespace and name asked for, or
    says that there is none when there is none. *)
Theorem listers_contract h e :
  (holds_only CNetwork h e ->
   let s := NewNetworkLister h in
   lister_contract CNetwork "network" h e (networkLister_List s)
     (fun ns => networkNamespaceLister_List (networkLister_Networks s ns))
     (fun ns => networkNamespaceLister_Get (networkLister_Networks s ns))) /\
  (holds_only CNetworkChaining h e ->
   let s := NewNetworkChainingLister h in
   lister_contract CNetworkChaining "networkchaining" h e (networkChainingLister_List s)
     (fun ns => networkChainingNamespaceLister_List (networkChainingLister_NetworkChainings s ns))
     (fun ns => networkChainingNamespaceLister_Get (networkChainingLister_NetworkChainings s ns))) /\
  (holds_only CProviderNetwork h e ->
   let s := NewProviderNetworkLister h in
   lister_contract CProviderNetwork "providernetwork" h e (providerNetworkLister_List s)
     (fun ns => providerNetworkNamespaceLister_List (providerNetworkLister_ProviderNetworks s ns))
     (fun ns => providerNetworkNamespaceLister_Get (providerNetworkLister_ProviderNetworks s ns))).
Proof.
  split; [|split]; intros only s;
    (constructor; [by apply list_contract|intros ns; by apply ns_list_contract|intros ns name; by apply get_contract]).
Qed.
End cache.

(** ** A concrete cache: a list of objects, the later of one key hidden *)

#[global] Instance Cached_not_nil c : Decision (c <> CNil).
Proof. destruct c; first [by left | by right; auto]. Defined.

Definition keyed (l : list Cached) : list (string * Cached) :=
  map (fun c => (meta_key (cached_meta c), c)) (filter (fun c => c <> CNil) l).

Definition cache_map (l : list Cached) : gmap string Cached := list_to_map (keyed l).

#[global] Instance list_indexer : IndexerWorld (list Cached) := {|
  GetByKey _ k l := match cache_map l !! k with Some c => (c, true, None) | None => (CNil, false, None) end;
  ListAll _ _ l := ((map_to_list (cache_map l)).*2, None);
  ListAllByNamespace _ ns _ l :=
    (filter (fun c => ns = "" \/ Namespace (cached_meta c) = ns) (map_to_list (cache_map l)).*2, None);
  NewNotFound r name := OtherError "*errors.StatusError" (r.2 +:+ "." +:+ r.1 +:+ " " +:+ name +:+ " not found")
|}.

#[global] Instance list_indexer_laws : IndexerLaws (list Cached).
Proof.
  refine (Build_IndexerLaws _ _ (fun _ => cache_map) _ _ _ _).
  - intros h l k c Hc. apply elem_of_list_to_map_2 in Hc. unfold keyed in Hc.
    apply list_elem_of_fmap in Hc as (c' & [= -> ->] & Hc'). by apply list_elem_of_filter in Hc' as [Hn _].
  - reflexivity.
  - intros h l. by eexists.
  - intros h ns l. by eexists.
Defined.

Definition cached_networks : list Cached :=
  [ CNetwork (mkNetwork (mkMeta "net1" "default" [] None ∅) (Build_NetworkSpec "ovn4nfv" [] [] (Build_DnsSpec [] "" [] []) []) (Build_NetworkStatus ""));
    CNetwork (mkNetwork (mkMeta "net1" "edge" [] None ∅) (Build_NetworkSpec "ovn4nfv" [] [] (Build_DnsSpec [] "" [] []) []) (Build_NetworkStatus Created)) ].

Lemma listers_contract_witness :
  let s := NewNetworkLister 0 in
  lister_contract CNetwork "network" 0 cached_networks (networkLister_List s)
    (fun ns => networkNamespaceLister_List (networkLister_Networks s ns))
    (fun ns => networkNamespaceLister_Get (networkLister_Networks s ns)) /\
  (fun r => nw_State (nw_Status r)) <$> (networkNamespaceLister_Get (networkLister_Networks s "edge") "net1" cached_networks ≫= fst)
    = Some Created.
Proof.
  intros s. split; [|vm_compute; reflexivity].
  apply (proj1 (@listers_contract (list Cached) list_indexer list_indexer_laws 0%nat cached_networks)).
  intros k c Hc. apply elem_of_list_to_map_2 in Hc. apply list_elem_of_fmap in Hc as (c' & [= -> ->] & Hc').
  apply list_elem_of_filter in Hc' as [_ Hc']. unfold cached_networks in Hc'. rewrite !elem_of_cons in Hc'.
  destruct Hc' as [->|[->|Hc']]; [| |by apply not_elem_of_nil in Hc']; eexists; (split; [reflexivity|]); by split.
Defined.
