(* ===== verification/Sha1.v ===== *)
(** * Sha1: names of node interfaces (internal/pkg/config/config.go)

    The node's OVN interface is named after the first six hexadecimal digits
    of the SHA-1 hash of the node name.  [crypto/sha1] and [encoding/hex] are
    executable definitions over 32-bit words held in [Z]. *)

From S2P Require Import Prelude.
From S2P Require Import GoStrings.
From Stdlib Require Import Ascii ZArith.

#[local] Open Scope string_scope.
#[local] Open Scope list_scope.

(** ** 32-bit words *)

Definition word32 (x : Z) : Z := Z.modulo x (2 ^ 32).
Definition rotl (n x : Z) : Z :=
  Z.lor (word32 (Z.shiftl x n)) (Z.shiftr x (32 - n)).

Definition string_bytes (s : string) : list Z :=
  map (fun c => Z.of_nat (nat_of_ascii c)) (String.list_ascii_of_string s).

(** [n] big-endian bytes of [x]. *)
Fixpoint be_bytes (n : nat) (x : Z) : list Z :=
  match n with
  | O => []
  | S n' => Z.modulo (Z.shiftr x (8 * Z.of_nat n')) 256 :: be_bytes n' x
  end.

Definition be_word (bs : list Z) : Z := foldl (fun acc b => acc * 256 + b)%Z 0%Z bs.

(** [chunks n k l]: the first [k] blocks of [n] elements. *)
Fixpoint chunks {A} (n k : nat) (l : list A) : list (list A) :=
  match k with O => [] | S k' => take n l :: chunks n k' (drop n l) end.

(** ** The hash *)

(** The message, 0x80, zeros, the length in bits: a multiple of 64 bytes. *)
Definition padded (msg : list Z) : list Z :=
  let len := Z.of_nat (length msg) in
  msg ++ [128%Z] ++ repeat 0%Z (Z.to_nat (Z.modulo (55 - len) 64)) ++ be_bytes 8 (8 * len).

(** The schedule, kept as the last sixteen words. *)
Definition schedule_step (w : list Z) : Z :=
  rotl 1 (Z.lxor (Z.lxor (nth 13 w 0%Z) (nth 8 w 0%Z)) (Z.lxor (nth 2 w 0%Z) (nth 0 w 0%Z))).

Record sha_state := mkSha { sha_a : Z; sha_b : Z; sha_c : Z; sha_d : Z; sha_e : Z }.

Definition round_f (t : nat) (b c d : Z) : Z * Z :=
  if (t <? 20)%nat then (Z.lor (Z.land b c) (Z.land (Z.lxor b (2 ^ 32 - 1)) d), 0x5A827999%Z)
  else if (t <? 40)%nat then (Z.lxor (Z.lxor b c) d, 0x6ED9EBA1%Z)
  else if (t <? 60)%nat then
    (Z.lor (Z.lor (Z.land b c) (Z.land b d)) (Z.land c d), 0x8F1BBCDC%Z)
  else (Z.lxor (Z.lxor b c) d, 0xCA62C1D6%Z).

Definition round (t : nat) (w : Z) (s : sha_state) : sha_state :=
  let '(f, k) := round_f t (sha_b s) (sha_c s) (sha_d s) in
  mkSha (word32 (rotl 5 (sha_a s) + f + sha_e s + k + w))
        (sha_a s) (rotl 30 (sha_b s)) (sha_c s) (sha_d s).

Fixpoint rounds (n t : nat) (w : list Z) (s : sha_state) : sha_state :=
  match n with
  | O => s
  | S n' => rounds n' (S t) (tail w ++ [schedule_step w]) (round t (hd 0%Z w) s)
  end.

Definition sha_block (s : sha_state) (block : list Z) : sha_state :=
  let s' := rounds 80 0 (map be_word (chunks 4 16 block)) s in
  mkSha (word32 (sha_a s + sha_a s')) (word32 (sha_b s + sha_b s'))
        (word32 (sha_c s + sha_c s')) (word32 (sha_d s + sha_d s')) (word32 (sha_e s + sha_e s')).

Definition sha_init : sha_state :=
  mkSha 0x67452301 0xEFCDAB89 0x98BADCFE 0x10325476 0xC3D2E1F0.

Definition sha1_sum (msg : list Z) : list Z :=
  let p := padded msg in
  let s := foldl sha_block sha_init (chunks 64 (length p / 64) p) in
  flat_map (be_bytes 4) [sha_a s; sha_b s; sha_c s; sha_d s; sha_e s].

(** ** [hex.EncodeToString] *)

Definition hex_digit (d : Z) : ascii :=
  ascii_of_nat (Z.to_nat (if (d <? 10)%Z then 48 + d else 87 + d)).

Fixpoint EncodeToString (bs : list Z) : string :=
  match bs with
  | [] => ""
  | b :: bs' => String (hex_digit (b / 16)) (String (hex_digit (Z.modulo b 16)) (EncodeToString bs'))
  end.

(** ** The interface name *)

Definition GetNodeIntfName (node : string) : string :=
  let bs := sha1_sum (string_bytes node) in
  let encodednodeStr := EncodeToString bs in
  "ovn4nfv0-" +:+ take_string 6 encodednodeStr.

(** The test vectors of FIPS 180: one block, and two blocks. *)
Example sha1_abc :
  EncodeToString (sha1_sum (string_bytes "abc")) = "a9993e364706816aba3e25717850c26c9cd0d89d".
Proof. vm_compute. reflexivity. Qed.

Example sha1_two_blocks :
  EncodeToString (sha1_sum (string_bytes "abcdbcdecdefdefgefghfghighijhijkijkljklmklmnlmnomnopnopq"))
  = "84983e441c3bd26ebaae4aa1f95129e5e54670f1".
Proof. vm_compute. reflexivity. Qed.

(** ** Properties *)

Lemma length_be_bytes n x : length (be_bytes n x) = n.
Proof. induction n; simpl; congruence. Qed.

Lemma be_bytes_range n x : Forall (fun b => 0 <= b < 256)%Z (be_bytes n x).
Proof. induction n; simpl; constructor; [apply Z.mod_pos_bound; lia|done]. Qed.

Definition is_hex (c : ascii) : bool :=
  let n := nat_of_ascii c in
  ((48 <=? n) && (n <=? 57))%nat || ((97 <=? n) && (n <=? 102))%nat.

Lemma hex_digit_hex d : (0 <= d < 16)%Z -> is_hex (hex_digit d) = true.
Proof.
  intros Hd. assert (Hall : Forall (fun d => is_hex (hex_digit d) = true)
    (map Z.of_nat (seq 0 16))) by (vm_compute; by repeat constructor).
  rewrite Forall_forall in Hall. apply Hall. apply list_elem_of_fmap.
  exists (Z.to_nat d). split; [lia|]. apply elem_of_seq. lia.
Qed.

Lemma EncodeToString_hex bs :
  Forall (fun b => 0 <= b < 256)%Z bs ->
  string_forall is_hex (EncodeToString bs) = true.
Proof.
  induction 1 as [|b bs Hb _ IH]; [done|]. cbn [EncodeToString string_forall].
  rewrite !hex_digit_hex, IH; [done|apply Z.mod_pos_bound; lia|].
  split; [apply Z.div_pos; lia|apply Z.div_lt_upper_bound; lia].
Qed.

Lemma length_EncodeToString bs : String.length (EncodeToString bs) = (2 * length bs)%nat.
Proof. induction bs as [|b bs IH]; simpl; [done|]. rewrite IH. lia. Qed.

Lemma take_string_keeps p n s :
  string_forall p s = true -> string_forall p (take_string n s) = true.
Proof.
  revert n; induction s as [|c s IH]; intros [|n]; simpl; try done.
  intros [-> Hs]%andb_true_iff. by apply IH.
Qed.

Lemma length_take_string n s :
  (n <= String.length s)%nat -> String.length (take_string n s) = n.
Proof. revert n; induction s as [|c s IH]; intros [|n]; simpl; try done; [lia|]. intros. rewrite IH; lia. Qed.

(** the interface name of any node fits the kernel's limit of fifteen
    characters exactly, and is the fixed prefix followed by six lower-case
    hexadecimal digits; the slice [:6] is always in range. *)
Theorem GetNodeIntfName_ifname node :
  String.length (GetNodeIntfName node) = 15%nat /\
  (6 <= String.length (EncodeToString (sha1_sum (string_bytes node))))%nat /\
  exists h, GetNodeIntfName node = "ovn4nfv0-" +:+ h /\ String.length h = 6%nat /\
    string_forall is_hex h = true.
Proof.
  unfold GetNodeIntfName. set (bs := sha1_sum _).
  assert (Hl : String.length (EncodeToString bs) = 40%nat)
    by (rewrite length_EncodeToString; reflexivity).
  assert (Hh : string_forall is_hex (EncodeToString bs) = true).
  { apply EncodeToString_hex, Forall_flat_map, Forall_forall. intros. apply be_bytes_range. }
  assert (H6 : String.length (take_string 6 (EncodeToString bs)) = 6%nat)
    by (apply length_take_string; lia).
  rewrite length_append, H6, Hl. split; [done|]. split; [lia|].
  eexists; split; [reflexivity|]. split; [done|]. by apply take_string_keeps.
Qed.
