(* ===== verification/Runner.v ===== *)
(** * Runner: running OVN, OVS and ip tools (internal/pkg/ovn/utils.go)

    [SetExec], [run], [runOVNretry], [RunOVNNbctl], [RunIP] and [RunOVSVsctl].
    The executables are the environment: [ExecWorld] gives the answer of each
    run.  The rules [wp_RunOVNNbctl], [wp_RunIP] and [wp_RunOVSVsctl] are what
    the rest of the development uses of this file. *)

From S2P Require Import Prelude.
From S2P Require Import GoStrings.
From S2P Require Import Types.
From S2P Require Import World.
From Stdlib Require Import Ascii.

#[local] Open Scope string_scope.
#[local] Open Scope list_scope.

(** ** The environment of the process: executables, variables, clock, chance *)
Class ExecWorld (E : Type) := {
  run_cmd : string -> list string -> E -> (string * string * option error) * E;
  look_path : string -> E -> (string * option error) * E;
  getenv : string -> E -> string * E;
  pause : Z -> E -> E;
  random : E -> Z * E;          (* the next value of a random source *)
  map_picks : E -> list nat * E (* how the next [range] over a map goes *)
}.

Definition quote : ascii := "034".
(** The one-character string made of a double quote. *)
Definition dq : string := String quote "".

(** The result of a command, as the callers see it. *)
Definition nb_out (o : string) : string := Trim (TrimSpace o) quote.

Section runner.
Context {E : Type} `{!ExecWorld E}.
Implicit Types s : St E.

Definition LookPath (file : string) : M E (string * option error) :=
  prim (look_path file) (fun _ => EQuery "LookPath").
Definition Getenv (k : string) : M E string :=
  prim (getenv k) (fun _ => EQuery "Getenv").
Definition Sleep (z : Z) : M E () :=
  prim (fun e => ((), pause z e)) (fun _ => ESleep z).
(** [newRand.Intn(n)] on a freshly seeded source. *)
Definition Intn (n : Z) : M E Z :=
  prim (fun e => let '(z, e') := random e in (Z.modulo z n, e')) (fun _ => EQuery "rand").
(** The entries of a map in the order of one [range] loop. *)
Definition map_range {V} (m : gmap string V) : M E (list (string * V)) :=
  prim (fun e => let '(p, e') := map_picks e in (pick_order p (map_to_list m), e'))
       (fun _ => EQuery "range").

(** [SetExec]: the helper is replaced at once and filled in while the three
    executables are found. *)
Definition SetExec : M E (option error) :=
  mod_glob (set_runner (Some (Build_execHelper "" "" "" "" "")));;
  '(nb, err) ← LookPath "ovn-nbctl";
  mod_glob (set_runner (Some (Build_execHelper nb "" "" "" "")));;
  match err with Some e => mret (Some e) | None =>
  '(vs, err) ← LookPath "ovs-vsctl";
  mod_glob (set_runner (Some (Build_execHelper nb vs "" "" "")));;
  match err with Some e => mret (Some e) | None =>
  '(ip, err) ← LookPath "ip";
  mod_glob (set_runner (Some (Build_execHelper nb vs ip "" "")));;
  match err with Some e => mret (Some e) | None =>
  host ← Getenv "OVN_NB_TCP_SERVICE_HOST";
  mod_glob (set_runner (Some (Build_execHelper nb vs ip host "6641")));;
  mret None
  end end end.

Definition get_runner : M E execHelper := g ← get_glob; deref (runner g).

Definition run (cmdPath : string) (args : list string) : M E (string * string * option error) :=
  get_runner;;
  prim (run_cmd cmdPath args) (fun '(o, se, err) => ECmd cmdPath args o se err).

(** The loop of [runOVNretry] with [retriesLeft] retries left. *)
Fixpoint retry_loop (retriesLeft : nat) (cmdPath : string) (args : list string)
  : M E (string * string * option error) :=
  '(stdout, stderr, err) ← run cmdPath args;
  match err with
  | None => mret (stdout, stderr, err)
  | Some _ =>
      if Contains stderr "Connection refused" then
        match retriesLeft with
        | O => mret (stdout, stderr, err)
        | S n => Sleep 2;; retry_loop n cmdPath args
        end
      else mret (stdout, stderr, err)
  end.

Definition runOVNretry := retry_loop 200.

Definition nb_argv (h : execHelper) (timeout : Z) (args : list string) : list string :=
  (if (0 <? String.length (hostIP h))%nat
   then ["--db=tcp:" +:+ hostIP h +:+ ":" +:+ hostPort h] else [])
  ++ ["--timeout=" +:+ fmt_d timeout] ++ args.

Definition RunOVNNbctlWithTimeout (timeout : Z) (args : list string)
  : M E (string * string * option error) :=
  h ← get_runner;
  '(stdout, stderr, err) ← runOVNretry (nbctlPath h) (nb_argv h timeout args);
  mret (nb_out stdout, stderr, err).

Definition ovsCommandTimeout : Z := 15.

Definition RunOVNNbctl (args : list string) := RunOVNNbctlWithTimeout ovsCommandTimeout args.

Definition RunIP (args : list string) : M E (string * string * option error) :=
  h ← get_runner;
  '(stdout, stderr, err) ← run (ipPath h) args;
  mret (TrimSpace stdout, stderr, err).

Definition RunOVSVsctl (args : list string) : M E (string * string * option error) :=
  h ← get_runner;
  '(stdout, stderr, err) ← run (vsctlPath h) (("--timeout=" +:+ fmt_d ovsCommandTimeout) :: args);
  mret (nb_out stdout, stderr, err).

(** ** Rules *)

Lemma run_eq cmdPath args s h :
  runner (glob s) = Some h ->
  run cmdPath args s =
    let '((o, se, err), e') := run_cmd cmdPath args (env s) in
    (Val (o, se, err), mkSt (glob s) e', [ECmd cmdPath args o se err]).
Proof.
  intros Hr. unfold run, get_runner, mbind, M_bind, get_glob, deref. rewrite Hr.
  unfold mret, M_ret, prim. simpl. by destruct (run_cmd _ _ _) as [[[o se] err] e'].
Qed.

(** A superseded attempt: the refused run and the pause after it. *)
Definition refused_attempt (cmdPath : string) (args : list string)
    (a : string * string * error) : list Event :=
  let '(o, se, e) := a in [ECmd cmdPath args o se (Some e); ESleep 2].

Definition is_refused (a : string * string * error) : bool :=
  let '(_, se, _) := a in Contains se "Connection refused".

Lemma compress_attempts cmdPath args l o se err :
  let es := flat_map (refused_attempt cmdPath args) l ++ [ECmd cmdPath args o se err] in
  starts_with_pause es = false /\ compress es = [ECmd cmdPath args o se err].
Proof. induction l as [|[[? ?] ?] l [_ IH]]; [done|]. split; [done|]. simpl. exact IH. Qed.

(** What [retry_loop] does: at most [n] refused attempts, then the attempt
    whose answer is returned; that one is refused only when all [n] retries
    are spent. *)
Lemma retry_loop_spec n cmdPath args s h :
  runner (glob s) = Some h ->
  exists l o se err e',
    retry_loop n cmdPath args s =
      (Val (o, se, err), mkSt (glob s) e',
       flat_map (refused_attempt cmdPath args) l ++ [ECmd cmdPath args o se err]) /\
    (length l <= n)%nat /\ forallb is_refused l = true /\
    (err <> None -> Contains se "Connection refused" = true -> length l = n).
Proof.
  revert s. induction n as [|n IH]; intros s Hr; cbn [retry_loop];
    unfold mbind, M_bind; rewrite (run_eq _ _ _ _ Hr);
    destruct (run_cmd _ _ _) as [[[o se] err] e1].
  - exists [], o, se, err, e1.
    split; [by destruct err; [destruct (Contains _ _)|]|]. simpl. repeat split; lia.
  - destruct (bool_decide (err <> None) && Contains se "Connection refused") eqn:HC; cycle 1.
    { exists [], o, se, err, e1. apply andb_false_iff in HC.
      split; [destruct err; [|done]; destruct HC as [HC|HC];
        [by rewrite bool_decide_eq_true_2 in HC|by rewrite HC]|].
      simpl. repeat split; [lia|]. intros Hne HC'.
      rewrite bool_decide_eq_true_2, HC' in HC by done. by destruct HC. }
    apply andb_true_iff in HC as [Herr HC]. apply bool_decide_eq_true in Herr.
    destruct err as [err|]; [|done]. rewrite HC.
    destruct (IH (mkSt (glob s) (pause 2 e1)) Hr)
      as (l & o' & se' & err' & e' & Heq & Hlen & Hall & Hlast).
    exists ((o, se, err) :: l), o', se', err', e'.
    unfold Sleep, prim. cbn -[retry_loop]. rewrite Heq. simpl.
    rewrite HC, Hall. repeat split; [lia|]. intros. f_equal. by apply Hlast.
Qed.

Lemma wp_RunOVNNbctl args Q s h :
  runner (glob s) = Some h ->
  (forall o se err e', Q (Val (nb_out o, se, err)) (mkSt (glob s) e')
     [ECmd (nbctlPath h) (nb_argv h ovsCommandTimeout args) o se err]) ->
  wp (RunOVNNbctl args) Q s.
Proof.
  intros Hr HQ. unfold RunOVNNbctl, RunOVNNbctlWithTimeout.
  wp_steps. unfold get_runner. wp_steps. rewrite Hr. wp_steps.
  unfold wp, runOVNretry.
  destruct (retry_loop_spec 200 (nbctlPath h) (nb_argv h ovsCommandTimeout args) s h Hr)
    as (l & o & se & err & e' & Heq & _).
  destruct (compress_attempts (nbctlPath h) (nb_argv h ovsCommandTimeout args) l o se err)
    as [Hp Hc].
  rewrite Heq. split; [done|]. rewrite Hc. wp_steps. apply HQ.
Qed.

Lemma wp_run cmdPath args Q s h :
  runner (glob s) = Some h ->
  (forall o se err e', Q (Val (o, se, err)) (mkSt (glob s) e') [ECmd cmdPath args o se err]) ->
  wp (run cmdPath args) Q s.
Proof.
  intros Hr HQ. unfold wp. rewrite (run_eq _ _ _ _ Hr).
  destruct (run_cmd _ _ _) as [[[o se] err] e']. by split; [|apply HQ].
Qed.

Lemma wp_RunIP args Q s h :
  runner (glob s) = Some h ->
  (forall o se err e', Q (Val (TrimSpace o, se, err)) (mkSt (glob s) e')
     [ECmd (ipPath h) args o se err]) ->
  wp (RunIP args) Q s.
Proof.
  intros Hr HQ. unfold RunIP, get_runner. wp_steps. rewrite Hr. wp_steps.
  eapply wp_run; [done|]. intros. wp_steps. apply HQ.
Qed.

Definition vs_argv (args : list string) : list string := "--timeout=15" :: args.

Lemma RunOVSVsctl_eq args s h :
  runner (glob s) = Some h ->
  RunOVSVsctl args s =
    let '((o, se, err), e') := run_cmd (vsctlPath h) (vs_argv args) (env s) in
    (Val (nb_out o, se, err), mkSt (glob s) e', [ECmd (vsctlPath h) (vs_argv args) o se err]).
Proof.
  intros Hr. unfold RunOVSVsctl, get_runner, mbind, M_bind, get_glob, deref. rewrite Hr.
  unfold mret at 1, M_ret at 1. change (("--timeout=" +:+ fmt_d ovsCommandTimeout) :: args)
    with (vs_argv args). rewrite (run_eq _ _ _ _ Hr).
  by destruct (run_cmd _ _ _) as [[[o se] err] e'].
Qed.

Lemma wp_RunOVSVsctl args Q s h :
  runner (glob s) = Some h ->
  (forall o se err e', Q (Val (nb_out o, se, err)) (mkSt (glob s) e')
     [ECmd (vsctlPath h) (vs_argv args) o se err]) ->
  wp (RunOVSVsctl args) Q s.
Proof.
  intros Hr HQ. unfold RunOVSVsctl, get_runner. wp_steps. rewrite Hr. wp_steps.
  change (("--timeout=" +:+ fmt_d ovsCommandTimeout) :: args) with (vs_argv args).
  eapply wp_run; [done|]. intros. wp_steps. apply HQ.
Qed.
(** ** Quiet functions

    A quiet function always returns a value and leaves the package variables
    as they are; most functions that only run tools are. *)
Definition quiet {A} (m : M E A) : Prop :=
  forall s h, runner (glob s) = Some h ->
    wp m (fun r s' _ => glob s' = glob s /\ exists a, r = Val a) s.

Lemma quiet_ret {A} (a : A) : quiet (mret a).
Proof. intros s h _. apply wp_ret. eauto. Qed.

Lemma quiet_bind {A B} (m : M E A) (k : A -> M E B) :
  quiet m -> (forall a, quiet (k a)) -> quiet (m ≫= k).
Proof.
  intros Hm Hk s h Hr. apply wp_bind. eapply wp_mono; [|by apply (Hm s h)].
  intros r s1 e1 [Hg [a ->]]. cbn [after]. rewrite <- Hg in Hr |- *. by apply (Hk a s1 h).
Qed.

Lemma quiet_RunOVNNbctl args : quiet (RunOVNNbctl args).
Proof. intros s h Hr. eapply wp_RunOVNNbctl; eauto. Qed.
Lemma quiet_RunIP args : quiet (RunIP args).
Proof. intros s h Hr. eapply wp_RunIP; eauto. Qed.
Lemma quiet_RunOVSVsctl args : quiet (RunOVSVsctl args).
Proof. intros s h Hr. eapply wp_RunOVSVsctl; eauto. Qed.

Lemma quiet_prim {A} (f : E -> A * E) ev :
  (forall a, is_retry_pause (ev a) = false) -> quiet (prim f ev).
Proof. intros Hp s h Hr. apply wp_prim. intros a e' _. split; [done|]. eauto. Qed.

Lemma quiet_elim {A} (m : M E A) s h :
  quiet m -> runner (glob s) = Some h ->
  wp m (fun r s' es => exists a e', r = Val a /\ s' = mkSt (glob s) e') s.
Proof.
  intros Hm Hr. eapply wp_mono; [|by apply (Hm s h)].
  intros r [g e] es [Hg [a ->]]. simpl in Hg. subst. eauto.
Qed.

Lemma quiet_for_range {X L R} (body : X -> L -> M E (L + R)) xs l :
  (forall x l, quiet (body x l)) -> quiet (for_range body xs l).
Proof.
  intros Hb. revert l. induction xs as [|x xs IH]; intros l; cbn [for_range].
  - apply quiet_ret.
  - apply quiet_bind; [done|]. intros [l'|ret]; [done|apply quiet_ret].
Qed.
(** [SetExec] changes only the helper. *)
Lemma wp_SetExec (Q : Res (option error) -> St E -> list Event -> Prop) s :
  (forall e' h err es, Q (Val err) (mkSt (set_runner (Some h) (glob s)) e') es) ->
  wp SetExec Q s.
Proof.
  intros HQ. unfold SetExec, LookPath, Getenv.
  repeat (wp_step || case_match || (apply wp_ask; intros; split; [done|])); apply HQ.
Qed.

End runner.

#[export] Hint Resolve quiet_ret quiet_RunOVNNbctl quiet_RunIP quiet_RunOVSVsctl : quiet.

(** Decides that a function is quiet by following its control flow. *)
Ltac quiet_tac :=
  repeat (intros; first
    [ solve [eauto with quiet]
    | apply quiet_prim; done
    | apply quiet_bind
    | apply quiet_for_range
    | case_match ]).

(** ** Properties *)

Section properties.
Context {E : Type} `{!ExecWorld E}.

(** C24: [runOVNretry] always returns, after at most 201 runs of the command:
    each refused run is followed by one two-second pause, and the answer is
    that of the first run that is not refused, or of the 201st. *)
Theorem runOVNretry_bounded cmdPath args (s : St E) h :
  runner (glob s) = Some h ->
  exists l o se err e',
    runOVNretry cmdPath args s =
      (Val (o, se, err), mkSt (glob s) e',
       flat_map (refused_attempt cmdPath args) l ++ [ECmd cmdPath args o se err]) /\
    (length l <= 200)%nat /\ forallb is_refused l = true /\
    (err <> None -> Contains se "Connection refused" = true -> length l = 200%nat).
Proof. apply retry_loop_spec. Qed.
End properties.

(** A server that refuses the first [n] connections. *)
Definition refusing_world : ExecWorld nat := {|
  run_cmd _ _ n := match n with
                   | O => ("ok", "", None, O)
                   | S n' => ("", "tcp: Connection refused", Some (OtherError "exit" "1"), n')
                   end;
  look_path f n := (f, None, n);
  getenv _ n := ("", n);
  pause _ n := n;
  random n := (0%Z, n);
  map_picks n := ([], n)
|}.

(** A world whose commands answer by a fixed table; [random] counts. *)
Definition reply_world (f : list string -> string * string * option error) : ExecWorld Z := {|
  run_cmd _ args n := (f args, n);
  look_path file n := (file, None, n);
  getenv _ n := ("", n);
  pause _ n := n;
  random n := (n, (n + 1)%Z);
  map_picks n := ([], n)
|}.

Definition demo_helper : execHelper := Build_execHelper "nbctl" "vsctl" "ip" "" "6641".
Definition demo_globals : Globals := set_runner (Some demo_helper) initGlobals.

Lemma runOVNretry_bounded_witness :
  let run n := @runOVNretry nat refusing_world "nbctl" ["show"] (mkSt demo_globals n) in
  (exists l o se err e', run 250%nat =
        (Val (o, se, err), mkSt demo_globals e',
         flat_map (refused_attempt "nbctl" ["show"]) l ++ [ECmd "nbctl" ["show"] o se err]) /\
      (length l <= 200)%nat /\ forallb is_refused l = true /\
      (err <> None -> Contains se "Connection refused" = true -> length l = 200%nat)) /\
  (run 2%nat).1.1 = Val ("ok", "", None) /\ length (run 2%nat).2 = 5%nat.
Proof.
  split; [|split; reflexivity].
  exact (@runOVNretry_bounded nat refusing_world "nbctl" ["show"]
           (mkSt demo_globals 250%nat) demo_helper eq_refl).
Defined.
