(* ===== verification/TestHelpers.v ===== *)
(** * TestHelpers: the fake commands of internal/pkg/testing

    A script of expected commands, built for the fake of os/exec in
    k8s.io/utils: each entry looks at a command and its arguments and, if its
    expectations hold, answers what the test said.  A failed expectation
    ([None]) ends the test. *)

From S2P Require Import Prelude.
From S2P Require Import GoStrings.
From S2P Require Import World.
From Stdlib Require Import Ascii.

#[local] Open Scope string_scope.
#[local] Open Scope list_scope.

Record ExpectedCmd := mkExpected {
  Cmd : string; Output : string; Stderr : string; Err : option error
}.

(** The fake command of the library, with its scripts of answers. *)
Record FakeCmd := mkFakeCmd {
  Argv : list string;
  CombinedOutputScript : list (string * option error);
  RunScript : list (string * string * option error)
}.

Definition FakeCommandAction : Type := string -> list string -> option FakeCmd.

Definition expected_action (expected : ExpectedCmd) : FakeCommandAction := fun cmd args =>
  let parts := Split (Cmd expected) " " in
  if negb (cmd == "/fake-bin/" +:+ hd "" parts) then None else
  if negb (Join args " " == Join (tail parts) " ") then None else
  Some {| Argv := tail parts;
          CombinedOutputScript := [(Output expected, Err expected)];
          RunScript := [(Output expected, Stderr expected, Err expected)] |}.

Definition AddFakeCmd (fakeCmds : list FakeCommandAction) (expected : ExpectedCmd) : list FakeCommandAction :=
  fakeCmds ++ [expected_action expected].

Definition AddFakeCmdsNoOutputNoError (fakeCmds : list FakeCommandAction) (commands : list string)
  : list FakeCommandAction :=
  fold_left (fun fakeCmds cmd => AddFakeCmd fakeCmds (mkExpected cmd "" "" None)) commands fakeCmds.

(** ** What is accepted *)

Lemma Join_cons w ws sep : Join (w :: ws) sep = w +:+ (if decide (ws = []) then "" else sep +:+ Join ws sep).
Proof. destruct ws; case_decide; cbn; try done. by rewrite append_empty_r. Qed.

Lemma Join_Split s sep : Join (Split s sep) (String sep "") = s.
Proof.
  induction s as [|c s IH]; [done|]. cbn [Split]. destruct (Ascii.eqb_spec c sep) as [->|].
  - rewrite Join_cons, decide_False by apply Split_not_nil. by rewrite IH.
  - destruct (Split s sep) as [|w ws] eqn:Hs; [by apply Split_not_nil in Hs|].
    rewrite <- IH, !Join_cons. done.
Qed.

(** The command of a list of words is accepted and answered as the test said. *)
Lemma expected_accepted w ws out se err :
  Forall (fun w => free " " w = true) (w :: ws) ->
  expected_action (mkExpected (Join (w :: ws) " ") out se err) ("/fake-bin/" +:+ w) ws =
    Some (mkFakeCmd ws [(out, err)] [(out, se, err)]).
Proof.
  intros Hw. unfold expected_action. cbn [Cmd Output Stderr Err]. rewrite Split_Join by done. cbn [hd tail].
  by rewrite !bool_decide_eq_true_2.
Qed.

(** What is accepted is, joined with spaces, the text that was expected; where
    one argument ends and the next one begins is not looked at. *)
Lemma accepted_expected expected cmd args r :
  expected_action expected cmd args = Some r -> args <> [] ->
  (exists w ws, Split (Cmd expected) " " = w :: ws /\ ws <> []) ->
  Join (cmd :: args) " " = "/fake-bin/" +:+ Cmd expected.
Proof.
  unfold expected_action. destruct (bool_decide_reflect (cmd = "/fake-bin/" +:+ hd "" (Split (Cmd expected) " "))) as [->|]; [|done].
  destruct (bool_decide_reflect (Join args " " = Join (tail (Split (Cmd expected) " ")) " ")) as [Ha|]; [|done]. intros _ Hne (w & ws & Hs & Hws).
  rewrite Join_cons, decide_False, Ha by done. rewrite <- (Join_Split (Cmd expected) " ") at 3.
  rewrite Hs. cbn [hd tail]. rewrite Join_cons, decide_False by done. by rewrite append_assoc.
Qed.

Lemma arguments_not_told_apart :
  let e := mkExpected "ovn-nbctl set x y" "" "" None in
  expected_action e "/fake-bin/ovn-nbctl" ["set x"; "y"] = expected_action e "/fake-bin/ovn-nbctl" ["set"; "x y"] /\
  expected_action e "/fake-bin/ovn-nbctl" ["set"; "x"] = None.
Proof. split; reflexivity. Qed.

(** A script answers in the order in which its commands were added. *)
Lemma fake_cmds_in_order fakeCmds commands :
  AddFakeCmdsNoOutputNoError fakeCmds commands =
    fakeCmds ++ map (fun cmd => expected_action (mkExpected cmd "" "" None)) commands.
Proof.
  unfold AddFakeCmdsNoOutputNoError, AddFakeCmd. revert fakeCmds.
  induction commands as [|c l IH]; intros f; cbn; [by rewrite app_nil_r|]. by rewrite IH, <- app_assoc.
Qed.
