(* ===== verification/IpTables.v ===== *)
(** * IpTables: rules of the node's firewall (internal/pkg/network/iptables.go)

    The library go-iptables is the environment ([IPTWorld]); what it documents
    is the class [IPTLaws], against which the effect of [ensureIPTables] on the
    installed rules is proved. *)

From S2P Require Import Prelude.
From S2P Require Import GoStrings.
From S2P Require Import Types.
From S2P Require Import World.
From S2P Require Import Runner.

#[local] Open Scope string_scope.
#[local] Open Scope list_scope.

Record IPTablesRule := { table : string; chain : string; rulespec : list string }.

#[global] Instance IPTablesRule_eq_dec : EqDecision IPTablesRule.
Proof. solve_decision. Defined.

Definition MasqRules (ifname : string) : list IPTablesRule :=
  [ {| table := "nat"; chain := "POSTROUTING"; rulespec := ["-o"; ifname; "-j"; "MASQUERADE"] |} ].

Definition ForwardRules (ovnNetwork : string) : list IPTablesRule :=
  [ {| table := "filter"; chain := "FORWARD"; rulespec := ["-s"; ovnNetwork; "-j"; "ACCEPT"] |};
    {| table := "filter"; chain := "FORWARD"; rulespec := ["-d"; ovnNetwork; "-j"; "ACCEPT"] |} ].

Class IPTWorld (E : Type) := {
  ipt_new : E -> option error * E;                              (* iptables.New *)
  ipt_exists : IPTablesRule -> E -> (bool * option error) * E;  (* Exists *)
  ipt_append : IPTablesRule -> E -> option error * E;           (* AppendUnique *)
  ipt_delete : IPTablesRule -> E -> option error * E            (* Delete *)
}.

Definition rule_args (r : IPTablesRule) : list string := table r :: chain r :: rulespec r.

Section iptables.
Context {E : Type} `{!IPTWorld E}.

Definition ipt_New : M E (option error) := prim ipt_new (fun _ => EQuery "iptables").
Definition Exists (r : IPTablesRule) : M E (bool * option error) :=
  prim (ipt_exists r) (fun _ => EQuery "iptables").
Definition AppendUnique (r : IPTablesRule) : M E (option error) :=
  prim (ipt_append r) (fun err => EIPTables "append" (rule_args r) err).
Definition Delete (r : IPTablesRule) : M E (option error) :=
  prim (ipt_delete r) (fun err => EIPTables "delete" (rule_args r) err).

Definition check_rule (rule : IPTablesRule) (_ : ()) : M E (() + (bool * option error)) :=
  '(exists_, err) ← Exists rule;
  match err with
  | Some e => mret (inr (false, Errorf ("failed to check rule existence: " +:+ Error e)))
  | None => if negb exists_ then mret (inr (false, None)) else mret (inl ())
  end.

Definition ipTablesRulesExist (rules : list IPTablesRule) : M E (bool * option error) :=
  r ← for_range check_rule rules ();
  match r with inl _ => mret (true, None) | inr ret => mret ret end.

Definition insert_rule (rule : IPTablesRule) (_ : ()) : M E (() + option error) :=
  err ← AppendUnique rule;
  match err with
  | Some e => mret (inr (Errorf ("failed to insert IPTables rule: " +:+ Error e)))
  | None => mret (inl ())
  end.

Definition setupIPTables (rules : list IPTablesRule) : M E (option error) :=
  r ← for_range insert_rule rules ();
  match r with inl _ => mret None | inr err => mret err end.

Definition remove_rule (rule : IPTablesRule) (_ : ()) : M E (() + ()) :=
  Delete rule;; mret (inl ()).

Definition teardownIPTables (rules : list IPTablesRule) : M E () :=
  for_range remove_rule rules ();; mret ().

Definition ensureIPTables (rules : list IPTablesRule) : M E (option error) :=
  '(exists_, err) ← ipTablesRulesExist rules;
  match err with
  | Some e => mret (Errorf ("Error checking rule existence: " +:+ Error e))
  | None =>
      if (exists_ : bool) then mret None
      else
        teardownIPTables rules;;
        err ← setupIPTables rules;
        match err with
        | Some e => mret (Errorf ("Error setting up rules: " +:+ Error e))
        | None => mret None
        end
  end.

Definition SetupAndEnsureIPTables (rules : list IPTablesRule) : M E (option error) :=
  err ← ipt_New;
  match err with Some e => mret (Some e) | None =>
  ensureIPTables rules
  end.

Definition DeleteIPTables (rules : list IPTablesRule) : M E (option error) :=
  err ← ipt_New;
  match err with Some e => mret (Some e) | None =>
  teardownIPTables rules;; mret None
  end.
End iptables.

(** ** What go-iptables documents: the installed rules are a list; a check
    answers membership, an append adds the rule at the end unless it is there,
    a delete removes that rule only.  Any call may fail and change nothing. *)
Class IPTLaws (E : Type) `{!IPTWorld E} := {
  installed : E -> list IPTablesRule;
  new_law : forall e, installed (ipt_new e).2 = installed e;
  exists_law : forall r e, installed (ipt_exists r e).2 = installed e /\
    ((ipt_exists r e).1.2 = None -> (ipt_exists r e).1.1 = bool_decide (r ∈ installed e));
  append_law : forall r e, match (ipt_append r e).1 with
    | Some _ => installed (ipt_append r e).2 = installed e
    | None => installed (ipt_append r e).2 =
        if bool_decide (r ∈ installed e) then installed e else installed e ++ [r]
    end;
  delete_law : forall r e r', r' <> r -> (r' ∈ installed (ipt_delete r e).2 <-> r' ∈ installed e)
}.

Section laws.
Context {E : Type} `{!IPTWorld E, !IPTLaws E}.
Implicit Types s : St E.

Lemma wp_check_rules rules s :
  wp (ipTablesRulesExist rules) (fun r s' es => glob s' = glob s /\
    installed (env s') = installed (env s) /\ Forall (fun e => e = EQuery "iptables") es /\
    exists b err, r = Val (b, err) /\ (err = None -> b = true -> Forall (fun r => r ∈ installed (env s)) rules) /\
      (Forall (fun r => r ∈ installed (env s)) rules -> err = None -> b = true)) s.
Proof.
  unfold ipTablesRulesExist. wp_step.
  apply (wp_for_range _ (fun dn _ s' es => glob s' = glob s /\ installed (env s') = installed (env s) /\
    Forall (fun e => e = EQuery "iptables") es /\ Forall (fun r => r ∈ installed (env s)) dn)).
  - by repeat constructor.
  - intros dn r rest [] s1 es1 Hxs (Hg & Hi & He & Hd). unfold check_rule. wp_step. apply wp_prim.
    intros [b err] e' Heq. split; [done|]. cbn [after].
    destruct (exists_law r (env s1)) as [H1 H2]. rewrite Heq in H1, H2. cbn [fst snd] in H1, H2.
    assert (He2 : Forall (fun e => e = EQuery "iptables") (es1 ++ [EQuery "iptables"]))
      by (apply Forall_app; by repeat constructor).
    destruct err as [x|]; [|destruct b; cbn [negb]]; apply wp_ret; cbn [after];
      rewrite ?app_nil_r.
    + apply wp_ret. rewrite app_nil_r. split_and!; [done|cbn [env]; congruence|done|]. by do 2 eexists.
    + split_and!; [done|cbn [env]; congruence|done|]. apply Forall_app. split; [done|].
      constructor; [|done]. specialize (H2 eq_refl). symmetry in H2.
      apply bool_decide_eq_true in H2. by rewrite <- Hi.
    + apply wp_ret. rewrite app_nil_r. split_and!; [done|cbn [env]; congruence|done|].
      do 2 eexists. split; [done|]. split; [done|]. intros Hall _. exfalso.
      specialize (H2 eq_refl). symmetry in H2. apply bool_decide_eq_false in H2. apply H2.
      rewrite Hi. rewrite Hxs in Hall. apply Forall_app in Hall as [_ Hall].
      by apply Forall_cons in Hall as [? _].
  - intros [] s1 es1 (Hg & Hi & He & Hd). cbn [after]. apply wp_ret. rewrite app_nil_r.
    split_and!; try done. by do 2 eexists.
Qed.

(** Rules outside [rules] are untouched between two states. *)
Definition frame (rules : list IPTablesRule) s s' : Prop :=
  glob s' = glob s /\ forall r, r ∉ rules -> (r ∈ installed (env s') <-> r ∈ installed (env s)).

Lemma frame_trans rules s1 s2 s3 : frame rules s1 s2 -> frame rules s2 s3 -> frame rules s1 s3.
Proof. intros [H1 H2] [H3 H4]. split; [congruence|]. intros r Hr. by rewrite (H4 r Hr), (H2 r Hr). Qed.

Lemma frame_refl rules s : frame rules s s.
Proof. done. Qed.

Lemma frame_weaken rules rules' s s' :
  (forall r, r ∈ rules -> r ∈ rules') -> frame rules s s' -> frame rules' s s'.
Proof. intros Hsub [Hg Hf]. split; [done|]. intros r Hr. apply Hf. intros Hin. by apply Hr, Hsub. Qed.

Lemma wp_teardown rules s :
  wp (teardownIPTables rules) (fun r s' _ => r = Val () /\ frame rules s s') s.
Proof.
  unfold teardownIPTables. wp_step. apply (wp_for_range _ (fun _ _ s' _ => frame rules s s')); [done| |].
  - intros dn r rest [] s1 es1 Hxs Hf. unfold remove_rule. wp_step. apply wp_prim.
    intros err e' Heq. split; [done|]. cbn [after]. apply wp_ret.
    eapply frame_trans; [exact Hf|]. split; [done|]. intros r' Hr'. cbn [env].
    replace e' with (ipt_delete r (env s1)).2 by (by rewrite Heq). apply delete_law.
    intros ->. apply Hr'. rewrite Hxs. set_solver.
  - intros [] s1 es1 Hf. cbn [after]. by apply wp_ret.
Qed.

Lemma wp_setup rules s :
  wp (setupIPTables rules) (fun r s' _ => frame rules s s' /\ exists err, r = Val err /\
    (err = None -> Forall (fun r => r ∈ installed (env s')) rules)) s.
Proof.
  unfold setupIPTables. wp_step.
  apply (wp_for_range _ (fun dn _ s' _ => frame rules s s' /\
    Forall (fun r => r ∈ installed (env s')) dn)); [by split| |].
  - intros dn r rest [] s1 es1 Hxs [Hf Hd]. unfold insert_rule. wp_step. apply wp_prim.
    intros err e' Heq. split; [done|]. cbn [after].
    assert (Ha := append_law r (env s1)). rewrite Heq in Ha. cbn [fst snd] in Ha.
    destruct err as [x|]; apply wp_ret; cbn [after].
    + apply wp_ret. split; [|by eexists]. eapply frame_trans; [exact Hf|]. split; [done|].
      cbn [env]. by rewrite Ha.
    + assert (Hsub : forall r', r' ∈ installed e' <-> r' = r \/ r' ∈ installed (env s1)).
      { intros r'. rewrite Ha. case_bool_decide; [|set_solver]. split; [tauto|]. by intros [->|?]. }
      split.
      * eapply frame_trans; [exact Hf|]. split; [done|]. intros r' Hr'. cbn [env]. rewrite Hsub.
        split; [|tauto]. intros [->|?]; [|done]. exfalso. apply Hr'. rewrite Hxs. set_solver.
      * apply Forall_app. split; [|constructor; [|done]; cbn [env]; apply Hsub; by left].
        eapply Forall_impl; [exact Hd|]. intros r' Hr'. cbn [env]. apply Hsub. by right.
  - intros [] s1 es1 [Hf Hd]. cbn [after]. apply wp_ret. split; [done|]. by eexists.
Qed.

(** [ensureIPTables] returns without an error only when every rule it was
    given is installed, and never touches another rule; when all of them are
    there already it changes nothing, and always succeeds unless a check
    fails. *)
Theorem ensureIPTables_installs rules s :
  wp (ensureIPTables rules) (fun r s' es => frame rules s s' /\ exists err, r = Val err /\
    (err = None -> Forall (fun r => r ∈ installed (env s')) rules) /\
    (Forall (fun r => r ∈ installed (env s)) rules ->
      installed (env s') = installed (env s) /\ Forall (fun e => e = EQuery "iptables") es)) s.
Proof.
  unfold ensureIPTables. wp_step. eapply wp_mono; [|apply wp_check_rules].
  intros r s1 es1 (Hg & Hi & He & b & err & -> & Hall & Hcheck). cbn [after].
  assert (Hf : frame rules s s1) by (split; [done|]; intros; by rewrite Hi).
  destruct err as [x|]; [|destruct b].
  - apply wp_ret. split; [done|]. eexists. split; [done|]. by rewrite app_nil_r.
  - apply wp_ret. split; [done|]. eexists. split; [done|]. rewrite app_nil_r, Hi.
    split; [|done]. intros _. by apply Hall.
  - wp_step. eapply wp_mono; [|apply wp_teardown]. intros r s2 es2 [-> Hf2]. cbn [after].
    wp_step. eapply wp_mono; [|apply wp_setup]. intros r s3 es3 (Hf3 & err & -> & Hset). cbn [after].
    assert (Hf13 : frame rules s s3) by (eapply frame_trans; [|exact Hf3]; by eapply frame_trans).
    assert (Hno : ~ Forall (fun r => r ∈ installed (env s)) rules) by (intros H; by discriminate (Hcheck H eq_refl)).
    destruct err as [x|]; apply wp_ret; (split; [done|]); eexists; (split; [done|]); (split; [|done]).
    + done.
    + intros _. by apply Hset.
Qed.
End laws.

(** ** A concrete firewall: the state is the list of installed rules *)

Definition list_ipt : IPTWorld (list IPTablesRule) := {|
  ipt_new e := (None, e);
  ipt_exists r e := ((bool_decide (r ∈ e), None), e);
  ipt_append r e := (None, if bool_decide (r ∈ e) then e else e ++ [r]);
  ipt_delete r e := if bool_decide (r ∈ e) then (None, filter (fun r' => r' <> r) e)
                    else (Some (OtherError "*iptables.Error" "no such rule"), e)
|}.

Definition list_ipt_laws : @IPTLaws (list IPTablesRule) list_ipt.
Proof.
  refine (@Build_IPTLaws _ list_ipt (fun e => e) _ _ _ _); simpl; try done.
  intros r e r' Hne. case_bool_decide; simpl; [|done]. rewrite list_elem_of_filter. tauto.
Defined.

Lemma ensureIPTables_installs_witness :
  let rules := ForwardRules "10.154.142.0/18" in
  let s := mkSt initGlobals (MasqRules "eth0" ++ take 1 rules) in
  wp (@ensureIPTables _ list_ipt rules) (fun r s' es => @frame _ list_ipt list_ipt_laws rules s s' /\
    exists err, r = Val err /\
      (err = None -> Forall (fun r => r ∈ @installed _ list_ipt list_ipt_laws (env s')) rules) /\
      (Forall (fun r => r ∈ @installed _ list_ipt list_ipt_laws (env s)) rules ->
        @installed _ list_ipt list_ipt_laws (env s') = @installed _ list_ipt list_ipt_laws (env s) /\
        Forall (fun e => e = EQuery "iptables") es)) s /\
  env (@ensureIPTables _ list_ipt rules s).1.2 = MasqRules "eth0" ++ rules.
Proof.
  split; [|vm_compute; reflexivity].
  exact (@ensureIPTables_installs _ list_ipt list_ipt_laws (ForwardRules "10.154.142.0/18")
    (mkSt initGlobals (MasqRules "eth0" ++ take 1 (ForwardRules "10.154.142.0/18")))).
Defined.
