(* ===== verification/Iface.v ===== *)
(** * Iface: the node's routes and addresses (internal/pkg/network/iface.go)

    The kernel, through the netlink library and [net.InterfaceByIndex], is the
    environment ([RouteWorld]); an interface is its index. *)

From S2P Require Import Prelude.
From S2P Require Import GoStrings.
From S2P Require Import GoNet.
From S2P Require Import Types.
From S2P Require Import World.
From S2P Require Import Runner.

#[local] Open Scope string_scope.
#[local] Open Scope list_scope.

(** [netlink.Route] and [netlink.Addr]: the fields that are read. *)
Record NLRoute := { rt_Dst : option IPNet; rt_Gw : list Z; rt_LinkIndex : Z }.
Record NLAddr := { addr_IPNet : option IPNet }.

Class RouteWorld (E : Type) := {
  route_list : E -> (list NLRoute * option error) * E;           (* RouteList(nil, AF_INET) *)
  interface_by_index : Z -> E -> (Z * option error) * E;
  addr_list : Z -> E -> (list NLAddr * option error) * E         (* AddrList(link, AF_INET) *)
}.

(** ** [net.IPNet.String] *)

Definition networkNumberAndMask (n : IPNet) : option (list Z * list Z) :=
  match match To4 (net_ip n) with
        | Some v => Some v
        | None => if (length (net_ip n) =? 16)%nat then Some (net_ip n) else None
        end with
  | None => None
  | Some ip =>
      let m := net_mask n in
      if (length m =? 4)%nat then if (length ip =? 4)%nat then Some (ip, m) else None
      else if (length m =? 16)%nat then Some (ip, if (length ip =? 4)%nat then drop 12 m else m)
      else None
  end.

(** [IPMask.String]: hexadecimal, without punctuation. *)
Definition IPMask_String (m : list Z) : string :=
  if (length m =? 0)%nat then "<nil>" else hexString m.

Definition IPNet_String (n : IPNet) : string :=
  match networkNumberAndMask n with
  | None => "<nil>"
  | Some (nn, m) =>
      match simpleMaskLength m with
      | None => IP_String nn +:+ "/" +:+ IPMask_String m
      | Some l => IP_String nn +:+ "/" +:+ fmt_d l
      end
  end.

(** [To4().String()], with a nil result printed as such. *)
Definition To4_String (ip : list Z) : string := IP_String (default [] (To4 ip)).

(** ** Address classes *)

Definition byte_at (ip : list Z) (i : nat) : Z := nth i ip 0%Z.

(** [ip.Equal(x)] for an [ip] of 4 bytes (or mapped) and a 4-byte [x]. *)
Definition equal_v4 (ip x : list Z) : bool := bool_decide (To4 ip = Some x).

Definition IsUnspecified (ip : list Z) : bool :=
  equal_v4 ip [0;0;0;0]%Z || bool_decide (ip = repeat 0%Z 16).
Definition IsLoopback (ip : list Z) : bool :=
  match To4 ip with
  | Some v => (byte_at v 0 =? 127)%Z
  | None => bool_decide (ip = repeat 0%Z 15 ++ [1%Z])
  end.
Definition IsMulticast (ip : list Z) : bool :=
  match To4 ip with
  | Some v => (Z.land (byte_at v 0) 0xf0 =? 0xe0)%Z
  | None => (length ip =? 16)%nat && (byte_at ip 0 =? 0xff)%Z
  end.
Definition IsLinkLocalUnicast (ip : list Z) : bool :=
  match To4 ip with
  | Some v => (byte_at v 0 =? 169)%Z && (byte_at v 1 =? 254)%Z
  | None => (length ip =? 16)%nat && (byte_at ip 0 =? 0xfe)%Z && (Z.land (byte_at ip 1) 0xc0 =? 0x80)%Z
  end.
Definition IsGlobalUnicast (ip : list Z) : bool :=
  ((length ip =? 4)%nat || (length ip =? 16)%nat)
  && negb (equal_v4 ip [255;255;255;255]%Z)
  && negb (IsUnspecified ip) && negb (IsLoopback ip) && negb (IsMulticast ip)
  && negb (IsLinkLocalUnicast ip).

Section iface.
Context {E : Type} `{!RouteWorld E}.

Definition RouteList : M E (list NLRoute * option error) := prim route_list (fun _ => EQuery "RouteList").

Definition is_default (r : NLRoute) : bool :=
  match rt_Dst r with None => true | Some d => IPNet_String d == "0.0.0.0/0" end.

(** The first default route decides. *)
Definition default_gateway (route : NLRoute) (_ : ()) : M E (() + (string * option error)) :=
  if is_default route then
    match To4 (rt_Gw route) with
    | None => mret (inr ("", Errorf "Found default route but could not determine gateway"))
    | Some gw => mret (inr (IP_String gw, None))
    end
  else mret (inl ()).

Definition GetDefaultGateway : M E (string * option error) :=
  '(routes, err) ← RouteList;
  match err with Some e => mret ("", Some e) | None =>
  r ← for_range default_gateway routes ();
  match r with
  | inr ret => mret ret
  | inl _ => mret ("", Errorf "Unable to find default route")
  end end.

(** [route.Dst.String()] on a nil destination dereferences nil. *)
Definition check_route (dst gw : string) (route : NLRoute) (isPresent : bool) : M E (bool + ()) :=
  d ← deref (rt_Dst route);
  mret (inl (if (IPNet_String d == dst) && (To4_String (rt_Gw route) == gw) then true else isPresent)).

Definition CheckRoute (dst gw : string) : M E (bool * option error) :=
  '(routes, err) ← RouteList;
  match err with Some e => mret (false, Some e) | None =>
  r ← for_range (check_route dst gw) routes false;
  mret (match r with inl b => b | inr _ => false end, None)
  end.

Definition default_interface (route : NLRoute) (_ : ()) : M E (() + (Z * option error)) :=
  if is_default route then
    if (rt_LinkIndex route <=? 0)%Z then
      mret (inr (0%Z, Errorf "Found default route but could not determine interface"))
    else
      r ← prim (interface_by_index (rt_LinkIndex route)) (fun _ => EQuery "InterfaceByIndex");
      mret (inr r)
  else mret (inl ()).

Definition GetDefaultGatewayInterface : M E (Z * option error) :=
  '(routes, err) ← RouteList;
  match err with Some e => mret (0%Z, Some e) | None =>
  r ← for_range default_interface routes ();
  match r with
  | inr ret => mret ret
  | inl _ => mret (0%Z, Errorf "Unable to find default route")
  end end.

Definition getIfaceAddrs (iface : Z) : M E (list NLAddr * option error) :=
  prim (addr_list iface) (fun _ => EQuery "AddrList").

(** The preferred address: the first global one leaves the loop, the last
    link-local one is kept in [ll]. *)
Definition pick_addr (addr : NLAddr) (ll : NLAddr) : M E (NLAddr + (NLAddr * option error)) :=
  n ← deref (addr_IPNet addr);
  match To4 (net_ip n) with
  | None => mret (inl ll)
  | Some _ =>
      if IsGlobalUnicast (net_ip n) then mret (inr (addr, None))
      else mret (inl (if IsLinkLocalUnicast (net_ip n) then addr else ll))
  end.

Definition zeroAddr : NLAddr := {| addr_IPNet := None |}.

(** [ll.IP] is read even when no link-local address was found. *)
Definition GetInterfaceIP4Addr (iface : Z) : M E (NLAddr * option error) :=
  '(addrs, err) ← getIfaceAddrs iface;
  match err with Some e => mret (zeroAddr, Some e) | None =>
  r ← for_range pick_addr addrs zeroAddr;
  match r with
  | inr ret => mret ret
  | inl ll =>
      n ← deref (addr_IPNet ll);
      match To4 (net_ip n) with
      | Some _ => mret (ll, None)
      | None => mret (zeroAddr, Errorf "No IPv4 address found for given interface")
      end
  end end.

Definition GetHostNetwork : M E (string * option error) :=
  '(iface, err) ← GetDefaultGatewayInterface;
  match err with Some e => mret ("", Some e) | None =>
  '(ipv4addr, err) ← GetInterfaceIP4Addr iface;
  match err with Some e => mret ("", Some e) | None =>
  n ← deref (addr_IPNet ipv4addr);
  match ParseCIDR (IPNet_String n) with
  | None => mret ("", Some (OtherError "*net.ParseError" ("invalid CIDR address: " +:+ IPNet_String n)))
  | Some (_, ipv4Net) => mret (IPNet_String ipv4Net, None)
  end end end.
End iface.

(** ** Which address is taken *)

Section addresses.
Context {E : Type} `{!RouteWorld E}.

Definition is_v4 (n : IPNet) : bool := match To4 (net_ip n) with Some _ => true | None => false end.
Definition global_v4 (n : IPNet) : bool := is_v4 n && IsGlobalUnicast (net_ip n).
Definition link_local_v4 (n : IPNet) : bool :=
  is_v4 n && negb (IsGlobalUnicast (net_ip n)) && IsLinkLocalUnicast (net_ip n).
Definition the_addr (n : IPNet) : NLAddr := {| addr_IPNet := Some n |}.

(** The reference choice: the first global address, else the last link-local
    one. *)
Definition chosen_addr (nets : list IPNet) : option IPNet :=
  match List.find global_v4 nets with
  | Some n => Some n
  | None => last (filter (fun n => link_local_v4 n = true) nets)
  end.

Lemma pick_addrs nets ll (s : St E) :
  for_range pick_addr (map the_addr nets) ll s =
    (Val (match List.find global_v4 nets with
          | Some n => inr (the_addr n, None)
          | None => inl (match last (filter (fun n => link_local_v4 n = true) nets) with
                         | Some n => the_addr n
                         | None => ll
                         end)
          end), s, []).
Proof.
  revert ll. induction nets as [|n nets IH]; intros ll; [done|].
  cbn [map for_range List.find]. rewrite filter_cons. unfold global_v4, link_local_v4, is_v4 in *.
  unfold mbind at 1, M_bind at 1.
  assert (Hp : pick_addr (the_addr n) ll s =
    (Val (if match To4 (net_ip n) with Some _ => true | None => false end && IsGlobalUnicast (net_ip n)
          then inr (the_addr n, None)
          else inl (if match To4 (net_ip n) with Some _ => true | None => false end
                       && negb (IsGlobalUnicast (net_ip n)) && IsLinkLocalUnicast (net_ip n)
                    then the_addr n else ll)), s, [])).
  { unfold pick_addr, deref, the_addr. cbn [addr_IPNet]. rewrite ret_bind.
    destruct (To4 (net_ip n)); [|done]. by destruct (IsGlobalUnicast _), (IsLinkLocalUnicast _). }
  rewrite Hp. destruct (To4 (net_ip n)), (IsGlobalUnicast (net_ip n)), (IsLinkLocalUnicast (net_ip n));
    cbn [andb negb]; try done; rewrite IH; try (by destruct (List.find _ nets)).
  destruct (List.find _ nets); [done|]. case_decide; [|done].
  rewrite last_cons. by destruct (last _).
Qed.

(** for the addresses of an interface, [GetInterfaceIP4Addr] takes the
    first global IPv4 address, else the last link-local one; with neither it
    panics on the missing address instead of returning its error. *)
Theorem GetInterfaceIP4Addr_choice iface nets e1 (s : St E) :
  addr_list iface (env s) = ((map the_addr nets, None), e1) ->
  GetInterfaceIP4Addr iface s =
    (match chosen_addr nets with
     | Some n => Val (the_addr n, None)
     | None => Panic "nil pointer dereference"
     end, mkSt (glob s) e1, [EQuery "AddrList"]).
Proof.
  intros Ha. unfold GetInterfaceIP4Addr, getIfaceAddrs, prim.
  unfold mbind at 1, M_bind at 1. rewrite Ha. cbn [fst snd].
  unfold mbind at 1, M_bind at 1. rewrite pick_addrs. unfold chosen_addr.
  destruct (List.find global_v4 nets) as [n|]; [done|].
  destruct (last _) as [n|] eqn:Hl; [|done].
  assert (Hin : link_local_v4 n = true) by (apply last_Some_elem_of, list_elem_of_filter in Hl; tauto).
  unfold link_local_v4, is_v4 in Hin. cbn [the_addr addr_IPNet deref]. rewrite ret_bind.
  by destruct (To4 (net_ip n)).
Qed.

(** a route check meets the default route, whose destination is nil, with
    a panic. *)
Theorem CheckRoute_default_panics dst gw rs1 r rs2 e1 (s : St E) :
  route_list (env s) = ((rs1 ++ r :: rs2, None), e1) ->
  Forall (fun r => is_Some (rt_Dst r)) rs1 -> rt_Dst r = None ->
  CheckRoute dst gw s = (Panic "nil pointer dereference", mkSt (glob s) e1, [EQuery "RouteList"]).
Proof.
  intros Hr Hall Hn. unfold CheckRoute, RouteList, prim. unfold mbind at 1, M_bind at 1. rewrite Hr.
  cbn [fst snd]. assert (G : forall b (s : St E),
    for_range (check_route dst gw) (rs1 ++ r :: rs2) b s = (Panic "nil pointer dereference", s, [])).
  { clear Hr s e1. induction Hall as [|r1 rs1 [d Hd] _ IH]; intros b s; cbn [app for_range].
    - unfold check_route. rewrite Hn. done.
    - unfold mbind at 1, M_bind at 1, check_route at 1. rewrite Hd. cbn [deref]. rewrite ret_bind.
      cbn -[for_range]. by rewrite IH. }
  unfold mbind at 1, M_bind at 1. by rewrite G.
Qed.
End addresses.

(** ** Concrete interfaces *)

Definition v4net (a b c d : Z) (n : nat) : IPNet := {| net_ip := [a; b; c; d]; net_mask := CIDRMask n 4 |}.

Definition iface_world (routes : list NLRoute) (nets : list IPNet) : RouteWorld Z := {|
  route_list n := ((routes, None), n);
  interface_by_index i n := ((i, None), n);
  addr_list _ n := ((map the_addr nets, None), n)
|}.

Definition demo_routes : list NLRoute :=
  [ {| rt_Dst := Some (v4net 10 0 0 0 8); rt_Gw := []; rt_LinkIndex := 3 |};
    {| rt_Dst := None; rt_Gw := [192;168;1;1]%Z; rt_LinkIndex := 2 |} ].

(** The host network is that of the default interface's address. *)
Example GetHostNetwork_run :
  (@GetHostNetwork Z (iface_world demo_routes [v4net 127 0 0 1 8; v4net 192 168 1 17 24])
    (mkSt initGlobals 0%Z)).1.1 = Val ("192.168.1.0/24", None).
Proof. vm_compute. reflexivity. Qed.

Lemma GetInterfaceIP4Addr_choice_witness :
  let run nets := @GetInterfaceIP4Addr Z (iface_world [] nets) 2%Z (mkSt initGlobals 0%Z) in
  run [v4net 169 254 0 5 16; v4net 10 0 0 5 8] = (match chosen_addr [v4net 169 254 0 5 16; v4net 10 0 0 5 8] with
       | Some n => Val (the_addr n, None)
       | None => Panic "nil pointer dereference"
       end, mkSt initGlobals 0%Z, [EQuery "AddrList"]) /\
  (run [v4net 169 254 0 5 16; v4net 10 0 0 5 8]).1.1 = Val (the_addr (v4net 10 0 0 5 8), None) /\
  (run [v4net 127 0 0 1 8]).1.1 = Panic "nil pointer dereference".
Proof.
  split; [|split; vm_compute; reflexivity].
  exact (@GetInterfaceIP4Addr_choice Z (iface_world [] [v4net 169 254 0 5 16; v4net 10 0 0 5 8]) 2%Z
    [v4net 169 254 0 5 16; v4net 10 0 0 5 8] 0%Z (mkSt initGlobals 0%Z) eq_refl).
Defined.

Lemma CheckRoute_default_panics_witness :
  @CheckRoute Z (iface_world demo_routes []) "10.0.0.0/8" "10.0.0.1" (mkSt initGlobals 0%Z)
  = (Panic "nil pointer dereference", mkSt initGlobals 0%Z, [EQuery "RouteList"]).
Proof.
  apply (@CheckRoute_default_panics Z (iface_world demo_routes []) "10.0.0.0/8" "10.0.0.1"
    (take 1 demo_routes) {| rt_Dst := None; rt_Gw := [192;168;1;1]%Z; rt_LinkIndex := 2 |} []);
    [reflexivity|by repeat constructor|reflexivity].
Defined.
