(* ===== verification/Traces.v ===== *)
(** * Traces: plans, and how a run follows them

    A plan is the list of effects that a function means to have when nothing
    fails: commands, or messages.  [follows plan r es] says that the events
    [es] of a run with result [r] carry the plan out, stopping at the first
    failure. *)

From S2P Require Import Prelude.
From S2P Require Import GoStrings.
From S2P Require Import Types.
From S2P Require Import World.

#[local] Open Scope list_scope.

(** The error of an effect that can fail and whose failure matters. *)
Definition event_err (e : Event) : option error :=
  match e with
  | ECmd _ _ _ _ err => err
  | ESend _ _ err => err
  | _ => None
  end.

(** Nothing follows a failed effect, and its error is the result. *)
Fixpoint fail_fast (es : list Event) (r : option error) : Prop :=
  match es with
  | [] => True
  | e :: es' => match event_err e with
                | Some x => es' = [] /\ r = Some x
                | None => fail_fast es' r
                end
  end.

Definition all_succeeded (es : list Event) : Prop := Forall (fun e => event_err e = None) es.

Lemma fail_fast_app es1 es2 r :
  all_succeeded es1 -> fail_fast es2 r -> fail_fast (es1 ++ es2) r.
Proof. induction 1 as [|e es1 He _ IH]; [done|]. simpl. rewrite He. auto. Qed.

Lemma cmds_app es1 es2 : cmds (es1 ++ es2) = cmds es1 ++ cmds es2.
Proof. apply omap_app. Qed.

(** The messages of a run: the stream and the content. *)
Definition send_of (e : Event) : option (nat * Notification) :=
  match e with ESend st m _ => Some (st, m) | _ => None end.
Definition sends (es : list Event) : list (nat * Notification) := omap send_of es.

Lemma sends_app es1 es2 : sends (es1 ++ es2) = sends es1 ++ sends es2.
Proof. apply omap_app. Qed.

(** ** Following a plan, for one kind of effect [view] *)
Section follows.
Context {X : Type} (view : Event -> option X).

Definition follows_in (plan : list X) (r : option error) (es : list Event) : Prop :=
  omap view es `prefix_of` plan /\ fail_fast es r /\
  (r = None -> omap view es = plan /\ all_succeeded es).

(** A plan that is carried out to the end goes on with a second plan. *)
Lemma follows_app p1 p2 r es1 es2 :
  follows_in p1 None es1 -> follows_in p2 r es2 -> follows_in (p1 ++ p2) r (es1 ++ es2).
Proof.
  intros (_ & _ & H1) (Hp & Hf & H2). destruct (H1 eq_refl) as [<- Hok].
  split; [|split].
  - rewrite omap_app. by apply prefix_app.
  - by apply fail_fast_app.
  - intros Hr. destruct (H2 Hr) as [<- Hok2]. rewrite omap_app.
    split; [done|]. by apply Forall_app.
Qed.

Lemma follows_stop p1 p2 x es : follows_in p1 (Some x) es -> follows_in (p1 ++ p2) (Some x) es.
Proof. intros (Hp & Hf & _). split; [by apply prefix_app_r|]. by split. Qed.

Lemma follows_single e x : view e = Some x -> follows_in [x] (event_err e) [e].
Proof.
  intros Hv. unfold follows_in. simpl. rewrite Hv. split; [done|].
  destruct (event_err e) eqn:He; [done|]. split; [done|]. intros _. split; [done|]. by constructor.
Qed.

(** Effects out of view that did not fail do not count. *)
Lemma follows_skip e plan r es :
  view e = None -> event_err e = None -> follows_in plan r es -> follows_in plan r (e :: es).
Proof.
  intros Hv He (Hp & Hf & H). unfold follows_in. simpl. rewrite Hv, He. split; [done|].
  split; [done|]. intros Hr. destruct (H Hr). split; [done|]. by constructor.
Qed.

Lemma follows_nil : follows_in [] None [].
Proof. split; [done|]. split; [done|]. intros _. split; [done|]. constructor. Qed.

(** A loop whose rounds each follow a plan follows the plans in order; a
    failed round leaves it. *)
Lemma wp_for_range_follows {E Y L} (G : Globals -> Prop) (plan : Y -> list X)
    (body : Y -> L -> M E (L + option error)) ys l (s : St E) :
  (forall y l s, G (glob s) -> wp (body y l) (fun r s' es => G (glob s') /\
     exists res, r = Val res /\
       match res with
       | inl _ => follows_in (plan y) None es
       | inr err => err <> None /\ follows_in (plan y) err es
       end) s) ->
  G (glob s) ->
  wp (for_range body ys l) (fun r s' es => G (glob s') /\
     exists res, r = Val res /\
       match res with
       | inl _ => follows_in (flat_map plan ys) None es
       | inr err => err <> None /\ follows_in (flat_map plan ys) err es
       end) s.
Proof.
  intros Hb. revert l s. induction ys as [|y ys IH]; intros l s Hg; cbn [for_range flat_map].
  - apply wp_ret. split; [done|]. eexists. split; [done|]. apply follows_nil.
  - wp_step. eapply wp_mono; [|by apply Hb]. intros r s1 es1 (Hg1 & res & -> & Hres). cbn [after].
    destruct res as [l'|err].
    + eapply wp_mono; [|by apply (IH l' s1)]. intros r s2 es2 (Hg2 & res & -> & Hres2).
      split; [done|]. eexists. split; [done|]. destruct res as [?|err].
      * by apply follows_app.
      * destruct Hres2. split; [done|]. by apply follows_app.
    + apply wp_ret. split; [done|]. eexists. split; [done|]. rewrite app_nil_r.
      destruct Hres as [Hne Hf]. split; [done|]. destruct err; [|done]. by apply follows_stop.
Qed.
End follows.

Arguments follows_app {X view} p1 p2 r es1 es2.
Arguments follows_stop {X view} p1 p2 x es.

(** Commands and messages. *)
Abbreviation follows := (follows_in cmd_of).
Abbreviation delivers := (follows_in send_of).

Lemma follows_one h args o se err :
  follows [(h, args)] err [ECmd h args o se err].
Proof. by apply (follows_single cmd_of (ECmd h args o se err)). Qed.

Lemma delivers_one st m err : delivers [(st, m)] err [ESend st m err].
Proof. by apply (follows_single send_of (ESend st m err)). Qed.

Lemma follows_query q plan r es : follows plan r es -> follows plan r (EQuery q :: es).
Proof. by apply follows_skip. Qed.

#[export] Hint Resolve follows_one delivers_one follows_nil follows_query : ovn.
