(* ===== verification/Safety.v ===== *)
(** * Safety: what a function can never do

    [upholds P m]: whatever the environment answers and however [m] ends (a
    value, a panic), [m] leaves the package variables alone and every event it
    produces, superseded attempts included, satisfies [P].  The rules follow
    the structure of [m]; [upholds_tac] applies them. *)

From S2P Require Import Prelude.
From S2P Require Import GoStrings.
From S2P Require Import Types.
From S2P Require Import World.
From S2P Require Import Runner.

#[local] Open Scope list_scope.

Create HintDb upholds.

Section upholds.
Context {E : Type} (P : Event -> Prop).

Definition upholds {A} (m : M E A) : Prop :=
  forall s, let '(r, s', es) := m s in glob s' = glob s /\ Forall P es /\ r <> Block.

Lemma upholds_ret {A} (a : A) : upholds (mret a).
Proof. intros s. by repeat split. Qed.

Lemma upholds_panic {A} w : upholds (panic (A:=A) w).
Proof. intros s. by repeat split. Qed.

Lemma upholds_get_glob : upholds get_glob.
Proof. intros s. by repeat split. Qed.

Lemma upholds_bind {A B} (m : M E A) (k : A -> M E B) :
  upholds m -> (forall a, upholds (k a)) -> upholds (m ≫= k).
Proof.
  intros Hm Hk s. unfold mbind, M_bind. specialize (Hm s).
  destruct (m s) as [[[a|w|] s1] e1]; destruct Hm as (Hg & Hp & Hb); [|done..].
  specialize (Hk a s1). destruct (k a s1) as [[r s2] e2]. destruct Hk as (Hg2 & Hp2 & Hb2).
  split; [congruence|]. split; [by apply Forall_app|done].
Qed.

Lemma upholds_prim {A} (f : E -> A * E) ev : (forall a, P (ev a)) -> upholds (prim f ev).
Proof.
  intros H s. unfold prim. destruct (f (env s)) as [a e']. repeat split; [|done]. by constructor.
Qed.

Lemma upholds_deref {A} (o : option A) : upholds (deref o).
Proof. destruct o; [apply upholds_ret|apply upholds_panic]. Qed.

Lemma upholds_index {A} (l : list A) i : upholds (index l i).
Proof.
  unfold index. destruct (_ <? _)%Z; [apply upholds_panic|].
  destruct (l !! _); [apply upholds_ret|apply upholds_panic].
Qed.

Lemma upholds_slice_to w n : upholds (slice_to w n).
Proof. unfold slice_to. destruct (_ <=? _)%nat; [apply upholds_ret|apply upholds_panic]. Qed.

Lemma upholds_for_range {X L R} (body : X -> L -> M E (L + R)) xs l :
  (forall x l, x ∈ xs -> upholds (body x l)) -> upholds (for_range body xs l).
Proof.
  revert l. induction xs as [|x xs IH]; intros l Hb; cbn [for_range]; [apply upholds_ret|].
  apply upholds_bind; [apply Hb; left|]. intros [l'|ret]; [|apply upholds_ret].
  apply IH. intros y l2 Hy. apply Hb. by right.
Qed.

(** Total correctness from an [upholds] fact: the package variables, and
    that the function comes back. *)
Lemma upholds_glob {A} (m : M E A) s r s' es :
  upholds m -> m s = (r, s', es) -> glob s' = glob s /\ Forall P es /\ r <> Block.
Proof. intros H Hm. specialize (H s). by rewrite Hm in H. Qed.
End upholds.

#[export] Hint Resolve upholds_ret upholds_panic upholds_get_glob upholds_deref upholds_index
  upholds_slice_to : upholds.

(** Follows the control flow of a function; what is left are the events. *)
Ltac upholds_tac :=
  repeat (intros; first
    [ solve [eauto with upholds]
    | apply upholds_prim
    | apply upholds_bind
    | apply upholds_for_range
    | case_match ]).

Section tools.
Context {E : Type} `{!ExecWorld E} (P : Event -> Prop).

Lemma upholds_run p args :
  (forall o se err, P (ECmd p args o se err)) -> upholds (E:=E) P (run p args).
Proof.
  intros H. apply upholds_bind; [unfold get_runner; upholds_tac|]. intros _.
  apply upholds_prim. by intros [[o se] err].
Qed.

Lemma upholds_RunIP args :
  (forall p o se err, P (ECmd p args o se err)) -> upholds (E:=E) P (RunIP args).
Proof.
  intros H. unfold RunIP. apply upholds_bind; [unfold get_runner; upholds_tac|].
  intros h. apply upholds_bind; [by apply upholds_run|]. upholds_tac.
Qed.

Lemma upholds_RunOVSVsctl args :
  (forall p o se err, P (ECmd p (vs_argv args) o se err)) -> upholds (E:=E) P (RunOVSVsctl args).
Proof.
  intros H. unfold RunOVSVsctl. apply upholds_bind; [unfold get_runner; upholds_tac|].
  intros h. apply upholds_bind; [by apply upholds_run|]. upholds_tac.
Qed.
End tools.
