(* ===== verification/Config.v ===== *)
(** * Config: configuration file and command line (internal/pkg/config/config.go)

    The package variables are the record [Vars], passed explicitly.  The files,
    the parser gcfg, the flag library cli and client-go are the environment
    ([ConfigWorld]); of the logger only its level and its output file are kept.
    ([ConfigureNetConf] is in CniServer.v, [GetNodeIntfName] in Sha1.v.) *)

From S2P Require Import Prelude.
From S2P Require Import GoStrings.
From S2P Require Import Types.
From S2P Require Import World.
From Stdlib Require Import Ascii.

#[local] Open Scope string_scope.
#[local] Open Scope list_scope.

(** ** The structs *)

Record DefaultConfig := { MTU : Z }.
Record LoggingConfig := { File : string; Level : Z }.
Record CNIConfig := { ConfDir : string; Plugin : string }.
Record KubernetesConfig := { Kubeconfig : string }.

Record config := mkConfig {
  cfg_Default : DefaultConfig; cfg_Logging : LoggingConfig;
  cfg_CNI : CNIConfig; cfg_Kubernetes : KubernetesConfig
}.
Definition zeroConfig : config :=
  mkConfig {| MTU := 0 |} {| File := ""; Level := 0 |} {| ConfDir := ""; Plugin := "" |} {| Kubeconfig := "" |}.

(** The package variables, and the logger: its level and the file it writes
    to, [None] for the standard error. *)
Record Vars := mkVars {
  Default : DefaultConfig; Logging : LoggingConfig; CNI : CNIConfig; Kubernetes : KubernetesConfig;
  cliConfig : config; logger_level : Z; logger_file : option string
}.

Definition initVars : Vars := mkVars {| MTU := 1400 |} {| File := ""; Level := 4 |}
  {| ConfDir := "/etc/cni/net.d"; Plugin := "ovn4nfvk8s-cni" |} {| Kubeconfig := "" |} zeroConfig 4 None.

Definition set_Default x v := mkVars x (Logging v) (CNI v) (Kubernetes v) (cliConfig v) (logger_level v) (logger_file v).
Definition set_Logging x v := mkVars (Default v) x (CNI v) (Kubernetes v) (cliConfig v) (logger_level v) (logger_file v).
Definition set_CNI x v := mkVars (Default v) (Logging v) x (Kubernetes v) (cliConfig v) (logger_level v) (logger_file v).
Definition set_Kubernetes x v := mkVars (Default v) (Logging v) (CNI v) x (cliConfig v) (logger_level v) (logger_file v).
Definition set_cliConfig x v := mkVars (Default v) (Logging v) (CNI v) (Kubernetes v) x (logger_level v) (logger_file v).
Definition set_level x v := mkVars (Default v) (Logging v) (CNI v) (Kubernetes v) (cliConfig v) x (logger_file v).
Definition set_file x v := mkVars (Default v) (Logging v) (CNI v) (Kubernetes v) (cliConfig v) (logger_level v) x.

(** ** [overrideFields], by reflection *)

(** A field as reflection sees it; [FOther] stands for the kinds that the
    function refuses. *)
Inductive field := FString (s : string) | FInt (z : Z) | FOther (kind : string).

(** [reflect.Kind], as far as the function tells kinds apart. *)
Inductive Kind := KString | KInt | KOther (name : string).
#[global] Instance Kind_eq_dec : EqDecision Kind.
Proof. solve_decision. Defined.

Definition kind_of (f : field) : Kind :=
  match f with FString _ => KString | FInt _ => KInt | FOther k => KOther k end.

Section reflect.
Context {E : Type}.

(** One round of the loop, for the fields [dstField] and [srcField]. *)
Definition overrideField (dstField srcField : field) : M E field :=
  if negb (kind_of dstField == kind_of srcField) then panic "mismatched struct fields" else
  match srcField with
  | FString s => mret (if negb (s == "") then srcField else dstField)
  | FInt z => mret (if negb (bool_decide (z = 0%Z)) then srcField else dstField)
  | FOther k => panic ("unhandled struct field type: " +:+ k)
  end.

Fixpoint overrideLoop (dst src : list field) : M E (list field) :=
  match dst, src with
  | d :: dst', s :: src' => f ← overrideField d s; fs ← overrideLoop dst' src'; mret (f :: fs)
  | _, _ => mret []
  end.

(** Structs as lists of fields. *)
Definition overrideFields (dst src : list field) : M E (list field) :=
  if negb (length dst =? length src)%nat then panic "mismatched struct types" else overrideLoop dst src.
End reflect.

(** The struct types as reflection sees them, and the values written back. *)
Class Struct (S : Type) := {
  fields_of : S -> list field;
  of_fields : list field -> option S
}.
Class StructLaws (S : Type) `{!Struct S} := {
  of_fields_of : forall x : S, of_fields (fields_of x) = Some x
}.

#[export] Instance DefaultConfig_struct : Struct DefaultConfig := {|
  fields_of x := [FInt (MTU x)];
  of_fields l := match l with [FInt m] => Some {| MTU := m |} | _ => None end
|}.
#[export] Instance LoggingConfig_struct : Struct LoggingConfig := {|
  fields_of x := [FString (File x); FInt (Level x)];
  of_fields l := match l with [FString f; FInt n] => Some {| File := f; Level := n |} | _ => None end
|}.
#[export] Instance CNIConfig_struct : Struct CNIConfig := {|
  fields_of x := [FString (ConfDir x); FString (Plugin x)];
  of_fields l := match l with [FString d; FString p] => Some {| ConfDir := d; Plugin := p |} | _ => None end
|}.
#[export] Instance KubernetesConfig_struct : Struct KubernetesConfig := {|
  fields_of x := [FString (Kubeconfig x)];
  of_fields l := match l with [FString k] => Some {| Kubeconfig := k |} | _ => None end
|}.
#[export] Instance DefaultConfig_laws : StructLaws DefaultConfig.
Proof. split. by intros []. Qed.
#[export] Instance LoggingConfig_laws : StructLaws LoggingConfig.
Proof. split. by intros []. Qed.
#[export] Instance CNIConfig_laws : StructLaws CNIConfig.
Proof. split. by intros []. Qed.
#[export] Instance KubernetesConfig_laws : StructLaws KubernetesConfig.
Proof. split. by intros []. Qed.

(** A call on pointers to two structs of the same type. *)
Definition override {E S} `{!Struct S} (dst src : S) : M E S :=
  l ← overrideFields (fields_of dst) (fields_of src);
  deref (of_fields l).

(** ** The command line *)

(** A flag of urfave/cli; the destination is written when the flag is given. *)
Inductive cliFlag :=
| StringFlag (Name Usage : string) (Destination : option (string -> config -> config))
| IntFlag (Name Usage : string) (Destination : option (Z -> config -> config)).

Definition flag_Name (f : cliFlag) : string := match f with StringFlag n _ _ | IntFlag n _ _ => n end.

Definition Flags : list cliFlag := [
  StringFlag "config-file" "configuration file path (default: /etc/openvswitch/ovn4nfv_k8s.conf)" None;
  IntFlag "mtu" "MTU value used for the overlay networks (default: 1400)"
    (Some (fun z c => mkConfig {| MTU := z |} (cfg_Logging c) (cfg_CNI c) (cfg_Kubernetes c)));
  IntFlag "loglevel" "log verbosity and level: 5=debug, 4=info, 3=warn, 2=error, 1=fatal (default: 4)"
    (Some (fun z c => mkConfig (cfg_Default c) {| File := File (cfg_Logging c); Level := z |} (cfg_CNI c) (cfg_Kubernetes c)));
  StringFlag "logfile" "path of a file to direct log output to"
    (Some (fun s c => mkConfig (cfg_Default c) {| File := s; Level := Level (cfg_Logging c) |} (cfg_CNI c) (cfg_Kubernetes c)));
  StringFlag "cni-conf-dir" "the CNI config directory in which to write the overlay CNI config file (default: /etc/cni/net.d)"
    (Some (fun s c => mkConfig (cfg_Default c) (cfg_Logging c) {| ConfDir := s; Plugin := Plugin (cfg_CNI c) |} (cfg_Kubernetes c)));
  StringFlag "cni-plugin" "the name of the CNI plugin (default: ovn4nfvk8s-cni)"
    (Some (fun s c => mkConfig (cfg_Default c) (cfg_Logging c) {| ConfDir := ConfDir (cfg_CNI c); Plugin := s |} (cfg_Kubernetes c)));
  StringFlag "k8s-kubeconfig" "absolute path to the Kubernetes kubeconfig file"
    (Some (fun s c => mkConfig (cfg_Default c) (cfg_Logging c) (cfg_CNI c) {| Kubeconfig := s |}))
].

(** ** Reading the configuration *)

Class ConfigWorld (E : Type) := {
  ctx_String : string -> E -> string * E;            (* ctx.String *)
  os_Open : string -> E -> option error * E;         (* the file is named by its path *)
  gcfg_ReadInto : string -> E -> (config + error) * E;
  os_OpenFile : string -> E -> option error * E;     (* for appending *)
  os_Stat : string -> E -> option error * E;
  os_IsNotExist : error -> bool;
  BuildConfigFromFlags : string -> E -> (string * option error) * E;
  NewForConfig : option string -> E -> option error * E
}.

Section init.
Context {E : Type} `{!ConfigWorld E}.

Definition pathExists (path : string) : M E bool :=
  err ← prim (os_Stat path) (fun _ => EQuery "Stat");
  mret (match err with Some e => negb (os_IsNotExist e) | None => true end).

(** The new [Kubernetes] is in the variables also when an error is returned. *)
Definition buildKubernetesConfig (cli file : config) (v : Vars) : M E (Vars * option error) :=
  k ← override (Kubernetes v) (cfg_Kubernetes file);
  k ← override k (cfg_Kubernetes cli);
  let v := set_Kubernetes k v in
  found ← (if Kubeconfig (Kubernetes v) == "" then mret false else pathExists (Kubeconfig (Kubernetes v)));
  if negb found
  then mret (v, Errorf ("kubernetes kubeconfig file " +:+ Quote (Kubeconfig (Kubernetes v)) +:+ " not found"))
  else mret (v, None).

Definition getConfigFilePath : M E (string * bool) :=
  configFile ← prim (ctx_String "config-file") (fun _ => EQuery "ctx");
  if negb (configFile == "") then mret (configFile, false)
  else mret ("/etc/openvswitch/ovn4nfv_k8s.conf", true).

(** The file, or nothing when the default file cannot be opened. *)
Definition read_config (configFile : string) (configFileIsDefault : bool) : M E (config + option error) :=
  err ← prim (os_Open configFile) (fun _ => EQuery "Open");
  match err with
  | Some e =>
      if negb configFileIsDefault
      then mret (inr (Errorf ("failed to open config file " +:+ configFile +:+ ": " +:+ Error e)))
      else mret (inl zeroConfig)
  | None =>
      r ← prim (gcfg_ReadInto configFile) (fun _ => EQuery "ReadInto");
      match r with
      | inr e => mret (inr (Errorf ("failed to parse config file " +:+ configFile +:+ ": " +:+ Error e)))
      | inl cfg => mret (inl cfg)
      end
  end.

(** [logrus.Level] is a uint32. *)
Definition to_uint32 (z : Z) : Z := (z mod 2 ^ 32)%Z.

Definition setup_logging (cfg : config) (v : Vars) : M E Vars :=
  l ← override (Logging v) (cfg_Logging cfg);
  l ← override l (cfg_Logging (cliConfig v));
  let v := set_level (to_uint32 (Level l)) (set_Logging l v) in
  if negb (File (Logging v) == "") then
    err ← prim (os_OpenFile (File (Logging v))) (fun _ => EQuery "OpenFile");
    mret (match err with Some _ => v | None => set_file (Some (File (Logging v))) v end)
  else mret v.

Definition InitConfigWithPath (configFile : string) (v : Vars) : M E (Vars * (string * option error)) :=
  '(configFile, configFileIsDefault) ←
    (if configFile == "" then getConfigFilePath else mret (configFile, false));
  let v := set_file None v in
  let retConfigFile := if negb configFileIsDefault then configFile else "" in
  r ← read_config configFile configFileIsDefault;
  match r with
  | inr err => mret (v, ("", err))
  | inl cfg =>
      d ← override (Default v) (cfg_Default cfg);
      d ← override d (cfg_Default (cliConfig v));
      c ← override (CNI v) (cfg_CNI cfg);
      c ← override c (cfg_CNI (cliConfig v));
      v ← setup_logging cfg (set_CNI c (set_Default d v));
      '(v, err) ← buildKubernetesConfig (cliConfig v) cfg v;
      match err with
      | Some e => mret (v, ("", Some e))
      | None => mret (v, (retConfigFile, None))
      end
  end.

Definition InitConfig (v : Vars) : M E (Vars * (string * option error)) := InitConfigWithPath "" v.

Definition NewClientset (conf : KubernetesConfig) : M E (option error) :=
  r ← (if negb (Kubeconfig conf == "") then
         '(kconfig, err) ← prim (BuildConfigFromFlags (Kubeconfig conf)) (fun _ => EQuery "BuildConfigFromFlags");
         mret (Some kconfig, err)
       else mret (None, None));
  match r.2 with
  | Some e => mret (Some e)
  | None => prim (NewForConfig r.1) (fun _ => EQuery "NewForConfig")
  end.
End init.

(** ** What the functions do *)

(** A value set by [src] wins over the one of [dst]. *)
Definition newest (dst src : field) : field :=
  match src with
  | FString "" | FInt 0 | FOther _ => dst
  | _ => src
  end.

Definition settable (f : field) : bool := match f with FOther _ => false | _ => true end.

(** The structs on which [overrideFields] is meant to be called: the same
    types, position by position, and only strings and integers. *)
Definition same_shape (dst src : list field) : bool :=
  (map kind_of dst == map kind_of src) && forallb settable src.

Section override.
Context {E : Type}.

Lemma overrideField_run d s (st : St E) :
  kind_of d = kind_of s -> settable s = true ->
  overrideField d s st = (Val (newest d s), st, []) /\ kind_of (newest d s) = kind_of d.
Proof.
  intros Hk Hs. unfold overrideField. rewrite bool_decide_true by done. simpl.
  destruct s as [w|z|]; [..|done].
  - by destruct w.
  - destruct z; by split.
Qed.

Lemma overrideField_stuck d s (st : St E) :
  ~ (kind_of d = kind_of s /\ settable s = true) -> exists w, overrideField d s st = (Panic w, st, []).
Proof.
  intros Hn. unfold overrideField. case_bool_decide as Hk; [|by eexists].
  destruct s; simpl; [tauto..|by eexists].
Qed.

Lemma same_shape_cons d dst s src :
  same_shape (d :: dst) (s :: src) = (kind_of d == kind_of s) && settable s && same_shape dst src.
Proof.
  assert (Hc : (map kind_of (d :: dst) == map kind_of (s :: src))
               = (kind_of d == kind_of s) && (map kind_of dst == map kind_of src)).
  { rewrite <- bool_decide_and. apply bool_decide_ext. simpl. split; [by intros [= H1 H2]|by intros [-> ->]]. }
  unfold same_shape. rewrite Hc. cbn [forallb].
  destruct (kind_of d == kind_of s), (settable s), (map kind_of dst == map kind_of src); done.
Qed.

Lemma overrideLoop_run dst : forall src (st : St E), length dst = length src ->
  if same_shape dst src
  then overrideLoop dst src st = (Val (zip_with newest dst src), st, []) /\
       map kind_of (zip_with newest dst src) = map kind_of dst
  else exists w, overrideLoop dst src st = (Panic w, st, []).
Proof.
  induction dst as [|d dst IH]; intros [|s src] st Hl; simplify_eq/=; [done|].
  rewrite same_shape_cons. cbn [overrideLoop].
  destruct ((kind_of d == kind_of s) && settable s) eqn:Hh.
  - apply andb_true_iff in Hh as [Hk%bool_decide_eq_true Hs]. cbn [andb].
    destruct (overrideField_run d s st Hk Hs) as [Hf Hkd]. specialize (IH src st Hl).
    unfold mbind, M_bind. rewrite Hf. destruct (same_shape dst src).
    + destruct IH as [-> Hks]. simpl. by rewrite Hkd, Hks.
    + destruct IH as [w ->]. by exists w.
  - cbn [andb]. destruct (overrideField_stuck d s st) as [w Hw].
    + intros [Hk Hs]. rewrite Hs, bool_decide_true in Hh by done. done.
    + exists w. unfold mbind, M_bind. by rewrite Hw.
Qed.

Lemma overrideFields_run dst src (st : St E) :
  if same_shape dst src
  then overrideFields dst src st = (Val (zip_with newest dst src), st, []) /\
       map kind_of (zip_with newest dst src) = map kind_of dst
  else exists w, overrideFields dst src st = (Panic w, st, []).
Proof.
  unfold overrideFields. destruct (length dst =? length src)%nat eqn:Hl.
  - apply Nat.eqb_eq in Hl. by apply overrideLoop_run.
  - replace (same_shape dst src) with false; [by eexists|].
    symmetry. unfold same_shape. case_bool_decide as Hk; [|done]. apply (f_equal length) in Hk.
    rewrite !length_map in Hk. apply Nat.eqb_neq in Hl. done.
Qed.

End override.

(** ** Layers of configuration

    The reference: a field is the flag's if given, else the file's if given,
    else what it was. *)
Definition layer_s (cli file dflt : string) : string :=
  if cli == "" then if file == "" then dflt else file else cli.
Definition layer_z (cli file dflt : Z) : Z :=
  if bool_decide (cli = 0%Z) then if bool_decide (file = 0%Z) then dflt else file else cli.

Definition layered (cli file : config) (v : Vars) : config := mkConfig
  {| MTU := layer_z (MTU (cfg_Default cli)) (MTU (cfg_Default file)) (MTU (Default v)) |}
  {| File := layer_s (File (cfg_Logging cli)) (File (cfg_Logging file)) (File (Logging v));
     Level := layer_z (Level (cfg_Logging cli)) (Level (cfg_Logging file)) (Level (Logging v)) |}
  {| ConfDir := layer_s (ConfDir (cfg_CNI cli)) (ConfDir (cfg_CNI file)) (ConfDir (CNI v));
     Plugin := layer_s (Plugin (cfg_CNI cli)) (Plugin (cfg_CNI file)) (Plugin (CNI v)) |}
  {| Kubeconfig := layer_s (Kubeconfig (cfg_Kubernetes cli)) (Kubeconfig (cfg_Kubernetes file))
                     (Kubeconfig (Kubernetes v)) |}.

(** The configuration that the variables hold. *)
Definition held (v : Vars) : config := mkConfig (Default v) (Logging v) (CNI v) (Kubernetes v).

Lemma newest_s d s : newest (FString d) (FString s) = FString (layer_s s "" d).
Proof. by destruct s. Qed.
Lemma newest_z d z : newest (FInt d) (FInt z) = FInt (layer_z z 0 d).
Proof. by destruct z. Qed.
Lemma layer_s_twice c f d : layer_s c "" (layer_s f "" d) = layer_s c f d.
Proof. by destruct c, f. Qed.
Lemma layer_z_twice c f d : layer_z c 0 (layer_z f 0 d) = layer_z c f d.
Proof. by destruct c, f. Qed.
#[local] Arguments newest : simpl never.
#[local] Arguments layer_s : simpl never.
#[local] Arguments layer_z : simpl never.
#[local] Create Rewrite HintDb layers.
#[local] Hint Rewrite newest_s newest_z layer_s_twice layer_z_twice : layers.

Section init_props.
Context {E : Type} `{!ConfigWorld E}.

(** Two layers over a struct of the variables. *)
Lemma wp_layers {S B} `{!Struct S} (x f c z1 z2 : S) (k : S -> M E B) Q (st : St E) :
  same_shape (fields_of x) (fields_of f) = true ->
  same_shape (fields_of z1) (fields_of c) = true ->
  of_fields (zip_with newest (fields_of x) (fields_of f)) = Some z1 ->
  of_fields (zip_with newest (fields_of z1) (fields_of c)) = Some z2 ->
  wp (k z2) Q st -> wp (y ← override x f; z ← override y c; k z) Q st.
Proof.
  intros H1 H2 Hz1 Hz2 HQ. apply wp_bind. unfold override at 1, wp at 1, mbind, M_bind.
  pose proof (overrideFields_run (fields_of x) (fields_of f) st) as Hf. rewrite H1 in Hf.
  destruct Hf as [-> _]. rewrite Hz1. split; [done|]. simpl.
  apply wp_bind. unfold override, wp at 1, mbind, M_bind.
  pose proof (overrideFields_run (fields_of z1) (fields_of c) st) as Hc. rewrite H2 in Hc.
  destruct Hc as [-> _]. by rewrite Hz2.
Qed.

(** One call of the four pairs: the value is that of [layered]. *)
Ltac layers z :=
  eapply wp_layers with (z2 := z); [done|done|simpl; autorewrite with layers; reflexivity
    |simpl; autorewrite with layers; reflexivity|].

Lemma wp_setup_logging cfg v (st : St E) :
  wp (setup_logging cfg v) (fun r _ _ => exists f,
    r = Val (set_file f (set_level (to_uint32 (Level (cfg_Logging (layered (cliConfig v) cfg v))))
      (set_Logging (cfg_Logging (layered (cliConfig v) cfg v)) v)))) st.
Proof.
  unfold setup_logging. layers (cfg_Logging (layered (cliConfig v) cfg v)).
  case_match; [|wp_steps; by exists (logger_file v)].
  wp_steps. apply wp_ask. intros [e|] ?; (split; [done|]); wp_steps; simpl; eauto.
Qed.

(** [Stat] found the file, or failed for another reason than its absence. *)
Definition found (path : string) : Prop := exists e,
  match (os_Stat path e).1 with Some err => os_IsNotExist err = false | None => True end.

Lemma wp_buildKubernetesConfig cli file v (st : St E) :
  let k := cfg_Kubernetes (layered cli file v) in
  wp (buildKubernetesConfig cli file v) (fun r _ _ => exists err,
    r = Val (set_Kubernetes k v, err) /\
    (err = None -> Kubeconfig k <> "" /\ found (Kubeconfig k))) st.
Proof.
  intros k. unfold buildKubernetesConfig. layers (cfg_Kubernetes (layered cli file v)).
  cbn [Kubernetes set_Kubernetes]. fold k. wp_steps. case_bool_decide as Hk.
  { wp_steps. simpl. wp_steps. by eexists. }
  unfold pathExists. wp_steps. apply wp_prim. intros e e' He. split; [done|]. wp_steps.
  case_match eqn:Hf; wp_steps; eexists; (split; [done|]); [done|]. intros _. split; [done|].
  exists (env st). rewrite He. simpl. destruct e; [|done]. by apply negb_false_iff in Hf; apply negb_true_iff in Hf.
Qed.

(** The file that is read, and whether it is the fallback. *)
Definition chosen_file (given flag : string) : string * bool :=
  if negb (given == "") then (given, false)
  else if negb (flag == "") then (flag, false) else ("/etc/openvswitch/ovn4nfv_k8s.conf", true).

(** What a readable file says; the fallback may be missing. *)
Definition says (file : string * bool) (cfg : config) : Prop :=
  (exists e, (gcfg_ReadInto file.1 e).1 = inl cfg) \/ file.2 = true /\ cfg = zeroConfig.

Lemma wp_read_config file (st : St E) :
  wp (read_config file.1 file.2) (fun r _ _ =>
    (exists e, r = Val (inr (Some e))) \/ exists cfg, r = Val (inl cfg) /\ says file cfg) st.
Proof.
  unfold read_config, says. wp_steps. apply wp_ask. intros [e|] e'; (split; [done|]); wp_steps.
  - destruct file.2; simpl; wp_steps; [right|left]; eauto.
  - apply wp_prim. intros [cfg|e] e2 He; (split; [done|]); wp_steps; [right|left]; eauto.
    eexists; split; [done|]. left. exists e'. simpl in *. by rewrite He.
Qed.

(** The result of a run of [InitConfigWithPath] that read [file]. *)
Definition configured (file : string * bool) (v v' : Vars) (ret : string) : Prop :=
  exists cfg, says file cfg /\ held v' = layered (cliConfig v) cfg v /\
    logger_level v' = to_uint32 (Level (Logging v')) /\
    Kubeconfig (Kubernetes v') <> "" /\ found (Kubeconfig (Kubernetes v')) /\
    ret = if negb file.2 then file.1 else "".

Lemma wp_getConfigFilePath path (st : St E) :
  wp (if path == "" then getConfigFilePath else mret (path, false)) (fun r _ _ =>
    r = Val (chosen_file path (ctx_String "config-file" (env st)).1)) st.
Proof.
  unfold chosen_file, getConfigFilePath. case_bool_decide as Hp; simpl; [|by wp_steps].
  wp_steps. apply wp_prim. intros flag e' He. rewrite He. split; [done|]. wp_steps.
  cbn [fst]. case_bool_decide; by wp_steps.
Qed.

Lemma InitConfigWithPath_run path v (st : St E) :
  let file := chosen_file path (ctx_String "config-file" (env st)).1 in
  wp (InitConfigWithPath path v) (fun r _ _ => exists v' ret err,
    r = Val (v', (ret, err)) /\ cliConfig v' = cliConfig v /\
    (err = None -> configured file v v' ret) /\ (err <> None -> ret = "")) st.
Proof.
  intros file. unfold InitConfigWithPath. apply wp_bind.
  eapply wp_mono; [|apply wp_getConfigFilePath]. fold file. clearbody file. destruct file as [f isdef].
  intros r1 s1 e1 ->. cbn [after]. apply wp_bind.
  eapply wp_mono; [|exact (wp_read_config (f, isdef) s1)].
  intros r2 s2 e2 [(e & ->)|(cfg & -> & Hsays)]; cbn [after].
  { wp_steps. by exists (set_file None v), "", (Some e). }
  layers (cfg_Default (layered (cliConfig v) cfg v)).
  layers (cfg_CNI (layered (cliConfig v) cfg v)).
  apply wp_bind. eapply wp_mono; [|apply wp_setup_logging].
  intros r3 s3 e3 [lf ->]. cbn [after]. apply wp_bind.
  eapply wp_mono; [|apply wp_buildKubernetesConfig].
  intros r4 s4 e4 (err & -> & Hk). cbn [after].
  destruct err as [e|]; wp_steps; do 3 eexists; (split; [reflexivity|]); (split; [done|]); [done|].
  split; [|done]. intros _. exists cfg. destruct (Hk eq_refl). repeat split; done.
Qed.

End init_props.

(** A node with a configuration file that sets the MTU and the kubeconfig; the
    command line sets the log level. *)
#[export] Instance demo_config_world : ConfigWorld () := {|
  ctx_String _ e := ("", e);
  os_Open p e := (if p == "/etc/openvswitch/ovn4nfv_k8s.conf" then None else Errorf "no such file", e);
  gcfg_ReadInto _ e := (inl (mkConfig {| MTU := 1300 |} {| File := ""; Level := 3 |}
    {| ConfDir := ""; Plugin := "" |} {| Kubeconfig := "/etc/kube.conf" |}), e);
  os_OpenFile _ e := (None, e);
  os_Stat p e := (if p == "/etc/kube.conf" then None else Errorf "no such file", e);
  os_IsNotExist e := Error e == "no such file";
  BuildConfigFromFlags p e := ((p, None), e);
  NewForConfig _ e := (None, e)
|}.

Definition demo_cli : Vars := match Flags !! 2 with
  | Some (IntFlag _ _ (Some dest)) => set_cliConfig (dest 5%Z (cliConfig initVars)) initVars
  | _ => initVars end.

Example InitConfig_demo : let '(r, _, _) := InitConfig demo_cli (mkSt initGlobals ()) in
  match r with
  | Val (v, res) => held v = mkConfig {| MTU := 1300 |} {| File := ""; Level := 5 |}
      {| ConfDir := "/etc/cni/net.d"; Plugin := "ovn4nfvk8s-cni" |} {| Kubeconfig := "/etc/kube.conf" |} /\
      res = ("", None)
  | _ => False
  end.
Proof. split; reflexivity. Qed.

Example InitConfig_no_file : let '(r, _, _) := InitConfigWithPath "/etc/other.conf" demo_cli (mkSt initGlobals ()) in
  exists v, r = Val (v, ("", Errorf "failed to open config file /etc/other.conf: no such file")).
Proof. vm_compute. by eexists. Qed.
