(* ===== verification/History.v ===== *)
(** * History: what holds of a run together with everything that ran before

    [wp] (World.v) looks at one run and its compressed events.  For properties
    of a whole history of runs the assertions of this file range over all
    events so far, superseded attempts included: [triple P m Q].  The shared
    state is seen through [view], a projection of the environment that others
    may change at any time by [others] (a preorder): [framed A m] says that
    whatever [m] does, its events are in [A] and [view] moves only by
    [others]. *)

From S2P Require Import Prelude.
From S2P Require Import Types.
From S2P Require Import World.
From S2P Require Import Runner.

#[local] Open Scope list_scope.

Section history.
Context {E : Type}.
Implicit Types (s : St E) (h es : list Event).

Definition triple {A} (P : list Event -> St E -> Prop) (m : M E A)
    (Q : Res A -> list Event -> St E -> Prop) : Prop :=
  forall h s, P h s -> let '(r, s', es) := m s in Q r (h ++ es) s'.

Lemma triple_ret {A} (P : list Event -> St E -> Prop) (a : A) Q :
  (forall h s, P h s -> Q (Val a) h s) -> triple P (mret a) Q.
Proof. intros H h s Hp. unfold mret, M_ret. rewrite app_nil_r. by apply H. Qed.

Lemma triple_bind {A B} P (R : A -> list Event -> St E -> Prop) (m : M E A) (k : A -> M E B) Q :
  triple P m (fun r h s => match r with
                           | Val a => R a h s
                           | Panic w => Q (Panic w) h s
                           | Block => Q Block h s
                           end) ->
  (forall a, triple (R a) (k a) Q) -> triple P (m ≫= k) Q.
Proof.
  intros Hm Hk h s Hp. specialize (Hm h s Hp). unfold mbind, M_bind.
  destruct (m s) as [[[a|w|] s1] e1]; [|done..].
  specialize (Hk a _ _ Hm). destruct (k a s1) as [[r s2] e2]. by rewrite app_assoc.
Qed.

Lemma triple_conseq {A} (P P' : list Event -> St E -> Prop) (m : M E A)
    (Q Q' : Res A -> list Event -> St E -> Prop) :
  triple P m Q -> (forall h s, P' h s -> P h s) -> (forall r h s, Q r h s -> Q' r h s) ->
  triple P' m Q'.
Proof.
  intros Ht HP HQ h s Hp. specialize (Ht h s (HP h s Hp)).
  destruct (m s) as [[r s'] es]. by apply HQ.
Qed.

Lemma triple_prim {A} P (f : E -> A * E) ev Q :
  (forall h s a e', P h s -> f (env s) = (a, e') -> Q (Val a) (h ++ [ev a]) (mkSt (glob s) e')) ->
  triple P (prim f ev) Q.
Proof.
  intros H h s Hp. unfold prim. destruct (f (env s)) as [a e'] eqn:Hf. by apply (H h s).
Qed.

(** A fact that does not depend on the history may be assumed. *)
Lemma triple_pure {A} (F : Prop) (P : list Event -> St E -> Prop) (m : M E A) Q :
  (forall h s, P h s -> F) -> (F -> triple P m Q) -> triple P m Q.
Proof. intros HF Ht h s Hp. by apply (Ht (HF h s Hp)). Qed.

(** ** Frames *)
Context {V : Type} (view : E -> V) (others : V -> V -> Prop).

Inductive path (A : Event -> Prop) : St E -> list Event -> St E -> Prop :=
| path_nil s : path A s [] s
| path_step s ev e' es s' :
    A ev -> others (view (env s)) (view e') -> path A (mkSt (glob s) e') es s' ->
    path A s (ev :: es) s'.

Definition framed (A : Event -> Prop) {X} (m : M E X) : Prop :=
  forall s, let '(r, s', es) := m s in path A s es s'.

Lemma path_app A s1 e1 s2 e2 s3 :
  path A s1 e1 s2 -> path A s2 e2 s3 -> path A s1 (e1 ++ e2) s3.
Proof. induction 1; [done|]. intros. simpl. econstructor; eauto. Qed.

Lemma path_glob A s1 es s2 : path A s1 es s2 -> glob s2 = glob s1.
Proof. by induction 1. Qed.

Lemma path_events A s1 es s2 : path A s1 es s2 -> Forall A es.
Proof. induction 1; by constructor. Qed.

(** An assertion that one step keeps is kept by a run made of such steps. *)
Definition closed (A : Event -> Prop) (P : list Event -> St E -> Prop) : Prop :=
  forall h s ev e', P h s -> A ev -> others (view (env s)) (view e') -> P (h ++ [ev]) (mkSt (glob s) e').

Lemma closed_path A P h s es s' : closed A P -> path A s es s' -> P h s -> P (h ++ es) s'.
Proof.
  intros Hc Hp. revert h. induction Hp as [s|s ev e' es s' Ha Ho Hp IH]; intros h HP.
  - by rewrite app_nil_r.
  - change (ev :: es) with ([ev] ++ es). rewrite app_assoc. apply IH. by apply Hc.
Qed.

Lemma framed_keeps A P {X} (m : M E X) : closed A P -> framed A m -> triple P m (fun _ => P).
Proof.
  intros Hc Hf h s Hp. specialize (Hf s). destruct (m s) as [[r s'] es].
  by eapply closed_path.
Qed.

Lemma framed_mono (A B : Event -> Prop) {X} (m : M E X) :
  (forall ev, A ev -> B ev) -> framed A m -> framed B m.
Proof.
  intros HAB Hf s. specialize (Hf s). destruct (m s) as [[r s'] es].
  induction Hf; econstructor; eauto.
Qed.

Section rules.
Context (A : Event -> Prop).

Lemma framed_ret {X} (a : X) : framed A (mret a).
Proof. intros s. constructor. Qed.
Lemma framed_panic {X} w : framed A (panic (A:=X) w).
Proof. intros s. constructor. Qed.
Lemma framed_block {X} : framed A (block (A:=X)).
Proof. intros s. constructor. Qed.
Lemma framed_get_glob : framed A get_glob.
Proof. intros s. constructor. Qed.

Lemma framed_bind {X Y} (m : M E X) (k : X -> M E Y) :
  framed A m -> (forall a, framed A (k a)) -> framed A (m ≫= k).
Proof.
  intros Hm Hk s. unfold mbind, M_bind. specialize (Hm s).
  destruct (m s) as [[[a|w|] s1] e1]; [|done..].
  specialize (Hk a s1). destruct (k a s1) as [[r s2] e2]. by eapply path_app.
Qed.

Lemma framed_prim {X} (f : E -> X * E) ev :
  (forall a, A (ev a)) -> (forall e, others (view e) (view (f e).2)) -> framed A (prim f ev).
Proof.
  intros Ha Ho s. unfold prim. specialize (Ho (env s)). destruct (f (env s)) as [a e'].
  econstructor; [done|done|constructor].
Qed.

Lemma framed_deref {X} (o : option X) : framed A (deref o).
Proof. destruct o; [apply framed_ret|apply framed_panic]. Qed.

Lemma framed_index {X} (l : list X) i : framed A (index l i).
Proof.
  unfold index. destruct (_ <? _)%Z; [apply framed_panic|].
  destruct (l !! _); [apply framed_ret|apply framed_panic].
Qed.

Lemma framed_for_range {X L R} (body : X -> L -> M E (L + R)) xs l :
  (forall x l, framed A (body x l)) -> framed A (for_range body xs l).
Proof.
  intros Hb. revert l. induction xs as [|x xs IH]; intros l; cbn [for_range]; [apply framed_ret|].
  apply framed_bind; [apply Hb|]. intros [l'|ret]; [apply IH|apply framed_ret].
Qed.
End rules.
End history.

(** ** What the value of a computation satisfies *)
Section returns.
Context {E : Type}.

Definition returns {A} (R : A -> Prop) (m : M E A) : Prop :=
  forall s, let '(r, _, _) := m s in forall a, r = Val a -> R a.

Lemma returns_ret {A} (R : A -> Prop) a : R a -> returns R (mret a).
Proof. intros HR s a' [= <-]. done. Qed.

Lemma returns_any {A} (m : M E A) : returns (fun _ => True) m.
Proof. intros s. by destruct (m s) as [[r s'] es]. Qed.

Lemma returns_bind {A B} (R1 : A -> Prop) (R2 : B -> Prop) (m : M E A) (k : A -> M E B) :
  returns R1 m -> (forall a, R1 a -> returns R2 (k a)) -> returns R2 (m ≫= k).
Proof.
  intros Hm Hk s. unfold mbind, M_bind. specialize (Hm s). destruct (m s) as [[[a|w|] s1] e1]; [|done..].
  specialize (Hk a (Hm a eq_refl) s1). by destruct (k a s1) as [[r s2] e2].
Qed.

Lemma returns_bind_any {A B} (R : B -> Prop) (m : M E A) (k : A -> M E B) :
  (forall a, returns R (k a)) -> returns R (m ≫= k).
Proof. intros Hk. eapply returns_bind; [apply returns_any|]. auto. Qed.

(** A loop: [I] holds of the variables after the visited elements. *)
Lemma returns_for_range {X L R} (I : list X -> L -> Prop) (Q : R -> Prop) (body : X -> L -> M E (L + R)) xs l :
  I [] l ->
  (forall dn x l, I dn l ->
     returns (fun r => match r with inl l' => I (dn ++ [x]) l' | inr ret => Q ret end) (body x l)) ->
  returns (fun r => match r with inl l' => I xs l' | inr ret => Q ret end) (for_range body xs l).
Proof.
  intros HI Hb. enough (G : forall rest dn l, I dn l ->
    returns (fun r => match r with inl l' => I (dn ++ rest) l' | inr ret => Q ret end) (for_range body rest l))
    by exact (G xs [] l HI).
  induction rest as [|x rest IH]; intros dn l' HI'; cbn [for_range].
  - apply returns_ret. by rewrite app_nil_r.
  - eapply returns_bind; [by apply (Hb dn x l')|]. intros [l2|ret] H; [|by apply returns_ret].
    replace (dn ++ x :: rest) with ((dn ++ [x]) ++ rest) by (by rewrite <- app_assoc). by apply IH.
Qed.
End returns.

(** Follows the control flow of a function; what is left are its uses of the
    environment that no hypothesis covers. *)
Ltac framed_step :=
  lazymatch goal with
  | |- framed _ _ _ (mret _) => apply framed_ret
  | |- framed _ _ _ (panic _) => apply framed_panic
  | |- framed _ _ _ block => apply framed_block
  | |- framed _ _ _ get_glob => apply framed_get_glob
  | |- framed _ _ _ (deref _) => apply framed_deref
  | |- framed _ _ _ (index _ _) => apply framed_index
  | |- framed _ _ _ (for_range _ _ _) => apply framed_for_range
  | |- framed _ _ _ (_ ≫= _) => apply framed_bind
  | |- framed _ _ _ _ =>
      first [ solve [match goal with H : context [framed] |- _ => simple apply H end]
            | progress cbn zeta
            | case_match ]
  | |- forall _, _ => intro
  end.
Ltac framed_tac := repeat framed_step.

(** ** The tools, when they do not touch the shared state *)
Class ExecFrame {E V : Type} `{!ExecWorld E} (view : E -> V) (others : V -> V -> Prop) := {
  frame_run_cmd : forall p args e, others (view e) (view (run_cmd p args e).2);
  frame_pause : forall z e, others (view e) (view (pause z e));
  frame_random : forall e, others (view e) (view (random e).2);
  frame_picks : forall e, others (view e) (view (map_picks e).2)
}.

Section tools.
Context {E V : Type} `{!ExecWorld E} (view : E -> V) (others : V -> V -> Prop)
  `{!ExecFrame view others} (A : Event -> Prop).

Lemma framed_run p args :
  (forall o se err, A (ECmd p args o se err)) -> framed view others A (run p args).
Proof.
  intros Ha. unfold run, get_runner. framed_tac. apply framed_prim; [by intros [[??]?]|].
  intros e. apply frame_run_cmd.
Qed.

Lemma framed_retry_loop n p args :
  (forall o se err, A (ECmd p args o se err)) -> A (ESleep 2) ->
  framed view others A (retry_loop n p args).
Proof.
  intros Ha Hs. assert (Hr := framed_run p args Ha).
  assert (Hz : framed view others A (Sleep 2)).
  { apply framed_prim; [done|]. intros e. apply frame_pause. }
  induction n as [|n IH]; cbn [retry_loop]; framed_tac.
Qed.

Lemma framed_RunOVNNbctl args :
  (forall h o se err, A (ECmd (nbctlPath h) (nb_argv h ovsCommandTimeout args) o se err)) ->
  A (ESleep 2) -> framed view others A (RunOVNNbctl args).
Proof.
  intros Ha Hs. unfold RunOVNNbctl, RunOVNNbctlWithTimeout, runOVNretry, get_runner.
  assert (Hr := fun h => framed_retry_loop 200 (nbctlPath h) (nb_argv h ovsCommandTimeout args) (Ha h) Hs).
  framed_tac.
Qed.

Lemma framed_Intn z : A (EQuery "rand") -> framed view others A (Intn z).
Proof.
  intros Ha. apply framed_prim; [done|]. intros e. specialize (frame_random e).
  by destruct (random e).
Qed.

Lemma framed_map_range {X} (m : gmap string X) : A (EQuery "range") -> framed view others A (map_range m).
Proof.
  intros Ha. apply framed_prim; [done|]. intros e. specialize (frame_picks e).
  by destruct (map_picks e).
Qed.
End tools.
