(* ===== verification/Json.v ===== *)
(** * Json: decoding JSON text (what the program uses of encoding/json)

    [parse_json] is the decoder into [interface{}]: the grammar of the
    scanner, with Go's treatment of escapes and of text that is not UTF-8.
    [Unmarshal_maps] decodes into a []map[string]string.  A failed decoding is
    [None]: the text of its error is only ever logged. *)

From S2P Require Import Prelude.
From S2P Require Import GoStrings.
From S2P Require Import GoNet.
From S2P Require Import Types.
From Stdlib Require Import Ascii.

#[local] Open Scope string_scope.
#[local] Open Scope list_scope.

Definition quot : ascii := "034".
Definition bslash : ascii := "092".

(** ** Text *)

Definition is_ws (c : ascii) : bool :=
  ((c == " ") || (c == "009") || (c == "010") || (c == "013"))%char.

Fixpoint skip_ws (s : string) : string :=
  match s with
  | String c s' => if is_ws c then skip_ws s' else s
  | EmptyString => ""
  end.

Definition byte_val (c : ascii) : Z := Z.of_nat (nat_of_ascii c).
Definition byte_chr (z : Z) : ascii := ascii_of_nat (Z.to_nat z).

(** The UTF-8 encoding of a code point ([utf8.EncodeRune]). *)
Definition encode_rune (r : Z) : string :=
  let cont x := byte_chr (0x80 + Z.land x 0x3f) in
  if (r <? 0x80)%Z then String (byte_chr r) ""
  else if (r <? 0x800)%Z then String (byte_chr (0xc0 + Z.shiftr r 6)) (String (cont r) "")
  else if (r <? 0x10000)%Z then
    String (byte_chr (0xe0 + Z.shiftr r 12)) (String (cont (Z.shiftr r 6)) (String (cont r) ""))
  else String (byte_chr (0xf0 + Z.shiftr r 18))
         (String (cont (Z.shiftr r 12)) (String (cont (Z.shiftr r 6)) (String (cont r) ""))).

Definition replacement : Z := 0xfffd.

Definition in_range (lo hi : Z) (c : ascii) : bool := ((lo <=? byte_val c) && (byte_val c <=? hi))%Z.

(** [utf8.DecodeRune] on a byte from 0x80 up: the bytes kept, the rest. *)
Definition decode_rune (c : ascii) (s : string) : string * string :=
  let bad := (encode_rune replacement, s) in
  let tail := in_range 0x80 0xbf in
  match s with
  | String c1 s1 =>
      if in_range 0xc2 0xdf c then if tail c1 then (String c (String c1 ""), s1) else bad
      else match s1 with
      | String c2 s2 =>
          let ok3 := tail c2 &&
            (if in_range 0xe0 0xe0 c then in_range 0xa0 0xbf c1
             else if in_range 0xed 0xed c then in_range 0x80 0x9f c1 else tail c1) in
          if in_range 0xe0 0xef c then
            if ok3 then (String c (String c1 (String c2 "")), s2) else bad
          else match s2 with
          | String c3 s3 =>
              let ok4 := tail c2 && tail c3 &&
                (if in_range 0xf0 0xf0 c then in_range 0x90 0xbf c1
                 else if in_range 0xf4 0xf4 c then in_range 0x80 0x8f c1 else tail c1) in
              if in_range 0xf0 0xf4 c && ok4
              then (String c (String c1 (String c2 (String c3 ""))), s3) else bad
          | EmptyString => bad
          end
      | EmptyString => bad
      end
  | EmptyString => bad
  end.

(** Four hexadecimal digits. *)
Definition get_u4 (s : string) : option (Z * string) :=
  match s with
  | String a (String b (String c (String d s'))) =>
      match hex_val a, hex_val b, hex_val c, hex_val d with
      | Some a, Some b, Some c, Some d => Some (((a * 16 + b) * 16 + c) * 16 + d, s')%Z
      | _, _, _, _ => None
      end
  | _ => None
  end.

(** A code point read from [\uXXXX]: a surrogate joins the escape that follows,
    or is replaced. *)
Definition join_surrogate (r : Z) (s : string) : Z * string :=
  if ((0xd800 <=? r) && (r <? 0xe000))%Z then
    match s with
    | String b (String u s') =>
        if (b == bslash) && (u == "u")%char then
          match get_u4 s' with
          | Some (r2, s'') =>
              if ((r <? 0xdc00) && (0xdc00 <=? r2) && (r2 <? 0xe000))%Z
              then ((r - 0xd800) * 0x400 + (r2 - 0xdc00) + 0x10000, s'')%Z
              else (replacement, s)
          | None => (replacement, s)
          end
        else (replacement, s)
    | _ => (replacement, s)
    end
  else (r, s).

(** The one-character escapes. *)
Definition escape (e : ascii) : option ascii :=
  if e == quot then Some quot else if e == bslash then Some bslash
  else if (e == "/")%char then Some "/"%char else if (e == "b")%char then Some "008"%char
  else if (e == "f")%char then Some "012"%char else if (e == "n")%char then Some "010"%char
  else if (e == "r")%char then Some "013"%char else if (e == "t")%char then Some "009"%char else None.

Definition prepend (p : string) (r : option (string * string)) : option (string * string) :=
  match r with Some (t, s) => Some (p +:+ t, s) | None => None end.

(** A string literal after its opening quote: the text and what follows. *)
Fixpoint parse_chars (n : nat) (s : string) : option (string * string) :=
  match n, s with
  | S n, String c s' =>
      if c == quot then Some ("", s')
      else if c == bslash then
        match s' with
        | String e s2 =>
            match escape e with
            | Some d => prepend (String d "") (parse_chars n s2)
            | None =>
                if (e == "u")%char then
                  match get_u4 s2 with
                  | Some (r, s3) =>
                      let '(r, s4) := join_surrogate r s3 in
                      prepend (encode_rune r) (parse_chars n s4)
                  | None => None
                  end
                else None
            end
        | EmptyString => None
        end
      else if (byte_val c <? 0x20)%Z then None
      else if (byte_val c <? 0x80)%Z then prepend (String c "") (parse_chars n s')
      else let '(b, s2) := decode_rune c s' in prepend b (parse_chars n s2)
  | _, _ => None
  end.

(** ** Numbers: their text is kept *)

Fixpoint take_digits (s : string) : string * string :=
  match s with
  | String c s' => if is_digit c then let '(d, r) := take_digits s' in (String c d, r) else ("", s)
  | EmptyString => ("", "")
  end.

(** The rest of a text that starts with [c]. *)
Definition eat (c : ascii) (s : string) : option string :=
  match s with String d s' => if d == c then Some s' else None | EmptyString => None end.

(** At least one digit. *)
Definition digits (s : string) : option (string * string) :=
  let '(d, r) := take_digits s in if d == "" then None else Some (d, r).

Definition parse_frac (s : string) : option (string * string) :=
  match eat "." s with
  | Some s' => match digits s' with Some (d, r) => Some ("." +:+ d, r) | None => None end
  | None => Some ("", s)
  end.

(** An optional character out of two. *)
Definition eat_opt (c1 c2 : ascii) (s : string) : string * string :=
  match eat c1 s with
  | Some s' => (String c1 "", s')
  | None => match eat c2 s with Some s' => (String c2 "", s') | None => ("", s) end
  end.

Definition parse_exp (s : string) : option (string * string) :=
  let '(e, s1) := eat_opt "e" "E" s in
  if e == "" then Some ("", s) else
  let '(sg, s2) := eat_opt "+" "-" s1 in
  match digits s2 with Some (d, r) => Some (e +:+ sg +:+ d, r) | None => None end.

Definition parse_int (s : string) : option (string * string) :=
  match eat "0" s with Some s' => Some ("0", s') | None => digits s end.

Definition parse_number (s : string) : option (Json * string) :=
  let '(sg, s1) := match eat "-" s with Some s' => ("-", s') | None => ("", s) end in
  match parse_int s1 with
  | None => None
  | Some (i, s2) =>
      match parse_frac s2 with
      | None => None
      | Some (f, s3) =>
          match parse_exp s3 with
          | None => None
          | Some (e, s4) => Some (JNumber (sg +:+ i +:+ f +:+ e), s4)
          end
      end
  end.

Definition literal (w : string) (v : Json) (s : string) : option (Json * string) :=
  if HasPrefix s w then Some (v, drop_string (String.length w) s) else None.

(** ** Values

    The fuel bounds the depth of calls; every call but the first ones of an
    array and of an object consumes text, so that twice the length is enough. *)
Fixpoint parse_value (n : nat) (s : string) : option (Json * string) :=
  match n with
  | O => None
  | S n =>
      match skip_ws s with
      | String c s' =>
          if c == quot then
            match parse_chars n s' with Some (t, r) => Some (JString t, r) | None => None end
          else if (c == "[")%char then
            match eat "]" (skip_ws s') with
            | Some r => Some (JArray [], r)
            | None => match parse_elems n s' with Some (l, r) => Some (JArray l, r) | None => None end
            end
          else if (c == "{")%char then
            match eat "}" (skip_ws s') with
            | Some r => Some (JObject [], r)
            | None => match parse_members n s' with Some (l, r) => Some (JObject l, r) | None => None end
            end
          else if (c == "t")%char then literal "true" (JBool true) (String c s')
          else if (c == "f")%char then literal "false" (JBool false) (String c s')
          else if (c == "n")%char then literal "null" JNull (String c s')
          else parse_number (String c s')
      | EmptyString => None
      end
  end
with parse_elems (n : nat) (s : string) : option (list Json * string) :=
  match n with
  | O => None
  | S n =>
      match parse_value n s with
      | None => None
      | Some (v, r) =>
          match eat "," (skip_ws r), eat "]" (skip_ws r) with
          | Some r', _ => match parse_elems n r' with Some (l, r2) => Some (v :: l, r2) | None => None end
          | None, Some r' => Some ([v], r')
          | None, None => None
          end
      end
  end
with parse_members (n : nat) (s : string) : option (list (string * Json) * string) :=
  match n with
  | O => None
  | S n =>
      match eat quot (skip_ws s) with
      | None => None
      | Some s' =>
          match parse_chars n s' with
          | None => None
          | Some (k, r) =>
              match eat ":" (skip_ws r) with
              | None => None
              | Some r' =>
                  match parse_value n r' with
                  | None => None
                  | Some (v, r2) =>
                      match eat "," (skip_ws r2), eat "}" (skip_ws r2) with
                      | Some r3, _ =>
                          match parse_members n r3 with Some (l, r4) => Some ((k, v) :: l, r4) | None => None end
                      | None, Some r3 => Some ([(k, v)], r3)
                      | None, None => None
                      end
                  end
              end
          end
      end
  end.

(** A whole text: one value, then only white space. *)
Definition parse_json (s : string) : option Json :=
  match parse_value (2 * String.length s + 2) s with
  | Some (v, r) => if skip_ws r == "" then Some v else None
  | None => None
  end.

(** ** Decoding into Go types *)

(** A Go map keeps the last of several members with one key. *)
Fixpoint set_member (k : string) (v : Json) (ms : list (string * Json)) : list (string * Json) :=
  match ms with
  | [] => [(k, v)]
  | (k', v') :: ms' => if k == k' then (k, v) :: ms' else (k', v') :: set_member k v ms'
  end.

(** A value of an [interface{}]: its objects are Go maps. *)
Fixpoint go_value (j : Json) : Json :=
  match j with
  | JArray l => JArray (map go_value l)
  | JObject ms => JObject (foldl (fun acc '(k, v) => set_member k v acc) []
                                 (map (fun '(k, v) => (k, go_value v)) ms))
  | _ => j
  end.

(** [json.Unmarshal] into a []map[string]string: null elements and members are
    zero values, any other type but an object of strings is an error. *)
Definition decode_strings (ms : list (string * Json)) : option (gmap string string) :=
  foldl (fun acc '(k, v) =>
    match acc, v with
    | Some m, JString t => Some (<[k := t]> m)
    | Some m, JNull => Some (<[k := ""]> m)
    | _, _ => None
    end) (Some ∅) ms.

Definition decode_map (j : Json) : option (gmap string string) :=
  match j with
  | JObject ms => decode_strings ms
  | JNull => Some ∅
  | _ => None
  end.

Definition Unmarshal_maps (text : string) : option (list (gmap string string)) :=
  match parse_json text with
  | Some (JArray l) => mapM decode_map l
  | Some JNull => Some []
  | _ => None
  end.

(** ** The fuel is enough *)

Lemma skip_ws_length s : String.length (skip_ws s) <= String.length s.
Proof. induction s as [|c s IH]; simpl; [lia|]. destruct (is_ws c); simpl; lia. Qed.

Lemma take_digits_length s : String.length (take_digits s).2 <= String.length s.
Proof.
  induction s as [|c s IH]; simpl; [lia|]. destruct (is_digit c); [|simpl; lia].
  destruct (take_digits s). simpl in *. lia.
Qed.

Lemma get_u4_length s r s' : get_u4 s = Some (r, s') -> String.length s' < String.length s.
Proof.
  destruct s as [|a [|b [|c [|d s]]]]; try done. simpl.
  repeat case_match; intros [= <- <-]; simpl; lia.
Qed.

Lemma join_surrogate_length r s : String.length (join_surrogate r s).2 <= String.length s.
Proof.
  unfold join_surrogate. repeat case_match; simpl; try lia.
  match goal with H : get_u4 _ = Some _ |- _ => apply get_u4_length in H; simpl in *; lia end.
Qed.

Lemma decode_rune_length c s : String.length (decode_rune c s).2 <= String.length s.
Proof. unfold decode_rune. repeat case_match; simpl; lia. Qed.

Lemma prepend_length p x t r k :
  (forall t r, x = Some (t, r) -> String.length r <= k) ->
  prepend p x = Some (t, r) -> String.length r <= k.
Proof. destruct x as [[t' r']|]; [|done]. intros H [= <- <-]. by eapply H. Qed.

Lemma parse_chars_length n s t r :
  parse_chars n s = Some (t, r) -> String.length r < String.length s.
Proof.
  revert s t r. induction n as [|n IH]; intros s t r; [done|]. destruct s as [|c s]; [done|].
  cbn [parse_chars String.length].
  assert (Hp : forall p s2 t2 r2, String.length s2 <= String.length s ->
    prepend p (parse_chars n s2) = Some (t2, r2) -> String.length r2 < S (String.length s)).
  { intros p s2 t2 r2 Hl H. apply Nat.lt_succ_r.
    apply (prepend_length p (parse_chars n s2) t2 r2); [|done].
    intros t3 r3 H3. apply IH in H3. lia. }
  case_match; [by intros [= <- <-]; lia|]. case_match.
  - destruct s as [|e s2]; [done|]. case_match; [apply Hp; simpl; lia|]. case_match; [|done].
    destruct (get_u4 s2) as [[u s3]|] eqn:Hu; [|done]. apply get_u4_length in Hu.
    assert (Hj := join_surrogate_length u s3). destruct (join_surrogate u s3) as [u' s4].
    apply Hp. simpl in *. lia.
  - case_match; [done|]. case_match; [by apply Hp|].
    assert (Hd := decode_rune_length c s). destruct (decode_rune c s) as [b s2]. by apply Hp.
Qed.

Lemma parse_chars_fuel n1 n2 s :
  String.length s < n1 -> String.length s < n2 -> parse_chars n1 s = parse_chars n2 s.
Proof.
  revert n2 s. induction n1 as [|n1 IH]; intros n2 s H1 H2; [lia|]. destruct n2 as [|n2]; [lia|].
  destruct s as [|c s]; [done|]. cbn [parse_chars]. cbn [String.length] in *.
  case_match; [done|]. case_match.
  - destruct s as [|e s2]; [done|]. cbn [String.length] in *.
    case_match; [by rewrite (IH n2) by lia|]. case_match; [|done].
    destruct (get_u4 s2) as [[u s3]|] eqn:Hu; [|done]. apply get_u4_length in Hu.
    assert (Hj := join_surrogate_length u s3). destruct (join_surrogate u s3) as [u' s4].
    simpl in Hj. by rewrite (IH n2) by lia.
  - case_match; [done|]. case_match; [by rewrite (IH n2) by lia|].
    assert (Hd := decode_rune_length c s). destruct (decode_rune c s) as [b s2]. simpl in Hd.
    by rewrite (IH n2) by lia.
Qed.

Lemma drop_string_length k s : String.length (drop_string k s) <= String.length s.
Proof. revert s. induction k as [|k IH]; intros [|c s]; simpl; try lia. specialize (IH s). lia. Qed.

Lemma literal_length w v c s j r :
  w <> "" -> literal w v (String c s) = Some (j, r) -> String.length r < S (String.length s).
Proof.
  unfold literal. case_match; [|done]. intros Hw [= <- <-]. destruct w as [|d w]; [done|].
  simpl. assert (H' := drop_string_length (String.length w) s). lia.
Qed.

Lemma eat_length c s s' : eat c s = Some s' -> String.length s = S (String.length s').
Proof. destruct s as [|d s]; [done|]. simpl. case_bool_decide; [|done]. by intros [= ->]. Qed.

Lemma digits_length s d r : digits s = Some (d, r) -> String.length r < String.length s.
Proof.
  unfold digits. destruct s as [|c s]; [done|]. simpl. destruct (is_digit c); [|done].
  assert (H := take_digits_length s). destruct (take_digits s) as [d' r']. simpl in *.
  intros [= <- <-]. lia.
Qed.

Lemma eat_opt_length c1 c2 s : String.length (eat_opt c1 c2 s).2 <= String.length s.
Proof.
  unfold eat_opt. destruct (eat c1 s) eqn:H1; [apply eat_length in H1; simpl; lia|].
  destruct (eat c2 s) eqn:H2; [apply eat_length in H2; simpl; lia|]. simpl. lia.
Qed.

Lemma parse_int_length s i r : parse_int s = Some (i, r) -> String.length r < String.length s.
Proof.
  unfold parse_int. destruct (eat "0" s) eqn:H; [|apply digits_length].
  apply eat_length in H. intros [= <- <-]. lia.
Qed.

Lemma parse_frac_length s f r : parse_frac s = Some (f, r) -> String.length r <= String.length s.
Proof.
  unfold parse_frac. destruct (eat "." s) as [s1|] eqn:H; [|by intros [= <- <-]].
  apply eat_length in H. destruct (digits s1) as [[d r1]|] eqn:Hd; [|done].
  apply digits_length in Hd. intros [= <- <-]. lia.
Qed.

Lemma parse_exp_length s x r : parse_exp s = Some (x, r) -> String.length r <= String.length s.
Proof.
  unfold parse_exp. assert (H1 := eat_opt_length "e" "E" s). destruct (eat_opt "e" "E" s) as [e s1].
  case_match; [by intros [= <- <-]|].
  assert (H2 := eat_opt_length "+" "-" s1). destruct (eat_opt "+" "-" s1) as [sg s2].
  destruct (digits s2) as [[d r1]|] eqn:Hd; [|done]. apply digits_length in Hd.
  intros [= <- <-]. simpl in *. lia.
Qed.

Lemma parse_number_length s v r : parse_number s = Some (v, r) -> String.length r < String.length s.
Proof.
  unfold parse_number.
  destruct (match eat "-" s with Some s' => ("-", s') | None => ("", s) end) as [sg s1] eqn:Hs.
  assert (L1 : String.length s1 <= String.length s).
  { destruct (eat "-" s) eqn:He; [apply eat_length in He|]; revert Hs; intros [= <- <-]; lia. }
  destruct (parse_int s1) as [[i s2]|] eqn:Hi; [|done]. apply parse_int_length in Hi.
  destruct (parse_frac s2) as [[f s3]|] eqn:Hf; [|done]. apply parse_frac_length in Hf.
  destruct (parse_exp s3) as [[x s4]|] eqn:Hx; [|done]. apply parse_exp_length in Hx.
  intros [= <- <-]. lia.
Qed.

(** Every parser consumes text. *)
Lemma parse_length n :
  (forall s v r, parse_value n s = Some (v, r) -> String.length r < String.length s) /\
  (forall s l r, parse_elems n s = Some (l, r) -> String.length r < String.length s) /\
  (forall s l r, parse_members n s = Some (l, r) -> String.length r < String.length s).
Proof.
  induction n as [|n (IHv & IHe & IHm)]; [done|]. split; [|split]; intros s x r; simpl.
  - assert (Hw := skip_ws_length s). destruct (skip_ws s) as [|c s']; [done|]. simpl in Hw.
    assert (Hw' := skip_ws_length s').
    case_match; [destruct (parse_chars n s') as [[t r']|] eqn:Hc; [|done];
      apply parse_chars_length in Hc; intros [= <- <-]; lia|].
    case_match; [destruct (eat "]" _) eqn:He; [apply eat_length in He; intros [= <- <-]; lia|];
      destruct (parse_elems n s') as [[l r']|] eqn:Hc; [|done];
      apply IHe in Hc; intros [= <- <-]; lia|].
    case_match; [destruct (eat "}" _) eqn:He; [apply eat_length in He; intros [= <- <-]; lia|];
      destruct (parse_members n s') as [[l r']|] eqn:Hc; [|done];
      apply IHm in Hc; intros [= <- <-]; lia|].
    do 3 (case_match; [intros H'; apply literal_length in H'; [lia|done]|]).
    intros H'. apply parse_number_length in H'. simpl in H'. lia.
  - destruct (parse_value n s) as [[v r1]|] eqn:Hv; [|done]. apply IHv in Hv.
    assert (Hw := skip_ws_length r1).
    destruct (eat "," _) as [r2|] eqn:H1; [apply eat_length in H1|].
    + destruct (parse_elems n r2) as [[l r3]|] eqn:Hl; [|done]. apply IHe in Hl. intros [= <- <-]. lia.
    + destruct (eat "]" _) as [r2|] eqn:H2; [|done]. apply eat_length in H2. intros [= <- <-]. lia.
  - assert (Hw := skip_ws_length s). destruct (eat quot _) as [s1|] eqn:Hq; [|done]. apply eat_length in Hq.
    destruct (parse_chars n s1) as [[k r1]|] eqn:Hc; [|done]. apply parse_chars_length in Hc.
    assert (Hw1 := skip_ws_length r1). destruct (eat ":" _) as [s2|] eqn:Hk; [|done]. apply eat_length in Hk.
    destruct (parse_value n s2) as [[v r2]|] eqn:Hv; [|done]. apply IHv in Hv.
    assert (Hw2 := skip_ws_length r2).
    destruct (eat "," _) as [r3|] eqn:H1; [apply eat_length in H1|].
    + destruct (parse_members n r3) as [[l r4]|] eqn:Hl; [|done]. apply IHm in Hl. intros [= <- <-]. lia.
    + destruct (eat "}" _) as [r3|] eqn:H2; [|done]. apply eat_length in H2. intros [= <- <-]. lia.
Qed.

(** With twice the length of the text, more fuel changes nothing. *)
Lemma parse_fuel n1 :
  (forall n2 s, 2 * String.length s < n1 -> 2 * String.length s < n2 -> parse_value n1 s = parse_value n2 s) /\
  (forall n2 s, 2 * String.length s + 1 < n1 -> 2 * String.length s + 1 < n2 -> parse_elems n1 s = parse_elems n2 s) /\
  (forall n2 s, 2 * String.length s < n1 -> 2 * String.length s < n2 -> parse_members n1 s = parse_members n2 s).
Proof.
  induction n1 as [|n1 (IHv & IHe & IHm)]; [split; [|split]; lia|].
  split; [|split]; intros [|n2] s H1 H2; try lia; cbn [parse_value parse_elems parse_members].
  - assert (Hw := skip_ws_length s). destruct (skip_ws s) as [|c s']; [done|]. simpl in Hw.
    rewrite (parse_chars_fuel n1 n2) by lia. rewrite (IHe n2), (IHm n2) by lia. done.
  - rewrite (IHv n2) by lia. destruct (parse_value n2 s) as [[v r1]|] eqn:Hv; [|done].
    apply parse_length in Hv. assert (Hw := skip_ws_length r1).
    destruct (eat "," _) as [r2|] eqn:He; [|done]. apply eat_length in He. by rewrite (IHe n2) by lia.
  - assert (Hw := skip_ws_length s). destruct (eat quot _) as [s1|] eqn:Hq; [|done]. apply eat_length in Hq.
    rewrite (parse_chars_fuel n1 n2) by lia.
    destruct (parse_chars n2 s1) as [[k r1]|] eqn:Hc; [|done]. apply parse_chars_length in Hc.
    assert (Hw1 := skip_ws_length r1). destruct (eat ":" _) as [s2|] eqn:Hk; [|done]. apply eat_length in Hk.
    rewrite (IHv n2) by lia. destruct (parse_value n2 s2) as [[v r2]|] eqn:Hv; [|done].
    apply parse_length in Hv. assert (Hw2 := skip_ws_length r2).
    destruct (eat "," _) as [r3|] eqn:He; [|done]. apply eat_length in He. by rewrite (IHm n2) by lia.
Qed.

Lemma parse_json_fuel n s :
  2 * String.length s < n ->
  parse_json s = match parse_value n s with
                 | Some (v, r) => if skip_ws r == "" then Some v else None
                 | None => None
                 end.
Proof.
  intros H. unfold parse_json. destruct (parse_fuel n) as [Hv _]. by rewrite (Hv (2 * String.length s + 2)) by lia.
Qed.
