(* ===== verification/OvnCommon.v ===== *)
(** * OvnCommon: VLANs, bridges, bridge mappings, routers and switches
    (internal/pkg/ovn/common.go)

    Each function runs the tools through Runner.v and returns Go's results.
    The netlink library is the environment ([LinkWorld]).  Logging is left
    out. *)

From S2P Require Import Prelude.
From S2P Require Import GoStrings.
From S2P Require Import GoNet.
From S2P Require Import Addressing.
From S2P Require Import Types.
From S2P Require Import World.
From S2P Require Import Runner.
From Stdlib Require Import Ascii.

#[local] Open Scope string_scope.
#[local] Open Scope list_scope.

(** [github.com/vishvananda/netlink]: the links of the node. *)
Class LinkWorld (E : Type) := {
  link_by_name : string -> E -> option error * E;
  link_list : E -> list (string * string) * E  (* alias and name of each link *)
}.

Definition newline : ascii := "010".

(** The value of a failed [net.ParseCIDR]. *)
Definition ParseError (s : string) : error :=
  OtherError "*net.ParseError" ("invalid CIDR address: " +:+ s).

Section common.
Context {E : Type} `{!ExecWorld E, !LinkWorld E}.

Definition LinkByName (name : string) : M E (option error) :=
  prim (link_by_name name) (fun err => ENetlink "LinkByName" [name] err).
Definition LinkList : M E (list (string * string)) :=
  prim link_list (fun _ => EQuery "LinkList").

(** ** VLANs *)

Definition CreateVlan (vlanID interfaceName logicalInterfaceName : string) : M E (option error) :=
  if (interfaceName == "") || (vlanID == "") || (logicalInterfaceName == "") then
    mret (Errorf ("CreateVlan invalid parameters: " +:+ interfaceName +:+ " " +:+ vlanID
                  +:+ " " +:+ logicalInterfaceName))
  else
  err ← LinkByName logicalInterfaceName;
  match err with None => mret None | Some _ =>
  '(_, _, err) ← RunIP ["link"; "add"; "link"; interfaceName; "name"; logicalInterfaceName;
                        "type"; "vlan"; "id"; vlanID];
  match err with Some e => mret (Some e) | None =>
  '(_, _, err) ← RunIP ["link"; "set"; logicalInterfaceName; "alias";
                        "nfn-" +:+ logicalInterfaceName];
  match err with Some e => mret (Some e) | None =>
  '(_, _, err) ← RunIP ["link"; "set"; "dev"; logicalInterfaceName; "up"];
  mret err
  end end end.

Definition DeleteVlan (logicalInterfaceName : string) : M E (option error) :=
  if logicalInterfaceName == "" then mret (Errorf "DeleteVlan invalid parameters")
  else
  '(_, _, err) ← RunIP ["link"; "del"; "dev"; logicalInterfaceName];
  mret err.

(** The names of the links whose alias marks them as ours; an error of
    [LinkList] is ignored. *)
Definition GetVlan : M E (list string) :=
  links ← LinkList;
  mret (omap (fun '(alias, name) => if Contains alias "nfn-" then Some name else None) links).

(** ** The csv form of ovn-bridge-mappings *)

Definition parse_label (label : string) (mm : gmap string string)
  : M E (gmap string string + option error) :=
  let l := Split label ":" in
  if (length l =? 0)%nat then mret (inr None)
  else
  k ← index l 0;
  v ← index l 1;
  mret (inl (<[TrimSpace k := TrimSpace v]> mm)).

Definition parse_mappings (stdout : string) : M E (gmap string string + option error) :=
  if (0 <? String.length stdout)%nat
  then for_range parse_label (Split stdout ",") ∅
  else mret (inl ∅).

(** The concatenation of one map iteration. *)
Definition format_mappings (kvs : list (string * string)) : string :=
  foldl (fun acc '(k, v) => acc +:+ (k +:+ ":" +:+ v +:+ ",")) "" kvs.

Definition write_mappings (mm : gmap string string) : M E (option error) :=
  kvs ← map_range mm;
  let mapping := format_mappings kvs in
  (if mapping == "" then panic "slice bounds out of range" else
  m ← slice_to mapping (String.length mapping - 1);
  '(_, _, err) ← RunOVSVsctl ["set"; "open"; "."; "external-ids:ovn-bridge-mappings=" +:+ m];
  mret err).

(** The map is edited in memory and written back, or removed when empty. *)
Definition edit_mappings (brName nwName action : string) (mm : gmap string string)
  : M E (option error) :=
  mm' ← (if action == "add" then mret (inl (<[nwName := brName]> mm))
         else if action == "delete" then
           let mm' := delete nwName mm in
           if (size mm' =? 0)%nat then
             '(_, _, err) ← RunOVSVsctl ["remove"; "open"; "."; "external-ids"; "ovn-bridge-mappings"];
             mret (inr err)
           else mret (inl mm')
         else mret (inr (Errorf ("Invalid action " +:+ action))));
  match mm' with inr ret => mret ret | inl mm => write_mappings mm end.

Definition updateOvnBridgeMapping (brName nwName action : string) : M E (option error) :=
  '(stdout, stderr, err) ← RunOVSVsctl ["get"; "open"; "."; "external-ids:ovn-bridge-mappings"];
  if bool_decide (err <> None) && negb (Contains stderr "no key") then mret err else
  r ← parse_mappings stdout;
  match r with inr ret => mret ret | inl mm => edit_mappings brName nwName action mm end.

(** ** Provider bridges *)

Definition CreatePnBridge (nwName brName intfName : string) : M E (option error) :=
  if (nwName == "") || (brName == "") || (intfName == "")
  then mret (Errorf "CreatePnBridge invalid parameters")
  else
  '(_, _, err) ← RunOVSVsctl ["--may-exist"; "add-br"; brName];
  match err with Some e => mret (Some e) | None =>
  '(_, _, err) ← RunOVSVsctl ["--may-exist"; "add-port"; brName; intfName];
  match err with Some e => mret (Some e) | None =>
  '(_, _, err) ← RunOVSVsctl ["set"; "bridge"; brName; "external_ids:nfn=" +:+ nwName];
  match err with Some e => mret (Some e) | None =>
  updateOvnBridgeMapping brName nwName "add";;
  mret None
  end end end.

Definition DeletePnBridge (nwName brName : string) : M E (option error) :=
  if (nwName == "") || (brName == "") then mret (Errorf "DeletePnBridge invalid parameters")
  else
  '(_, _, err) ← RunOVSVsctl ["--if-exist"; "del-br"; brName];
  match err with Some e => mret (Some e) | None =>
  updateOvnBridgeMapping brName nwName "delete";;
  mret None
  end.

(** One bridge of [GetPnBridge]'s loop. *)
Definition keep_bridge (externalID name : string) (brList : list string)
  : M E (list string + list string) :=
  '(stdout, _, err) ← RunOVSVsctl ["get"; "bridge"; name; "external_ids:" +:+ externalID];
  if bool_decide (err <> None) then mret (inl brList)
  else if stdout == "" then mret (inl brList)
  else mret (inl (brList ++ [name])).

Definition GetPnBridge (externalID : string) : M E (list string) :=
  '(stdout, _, err) ← RunOVSVsctl ["list-br"];
  if bool_decide (err <> None) then mret [] else
  r ← for_range (keep_bridge externalID) (Split stdout newline) [];
  match r with inl brList => mret brList | inr ret => mret ret end.

(** ** Routers and switches *)

Definition generateMac : M E string :=
  a ← Intn 255; b ← Intn 255; c ← Intn 255;
  mret ("00:00:00:" +:+ fmt_02x a +:+ ":" +:+ fmt_02x b +:+ ":" +:+ fmt_02x c).

(** The tail of [setupDistributedRouter]: plug the join switch. *)
Definition connect_join (name routerMac : string) : M E (option error) :=
  '(_, _, err) ← RunOVNNbctl ["--"; "--may-exist"; "lsp-add"; "ovn4nfv-join"; "jtor-" +:+ name;
    "--"; "set"; "logical_switch_port"; "jtor-" +:+ name; "type=router";
    "options:router-port=rtoj-" +:+ name; "addresses=" +:+ dq +:+ routerMac +:+ dq];
  mret err.

Definition setupDistributedRouter (name : string) : M E (option error) :=
  '(_, _, err) ← RunOVNNbctl ["--"; "--may-exist"; "lr-add"; name; "--"; "set"; "logical_router";
                              name; "external_ids:ovn4nfv-cluster-router=yes"];
  match err with Some e => mret (Some e) | None =>
  '(_, _, err) ← RunOVNNbctl ["--may-exist"; "ls-add"; "ovn4nfv-join"];
  match err with Some e => mret (Some e) | None =>
  '(routerMac, _, err) ← RunOVNNbctl ["--if-exist"; "get"; "logical_router_port"; "rtoj-" +:+ name; "mac"];
  match err with Some e => mret (Some e) | None =>
  if routerMac == "" then
    routerMac ← generateMac;
    '(_, _, err) ← RunOVNNbctl ["--"; "--may-exist"; "lrp-add"; name; "rtoj-" +:+ name; routerMac;
      "100.64.1.1/24"; "--"; "set"; "logical_router_port"; "rtoj-" +:+ name;
      "external_ids:connect_to_ovn4nfvjoin=yes"];
    match err with Some e => mret (Some e) | None => connect_join name routerMac end
  else connect_join name routerMac
  end end end.

Definition find_switch_args (name : string) : list string :=
  ["--data=bare"; "--no-heading"; "--columns=name"; "find"; "logical_switch"; "name=" +:+ name].

Definition add_switch_args (name subnet gatewayIPMask excludeIps : string) : list string :=
  ["--wait=hv"; "--"; "--may-exist"; "ls-add"; name; "--"; "set"; "logical_switch"; name;
   "other-config:subnet=" +:+ subnet; "external-ids:gateway_ip=" +:+ gatewayIPMask]
  ++ (if excludeIps == "" then [] else ["other-config:exclude_ips=" +:+ excludeIps]).

Definition createOvnLS (name subnet gatewayIP excludeIps : string) : M E (string * option error) :=
  '(output, _, err) ← RunOVNNbctl (find_switch_args name);
  match err with Some e => mret ("", Some e) | None =>
  if name == output then mret ("", Errorf "LS exists") else
  match ParseCIDR subnet with
  | None => mret ("", Some (ParseError subnet))
  | Some (_, cidr) =>
      let gatewayIPMask := gateway_ip_mask cidr gatewayIP in
      '(_, _, err) ← RunOVNNbctl (add_switch_args name subnet gatewayIPMask excludeIps);
      mret (gatewayIPMask, err)
  end end.

(** ** Queries used by the chaining code *)

Definition GetNetworkSubnet (nw : string) : M E (string * option error) :=
  '(stdout, _, err) ← RunOVNNbctl ["--if-exists"; "get"; "logical_switch"; nw; "other_config:subnet"];
  match err with Some e => mret ("", Some e) | None => mret (stdout, None) end.

(** One line of lsp-list: "<port-uuid> (<port-name>)". *)
Definition port_line (name l : string) (_ : ()) : M E (() + (string * option error)) :=
  let pn := Fields l in
  if (length pn <? 2)%nat then mret (inr ("", Errorf "IPAdress Not Found")) else
  p ← index pn 1;
  if Contains p name then
    let s := ReplaceAll (ReplaceAll p "(" "") ")" "" in
    '(dna, _, err) ← RunOVNNbctl ["get"; "logical_switch_port"; s; "dynamic_addresses"];
    match err with Some e => mret (inr ("", Some e)) | None =>
    let ipAddr := Fields dna in
    if (length ipAddr <? 2)%nat then mret (inr ("", Errorf "IPAdress Not Found")) else
    a ← index ipAddr 1;
    mret (inr (a, None))
    end
  else mret (inl ()).

Definition GetIPAdressForPod (nw name : string) : M E (string * option error) :=
  '(_, _, err) ← RunOVNNbctl (find_switch_args nw);
  match err with Some e => mret ("", Some e) | None =>
  '(stdout, _, err) ← RunOVNNbctl ["lsp-list"; nw];
  match err with Some e => mret ("", Some e) | None =>
  let ll := Split stdout newline in
  if (length ll =? 0)%nat then mret ("", Errorf "IPAdress Not Found") else
  r ← for_range (port_line name) ll ();
  match r with
  | inr ret => mret ret
  | inl _ => mret ("", Errorf ("IPAdress Not Found " +:+ name))
  end end end.
End common.
