(* ===== verification/BridgeMappings.v ===== *)
(** * BridgeMappings: the ovn-bridge-mappings text as a finite map

    [updateOvnBridgeMapping] (internal/pkg/ovn/common.go) reads the
    external id ovn-bridge-mappings as a list of "network:bridge" labels,
    edits the map and writes the list back in the order of a map iteration.
    The theorems relate the texts to the maps they denote. *)

From S2P Require Import Prelude.
From S2P Require Import GoStrings.
From S2P Require Import Types.
From S2P Require Import World.
From S2P Require Import Runner.
From S2P Require Import OvnCommon.
From Stdlib Require Import Ascii.

#[local] Open Scope string_scope.
#[local] Open Scope list_scope.

(** ** Words: what a key or a value read from the text looks like *)

Definition word (s : string) : bool :=
  free ":" s && free "," s && (TrimSpace s == s).

Definition wf_mappings (mm : gmap string string) : Prop :=
  map_Forall (fun k v => word k = true /\ word v = true) mm.

Lemma word_spec s : word s = true <-> free ":" s = true /\ free "," s = true /\ TrimSpace s = s.
Proof. unfold word. rewrite !andb_true_iff, bool_decide_eq_true. tauto. Qed.

Lemma trim_left_keeps p q s :
  string_forall q s = true -> string_forall q (trim_left_fun p s) = true.
Proof.
  induction s as [|c s IH]; simpl; [done|]. intros H.
  destruct (p c); [|done]. apply andb_true_iff in H as [_ H]. auto.
Qed.

Lemma trim_right_keeps p q s :
  string_forall q s = true -> string_forall q (trim_right_fun p s) = true.
Proof.
  induction s as [|c s IH]; simpl; [done|]. intros [Hc Hs]%andb_true_iff.
  specialize (IH Hs). destruct (trim_right_fun p s); simpl in *;
    [destruct (p c); simpl; by rewrite ?Hc|by rewrite Hc].
Qed.

Lemma free_TrimSpace c s : free c s = true -> free c (TrimSpace s) = true.
Proof. intros H. by apply trim_right_keeps, trim_left_keeps. Qed.

Lemma trim_left_idemp p s : trim_left_fun p (trim_left_fun p s) = trim_left_fun p s.
Proof. induction s as [|c s IH]; simpl; [done|]. destruct (p c) eqn:Hc; simpl; by rewrite ?Hc. Qed.

Lemma trim_right_idemp p s : trim_right_fun p (trim_right_fun p s) = trim_right_fun p s.
Proof.
  induction s as [|c s IH]; simpl; [done|].
  destruct (trim_right_fun p s) as [|d t] eqn:Ht.
  - destruct (p c) eqn:Hc; simpl; by rewrite ?Hc.
  - simpl in *. by rewrite IH.
Qed.

Lemma trim_left_right p s :
  trim_left_fun p s = s -> trim_left_fun p (trim_right_fun p s) = trim_right_fun p s.
Proof.
  destruct s as [|c s]; simpl; [done|]. destruct (p c) eqn:Hc.
  - intros H. exfalso. assert (L : String.length (trim_left_fun p s) <= String.length s).
    { clear. induction s as [|d s IH]; simpl; [done|]. destruct (p d); simpl; lia. }
    rewrite H in L. simpl in L. lia.
  - intros _. destruct (trim_right_fun p s); simpl; by rewrite Hc.
Qed.

Lemma TrimSpace_idemp s : TrimSpace (TrimSpace s) = TrimSpace s.
Proof.
  unfold TrimSpace. rewrite trim_left_right by apply trim_left_idemp.
  apply trim_right_idemp.
Qed.

Lemma Split_pieces sep s : Forall (fun w => free sep w = true) (Split s sep).
Proof.
  induction s as [|c s IH]; simpl; [by repeat constructor|].
  destruct (Ascii.eqb c sep) eqn:Hc; [by constructor|].
  destruct (Split s sep) as [|w ws]; [constructor; [|done]|].
  - unfold free. simpl. by rewrite Hc.
  - apply Forall_cons in IH as [Hw Hws]. constructor; [|done].
    unfold free in *. simpl. by rewrite Hc, Hw.
Qed.

Lemma Split_keeps c sep s :
  free c s = true -> Forall (fun w => free c w = true) (Split s sep).
Proof.
  unfold free. induction s as [|d s IH]; simpl; [by repeat constructor|].
  intros [Hd Hs]%andb_true_iff. specialize (IH Hs).
  destruct (Ascii.eqb d sep); [by constructor|].
  destruct (Split s sep) as [|w ws]; [repeat constructor; simpl; by rewrite Hd|].
  apply Forall_cons in IH as [Hw Hws]. constructor; [|done]. simpl. by rewrite Hd, Hw.
Qed.

Lemma word_TrimSpace s : free ":" s = true -> free "," s = true -> word (TrimSpace s) = true.
Proof.
  intros H1 H2. apply word_spec. split; [|split].
  - by apply free_TrimSpace. - by apply free_TrimSpace. - apply TrimSpace_idemp.
Qed.

(** ** The printed list *)

Definition label (kv : string * string) : string := kv.1 +:+ ":" +:+ kv.2.

Lemma foldl_format acc kvs :
  foldl (fun acc '(k, v) => acc +:+ (k +:+ ":" +:+ v +:+ ",")) acc kvs
  = acc +:+ format_mappings kvs.
Proof.
  unfold format_mappings. revert acc. induction kvs as [|[k v] kvs IH]; intros acc; simpl.
  - by rewrite append_empty_r.
  - rewrite IH, (IH (k +:+ _)). by rewrite append_assoc.
Qed.

Lemma format_mappings_join kvs :
  kvs <> [] -> format_mappings kvs = Join (map label kvs) "," +:+ ",".
Proof.
  induction kvs as [|[k v] kvs IH]; [done|]. intros _.
  unfold format_mappings. cbn [foldl]. rewrite foldl_format.
  destruct kvs as [|kv kvs].
  { unfold label. simpl. by rewrite append_empty_r, append_assoc. }
  rewrite IH by done.
  change (map label ((k, v) :: kv :: kvs)) with (label (k, v) :: map label (kv :: kvs)).
  change (Join (label (k, v) :: map label (kv :: kvs)) ",")
    with (label (k, v) +:+ "," +:+ Join (map label (kv :: kvs)) ",").
  unfold label at 2. cbn [fst snd]. change ("" +:+ ?x) with x.
  by rewrite !append_assoc.
Qed.

(** The text written for one iteration order of the map. *)
Definition csv_text (kvs : list (string * string)) : string := Join (map label kvs) ",".

Lemma csv_text_written {E} kvs (s : St E) :
  kvs <> [] ->
  (format_mappings kvs == "") = false /\
  slice_to (format_mappings kvs) (String.length (format_mappings kvs) - 1) s
    = (Val (csv_text kvs), s, []).
Proof.
  intros H. rewrite format_mappings_join by done. unfold csv_text. split.
  - apply bool_decide_eq_false. by destruct (Join _ _).
  - apply (f_equal (fun m => m s) (slice_last _ _)).
Qed.

(** ** Texts and maps *)

(** [denotes t mm]: reading the text [t] gives the map [mm]. *)
Definition denotes (t : string) (mm : gmap string string) : Prop :=
  forall E (s : St E), parse_mappings t s = (Val (inl mm), s, []).

Definition insert_all (acc : gmap string string) (kvs : list (string * string)) :=
  foldl (fun m '(k, v) => <[k := v]> m) acc kvs.

Lemma insert_all_map kvs (mm : gmap string string) :
  kvs ≡ₚ map_to_list mm -> insert_all ∅ kvs = mm.
Proof.
  intros Hp.
  assert (Hnd : NoDup kvs.*1) by (rewrite Hp; apply NoDup_fst_map_to_list).
  rewrite <- (list_to_map_to_list mm). rewrite <- (list_to_map_proper kvs _ Hnd Hp).
  assert (G : forall acc, insert_all acc kvs = list_to_map kvs ∪ acc).
  { clear mm Hp. induction kvs as [|[k v] kvs IH]; intros acc; simpl; [by rewrite (left_id_L ∅ (∪))|].
    apply NoDup_cons in Hnd as [Hk Hnd]. rewrite (IH Hnd).
    apply not_elem_of_list_to_map_1 in Hk. by rewrite <- insert_union_l, insert_union_r. }
  by rewrite G, (right_id_L ∅ (∪)).
Qed.

Lemma parse_label_word {E} kv mm (s : St E) :
  word kv.1 = true -> word kv.2 = true ->
  parse_label (label kv) mm s = (Val (inl (<[kv.1 := kv.2]> mm)), s, []).
Proof.
  intros (Hk & _ & Hkt)%word_spec (Hv & _ & Hvt)%word_spec.
  unfold parse_label, label. cbn [String.append].
  rewrite Split_cons, Split_free by done.
  cbn [length Nat.eqb]. autorewrite with ovn_rw. by rewrite Hkt, Hvt.
Qed.

Lemma parse_labels {E} kvs mm (s : St E) :
  Forall (fun kv => word kv.1 = true /\ word kv.2 = true) kvs ->
  for_range parse_label (map label kvs) mm s = (Val (inl (insert_all mm kvs)), s, []).
Proof.
  revert mm. induction kvs as [|kv kvs IH]; intros mm; [done|].
  intros [[Hk Hv] H]%Forall_cons. cbn [map for_range]. unfold mbind, M_bind.
  rewrite parse_label_word by done. rewrite IH by done. by destruct kv.
Qed.

Lemma csv_text_denotes kvs (mm : gmap string string) :
  kvs ≡ₚ map_to_list mm -> mm <> ∅ -> wf_mappings mm -> denotes (csv_text kvs) mm.
Proof.
  intros Hp Hne Hwf E s.
  assert (Hall : Forall (fun kv => word kv.1 = true /\ word kv.2 = true) kvs).
  { rewrite Hp. apply Forall_forall. intros [k v] Hin%elem_of_map_to_list. by apply Hwf. }
  assert (Hnil : kvs <> []).
  { intros ->. apply Permutation_nil_l in Hp. symmetry in Hp.
    by apply map_to_list_empty_iff in Hp. }
  assert (Hlab : Forall (fun w => free "," w = true) (map label kvs)).
  { rewrite Forall_map. eapply Forall_impl; [exact Hall|]. intros kv [Hk Hv].
    apply word_spec in Hk, Hv. unfold label. simpl. rewrite !free_app.
    cbn [String.append]. unfold free at 2. simpl. destruct Hk as (_ & -> & _), Hv as (_ & Hv & _).
    exact Hv. }
  unfold parse_mappings, csv_text.
  destruct (0 <? String.length (Join (map label kvs) ","))%nat eqn:Hlen.
  - rewrite Split_Join by (done || by destruct kvs). rewrite parse_labels by done.
    by rewrite (insert_all_map kvs mm).
  - exfalso. apply Nat.ltb_ge in Hlen. destruct kvs as [|[k v] kvs]; [done|].
    assert (0 < String.length (label (k, v))).
    { unfold label. rewrite length_append. simpl. lia. }
    cbn [map] in Hlen. destruct (map label kvs); simpl in Hlen; [lia|].
    rewrite length_append in Hlen. lia.
Qed.

(** Whatever text is read, the entries of the map are words. *)
Lemma parse_label_wf {E} lab mm (s : St E) :
  free "," lab = true -> wf_mappings mm ->
  match parse_label lab mm s with
  | (Val (inl mm'), s', es) => wf_mappings mm' /\ s' = s /\ es = []
  | (Val (inr _), _, _) => False
  | (_, s', es) => s' = s /\ es = []
  end.
Proof.
  intros Hc Hmm. unfold parse_label.
  assert (H1 := Split_pieces ":" lab). assert (H2 := Split_keeps "," ":" lab Hc).
  destruct (Split lab ":") as [|k [|v ws]] eqn:Hs; [by apply Split_not_nil in Hs|done|].
  cbn -[TrimSpace insert]. split; [|done].
  rewrite !Forall_cons in H1, H2. destruct H1 as (? & ? & _), H2 as (? & ? & _).
  apply map_Forall_insert_2; [|done]. split; by apply word_TrimSpace.
Qed.

Lemma parse_labels_wf {E} ls acc mm (s : St E) :
  Forall (fun w => free "," w = true) ls -> wf_mappings acc ->
  let '(r, s', es) := for_range parse_label ls acc s in
  s' = s /\ es = [] /\ (forall ret, r <> Val (inr ret)) /\
  (r = Val (inl mm) -> wf_mappings mm).
Proof.
  revert acc s. induction ls as [|lab ls IH]; intros acc s Hls Hacc; cbn [for_range].
  - simpl. split_and!; [done..|]. by intros [= <-].
  - apply Forall_cons in Hls as [Hl Hls]. unfold mbind, M_bind.
    assert (W := parse_label_wf lab acc s Hl Hacc).
    destruct (parse_label lab acc s) as [[[[m'|ret]|w|] s'] es]; try done.
    2,3: destruct W as [-> ->]; by split_and!.
    destruct W as (W & -> & ->). specialize (IH m' s Hls W).
    by destruct (for_range _ _ _ _) as [[r s2] es2].
Qed.

(** Reading never leaves the function early, and has no effect. *)
Lemma parse_mappings_wf {E} t mm (s : St E) :
  let '(r, s', es) := parse_mappings t s in
  s' = s /\ es = [] /\ (forall ret, r <> Val (inr ret)) /\
  (r = Val (inl mm) -> wf_mappings mm).
Proof.
  unfold parse_mappings. destruct (0 <? String.length t)%nat.
  - apply parse_labels_wf; [apply Split_pieces|apply map_Forall_empty].
  - simpl. split_and!; [done..|]. intros [= <-]. apply map_Forall_empty.
Qed.

(** ** Properties *)

(** writing the mappings and reading them back gives the same map, for
    every iteration order that the runtime may choose. *)
Theorem bridge_mappings_roundtrip (mm : gmap string string) picks :
  mm <> ∅ -> wf_mappings mm ->
  denotes (csv_text (pick_order picks (map_to_list mm))) mm.
Proof. intros Hne Hwf. apply csv_text_denotes; [apply pick_order_perm|done|done]. Qed.

Lemma bridge_mappings_roundtrip_witness :
  let mm := <["nw_a" := "br-a"]> (<["nw_b" := "br-b"]> ∅) : gmap string string in
  denotes (csv_text (pick_order [1] (map_to_list mm))) mm.
Proof.
  apply bridge_mappings_roundtrip; [by apply insert_non_empty|].
  apply map_Forall_insert_2; [done|]. apply map_Forall_insert_2; [done|]. apply map_Forall_empty.
Defined.

Section update.
Context {E : Type} `{!ExecWorld E}.

Definition get_mappings_args := ["get"; "open"; "."; "external-ids:ovn-bridge-mappings"].
Definition set_mappings_args (csv : string) :=
  ["set"; "open"; "."; "external-ids:ovn-bridge-mappings=" +:+ csv].
Definition remove_mappings_args := ["remove"; "open"; "."; "external-ids"; "ovn-bridge-mappings"].

(** The map that an action leaves. *)
Definition edited (action nw br : string) (mm : gmap string string) : gmap string string :=
  if action == "add" then <[nw := br]> mm else delete nw mm.

(** The commands that follow the read: write the edited map, or remove the
    key when nothing is left. *)
Definition writes_back (p : string) (mm : gmap string string) (r : Res (option error))
    (es : list Event) : Prop :=
  (mm <> ∅ /\ exists csv o se err, denotes csv mm /\ r = Val err /\
     es = [EQuery "range"; ECmd p (vs_argv (set_mappings_args csv)) o se err]) \/
  (mm = ∅ /\ exists o se err, r = Val err /\
     es = [ECmd p (vs_argv remove_mappings_args) o se err]).

Lemma wp_map_range {V} (m : gmap string V) Q s :
  (forall picks e', Q (Val (pick_order picks (map_to_list m))) (mkSt (glob s) e') [EQuery "range"]) ->
  wp (map_range m) Q s.
Proof.
  intros H. apply wp_prim. intros a e'. destruct (map_picks _) as [p e''].
  intros [= <- <-]. split; [done|apply H].
Qed.

Lemma wp_write_back mm Q s h :
  runner (glob s) = Some h -> mm <> ∅ -> wf_mappings mm ->
  (forall r e' es, writes_back (vsctlPath h) mm r es -> Q r (mkSt (glob s) e') es) ->
  wp (write_mappings mm) Q s.
Proof.
  intros Hr Hne Hwf HQ. unfold write_mappings. wp_step. apply wp_map_range. intros picks e1. cbn [after].
  assert (Hp := pick_order_perm picks (map_to_list mm)).
  assert (Hd := csv_text_denotes _ mm Hp Hne Hwf).
  assert (Hnil : pick_order picks (map_to_list mm) <> []).
  { intros Hn. rewrite Hn in Hp. apply Permutation_nil_l in Hp. symmetry in Hp.
    by apply map_to_list_empty_iff in Hp. }
  destruct (csv_text_written (pick_order picks (map_to_list mm)) (mkSt (glob s) e1) Hnil)
    as [Hb Hsl].
  rewrite Hb. wp_step. unfold wp at 1. rewrite Hsl. split; [done|]. cbn [after compress].
  wp_step. eapply wp_RunOVSVsctl; [done|]. intros. wp_steps. apply HQ. left.
  split; [done|]. by repeat eexists.
Qed.

Lemma edited_wf action nw br mm :
  word br = true -> word nw = true -> wf_mappings mm -> wf_mappings (edited action nw br mm).
Proof.
  intros. unfold edited. case_match; [by apply map_Forall_insert_2|by apply map_Forall_delete].
Qed.

(** The tail of [updateOvnBridgeMapping] once the current map is known. *)
Lemma wp_edit brName nwName action mm (s : St E) h :
  runner (glob s) = Some h -> action = "add" \/ action = "delete" ->
  word brName = true -> word nwName = true -> wf_mappings mm ->
  wp (edit_mappings brName nwName action mm) (fun r s' es =>
    glob s' = glob s /\ writes_back (vsctlPath h) (edited action nwName brName mm) r es) s.
Proof.
  intros Hr Hact Hbr Hnw Hwf. unfold edit_mappings.
  assert (He := edited_wf action nwName brName mm Hbr Hnw Hwf). revert He.
  destruct Hact as [-> | ->]; unfold edited; simpl; intros He.
  - wp_steps. eapply wp_write_back; [done|apply insert_non_empty|done|]. by intros.
  - destruct (size (delete nwName mm) =? 0)%nat eqn:Hsz.
    + apply Nat.eqb_eq, map_size_empty_iff in Hsz. wp_steps.
      eapply wp_RunOVSVsctl; [done|]. intros. wp_steps. split; [done|]. right.
      split; [done|]. by repeat eexists.
    + apply Nat.eqb_neq in Hsz. wp_steps. eapply wp_write_back; [done| |done|by intros].
      intros Hn. by rewrite Hn in Hsz.
Qed.

(** One read of the key; when it succeeds or says that the key is missing,
    the edited map is written back. *)
Definition update_post (h : execHelper) (brName nwName action : string) (s : St E)
    (r : Res (option error)) (s' : St E) (es : list Event) : Prop :=
  glob s' = glob s /\
  exists o se err es',
    es = ECmd (vsctlPath h) (vs_argv get_mappings_args) o se err :: es' /\
    forall mm, err = None \/ Contains se "no key" = true -> denotes (nb_out o) mm ->
      writes_back (vsctlPath h) (edited action nwName brName mm) r es'.

(** C15: with a readable current value, adding or deleting a network leaves
    exactly the edited map in OVS: the text written denotes the old map with
    the network bound to its bridge, or without the network, and the key is
    removed when no network is left.  Nothing else is run. *)
Theorem updateOvnBridgeMapping_spec brName nwName action (s : St E) h :
  runner (glob s) = Some h -> action = "add" \/ action = "delete" ->
  word brName = true -> word nwName = true ->
  wp (updateOvnBridgeMapping brName nwName action) (update_post h brName nwName action s) s.
Proof.
  intros Hr Hact Hbr Hnw. unfold updateOvnBridgeMapping. wp_step.
  eapply wp_RunOVSVsctl; [done|]. intros o se err e1. cbn [after].
  destruct (bool_decide (err <> None) && negb (Contains se "no key")) eqn:Herr.
  { wp_steps. split; [done|]. exists o, se, err, []. split; [done|]. intros mm He _. exfalso.
    apply andb_true_iff in Herr as [H1 H2]. apply bool_decide_eq_true in H1.
    apply negb_true_iff in H2. destruct He; congruence. }
  apply (wp_mono _ (fun r s' es => glob s' = glob s /\
    forall mm, denotes (nb_out o) mm ->
      writes_back (vsctlPath h) (edited action nwName brName mm) r es)).
  { intros r s' es [Hg H]. split; [done|]. exists o, se, err, es.
    split; [done|]. intros mm _. apply H. }
  wp_step. unfold wp at 1.
  destruct (parse_mappings (nb_out o) (mkSt (glob s) e1)) as [[r1 s1] es1] eqn:Hp.
  assert (Hpar := fun mm => parse_mappings_wf (nb_out o) mm (mkSt (glob s) e1)).
  rewrite Hp in Hpar. destruct (Hpar ∅) as (-> & -> & Hret & _).
  assert (Hden : forall mm, denotes (nb_out o) mm -> r1 = Val (inl mm)).
  { intros mm Hd. specialize (Hd E (mkSt (glob s) e1)). congruence. }
  split; [done|]. cbn [after compress].
  destruct r1 as [[mm|ret]|w|]; [|by destruct (Hret ret)|..]; cycle 1.
  1,2: split; [done|]; intros mm Hmm; by apply Hden in Hmm.
  destruct (Hpar mm) as (_ & _ & _ & Hwf). specialize (Hwf eq_refl).
  apply (wp_mono _ (fun r s' es => glob s' = glob s /\
    writes_back (vsctlPath h) (edited action nwName brName mm) r es)).
  { intros r s' es [Hg H]. split; [done|]. intros mm' Hmm'.
    apply Hden in Hmm' as [= <-]. exact H. }
  exact (wp_edit brName nwName action mm (mkSt (glob s) e1) h Hr Hact Hbr Hnw Hwf).
Qed.
End update.

(** An OVS that holds one mapping, and one that holds a value without colon. *)
Definition mapping_world (csv : string) : ExecWorld Z := reply_world (fun args =>
  if bool_decide (args = vs_argv get_mappings_args)
  then (dq +:+ csv +:+ dq +:+ String newline "", "", None) else ("", "", None)).

Definition ran (r : Res (option error) * St Z * list Event) : Res (option error) * list (list string) :=
  (r.1.1, map snd (cmds r.2)).

Lemma updateOvnBridgeMapping_spec_witness :
  let s := mkSt demo_globals 0%Z in
  let upd := @updateOvnBridgeMapping Z (mapping_world "nw_a:br-a") in
  wp (upd "br-b" "nw_b" "add") (update_post demo_helper "br-b" "nw_b" "add" s) s /\
  wp (upd "br-a" "nw_a" "delete") (update_post demo_helper "br-a" "nw_a" "delete" s) s /\
  ran (upd "br-b" "nw_b" "add" s)
    = (Val None, [vs_argv get_mappings_args; vs_argv (set_mappings_args "nw_a:br-a,nw_b:br-b")]) /\
  ran (upd "br-a" "nw_a" "delete" s)
    = (Val None, [vs_argv get_mappings_args; vs_argv remove_mappings_args]).
Proof.
  split; [|split; [|split; vm_compute; reflexivity]].
  - apply updateOvnBridgeMapping_spec; [reflexivity|by left|reflexivity|reflexivity].
  - apply updateOvnBridgeMapping_spec; [reflexivity|by right|reflexivity|reflexivity].
Defined.

Section panics.
Context {E : Type} `{!ExecWorld E}.

Lemma parse_labels_no_colon labs1 lab labs2 mm (s : St E) :
  free ":" lab = true ->
  exists w, for_range parse_label (labs1 ++ lab :: labs2) mm s = (Panic w, s, []).
Proof.
  intros Hl. revert mm. induction labs1 as [|l1 labs1 IH]; intros mm; cbn [app for_range].
  - unfold mbind, M_bind, parse_label. rewrite Split_free by done. by eexists.
  - unfold mbind at 1, M_bind at 1, parse_label at 1.
    destruct (Split l1 ":") as [|k [|v ws]] eqn:Hs; [by apply Split_not_nil in Hs|by eexists|].
    cbn [length Nat.eqb]. autorewrite with ovn_rw.
    destruct (IH (<[TrimSpace k := TrimSpace v]> mm)) as [w Hw]. exists w.
    cbn -[for_range]. by rewrite Hw.
Qed.

(** a stored value with a label that has no colon makes the update panic:
    the length check before the indexing is never true, since splitting a
    text never gives an empty list.  No write is run. *)
Theorem updateOvnBridgeMapping_no_colon brName nwName action (s : St E) h o se e1 labs1 lab labs2 :
  runner (glob s) = Some h ->
  run_cmd (vsctlPath h) (vs_argv get_mappings_args) (env s) = ((o, se, None), e1) ->
  nb_out o <> "" -> Split (nb_out o) "," = labs1 ++ lab :: labs2 ->
  free ":" lab = true ->
  exists w, updateOvnBridgeMapping brName nwName action s =
    (Panic w, mkSt (glob s) e1, [ECmd (vsctlPath h) (vs_argv get_mappings_args) o se None]).
Proof.
  intros Hr Ho Hne Hs Hl. unfold updateOvnBridgeMapping.
  unfold mbind at 1, M_bind at 1. fold get_mappings_args.
  rewrite (RunOVSVsctl_eq _ _ _ Hr), Ho. cbn [bool_decide andb].
  rewrite bool_decide_eq_false_2 by (intros H; by apply H). cbn [andb].
  unfold parse_mappings.
  rewrite (proj2 (Nat.ltb_lt 0 _)) by (destruct (nb_out o); [done|simpl; lia]).
  rewrite Hs. destruct (parse_labels_no_colon labs1 lab labs2 ∅ (mkSt (glob s) e1) Hl) as [w Hw].
  exists w. unfold mbind, M_bind. by rewrite Hw.
Qed.
End panics.

Lemma updateOvnBridgeMapping_no_colon_witness :
  exists w, @updateOvnBridgeMapping Z (mapping_world "a:b,physnet") "br-b" "nw_b" "add"
      (mkSt demo_globals 0%Z) =
    (Panic w, mkSt demo_globals 0%Z,
     [ECmd "vsctl" (vs_argv get_mappings_args) (dq +:+ "a:b,physnet" +:+ dq +:+ String newline "") "" None]).
Proof.
  apply (@updateOvnBridgeMapping_no_colon Z (mapping_world "a:b,physnet")) with
    (s := mkSt demo_globals 0%Z) (h := demo_helper) (labs1 := ["a:b"]) (lab := "physnet") (labs2 := []);
    vm_compute; (reflexivity || discriminate).
Defined.
