(* ===== verification/OvnController.v ===== *)
(** * OvnController: logical switches and ports (internal/pkg/ovn/ovn.go),
    the start of the controller (SetupOvnUtils of utils.go) and
    internal/pkg/node/node.go

    The [Controller] object is the one that [NewOvnController] stores in the
    package variable [ovnCtl]; its methods read and write it there.
    [mapstructure.Decode] is the parameter [Decode]: it returns the updated
    structure, since it writes the fields it finds into the one it is given. *)

From S2P Require Import Prelude.
From S2P Require Import GoStrings.
From S2P Require Import GoNet.
From S2P Require Import Addressing.
From S2P Require Import Types.
From S2P Require Import World.
From S2P Require Import Sha1.
From S2P Require Import Runner.
From S2P Require Import OvnCommon.
From Stdlib Require Import Ascii.

#[local] Open Scope string_scope.
#[local] Open Scope list_scope.

Definition ovn4nfvRouterName := "ovn4nfv-master".
Definition Ovn4nfvAnnotationTag := "k8s.plugin.opnfv.org/ovnInterfaces".
Definition Ovn4nfvDefaultNw := "ovn4nfvk8s-default-nw".

Record netInterface := mkNetInterface {
  ni_Name : string; Interface : string; NetType : string; DefaultGateway : string;
  IPAddress : string; MacAddress : string; GWIPaddress : string
}.
Definition zeroNetInterface : netInterface := mkNetInterface "" "" "" "" "" "" "".
Definition set_DefaultGateway (g : string) (ns : netInterface) : netInterface :=
  mkNetInterface (ni_Name ns) (Interface ns) (NetType ns) g (IPAddress ns) (MacAddress ns) (GWIPaddress ns).
Definition set_Interface (i : string) (ns : netInterface) : netInterface :=
  mkNetInterface (ni_Name ns) i (NetType ns) (DefaultGateway ns) (IPAddress ns) (MacAddress ns) (GWIPaddress ns).

(** A backslash and a double quote, as the annotation text has them. *)
Definition bq : string := String "\" dq.

Section controller.
Context {E : Type} `{!ExecWorld E}.

(** ** Start *)

Definition GetOvnNetConf : M E (option error) :=
  mod_glob (set_ovnConf (Some (Build_OVNNetworkConf "" "" "")));;
  subnet ← Getenv "OVN_SUBNET";
  mod_glob (set_ovnConf (Some (Build_OVNNetworkConf subnet "" "")));;
  if subnet == "" then mret (Errorf "OVN subnet is not set in nfn-operator configmap env") else
  gw ← Getenv "OVN_GATEWAYIP";
  mod_glob (set_ovnConf (Some (Build_OVNNetworkConf subnet gw "")));;
  excl ← Getenv "OVN_EXCLUDEIPS";
  mod_glob (set_ovnConf (Some (Build_OVNNetworkConf subnet gw excl)));;
  mret None.

Definition SetupOvnUtils : M E (option error) :=
  err ← setupDistributedRouter ovn4nfvRouterName;
  match err with Some e => mret (Some e) | None =>
  g ← get_glob;
  conf ← deref (ovnConf g);
  '(_, err) ← createOvnLS Ovn4nfvDefaultNw (conf_Subnet conf) (conf_GatewayIP conf) (conf_ExcludeIPs conf);
  match err with
  | Some e => if negb (DeepEqualErrorf e "LS exists") then mret (Some e) else mret None
  | None => mret None
  end end.

(** The controller returned with a nil error is the new [ovnCtl]. *)
Definition NewOvnController : M E (option error) :=
  err ← SetExec;
  match err with Some e => mret (Some e) | None =>
  err ← GetOvnNetConf;
  match err with Some e => mret (Some e) | None =>
  err ← SetupOvnUtils;
  match err with Some e => mret (Some e) | None =>
  mod_glob (set_ovnCtl (Some (Build_Controller ∅)));;
  mret None
  end end end.

Definition GetOvnController : M E (option error) :=
  g ← get_glob;
  match ovnCtl g with
  | Some _ => mret None
  | None => mret (Errorf "OVN Controller not initialized")
  end.

(** ** Networks *)

Definition CreateNetwork (cr : Network) : M E (option error) :=
  let name := Name (nw_meta cr) in
  sub ← index (nw_Ipv4Subnets (nw_Spec cr)) 0;
  '(gatewayIPMask, err) ← createOvnLS name (Subnet sub) (Gateway sub) (ExcludeIps sub);
  match err with Some e => mret (Some e) | None =>
  '(routerMac, _, err) ← RunOVNNbctl ["--if-exist"; "get"; "logical_router_port"; "rtos-" +:+ name; "mac"];
  match err with Some e => mret (Some e) | None =>
  routerMac ← (if routerMac == "" then generateMac else mret routerMac);
  '(_, _, err) ← RunOVNNbctl ["--wait=hv"; "--may-exist"; "lrp-add"; ovn4nfvRouterName;
                              "rtos-" +:+ name; routerMac; gatewayIPMask];
  match err with Some e => mret (Some e) | None =>
  '(_, _, err) ← RunOVNNbctl ["--wait=hv"; "--"; "--may-exist"; "lsp-add"; name; "stor-" +:+ name;
    "--"; "set"; "logical_switch_port"; "stor-" +:+ name; "type=router";
    "options:router-port=rtos-" +:+ name; "addresses=" +:+ dq +:+ routerMac +:+ dq];
  mret err
  end end end.

Definition DeleteNetwork (cr : Network) : M E (option error) :=
  let name := Name (nw_meta cr) in
  '(_, _, err) ← RunOVNNbctl ["--if-exist"; "--wait=hv"; "lrp-del"; "rtos-" +:+ name];
  match err with Some e => mret (Some e) | None =>
  '(_, _, err) ← RunOVNNbctl ["--if-exist"; "--wait=hv"; "ls-del"; name];
  mret err
  end.

Definition CreateProviderNetwork (cr : ProviderNetwork) : M E (option error) :=
  let name := Name (pn_meta cr) in
  sub ← index (pn_Ipv4Subnets (pn_Spec cr)) 0;
  '(_, err) ← createOvnLS name (Subnet sub) (Gateway sub) (ExcludeIps sub);
  match err with Some e => mret (Some e) | None =>
  '(_, _, err) ← RunOVNNbctl ["--wait=hv"; "--"; "--may-exist"; "lsp-add"; name; "server-localnet_" +:+ name; "--";
    "lsp-set-addresses"; "server-localnet_" +:+ name; "unknown"; "--";
    "lsp-set-type"; "server-localnet_" +:+ name; "localnet"; "--";
    "lsp-set-options"; "server-localnet_" +:+ name; "network_name=nw_" +:+ name];
  mret err
  end.

Definition DeleteProviderNetwork (cr : ProviderNetwork) : M E (option error) :=
  '(_, _, err) ← RunOVNNbctl ["--if-exist"; "--wait=hv"; "ls-del"; Name (pn_meta cr)];
  mret err.

Definition FindLogicalSwitch (name : string) : M E bool :=
  '(output, _, err) ← RunOVNNbctl (find_switch_args name);
  if bool_decide (err <> None) then mret false else mret (name == output).

(** ** The gateway of a switch *)

Definition cache_gateway (sw v : string) (oc : Controller) (g : Globals) : Globals :=
  set_ovnCtl (Some (Build_Controller (<[sw := v]> (gatewayCache oc)))) g.

Definition gateway_args (sw : string) : list string :=
  ["--if-exists"; "get"; "logical_switch"; sw; "external_ids:gateway_ip"].

(** The text of external id gateway_ip, from the cache or from OVN. *)
Definition gateway_text (sw : string) : M E (string + option error) :=
  g ← get_glob;
  oc ← deref (ovnCtl g);
  match gatewayCache oc !! sw with
  | Some v => mret (inl v)
  | None =>
      '(v, _, err) ← RunOVNNbctl (gateway_args sw);
      match err with Some e => mret (inr (Some e)) | None =>
      if v == "" then mret (inr (Errorf ("Empty gateway IP in logical switch " +:+ sw))) else
      mod_glob (cache_gateway sw v oc);;
      mret (inl v)
      end
  end.

Definition getGatewayFromSwitch (sw : string) : M E (string * string * option error) :=
  r ← gateway_text sw;
  match r with
  | inr err => mret ("", "", err)
  | inl v =>
      let gatewayIPMask := Split v "/" in
      if negb (length gatewayIPMask =? 2)%nat then
        mret ("", "", Errorf ("Failed to get IP and Mask from gateway CIDR:  " +:+ v))
      else
      gatewayIP ← index gatewayIPMask 0;
      mask ← index gatewayIPMask 1;
      mret (gatewayIP, mask, None)
  end.

(** ** Addresses of a port *)

(** The polling loop that three functions share, [count] rounds left:
    [inl out] leaves the loop with an answer, [inr err] is what the caller
    returns (with a nil error when the rounds are spent). *)
Fixpoint poll_addresses (count : nat) (args : list string) : M E (string + option error) :=
  match count with
  | O => mret (inr None)
  | S n =>
      '(out, _, err) ← RunOVNNbctl args;
      match err with
      | Some e => mret (inr (Some e))
      | None => if out == "[]" then Sleep 1;; poll_addresses n args else mret (inl out)
      end
  end.

Definition port_args (portName column : string) : list string :=
  ["get"; "logical_switch_port"; portName; column].

(** A static address is a bracketed quoted text, a dynamic one a quoted text;
    inside are the MAC and the IP address. *)
Definition split_addresses (out : string) : list string :=
  Split (Trim (TrimRight (TrimLeft out "[") "]") quote) " ".

Definition addNodeLogicalPortWithSwitch (logicalSwitch portName : string)
  : M E (string * string * option error) :=
  '(_, _, err) ← RunOVNNbctl ["--wait=sb"; "--"; "--may-exist"; "lsp-add"; logicalSwitch; portName;
                              "--"; "lsp-set-addresses"; portName; "dynamic"];
  match err with Some e => mret ("", "", Some e) | None =>
  r ← poll_addresses 30 (port_args portName "dynamic_addresses");
  match r with inr err => mret ("", "", err) | inl out =>
  let addresses := split_addresses out in
  if negb (length addresses =? 2)%nat then mret ("", "", None) else
  '(_, mask, err) ← getGatewayFromSwitch logicalSwitch;
  match err with Some e => mret ("", "", Some e) | None =>
  mac ← index addresses 0;
  ip ← index addresses 1;
  mret (ip +:+ "/" +:+ mask, mac, None)
  end end end.

Definition AddNodeLogicalPorts (node : string) : M E (string * string * option error) :=
  let portName := GetNodeIntfName (ToLower node) in
  '(ipAddr, macAddr, err) ← addNodeLogicalPortWithSwitch Ovn4nfvDefaultNw portName;
  match err with Some e => mret ("", "", Some e) | None => mret (ipAddr, macAddr, None) end.

(** internal/pkg/node/node.go *)
Definition node_AddNodeLogicalPorts (node : string) : M E (string * string * option error) :=
  err ← GetOvnController;
  match err with Some e => mret ("", "", Some e) | None =>
  '(a, b, err) ← AddNodeLogicalPorts node;
  match err with Some e => mret ("", "", Some e) | None => mret (a, b, None) end
  end.

Definition getNodeLogicalPortIPAddr (pod : Pod) : M E (string * option error) :=
  let portName := GetNodeIntfName (ToLower (NodeName pod)) in
  r ← poll_addresses 30 (port_args portName "dynamic_addresses");
  match r with inr err => mret ("", err) | inl out =>
  let addresses := split_addresses out in
  if negb (length addresses =? 2)%nat then mret ("", None) else
  ip ← index addresses 1;
  mret (ip, None)
  end.

(** ** Ports of a pod *)

Definition pod_port_ids (pod : Pod) (logicalSwitch : string) : list string :=
  ["external-ids:namespace=" +:+ pod_Namespace pod;
   "external-ids:logical_switch=" +:+ logicalSwitch;
   "external-ids:pod=true"].

Definition static_port_args (pod : Pod) (logicalSwitch portName macAddress ipAddress : string) :=
  ["--may-exist"; "lsp-add"; logicalSwitch; portName; "--"; "lsp-set-addresses"; portName;
   macAddress +:+ " " +:+ ipAddress; "--"; "--if-exists"; "clear"; "logical_switch_port"; portName;
   "dynamic_addresses"; "--"; "set"; "logical_switch_port"; portName] ++ pod_port_ids pod logicalSwitch.

Definition dynamic_port_args (pod : Pod) (logicalSwitch portName : string) :=
  ["--wait=sb"; "--"; "--may-exist"; "lsp-add"; logicalSwitch; portName; "--"; "lsp-set-addresses";
   portName; "dynamic"; "--"; "set"; "logical_switch_port"; portName] ++ pod_port_ids pod logicalSwitch.

Definition port_annotation (ip mask mac gatewayIP : string) : string :=
  "{" +:+ bq +:+ "ip_address" +:+ bq +:+ ":" +:+ bq +:+ ip +:+ "/" +:+ mask +:+ bq +:+ ", "
  +:+ bq +:+ "mac_address" +:+ bq +:+ ":" +:+ bq +:+ mac +:+ bq +:+ ", "
  +:+ bq +:+ "gateway_ip" +:+ bq +:+ ": " +:+ bq +:+ gatewayIP +:+ bq +:+ "}".

Definition addLogicalPortWithSwitch
    (pod : Pod) (logicalSwitch ipAddress macAddress gwipAddress portName : string) : M E string :=
  if HostNetwork pod then mret "" else
  let isStaticIP := negb (ipAddress == "") in
  macAddress ← (if negb (ipAddress == "") && (macAddress == "") then generateMac
                else mret macAddress);
  '(_, _, err) ← RunOVNNbctl
    (if isStaticIP then static_port_args pod logicalSwitch portName macAddress ipAddress
     else dynamic_port_args pod logicalSwitch portName);
  match err with Some _ => mret "" | None =>
  r ← poll_addresses 30 (port_args portName (if isStaticIP then "addresses" else "dynamic_addresses"));
  match r with inr _ => mret "" | inl out =>
  let addresses := split_addresses out in
  if negb (length addresses =? 2)%nat then mret "" else
  '(_, mask, err) ← getGatewayFromSwitch logicalSwitch;
  match err with Some _ => mret "" | None =>
  '(gatewayIP, err) ← (if negb (gwipAddress == "") then mret (gwipAddress, None)
                       else getNodeLogicalPortIPAddr pod);
  match err with Some _ => mret "" | None =>
  ip ← index addresses 1;
  mac ← index addresses 0;
  mret (port_annotation ip mask mac gatewayIP)
  end end end end.

Section add.
(** [mapstructure.Decode(net, &ns)]. *)
Variable Decode : Json -> netInterface -> netInterface * option error.

Definition with_gateway (g : string) : string :=
  "," +:+ bq +:+ "defaultGateway" +:+ bq +:+ ":" +:+ bq +:+ g +:+ bq.
Definition with_interface (i : string) : string :=
  "," +:+ bq +:+ "interface" +:+ bq +:+ ":" +:+ bq +:+ i +:+ bq +:+ "}".

(** One round of the loop of [AddLogicalPorts] over the interfaces: the
    variables are [ns], [defaultInterface] and [ovnString]. *)
Definition add_port (pod : Pod) (net : Json) (v : netInterface * bool * string)
  : M E ((netInterface * bool * string) + (string * string)) :=
  let '(ns, defaultInterface, ovnString) := v in
  let '(ns, err) := Decode net ns in
  if bool_decide (err <> None) then mret (inr ("", "")) else
  found ← FindLogicalSwitch (ni_Name ns);
  if negb found then mret (inr ("", "")) else
  let defaultInterface := if ni_Name ns == Ovn4nfvDefaultNw then true else defaultInterface in
  if (Interface ns == "") && negb (ni_Name ns == Ovn4nfvDefaultNw) then mret (inr ("", "")) else
  let ns := if DefaultGateway ns == "" then set_DefaultGateway "false" ns else ns in
  let portName := if negb (Interface ns == "")
                  then pod_Namespace pod +:+ "_" +:+ pod_Name pod +:+ "_" +:+ Interface ns
                  else pod_Namespace pod +:+ "_" +:+ pod_Name pod in
  let ns := if negb (Interface ns == "") then ns else set_Interface "*" ns in
  outStr ← addLogicalPortWithSwitch pod (ni_Name ns) (IPAddress ns) (MacAddress ns)
             (GWIPaddress ns) portName;
  if outStr == "" then mret (inr ("", "")) else
  tmpString ← slice_to outStr (String.length outStr - 1);
  mret (inl (ns, defaultInterface,
    ovnString +:+ (tmpString +:+ with_gateway (DefaultGateway ns)
                   +:+ with_interface (Interface ns)) +:+ ",")).

(** The interface on the default network, unless one was given. *)
Definition add_default_port (pod : Pod) (defaultInterface : bool) (ovnString : string)
  : M E (string + (string * string)) :=
  if defaultInterface then mret (inl ovnString) else
  outStr ← addLogicalPortWithSwitch pod Ovn4nfvDefaultNw "" "" ""
             (pod_Namespace pod +:+ "_" +:+ pod_Name pod);
  if outStr == "" then mret (inr ("", "")) else
  tmpString ← slice_to outStr (String.length outStr - 1);
  mret (inl (ovnString +:+ (tmpString +:+ with_interface "*") +:+ ",")).

Definition AddLogicalPorts (pod : Pod) (ovnNetObjs : list Json) : M E (string * string) :=
  if HostNetwork pod then mret ("", "") else
  if bool_decide (is_Some (Annotations pod !! Ovn4nfvAnnotationTag)) then mret ("", "") else
  r ← for_range (add_port pod) ovnNetObjs (zeroNetInterface, false, "[");
  match r with inr ret => mret ret | inl (_, defaultInterface, ovnString) =>
  r ← add_default_port pod defaultInterface ovnString;
  match r with inr ret => mret ret | inl ovnString =>
  ovnString ← slice_to ovnString (String.length ovnString - 1);
  mret (Ovn4nfvAnnotationTag, ovnString +:+ "]")
  end end.
End add.

(** One round of the loop of [DeleteLogicalPorts]. *)
Definition delete_port (logicalPort existingPort : string) (_ : ()) : M E (() + ()) :=
  if Contains existingPort logicalPort then
    RunOVNNbctl ["--if-exists"; "lsp-del"; existingPort];;
    mret (inl ())
  else mret (inl ()).

Definition pod_ports_args : list string :=
  ["--data=bare"; "--no-heading"; "--columns=name"; "find"; "logical_switch_port";
   "external_ids:pod=true"].

Definition DeleteLogicalPorts (name namespace : string) : M E () :=
  let logicalPort := namespace +:+ "_" +:+ name in
  '(stdout, _, err) ← RunOVNNbctl pod_ports_args;
  match err with Some _ => mret () | None =>
  for_range (delete_port logicalPort) (Fields stdout) ();;
  mret ()
  end.
End controller.
