(* ===== verification/HelperLinux.v ===== *)
(** * HelperLinux: interfaces of the node and of containers
    (cmd/ovn4nfvk8s-cni/app/helper_linux.go), and the parts of
    internal/pkg/utils/chain.go that run on the node

    The kernel and the container runtime, through the netlink, ns, ip, os/exec
    and docker libraries, are the environment ([NodeWorld]).  A link is its
    name; [None] is a nil link. *)

From S2P Require Import Prelude.
From S2P Require Import GoStrings.
From S2P Require Import GoNet.
From S2P Require Import Types.
From S2P Require Import World.
From S2P Require Import Sha1.
From S2P Require Import Runner.
From S2P Require Import Traces.
From S2P Require Import OvnCommon.
From S2P Require Import OvnController.
From S2P Require Import IpTables.
From S2P Require Import Iface.
From Stdlib Require Import Ascii.

#[local] Open Scope string_scope.
#[local] Open Scope list_scope.

(** What [ip.SetupVeth] returns: host end's name and address, container end. *)
Record Veth := { hostVeth_Name : string; hostVeth_Mac : list Z; containerVeth_Name : string }.

Class NodeWorld (E : Type) := {
  combined_output : string -> list string -> E -> (string * option error) * E; (* os/exec *)
  netlink_op : string -> list string -> E -> option error * E;  (* netlink, ip: an operation *)
  parse_addr : string -> option error;                           (* netlink.ParseAddr *)
  get_ns : string -> E -> option error * E;                      (* ns.GetNS *)
  enter_ns : string -> E -> option error * E;                    (* ns.Do: the way in *)
  leave_ns : string -> E -> E;                                   (* ns.Do: the way back *)
  setup_veth : string -> Z -> E -> (Veth * option error) * E;    (* ip.SetupVeth *)
  docker_client : E -> option error * E;                         (* client.NewEnvClient *)
  docker_inspect : string -> E -> (Z * option error) * E         (* ContainerInspect: State.Pid *)
}.

(** [current.Interface] of the CNI types. *)
Record NetIface := { if_Name : string; if_Mac : string; if_Sandbox : string }.

Definition MacError (s : string) : error :=
  OtherError "*net.AddrError" ("address " +:+ s +:+ ": invalid MAC address").

Section helper.
Context {E : Type} `{!ExecWorld E, !LinkWorld E, !IPTWorld E, !RouteWorld E, !NodeWorld E}.

Definition Netlink (op : string) (args : list string) : M E (option error) :=
  prim (netlink_op op args) (fun err => ENetlink op args err).
Definition CombinedOutput (cmd : string) (args : list string) : M E (string * option error) :=
  prim (combined_output cmd args) (fun '(out, err) => ECmd cmd args out "" err).
Definition GetNS (path : string) : M E (option error) :=
  prim (get_ns path) (fun _ => EQuery "GetNS").

(** [netns.Do(f)]. *)
Definition Do {A} (path : string) (f : M E (A + error)) : M E (A + error) :=
  err ← prim (enter_ns path) (fun _ => ENetns path true);
  match err with Some e => mret (inr e) | None =>
  r ← f;
  prim (fun e => ((), leave_ns path e)) (fun _ => ENetns path false);;
  mret r
  end.

Definition renameLink (curName newName : string) : M E (option error) :=
  err ← LinkByName curName;
  match err with Some e => mret (Some e) | None =>
  err ← Netlink "LinkSetDown" [curName];
  match err with Some e => mret (Some e) | None =>
  err ← Netlink "LinkSetName" [curName; newName];
  match err with Some e => mret (Some e) | None =>
  err ← Netlink "LinkSetUp" [curName];
  match err with Some e => mret (Some e) | None => mret None end
  end end end.

(** ** The node's internal port *)

Definition escape_mac (hw : list Z) : string :=
  ReplaceAll (HardwareAddr_String hw) ":" (String "\" ":").

Definition internal_port_args (intf : string) (hw : list Z) : list string :=
  ["add-port"; "br-int"; intf; "--"; "set"; "interface"; intf; "type=internal";
   "mac_in_use=" +:+ escape_mac hw; "mac=" +:+ escape_mac hw; "external_ids:iface-id=" +:+ intf].

Definition CreateNodeOVSInternalPort (nodeintfipaddr nodeintfmacaddr node : string) : M E (option error) :=
  let intf := GetNodeIntfName (ToLower node) in
  match ParseMAC nodeintfmacaddr with
  | None => mret (Errorf ("Error is converting " +:+ Quote intf +:+ " to net hwaddr: "
                          +:+ Error (MacError nodeintfmacaddr)))
  | Some hwAddr =>
  '(out, err) ← CombinedOutput "ovs-vsctl" (internal_port_args intf hwAddr);
  match err with
  | Some e => mret (Errorf ("failure in creating Node OVS internal port - " +:+ intf +:+ ": "
                            +:+ Error e +:+ " - " +:+ Quote out))
  | None =>
  err ← LinkByName intf;
  match err with
  | Some e => mret (Errorf ("failed to get netlink for Node OVS internal port " +:+ intf +:+ ": " +:+ Error e))
  | None =>
  err ← Netlink "LinkSetUp" [intf];
  match err with
  | Some e => mret (Errorf ("failed to set up netlink for Node OVS internal port " +:+ intf +:+ ": " +:+ Error e))
  | None =>
  match parse_addr nodeintfipaddr with
  | Some e => mret (Errorf ("failed to parse IP addr " +:+ nodeintfipaddr +:+ ": " +:+ Error e))
  | None =>
  err ← Netlink "AddrAdd" [intf; nodeintfipaddr];
  match err with
  | Some e => mret (Errorf ("failed to add IP addr " +:+ nodeintfipaddr +:+ " to " +:+ intf +:+ ": " +:+ Error e))
  | None =>
  err ← SetupAndEnsureIPTables (MasqRules intf);
  match err with
  | Some e => mret (Errorf ("failed to apply snat rule for " +:+ intf +:+ ": " +:+ Error e))
  | None => mret None
  end end end end end end end.

(** ** A container's interface *)

Definition route_exists (stderr : string) : bool := Contains stderr "RTNETLINK answers: File exists".

(** The last step inside the container's namespace: the route to the host. *)
Definition host_route (hostNet gatewayIP : string) (veth : Veth) (contIface : NetIface)
  : M E ((Veth * NetIface) + error) :=
  '(stdout, stderr, err) ← RunIP ["route"; "add"; hostNet; "via"; gatewayIP];
  match err with
  | Some e => if negb (route_exists stderr)
              then mret (inr (ErrorString ("Failed to ip route add stout " +:+ stdout +:+ ", stderr "
                                           +:+ stderr +:+ ", err " +:+ Error e)))
              else mret (inl (veth, contIface))
  | None => mret (inl (veth, contIface))
  end.

(** The function that runs inside the container's namespace. *)
Definition setup_in_ns (netns ifName macAddress ipAddress gatewayIP defaultGateway hostNet : string)
    (mtu : Z) (isDefaultGW : bool) : M E ((Veth * NetIface) + error) :=
  '(veth, err) ← prim (setup_veth ifName mtu) (fun '(_, err) => ENetlink "SetupVeth" [ifName] err);
  match err with
  | Some e => mret (inr (ErrorString ("failed to setup veth " +:+ ifName +:+ ": " +:+ Error e)))
  | None =>
  let name := containerVeth_Name veth in
  err ← LinkByName name;
  match err with
  | Some e => mret (inr (ErrorString ("failed to lookup " +:+ name +:+ ": " +:+ Error e)))
  | None =>
  match ParseMAC macAddress with
  | None => mret (inr (ErrorString ("failed to parse mac address for " +:+ name +:+ ": "
                                    +:+ Error (MacError macAddress))))
  | Some hwAddr =>
  err ← Netlink "LinkSetHardwareAddr" [name; HardwareAddr_String hwAddr];
  match err with
  | Some e => mret (inr (ErrorString ("failed to add mac address " +:+ macAddress +:+ " to " +:+ name
                                      +:+ ": " +:+ Error e)))
  | None =>
  let contIface := {| if_Name := name; if_Mac := macAddress; if_Sandbox := netns |} in
  match parse_addr ipAddress with
  | Some e => mret (inr e)
  | None =>
  err ← Netlink "AddrAdd" [name; ipAddress];
  match err with
  | Some e => mret (inr (ErrorString ("failed to add IP addr " +:+ ipAddress +:+ " to " +:+ name
                                      +:+ ": " +:+ Error e)))
  | None =>
  r ← (if defaultGateway == "true" then
         match ParseIP gatewayIP with
         | None => mret (Some (ErrorString "parse ip of gateway failed"))
         | Some gw => Netlink "AddRoute" ["default"; IP_String gw; name]
         end
       else mret None);
  match r with Some e => mret (inr e) | None =>
  if (defaultGateway == "false") && isDefaultGW && (ifName == "eth0")
  then host_route hostNet gatewayIP veth contIface
  else mret (inl (veth, contIface))
  end end end end end end end.

Definition itoa := fmt_d.

Definition setupInterface (netns containerID ifName macAddress ipAddress gatewayIP defaultGateway : string)
    (idx mtu : Z) (isDefaultGW : bool) : M E (option (NetIface * NetIface) * option error) :=
  hostNet ← (if (defaultGateway == "false") && isDefaultGW && (ifName == "eth0") then
               '(n, err) ← GetHostNetwork;
               match err with
               | Some e => mret (inr (ErrorString ("failed to get host network: " +:+ Error e)))
               | None => mret (inl n)
               end
             else mret (inl "")) : M E (string + error);
  match hostNet with inr e => mret (None, Some e) | inl hostNet =>
  r ← Do netns (setup_in_ns netns ifName macAddress ipAddress gatewayIP defaultGateway hostNet mtu isDefaultGW);
  match r with inr e => mret (None, Some e) | inl (veth, contIface) =>
  pre ← slice_to containerID 14;
  let hostName := pre +:+ itoa idx in
  err ← renameLink (hostVeth_Name veth) hostName;
  match err with
  | Some e => mret (None, Errorf ("failed to rename " +:+ hostVeth_Name veth +:+ " to " +:+ hostName
                                  +:+ ": " +:+ Error e))
  | None =>
      mret (Some ({| if_Name := hostName; if_Mac := HardwareAddr_String (hostVeth_Mac veth); if_Sandbox := "" |},
                  contIface), None)
  end end end.

Definition attach_args (hostName macAddress ifaceID ipAddress containerID : string) : list string :=
  ["add-port"; "br-int"; hostName; "--"; "set"; "interface"; hostName;
   "external_ids:attached_mac=" +:+ macAddress; "external_ids:iface-id=" +:+ ifaceID;
   "external_ids:ip_address=" +:+ ipAddress; "external_ids:sandbox=" +:+ containerID].

Definition ConfigureInterface (containerNetns containerID ifName namespace podName macAddress ipAddress
    gatewayIP interfaceName defaultGateway : string) (idx mtu : Z) (isDefaultGW : bool)
  : M E (list NetIface * option error) :=
  err ← GetNS containerNetns;
  match err with
  | Some e => mret ([], Errorf ("failed to open netns " +:+ Quote containerNetns +:+ ": " +:+ Error e))
  | None =>
  let ifaceID := if negb (interfaceName == "*")
                 then namespace +:+ "_" +:+ podName +:+ "_" +:+ interfaceName
                 else namespace +:+ "_" +:+ podName in
  let interfaceName := if negb (interfaceName == "*") then interfaceName else ifName in
  '(ifs, err) ← setupInterface containerNetns containerID interfaceName macAddress ipAddress gatewayIP
                   defaultGateway idx mtu isDefaultGW;
  match err with Some e => mret ([], Some e) | None =>
  '(hostIface, contIface) ← deref ifs;
  '(out, err) ← CombinedOutput "ovs-vsctl"
                   (attach_args (if_Name hostIface) macAddress ifaceID ipAddress containerID);
  match err with
  | Some e => mret ([], Errorf ("failure in plugging pod interface: " +:+ Error e +:+ String newline "  "
                                +:+ Quote out))
  | None => mret ([hostIface; contIface], None)
  end end end.

(** A destination that is not a CIDR dereferences the nil network. *)
Definition setupRoute (netns dst gw dev : string) : M E (option error) :=
  r ← Do netns
    (match ParseCIDR dst with
     | None => panic "nil pointer dereference"
     | Some (dstAddr, dstAddrNet) =>
         let ipNet := {| net_ip := dstAddr; net_mask := net_mask dstAddrNet |} in
         lerr ← LinkByName dev;
         let link := if bool_decide (lerr = None) then dev else "<nil>" in
         err ← Netlink "AddRoute" [IPNet_String ipNet; IP_String (default [] (ParseIP gw)); link];
         match err with Some e => mret (inr e) | None => mret (inl ()) end
     end);
  match r with inr e => mret (Some e) | inl _ => mret None end.

Definition ConfigureRoute (containerNetns dst gw dev : string) : M E (option error) :=
  err ← GetNS containerNetns;
  match err with
  | Some e => mret (Errorf ("failed to open netns " +:+ Quote containerNetns +:+ ": " +:+ Error e))
  | None => setupRoute containerNetns dst gw dev
  end.

Definition PlatformSpecificCleanup (ifaceName : string) : M E (bool * option error) :=
  '(out, err) ← CombinedOutput "ovs-vsctl" ["del-port"; "br-int"; ifaceName];
  if bool_decide (err <> None) && negb (Contains out "no port named") then mret (true, None)
  else mret (false, None).

(** ** Routes of a chain member (internal/pkg/utils/chain.go) *)

(** One route of the message. *)
Definition add_member_route (r : RouteData) (_ : ()) : M E (() + error) :=
  let dst := rd_Dst r in
  let gw := rd_Gw r in
  if dst == "0.0.0.0" then
    '(_, _, err) ← RunIP ["route"; "replace"; "default"; "via"; gw];
    match err with Some e => mret (inr e) | None => mret (inl ()) end
  else
    '(_, stderr, err) ← RunIP ["route"; "add"; dst; "via"; gw];
    match err with
    | Some e => if negb (route_exists stderr) then mret (inr e) else mret (inl ())
    | None => mret (inl ())
    end.

Definition add_member_routes (hostNet : string) (route : list RouteData) : M E (() + error) :=
  '(podGW, err) ← GetDefaultGateway;
  match err with Some e => mret (inr e) | None =>
  '(_, stderr, err) ← RunIP ["route"; "add"; hostNet; "via"; podGW];
  if bool_decide (err <> None) && negb (route_exists stderr)
  then match err with Some e => mret (inr e) | None => mret (inl ()) end
  else for_range add_member_route route ()
  end.

Definition ContainerAddRoute (containerPid : Z) (route : list RouteData) : M E (option error) :=
  let str := "/host/proc/" +:+ fmt_d containerPid +:+ "/ns/net" in
  '(hostNet, err) ← GetHostNetwork;
  match err with Some e => mret (Some e) | None =>
  err ← GetNS str;
  match err with Some e => mret (Some e) | None =>
  r ← Do str (add_member_routes hostNet route);
  match r with inr e => mret (Some e) | inl _ => mret None end
  end end.

Definition GetPidForContainer (id : string) : M E (Z * option error) :=
  err ← prim docker_client (fun _ => EQuery "NewEnvClient");
  match err with Some e => mret (0%Z, Some e) | None =>
  '(pid, err) ← prim (docker_inspect id) (fun _ => EQuery "ContainerInspect");
  match err with Some e => mret (0%Z, Some e) | None =>
  if (pid =? 0)%Z then mret (0%Z, Errorf ("Container not found " +:+ id))
  else mret (pid, None)
  end end.
End helper.
