(* ===== verification/OvnNetworks.v ===== *)
(** * OvnNetworks: what creating and deleting networks runs

    For each operation on networks the list of commands that it means to run
    (its plan) is written down; the theorems show that the commands run are a
    prefix of the plan, that nothing runs after a failed command, and that the
    nil error means that the whole plan succeeded. *)

From S2P Require Import Prelude.
From S2P Require Import GoStrings.
From S2P Require Import GoNet.
From S2P Require Import Addressing.
From S2P Require Import Types.
From S2P Require Import World.
From S2P Require Import Runner.
From S2P Require Import Traces.
From S2P Require Import OvnCommon.
From S2P Require Import OvnController.
From Stdlib Require Import Ascii.

#[local] Open Scope string_scope.
#[local] Open Scope list_scope.

(** ** Plans *)

Definition nb_cmd (h : execHelper) (args : list string) : string * list string :=
  (nbctlPath h, nb_argv h ovsCommandTimeout args).

(** The commands of each operation. *)
Definition router_plan (name gw mac : string) : list (list string) :=
  [["--wait=hv"; "--may-exist"; "lrp-add"; ovn4nfvRouterName; "rtos-" +:+ name; mac; gw];
   ["--wait=hv"; "--"; "--may-exist"; "lsp-add"; name; "stor-" +:+ name;
    "--"; "set"; "logical_switch_port"; "stor-" +:+ name; "type=router";
    "options:router-port=rtos-" +:+ name; "addresses=" +:+ dq +:+ mac +:+ dq]].

Definition router_mac_args (name : string) : list string :=
  ["--if-exist"; "get"; "logical_router_port"; "rtos-" +:+ name; "mac"].

Definition create_switch_plan (name subnet gw excl : string) : list (list string) :=
  [find_switch_args name; add_switch_args name subnet gw excl].

Definition create_network_plan (name subnet gw excl mac : string) : list (list string) :=
  create_switch_plan name subnet gw excl ++ [router_mac_args name] ++ router_plan name gw mac.

Definition localnet_args (name : string) : list string :=
  ["--wait=hv"; "--"; "--may-exist"; "lsp-add"; name; "server-localnet_" +:+ name; "--";
   "lsp-set-addresses"; "server-localnet_" +:+ name; "unknown"; "--";
   "lsp-set-type"; "server-localnet_" +:+ name; "localnet"; "--";
   "lsp-set-options"; "server-localnet_" +:+ name; "network_name=nw_" +:+ name].

Definition delete_network_plan (name : string) : list (list string) :=
  [["--if-exist"; "--wait=hv"; "lrp-del"; "rtos-" +:+ name]; ["--if-exist"; "--wait=hv"; "ls-del"; name]].

Section networks.
Context {E : Type} `{!ExecWorld E}.
Implicit Types s : St E.

(** ** Switches *)

Definition find_event (h : execHelper) (name o se : string) (err : option error) : Event :=
  ECmd (nbctlPath h) (nb_argv h ovsCommandTimeout (find_switch_args name)) o se err.

(** Creating [name]: either the switch is there, the read is all that was
    run and the error says so, or it is not there and the plan is followed. *)
Definition creates (h : execHelper) (name : string) (plan : list (list string))
    (err : option error) (es : list Event) : Prop :=
  (exists o se, nb_out o = name /\ es = [find_event h name o se None] /\ err = Errorf "LS exists") \/
  (follows (map (nb_cmd h) plan) err es /\
   exists o se err1 tl, es = find_event h name o se err1 :: tl /\ (err1 = None -> nb_out o <> name)).

Lemma creates_app h name p1 p2 err es1 es2 :
  creates h name p1 None es1 -> follows (map (nb_cmd h) p2) err es2 ->
  creates h name (p1 ++ p2) err (es1 ++ es2).
Proof.
  intros [(o & se & _ & _ & Hx)|(Hf & o & se & err1 & tl & -> & Hn)] H2; [done|]. right.
  rewrite map_app. split; [by apply follows_app|]. exists o, se, err1, (tl ++ es2). done.
Qed.

Lemma creates_stop h name p1 p2 x es :
  creates h name p1 (Some x) es -> creates h name (p1 ++ p2) (Some x) es.
Proof.
  intros [H|[Hf H]]; [by left|right]. rewrite map_app. split; [by apply follows_stop|done].
Qed.

Lemma wp_createOvnLS name subnet gatewayIP excludeIps ip cidr (Q : Res (string * option error) -> St E -> list Event -> Prop) s h :
  runner (glob s) = Some h -> ParseCIDR subnet = Some (ip, cidr) ->
  (forall e' gw err es,
     (err = None -> gw = gateway_ip_mask cidr gatewayIP) ->
     creates h name (create_switch_plan name subnet (gateway_ip_mask cidr gatewayIP) excludeIps) err es ->
     Q (Val (gw, err)) (mkSt (glob s) e') es) ->
  wp (createOvnLS name subnet gatewayIP excludeIps) Q s.
Proof.
  intros Hr Hs HQ. unfold createOvnLS. wp_steps.
  eapply wp_RunOVNNbctl; [done|]. intros o se err e1. cbn [after].
  destruct err as [x|].
  { wp_steps. apply HQ; [done|]. right. split; [|by repeat eexists].
    apply (follows_stop [_]), follows_one. }
  destruct (name == nb_out o) eqn:Hn.
  { wp_steps. apply HQ; [done|]. left. apply bool_decide_eq_true in Hn. eauto. }
  apply bool_decide_eq_false in Hn. rewrite Hs. wp_steps.
  eapply wp_RunOVNNbctl; [done|]. intros o2 se2 err2 e2. wp_steps.
  apply HQ; [done|]. right. split; [|repeat eexists; congruence].
  apply (follows_app [_] [_] _ [_]); apply follows_one.
Qed.

Lemma wp_generateMac (Q : Res string -> St E -> list Event -> Prop) s :
  (forall e' mac, Q (Val mac) (mkSt (glob s) e') [EQuery "rand"; EQuery "rand"; EQuery "rand"]) ->
  wp generateMac Q s.
Proof.
  intros HQ. unfold generateMac. repeat (wp_step; apply wp_prim; intros ? ?;
    destruct (random _); intros [= <- <-]; split; [done|]; cbn [after]).
  wp_steps. apply HQ.
Qed.

(** What the operations on networks promise: the package state is kept, the
    function returns, and the plan is followed for some hardware address. *)
Definition network_post (h : execHelper) (s : St E) (run : option error -> list Event -> Prop)
    (r : Res (option error)) (s' : St E) (es : list Event) : Prop :=
  glob s' = glob s /\ exists err, r = Val err /\ run err es.

Lemma CreateNetwork_run cr sub rest ip cidr s h :
  runner (glob s) = Some h ->
  nw_Ipv4Subnets (nw_Spec cr) = sub :: rest -> ParseCIDR (Subnet sub) = Some (ip, cidr) ->
  wp (CreateNetwork cr) (network_post h s (fun err es => exists mac,
    creates h (Name (nw_meta cr)) (create_network_plan (Name (nw_meta cr)) (Subnet sub)
      (gateway_ip_mask cidr (Gateway sub)) (ExcludeIps sub) mac) err es)) s.
Proof.
  intros Hr Hsub Hs. unfold CreateNetwork. rewrite Hsub, index_0. wp_steps.
  eapply wp_createOvnLS; [done..|]. intros e1 gw err es1 Hgw Hc. cbn [after].
  destruct err as [x|].
  { wp_steps. split; [done|]. eexists; split; [done|]. exists "".
    rewrite app_nil_r. by apply creates_stop. }
  rewrite (Hgw eq_refl). wp_step.
  eapply wp_RunOVNNbctl; [done|]. intros o2 se2 err2 e2. cbn [after].
  destruct err2 as [x|].
  { wp_steps. split; [done|]. eexists; split; [done|]. exists "".
    cbn [app]. eapply creates_app; [exact Hc|]. apply (follows_stop [_]), follows_one. }
  wp_step.
  apply (wp_mono _ (fun r s2 es => exists e2 mac, r = Val mac /\ s2 = mkSt (glob s) e2 /\
    follows [] None es)).
  { intros r s2 es (e2' & mac & -> & -> & Hq). cbn [after]. wp_step.
    eapply wp_RunOVNNbctl; [done|]. intros o3 se3 err3 e3. cbn [after].
    assert (Hpre : forall p3 r3 es3, follows p3 r3 es3 ->
      follows (map (nb_cmd h) [router_mac_args (Name (nw_meta cr))] ++ p3) r3
        ([ECmd (nbctlPath h) (nb_argv h ovsCommandTimeout (router_mac_args (Name (nw_meta cr)))) o2 se2 None]
           ++ es ++ es3)).
    { intros p3 r3 es3 H3. apply follows_app; [apply follows_one|].
      by apply (follows_app [] p3). }
    destruct err3 as [x|].
    - wp_steps. split; [done|]. eexists; split; [done|]. exists mac.
      cbn [app]. eapply creates_app; [exact Hc|]. rewrite map_app. apply Hpre.
      apply (follows_stop [_]), follows_one.
    - wp_steps. eapply wp_RunOVNNbctl; [done|]. intros o4 se4 err4 e4. wp_steps.
      split; [done|]. eexists; split; [done|]. exists mac.
      cbn [app]. eapply creates_app; [exact Hc|]. rewrite map_app. apply Hpre.
      apply (follows_app [_] [_] _ [_]); apply follows_one. }
  destruct (nb_out o2 == "").
  - apply wp_generateMac. intros. do 2 eexists. split; [done|]. split; [done|]. auto with ovn.
  - apply wp_ret. do 2 eexists. split; [done|]. split; [done|]. auto with ovn.
Qed.

Lemma CreateProviderNetwork_run cr sub rest ip cidr s h :
  runner (glob s) = Some h ->
  pn_Ipv4Subnets (pn_Spec cr) = sub :: rest -> ParseCIDR (Subnet sub) = Some (ip, cidr) ->
  let name := Name (pn_meta cr) in
  wp (CreateProviderNetwork cr) (network_post h s (creates h name
    (create_switch_plan name (Subnet sub) (gateway_ip_mask cidr (Gateway sub)) (ExcludeIps sub)
     ++ [localnet_args name]))) s.
Proof.
  intros Hr Hsub Hs name. unfold CreateProviderNetwork. rewrite Hsub, index_0. wp_steps.
  eapply wp_createOvnLS; [done..|]. intros e1 gw err es1 Hgw Hc. cbn [after].
  destruct err as [x|].
  { wp_steps. split; [done|]. eexists; split; [done|]. rewrite app_nil_r. by apply creates_stop. }
  wp_step. eapply wp_RunOVNNbctl; [done|]. intros o2 se2 err2 e2. wp_steps.
  split; [done|]. eexists; split; [done|]. rewrite app_nil_r.
  cbn [app]. eapply creates_app; [exact Hc|]. apply follows_one.
Qed.

Lemma DeleteNetwork_run cr s h :
  runner (glob s) = Some h ->
  wp (DeleteNetwork cr) (network_post h s
    (follows (map (nb_cmd h) (delete_network_plan (Name (nw_meta cr)))))) s.
Proof.
  intros Hr. unfold DeleteNetwork. wp_step. eapply wp_RunOVNNbctl; [done|].
  intros o se err e1. cbn [after]. destruct err as [x|]; wp_steps.
  - split; [done|]. eexists; split; [done|]. apply (follows_stop [_]), follows_one.
  - eapply wp_RunOVNNbctl; [done|]. intros o2 se2 err2 e2. wp_steps.
    split; [done|]. eexists; split; [done|].
    apply (follows_app [_] [_] _ [_]); apply follows_one.
Qed.

Lemma wp_createOvnLS_bad name subnet gatewayIP excludeIps (Q : Res (string * option error) -> St E -> list Event -> Prop) s h :
  runner (glob s) = Some h -> ParseCIDR subnet = None ->
  (forall e' err es, err <> None -> creates h name [find_switch_args name] err es ->
     Q (Val ("", err)) (mkSt (glob s) e') es) ->
  wp (createOvnLS name subnet gatewayIP excludeIps) Q s.
Proof.
  intros Hr Hs HQ. unfold createOvnLS. wp_steps.
  eapply wp_RunOVNNbctl; [done|]. intros o se err e1. cbn [after].
  destruct err as [x|].
  { wp_steps. apply HQ; [done|]. right. split; [apply follows_one|by repeat eexists]. }
  destruct (name == nb_out o) eqn:Hn.
  { wp_steps. apply HQ; [done|]. left. apply bool_decide_eq_true in Hn. eauto. }
  apply bool_decide_eq_false in Hn. rewrite Hs. wp_steps.
  apply HQ; [done|]. right. split; [|repeat eexists; congruence].
  split; [done|]. split; [done|]. done.
Qed.

(** An invalid subnet: nothing but the read of the switch is run. *)
Lemma CreateNetwork_bad cr sub rest s h :
  runner (glob s) = Some h ->
  nw_Ipv4Subnets (nw_Spec cr) = sub :: rest -> ParseCIDR (Subnet sub) = None ->
  wp (CreateNetwork cr) (network_post h s (fun err es =>
    err <> None /\ creates h (Name (nw_meta cr)) [find_switch_args (Name (nw_meta cr))] err es)) s.
Proof.
  intros Hr Hsub Hs. unfold CreateNetwork. rewrite Hsub, index_0. wp_steps.
  eapply wp_createOvnLS_bad; [done..|]. intros e1 err es1 Hne Hc. cbn [after].
  destruct err as [x|]; [|done]. wp_steps. split; [done|]. eexists; split; [done|].
  by rewrite app_nil_r.
Qed.

Lemma CreateProviderNetwork_bad cr sub rest s h :
  runner (glob s) = Some h ->
  pn_Ipv4Subnets (pn_Spec cr) = sub :: rest -> ParseCIDR (Subnet sub) = None ->
  wp (CreateProviderNetwork cr) (network_post h s (fun err es =>
    err <> None /\ creates h (Name (pn_meta cr)) [find_switch_args (Name (pn_meta cr))] err es)) s.
Proof.
  intros Hr Hsub Hs. unfold CreateProviderNetwork. rewrite Hsub, index_0. wp_steps.
  eapply wp_createOvnLS_bad; [done..|]. intros e1 err es1 Hne Hc. cbn [after].
  destruct err as [x|]; [|done]. wp_steps. split; [done|]. eexists; split; [done|].
  by rewrite app_nil_r.
Qed.

(** ** Properties *)

(** creating a network runs, in this order, the read of the switch, its
    creation with the gateway address, the read of the router port's
    address, the router port and the switch port that face each other; it
    stops at the first failed command with that command's error, and the
    nil error means that all five succeeded.  On a switch that exists it
    runs the read only and says so. *)
Theorem CreateNetwork_plan cr sub rest ip cidr s h :
  runner (glob s) = Some h ->
  nw_Ipv4Subnets (nw_Spec cr) = sub :: rest -> ParseCIDR (Subnet sub) = Some (ip, cidr) ->
  wp (CreateNetwork cr) (network_post h s (fun err es => exists mac,
    creates h (Name (nw_meta cr)) (create_network_plan (Name (nw_meta cr)) (Subnet sub)
      (gateway_ip_mask cidr (Gateway sub)) (ExcludeIps sub) mac) err es)) s.
Proof. apply CreateNetwork_run. Qed.

(** creating a provider network creates the switch and then its port of
    type localnet, the one that joins it to the node's bridge mapping, under
    the same rules. *)
Theorem CreateProviderNetwork_plan cr sub rest ip cidr s h :
  runner (glob s) = Some h ->
  pn_Ipv4Subnets (pn_Spec cr) = sub :: rest -> ParseCIDR (Subnet sub) = Some (ip, cidr) ->
  let name := Name (pn_meta cr) in
  wp (CreateProviderNetwork cr) (network_post h s (creates h name
    (create_switch_plan name (Subnet sub) (gateway_ip_mask cidr (Gateway sub)) (ExcludeIps sub)
     ++ [localnet_args name]))) s.
Proof. apply CreateProviderNetwork_run. Qed.

(** deleting a network removes the router port first and the switch
    second, and leaves the switch alone when the port could not be removed.
    The controller's gateway cache keeps the deleted switch. *)
Theorem DeleteNetwork_plan cr s h :
  runner (glob s) = Some h ->
  wp (DeleteNetwork cr) (network_post h s
    (follows (map (nb_cmd h) (delete_network_plan (Name (nw_meta cr)))))) s.
Proof. apply DeleteNetwork_run. Qed.

(** a network without an IPv4 subnet makes both create operations panic
    before any command. *)
Theorem create_without_subnet_panics cr pcr s :
  nw_Ipv4Subnets (nw_Spec cr) = [] -> pn_Ipv4Subnets (pn_Spec pcr) = [] ->
  CreateNetwork cr s = (Panic "index out of range", s, []) /\
  CreateProviderNetwork pcr s = (Panic "index out of range", s, []).
Proof.
  intros H1 H2. unfold CreateNetwork, CreateProviderNetwork. rewrite H1, H2. done.
Qed.

(** ** The gateway cache *)

(** What the text of the external id means. *)
Definition split_gateway (v : string) : string * string * option error :=
  match Split v "/" with
  | [ip; mask] => (ip, mask, None)
  | _ => ("", "", Errorf ("Failed to get IP and Mask from gateway CIDR:  " +:+ v))
  end.

Lemma getGateway_split v s :
  (let gatewayIPMask := Split v "/" in
   if negb (length gatewayIPMask =? 2)%nat then
     mret ("", "", Errorf ("Failed to get IP and Mask from gateway CIDR:  " +:+ v))
   else
     gatewayIP ← index gatewayIPMask 0;
     mask ← index gatewayIPMask 1;
     mret (gatewayIP, mask, None)) s = (Val (split_gateway v), s, []) :> Res _ * St E * _.
Proof.
  unfold split_gateway. destruct (Split v "/") as [|a [|b [|c l]]]; try done.
Qed.

Lemma gateway_cached sw oc v s :
  ovnCtl (glob s) = Some oc -> gatewayCache oc !! sw = Some v ->
  getGatewayFromSwitch sw s = (Val (split_gateway v), s, []).
Proof.
  intros Ho Hv. unfold getGatewayFromSwitch.
  assert (Ht : gateway_text sw s = (Val (inl v), s, [])).
  { unfold gateway_text, mbind, M_bind, get_glob. rewrite Ho. unfold deref, mret, M_ret.
    by rewrite Hv. }
  unfold mbind at 1, M_bind at 1. rewrite Ht. by rewrite getGateway_split.
Qed.

(** What a call of [getGatewayFromSwitch] leaves: the answer is the meaning
    of the text now in the cache, which differs from the old one at [sw]
    only; without a text there is an error and the cache is unchanged. *)
Definition gateway_post (sw : string) (oc : Controller) (s : St E)
    (r : Res (string * string * option error)) (s' : St E) (es : list Event) : Prop :=
  exists oc', glob s' = set_ovnCtl (Some oc') (glob s) /\
    match gatewayCache oc' !! sw with
    | Some v => r = Val (split_gateway v) /\ gatewayCache oc' = <[sw := v]> (gatewayCache oc) /\
                (gatewayCache oc !! sw = Some v -> es = []) /\
                forall e, getGatewayFromSwitch sw (mkSt (glob s') e) = (r, mkSt (glob s') e, [])
    | None => oc' = oc /\ exists x, r = Val ("", "", Some x)
    end.

(** the gateway of a switch is read from OVN at most once: after a call
    that found it, every later call gives the same answer without running
    anything, whatever has happened to the switch in between. *)
Theorem getGatewayFromSwitch_memo sw oc s h :
  runner (glob s) = Some h -> ovnCtl (glob s) = Some oc ->
  wp (getGatewayFromSwitch sw) (gateway_post sw oc s) s.
Proof.
  intros Hr Ho. assert (Hid : glob s = set_ovnCtl (Some oc) (glob s))
    by (destruct (glob s); simpl in *; by rewrite Ho).
  assert (Hnext : forall v g, ovnCtl g = Some (Build_Controller (<[sw := v]> (gatewayCache oc))) ->
    forall e, getGatewayFromSwitch sw (mkSt g e) = (Val (split_gateway v), mkSt g e, [])).
  { intros v g Hg e. eapply gateway_cached; [exact Hg|]. simpl. by rewrite lookup_insert_eq. }
  destruct (gatewayCache oc !! sw) as [v|] eqn:Hv.
  - unfold wp. rewrite (gateway_cached _ _ _ _ Ho Hv). split; [done|].
    exists oc. split; [done|]. rewrite Hv. rewrite insert_id by done.
    split_and!; [done..|]. intros e. eapply gateway_cached; done.
  - unfold getGatewayFromSwitch, gateway_text. wp_steps. rewrite Ho. wp_steps. rewrite Hv.
    wp_steps. eapply wp_RunOVNNbctl; [done|]. intros o se err e1. cbn [after].
    destruct err as [x|].
    { wp_steps. exists oc. split; [done|]. rewrite Hv. eauto. }
    destruct (nb_out o == "") eqn:Hne.
    { wp_steps. exists oc. split; [done|]. rewrite Hv. split; [done|]. by eexists. }
    wp_steps. unfold wp. rewrite getGateway_split. split; [done|].
    exists (Build_Controller (<[sw := nb_out o]> (gatewayCache oc))). split; [done|].
    cbn [gatewayCache]. rewrite lookup_insert_eq. split; [done|]. split; [done|].
    split; [|by apply Hnext]. by rewrite Hv.
Qed.

(** ** The start of the controller *)

Lemma quiet_createOvnLS name subnet gw excl : quiet (createOvnLS name subnet gw excl).
Proof. unfold createOvnLS. quiet_tac. Qed.

Lemma quiet_setupDistributedRouter name : quiet (setupDistributedRouter name).
Proof. unfold setupDistributedRouter, connect_join, generateMac, Intn. quiet_tac. Qed.

(** The switch is there at the end of the run: the read found it, or the
    last command created it. *)
Definition switch_ready (h : execHelper) (name subnet excl : string) (es : list Event) : Prop :=
  (exists pre o se, nb_out o = name /\ es = pre ++ [find_event h name o se None]) \/
  (exists pre gw o se, es = pre ++ [ECmd (nbctlPath h)
     (nb_argv h ovsCommandTimeout (add_switch_args name subnet gw excl)) o se None]).

(** A tool that fails with the very error that [createOvnLS] makes. *)
Definition confusing_failure (es : list Event) : Prop :=
  exists p a o se, ECmd p a o se (Errorf "LS exists") ∈ es.

Lemma switch_ready_app h name subnet excl es1 es2 :
  switch_ready h name subnet excl es2 -> switch_ready h name subnet excl (es1 ++ es2).
Proof.
  intros [(pre & o & se & Hn & ->)|(pre & gw & o & se & ->)]; rewrite app_assoc; [left|right]; eauto 6.
Qed.

Lemma createOvnLS_ready name subnet gatewayIP excl s h :
  runner (glob s) = Some h ->
  wp (createOvnLS name subnet gatewayIP excl) (fun r s' es => glob s' = glob s /\
    exists gw err, r = Val (gw, err) /\
      (err = None \/ err = Errorf "LS exists" ->
       switch_ready h name subnet excl es \/ confusing_failure es)) s.
Proof.
  intros Hr. unfold createOvnLS. wp_steps. eapply wp_RunOVNNbctl; [done|].
  intros o se err e1. cbn [after]. destruct err as [x|].
  { wp_steps. split; [done|]. do 2 eexists. split; [done|]. intros [?|[= ->]]; [done|].
    right. unfold confusing_failure. do 4 eexists. by left. }
  destruct (name == nb_out o) eqn:Hn.
  { wp_steps. split; [done|]. do 2 eexists. split; [done|]. intros _. left. left.
    apply bool_decide_eq_true in Hn. exists [], o, se. done. }
  destruct (ParseCIDR subnet) as [[ip cidr]|]; wp_steps; [|by split; [|do 2 eexists; split; [|intros [?|?]]]].
  eapply wp_RunOVNNbctl; [done|]. intros o2 se2 err2 e2. wp_steps.
  split; [done|]. do 2 eexists. split; [done|]. intros [->| ->].
  - left. right. eexists [_], _, _, _. done.
  - right. do 4 eexists. right. by left.
Qed.

(** [GetOvnNetConf] changes only the variable it sets. *)
Lemma wp_GetOvnNetConf (Q : Res (option error) -> St E -> list Event -> Prop) s :
  (forall e' conf err es, (err = None -> conf_Subnet conf <> "") ->
     Q (Val err) (mkSt (set_ovnConf (Some conf) (glob s)) e') es) ->
  wp GetOvnNetConf Q s.
Proof.
  intros HQ. unfold GetOvnNetConf, Getenv.
  repeat (wp_step || case_match || (apply wp_ask; intros; split; [done|])); apply HQ; try done.
  intros _. by eapply bool_decide_eq_false_1.
Qed.

Lemma NewOvnController_run s :
  wp NewOvnController (fun r s' es => exists err, r = Val err /\
    match err with
    | Some _ => ovnCtl (glob s') = ovnCtl (glob s)
    | None => ovnCtl (glob s') = Some (Build_Controller ∅) /\
        exists h conf, runner (glob s') = Some h /\ ovnConf (glob s') = Some conf /\
          conf_Subnet conf <> "" /\
          (switch_ready h Ovn4nfvDefaultNw (conf_Subnet conf) (conf_ExcludeIPs conf) es \/
           confusing_failure es)
    end) s.
Proof.
  unfold NewOvnController. wp_step. apply wp_SetExec. intros e1 h err es1. cbn [after].
  destruct err; [wp_steps; by eexists|]. wp_step. apply wp_GetOvnNetConf.
  intros e2 conf err es2 Hconf. cbn [after]. destruct err; [wp_steps; by eexists|].
  specialize (Hconf eq_refl). wp_step. unfold SetupOvnUtils. wp_step.
  eapply wp_mono; [|eapply (quiet_elim _ _ h); [apply quiet_setupDistributedRouter|done]].
  intros r s3 es3 (err & e3 & -> & ->). cbn [after]. destruct err; [wp_steps; by eexists|].
  wp_steps. cbn [glob ovnConf set_ovnConf]. wp_steps.
  eapply wp_mono; [|by eapply (createOvnLS_ready _ _ _ _ _ h)].
  intros r s4 es4 (Hg & gw & err & -> & Hready). cbn [after].
  assert (Hend : err = None \/ err = Errorf "LS exists" -> forall pre,
    exists h' conf', runner (glob s4) = Some h' /\ ovnConf (glob s4) = Some conf' /\
      conf_Subnet conf' <> "" /\
      (switch_ready h' Ovn4nfvDefaultNw (conf_Subnet conf') (conf_ExcludeIPs conf') (pre ++ es4) \/
       confusing_failure (pre ++ es4))).
  { intros He pre. rewrite Hg. exists h, conf. split_and!; [done..|].
    destruct (Hready He) as [H|(p & a & o & se & H)]; [left; by apply switch_ready_app|right].
    exists p, a, o, se. apply elem_of_app. by right. }
  destruct err as [x|].
  - destruct (DeepEqualErrorf x "LS exists") eqn:Hx; cbn [negb].
    + apply bool_decide_eq_true in Hx. subst x. wp_steps. eexists. split; [done|].
      split; [by rewrite Hg|]. cbn [glob set_ovnCtl runner ovnConf].
      rewrite !app_assoc, !app_nil_r. apply Hend. by right.
    + wp_steps. eexists. split; [done|]. by rewrite Hg.
  - wp_steps. eexists. split; [done|]. split; [done|]. cbn [glob set_ovnCtl runner ovnConf].
    rewrite !app_assoc, !app_nil_r. apply Hend. by left.
Qed.

End networks.

(** ** Concrete runs *)

Definition demo_subnet : IpSubnet := Build_IpSubnet "s" "172.16.33.0/24" "" "172.16.33.2".
Definition demo_meta (name : string) : ObjectMeta := mkMeta name "default" [] None ∅.
Definition demo_dns : DnsSpec := Build_DnsSpec [] "" [] [].
Definition demo_network (subs : list IpSubnet) : Network :=
  mkNetwork (demo_meta "nw1") (Build_NetworkSpec "ovn4nfv" subs [] demo_dns []) (Build_NetworkStatus "").
Definition demo_pn (subs : list IpSubnet) : ProviderNetwork :=
  mkProviderNetwork (demo_meta "pn1")
    (Build_ProviderNetworkSpec "ovn4nfv" subs [] demo_dns [] "VLAN"
       (Build_VlanSpec "100" "all" [] "eth1" "eth1.100") (Build_DirectSpec "" [] ""))
    (Build_ProviderNetworkStatus "").

(** A northbound database that accepts everything and knows nothing; one that
    refuses to remove a router port; one that knows a gateway. *)
Definition empty_db : ExecWorld Z := reply_world (fun _ => ("", "", None)).
Definition stuck_db : ExecWorld Z := reply_world (fun args =>
  if bool_decide (nth 3 args "" = "lrp-del") then ("", "in use", Some (OtherError "exit" "1"))
  else ("", "", None)).
Definition gateway_db : ExecWorld Z := reply_world (fun args =>
  if bool_decide (nth 2 args "" = "get") then ("10.1.0.1/16", "", None) else ("", "", None)).

Definition demo_state : St Z := mkSt demo_globals 0%Z.

Definition demo_cidr : IPNet := Build_IPNet [172;16;33;0]%Z [255;255;255;0]%Z.

Lemma demo_cidr_parsed :
  ParseCIDR "172.16.33.0/24" = Some ([0;0;0;0;0;0;0;0;0;0;255;255;172;16;33;0]%Z, demo_cidr).
Proof. vm_compute. reflexivity. Qed.

Lemma CreateNetwork_plan_witness :
  let cr := demo_network [demo_subnet] in
  (wp (@CreateNetwork Z empty_db cr) (network_post demo_helper demo_state (fun err es => exists mac,
      creates demo_helper "nw1" (create_network_plan "nw1" "172.16.33.0/24"
        (gateway_ip_mask demo_cidr "") "172.16.33.2" mac) err es)) demo_state) /\
  (let '(r, _, es) := @CreateNetwork Z empty_db cr demo_state in
   r = Val None /\ cmds es = map (nb_cmd demo_helper)
     (create_network_plan "nw1" "172.16.33.0/24" "172.16.33.1/24" "172.16.33.2" "00:00:00:00:01:02")).
Proof.
  split; [|vm_compute; split; reflexivity].
  exact (@CreateNetwork_plan Z empty_db (demo_network [demo_subnet]) demo_subnet [] _ demo_cidr
           demo_state demo_helper eq_refl eq_refl demo_cidr_parsed).
Defined.

Lemma CreateProviderNetwork_plan_witness :
  let cr := demo_pn [demo_subnet] in
  (wp (@CreateProviderNetwork Z empty_db cr) (network_post demo_helper demo_state (creates demo_helper "pn1"
      (create_switch_plan "pn1" "172.16.33.0/24" (gateway_ip_mask demo_cidr "") "172.16.33.2"
       ++ [localnet_args "pn1"]))) demo_state) /\
  (@CreateProviderNetwork Z empty_db cr demo_state).1.1 = Val None.
Proof.
  split; [|vm_compute; reflexivity].
  exact (@CreateProviderNetwork_plan Z empty_db (demo_pn [demo_subnet]) demo_subnet [] _ demo_cidr
           demo_state demo_helper eq_refl eq_refl demo_cidr_parsed).
Defined.

Lemma DeleteNetwork_plan_witness :
  wp (@DeleteNetwork Z stuck_db (demo_network [])) (network_post demo_helper demo_state
    (follows (map (nb_cmd demo_helper) (delete_network_plan "nw1")))) demo_state /\
  (let '(r, _, es) := @DeleteNetwork Z stuck_db (demo_network []) demo_state in
   r = Val (Some (OtherError "exit" "1")) /\ length (cmds es) = 1%nat).
Proof.
  split; [|vm_compute; split; reflexivity].
  exact (@DeleteNetwork_plan Z stuck_db (demo_network []) demo_state demo_helper eq_refl).
Defined.

Lemma create_without_subnet_panics_witness :
  @CreateNetwork Z empty_db (demo_network []) demo_state = (Panic "index out of range", demo_state, []) /\
  @CreateProviderNetwork Z empty_db (demo_pn []) demo_state = (Panic "index out of range", demo_state, []).
Proof.
  exact (@create_without_subnet_panics Z empty_db (demo_network []) (demo_pn []) demo_state eq_refl eq_refl).
Defined.

Definition demo_ctl_state : St Z :=
  mkSt (set_ovnCtl (Some (Build_Controller ∅)) demo_globals) 0%Z.

Lemma getGatewayFromSwitch_memo_witness :
  wp (@getGatewayFromSwitch Z gateway_db "nw1") (@gateway_post Z gateway_db "nw1" (Build_Controller ∅) demo_ctl_state)
    demo_ctl_state /\
  (@getGatewayFromSwitch Z gateway_db "nw1" demo_ctl_state).1.1 = Val ("10.1.0.1", "16", None).
Proof.
  split; [|vm_compute; reflexivity].
  exact (@getGatewayFromSwitch_memo Z gateway_db "nw1" (Build_Controller ∅) demo_ctl_state demo_helper
           eq_refl eq_refl).
Defined.
