(* ===== verification/OvnPorts.v ===== *)
(** * OvnPorts: logical ports of pods and nodes

    What [AddLogicalPorts] returns and creates, what [DeleteLogicalPorts]
    removes, and the bound on the polling for addresses. *)

From S2P Require Import Prelude.
From S2P Require Import GoStrings.
From S2P Require Import GoNet.
From S2P Require Import Addressing.
From S2P Require Import Types.
From S2P Require Import World.
From S2P Require Import Sha1.
From S2P Require Import Runner.
From S2P Require Import Traces.
From S2P Require Import OvnCommon.
From S2P Require Import OvnController.
From S2P Require Import OvnNetworks.
From Stdlib Require Import Ascii.

#[local] Open Scope string_scope.
#[local] Open Scope list_scope.

(** ** Ports that a command adds *)

(** The port of the first lsp-add of a command line. *)
Fixpoint added_port (a : list string) : option string :=
  match a with
  | x :: a' => if x == "lsp-add" then a' !! 1%nat else added_port a'
  | [] => None
  end.

Definition adds_only (P : string -> Prop) (e : Event) : Prop :=
  match e with
  | ECmd _ a _ _ _ => forall p, added_port a = Some p -> P p
  | ESleep _ | EQuery _ => True
  | _ => False
  end.

Lemma adds_only_no_send P es : Forall (adds_only P) es -> sends es = [].
Proof. induction 1 as [|e es He _ IH]; [done|]. by destruct e. Qed.

Lemma added_port_nb h t args : added_port (nb_argv h t args) = added_port args.
Proof. unfold nb_argv. by destruct (0 <? _)%nat. Qed.

(** ** Functions on ports: always return, keep a controller, and add ports of
    a set [P] only; [R] is what holds of the result *)
Section port_ok.
Context {E : Type} `{!ExecWorld E}.
Context (P : string -> Prop).

Definition port_ok {A} (m : M E A) (R : A -> Prop) : Prop :=
  forall s h oc, runner (glob s) = Some h -> ovnCtl (glob s) = Some oc ->
    wp m (fun r s' es => (exists oc', glob s' = set_ovnCtl (Some oc') (glob s)) /\
                         Forall (adds_only P) es /\ exists a, r = Val a /\ R a) s.

Lemma set_ovnCtl_same (g : Globals) oc : ovnCtl g = Some oc -> g = set_ovnCtl (Some oc) g.
Proof. destruct g. simpl. by intros ->. Qed.

Lemma port_ok_ret {A} (a : A) (R : A -> Prop) : R a -> port_ok (mret a) R.
Proof.
  intros HR s h oc Hr Ho. apply wp_ret. split; [|split; [done|eauto]].
  exists oc. by apply set_ovnCtl_same.
Qed.

Lemma port_ok_bind {A B} (m : M E A) (k : A -> M E B) R1 R2 :
  port_ok m R1 -> (forall a, R1 a -> port_ok (k a) R2) -> port_ok (m ≫= k) R2.
Proof.
  intros Hm Hk s h oc Hr Ho. apply wp_bind. eapply wp_mono; [|by apply (Hm s h oc)].
  intros r s1 e1 ([oc1 Hg] & He & a & -> & HR). cbn [after].
  eapply wp_mono; [|apply (Hk a HR s1 h oc1); by rewrite Hg].
  intros r2 s2 e2 ([oc2 Hg2] & He2 & H2). split; [exists oc2; by rewrite Hg2, Hg|].
  split; [by apply Forall_app|done].
Qed.

Lemma port_ok_mono {A} (m : M E A) (R1 R2 : A -> Prop) :
  (forall a, R1 a -> R2 a) -> port_ok m R1 -> port_ok m R2.
Proof. intros HR Hm s h oc Hr Ho. eapply wp_mono; [|by eapply Hm].
  intros r s' es (Hg & He & a & -> & H). eauto 6.
Qed.

(** A quiet function without an unwanted command. *)
Lemma port_ok_nb args :
  (forall p, added_port args = Some p -> P p) -> port_ok (RunOVNNbctl args) (fun _ => True).
Proof.
  intros Hp s h oc Hr Ho. eapply wp_RunOVNNbctl; [done|]. intros o se err e'.
  split; [exists oc; by apply set_ovnCtl_same|].
  split; [|by eexists]. constructor; [|done]. simpl. by rewrite added_port_nb.
Qed.

Lemma port_ok_ask {A} (f : E -> A * E) ev :
  (forall a, is_retry_pause (ev a) = false) -> (forall a, adds_only P (ev a)) ->
  port_ok (prim f ev) (fun _ => True).
Proof.
  intros Hp Hadd s h oc Hr Ho. apply wp_ask. intros a e'. split; [done|].
  split; [exists oc; by apply set_ovnCtl_same|]. split; [by constructor|eauto].
Qed.

Lemma port_ok_for_range {X L R} (body : X -> L -> M E (L + R)) (I : list X -> L -> Prop)
    (Rr : R -> Prop) xs l :
  I [] l ->
  (forall dn x l, I dn l -> port_ok (body x l) (fun r =>
     match r with inl l' => I (dn ++ [x]) l' | inr ret => Rr ret end)) ->
  port_ok (for_range body xs l) (fun r => match r with inl l' => I xs l' | inr ret => Rr ret end).
Proof.
  intros HI Hb. change xs with ([] ++ xs) at 2. revert HI. generalize (@nil X) as dn.
  revert l. induction xs as [|x xs IH]; intros l dn HI; cbn [for_range].
  - apply port_ok_ret. by rewrite app_nil_r.
  - eapply port_ok_bind; [by eapply Hb|]. intros [l'|ret] Hl.
    + rewrite cons_middle, app_assoc. by apply IH.
    + by apply port_ok_ret.
Qed.

(** ** The functions of ovn.go *)

Lemma port_ok_poll count args :
  added_port args = None -> port_ok (poll_addresses count args) (fun _ => True).
Proof.
  intros Ha. induction count as [|n IH]; cbn [poll_addresses]; [by apply port_ok_ret|].
  eapply port_ok_bind; [apply port_ok_nb; by rewrite Ha|]. intros [[out se] err] _.
  destruct err; [by apply port_ok_ret|]. destruct (out == "[]"); [|by apply port_ok_ret].
  eapply port_ok_bind; [by apply port_ok_ask|]. by intros [] _.
Qed.

Lemma added_port_get p c : c <> "lsp-add" -> added_port (port_args p c) = None.
Proof.
  intros Hc. unfold port_args. cbn. destruct (p == "lsp-add"); [done|].
  rewrite !bool_decide_eq_false_2 by (done || discriminate). done.
Qed.

Lemma port_ok_gateway sw : port_ok (getGatewayFromSwitch sw) (fun _ => True).
Proof.
  intros s h oc Hr Ho.
  assert (Hadd : forall o se err, adds_only P (ECmd (nbctlPath h)
    (nb_argv h ovsCommandTimeout (gateway_args sw)) o se err)).
  { intros. simpl. intros p. rewrite added_port_nb. unfold gateway_args. cbn.
    by destruct (sw == "lsp-add"). }
  unfold getGatewayFromSwitch, gateway_text. wp_steps. rewrite Ho. wp_steps.
  assert (Hid := set_ovnCtl_same _ _ Ho).
  destruct (gatewayCache oc !! sw) as [v|].
  { wp_steps. unfold wp. rewrite getGateway_split. split; [done|]. split; [by eexists|]. split; [done|].
    by eexists. }
  wp_steps. eapply wp_RunOVNNbctl; [done|]. intros o se err e1. cbn [after].
  destruct err as [x|]; [wp_steps|destruct (nb_out o == ""); wp_steps].
  3: unfold wp; rewrite getGateway_split; split; [done|].
  all: split; [by eexists|]; split; [by repeat constructor|by eexists].
Qed.

Lemma port_ok_nodeIP pod : port_ok (getNodeLogicalPortIPAddr pod) (fun _ => True).
Proof.
  unfold getNodeLogicalPortIPAddr. eapply port_ok_bind; [by apply port_ok_poll, added_port_get|].
  intros [out|err] _; [|by apply port_ok_ret].
  destruct (split_addresses out) as [|a [|b [|c l]]]; cbn [length Nat.eqb negb];
    by apply port_ok_ret.
Qed.

Lemma port_ok_generateMac : port_ok generateMac (fun _ => True).
Proof.
  intros s h oc Hr Ho. apply wp_generateMac. intros e' mac.
  split; [exists oc; by apply set_ovnCtl_same|]. split; [by repeat constructor|by eexists].
Qed.

Lemma port_ok_addNode sw portName :
  P portName -> port_ok (addNodeLogicalPortWithSwitch sw portName) (fun _ => True).
Proof.
  intros HP. unfold addNodeLogicalPortWithSwitch. eapply port_ok_bind; [apply port_ok_nb|].
  { intros p. simpl. by intros [= <-]. }
  intros [[out se] err] _. destruct err; [by apply port_ok_ret|].
  eapply port_ok_bind; [by apply port_ok_poll, added_port_get|].
  intros [out2|err2] _; [|by apply port_ok_ret].
  destruct (split_addresses out2) as [|a [|b [|c l]]]; cbn [length Nat.eqb negb];
    try by apply port_ok_ret.
  eapply port_ok_bind; [apply port_ok_gateway|]. intros [[g m] err3] _.
  destruct err3; by apply port_ok_ret.
Qed.

Lemma port_ok_node node :
  P (GetNodeIntfName (ToLower node)) -> port_ok (node_AddNodeLogicalPorts node) (fun _ => True).
Proof.
  intros HP. unfold node_AddNodeLogicalPorts. eapply port_ok_bind with (R1 := fun _ => True).
  { intros s h oc Hr Ho. unfold GetOvnController. wp_steps. rewrite Ho. apply wp_ret.
    split; [exists oc; by apply set_ovnCtl_same|]. split; [done|by eexists]. }
  intros [e|] _; [by apply port_ok_ret|].
  unfold AddNodeLogicalPorts. eapply port_ok_bind.
  - eapply port_ok_bind; [by apply port_ok_addNode|]. intros [[ip mac] err] _.
    by destruct err; apply (port_ok_ret _ (fun _ => True)).
  - intros [[ip mac] err] _. destruct err; by apply port_ok_ret.
Qed.

(** The annotation of one port: empty, or of the expected form. *)
Definition port_result (a : string) : Prop :=
  a = "" \/ exists ip mask mac gw, a = port_annotation ip mask mac gw.

Lemma port_ok_add pod sw ip mac gw portName :
  P portName -> port_ok (addLogicalPortWithSwitch pod sw ip mac gw portName) port_result.
Proof.
  intros HP. unfold addLogicalPortWithSwitch.
  assert (Hret : forall (m : M E string), m = mret "" -> port_ok m port_result)
    by (intros m ->; apply port_ok_ret; by left).
  destruct (HostNetwork pod); [by apply Hret|].
  eapply port_ok_bind with (R1 := fun _ => True).
  { case_match; [apply port_ok_generateMac|by apply port_ok_ret]. }
  intros mac' _. eapply port_ok_bind; [apply port_ok_nb|].
  { intros p. destruct (ip == ""); simpl; by intros [= <-]. }
  intros [[out se] err] _. destruct err; [by apply Hret|].
  eapply port_ok_bind; [apply port_ok_poll, added_port_get; by destruct (ip == "")|].
  intros [out2|err2] _; [|by apply Hret].
  destruct (split_addresses out2) as [|a [|b [|c l]]]; cbn [length Nat.eqb negb];
    try by apply Hret.
  eapply port_ok_bind; [apply port_ok_gateway|]. intros [[g m] err3] _.
  destruct err3; [by apply Hret|].
  eapply port_ok_bind with (R1 := fun _ => True).
  { case_match; [by apply port_ok_ret|apply port_ok_nodeIP]. }
  intros [gwip err4] _. destruct err4; [by apply Hret|].
  rewrite index_0, index_1. eapply port_ok_bind; [by apply (port_ok_ret b (eq b))|].
  intros ? <-. eapply port_ok_bind; [by apply (port_ok_ret a (eq a))|]. intros ? <-.
  apply port_ok_ret. right. by eexists _, _, _, _.
Qed.
End port_ok.

(** ** The annotation of a pod *)

(** The text of one port without the closing brace. *)
Definition port_body (ip mask mac gw : string) : string :=
  "{" +:+ bq +:+ "ip_address" +:+ bq +:+ ":" +:+ bq +:+ ip +:+ "/" +:+ mask +:+ bq +:+ ", "
  +:+ bq +:+ "mac_address" +:+ bq +:+ ":" +:+ bq +:+ mac +:+ bq +:+ ", "
  +:+ bq +:+ "gateway_ip" +:+ bq +:+ ": " +:+ bq +:+ gw +:+ bq.

Lemma port_annotation_body ip mask mac gw :
  port_annotation ip mask mac gw = port_body ip mask mac gw +:+ "}".
Proof. unfold port_annotation, port_body. by rewrite !append_assoc. Qed.

(** The addresses of a port: IP, mask, MAC and gateway. *)
Record port_addrs := { pa_ip : string; pa_mask : string; pa_mac : string; pa_gw : string }.

(** What the annotation says of an interface that was asked for: the default
    gateway mark and the interface name; the added default interface has no mark. *)
Definition render (a : port_addrs) (asked : option string * string) : string :=
  port_body (pa_ip a) (pa_mask a) (pa_mac a) (pa_gw a)
  +:+ match asked.1 with Some g => with_gateway g | None => "" end +:+ with_interface asked.2.

Section requested.
Variable Decode : Json -> netInterface -> netInterface * option error.

(** The defaults given to a decoded interface. *)
Definition normalise (ns : netInterface) : netInterface :=
  let ns := if DefaultGateway ns == "" then set_DefaultGateway "false" ns else ns in
  if negb (Interface ns == "") then ns else set_Interface "*" ns.

(** The interfaces as the loop sees them, each decoded over the one before. *)
Fixpoint decode_all (ns : netInterface) (objs : list Json) : list netInterface :=
  match objs with
  | [] => []
  | o :: objs' => let ns' := normalise (Decode o ns).1 in ns' :: decode_all ns' objs'
  end.

Definition last_ns (ns : netInterface) (objs : list Json) : netInterface :=
  foldl (fun ns o => normalise (Decode o ns).1) ns objs.

Lemma decode_all_snoc ns objs o :
  decode_all ns (objs ++ [o]) = decode_all ns objs ++ [normalise (Decode o (last_ns ns objs)).1].
Proof. revert ns. induction objs as [|x objs IH]; intros ns; simpl; [done|]. by rewrite IH. Qed.

Lemma last_ns_snoc ns objs o :
  last_ns ns (objs ++ [o]) = normalise (Decode o (last_ns ns objs)).1.
Proof. unfold last_ns. by rewrite foldl_app. Qed.

Definition asks_default (objs : list Json) : bool :=
  existsb (fun ns => ni_Name ns == Ovn4nfvDefaultNw) (decode_all zeroNetInterface objs).

(** What the annotation must list: the interfaces asked for in order, then
    the default one unless it was asked for. *)
Definition requested (objs : list Json) : list (option string * string) :=
  map (fun ns => (Some (DefaultGateway ns), Interface ns)) (decode_all zeroNetInterface objs)
  ++ (if asks_default objs then [] else [(None, "*")]).

Definition annotation (addrs : list port_addrs) (reqs : list (option string * string)) : string :=
  "[" +:+ Join (zip_with render addrs reqs) "," +:+ "]".
End requested.

Section add_ports.
Context {E : Type} `{!ExecWorld E}.
Variable Decode : Json -> netInterface -> netInterface * option error.

Definition pod_port (pod : Pod) : string := pod_Namespace pod +:+ "_" +:+ pod_Name pod.

(** A port whose name contains the pod's. *)
Definition of_pod (pod : Pod) (p : string) : Prop := Contains p (pod_port pod) = true.

Definition loop_inv (dn : list Json) (v : netInterface * bool * string) : Prop :=
  let '(ns, defaultInterface, ovnString) := v in
  ns = last_ns Decode zeroNetInterface dn /\ defaultInterface = asks_default Decode dn /\
  exists addrs, length addrs = length dn /\
    ovnString = "[" +:+ Terminated (zip_with render addrs
      (map (fun ns => (Some (DefaultGateway ns), Interface ns)) (decode_all Decode zeroNetInterface dn))) ",".

Lemma length_decode_all ns objs : length (decode_all Decode ns objs) = length objs.
Proof. revert ns. induction objs; intros ns; simpl; congruence. Qed.

Lemma pod_port_self pod : of_pod pod (pod_port pod).
Proof. apply Contains_spec. exists "", "". by rewrite append_empty_r. Qed.

Lemma pod_port_suffix pod i : of_pod pod (pod_Namespace pod +:+ "_" +:+ pod_Name pod +:+ "_" +:+ i).
Proof. apply Contains_spec. exists "", ("_" +:+ i). unfold pod_port. by rewrite !append_assoc. Qed.

(** The early returns of the loop give the empty pair. *)
Definition nothing (kv : string * string) : Prop := kv = ("", "").

Lemma port_ok_find P name : port_ok P (FindLogicalSwitch name) (fun _ => True).
Proof.
  unfold FindLogicalSwitch. eapply port_ok_bind; [apply port_ok_nb|].
  { intros p. cbn. by rewrite bool_decide_eq_false_2 by done. }
  intros [[o se] err] _. case_match; by apply port_ok_ret.
Qed.

Lemma port_ok_add_port pod dn net v :
  loop_inv dn v ->
  port_ok (of_pod pod) (add_port Decode pod net v) (fun r =>
    match r with inl v' => loop_inv (dn ++ [net]) v' | inr ret => nothing ret end).
Proof.
  destruct v as [[ns def] str]. intros (-> & -> & addrs & Hlen & ->).
  unfold add_port. set (ns0 := last_ns Decode zeroNetInterface dn).
  assert (Hns : normalise (Decode net ns0).1 = last_ns Decode zeroNetInterface (dn ++ [net]))
    by (symmetry; apply last_ns_snoc).
  destruct (Decode net ns0) as [ns1 err] eqn:Hdec. cbn [fst] in Hns.
  case_match; [by apply port_ok_ret|]. eapply port_ok_bind; [apply port_ok_find|].
  intros found _. destruct found; cbn [negb]; [|by apply port_ok_ret].
  case_match; [by apply port_ok_ret|]. fold (normalise ns1).
  eapply port_ok_bind.
  { apply port_ok_add. case_match; [apply pod_port_suffix|apply pod_port_self]. }
  intros outStr [->|(ip & mask & mac & gw & ->)]; [by apply port_ok_ret|].
  rewrite bool_decide_eq_false_2 by done.
  rewrite port_annotation_body, slice_last.
  eapply port_ok_bind; [by apply (port_ok_ret _ _ (eq (port_body ip mask mac gw)))|].
  intros ? <-. apply port_ok_ret. fold (normalise ns1). split; [done|]. split.
  - unfold asks_default. rewrite decode_all_snoc, existsb_app. fold ns0. rewrite Hdec. simpl.
    rewrite orb_false_r. assert (Hnm : ni_Name (normalise ns1) = ni_Name ns1)
      by (unfold normalise; by repeat case_match).
    rewrite Hnm. destruct (ni_Name ns1 == Ovn4nfvDefaultNw); by rewrite ?orb_true_r, ?orb_false_r.
  - exists (addrs ++ [Build_port_addrs ip mask mac gw]).
    split; [by rewrite !length_app, Hlen|].
    rewrite decode_all_snoc, map_app, zip_with_app by (by rewrite length_map, length_decode_all).
    fold ns0. rewrite Hdec. cbn [fst map zip_with]. rewrite Terminated_snoc. unfold render.
    cbn [fst snd pa_ip pa_mask pa_mac pa_gw]. by rewrite !append_assoc.
Qed.

Lemma port_ok_add_default pod def str :
  port_ok (of_pod pod) (add_default_port pod def str) (fun r =>
    match r with
    | inl str' => if def then str' = str else exists a,
        str' = str +:+ render a (None, "*") +:+ ","
    | inr ret => nothing ret
    end).
Proof.
  unfold add_default_port. destruct def; [by apply port_ok_ret|].
  eapply port_ok_bind; [apply port_ok_add, pod_port_self|].
  intros outStr [->|(ip & mask & mac & gw & ->)]; [by apply port_ok_ret|].
  rewrite bool_decide_eq_false_2 by done.
  rewrite port_annotation_body, slice_last.
  eapply port_ok_bind; [by apply (port_ok_ret _ _ (eq (port_body ip mask mac gw)))|].
  intros ? <-. apply port_ok_ret. by exists (Build_port_addrs ip mask mac gw).
Qed.

(** The result of [AddLogicalPorts]: nothing, or the annotation. *)
Definition ports_result (objs : list Json) (kv : string * string) : Prop :=
  nothing kv \/ exists addrs, length addrs = length (requested Decode objs) /\
    kv = (Ovn4nfvAnnotationTag, annotation addrs (requested Decode objs)).

Lemma requested_not_nil objs : requested Decode objs <> [].
Proof.
  unfold requested, asks_default. destruct (decode_all Decode zeroNetInterface objs); [done|].
  done.
Qed.

Lemma port_ok_AddLogicalPorts pod objs :
  port_ok (of_pod pod) (AddLogicalPorts Decode pod objs) (ports_result objs).
Proof.
  unfold AddLogicalPorts. case_match; [by apply port_ok_ret; left|].
  case_match; [by apply port_ok_ret; left|].
  eapply port_ok_bind.
  { apply (port_ok_for_range _ _ loop_inv nothing).
    - split; [done|]. split; [done|]. by exists [].
    - intros. by apply port_ok_add_port. }
  intros [[[ns def] str]|ret]; [|by intros Hn; apply port_ok_ret; left].
  intros (-> & -> & addrs & Hlen & ->). eapply port_ok_bind; [apply port_ok_add_default|].
  set (reqs := map _ _).
  intros [str'|ret]; [|by intros Hn; apply port_ok_ret; left]. intros Hstr.
  assert (Hfin : exists addrs', length addrs' = length (requested Decode objs) /\
    str' = "[" +:+ Terminated (zip_with render addrs' (requested Decode objs)) ",").
  { unfold requested. fold reqs. destruct (asks_default Decode objs).
    - exists addrs. rewrite app_nil_r. split; [|done].
      unfold reqs. by rewrite length_map, length_decode_all.
    - destruct Hstr as [a ->]. exists (addrs ++ [a]). rewrite !length_app. unfold reqs at 1 2.
      rewrite length_map, length_decode_all, Hlen. split; [done|].
      rewrite zip_with_app by (unfold reqs; by rewrite length_map, length_decode_all).
      cbn [zip_with]. rewrite Terminated_snoc. by rewrite !append_assoc. }
  destruct Hfin as (addrs' & Hl & ->).
  assert (Hne : zip_with render addrs' (requested Decode objs) <> []).
  { assert (Hr := requested_not_nil objs). destruct (requested Decode objs); [done|].
    by destruct addrs'. }
  rewrite Terminated_Join by done. set (txt := Join _ _).
  change (String "[" "" +:+ txt +:+ ",") with (("[" +:+ txt) +:+ ","). rewrite slice_last.
  eapply port_ok_bind; [by apply (port_ok_ret _ _ (eq ("[" +:+ txt)))|].
  intros ? <-. apply port_ok_ret. right. exists addrs'. split; [done|].
  unfold annotation. by rewrite append_assoc.
Qed.
End add_ports.

(** ** Removal *)

Section delete_ports.
Context {E : Type} `{!ExecWorld E}.

Definition del_port_args (p : string) : list string := ["--if-exists"; "lsp-del"; p].

Lemma wp_delete_ports h port ports s :
  runner (glob s) = Some h ->
  wp (for_range (delete_port port) ports ()) (fun r s' es =>
    r = Val (inl ()) /\ glob s' = glob s /\
    cmds es = map (fun p => nb_cmd h (del_port_args p)) (filter (fun p => Contains p port = true) ports)) s.
Proof.
  intros Hr. apply (wp_for_range _ (fun dn _ s' es => glob s' = glob s /\
    cmds es = map (fun p => nb_cmd h (del_port_args p))
                  (filter (fun p => Contains p port = true) dn))); [done| |].
  2: intros [] s' es [Hg Hes]; split; [done|]; by split.
  intros dn p rest [] s1 es1 _ [Hg Hes]. unfold delete_port.
  destruct (Contains p port) eqn:Hc; rewrite filter_app, map_app.
  - rewrite filter_cons_True, filter_nil by done. wp_step. eapply wp_RunOVNNbctl; [by rewrite Hg|].
    intros. wp_steps. split; [done|]. rewrite cmds_app, Hes. done.
  - rewrite filter_cons_False, filter_nil by congruence. wp_steps. split; [done|].
    by rewrite !app_nil_r.
Qed.

(** ** Properties *)

(** A deletion of a pod's ports, seen from outside. *)
Definition delete_post (h : execHelper) (name namespace : string) (s : St E)
    (r : Res ()) (s' : St E) (es : list Event) : Prop :=
  r = Val () /\ glob s' = glob s /\
  exists o se err tl, es = ECmd (nbctlPath h) (nb_argv h ovsCommandTimeout pod_ports_args) o se err :: tl /\
    cmds tl = match err with
              | Some _ => []
              | None => map (fun p => nb_cmd h (del_port_args p))
                  (filter (fun p => Contains p (namespace +:+ "_" +:+ name) = true)
                          (Fields (nb_out o)))
              end.

Lemma wp_DeleteLogicalPorts name namespace s h :
  runner (glob s) = Some h ->
  wp (DeleteLogicalPorts name namespace) (delete_post h name namespace s) s.
Proof.
  intros Hr. unfold DeleteLogicalPorts. wp_step. eapply wp_RunOVNNbctl; [done|].
  intros o se err e1. cbn [after]. destruct err as [x|].
  { wp_steps. split; [done|]. split; [done|]. by exists o, se, (Some x), []. }
  wp_step. eapply wp_mono; [|by apply (wp_delete_ports h)].
  intros r s' es (-> & Hg & Hes). cbn [after]. wp_steps.
  split; [done|]. split; [done|]. exists o, se, None, es. by rewrite app_nil_r.
Qed.

(** deleting a pod's ports lists the ports of pods once and then removes,
    one command each and whatever each one answers, exactly the listed ports
    whose name contains namespace_name; a failed listing removes nothing. *)
Theorem DeleteLogicalPorts_exact name namespace s h :
  runner (glob s) = Some h ->
  wp (DeleteLogicalPorts name namespace) (delete_post h name namespace s) s.
Proof. apply wp_DeleteLogicalPorts. Qed.
End delete_ports.

Section port_properties.
Context {E : Type} `{!ExecWorld E}.
Variable Decode : Json -> netInterface -> netInterface * option error.


(** every port that [AddLogicalPorts] adds has a name that contains
    namespace_name, so that [DeleteLogicalPorts] of the pod, given a listing
    with that port, removes it. *)
Theorem added_ports_are_deleted pod objs (s : St E) h oc :
  runner (glob s) = Some h -> ovnCtl (glob s) = Some oc ->
  wp (AddLogicalPorts Decode pod objs) (fun _ _ es =>
    forall path a o se err port, ECmd path a o se err ∈ es -> added_port a = Some port ->
      forall s2 h2, runner (glob s2) = Some h2 ->
        wp (DeleteLogicalPorts (pod_Name pod) (pod_Namespace pod)) (fun _ _ es2 =>
          forall o2 se2 tl,
            es2 = ECmd (nbctlPath h2) (nb_argv h2 ovsCommandTimeout pod_ports_args) o2 se2 None :: tl ->
            port ∈ Fields (nb_out o2) -> nb_cmd h2 (del_port_args port) ∈ cmds tl) s2) s.
Proof.
  intros Hr Ho. eapply wp_mono; [|by eapply (port_ok_AddLogicalPorts Decode pod objs)].
  intros r s' es (_ & Hadd & _) path a o se err port Hin Hport s2 h2 Hr2.
  rewrite Forall_forall in Hadd. specialize (Hadd _ Hin port Hport).
  unfold DeleteLogicalPorts. wp_step. eapply wp_RunOVNNbctl; [done|].
  intros o1 se1 err1 e1. cbn [after]. destruct err1 as [x|]; [by wp_steps|].
  wp_step. eapply wp_mono; [|by apply (wp_delete_ports h2)].
  intros r2 s3 es3 (-> & _ & Hes). cbn [after]. wp_steps.
  intros o2 se2 tl [= <- <- <-] Hf. rewrite app_nil_r, Hes.
  apply list_elem_of_fmap. exists port. split; [done|]. by apply list_elem_of_filter.
Qed.

(** a pod on the host network, or one that has the annotation, gets no
    port and no annotation: nothing is run. *)
Theorem AddLogicalPorts_noop pod objs (s : St E) :
  HostNetwork pod = true \/ is_Some (Annotations pod !! Ovn4nfvAnnotationTag) ->
  AddLogicalPorts Decode pod objs s = (Val ("", ""), s, []).
Proof.
  intros [H|H]; unfold AddLogicalPorts; [by rewrite H|].
  destruct (HostNetwork pod); [done|]. by rewrite bool_decide_eq_true_2.
Qed.

(** The commands of a poll: the read, repeated while it answers the empty
    list, with a pause of one second after each. *)
Definition poll_round (h : execHelper) (args : list string) (o : string * string) : list Event :=
  [ECmd (nbctlPath h) (nb_argv h ovsCommandTimeout args) o.1 o.2 None; ESleep 1].

(** the polling for a port's addresses ends: after at most [count] reads,
    each unanswered one followed by a one-second pause.  It gives the first
    answer that is not the empty list, the error of the first failed read,
    or, when all reads were unanswered, no value and no error. *)
Theorem poll_addresses_bounded count args (s : St E) h :
  runner (glob s) = Some h ->
  wp (poll_addresses count args) (fun r s' es =>
    glob s' = glob s /\ exists l, Forall (fun o => nb_out o.1 = "[]") l /\ (length l <= count)%nat /\
      let waits := flat_map (poll_round h args) l in
      (length l = count /\ r = Val (inr None) /\ es = waits) \/
      (length l < count)%nat /\ exists o se err,
        es = waits ++ [ECmd (nbctlPath h) (nb_argv h ovsCommandTimeout args) o se err] /\
        match err with
        | Some e => r = Val (inr (Some e))
        | None => nb_out o <> "[]" /\ r = Val (inl (nb_out o))
        end) s.
Proof.
  revert s. induction count as [|n IH]; intros s Hr; cbn [poll_addresses].
  { apply wp_ret. split; [done|]. exists []. split; [done|]. split; [done|]. by left. }
  wp_step. eapply wp_RunOVNNbctl; [done|]. intros o se err e1. cbn [after].
  destruct err as [x|]; [|destruct (nb_out o == "[]") eqn:Ho].
  - wp_steps. split; [done|]. exists []. split; [done|]. split; [simpl; lia|]. right.
    split; [simpl; lia|]. by exists o, se, (Some x).
  - apply bool_decide_eq_true in Ho. wp_step. unfold Sleep. apply wp_ask. intros [] e2. split; [done|].
    cbn [after]. eapply wp_mono; [|by apply (IH (mkSt (glob s) e2))].
    intros r s' es [Hg (l & Hl & Hlen & Hout)]. split; [done|]. exists ((o, se) :: l).
    split; [by constructor|]. split; [simpl; lia|].
    destruct Hout as [(<- & -> & ->)|(Hlt & o' & se' & err' & -> & Hres)]; [by left|right].
    split; [simpl; lia|]. by exists o', se', err'.
  - apply bool_decide_eq_false in Ho. wp_steps. split; [done|]. exists []. split; [done|].
    split; [simpl; lia|]. right. split; [simpl; lia|]. by exists o, se, None.
Qed.
End port_properties.

(** ** Concrete runs *)

(** A decoder of the string members "name" and "interface" of an object. *)
Definition demo_member (ns : netInterface) (kv : string * Json) : netInterface :=
  match kv.2 with
  | JString v =>
      if kv.1 == "name" then mkNetInterface v (Interface ns) (NetType ns) (DefaultGateway ns)
        (IPAddress ns) (MacAddress ns) (GWIPaddress ns)
      else if kv.1 == "interface" then set_Interface v ns else ns
  | _ => ns
  end.
Definition demo_Decode (net : Json) (ns : netInterface) : netInterface * option error :=
  match net with
  | JObject ms => (foldl demo_member ns ms, None)
  | _ => (ns, Errorf "expected a map")
  end.

(** A database with every switch, one address for every port, and two pods. *)
Definition port_db : ExecWorld Z := reply_world (fun args =>
  if nth 4 args "" == "find" then
    if nth 5 args "" == "logical_switch" then (drop_string 5 (nth 6 args ""), "", None)
    else ("default_pod1 default_pod1_net1 other_pod1", "", None)
  else if nth 1 args "" == "get" then (dq +:+ "0a:00:00:00:00:01 10.1.0.5" +:+ dq, "", None)
  else if nth 2 args "" == "get" then (dq +:+ "10.1.0.1/16" +:+ dq, "", None)
  else ("", "", None)).

Definition demo_pod (annotations : gmap string string) : Pod :=
  Build_Pod "pod1" "default" false "node1" annotations [].
Definition demo_obj (name interface : string) : Json :=
  JObject [("name", JString name); ("interface", JString interface)].
Definition demo_objs : list Json := [demo_obj "nw1" "net1"; demo_obj "nw2" "net2"].

Lemma DeleteLogicalPorts_exact_witness :
  wp (@DeleteLogicalPorts Z port_db "pod1" "default") (delete_post demo_helper "pod1" "default" demo_state)
    demo_state /\
  cmds (@DeleteLogicalPorts Z port_db "pod1" "default" demo_state).2 =
    map (nb_cmd demo_helper)
      [pod_ports_args; del_port_args "default_pod1"; del_port_args "default_pod1_net1"].
Proof.
  split; [|vm_compute; reflexivity].
  exact (@DeleteLogicalPorts_exact Z port_db "pod1" "default" demo_state demo_helper eq_refl).
Defined.


Lemma added_ports_are_deleted_witness :
  wp (@AddLogicalPorts Z port_db demo_Decode (demo_pod ∅) demo_objs) (fun _ _ es =>
    forall path a o se err port, ECmd path a o se err ∈ es -> added_port a = Some port ->
      forall s2 h2, runner (glob s2) = Some h2 ->
        wp (@DeleteLogicalPorts Z port_db "pod1" "default") (fun _ _ es2 =>
          forall o2 se2 tl,
            es2 = ECmd (nbctlPath h2) (nb_argv h2 ovsCommandTimeout pod_ports_args) o2 se2 None :: tl ->
            port ∈ Fields (nb_out o2) -> nb_cmd h2 (del_port_args port) ∈ cmds tl) s2) demo_ctl_state /\
  omap (fun c => added_port c.2)
    (cmds (@AddLogicalPorts Z port_db demo_Decode (demo_pod ∅) demo_objs demo_ctl_state).2)
  = ["default_pod1_net1"; "default_pod1_net2"; "default_pod1"].
Proof.
  split; [|vm_compute; reflexivity].
  exact (@added_ports_are_deleted Z port_db demo_Decode (demo_pod ∅) demo_objs demo_ctl_state
    demo_helper (Build_Controller ∅) eq_refl eq_refl).
Defined.

Lemma AddLogicalPorts_noop_witness :
  @AddLogicalPorts Z port_db demo_Decode (demo_pod (<[Ovn4nfvAnnotationTag := "[]"]> ∅)) demo_objs demo_state
  = (Val ("", ""), demo_state, []).
Proof.
  apply (@AddLogicalPorts_noop Z port_db demo_Decode (demo_pod (<[Ovn4nfvAnnotationTag := "[]"]> ∅))).
  right. exists "[]". reflexivity.
Defined.

(** A database where the address of a port shows up at the third read. *)
Definition slow_db : ExecWorld Z := {|
  run_cmd _ _ n := if (n <? 2)%Z then ("[]", "", None, (n + 1)%Z) else ("0a:00:00:00:00:01 10.1.0.5", "", None, n);
  look_path f n := (f, None, n);
  getenv _ n := ("", n);
  pause _ n := n;
  random n := (0%Z, n);
  map_picks n := ([], n)
|}.

Lemma poll_addresses_bounded_witness :
  let args := port_args "p" "dynamic_addresses" in
  wp (@poll_addresses Z slow_db 30 args) (fun r s' es =>
    glob s' = glob demo_state /\
    exists l, Forall (fun o => nb_out o.1 = "[]") l /\ (length l <= 30)%nat /\
      let waits := flat_map (poll_round demo_helper args) l in
      (length l = 30%nat /\ r = Val (inr None) /\ es = waits) \/
      (length l < 30)%nat /\ exists o se err,
        es = waits ++ [ECmd "nbctl" (nb_argv demo_helper ovsCommandTimeout args) o se err] /\
        match err with
        | Some e => r = Val (inr (Some e))
        | None => nb_out o <> "[]" /\ r = Val (inl (nb_out o))
        end) demo_state /\
  (@poll_addresses Z slow_db 30 args demo_state).1.1 = Val (inl "0a:00:00:00:00:01 10.1.0.5") /\
  (@poll_addresses Z slow_db 2 args demo_state).1.1 = Val (inr None).
Proof.
  split; [|split; vm_compute; reflexivity].
  exact (@poll_addresses_bounded Z slow_db 30 (port_args "p" "dynamic_addresses") demo_state demo_helper eq_refl).
Defined.
