(* ===== verification/Nbctl.v ===== *)
(** * Nbctl: what the program relies on of ovn-nbctl and its database

    ovn-nbctl is not part of the repository.  What its manual page says of the
    commands that the program runs is stated here, as an abstract database
    [Nb], the effect [exec] of a transaction on it, and the interface
    [NbServer]: an execution environment with such a database behind one of its
    executables.  A failed run may have changed nothing or everything (the
    transaction commits before [--wait] does), except that a refused connection
    changes nothing.  A command line that [nb_parse] does not read is not
    constrained.  [nb_interpreter] is an instance.

    The rule [wp_RunOVNNbctl_nb] carries [NbServer] through the retries of
    [RunOVNNbctl]. *)

From S2P Require Import Prelude.
From S2P Require Import GoStrings.
From S2P Require Import Types.
From S2P Require Import World.
From S2P Require Import Runner.
From S2P Require Import OvnCommon.
From Stdlib Require Import Ascii.

#[local] Open Scope string_scope.
#[local] Open Scope list_scope.

(** ** Texts

    [plain]: a text that needs no quoting on the command line or in a value,
    and is not an option. *)
Definition is_alnum (c : ascii) : bool :=
  is_digit c || is_upper c || ascii_between "a" "z" c.
Definition plain_char (c : ascii) : bool :=
  is_alnum c || Ascii.eqb c "-" || Ascii.eqb c "_" || Ascii.eqb c "." || Ascii.eqb c ":"
  || Ascii.eqb c "/" || Ascii.eqb c "*".
Definition text_char (c : ascii) : bool := plain_char c || Ascii.eqb c " ".

Definition starts_text (p : ascii -> bool) (s : string) : bool :=
  match s with
  | EmptyString => false
  | String c s' => negb (Ascii.eqb c "-") && string_forall p s
  end.
Definition plain : string -> bool := starts_text plain_char.
(** The same with blanks inside. *)
Definition texty : string -> bool := starts_text text_char.

(** ** The database *)

Record Switch := mkSwitch { other_config : gmap string string; sw_external_ids : gmap string string }.
Record SPort := mkSPort {
  sp_switch : string; sp_type : string; sp_addresses : string;
  sp_options : gmap string string; sp_external_ids : gmap string string
}.
Record RPort := mkRPort {
  rp_router : string; rp_mac : string; rp_network : string; rp_external_ids : gmap string string
}.
(** Columns that other processes write ([up], [dynamic_addresses]) are left out. *)
Record Nb := mkNb {
  routers : gmap string (gmap string string);   (* external_ids *)
  rports : gmap string RPort;
  switches : gmap string Switch;
  sports : gmap string SPort
}.

#[global] Instance Switch_eq_dec : EqDecision Switch.
Proof. solve_decision. Defined.
#[global] Instance SPort_eq_dec : EqDecision SPort.
Proof. solve_decision. Defined.
#[global] Instance RPort_eq_dec : EqDecision RPort.
Proof. solve_decision. Defined.
#[global] Instance Nb_eq_dec : EqDecision Nb.
Proof. solve_decision. Defined.

Definition empty_nb : Nb := mkNb ∅ ∅ ∅ ∅.
Definition emptySwitch : Switch := mkSwitch ∅ ∅.
Definition new_sport (sw : string) : SPort := mkSPort sw "" "" ∅ ∅.
Definition new_rport (r mac net : string) : RPort := mkRPort r mac net ∅.

Definition set_routers f db := mkNb (f (routers db)) (rports db) (switches db) (sports db).
Definition set_rports f db := mkNb (routers db) (f (rports db)) (switches db) (sports db).
Definition set_switches f db := mkNb (routers db) (rports db) (f (switches db)) (sports db).
Definition set_sports f db := mkNb (routers db) (rports db) (switches db) (f (sports db)).

(** ** Commands

    The commands that add carry [--may-exist], those that remove or read
    [--if-exists], as in the program. *)
Inductive table := TRouter | TSwitch | TSPort | TRPort.

Record setting := mkSetting { set_column : string; set_key : string; set_value : string }.

Inductive nb_op :=
| LrAdd (r : string)
| LrpAdd (r p mac net : string)
| LrpDel (p : string)
| LsAdd (sw : string)
| LsDel (sw : string)
| LspAdd (sw p : string)
| LspDel (p : string)
| LspSetAddresses (p a : string)
| LspSetType (p t : string)
| LspSetOptions (p k v : string)
| DbSet (t : table) (row : string) (ss : list setting)
| ClearDynamic (p : string)
| FindSwitch (sw : string)           (* find logical_switch name=sw *)
| FindPodPorts                       (* find logical_switch_port external_ids:pod=true *)
| GetMac (p : string)                (* get logical_router_port p mac *)
| GetSwitch (sw : string) (ext : bool) (key : string) (* external_ids:key or other_config:key *)
| GetPort (p c : string).            (* a column that is not modelled *)

(** *** Reading a command line *)

Definition is_opt (t : string) : bool := HasPrefix t "--".

(** The words between two separators. *)
Fixpoint split_commands (args : list string) : list (list string) :=
  match args with
  | [] => [[]]
  | a :: args' =>
      if String.eqb a "--" then [] :: split_commands args'
      else match split_commands args' with
           | w :: ws => (a :: w) :: ws
           | [] => [[a]]
           end
  end.

Fixpoint take_opts (w : list string) : list string * list string :=
  match w with
  | a :: w' => if is_opt a then let '(os, rest) := take_opts w' in (a :: os, rest) else ([], w)
  | [] => ([], [])
  end.

Definition has_opt (o : string) (os : list string) : bool := existsb (String.eqb o) os.
(** ovn-nbctl takes unambiguous abbreviations of an option. *)
Definition if_exists (os : list string) : bool :=
  has_opt "--if-exists" os || has_opt "--if-exist" os.

(** The text before and after the first character that [p] holds of. *)
Fixpoint cut_at (p : ascii -> bool) (s : string) : option (string * ascii * string) :=
  match s with
  | EmptyString => None
  | String c s' =>
      if p c then Some (EmptyString, c, s')
      else match cut_at p s' with
           | Some (a, d, b) => Some (String c a, d, b)
           | None => None
           end
  end.

Definition unquote (v : string) : option string :=
  if plain v then Some v
  else match v with
       | String c v' =>
           if Ascii.eqb c quote then
             match cut_at (Ascii.eqb quote) v' with
             | Some (w, _, EmptyString) => if plain w then Some w else None
             | _ => None
             end
           else None
       | EmptyString => None
       end.

(** [column=value] or [column:key=value]; the manual takes - for _ in names. *)
Definition parse_setting (s : string) : option setting :=
  '(c, d, rest) ← cut_at (fun c => Ascii.eqb c ":" || Ascii.eqb c "=") s;
  if Ascii.eqb d "=" then v ← unquote rest; Some (mkSetting c "" v)
  else '(k, _, v) ← cut_at (Ascii.eqb "=") rest; v ← unquote v; Some (mkSetting c k v).

Definition parse_table (t : string) : option table :=
  if String.eqb t "logical_switch" then Some TSwitch
  else if String.eqb t "logical_switch_port" then Some TSPort
  else if String.eqb t "logical_router" then Some TRouter
  else if String.eqb t "logical_router_port" then Some TRPort
  else None.

Definition guarded {A} (b : bool) (a : A) : option A := if b then Some a else None.

(** A command that takes its arguments by position. *)
Definition parse_ports (os : list string) (cmd : string) (args : list string) : option nb_op :=
  match args with
  | [a] =>
      if String.eqb cmd "lr-add" then guarded (has_opt "--may-exist" os && plain a) (LrAdd a)
      else if String.eqb cmd "ls-add" then guarded (has_opt "--may-exist" os && plain a) (LsAdd a)
      else if String.eqb cmd "lrp-del" then guarded (if_exists os && plain a) (LrpDel a)
      else if String.eqb cmd "ls-del" then guarded (if_exists os && plain a) (LsDel a)
      else if String.eqb cmd "lsp-del" then guarded (if_exists os && plain a) (LspDel a)
      else None
  | [a; b] =>
      if String.eqb cmd "lsp-add" then
        guarded (has_opt "--may-exist" os && plain a && plain b) (LspAdd a b)
      else if String.eqb cmd "lsp-set-addresses" then
        guarded (plain a && texty b) (LspSetAddresses a b)
      else if String.eqb cmd "lsp-set-type" then guarded (plain a && plain b) (LspSetType a b)
      else if String.eqb cmd "lsp-set-options" then
        '(k, _, v) ← cut_at (Ascii.eqb "=") b;
        guarded (plain a && plain k && plain v) (LspSetOptions a k v)
      else None
  | [a; b; c; d] =>
      if String.eqb cmd "lrp-add" then
        guarded (has_opt "--may-exist" os && plain a && plain b && plain c && plain d)
          (LrpAdd a b c d)
      else None
  | _ => None
  end.

(** The database commands. *)
Definition parse_db (os : list string) (cmd : string) (args : list string) : option nb_op :=
  match args with
  | t :: row :: rest =>
      if String.eqb cmd "set" then
        t ← parse_table t; ss ← mapM parse_setting rest; guarded (plain row) (DbSet t row ss)
      else if String.eqb cmd "clear" then
        guarded (if_exists os && String.eqb t "logical_switch_port" && plain row
                 && bool_decide (rest = ["dynamic_addresses"])) (ClearDynamic row)
      else if String.eqb cmd "find" then
        if negb (has_opt "--data=bare" os && has_opt "--no-heading" os && has_opt "--columns=name" os
                 && bool_decide (rest = [])) then None
        else if String.eqb t "logical_switch_port" then
          guarded (String.eqb row "external_ids:pod=true") FindPodPorts
        else if String.eqb t "logical_switch" then
          '(k, _, v) ← cut_at (Ascii.eqb "=") row; guarded (String.eqb k "name" && plain v) (FindSwitch v)
        else None
      else if String.eqb cmd "get" then
        match rest with
        | [c] =>
            if String.eqb t "logical_router_port" then
              guarded (if_exists os && String.eqb c "mac" && plain row) (GetMac row)
            else if String.eqb t "logical_switch" then
              '(col, _, k) ← cut_at (Ascii.eqb ":") c;
              if String.eqb col "external_ids" then guarded (if_exists os && plain row) (GetSwitch row true k)
              else if String.eqb col "other_config" then guarded (if_exists os && plain row) (GetSwitch row false k)
              else None
            else if String.eqb t "logical_switch_port" then
              guarded (plain row) (GetPort row c)
            else None
        | _ => None
        end
      else None
  | _ => None
  end.

Definition parse_command (w : list string) : option (list nb_op) :=
  let '(os, rest) := take_opts w in
  match rest with
  | [] => Some []
  | cmd :: args =>
      match parse_ports os cmd args with
      | Some op => Some [op]
      | None => op ← parse_db os cmd args; Some [op]
      end
  end.

(** The transaction that a command line asks for. *)
Definition nb_parse (args : list string) : option (list nb_op) :=
  ops ← mapM parse_command (split_commands args); Some (concat ops).

(** *** Effects

    [None]: the command fails. *)
Inductive answer := Text (t : string) | Names (l : list string) | Anything.

Definition underscore (s : string) : string := ReplaceAll s "-" "_".

Definition set_in (ss : setting) (x : gmap string string) : gmap string string :=
  <[set_key ss := set_value ss]> x.

Definition set_switch_col (x : Switch) (s : setting) : option Switch :=
  if String.eqb (underscore (set_column s)) "other_config" then
    Some (mkSwitch (set_in s (other_config x)) (sw_external_ids x))
  else if String.eqb (underscore (set_column s)) "external_ids" then
    Some (mkSwitch (other_config x) (set_in s (sw_external_ids x)))
  else None.

Definition set_sport_col (x : SPort) (s : setting) : option SPort :=
  if String.eqb (set_column s) "type" then
    Some (mkSPort (sp_switch x) (set_value s) (sp_addresses x) (sp_options x) (sp_external_ids x))
  else if String.eqb (set_column s) "addresses" then
    Some (mkSPort (sp_switch x) (sp_type x) (set_value s) (sp_options x) (sp_external_ids x))
  else if String.eqb (set_column s) "options" then
    Some (mkSPort (sp_switch x) (sp_type x) (sp_addresses x) (set_in s (sp_options x)) (sp_external_ids x))
  else if String.eqb (underscore (set_column s)) "external_ids" then
    Some (mkSPort (sp_switch x) (sp_type x) (sp_addresses x) (sp_options x) (set_in s (sp_external_ids x)))
  else None.

Definition set_rport_col (x : RPort) (s : setting) : option RPort :=
  if String.eqb (underscore (set_column s)) "external_ids" then
    Some (mkRPort (rp_router x) (rp_mac x) (rp_network x) (set_in s (rp_external_ids x)))
  else None.

Definition set_router_col (x : gmap string string) (s : setting) : option (gmap string string) :=
  if String.eqb (underscore (set_column s)) "external_ids" then Some (set_in s x) else None.

Fixpoint fold_opt {A B} (f : A -> B -> option A) (a : A) (l : list B) : option A :=
  match l with
  | [] => Some a
  | b :: l' => a' ← f a b; fold_opt f a' l'
  end.

(** Changing one row of a table, which must be there. *)
Definition change {A} (k : string) (f : A -> option A) (m : gmap string A) : option (gmap string A) :=
  x ← m !! k; y ← f x; Some (<[k := y]> m).

(** Adding a row, unless it is there. *)
Definition ensure {A} (k : string) (x : A) (m : gmap string A) : gmap string A :=
  match m !! k with Some _ => m | None => <[k := x]> m end.

Definition is_pod_port (x : SPort) : bool := sp_external_ids x !! "pod" == Some "true".

Definition pod_ports (db : Nb) : list string :=
  map fst (filter (fun kv => is_pod_port kv.2 = true) (map_to_list (sports db))).

Definition exec_set (t : table) (row : string) (ss : list setting) (db : Nb) : option Nb :=
  match t with
  | TRouter => m ← change row (fun x => fold_opt set_router_col x ss) (routers db); Some (set_routers (fun _ => m) db)
  | TRPort => m ← change row (fun x => fold_opt set_rport_col x ss) (rports db); Some (set_rports (fun _ => m) db)
  | TSwitch => m ← change row (fun x => fold_opt set_switch_col x ss) (switches db); Some (set_switches (fun _ => m) db)
  | TSPort => m ← change row (fun x => fold_opt set_sport_col x ss) (sports db); Some (set_sports (fun _ => m) db)
  end.

Definition change_sport (p : string) (f : SPort -> SPort) (db : Nb) : option Nb :=
  m ← change p (fun x => Some (f x)) (sports db); Some (set_sports (fun _ => m) db).

Definition exec_op (op : nb_op) (db : Nb) : option (Nb * answer) :=
  match op with
  | LrAdd r => Some (set_routers (ensure r ∅) db, Text "")
  | LrpAdd r p mac net =>
      match rports db !! p with
      | Some x =>
          guarded ((rp_router x == r) && (rp_mac x == mac) && (rp_network x == net)) (db, Text "")
      | None =>
          guarded (bool_decide (is_Some (routers db !! r)))
            (set_rports <[p := new_rport r mac net]> db, Text "")
      end
  | LrpDel p => Some (set_rports (delete p) db, Text "")
  | LsAdd sw => Some (set_switches (ensure sw emptySwitch) db, Text "")
  | LsDel sw =>
      Some (set_switches (delete sw)
             (set_sports (filter (fun kx => sp_switch kx.2 <> sw)) db), Text "")
  | LspAdd sw p =>
      match sports db !! p with
      | Some x => guarded (sp_switch x == sw) (db, Text "")
      | None =>
          guarded (bool_decide (is_Some (switches db !! sw)))
            (set_sports <[p := new_sport sw]> db, Text "")
      end
  | LspDel p => Some (set_sports (delete p) db, Text "")
  | LspSetAddresses p a =>
      db' ← change_sport p (fun x => mkSPort (sp_switch x) (sp_type x) a (sp_options x) (sp_external_ids x)) db;
      Some (db', Text "")
  | LspSetType p t =>
      db' ← change_sport p (fun x => mkSPort (sp_switch x) t (sp_addresses x) (sp_options x) (sp_external_ids x)) db;
      Some (db', Text "")
  | LspSetOptions p k v =>
      db' ← change_sport p (fun x => mkSPort (sp_switch x) (sp_type x) (sp_addresses x) {[k := v]} (sp_external_ids x)) db;
      Some (db', Text "")
  | DbSet t row ss => db' ← exec_set t row ss db; Some (db', Text "")
  | ClearDynamic _ => Some (db, Text "")
  | FindSwitch sw => Some (db, Text (match switches db !! sw with Some _ => sw | None => "" end))
  | FindPodPorts => Some (db, Names (pod_ports db))
  | GetMac p => Some (db, Text (match rports db !! p with Some x => rp_mac x | None => "" end))
  | GetSwitch sw ext k =>
      Some (db, Text (default "" (x ← switches db !! sw;
                                  (if ext then sw_external_ids x else other_config x) !! k)))
  | GetPort _ _ => Some (db, Anything)
  end.

(** A transaction: all of it or nothing; the answer is the last one. *)
Fixpoint exec_ops (ops : list nb_op) (db : Nb) (a : answer) : option (Nb * answer) :=
  match ops with
  | [] => Some (db, a)
  | op :: ops' => '(db', a') ← exec_op op db; exec_ops ops' db' a'
  end.
Definition exec (ops : list nb_op) (db : Nb) : option (Nb * answer) := exec_ops ops db (Text "").

(** ** Well-formed databases

    Ports are on switches and routers that exist, which the database sees to
    itself, and the names that the program makes are plain. *)
Record nb_wf (db : Nb) : Prop := {
  wf_sport p x : sports db !! p = Some x -> is_Some (switches db !! sp_switch x) /\ plain p = true;
  wf_rport p x : rports db !! p = Some x -> is_Some (routers db !! rp_router x) /\ plain (rp_mac x) = true
}.

(** What the caller reads for an answer (its text is trimmed by [nb_out]). *)
Definition reads (a : answer) (o : string) : Prop :=
  match a with
  | Text t => plain t || String.eqb t "" = true -> o = t
  | Names l => forallb plain l = true -> Fields o ≡ₚ l
  | Anything => True
  end.

(** One run: [o] is what the caller reads. *)
Definition nb_step (ops : list nb_op) (db : Nb) (o : string) (err : option error) (db' : Nb) : Prop :=
  match err with
  | None => exists a, exec ops db = Some (db', a) /\ reads a o
  | Some _ => db' = db \/ exists a, exec ops db = Some (db', a)
  end.

(** *** Transactions keep the database well-formed *)

Definition op_ok (op : nb_op) : bool :=
  match op with LrpAdd _ _ mac _ => plain mac | LspAdd _ p => plain p | _ => true end.

Lemma change_Some {A} k (f : A -> option A) m m' :
  change k f m = Some m' -> exists x y, m !! k = Some x /\ f x = Some y /\ m' = <[k := y]> m.
Proof.
  unfold change. intros (x & Hx & H)%bind_Some. apply bind_Some in H as (y & Hy & [= <-]). eauto.
Qed.

Lemma fold_opt_keeps {A B C} (g : A -> C) (f : A -> B -> option A) l a a' :
  (forall a b a', f a b = Some a' -> g a' = g a) -> fold_opt f a l = Some a' -> g a' = g a.
Proof.
  intros Hf. revert a. induction l as [|b l IH]; intros a; cbn [fold_opt]; [by intros [= <-]|].
  intros (a1 & H1 & H2)%bind_Some. rewrite (IH _ H2). by eapply Hf.
Qed.

Lemma set_sport_col_switch x s x' : set_sport_col x s = Some x' -> sp_switch x' = sp_switch x.
Proof. unfold set_sport_col. repeat case_match; by intros [= <-]. Qed.

Lemma set_rport_col_keeps x s x' :
  set_rport_col x s = Some x' -> (rp_router x', rp_mac x') = (rp_router x, rp_mac x).
Proof. unfold set_rport_col. case_match; by intros [= <-]. Qed.

Lemma lookup_grows {A} (k k' : string) (x : A) (m : gmap string A) : is_Some (m !! k) -> is_Some (<[k' := x]> m !! k).
Proof. intros H. destruct (decide (k' = k)) as [->|]; [by rewrite lookup_insert_eq|by rewrite lookup_insert_ne]. Qed.

Lemma ensure_grows {A} (k k' : string) (x : A) (m : gmap string A) : is_Some (m !! k) -> is_Some (ensure k' x m !! k).
Proof. unfold ensure. case_match; [done|]. apply lookup_grows. Qed.

Lemma wf_sports_insert db p x :
  nb_wf db -> is_Some (switches db !! sp_switch x) -> plain p = true -> nb_wf (set_sports <[p := x]> db).
Proof.
  intros [Hs Hr] Hx Hp. constructor; cbn; [|done]. intros q y. destruct (decide (p = q)) as [->|].
  - rewrite lookup_insert_eq. by intros [= <-].
  - rewrite lookup_insert_ne by done. apply Hs.
Qed.

Lemma wf_sport_change db p x y :
  nb_wf db -> sports db !! p = Some x -> sp_switch y = sp_switch x -> nb_wf (set_sports <[p := y]> db).
Proof.
  intros Hwf Hx Hy. destruct (wf_sport _ Hwf _ _ Hx). apply wf_sports_insert; [done|by rewrite Hy|done].
Qed.

Lemma wf_rports_insert db p x :
  nb_wf db -> is_Some (routers db !! rp_router x) -> plain (rp_mac x) = true ->
  nb_wf (set_rports <[p := x]> db).
Proof.
  intros [Hs Hr] Hx Hp. constructor; cbn; [done|]. intros q y. destruct (decide (p = q)) as [->|].
  - rewrite lookup_insert_eq. by intros [= <-].
  - rewrite lookup_insert_ne by done. apply Hr.
Qed.

Lemma wf_switches db f :
  nb_wf db -> (forall k, is_Some (switches db !! k) -> is_Some (f (switches db) !! k)) ->
  nb_wf (set_switches f db).
Proof.
  intros [Hs Hr] Hf. constructor; cbn; [|done]. intros p x Hx. destruct (Hs p x Hx). eauto.
Qed.

Lemma wf_routers db f :
  nb_wf db -> (forall k, is_Some (routers db !! k) -> is_Some (f (routers db) !! k)) ->
  nb_wf (set_routers f db).
Proof.
  intros [Hs Hr] Hf. constructor; cbn; [done|]. intros p x Hx. destruct (Hr p x Hx). eauto.
Qed.

Lemma change_sport_wf p f db db' :
  (forall x, sp_switch (f x) = sp_switch x) -> nb_wf db -> change_sport p f db = Some db' -> nb_wf db'.
Proof.
  intros Hf Hwf. unfold change_sport. intros (m & Hm & [= <-])%bind_Some.
  apply change_Some in Hm as (x & y & Hx & [= <-] & ->). by eapply wf_sport_change.
Qed.

Lemma exec_set_wf t row ss db db' : nb_wf db -> exec_set t row ss db = Some db' -> nb_wf db'.
Proof.
  intros Hwf. destruct t; cbn; intros (m & (x & y & Hx & Hy & ->)%change_Some & [= <-])%bind_Some.
  - apply (wf_routers db (fun _ => _) Hwf). intros. by apply lookup_grows.
  - apply (wf_switches db (fun _ => _) Hwf). intros. by apply lookup_grows.
  - eapply wf_sport_change; [done..|]. by eapply fold_opt_keeps; [apply set_sport_col_switch|].
  - destruct (wf_rport _ Hwf _ _ Hx) as [? ?].
    assert (Hk := fold_opt_keeps (fun x => (rp_router x, rp_mac x)) _ _ _ _ set_rport_col_keeps Hy).
    injection Hk as H1 H2. apply wf_rports_insert; by rewrite ?H1, ?H2.
Qed.

Lemma exec_op_wf op db db' a :
  op_ok op = true -> nb_wf db -> exec_op op db = Some (db', a) -> nb_wf db'.
Proof.
  intros Hok Hwf. destruct op; cbn [exec_op op_ok] in *.
  - intros [= <- _]. apply wf_routers; [done|]. intros. by apply ensure_grows.
  - destruct (rports db !! p); unfold guarded.
    + case_match; [|done]. by intros [= <- _].
    + case_bool_decide; [|done]. intros [= <- _]. by apply wf_rports_insert.
  - intros [= <- _]. destruct Hwf as [Hs Hr]. constructor; cbn; [done|].
    intros q x [_ Hq]%lookup_delete_Some. by eapply Hr.
  - intros [= <- _]. apply wf_switches; [done|]. intros. by apply ensure_grows.
  - intros [= <- _]. destruct Hwf as [Hs Hr]. constructor; cbn; [|done].
    intros q x [Hq Hne]%map_lookup_filter_Some. cbn in Hne. rewrite lookup_delete_ne by done. by eapply Hs.
  - destruct (sports db !! p); unfold guarded; case_bool_decide; try done; intros [= <- _]; [done|].
    by apply wf_sports_insert.
  - intros [= <- _]. destruct Hwf as [Hs Hr]. constructor; cbn; [|done].
    intros q x [_ Hq]%lookup_delete_Some. by eapply Hs.
  - intros (db1 & H & [= <- _])%bind_Some. eapply change_sport_wf; [|done|exact H]. done.
  - intros (db1 & H & [= <- _])%bind_Some. eapply change_sport_wf; [|done|exact H]. done.
  - intros (db1 & H & [= <- _])%bind_Some. eapply change_sport_wf; [|done|exact H]. done.
  - intros (db1 & H & [= <- _])%bind_Some. by eapply exec_set_wf.
  - by intros [= <- _].
  - by intros [= <- _].
  - by intros [= <- _].
  - by intros [= <- _].
  - by intros [= <- _].
  - by intros [= <- _].
Qed.

Lemma exec_ops_wf ops db a db' a' :
  forallb op_ok ops = true -> nb_wf db -> exec_ops ops db a = Some (db', a') -> nb_wf db'.
Proof.
  revert db a. induction ops as [|op ops IH]; intros db a; cbn [exec_ops forallb]; [by intros _ ? [= <- _]|].
  intros [Hop Hops]%andb_true_iff Hwf ([db1 a1] & H1 & H)%bind_Some.
  eapply IH; [done|by eapply exec_op_wf|exact H].
Qed.

Lemma nb_step_wf ops db o err db' :
  forallb op_ok ops = true -> nb_wf db -> nb_step ops db o err db' -> nb_wf db'.
Proof.
  intros Hok Hwf. unfold nb_step. destruct err; [intros [->|[a Ha]]|intros (a & Ha & _)];
    [done|by eapply exec_ops_wf..].
Qed.

(** ** The interface *)

Class NbServer (E : Type) `{!ExecWorld E} := {
  nbctl : string;               (* the path of the executable *)
  nb : E -> Nb;
  nb_run h args ops e o se err e' :
    nbctlPath h = nbctl -> nb_parse args = Some ops ->
    run_cmd nbctl (nb_argv h ovsCommandTimeout args) e = ((o, se, err), e') ->
    nb_step ops (nb e) (nb_out o) err (nb e') /\
    (err <> None -> Contains se "Connection refused" = true -> nb e' = nb e) /\
    err <> Errorf "LS exists";  (* os/exec has no such error *)
  nb_pause z e : nb (pause z e) = nb e;
  nb_random e : nb (random e).2 = nb e
}.

Lemma plain_hex b : string_forall plain_char (fmt_02x b) = true.
Proof.
  assert (H : forall n, (n < 16)%nat -> plain_char (hex_digit n) = true).
  { intros n Hn. do 16 (destruct n as [|n]; [done|]). lia. }
  unfold fmt_02x. simpl. rewrite !H; [done|..]; (apply Nat2Z.inj_lt; rewrite Z2Nat.id;
    [apply Z.mod_pos_bound; lia|apply Z.mod_pos_bound; lia]).
Qed.

Section rules.
Context {E : Type} `{!ExecWorld E, !NbServer E}.
Implicit Types s : St E.

Definition at_nbctl (h : execHelper) s : Prop := runner (glob s) = Some h /\ nbctlPath h = nbctl.

(** The database in the last answer of a retried command. *)
Lemma retry_loop_nb n h args ops s :
  at_nbctl h s -> nb_parse args = Some ops ->
  exists o se err e' es,
    retry_loop n (nbctlPath h) (nb_argv h ovsCommandTimeout args) s
      = (Val (o, se, err), mkSt (glob s) e', es) /\
    nb_step ops (nb (env s)) (nb_out o) err (nb e') /\ err <> Errorf "LS exists".
Proof.
  intros [Hr Hp] Hops. revert s Hr. induction n as [|n IH]; intros s Hr; cbn [retry_loop];
    unfold mbind, M_bind; rewrite (run_eq _ _ _ _ Hr);
    destruct (run_cmd _ _ _) as [[[o se] err] e1] eqn:Hrun; assert (Hrun' := Hrun);
    rewrite Hp in Hrun'; destruct (nb_run _ _ _ _ _ _ _ _ Hp Hops Hrun') as (Hstep & Hkeep & Herr);
    (destruct err as [x|]; [destruct (Contains se "Connection refused") eqn:HC|]).
  1-3,5,6: by do 5 eexists.
  specialize (Hkeep ltac:(done) eq_refl).
  destruct (IH (mkSt (glob s) (pause 2 e1)) Hr) as (o2 & se2 & err2 & e2 & es2 & Heq & H2).
  unfold Sleep, prim. cbn -[retry_loop nb_argv ovsCommandTimeout]. rewrite Heq. do 5 eexists. split; [done|].
  cbn [env] in H2. by rewrite nb_pause, Hkeep in H2.
Qed.

Lemma wp_RunOVNNbctl_nb args ops (Q : Res (string * string * option error) -> St E -> list Event -> Prop) s h :
  at_nbctl h s -> nb_parse args = Some ops ->
  (forall o se err e' es, nb_step ops (nb (env s)) o err (nb e') ->
     (err <> Errorf "LS exists" /\ exists raw, o = nb_out raw /\
        es = [ECmd (nbctlPath h) (nb_argv h ovsCommandTimeout args) raw se err]) ->
     Q (Val (o, se, err)) (mkSt (glob s) e') es) ->
  wp (RunOVNNbctl args) Q s.
Proof.
  intros Hat Hops HQ. destruct (retry_loop_nb 200 h args ops s Hat Hops)
    as (o & se & err & e' & es & Heq & Hstep & Herr). destruct Hat as [Hr Hp].
  destruct (retry_loop_spec 200 (nbctlPath h) (nb_argv h ovsCommandTimeout args) s h Hr)
    as (l & o2 & se2 & err2 & e2 & Heq2 & _).
  destruct (compress_attempts (nbctlPath h) (nb_argv h ovsCommandTimeout args) l o2 se2 err2)
    as [Hpz Hc].
  assert (Hx := Heq). rewrite Heq2 in Hx. simplify_eq.
  unfold RunOVNNbctl, RunOVNNbctlWithTimeout, get_runner. wp_steps. rewrite Hr. wp_steps.
  unfold wp, runOVNretry. rewrite Heq. split; [done|]. rewrite Hc. wp_steps.
  apply HQ; [done|]. split; [done|]. by eexists.
Qed.

(** The addresses that [generateMac] makes. *)
Lemma wp_generateMac_nb (Q : Res string -> St E -> list Event -> Prop) s :
  (forall e' mac, nb e' = nb (env s) -> plain mac = true ->
     Q (Val mac) (mkSt (glob s) e') [EQuery "rand"; EQuery "rand"; EQuery "rand"]) ->
  wp generateMac Q s.
Proof.
  intros HQ. unfold generateMac, Intn. wp_step.
  apply wp_prim. intros a e1 H1. split; [done|]. cbn [after]. wp_step.
  apply wp_prim. intros b e2 H2. split; [done|]. cbn [after]. wp_step.
  apply wp_prim. intros c e3 H3. split; [done|]. cbn [after]. wp_steps. apply HQ.
  - assert (Hnb : forall n e e' z, (let '(x, e0) := random e in (Z.modulo x n, e0)) = (z, e') ->
      nb e' = nb e) by (intros n e e' z; rewrite <- (nb_random e); destruct (random e); by intros [= <- <-]).
    cbn [env] in *. by rewrite (Hnb _ _ _ _ H3), (Hnb _ _ _ _ H2), (Hnb _ _ _ _ H1).
  - unfold plain. cbn -[fmt_02x].
    repeat (rewrite ?string_forall_app, ?plain_hex; cbn -[fmt_02x plain_char]). done.
Qed.
End rules.

(** ** An instance: a database that is only ever changed by ovn-nbctl *)

Definition answer_text (a : answer) : string :=
  match a with Text t => t | Names l => Join l " " | Anything => "0a:00:00:00:00:01 10.1.0.5" end.

(** The words after [--timeout]. *)
Fixpoint after_timeout (argv : list string) : list string :=
  match argv with
  | a :: argv' => if HasPrefix a "--timeout=" then argv' else after_timeout argv'
  | [] => []
  end.

Definition nb_interpreter : ExecWorld Nb := {|
  run_cmd path argv db :=
    match ops ← nb_parse (after_timeout argv); exec ops db with
    | Some (db', a) => ((answer_text a, "", None), db')
    | None => (("", "ovn-nbctl: failed", Some (OtherError "exit" "1")), db)
    end;
  look_path f db := (f, None, db);
  getenv _ db := ("", db);
  pause _ db := db;
  random db := (0%Z, db);
  map_picks db := ([], db)
|}.

Lemma after_timeout_argv h t args : after_timeout (nb_argv h t args) = args.
Proof. unfold nb_argv. by destruct (0 <? _)%nat. Qed.

(** Plain words survive trimming and are found by [Fields]. *)
Lemma plain_forall (p : ascii -> bool) w :
  (forall c, plain_char c = true -> p c = true) -> plain w = true -> string_forall p w = true.
Proof.
  intros Hp. destruct w as [|c w]; [done|]. unfold plain, starts_text. intros [_ Hw]%andb_true_iff.
  revert Hw. generalize (String c w). induction s as [|d s IH]; [done|]. cbn [string_forall].
  intros [Hd Hs]%andb_true_iff. by rewrite (Hp _ Hd), IH.
Qed.

Lemma plain_char_word c : plain_char c = true -> is_space c = false /\ Ascii.eqb c quote = false.
Proof. by destruct c as [[] [] [] [] [] [] [] []]. Qed.

Lemma plain_no_space w : plain w = true -> no_space w = true.
Proof. apply plain_forall. intros c Hc. by rewrite (proj1 (plain_char_word c Hc)). Qed.

Lemma trim_right_keep p a b :
  b <> "" -> trim_right_fun p b = b -> trim_right_fun p (a +:+ b) = a +:+ b.
Proof.
  intros Hb Ht. induction a as [|c a IH]; [done|]. simpl. rewrite IH.
  destruct (a +:+ b) eqn:Hab; [|done]. destruct a; [by subst|done].
Qed.

Lemma trim_words p l :
  (forall c, plain_char c = true -> p c = false) -> forallb plain l = true ->
  trim_left_fun p (Join l " ") = Join l " " /\ trim_right_fun p (Join l " ") = Join l " ".
Proof.
  intros Hp Hl. split.
  - destruct l as [|w l]; [done|]. simpl in Hl. apply andb_true_iff in Hl as [Hw _].
    apply trim_left_id. destruct w as [|c w]; [done|]. unfold plain in Hw. cbn in Hw.
    assert (Hc : p c = false) by (apply Hp; destruct (plain_char c); [done|by rewrite andb_false_r in Hw]).
    by destruct l.
  - induction l as [|w l IH]; [done|]. simpl in Hl. apply andb_true_iff in Hl as [Hw Hl].
    specialize (IH Hl). destruct l as [|w2 l]; cbn [Join].
    + apply trim_right_forall, plain_forall; [|done]. intros c Hc. by rewrite Hp.
    + rewrite <- append_assoc. apply trim_right_keep; [|done].
      simpl in Hl. destruct w2; [done|]. by destruct l.
Qed.

Lemma words_nb_out l : forallb plain l = true -> nb_out (Join l " ") = Join l " ".
Proof.
  intros Hl. unfold nb_out, Trim, TrimLeft, TrimRight, TrimSpace.
  destruct (trim_words is_space l) as [-> ->]; [by apply plain_char_word|done|].
  destruct (trim_words (fun c => Ascii.eqb c quote) l) as [-> ->]; [by apply plain_char_word|done|done].
Qed.

Lemma plain_reads t : plain t || String.eqb t "" = true -> nb_out t = t.
Proof.
  intros [H|H%String.eqb_eq]%orb_true_iff; [|by subst].
  apply (words_nb_out [t]). by rewrite <- H; cbn; rewrite andb_true_r.
Qed.

Lemma string_rev_app_twice w a b :
  string_rev_app (string_rev_app w a) b = string_rev_app a (w +:+ b).
Proof. revert a. induction w as [|c w IH]; intros a; simpl; [done|]. by rewrite IH. Qed.

Lemma fields_word w t cur :
  no_space w = true -> fields_aux (w +:+ t) cur = fields_aux t (string_rev_app w cur).
Proof.
  revert cur. induction w as [|c w IH]; intros cur; [done|]. simpl.
  intros [Hc Hw]%andb_true_iff. apply negb_true_iff in Hc. rewrite Hc. by apply IH.
Qed.

Lemma fields_blank s c r :
  fields_aux (" " +:+ s) (String c r) = string_rev (String c r) :: fields_aux s "".
Proof. reflexivity. Qed.

Lemma Fields_words l : forallb plain l = true -> Fields (Join l " ") = l.
Proof.
  unfold Fields. induction l as [|w l IH]; [done|]. cbn [forallb].
  intros [Hw Hl]%andb_true_iff. assert (Hns := plain_no_space _ Hw).
  assert (Hcur : exists c r, string_rev_app w "" = String c r /\ string_rev (String c r) = w).
  { destruct (string_rev_app w "") as [|c r] eqn:Hr.
    - assert (H := string_rev_app_twice w "" ""). rewrite Hr in H. by destruct w.
    - exists c, r. split; [done|]. unfold string_rev. rewrite <- Hr, string_rev_app_twice.
      simpl. apply append_empty_r. }
  destruct Hcur as (c & r & Hr & Hw').
  destruct l as [|w2 l]; cbn [Join].
  - assert (H := fields_word w "" "" Hns). rewrite append_empty_r, Hr in H. rewrite H.
    cbn [fields_aux]. by rewrite Hw'.
  - specialize (IH Hl). cbn [Join] in IH. rewrite (fields_word _ _ _ Hns), Hr, fields_blank, Hw'.
    f_equal. exact IH.
Qed.

Lemma nb_interpreter_run h args ops db o se err db' :
  nb_parse args = Some ops ->
  run_cmd (ExecWorld := nb_interpreter) "nbctl" (nb_argv h ovsCommandTimeout args) db = ((o, se, err), db') ->
  nb_step ops db (nb_out o) err db' /\
  (err <> None -> Contains se "Connection refused" = true -> db' = db) /\
  err <> Errorf "LS exists".
Proof.
  intros Hops. cbn [run_cmd nb_interpreter].
  rewrite after_timeout_argv, Hops. cbn [mbind option_bind].
  destruct (exec ops db) as [[db1 a]|] eqn:Hex; intros [= <- <- <- <-].
  - split; [|by split; [intros []|]]. exists a. split; [done|]. destruct a as [t|l|]; cbn [reads answer_text]; [|intros Hl|done].
    + apply plain_reads.
    + by rewrite words_nb_out, Fields_words.
  - split; [by left|done].
Qed.

#[global] Instance nb_interpreter_server : @NbServer Nb nb_interpreter := {|
  nbctl := "nbctl";
  nb := id;
  nb_run h args ops db o se err db' _ := nb_interpreter_run h args ops db o se err db';
  nb_pause _ _ := eq_refl;
  nb_random _ := eq_refl
|}.
