(* ===== verification/NbParse.v ===== *)
(** * NbParse: the transactions behind the program's ovn-nbctl command lines

    One lemma per command line of the operator: what [nb_parse] makes of it
    when the names in it are plain. *)

From S2P Require Import Prelude.
From S2P Require Import GoStrings.
From S2P Require Import Types.
From S2P Require Import World.
From S2P Require Import Runner.
From S2P Require Import OvnCommon.
From S2P Require Import OvnController.
From S2P Require Import OvnNetworks.
From S2P Require Import Nbctl.
From Stdlib Require Import Ascii.

#[local] Open Scope string_scope.
#[local] Open Scope list_scope.

#[local] Arguments plain : simpl never.
#[local] Arguments texty : simpl never.

(** ** Plain texts *)

Lemma plain_not_sep x : plain x = true -> String.eqb x "--" = false.
Proof. intros H. destruct (String.eqb_spec x "--"); by subst. Qed.

Lemma plain_nonempty x : plain x = true -> x <> "".
Proof. by intros H ->. Qed.

Lemma plain_app_forall a b :
  plain a = true -> string_forall plain_char b = true -> plain (a +:+ b) = true.
Proof.
  destruct a as [|c a]; [done|]. unfold plain, starts_text. cbn [String.append].
  intros [Hc Ha]%andb_true_iff Hb. change (String c (a +:+ b)) with (String c a +:+ b).
  by rewrite Hc, string_forall_app, Ha, Hb.
Qed.

Lemma plain_app a b : plain a = true -> plain b = true -> plain (a +:+ b) = true.
Proof. intros Ha Hb. apply plain_app_forall; [done|]. by apply plain_forall. Qed.

Lemma plain_quoted s : plain (String quote s) = false.
Proof. reflexivity. Qed.

Lemma cut_at_plain m : plain m = true -> cut_at (Ascii.eqb quote) (m +:+ dq) = Some (m, quote, "").
Proof.
  intros Hm. assert (H : string_forall (fun c => negb (Ascii.eqb quote c)) m = true).
  { revert Hm. apply plain_forall. intros c Hc. by destruct c as [[] [] [] [] [] [] [] []]. }
  clear Hm. induction m as [|c m IH]; [done|]. cbn in H |- *.
  apply andb_true_iff in H as [Hc H]. apply negb_true_iff in Hc. by rewrite Hc, (IH H).
Qed.

Lemma unquote_plain v : plain v = true -> unquote v = Some v.
Proof. unfold unquote. by intros ->. Qed.

Lemma unquote_quoted v : plain v = true -> unquote (String quote (v +:+ dq)) = Some v.
Proof. intros H. unfold unquote. rewrite plain_quoted. cbn. by rewrite cut_at_plain, H. Qed.

Lemma texty_plain a b : plain a = true -> plain b = true -> texty (a +:+ " " +:+ b) = true.
Proof.
  assert (Hc : forall c, plain_char c = true -> text_char c = true) by (unfold text_char; by intros c ->).
  intros Ha Hb. destruct a as [|c a]; [done|]. unfold texty, starts_text. cbn [String.append].
  assert (H := plain_forall text_char _ Hc Ha). unfold plain, starts_text in Ha.
  apply andb_true_iff in Ha as [-> _]. change (String c (a +:+ ?x)) with (String c a +:+ x).
  rewrite string_forall_app, H. cbn. by apply plain_forall.
Qed.

Lemma texty_of_plain a : plain a = true -> texty a = true.
Proof.
  intros H. assert (Hf := plain_forall text_char a
    ltac:(unfold text_char; by intros c ->) H). destruct a as [|c a]; [done|].
  unfold plain, texty, starts_text in *. apply andb_true_iff in H as [-> _]. by rewrite Hf.
Qed.

(** Reads a command line whose variable words are plain. *)
Ltac nb_parse_tac :=
  intros; unfold nb_parse;
  repeat match goal with
  | H : plain ?x = true |- _ => lazymatch goal with
      | _ : String.eqb x "--" = false |- _ => fail
      | _ => pose proof (plain_not_sep x H) end
  end;
  cbn -[plain texty unquote];
  repeat (progress (repeat match goal with
    | H : String.eqb ?x "--" = false |- _ => rewrite !H
    end); cbn -[plain texty unquote]);
  repeat match goal with
  | H : plain ?x = true |- context [plain ?x] => rewrite !H
  | H : texty ?x = true |- context [texty ?x] => rewrite !H
  | |- context [plain (String ?c ?s)] => let b := eval vm_compute in (plain (String c s)) in
      lazymatch b with true => idtac | false => idtac end; change (plain (String c s)) with b
  | |- context [texty (String ?c ?s)] => let b := eval vm_compute in (texty (String c s)) in
      lazymatch b with true => idtac | false => idtac end; change (texty (String c s)) with b
  | H : plain ?v = true |- context [unquote ?v] => rewrite (unquote_plain v H)
  | H : plain ?v = true |- context [unquote (String quote (?v +:+ dq))] => rewrite (unquote_quoted v H)
  | |- context [unquote (String ?c ?s)] => rewrite (unquote_plain (String c s) eq_refl)
  | _ => progress cbn -[plain texty unquote]
  end;
  try reflexivity.

(** ** Networks *)

Lemma parse_find_switch name :
  plain name = true -> nb_parse (find_switch_args name) = Some [FindSwitch name].
Proof. nb_parse_tac. Qed.

Definition switch_settings (subnet gw excl : string) : list setting :=
  [mkSetting "other-config" "subnet" subnet; mkSetting "external-ids" "gateway_ip" gw]
  ++ (if excl == "" then [] else [mkSetting "other-config" "exclude_ips" excl]).

Lemma parse_add_switch name subnet gw excl :
  plain name = true -> plain subnet = true -> plain gw = true ->
  plain excl = true \/ excl = "" ->
  nb_parse (add_switch_args name subnet gw excl) =
    Some [LsAdd name; DbSet TSwitch name (switch_settings subnet gw excl)].
Proof.
  intros Hn Hs Hg He. unfold add_switch_args, switch_settings.
  destruct He as [He| ->]; [rewrite bool_decide_eq_false_2 by by apply plain_nonempty|
    rewrite bool_decide_eq_true_2 by done]; nb_parse_tac.
Qed.

Lemma parse_get_mac p :
  plain p = true -> nb_parse ["--if-exist"; "get"; "logical_router_port"; p; "mac"] = Some [GetMac p].
Proof. nb_parse_tac. Qed.

Lemma parse_lrp_add r p mac net :
  plain r = true -> plain p = true -> plain mac = true -> plain net = true ->
  nb_parse ["--wait=hv"; "--may-exist"; "lrp-add"; r; p; mac; net] = Some [LrpAdd r p mac net].
Proof. nb_parse_tac. Qed.

(** The switch port that faces router port [rt]. *)
Definition router_settings (rt mac : string) : list setting :=
  [mkSetting "type" "" "router"; mkSetting "options" "router-port" rt; mkSetting "addresses" "" mac].

Lemma parse_router_port wait sw p rt mac :
  wait = ["--wait=hv"] \/ wait = [] ->
  plain sw = true -> plain p = true -> plain rt = true -> plain mac = true ->
  nb_parse (wait ++ ["--"; "--may-exist"; "lsp-add"; sw; p; "--"; "set"; "logical_switch_port"; p;
    "type=router"; "options:router-port=" +:+ rt; "addresses=" +:+ dq +:+ mac +:+ dq]) =
  Some [LspAdd sw p; DbSet TSPort p (router_settings rt mac)].
Proof. intros [-> | ->]; nb_parse_tac. Qed.

Lemma parse_localnet sw p nw :
  plain sw = true -> plain p = true -> plain nw = true ->
  nb_parse ["--wait=hv"; "--"; "--may-exist"; "lsp-add"; sw; p; "--"; "lsp-set-addresses"; p; "unknown";
    "--"; "lsp-set-type"; p; "localnet"; "--"; "lsp-set-options"; p; "network_name=" +:+ nw] =
  Some [LspAdd sw p; LspSetAddresses p "unknown"; LspSetType p "localnet"; LspSetOptions p "network_name" nw].
Proof. nb_parse_tac. Qed.

Lemma parse_lrp_del p :
  plain p = true -> nb_parse ["--if-exist"; "--wait=hv"; "lrp-del"; p] = Some [LrpDel p].
Proof. nb_parse_tac. Qed.

Lemma parse_ls_del sw :
  plain sw = true -> nb_parse ["--if-exist"; "--wait=hv"; "ls-del"; sw] = Some [LsDel sw].
Proof. nb_parse_tac. Qed.

Lemma parse_gateway sw :
  plain sw = true -> nb_parse (gateway_args sw) = Some [GetSwitch sw true "gateway_ip"].
Proof. nb_parse_tac. Qed.

(** ** The distributed router *)

Lemma parse_lr_add r :
  plain r = true ->
  nb_parse ["--"; "--may-exist"; "lr-add"; r; "--"; "set"; "logical_router"; r;
            "external_ids:ovn4nfv-cluster-router=yes"] =
  Some [LrAdd r; DbSet TRouter r [mkSetting "external_ids" "ovn4nfv-cluster-router" "yes"]].
Proof. nb_parse_tac. Qed.

Lemma parse_ls_add sw :
  plain sw = true -> nb_parse ["--may-exist"; "ls-add"; sw] = Some [LsAdd sw].
Proof. nb_parse_tac. Qed.

Lemma parse_join_port r p mac net :
  plain r = true -> plain p = true -> plain mac = true -> plain net = true ->
  nb_parse ["--"; "--may-exist"; "lrp-add"; r; p; mac; net; "--"; "set"; "logical_router_port"; p;
            "external_ids:connect_to_ovn4nfvjoin=yes"] =
  Some [LrpAdd r p mac net; DbSet TRPort p [mkSetting "external_ids" "connect_to_ovn4nfvjoin" "yes"]].
Proof. nb_parse_tac. Qed.

(** ** Ports of pods *)

Definition pod_settings (ns sw : string) : list setting :=
  [mkSetting "external-ids" "namespace" ns; mkSetting "external-ids" "logical_switch" sw;
   mkSetting "external-ids" "pod" "true"].

Lemma parse_static_port pod sw p mac ip :
  plain (pod_Namespace pod) = true -> plain sw = true -> plain p = true ->
  plain mac = true -> plain ip = true ->
  nb_parse (static_port_args pod sw p mac ip) =
  Some [LspAdd sw p; LspSetAddresses p (mac +:+ " " +:+ ip); ClearDynamic p;
        DbSet TSPort p (pod_settings (pod_Namespace pod) sw)].
Proof.
  intros Hn Hs Hp Hm Hi. assert (Ht := texty_plain _ _ Hm Hi).
  assert (Hsep : String.eqb (mac +:+ " " +:+ ip) "--" = false).
  { destruct mac as [|c mac]; [done|]. unfold plain in Hm. cbn in Hm |- *. by destruct (Ascii.eqb c "-"). }
  unfold static_port_args, pod_port_ids. revert Ht Hsep. generalize (mac +:+ " " +:+ ip).
  nb_parse_tac.
Qed.

Lemma parse_dynamic_port pod sw p :
  plain (pod_Namespace pod) = true -> plain sw = true -> plain p = true ->
  nb_parse (dynamic_port_args pod sw p) =
  Some [LspAdd sw p; LspSetAddresses p "dynamic"; DbSet TSPort p (pod_settings (pod_Namespace pod) sw)].
Proof. unfold dynamic_port_args, pod_port_ids. nb_parse_tac. Qed.

Lemma parse_node_port sw p :
  plain sw = true -> plain p = true ->
  nb_parse ["--wait=sb"; "--"; "--may-exist"; "lsp-add"; sw; p; "--"; "lsp-set-addresses"; p; "dynamic"] =
  Some [LspAdd sw p; LspSetAddresses p "dynamic"].
Proof. nb_parse_tac. Qed.

Lemma parse_get_port p c :
  plain p = true -> String.eqb c "--" = false -> nb_parse (port_args p c) = Some [GetPort p c].
Proof. nb_parse_tac. Qed.

Lemma parse_pod_ports : nb_parse pod_ports_args = Some [FindPodPorts].
Proof. reflexivity. Qed.

Lemma parse_lsp_del p : plain p = true -> nb_parse ["--if-exists"; "lsp-del"; p] = Some [LspDel p].
Proof. nb_parse_tac. Qed.
