(* ===== verification/NbNetworks.v ===== *)
(** * NbNetworks: the northbound database after the operations on networks

    OvnNetworks.v says which commands run; here, for an environment with a
    northbound database ([NbServer]), what they leave in it: a network with the
    nil error is there with its switch and the two ports that join it to the
    cluster's router, deleting it puts the database back, and the start of the
    controller is idempotent. *)

From S2P Require Import Prelude.
From S2P Require Import GoStrings.
From S2P Require Import GoNet.
From S2P Require Import Addressing.
From S2P Require Import Types.
From S2P Require Import World.
From S2P Require Import Runner.
From S2P Require Import Traces.
From S2P Require Import OvnCommon.
From S2P Require Import OvnController.
From S2P Require Import OvnNetworks.
From S2P Require Import Nbctl.
From S2P Require Import NbParse.
From Stdlib Require Import Ascii.

#[local] Open Scope string_scope.
#[local] Open Scope list_scope.

(** ** Rows *)

Definition network_switch (subnet gw excl : string) : Switch :=
  mkSwitch ((if excl == "" then id else <["exclude_ips" := excl]>) {["subnet" := subnet]})
           {["gateway_ip" := gw]}.

(** A switch port turned into the peer of router port [rt]. *)
Definition to_router (rt mac : string) (x : SPort) : SPort :=
  mkSPort (sp_switch x) "router" mac (<["router-port" := rt]> (sp_options x)) (sp_external_ids x).

Definition rtos (name : string) : string := "rtos-" +:+ name.
Definition stor (name : string) : string := "stor-" +:+ name.

#[local] Arguments rtos : simpl never.
#[local] Arguments stor : simpl never.

(** ** The stages of a creation *)

Definition with_switch (name subnet gw excl : string) : Nb -> Nb :=
  set_switches <[name := network_switch subnet gw excl]>.
Definition with_rport (r p mac gw : string) : Nb -> Nb :=
  set_rports (ensure p (new_rport r mac gw)).
Definition with_peer (sw p rt mac : string) (db : Nb) : Nb :=
  set_sports <[p := to_router rt mac (default (new_sport sw) (sports db !! p))]> db.

Definition network_stages (name subnet gw excl mac : string) (db : Nb) : list Nb :=
  let db1 := with_switch name subnet gw excl db in
  let db2 := with_rport ovn4nfvRouterName (rtos name) mac gw db1 in
  [db; db1; db2; with_peer name (stor name) (rtos name) mac db2].

Definition with_network (name subnet gw excl mac : string) (db : Nb) : Nb :=
  with_peer name (stor name) (rtos name) mac
    (with_rport ovn4nfvRouterName (rtos name) mac gw (with_switch name subnet gw excl db)).

(** The network is there: the switch, and two ports that face each other with
    one hardware address. *)
Definition has_network (name subnet gw excl mac : string) (db : Nb) : Prop :=
  switches db !! name = Some (network_switch subnet gw excl) /\
  (exists rp, rports db !! rtos name = Some rp /\
     rp_router rp = ovn4nfvRouterName /\ rp_mac rp = mac /\ rp_network rp = gw) /\
  exists sp, sports db !! stor name = Some sp /\
    sp_switch sp = name /\ sp_type sp = "router" /\ sp_addresses sp = mac /\
    sp_options sp !! "router-port" = Some (rtos name).

Definition without_network (name : string) (db : Nb) : Nb :=
  set_rports (delete (rtos name))
    (set_switches (delete name) (set_sports (filter (fun kx => sp_switch kx.2 <> name)) db)).

(** No row of the network. *)
Definition fresh_network (name : string) (db : Nb) : Prop :=
  switches db !! name = None /\ rports db !! rtos name = None.

(** Texts of a network that need no quoting. *)
Definition plain_network (name subnet gw excl : string) : bool :=
  plain name && plain subnet && plain gw && (plain excl || String.eqb excl "").

(** ** Effects of the transactions *)

Lemma exec_one op db : exec [op] db = exec_op op db.
Proof. unfold exec. cbn. by destruct (exec_op op db) as [[? ?]|]. Qed.

Lemma step_read op db o err db' :
  (forall db1 a, exec_op op db = Some (db1, a) -> db1 = db) ->
  nb_step [op] db o err db' -> db' = db.
Proof.
  intros Hop. unfold nb_step. rewrite exec_one.
  destruct err; [intros [->|[a Ha]]|intros (a & Ha & _)]; by eauto.
Qed.

(** A transaction that can only lead to [db1]. *)
Lemma step_to ops db db1 o err db' :
  (forall db2 a, exec ops db = Some (db2, a) -> db2 = db1) ->
  nb_step ops db o err db' -> (err = None -> db' = db1) /\ (db' = db \/ db' = db1).
Proof.
  intros Hex. unfold nb_step.
  destruct err; [intros [->|[a Ha]]|intros (a & Ha & _)]; [by split; [|left]|..];
    rewrite (Hex _ _ Ha); by split; [|right].
Qed.

Lemma exec_find name db : exec [FindSwitch name] db =
  Some (db, Text (match switches db !! name with Some _ => name | None => "" end)).
Proof. done. Qed.

Lemma ensure_None {A} k (x : A) m : m !! k = None -> ensure k x m = <[k := x]> m.
Proof. unfold ensure. by intros ->. Qed.
Lemma ensure_Some {A} k (x y : A) m : m !! k = Some y -> ensure k x m = m.
Proof. unfold ensure. by intros ->. Qed.
Lemma ensure_lookup {A} k (x : A) m : is_Some (ensure k x m !! k).
Proof.
  unfold ensure. destruct (m !! k) eqn:Hk; [by rewrite Hk|]. by rewrite lookup_insert_eq.
Qed.

Lemma set_switches_id f db : f (switches db) = switches db -> set_switches f db = db.
Proof. unfold set_switches. intros ->. by destruct db. Qed.

Lemma exec_add_switch name subnet gw excl db db2 a :
  switches db !! name = None ->
  exec [LsAdd name; DbSet TSwitch name (switch_settings subnet gw excl)] db = Some (db2, a) ->
  db2 = with_switch name subnet gw excl db.
Proof.
  intros Hn. unfold exec. cbn -[switch_settings]. rewrite (ensure_None _ _ _ Hn).
  unfold change. rewrite lookup_insert_eq. cbn -[switch_settings].
  unfold switch_settings, with_switch, network_switch.
  destruct (excl == ""); cbn; rewrite insert_insert_eq; by intros [= <- _].
Qed.

Lemma exec_lrp_add r p mac gw db db2 a :
  exec [LrpAdd r p mac gw] db = Some (db2, a) ->
  db2 = with_rport r p mac gw db /\
  (forall x, rports db !! p = Some x -> rp_router x = r /\ rp_mac x = mac /\ rp_network x = gw) /\
  is_Some (rports db2 !! p).
Proof.
  rewrite exec_one. cbn. unfold with_rport, set_rports.
  destruct (rports db !! p) as [x|] eqn:Hp.
  - unfold guarded. destruct (_ && _) eqn:Hb; [|done]. intros [= <- <-].
    rewrite !andb_true_iff, !bool_decide_eq_true in Hb. destruct Hb as [[? ?] ?].
    rewrite (ensure_Some _ _ _ _ Hp). split; [by destruct db|]. split; [|by rewrite Hp].
    by intros ? [= <-].
  - unfold guarded. case_bool_decide; [|done]. intros [= <- <-]. rewrite ensure_None by done.
    split; [done|]. split; [done|]. cbn. by rewrite lookup_insert_eq.
Qed.

Lemma exec_peer sw p rt mac db db2 a :
  exec [LspAdd sw p; DbSet TSPort p (router_settings rt mac)] db = Some (db2, a) ->
  db2 = with_peer sw p rt mac db /\
  (forall x, sports db !! p = Some x -> sp_switch x = sw).
Proof.
  unfold exec, with_peer. cbn. destruct (sports db !! p) as [x|] eqn:Hp.
  - unfold guarded. case_bool_decide; [|done]. cbn. unfold change. rewrite Hp. cbn.
    intros [= <- _]. split; [done|]. by intros ? [= <-].
  - unfold guarded. case_bool_decide; [|done]. cbn. unfold change. rewrite lookup_insert_eq. cbn.
    intros [= <- _]. split; [|done]. unfold set_sports. cbn. by rewrite insert_insert_eq.
Qed.

(** What the creation leaves is the network. *)
Lemma with_network_has name subnet gw excl mac db :
  (forall x, rports db !! rtos name = Some x ->
     rp_router x = ovn4nfvRouterName /\ rp_mac x = mac /\ rp_network x = gw) ->
  (forall x, sports db !! stor name = Some x -> sp_switch x = name) ->
  has_network name subnet gw excl mac (with_network name subnet gw excl mac db).
Proof.
  intros Hrp Hsp. split; [apply lookup_insert_eq|]. split.
  - cbn. unfold ensure. destruct (rports db !! rtos name) as [x|] eqn:Hx.
    + exists x. split; [done|]. by apply Hrp.
    + eexists. by rewrite lookup_insert_eq.
  - eexists. cbn. rewrite lookup_insert_eq. split; [done|]. cbn.
    destruct (sports db !! stor name) as [x|] eqn:Hx; cbn; [rewrite (Hsp x eq_refl)|];
      (split_and!; [done..|apply lookup_insert_eq]).
Qed.

(** Deleting a fresh network gives the old database. *)
Lemma without_with name subnet gw excl mac db :
  nb_wf db -> fresh_network name db ->
  (forall x, sports db !! stor name = Some x -> sp_switch x = name) ->
  without_network name (with_network name subnet gw excl mac db) = db.
Proof.
  intros [Hs Hr] [Hsw Hrp] Hst.
  assert (Hno : forall p x, sports db !! p = Some x -> sp_switch x <> name).
  { intros p x Hx <-. destruct (Hs p x Hx) as [[y Hy] _]. congruence. }
  assert (Hst' : sports db !! stor name = None).
  { destruct (sports db !! stor name) as [x|] eqn:Hx; [|done].
    destruct (Hno _ _ Hx). by apply Hst. }
  unfold without_network, with_network, with_peer, with_rport, with_switch, set_rports, set_sports,
    set_switches. cbn. rewrite (ensure_None _ _ _ Hrp), !delete_insert_id by done.
  destruct db as [rs rps sws sps]. cbn in *. f_equal. rewrite Hst'. cbn.
  rewrite map_filter_insert_False; [|cbn; tauto]. rewrite delete_id by done.
  apply map_filter_id. intros p x Hp. by eapply Hno.
Qed.

(** ** The operations *)

Section networks.
Context {E : Type} `{!ExecWorld E, !NbServer E}.
Implicit Types s : St E.

(** The outcome of an operation on the switch [name]: refused because the
    switch is there, or else the stages [ss] up to the last one. *)
Definition switch_outcome (name : string) (db : Nb) (ss : list Nb) (err : option error) (db' : Nb) : Prop :=
  match switches db !! name with
  | Some _ => err <> None /\ db' = db
  | None => db' ∈ db :: ss /\ (err = None -> Some db' = last ss) /\ err <> Errorf "LS exists"
  end.

Lemma wp_createOvnLS_nb name subnet gatewayIP excl ip cidr
    (Q : Res (string * option error) -> St E -> list Event -> Prop) s h :
  at_nbctl h s -> ParseCIDR subnet = Some (ip, cidr) ->
  let gw := gateway_ip_mask cidr gatewayIP in
  plain_network name subnet gw excl = true ->
  (forall e' v err es,
     (err = None -> v = gw) ->
     switch_outcome name (nb (env s)) [with_switch name subnet gw excl (nb (env s))] err (nb e') ->
     Q (Val (v, err)) (mkSt (glob s) e') es) ->
  wp (createOvnLS name subnet gatewayIP excl) Q s.
Proof.
  intros Hat Hs gw Hp HQ. unfold plain_network in Hp.
  rewrite !andb_true_iff, orb_true_iff, String.eqb_eq in Hp. destruct Hp as [[[Hn Hsub] Hgw] Hex].
  unfold createOvnLS. wp_steps.
  eapply wp_RunOVNNbctl_nb; [done|by apply parse_find_switch|]. intros o se err e1 es1 Hstep [Herr _]. cbn [after].
  assert (Hread : nb e1 = nb (env s)) by (eapply step_read; [|exact Hstep]; by intros ?? [=]).
  assert (Hkeep : forall x, Some x <> Errorf "LS exists" \/ is_Some (switches (nb (env s)) !! name) -> switch_outcome name (nb (env s))
    [with_switch name subnet gw excl (nb (env s))] (Some x) (nb e1)).
  { intros x Hx. unfold switch_outcome. rewrite Hread. destruct (_ !! name); [done|].
    split; [by left|split; [done|]]. destruct Hx as [?|[? ?]]; done. }
  destruct err as [x|]; [wp_steps; apply HQ; [done|apply Hkeep; by left]|].
  destruct Hstep as (a & Ha & Hreads). rewrite exec_find in Ha. injection Ha as _ <-.
  destruct (switches (nb (env s)) !! name) as [y|] eqn:Hsw.
  { cbn [reads] in Hreads. rewrite Hreads by (by rewrite Hn). rewrite bool_decide_eq_true_2 by done.
    wp_steps. apply HQ; [done|]. apply Hkeep. right. by eexists. }
  rewrite (Hreads eq_refl), bool_decide_eq_false_2 by by apply plain_nonempty.
  rewrite Hs. wp_steps.
  eapply wp_RunOVNNbctl_nb; [done|by apply parse_add_switch|]. intros o2 se2 err2 e2 es2 Hstep2 [Herr2 _].
  cbn [env] in Hstep2. rewrite Hread in Hstep2. wp_steps. apply HQ; [done|].
  unfold switch_outcome. rewrite Hsw.
  destruct (step_to _ _ (with_switch name subnet gw excl (nb (env s))) _ _ _
    ltac:(intros ??; by apply exec_add_switch) Hstep2) as [Hok Hany]. fold gw in Hok, Hany.
  split; [destruct Hany as [->| ->]; [by left|by right; left]|].
  split; [|done]. intros He. by rewrite Hok.
Qed.

Lemma outcome_fail name db ss x db' :
  switch_outcome name db ss (Some x) db' ->
  forall ss', switch_outcome name db (ss ++ ss') (Some x) db'.
Proof.
  unfold switch_outcome. destruct (switches db !! name); [done|]. intros (H & _ & Hx) ss'.
  split; [|done]. rewrite app_comm_cons. apply elem_of_app. by left.
Qed.

(** One more stage. *)
Lemma outcome_step name db ss db1 err1 db2 err2 db3 :
  switch_outcome name db ss None db1 -> last ss = Some db1 -> err1 = err2 ->
  (db3 = db1 \/ db3 = db2) -> (err2 = None -> db3 = db2) -> err2 <> Errorf "LS exists" ->
  switch_outcome name db (ss ++ [db2]) err1 db3.
Proof.
  unfold switch_outcome. intros H Hlast -> Hany Hok Hne.
  destruct (switches db !! name); [by destruct H|]. destruct H as [H _].
  split; [|split; [intros He; by rewrite last_snoc, Hok|done]].
  rewrite app_comm_cons. apply elem_of_app. destruct Hany as [->| ->]; [by left|right; by left].
Qed.

Lemma plain_rtos name : plain name = true -> plain (rtos name) = true.
Proof. by apply plain_app. Qed.
Lemma plain_stor name : plain name = true -> plain (stor name) = true.
Proof. by apply plain_app. Qed.

(** Reading the hardware address of router port [p]. *)
Lemma wp_get_mac p (Q : Res (string * string * option error) -> St E -> list Event -> Prop) s h :
  at_nbctl h s -> nb_wf (nb (env s)) -> plain p = true ->
  (forall e' es o se err, nb e' = nb (env s) ->
     (err = None -> match rports (nb (env s)) !! p with
                    | Some rp => o = rp_mac rp /\ plain o = true
                    | None => o = ""
                    end) ->
     err <> Errorf "LS exists" -> Q (Val (o, se, err)) (mkSt (glob s) e') es) ->
  wp (RunOVNNbctl ["--if-exist"; "get"; "logical_router_port"; p; "mac"]) Q s.
Proof.
  intros Hat Hwf Hp HQ.
  eapply wp_RunOVNNbctl_nb; [done|by apply parse_get_mac|]. intros o se err e1 es1 Hstep [Herr _].
  apply HQ; [eapply step_read; [|exact Hstep]; by intros ?? [=]| |done]. intros ->.
  destruct Hstep as (a & Ha & Hreads). rewrite exec_one in Ha. injection Ha as _ <-. cbn [reads] in Hreads.
  destruct (rports _ !! p) as [rp|] eqn:Hrp; [|by apply Hreads].
  destruct (wf_rport _ Hwf _ _ Hrp) as [_ Hm]. rewrite Hm in Hreads. by rewrite Hreads.
Qed.

(** The facts that the last two commands check. *)
Definition joins (name gw mac : string) (db : Nb) : Prop :=
  (forall x, rports db !! rtos name = Some x ->
     rp_router x = ovn4nfvRouterName /\ rp_mac x = mac /\ rp_network x = gw) /\
  (forall x, sports db !! stor name = Some x -> sp_switch x = name).

Definition network_outcome (name subnet gw excl : string) (db : Nb) (err : option error) (db' : Nb) : Prop :=
  exists mac, switch_outcome name db (tail (network_stages name subnet gw excl mac db)) err db' /\
    (err = None -> joins name gw mac db).

(** A plain address: the one read, or a new one. *)
Lemma wp_choose_mac o s :
  (o <> "" -> plain o = true) ->
  wp (if o == "" then generateMac else mret o) (fun r s' _ => exists e' mac,
    r = Val mac /\ s' = mkSt (glob s) e' /\ nb e' = nb (env s) /\ plain mac = true) s.
Proof.
  intros Ho. destruct (o == "") eqn:He.
  - apply wp_generateMac_nb. intros e' mac ? ?. by exists e', mac.
  - apply bool_decide_eq_false in He. apply wp_ret. destruct s as [g e]. exists e, o. auto.
Qed.

(** The last two commands: the ports that face each other. *)
Lemma join_stages name subnet gw excl mac (db db' db'' : Nb) err o o' :
  let db1 := with_switch name subnet gw excl db in
  let db2 := with_rport ovn4nfvRouterName (rtos name) mac gw db1 in
  let db3 := with_peer name (stor name) (rtos name) mac db2 in
  switches db !! name = None ->
  nb_step [LrpAdd ovn4nfvRouterName (rtos name) mac gw] db1 o None db' ->
  nb_step [LspAdd name (stor name); DbSet TSPort (stor name) (router_settings (rtos name) mac)]
          db' o' err db'' -> err <> Errorf "LS exists" ->
  switch_outcome name db [db1; db2; db3] err db'' /\ (err = None -> joins name gw mac db).
Proof.
  intros db1 db2 db3 Hsw (a & Ha & _) H2 Hne. destruct (exec_lrp_add _ _ _ _ _ _ _ Ha) as (-> & Hrp & _).
  assert (Hex : forall db4 b, exec [LspAdd name (stor name);
    DbSet TSPort (stor name) (router_settings (rtos name) mac)] db2 = Some (db4, b) -> db4 = db3)
    by (intros db4 b Hb; exact (proj1 (exec_peer _ _ _ _ _ _ _ Hb))).
  destruct (step_to _ _ db3 _ _ _ Hex H2) as [Hok Hany]. split.
  - unfold switch_outcome. rewrite Hsw. split; [|split; [intros He; by rewrite Hok|done]].
    fold db2 in Hany. right.
    destruct Hany as [->| ->]; [right; by left|right; right; by left].
  - intros ->. destruct H2 as (b & Hb & _). destruct (exec_peer _ _ _ _ _ _ _ Hb) as [_ Hsp].
    by split.
Qed.

Lemma CreateNetwork_nb cr sub rest ip cidr s h :
  let name := Name (nw_meta cr) in
  let gw := gateway_ip_mask cidr (Gateway sub) in
  at_nbctl h s -> nb_wf (nb (env s)) ->
  nw_Ipv4Subnets (nw_Spec cr) = sub :: rest -> ParseCIDR (Subnet sub) = Some (ip, cidr) ->
  plain_network name (Subnet sub) gw (ExcludeIps sub) = true ->
  wp (CreateNetwork cr) (fun r s' _ => glob s' = glob s /\ exists err, r = Val err /\
    network_outcome name (Subnet sub) gw (ExcludeIps sub) (nb (env s)) err (nb (env s'))) s.
Proof.
  intros name gw Hat Hwf Hsub Hs Hp. unfold CreateNetwork. rewrite Hsub, index_0. wp_steps.
  assert (Hpl := Hp). unfold plain_network in Hpl. rewrite !andb_true_iff in Hpl.
  destruct Hpl as [[[Hn _] Hg] _]. assert (Hrt := plain_rtos _ Hn). assert (Hst := plain_stor _ Hn).
  eapply wp_createOvnLS_nb; [done..|]. fold gw name. intros e1 v err es1 Hv H1. cbn [after].
  set (db := nb (env s)) in *. set (db1 := with_switch _ _ _ _ _) in H1.
  destruct err as [x|].
  { wp_steps. split; [done|]. eexists. split; [done|]. exists "". split; [|done].
    apply (outcome_fail _ _ [_] _ _ H1). }
  rewrite (Hv eq_refl). clear Hv v. unfold switch_outcome in H1.
  destruct (switches db !! name) eqn:Hsw; [by destruct H1|]. destruct H1 as (_ & Hdb1 & _).
  specialize (Hdb1 eq_refl). injection Hdb1 as Hdb1. wp_step.
  eapply wp_get_mac; [done| |exact Hrt|].
  { cbn [env]. rewrite Hdb1. constructor; cbn; [|apply Hwf]. intros p x Hx.
    destruct (wf_sport _ Hwf _ _ Hx) as [Hi Hpx]. split; [|done].
    destruct (decide (sp_switch x = name)) as [->|]; [by rewrite lookup_insert_eq|by rewrite lookup_insert_ne]. }
  cbn [env]. rewrite Hdb1. intros e2 es2 o se err Hdb2 Hmac Hne2. cbn [after].
  assert (Hstop : forall x mac db', Some x <> Errorf "LS exists" ->
    db' ∈ network_stages name (Subnet sub) gw (ExcludeIps sub) mac db ->
    network_outcome name (Subnet sub) gw (ExcludeIps sub) db (Some x) db').
  { intros x mac db' Hx Hin. exists mac. split; [|done]. unfold switch_outcome. by rewrite Hsw. }
  destruct err as [x|].
  { wp_steps. split; [done|]. eexists. split; [done|]. cbn [env]. rewrite Hdb2.
    apply (Hstop _ ""); [done|]. right. by left. }
  wp_step. eapply wp_mono; [|apply wp_choose_mac].
  2: { intros Ho. specialize (Hmac eq_refl). destruct (rports db1 !! _); [by destruct Hmac|done]. }
  intros r s3 es3 (e3 & mac & -> & -> & Hdb3 & Hm). cbn [after]. cbn [env] in Hdb3. wp_step.
  eapply wp_RunOVNNbctl_nb; [done|by apply parse_lrp_add|]. intros o4 se4 err4 e4 es4 H4 [Hne4 _]. cbn [after].
  cbn [env] in H4. rewrite Hdb3, Hdb2 in H4.
  destruct err4 as [x|].
  { wp_steps. split; [done|]. eexists. split; [done|]. apply (Hstop _ mac); [done|]. cbn [env].
    destruct H4 as [->|[a Ha]]; [right; by left|].
    destruct (exec_lrp_add _ _ _ _ _ _ _ Ha) as [-> _]. right. right. by left. }
  wp_step. eapply wp_RunOVNNbctl_nb; [done|by apply (parse_router_port ["--wait=hv"]); auto|].
  intros o5 se5 err5 e5 es5 H5 [Hne5 _]. wp_steps. split; [done|]. eexists. split; [done|].
  exists mac. by eapply join_stages.
Qed.

(** Deleting: the router port goes first. *)
Definition delete_outcome (name : string) (db : Nb) (err : option error) (db' : Nb) : Prop :=
  (err = None -> db' = without_network name db) /\
  db' ∈ [db; set_rports (delete (rtos name)) db; without_network name db].

Lemma exec_lrp_del p db : exec [LrpDel p] db = Some (set_rports (delete p) db, Text "").
Proof. done. Qed.

Lemma exec_ls_del name db :
  exec [LsDel name] (set_rports (delete (rtos name)) db) = Some (without_network name db, Text "").
Proof. done. Qed.

Lemma DeleteNetwork_nb cr s h :
  let name := Name (nw_meta cr) in
  at_nbctl h s -> plain name = true ->
  wp (DeleteNetwork cr) (fun r s' _ => glob s' = glob s /\ exists err, r = Val err /\
    delete_outcome name (nb (env s)) err (nb (env s'))) s.
Proof.
  intros name Hat Hn. unfold DeleteNetwork. wp_step.
  eapply wp_RunOVNNbctl_nb; [done|by apply parse_lrp_del, plain_rtos|].
  intros o se err e1 es1 H1 _. cbn [after]. set (db := nb (env s)) in *.
  destruct (step_to _ _ (set_rports (delete (rtos name)) db) _ _ _
    ltac:(intros ??; rewrite exec_lrp_del; by intros [= <-]) H1) as [Hok1 Hany1].
  destruct err as [x|].
  { wp_steps. split; [done|]. eexists. split; [done|]. split; [done|]. cbn [env].
    destruct Hany1 as [->| ->]; [by left|right; by left]. }
  wp_step. eapply wp_RunOVNNbctl_nb; [done|by apply parse_ls_del|].
  intros o2 se2 err2 e2 es2 H2 _. cbn [env] in H2. rewrite (Hok1 eq_refl) in H2. wp_steps.
  split; [done|]. eexists. split; [done|]. cbn [env].
  destruct (step_to _ _ (without_network name db) _ _ _
    ltac:(intros ??; rewrite exec_ls_del; by intros [= <-]) H2) as [Hok2 Hany2].
  split; [done|]. destruct Hany2 as [->| ->]; [right; by left|right; right; by left].
Qed.

(** The localnet port of a provider network. *)
Definition localnet (name : string) : string := "server-localnet_" +:+ name.

#[local] Arguments localnet : simpl never.
Definition to_localnet (name : string) (x : SPort) : SPort :=
  mkSPort (sp_switch x) "localnet" "unknown" {["network_name" := "nw_" +:+ name]} (sp_external_ids x).

Definition with_localnet (name : string) (db : Nb) : Nb :=
  set_sports <[localnet name := to_localnet name (default (new_sport name) (sports db !! localnet name))]> db.

Lemma exec_localnet name db db2 a :
  exec [LspAdd name (localnet name); LspSetAddresses (localnet name) "unknown";
        LspSetType (localnet name) "localnet";
        LspSetOptions (localnet name) "network_name" ("nw_" +:+ name)] db = Some (db2, a) ->
  db2 = with_localnet name db /\ (forall x, sports db !! localnet name = Some x -> sp_switch x = name).
Proof.
  unfold exec, with_localnet, exec_ops. cbn [exec_op mbind option_bind]. unfold change_sport, change.
  destruct (sports db !! localnet name) as [x|] eqn:Hp; unfold guarded; case_bool_decide; try done; cbn.
  - rewrite Hp. cbn. rewrite !lookup_insert_eq. cbn. rewrite !lookup_insert_eq. cbn.
    unfold set_sports. cbn. rewrite !insert_insert_eq. intros [= <- _]. split; [done|]. by intros ? [= <-].
  - rewrite !lookup_insert_eq. cbn. rewrite !lookup_insert_eq. cbn. rewrite !lookup_insert_eq. cbn.
    unfold set_sports. cbn. rewrite !insert_insert_eq. by intros [= <- _].
Qed.

Definition pn_stages (name subnet gw excl : string) (db : Nb) : list Nb :=
  let db1 := with_switch name subnet gw excl db in [db1; with_localnet name db1].

Lemma CreateProviderNetwork_nb cr sub rest ip cidr s h :
  let name := Name (pn_meta cr) in
  let gw := gateway_ip_mask cidr (Gateway sub) in
  at_nbctl h s -> pn_Ipv4Subnets (pn_Spec cr) = sub :: rest -> ParseCIDR (Subnet sub) = Some (ip, cidr) ->
  plain_network name (Subnet sub) gw (ExcludeIps sub) = true ->
  wp (CreateProviderNetwork cr) (fun r s' _ => glob s' = glob s /\ exists err, r = Val err /\
    switch_outcome name (nb (env s)) (pn_stages name (Subnet sub) gw (ExcludeIps sub) (nb (env s)))
      err (nb (env s'))) s.
Proof.
  intros name gw Hat Hsub Hs Hp. unfold CreateProviderNetwork. rewrite Hsub, index_0. wp_steps.
  assert (Hpl := Hp). unfold plain_network in Hpl. rewrite !andb_true_iff in Hpl.
  destruct Hpl as [[[Hn _] _] _]. eapply wp_createOvnLS_nb; [done..|]. fold gw name.
  intros e1 v err es1 _ H1. cbn [after]. set (db := nb (env s)) in *. unfold pn_stages.
  set (db1 := with_switch _ _ _ _ _) in *. destruct err as [x|].
  { wp_steps. split; [done|]. eexists. split; [done|]. apply (outcome_fail _ _ [_] _ _ H1). }
  assert (Hdb1 : nb e1 = db1).
  { unfold switch_outcome in H1. destruct (_ !! name); [by destruct H1|].
    destruct H1 as (_ & H & _). by injection (H eq_refl). }
  assert (Hl : plain (localnet name) = true) by by apply plain_app.
  assert (Hnw : plain ("nw_" +:+ name) = true) by by apply plain_app.
  wp_step. eapply wp_RunOVNNbctl_nb; [done|exact (parse_localnet name _ _ Hn Hl Hnw)|].
  intros o se err e2 es2 H2 [Hne _]. cbn [env] in H2. rewrite Hdb1 in H2. wp_steps.
  split; [done|]. eexists. split; [done|]. cbn [env].
  destruct (step_to _ _ (with_localnet name db1) _ _ _
    (fun db2 a H => proj1 (exec_localnet name db1 db2 a H)) H2) as [Hok Hany].
  rewrite Hdb1 in H1. by eapply (outcome_step _ _ [_]).
Qed.

(** The gateway of a switch, as the pods' ports get it. *)
Lemma getGatewayFromSwitch_nb sw oc s h :
  at_nbctl h s -> ovnCtl (glob s) = Some oc -> gatewayCache oc !! sw = None -> plain sw = true ->
  wp (getGatewayFromSwitch sw) (fun r s' _ => nb (env s') = nb (env s) /\
    forall ip mask, r = Val (ip, mask, None) ->
    forall x v, switches (nb (env s)) !! sw = Some x -> sw_external_ids x !! "gateway_ip" = Some v ->
      plain v = true -> (ip, mask, None) = split_gateway v) s.
Proof.
  intros Hat Ho Hc Hsw. unfold getGatewayFromSwitch, gateway_text. wp_steps. rewrite Ho. wp_steps. rewrite Hc.
  wp_steps. eapply wp_RunOVNNbctl_nb; [done|by apply parse_gateway|]. intros o se err e1 es1 Hstep _.
  assert (Hread : nb e1 = nb (env s)) by (eapply step_read; [|exact Hstep]; by intros ?? [=]).
  cbn [after]. destruct err as [x|]; [by wp_steps|].
  destruct Hstep as (a & Ha & Hreads). rewrite exec_one in Ha. injection Ha as _ <-. cbn [reads] in Hreads.
  destruct (o == "") eqn:Hne; [by wp_steps|].
  wp_steps. unfold wp. rewrite getGateway_split. split; [done|]. cbn [env]. split; [done|].
  intros ip mask [= Hr] x v Hx Hv Hpv. rewrite Hx in Hreads. cbn in Hreads. rewrite Hv in Hreads.
  cbn in Hreads. rewrite Hpv in Hreads. by rewrite <- Hr, Hreads.
Qed.

(** ** Properties *)

(** C5: with the nil error, creating a network whose switch was not there
    leaves the database with that network: the switch with its subnet, gateway
    and excluded addresses, the router port and the switch port that face each
    other with one hardware address, and every other row as it was.  With an
    error the database is at one of the stages before.  When the switch is
    there, nothing changes and there is an error, also when the ports of the
    network are missing. *)
Theorem CreateNetwork_realises cr sub rest ip cidr s h :
  let name := Name (nw_meta cr) in
  let gw := gateway_ip_mask cidr (Gateway sub) in
  let db := nb (env s) in
  at_nbctl h s -> nb_wf db ->
  nw_Ipv4Subnets (nw_Spec cr) = sub :: rest -> ParseCIDR (Subnet sub) = Some (ip, cidr) ->
  plain_network name (Subnet sub) gw (ExcludeIps sub) = true ->
  wp (CreateNetwork cr) (fun r s' _ => glob s' = glob s /\ exists err mac, r = Val err /\
    match switches db !! name with
    | Some _ => err <> None /\ nb (env s') = db
    | None =>
        nb (env s') ∈ network_stages name (Subnet sub) gw (ExcludeIps sub) mac db /\
        (err = None ->
         nb (env s') = with_network name (Subnet sub) gw (ExcludeIps sub) mac db /\
         has_network name (Subnet sub) gw (ExcludeIps sub) mac (nb (env s')))
    end) s.
Proof.
  intros name gw db Hat Hwf Hsub Hs Hp. eapply wp_mono; [|by eapply (CreateNetwork_nb _ _ _ _ _ _ h)].
  intros r s' _ (Hg & err & -> & mac & Hout & Hj). split; [done|]. exists err, mac. split; [done|].
  unfold switch_outcome in Hout. fold name gw db in Hout, Hj.
  destruct (switches db !! name); [done|]. destruct Hout as (Hin & Hok & _). split; [done|].
  intros He. specialize (Hok He). injection Hok as ->. destruct (Hj He).
  split; [done|]. by apply with_network_has.
Qed.

(** C23: a network that is created and then deleted, both with the nil error,
    leaves the database as it was, provided no row of the network was there. *)
Theorem create_delete_roundtrip cr sub rest ip cidr s h :
  let name := Name (nw_meta cr) in
  let gw := gateway_ip_mask cidr (Gateway sub) in
  at_nbctl h s -> nb_wf (nb (env s)) -> fresh_network name (nb (env s)) ->
  nw_Ipv4Subnets (nw_Spec cr) = sub :: rest -> ParseCIDR (Subnet sub) = Some (ip, cidr) ->
  plain_network name (Subnet sub) gw (ExcludeIps sub) = true ->
  wp (err1 ← CreateNetwork cr; err2 ← DeleteNetwork cr; mret (err1, err2)) (fun r s' _ =>
    r = Val (None, None) -> nb (env s') = nb (env s)) s.
Proof.
  intros name gw Hat Hwf Hf Hsub Hs Hp. wp_step.
  eapply wp_mono; [|by eapply (CreateNetwork_nb _ _ _ _ _ _ h)].
  intros r [g e1] es1 (Hg & err1 & -> & mac & Hout & Hj). cbn [glob] in Hg. subst g.
  cbn [after env] in *. fold name gw in Hout, Hj. wp_step.
  assert (Hn : plain name = true) by (unfold plain_network in Hp; by rewrite !andb_true_iff in Hp; destruct Hp as [[[? _] _] _]).
  eapply wp_mono; [|by apply (DeleteNetwork_nb _ _ h)].
  intros r2 [g2 e2] es2 (_ & err2 & -> & Hdel & _). cbn [after env] in *. wp_steps.
  intros [= -> ->]. cbn [env]. rewrite (Hdel eq_refl). fold name.
  unfold switch_outcome in Hout. rewrite (proj1 Hf) in Hout. destruct Hout as (_ & Hok & _).
  specialize (Hok eq_refl). injection Hok as ->. destruct (Hj eq_refl). by apply without_with.
Qed.

(** The default gateway as its two parts. *)
Lemma default_gateway_split subnet ip cidr :
  ParseCIDR subnet = Some (ip, cidr) -> length (net_ip cidr) = 4%nat ->
  (Mask_ones (net_mask cidr) <= 31)%Z -> (1 <= hd 0%Z (net_ip cidr))%Z ->
  split_gateway (gateway_ip_mask cidr "") =
    (IP_String (NextIP (net_ip cidr)), fmt_d (Mask_ones (net_mask cidr)), None).
Proof.
  intros Hs Hlen Hones Hhd.
  destruct (ParseCIDR_v4 _ _ _ Hs Hlen) as (q & n & Hq & Hbq & Hn & Hm & Hip).
  destruct (network_quad q n Hq Hbq Hn) as (a & b & c & d & Hz & Hb & Hfix).
  destruct (CIDRMask_bytes n Hn) as (_ & _ & _ & _ & _ & _ & _ & _ & _ & _ & Hone).
  rewrite Hm, Hone in Hones. rewrite Hip, Hz in Hhd. cbn in Hhd.
  destruct (NextIP_in_network a b c d n Hb Hhd ltac:(lia) Hfix) as (Hnext & Hd & Hmask).
  rewrite gateway_ip_mask_default, Hip, Hz, Hnext, Hm, Hone. unfold split_gateway.
  change (?x +:+ "/" +:+ ?y) with (x +:+ String "/" y).
  assert (Hbs : Forall is_byte [a; b; c; d + 1]%Z).
  { rewrite !Forall_cons in *. simpl in Hb |- *. intuition lia. }
  rewrite Split_cons by by apply IP_String_no_slash.
  rewrite Split_free; [done|]. apply (ubtoa_free (Z.of_nat n)). split; lia.
Qed.

(** the gateway of a network without a configured one, read back through
    the cache by the code that adds ports, is the first address of its subnet
    and the prefix length of the subnet. *)
Theorem created_gateway cr sub rest ip cidr oc s h :
  let name := Name (nw_meta cr) in
  at_nbctl h s -> nb_wf (nb (env s)) -> ovnCtl (glob s) = Some oc -> gatewayCache oc !! name = None ->
  nw_Ipv4Subnets (nw_Spec cr) = sub :: rest -> ParseCIDR (Subnet sub) = Some (ip, cidr) ->
  Gateway sub = "" -> length (net_ip cidr) = 4%nat ->
  (Mask_ones (net_mask cidr) <= 31)%Z -> (1 <= hd 0%Z (net_ip cidr))%Z ->
  plain_network name (Subnet sub) (gateway_ip_mask cidr "") (ExcludeIps sub) = true ->
  wp (err1 ← CreateNetwork cr; '(gw, mask, err2) ← getGatewayFromSwitch name; mret (err1, gw, mask, err2))
    (fun r _ _ => forall gw mask, r = Val (None, gw, mask, None) ->
       gw = IP_String (NextIP (net_ip cidr)) /\ mask = fmt_d (Mask_ones (net_mask cidr))) s.
Proof.
  intros name Hat Hwf Ho Hc Hsub Hs Hgw Hlen Hones Hhd Hp. wp_step.
  eapply wp_mono; [|eapply (CreateNetwork_nb _ _ _ _ _ _ h); [done..|by rewrite Hgw]].
  intros r [g e1] es1 (Hg & err1 & -> & mac & Hout & Hj). cbn [glob] in Hg. subst g.
  rewrite Hgw in *. fold name in Hout, Hj. cbn [after env] in *. wp_step.
  assert (Hpl := Hp). unfold plain_network in Hpl. rewrite !andb_true_iff in Hpl.
  destruct Hpl as [[[Hn _] Hg] _].
  eapply wp_mono; [|by apply (getGatewayFromSwitch_nb _ oc _ h)].
  intros r2 [g2 e2] es2 (_ & Hgate).
  assert (Hend : forall gw mask, r2 = Val (gw, mask, None) -> err1 = None ->
    gw = IP_String (NextIP (net_ip cidr)) /\ mask = fmt_d (Mask_ones (net_mask cidr))).
  { intros gw mask Hr2 ->. unfold switch_outcome in Hout. cbn [env] in Hgate.
    destruct (switches (nb (env s)) !! name); [by destruct Hout|]. destruct Hout as (_ & Hok & _).
    specialize (Hok eq_refl). injection Hok as Hnb. destruct (Hj eq_refl) as [Hj1 Hj2].
    destruct (with_network_has name (Subnet sub) (gateway_ip_mask cidr "") (ExcludeIps sub) mac _ Hj1 Hj2)
      as [Hsw _].
    assert (H := Hgate gw mask Hr2 (network_switch (Subnet sub) (gateway_ip_mask cidr "") (ExcludeIps sub)) _
      ltac:(by rewrite Hnb) eq_refl Hg).
    rewrite (default_gateway_split _ _ _ Hs Hlen Hones Hhd) in H. by injection H. }
  destruct r2 as [[[gw mask] err2]|w|]; cbn [after]; [|by intros ?? [=]..].
  wp_steps. intros gw' mask' [= -> -> -> ->]. by apply Hend.
Qed.
End networks.

(** ** Concrete runs *)

Definition demo_nb : Nb := mkNb {["ovn4nfv-master" := ∅]} ∅ ∅ ∅.
Definition demo_nb_state : St Nb := mkSt (set_ovnCtl (Some (Build_Controller ∅)) demo_globals) demo_nb.

Lemma demo_nb_wf : nb_wf demo_nb.
Proof. unfold demo_nb. constructor; intros p x; cbn; by rewrite lookup_empty. Qed.

Definition demo_made : Nb :=
  with_network "nw1" "172.16.33.0/24" "172.16.33.1/24" "172.16.33.2" "00:00:00:00:00:00" demo_nb.

Lemma CreateNetwork_realises_witness :
  wp (@CreateNetwork Nb nb_interpreter (demo_network [demo_subnet])) (fun r s' _ =>
    glob s' = glob demo_nb_state /\ exists err mac, r = Val err /\
    match switches demo_nb !! "nw1" with
    | Some _ => err <> None /\ env s' = demo_nb
    | None =>
        env s' ∈ network_stages "nw1" "172.16.33.0/24" (gateway_ip_mask demo_cidr "") "172.16.33.2" mac demo_nb /\
        (err = None ->
         env s' = with_network "nw1" "172.16.33.0/24" (gateway_ip_mask demo_cidr "") "172.16.33.2" mac demo_nb /\
         has_network "nw1" "172.16.33.0/24" (gateway_ip_mask demo_cidr "") "172.16.33.2" mac (env s'))
    end) demo_nb_state /\
  (let '(r, s', _) := @CreateNetwork Nb nb_interpreter (demo_network [demo_subnet]) demo_nb_state in
   r = Val None /\ bool_decide (env s' = demo_made) = true).
Proof.
  split; [|vm_compute; split; reflexivity].
  refine (@CreateNetwork_realises Nb nb_interpreter nb_interpreter_server (demo_network [demo_subnet])
    demo_subnet [] _ demo_cidr demo_nb_state demo_helper _ demo_nb_wf eq_refl demo_cidr_parsed _).
  - split; reflexivity.
  - vm_compute; reflexivity.
Defined.

Lemma create_delete_roundtrip_witness :
  let m := err1 ← @CreateNetwork Nb nb_interpreter (demo_network [demo_subnet]);
           err2 ← @DeleteNetwork Nb nb_interpreter (demo_network [demo_subnet]); mret (err1, err2) in
  wp m (fun r s' _ => r = Val (None, None) -> env s' = demo_nb) demo_nb_state /\
  (m demo_nb_state).1.1 = Val (None, None).
Proof.
  split; [|vm_compute; reflexivity].
  refine (@create_delete_roundtrip Nb nb_interpreter nb_interpreter_server (demo_network [demo_subnet])
    demo_subnet [] _ demo_cidr demo_nb_state demo_helper _ demo_nb_wf _ eq_refl demo_cidr_parsed _).
  - split; reflexivity.
  - split; reflexivity.
  - vm_compute; reflexivity.
Defined.

Lemma created_gateway_witness :
  let m := err1 ← @CreateNetwork Nb nb_interpreter (demo_network [Build_IpSubnet "s" "172.16.33.0/24" "" ""]);
           '(gw, mask, err2) ← @getGatewayFromSwitch Nb nb_interpreter "nw1"; mret (err1, gw, mask, err2) in
  wp m (fun r _ _ => forall gw mask, r = Val (None, gw, mask, None) ->
    gw = IP_String (NextIP [172; 16; 33; 0]%Z) /\ mask = fmt_d (Mask_ones [255; 255; 255; 0]%Z)) demo_nb_state /\
  (m demo_nb_state).1.1 = Val (None, "172.16.33.1", "24", None).
Proof.
  split; [|vm_compute; reflexivity].
  refine (@created_gateway Nb nb_interpreter nb_interpreter_server
    (demo_network [Build_IpSubnet "s" "172.16.33.0/24" "" ""]) (Build_IpSubnet "s" "172.16.33.0/24" "" "") [] _
    demo_cidr (Build_Controller ∅) demo_nb_state demo_helper _ demo_nb_wf eq_refl eq_refl eq_refl
    demo_cidr_parsed eq_refl eq_refl _ _ _).
  - split; reflexivity.
  - vm_compute; discriminate.
  - vm_compute; discriminate.
  - vm_compute; reflexivity.
Defined.
