(* ===== verification/NbStart.v ===== *)
(** * NbStart: the northbound database at the start of the controller

    [SetupOvnUtils] makes the cluster's router, the join switch with the two
    ports between them, and the switch of the default network; on a database
    where they are it changes nothing. *)

From S2P Require Import Prelude.
From S2P Require Import GoStrings.
From S2P Require Import GoNet.
From S2P Require Import Addressing.
From S2P Require Import Types.
From S2P Require Import World.
From S2P Require Import Runner.
From S2P Require Import OvnCommon.
From S2P Require Import OvnController.
From S2P Require Import OvnNetworks.
From S2P Require Import Nbctl.
From S2P Require Import NbParse.
From S2P Require Import NbNetworks.
From Stdlib Require Import Ascii.

#[local] Open Scope string_scope.
#[local] Open Scope list_scope.

Definition joinSwitch : string := "ovn4nfv-join".
Definition rtoj (name : string) : string := "rtoj-" +:+ name.
Definition jtor (name : string) : string := "jtor-" +:+ name.
#[local] Arguments rtoj : simpl never.
#[local] Arguments jtor : simpl never.

(** The rows of the cluster's router [r]. *)
Record cluster_up (r : string) (db : Nb) : Prop := {
  cu_router : exists x, routers db !! r = Some x /\ x !! "ovn4nfv-cluster-router" = Some "yes";
  cu_join : is_Some (switches db !! joinSwitch);
  cu_ports : exists rp sp, rports db !! rtoj r = Some rp /\ sports db !! jtor r = Some sp /\
    sp_switch sp = joinSwitch /\ sp_type sp = "router" /\ sp_addresses sp = rp_mac rp /\
    sp_options sp !! "router-port" = Some (rtoj r)
}.

(** Everything that [SetupOvnUtils] makes. *)
Definition set_up (db : Nb) : Prop :=
  cluster_up ovn4nfvRouterName db /\ is_Some (switches db !! Ovn4nfvDefaultNw).

(** ** Transactions on a database where their rows are *)

Lemma exec_lr_add r db db2 a :
  exec [LrAdd r; DbSet TRouter r [mkSetting "external_ids" "ovn4nfv-cluster-router" "yes"]] db = Some (db2, a) ->
  db2 = set_routers <[r := <["ovn4nfv-cluster-router" := "yes"]> (default ∅ (routers db !! r))]> db.
Proof.
  unfold exec. cbn. unfold change, ensure, set_routers.
  destruct (routers db !! r) as [x|] eqn:Hr; cbn.
  - rewrite Hr. cbn. by intros [= <- _].
  - rewrite lookup_insert_eq. cbn. intros [= <- _]. by rewrite insert_insert_eq.
Qed.

Lemma exec_ls_add sw db db2 a :
  exec [LsAdd sw] db = Some (db2, a) -> db2 = set_switches (ensure sw emptySwitch) db.
Proof. by intros [= <- _]. Qed.

Lemma exec_join_port r p mac net db db2 a :
  rports db !! p = None ->
  exec [LrpAdd r p mac net; DbSet TRPort p [mkSetting "external_ids" "connect_to_ovn4nfvjoin" "yes"]] db
    = Some (db2, a) ->
  db2 = set_rports <[p := mkRPort r mac net {["connect_to_ovn4nfvjoin" := "yes"]}]> db.
Proof.
  intros Hp. unfold exec. cbn. rewrite Hp. unfold guarded. case_bool_decide; [|done]. cbn.
  unfold change, set_rports. rewrite lookup_insert_eq. cbn. intros [= <- _]. by rewrite insert_insert_eq.
Qed.

Lemma set_routers_id f db : f (routers db) = routers db -> set_routers f db = db.
Proof. unfold set_routers. intros ->. by destruct db. Qed.
Lemma set_sports_id f db : f (sports db) = sports db -> set_sports f db = db.
Proof. unfold set_sports. intros ->. by destruct db. Qed.

Lemma with_peer_id sw p rt mac db x :
  sports db !! p = Some x -> sp_type x = "router" -> sp_addresses x = mac ->
  sp_options x !! "router-port" = Some rt -> with_peer sw p rt mac db = db.
Proof.
  intros Hx Ht Ha Ho. unfold with_peer. rewrite Hx. cbn. apply set_sports_id, insert_id.
  rewrite Hx. unfold to_router. rewrite insert_id by done. subst. by destruct x; cbn in *; subst.
Qed.

Section start.
Context {E : Type} `{!ExecWorld E, !NbServer E}.
Implicit Types s : St E.

(** A step that leads to [db1] or nowhere. *)
Definition stepped (db db1 : Nb) (err : option error) (db' : Nb) : Prop :=
  (err = None -> db' = db1) /\ (db' = db \/ db' = db1).

(** The tail: the switch port that faces the router port. *)
Lemma wp_connect_join_nb name mac (Q : Res (option error) -> St E -> list Event -> Prop) s h :
  at_nbctl h s -> plain name = true -> plain mac = true ->
  (forall e' es err,
     stepped (nb (env s)) (with_peer joinSwitch (jtor name) (rtoj name) mac (nb (env s))) err (nb e') ->
     (err = None -> forall x, sports (nb (env s)) !! jtor name = Some x -> sp_switch x = joinSwitch) ->
     Q (Val err) (mkSt (glob s) e') es) ->
  wp (connect_join name mac) Q s.
Proof.
  intros Hat Hn Hm HQ. unfold connect_join. wp_step.
  assert (Hj : plain (jtor name) = true) by by apply plain_app.
  assert (Hr : plain (rtoj name) = true) by by apply plain_app.
  eapply wp_RunOVNNbctl_nb; [done| |].
  { apply (parse_router_port [] joinSwitch (jtor name) (rtoj name)); auto. }
  intros o se err e1 es1 H1 _. wp_steps. apply HQ; cbn [env].
  - eapply step_to; [|exact H1]. intros db2 a Ha.
    exact (proj1 (exec_peer _ _ _ _ _ _ _ Ha)).
  - intros ->. destruct H1 as (a & Ha & _). exact (proj2 (exec_peer _ _ _ _ _ _ _ Ha)).
Qed.

Definition setup_post (name : string) (db : Nb) (err : option error) (db' : Nb) : Prop :=
  nb_wf db' /\ (err = None -> cluster_up name db') /\ (cluster_up name db -> db' = db).

(** The result of the tail on the way to [cluster_up]. *)
Lemma join_up name mac db db' err x rp :
  nb_wf db -> plain name = true ->
  routers db !! name = Some x -> x !! "ovn4nfv-cluster-router" = Some "yes" ->
  is_Some (switches db !! joinSwitch) ->
  rports db !! rtoj name = Some rp -> rp_mac rp = mac ->
  stepped db (with_peer joinSwitch (jtor name) (rtoj name) mac db) err db' ->
  (err = None -> forall x, sports db !! jtor name = Some x -> sp_switch x = joinSwitch) ->
  setup_post name db err db'.
Proof.
  intros Hwf Hn Hx Hyes Hjoin Hrp Hmac [Hok Hany] Hsw.
  assert (Hwf2 : (forall x, sports db !! jtor name = Some x -> is_Some (switches db !! sp_switch x)) ->
    nb_wf (with_peer joinSwitch (jtor name) (rtoj name) mac db)).
  { intros Hs. apply wf_sports_insert; [done| |by apply plain_app].
    destruct (sports db !! jtor name) as [y|] eqn:Hy; cbn; [by apply (Hs y)|done]. }
  split; [|split].
  - destruct Hany as [->| ->]; [done|]. apply Hwf2. intros y Hy. by destruct (wf_sport _ Hwf _ _ Hy).
  - intros He. rewrite (Hok He). specialize (Hsw He). constructor; [by exists x|done|].
    exists rp. eexists. split; [exact Hrp|]. split; [apply lookup_insert_eq|].
    destruct (sports db !! jtor name) as [y|] eqn:Hy; cbn; [rewrite (Hsw y eq_refl)|];
      (split_and!; [done..|apply lookup_insert_eq]).
  - intros [_ _ (rp2 & sp & Hrp2 & Hsp & _ & Ht & Ha & Ho)].
    assert (rp2 = rp) as -> by congruence. assert (sp_addresses sp = mac) by congruence.
    assert (Hid := with_peer_id joinSwitch _ _ _ _ _ Hsp Ht H Ho). rewrite Hid in Hany. by destruct Hany.
Qed.

Lemma setup_from name db db1 err db' :
  (cluster_up name db -> db1 = db) -> setup_post name db1 err db' -> setup_post name db err db'.
Proof.
  intros Hid (Hwf & Hok & Hkeep). split; [done|]. split; [done|]. intros Hup.
  assert (H := Hid Hup). subst db1. by apply Hkeep.
Qed.

Lemma setup_fail name db x db' :
  nb_wf db' -> (cluster_up name db -> db' = db) -> setup_post name db (Some x) db'.
Proof. by split. Qed.

(** The router port of the router is missing. *)
Lemma no_port_not_up name db : rports db !! rtoj name = None -> ~ cluster_up name db.
Proof. intros Hn [_ _ (rp & sp & Hrp & _)]. congruence. Qed.

(** From the reading of the router port's address on. *)
Lemma wp_join_ports name x s h :
  at_nbctl h s -> nb_wf (nb (env s)) -> plain name = true ->
  routers (nb (env s)) !! name = Some x -> x !! "ovn4nfv-cluster-router" = Some "yes" ->
  is_Some (switches (nb (env s)) !! joinSwitch) ->
  wp ('(routerMac, _, err) ← RunOVNNbctl ["--if-exist"; "get"; "logical_router_port"; "rtoj-" +:+ name; "mac"];
      match err with Some e => mret (Some e) | None =>
      if routerMac == "" then
        routerMac ← generateMac;
        '(_, _, err) ← RunOVNNbctl ["--"; "--may-exist"; "lrp-add"; name; "rtoj-" +:+ name; routerMac;
          "100.64.1.1/24"; "--"; "set"; "logical_router_port"; "rtoj-" +:+ name;
          "external_ids:connect_to_ovn4nfvjoin=yes"];
        match err with Some e => mret (Some e) | None => connect_join name routerMac end
      else connect_join name routerMac
      end) (fun r s' _ => glob s' = glob s /\ exists err, r = Val err /\
        setup_post name (nb (env s)) err (nb (env s'))) s.
Proof.
  intros Hat Hwf Hn Hx Hyes Hjoin. change ("rtoj-" +:+ name) with (rtoj name). set (db := nb (env s)) in *.
  assert (Hr : plain (rtoj name) = true) by by apply plain_app.
  wp_step. eapply wp_get_mac; [done..|]. fold db. intros e1 es1 o se err Hdb1 Hmac _. cbn [after].
  destruct err as [y|].
  { wp_steps. split; [done|]. eexists. split; [done|]. apply setup_fail; cbn [env]; by rewrite Hdb1. }
  specialize (Hmac eq_refl). destruct (o == "") eqn:Ho.
  - apply bool_decide_eq_true in Ho. subst o.
    assert (Hnone : rports db !! rtoj name = None) by (destruct (rports db !! _); [by destruct Hmac|done]).
    assert (Hno := no_port_not_up _ _ Hnone).
    wp_step. apply wp_generateMac_nb. intros e2 mac Hdb2 Hm. cbn [after]. cbn [env] in Hdb2.
    wp_step. eapply wp_RunOVNNbctl_nb; [done|by apply parse_join_port|].
    intros o3 se3 err3 e3 es3 H3 _. cbn [env after] in *. rewrite Hdb2, Hdb1 in H3.
    assert (Hwf3 : nb_wf (nb e3)) by (eapply nb_step_wf; [|exact Hwf|exact H3]; cbn; by rewrite Hm).
    destruct err3 as [y|].
    { wp_steps. split; [done|]. eexists. split; [done|]. by apply setup_fail. }
    destruct H3 as (a & Ha & _). apply exec_join_port in Ha; [|done].
    eapply wp_connect_join_nb; [done..|]. cbn [env]. intros e4 es4 err4 H4 Hs4.
    split; [done|]. eexists. split; [done|]. cbn [env].
    apply (setup_from _ _ (nb e3)); [done|]. rewrite Ha in *.
    eapply (join_up name mac); [done..|apply lookup_insert_eq|done|exact H4|exact Hs4].
  - destruct (rports db !! rtoj name) as [rp|] eqn:Hrp; [|by subst o]. destruct Hmac as [-> Hm].
    eapply wp_connect_join_nb; [done..|]. cbn [env]. rewrite Hdb1. intros e4 es4 err4 H4 Hs4.
    split; [done|]. eexists. split; [done|]. cbn [env]. by eapply join_up.
Qed.

Lemma setupDistributedRouter_nb name s h :
  at_nbctl h s -> nb_wf (nb (env s)) -> plain name = true ->
  wp (setupDistributedRouter name) (fun r s' _ => glob s' = glob s /\ exists err, r = Val err /\
    setup_post name (nb (env s)) err (nb (env s'))) s.
Proof.
  intros Hat Hwf Hn. unfold setupDistributedRouter. set (db := nb (env s)) in *. wp_step.
  eapply wp_RunOVNNbctl_nb; [done|by apply parse_lr_add|]. intros o1 se1 err1 e1 es1 H1 _. cbn [after]. fold db in H1.
  assert (Hwf1 : nb_wf (nb e1)) by by eapply nb_step_wf; [|exact Hwf|exact H1].
  destruct (step_to _ _ _ _ _ _ (exec_lr_add name db) H1) as [Hok1 Hany1].
  assert (Hid1 : cluster_up name db -> nb e1 = db).
  { intros [(x & Hx & Hyes) _ _]. destruct Hany1 as [->| ->]; [done|]. apply set_routers_id.
    rewrite Hx. cbn. by rewrite !insert_id by (rewrite ?insert_id; done). }
  destruct err1 as [y|].
  { wp_steps. split; [done|]. eexists. split; [done|]. by apply setup_fail. }
  specialize (Hok1 eq_refl). wp_step.
  eapply wp_RunOVNNbctl_nb; [done|by apply parse_ls_add|]. intros o2 se2 err2 e2 es2 H2 _. cbn [after env] in *.
  assert (Hwf2 : nb_wf (nb e2)) by by eapply nb_step_wf; [|exact Hwf1|exact H2].
  destruct (step_to _ _ _ _ _ _ (exec_ls_add joinSwitch (nb e1)) H2) as [Hok2 Hany2].
  assert (Hid2 : cluster_up name (nb e1) -> nb e2 = nb e1).
  { intros [_ [y Hy] _]. destruct Hany2 as [->| ->]; [done|]. apply set_switches_id. by eapply ensure_Some. }
  destruct err2 as [y|].
  { wp_steps. split; [done|]. eexists. split; [done|]. apply (setup_from _ _ _ _ _ Hid1). by apply setup_fail. }
  specialize (Hok2 eq_refl). clear Hany1 Hany2.
  eapply wp_mono; [|eapply (wp_join_ports name _ _ h); [done|done|done|..]].
  - intros r [g e3] es3 (Hg & err & -> & Hpost). split; [done|]. eexists. split; [done|].
    apply (setup_from _ _ _ _ _ Hid1). by apply (setup_from _ _ _ _ _ Hid2).
  - cbn [env]. rewrite Hok2, Hok1. apply lookup_insert_eq.
  - apply lookup_insert_eq.
  - cbn [env]. rewrite Hok2. apply ensure_lookup.
Qed.

(** ** The switch of the default network *)

(** The configuration of the default network needs no quoting. *)
Definition plain_conf (name subnet gatewayIP excl : string) : bool :=
  match ParseCIDR subnet with
  | Some (_, cidr) => plain_network name subnet (gateway_ip_mask cidr gatewayIP) excl
  | None => plain name
  end.

Lemma plain_conf_name name subnet gw excl : plain_conf name subnet gw excl = true -> plain name = true.
Proof.
  unfold plain_conf, plain_network. destruct (ParseCIDR subnet) as [[? ?]|]; [|done].
  rewrite !andb_true_iff. tauto.
Qed.

(** One row of the switch table, at most: a new one, or none at all when it is
    there.  Success and the error that says so both mean that it is there. *)
Lemma createOvnLS_row name subnet gatewayIP excl s h :
  at_nbctl h s -> plain_conf name subnet gatewayIP excl = true ->
  wp (createOvnLS name subnet gatewayIP excl) (fun r s' _ => glob s' = glob s /\
    exists v err, r = Val (v, err) /\
      (nb (env s') = nb (env s) \/
       switches (nb (env s)) !! name = None /\
       exists x, nb (env s') = set_switches <[name := x]> (nb (env s))) /\
      (err = None \/ err = Errorf "LS exists" -> is_Some (switches (nb (env s')) !! name))) s.
Proof.
  intros Hat Hp. assert (Hn := plain_conf_name _ _ _ _ Hp). unfold plain_conf in Hp.
  set (db := nb (env s)) in *. unfold createOvnLS. wp_steps.
  eapply wp_RunOVNNbctl_nb; [done|by apply parse_find_switch|]. intros o se err e1 es1 Hstep [Herr _]. cbn [after].
  assert (Hread : nb e1 = db) by (eapply step_read; [|exact Hstep]; by intros ?? [=]).
  destruct err as [x|].
  { wp_steps. split; [done|]. do 2 eexists. split; [done|]. split; [by left|]. by intros [?|?]. }
  destruct Hstep as (a & Ha & Hreads). rewrite exec_find in Ha. injection Ha as _ <-.
  destruct (switches (nb (env s)) !! name) as [y|] eqn:Hsw; cbn [reads] in Hreads.
  { rewrite Hreads by (by rewrite Hn). rewrite bool_decide_eq_true_2 by done. wp_steps.
    split; [done|]. do 2 eexists. split; [done|]. cbn [env]. rewrite Hread. split; [by left|].
    intros _. fold db in Hsw. by rewrite Hsw. }
  rewrite (Hreads eq_refl), bool_decide_eq_false_2 by by apply plain_nonempty.
  destruct (ParseCIDR subnet) as [[ip cidr]|]; [|wp_steps; split; [done|]; do 2 eexists;
    split; [done|]; cbn [env]; rewrite Hread; split; [by left|by intros [?|?]]].
  unfold plain_network in Hp. rewrite !andb_true_iff, orb_true_iff, String.eqb_eq in Hp.
  destruct Hp as [[[_ Hsub] Hgw] Hex]. wp_steps.
  eapply wp_RunOVNNbctl_nb; [done|by apply parse_add_switch|]. intros o2 se2 err2 e2 es2 H2 [Herr2 _].
  cbn [env] in H2. rewrite Hread in H2. wp_steps. split; [done|]. do 2 eexists. split; [done|]. cbn [env].
  destruct (step_to _ _ (with_switch name subnet (gateway_ip_mask cidr gatewayIP) excl db) _ _ _
    ltac:(intros ??; by apply exec_add_switch) H2) as [Hok Hany]. split.
  - destruct Hany as [->| ->]; [by left|right]. split; [done|]. by eexists.
  - intros [He|He]; [|done]. rewrite (Hok He). unfold with_switch. cbn. by rewrite lookup_insert_eq.
Qed.

Lemma cluster_up_switches name f db :
  (forall k, is_Some (switches db !! k) -> is_Some (f (switches db) !! k)) ->
  cluster_up name db -> cluster_up name (set_switches f db).
Proof. intros Hf [Hr Hj Hp]. constructor; [done|by apply Hf|done]. Qed.

Lemma SetupOvnUtils_nb conf s h :
  at_nbctl h s -> ovnConf (glob s) = Some conf -> nb_wf (nb (env s)) ->
  plain_conf Ovn4nfvDefaultNw (conf_Subnet conf) (conf_GatewayIP conf) (conf_ExcludeIPs conf) = true ->
  wp SetupOvnUtils (fun r s' _ => glob s' = glob s /\ exists err, r = Val err /\
    (err = None -> set_up (nb (env s'))) /\ (set_up (nb (env s)) -> nb (env s') = nb (env s))) s.
Proof.
  intros Hat Hc Hwf Hp. unfold SetupOvnUtils. wp_step.
  eapply wp_mono; [|by apply (setupDistributedRouter_nb _ _ h)].
  intros r [g e1] es1 (Hg & err & -> & Hwf1 & Hup & Hkeep). cbn [glob] in Hg. subst g. cbn [after env] in *.
  destruct err as [x|].
  { wp_steps. split; [done|]. eexists. split; [done|]. split; [done|]. intros [Hs _]. by apply Hkeep. }
  wp_steps. cbn [glob]. rewrite Hc. wp_steps.
  eapply wp_mono; [|by apply (createOvnLS_row _ _ _ _ _ h)].
  intros r2 [g2 e2] es2 (Hg2 & v & err2 & -> & Hrow & Hthere). cbn [after env] in *.
  assert (Hend : forall err' : option error, (err' = None -> err2 = None \/ err2 = Errorf "LS exists") ->
    (err' = None -> set_up (nb e2)) /\ (set_up (nb (env s)) -> nb e2 = nb (env s))).
  { intros err' He. split.
    - intros Hn. split; [|by apply Hthere, He]. destruct Hrow as [->|(Hnone & x & ->)]; [by apply Hup|].
      apply cluster_up_switches; [|by apply Hup]. intros k. apply lookup_grows.
    - intros [Hcu Hdef]. rewrite (Hkeep Hcu) in Hrow. destruct Hrow as [?|(Hnone & _)]; [done|].
      rewrite Hnone in Hdef. by destruct Hdef. }
  destruct err2 as [x|]; [|wp_steps; split; [done|]; eexists; split; [done|]; apply Hend; auto].
  destruct (DeepEqualErrorf x "LS exists") eqn:Hx; cbn [negb]; wp_steps;
    (split; [done|]; eexists; split; [done|]; apply Hend); [|done].
  intros _. right. apply bool_decide_eq_true in Hx. by subst x.
Qed.

(** ** Properties *)

(** C21: with the nil error, the set-up of the controller leaves a database with
    the cluster's router, the join switch, the two ports between them with one
    hardware address, and the switch of the default network; on a database
    where all of these are it changes nothing, whether it fails or not.  So a
    restart of the operator leaves the database alone. *)
Theorem SetupOvnUtils_idempotent conf s h :
  at_nbctl h s -> ovnConf (glob s) = Some conf -> nb_wf (nb (env s)) ->
  plain_conf Ovn4nfvDefaultNw (conf_Subnet conf) (conf_GatewayIP conf) (conf_ExcludeIPs conf) = true ->
  wp SetupOvnUtils (fun r s' _ => glob s' = glob s /\ exists err, r = Val err /\
    (err = None -> set_up (nb (env s'))) /\ (set_up (nb (env s)) -> nb (env s') = nb (env s))) s.
Proof. apply SetupOvnUtils_nb. Qed.
End start.

(** ** Concrete runs *)

Definition start_conf : OVNNetworkConf := Build_OVNNetworkConf "10.233.64.0/18" "" "10.233.64.2".
Definition start_state : St Nb := mkSt (set_ovnConf (Some start_conf) demo_globals) empty_nb.

Lemma empty_nb_wf : nb_wf empty_nb.
Proof. constructor; intros p x; cbn; by rewrite lookup_empty. Qed.

Lemma SetupOvnUtils_idempotent_witness :
  let m := @SetupOvnUtils Nb nb_interpreter in
  wp m (fun r s' _ => glob s' = glob start_state /\ exists err, r = Val err /\
    (err = None -> set_up (env s')) /\ (set_up empty_nb -> env s' = empty_nb)) start_state /\
  (let '(r1, s1, _) := m start_state in
   let '(r2, s2, _) := m s1 in
   r1 = Val None /\ r2 = Val None /\ bool_decide (env s2 = env s1) = true /\
   bool_decide (env s1 = empty_nb) = false).
Proof.
  split; [|vm_compute; auto].
  refine (@SetupOvnUtils_idempotent Nb nb_interpreter nb_interpreter_server start_conf start_state demo_helper
    _ eq_refl empty_nb_wf _).
  - split; reflexivity.
  - vm_compute; reflexivity.
Defined.
