(* ===== verification/NbShared.v ===== *)
(** * NbShared: a northbound database that others write too

    The operator's controllers and the CNI servers of the nodes write one
    northbound database.  [NbShared] is an environment whose database others may
    change between any two commands, and while a command waits, by steps of
    [others]; [NbServer] is the case of no others.  [secures own I m Q] is a
    rely-guarantee triple: from a database in which [I] holds, [m] returns a
    value for which [Q] holds of the database then, and all changes on the way
    are [others]' or steps of [own].

    A network that is created with the nil error is there whatever other
    networks and pods' ports are created at the same time, and its creation
    leaves theirs alone. *)

From S2P Require Import Prelude.
From S2P Require Import GoStrings.
From S2P Require Import GoNet.
From S2P Require Import Addressing.
From S2P Require Import Types.
From S2P Require Import World.
From S2P Require Import Runner.
From S2P Require Import Traces.
From S2P Require Import OvnCommon.
From S2P Require Import OvnController.
From S2P Require Import OvnNetworks.
From S2P Require Import OvnPorts.
From S2P Require Import Nbctl.
From S2P Require Import NbParse.
From S2P Require Import NbNetworks.
From Stdlib Require Import Ascii.

#[local] Open Scope string_scope.
#[local] Open Scope list_scope.
#[local] Arguments rtos : simpl never.
#[local] Arguments stor : simpl never.

(** ** The interface *)

Class NbShared (E : Type) `{!ExecWorld E} := {
  shared_nbctl : string;
  db_of : E -> Nb;
  others : Nb -> Nb -> Prop;
  others_preorder :: PreOrder others;
  others_wf d d' : others d d' -> nb_wf d -> nb_wf d';
  shared_run h args ops e o se err e' :
    nbctlPath h = shared_nbctl -> nb_parse args = Some ops ->
    run_cmd shared_nbctl (nb_argv h ovsCommandTimeout args) e = ((o, se, err), e') ->
    (exists d d', others (db_of e) d /\ nb_step ops d (nb_out o) err d' /\ others d' (db_of e')) /\
    (err <> None -> Contains se "Connection refused" = true -> others (db_of e) (db_of e')) /\
    err <> Errorf "LS exists";
  shared_pause z e : others (db_of e) (db_of (pause z e));
  shared_random e : others (db_of e) (db_of (random e).2)
}.

(** Nobody else. *)
#[export] Instance alone {E} `{!ExecWorld E, !NbServer E} : NbShared E | 10.
Proof.
  refine {| shared_nbctl := nbctl; db_of := nb; others := eq |}.
  - intros d d' ->. done.
  - intros h args ops e o se err e' Hp Hops Hrun. destruct (nb_run _ _ _ _ _ _ _ _ Hp Hops Hrun) as (Hs & Hk & Hne).
    split; [by exists (nb e), (nb e')|]. split; [|done]. intros He Hc. by rewrite Hk.
  - intros z e. by rewrite nb_pause.
  - intros e. by rewrite nb_random.
Defined.

Lemma rtc_alone {E} `{!ExecWorld E, !NbServer E} (R : Nb -> Nb -> Prop) d d' :
  rtc (fun a b => @others E _ alone a b \/ R a b) d d' -> rtc R d d'.
Proof. induction 1 as [|a b c [->|Hab] _ IH]; [done|done|]. by eapply rtc_l. Qed.

Section shared.
Context {E : Type} `{!ExecWorld E, !NbShared E}.
Implicit Types s : St E.

Definition at_shared (h : execHelper) s : Prop := runner (glob s) = Some h /\ nbctlPath h = shared_nbctl.

(** ** Commands *)

Lemma retry_loop_shared n h args ops s :
  at_shared h s -> nb_parse args = Some ops ->
  exists o se err e' es d d',
    retry_loop n (nbctlPath h) (nb_argv h ovsCommandTimeout args) s
      = (Val (o, se, err), mkSt (glob s) e', es) /\
    others (db_of (env s)) d /\ nb_step ops d (nb_out o) err d' /\ others d' (db_of e') /\ err <> Errorf "LS exists".
Proof.
  intros [Hr Hp] Hops. revert s Hr. induction n as [|n IH]; intros s Hr; cbn [retry_loop];
    unfold mbind, M_bind; rewrite (run_eq _ _ _ _ Hr);
    destruct (run_cmd _ _ _) as [[[o se] err] e1] eqn:Hrun; assert (Hrun' := Hrun);
    rewrite Hp in Hrun'; destruct (shared_run _ _ _ _ _ _ _ _ Hp Hops Hrun') as ((d & d' & Hd & Hs & Hd') & Hkeep & Herr);
    (destruct err as [x|]; [destruct (Contains se "Connection refused") eqn:HC|]).
  1-3,5,6: by do 7 eexists.
  specialize (Hkeep ltac:(done) eq_refl). clear d d' Hd Hs Hd'.
  destruct (IH (mkSt (glob s) (pause 2 e1)) Hr) as (o2 & se2 & err2 & e2 & es2 & d & d' & Heq & Hd & H2).
  unfold Sleep, prim. cbn -[retry_loop nb_argv ovsCommandTimeout]. rewrite Heq. do 7 eexists. split; [done|].
  split; [|exact H2]. cbn [env] in Hd. do 2 (etrans; [eassumption || apply shared_pause|]). exact Hd.
Qed.

Lemma wp_RunOVNNbctl_shared args ops (Q : Res (string * string * option error) -> St E -> list Event -> Prop) s h :
  at_shared h s -> nb_parse args = Some ops ->
  (forall o se err e' es d d', others (db_of (env s)) d -> nb_step ops d o err d' -> others d' (db_of e') ->
     err <> Errorf "LS exists" -> Q (Val (o, se, err)) (mkSt (glob s) e') es) ->
  wp (RunOVNNbctl args) Q s.
Proof.
  intros Hat Hops HQ. destruct (retry_loop_shared 200 h args ops s Hat Hops)
    as (o & se & err & e' & es & d & d' & Heq & Hd & Hstep & Hd' & Herr). destruct Hat as [Hr Hp].
  destruct (retry_loop_spec 200 (nbctlPath h) (nb_argv h ovsCommandTimeout args) s h Hr)
    as (l & o2 & se2 & err2 & e2 & Heq2 & _).
  destruct (compress_attempts (nbctlPath h) (nb_argv h ovsCommandTimeout args) l o2 se2 err2)
    as [Hpz Hc].
  assert (Hx := Heq). rewrite Heq2 in Hx. simplify_eq.
  unfold RunOVNNbctl, RunOVNNbctlWithTimeout, get_runner. wp_steps. rewrite Hr. wp_steps.
  unfold wp, runOVNretry. rewrite Heq. split; [done|]. rewrite Hc. wp_steps. by eapply HQ.
Qed.

Lemma wp_generateMac_shared (Q : Res string -> St E -> list Event -> Prop) s :
  (forall e' mac, others (db_of (env s)) (db_of e') -> plain mac = true ->
     Q (Val mac) (mkSt (glob s) e') [EQuery "rand"; EQuery "rand"; EQuery "rand"]) ->
  wp generateMac Q s.
Proof.
  intros HQ. unfold generateMac, Intn. wp_step.
  apply wp_prim. intros a e1 H1. split; [done|]. cbn [after]. wp_step.
  apply wp_prim. intros b e2 H2. split; [done|]. cbn [after]. wp_step.
  apply wp_prim. intros c e3 H3. split; [done|]. cbn [after]. wp_steps. apply HQ.
  - assert (Hdb : forall n e e' z, (let '(x, e0) := random e in (Z.modulo x n, e0)) = (z, e') ->
      others (db_of e) (db_of e')).
    { intros n e e' z. pose proof (shared_random e). destruct (random e). by intros [= <- <-]. }
    cbn [env] in *. etrans; [exact (Hdb _ _ _ _ H1)|]. etrans; [exact (Hdb _ _ _ _ H2)|exact (Hdb _ _ _ _ H3)].
  - unfold plain. cbn -[fmt_02x].
    repeat (rewrite ?string_forall_app, ?plain_hex; cbn -[fmt_02x plain_char]). done.
Qed.

(** ** Rely and guarantee *)

Section triples.
Context (own : Nb -> Nb -> Prop).

Definition moves (d d' : Nb) : Prop := others d d' \/ own d d'.

Definition secures {A} (I : Nb -> Prop) (m : M E A) (Q : A -> Nb -> Prop) : Prop :=
  forall s h oc, at_shared h s -> ovnCtl (glob s) = Some oc -> nb_wf (db_of (env s)) -> I (db_of (env s)) ->
    wp m (fun r s' _ => (exists oc', glob s' = set_ovnCtl (Some oc') (glob s)) /\
      nb_wf (db_of (env s')) /\ rtc moves (db_of (env s)) (db_of (env s')) /\
      exists a, r = Val a /\ Q a (db_of (env s'))) s.

(** What others cannot make false. *)
Definition stable (I : Nb -> Prop) : Prop := forall d d', others d d' -> nb_wf d -> I d -> I d'.

Lemma stable_const (P : Prop) : stable (fun _ => P).
Proof. by intros d d' _ _. Qed.

Lemma stable_and I J : stable I -> stable J -> stable (fun d => I d /\ J d).
Proof. intros HI HJ d d' Ho Hwf [? ?]. split; [by eapply HI|by eapply HJ]. Qed.

Lemma secures_ret {A} (a : A) (I : Nb -> Prop) (Q : A -> Nb -> Prop) :
  (forall d, I d -> Q a d) -> secures I (mret a) Q.
Proof.
  intros HQ s h oc Hat Ho Hwf HI. apply wp_ret. split; [exists oc; by apply set_ovnCtl_same|].
  split; [done|]. split; [reflexivity|eauto].
Qed.

Lemma at_shared_set h (s s' : St E) oc :
  at_shared h s -> glob s' = set_ovnCtl (Some oc) (glob s) -> at_shared h s'.
Proof. unfold at_shared. by intros [Hr Hp] ->. Qed.

Lemma secures_bind {A B} (m : M E A) (k : A -> M E B) I (P : A -> Nb -> Prop) (Q : B -> Nb -> Prop) :
  secures I m P -> (forall a, secures (P a) (k a) Q) -> secures I (m ≫= k) Q.
Proof.
  intros Hm Hk s h oc Hat Ho Hwf HI. apply wp_bind. eapply wp_mono; [|by eapply Hm].
  intros r s1 es1 ([oc1 Hg] & Hwf1 & HR & a & -> & HP). cbn [after].
  eapply wp_mono; [|eapply (Hk a s1 h oc1); [by eapply at_shared_set|by rewrite Hg|done|done]].
  intros r2 s2 es2 ([oc2 Hg2] & Hwf2 & HR2 & H2). split; [exists oc2; by rewrite Hg2, Hg|].
  split; [done|]. split; [by etrans|done].
Qed.

Lemma secures_conseq {A} (m : M E A) (I J : Nb -> Prop) (P Q : A -> Nb -> Prop) :
  (forall d, J d -> I d) -> (forall a d, P a d -> Q a d) -> secures I m P -> secures J m Q.
Proof.
  intros HIJ HPQ Hm s h oc Hat Ho Hwf HJ. eapply wp_mono; [|eapply Hm; eauto].
  intros r s' es (Hg & Hw & HR & a & -> & HP). eauto 8.
Qed.

Lemma secures_pure {A} (m : M E A) (I : Nb -> Prop) (P : Prop) Q :
  (forall d, I d -> P) -> (P -> secures I m Q) -> secures I m Q.
Proof. intros HP Hm s h oc Hat Ho Hwf HI. eapply Hm; eauto. Qed.

(** A command: its transaction moves along [own] and makes [Q]; it may be lost. *)
Lemma secures_nb args ops (I : Nb -> Prop) (Q : string * string * option error -> Nb -> Prop) :
  nb_parse args = Some ops -> forallb op_ok ops = true -> stable I -> (forall r, stable (Q r)) ->
  (forall d d' a, nb_wf d -> I d -> exec ops d = Some (d', a) -> (d' = d \/ own d d') /\
     (forall o se, reads a o -> Q (o, se, None) d') /\
     (forall o se x, Some x <> Errorf "LS exists" -> Q (o, se, Some x) d')) ->
  (forall d o se x, nb_wf d -> I d -> Some x <> Errorf "LS exists" -> Q (o, se, Some x) d) ->
  secures I (RunOVNNbctl args) Q.
Proof.
  intros Hops Hok HI HQ Hex Hno s h oc Hat Ho Hwf HIs. eapply wp_RunOVNNbctl_shared; [done|done|].
  intros o se err e1 es1 d d' Hd Hstep Hd' Hne. split; [exists oc; by apply set_ovnCtl_same|]. cbn [env].
  assert (Hwfd : nb_wf d) by by eapply others_wf. assert (HId : I d) by by eapply HI.
  assert (Hwfd' : nb_wf d') by by eapply nb_step_wf. split; [by eapply others_wf|].
  assert (Hgo : (d' = d \/ own d d') /\ Q (o, se, err) d').
  { destruct err as [x|]; cbn in Hstep.
    - destruct Hstep as [->|[a Ha]]; [split; [by left|by apply Hno]|].
      destruct (Hex d d' a Hwfd HId Ha) as (Hown & _ & Hx). split; [done|by apply Hx].
    - destruct Hstep as (a & Ha & Hr). destruct (Hex d d' a Hwfd HId Ha) as (Hown & Hx & _). split; [done|by apply Hx]. }
  destruct Hgo as [Hown HQd]. split.
  - etrans; [apply rtc_once; left; exact Hd|]. etrans; [|apply rtc_once; left; exact Hd'].
    destruct Hown as [->|Hown]; [reflexivity|apply rtc_once; by right].
  - eexists. split; [done|]. by eapply HQ.
Qed.

(** A command that reads. *)
Lemma secures_read args op (I : Nb -> Prop) (Q : string * string * option error -> Nb -> Prop) :
  nb_parse args = Some [op] -> (forall d d' a, exec_op op d = Some (d', a) -> d' = d) -> op_ok op = true ->
  stable I -> (forall r, stable (Q r)) ->
  (forall d a o se, nb_wf d -> I d -> exec_op op d = Some (d, a) -> reads a o -> Q (o, se, None) d) ->
  (forall d o se x, nb_wf d -> I d -> Some x <> Errorf "LS exists" -> Q (o, se, Some x) d) ->
  secures I (RunOVNNbctl args) Q.
Proof.
  intros Hops Hread Hok HI HQ Hyes Hno. eapply secures_nb; [done|by cbn; rewrite Hok|done|done| |done].
  intros d d' a Hwf HId Ha. rewrite exec_one in Ha. assert (d' = d) as -> by by eapply Hread.
  split; [by left|]. split; [intros o se Hr; by eapply Hyes|intros; by apply Hno].
Qed.

Lemma secures_sleep z I : z <> 2%Z -> stable I -> secures I (Sleep z) (fun _ => I).
Proof.
  intros Hz HI s h oc Hat Ho Hwf HIs. apply wp_prim. intros [] e' [= <-].
  split; [cbn; by rewrite bool_decide_eq_false_2|]. split; [exists oc; by apply set_ovnCtl_same|].
  cbn [env]. pose proof (shared_pause z (env s)) as Hp. split; [by eapply others_wf|].
  split; [apply rtc_once; by left|]. eexists. split; [done|]. by eapply HI.
Qed.

Lemma secures_generateMac I : stable I -> secures I generateMac (fun mac d => plain mac = true /\ I d).
Proof.
  intros HI s h oc Hat Ho Hwf HIs. apply wp_generateMac_shared. intros e' mac Hnb Hm.
  split; [exists oc; by apply set_ovnCtl_same|]. cbn [env]. split; [by eapply others_wf|].
  split; [apply rtc_once; by left|]. eexists. split; [done|]. split; [done|by eapply HI].
Qed.
(** What no move makes false holds on. *)
Definition closed (J : Nb -> Prop) : Prop := forall d d', moves d d' -> J d -> J d'.

Lemma closed_stable J : closed J -> stable J.
Proof. intros HJ d d' Ho _. apply HJ. by left. Qed.

Lemma closed_rtc J d d' : closed J -> rtc moves d d' -> J d -> J d'.
Proof. intros HJ. induction 1 as [|a b c Hab _ IH]; [done|]. intros Ha. by apply IH, (HJ a b). Qed.

Lemma secures_frame {A} (m : M E A) (I J : Nb -> Prop) (Q : A -> Nb -> Prop) :
  closed J -> secures I m Q -> secures (fun d => I d /\ J d) m (fun a d => Q a d /\ J d).
Proof.
  intros HJ Hm s h oc Hat Ho Hwf [HI HJs]. eapply wp_mono; [|by eapply Hm].
  intros r s' es (Hg & Hw & HR & a & -> & HQ). split; [done|]. split; [done|]. split; [done|].
  exists a. split; [done|]. split; [done|]. by eapply closed_rtc.
Qed.

Lemma secures_for_range {X L Ret} (body : X -> L -> M E (L + Ret)) (I : list X -> L -> Nb -> Prop) (Q : Ret -> Nb -> Prop) xs l :
  (forall dn x rest l, xs = dn ++ x :: rest ->
     secures (I dn l) (body x l) (fun r d => match r with inl l' => I (dn ++ [x]) l' d | inr ret => Q ret d end)) ->
  secures (I [] l) (for_range body xs l) (fun r d => match r with inl l' => I xs l' d | inr ret => Q ret d end).
Proof.
  intros Hb. enough (H : forall rest dn l, xs = dn ++ rest ->
    secures (I dn l) (for_range body rest l) (fun r d => match r with inl l' => I xs l' d | inr ret => Q ret d end))
    by by apply (H xs [] l).
  induction rest as [|x rest IH]; intros dn l' Hxs; cbn [for_range].
  - apply secures_ret. rewrite app_nil_r in Hxs. by subst.
  - eapply secures_bind; [by eapply Hb|]. intros [l2|ret]; [|by apply secures_ret].
    apply IH. by rewrite <- app_assoc.
Qed.
End triples.

(** ** Creating a network *)

(** The rows of a network: its switch and the two ports that join it. *)
Definition net_step (name : string) (d d' : Nb) : Prop :=
  routers d' = routers d /\
  (forall k, k <> name -> switches d' !! k = switches d !! k) /\
  (forall k, k <> rtos name -> rports d' !! k = rports d !! k) /\
  (forall k, k <> stor name -> sports d' !! k = sports d !! k).

Definition apart (name : string) (d d' : Nb) : Prop :=
  switches d' !! name = switches d !! name /\ rports d' !! rtos name = rports d !! rtos name /\
  sports d' !! stor name = sports d !! stor name.

Definition has_switch (name subnet gw excl : string) (d : Nb) : Prop :=
  switches d !! name = Some (network_switch subnet gw excl).
Definition has_rport (name gw mac : string) (d : Nb) : Prop :=
  exists rp, rports d !! rtos name = Some rp /\ rp_router rp = ovn4nfvRouterName /\ rp_mac rp = mac /\ rp_network rp = gw.

Section create.
Context (name : string).
Hypothesis others_apart : forall d d', others d d' -> apart name d d'.

Abbreviation secured := (secures (net_step name)).

Lemma stable_switch o : stable (fun d => switches d !! name = o).
Proof using others_apart. intros d d' Ho _ H. by rewrite (proj1 (others_apart d d' Ho)). Qed.

Lemma stable_rport gw mac : stable (has_rport name gw mac).
Proof using others_apart. intros d d' Ho _ H. unfold has_rport. by rewrite (proj1 (proj2 (others_apart d d' Ho))). Qed.

Lemma stable_network subnet gw excl mac : stable (has_network name subnet gw excl mac).
Proof using others_apart.
  intros d d' Ho _ H. unfold has_network. destruct (others_apart d d' Ho) as (H1 & H2 & H3). by rewrite H1, H2, H3.
Qed.

(** [Q] when there is no error. *)
Definition when_nil (err : option error) (Q : Nb -> Prop) (d : Nb) : Prop := err = None -> Q d.

Lemma stable_when err Q : stable Q -> stable (when_nil err Q).
Proof. intros HQ d d' Ho Hwf H He. eapply HQ; eauto. Qed.

Lemma with_switch_step subnet gw excl d : net_step name d (with_switch name subnet gw excl d).
Proof. split_and!; try done. intros k Hk. cbn. by rewrite lookup_insert_ne. Qed.

Lemma with_rport_step r mac gw d : net_step name d (with_rport r (rtos name) mac gw d).
Proof.
  split_and!; try done. intros k Hk. cbn. unfold ensure. case_match; [done|]. by rewrite lookup_insert_ne.
Qed.

Lemma with_peer_step sw rt mac d : net_step name d (with_peer sw (stor name) rt mac d).
Proof. split_and!; try done. intros k Hk. cbn. by rewrite lookup_insert_ne. Qed.

Lemma createOvnLS_secured subnet gatewayIP excl ip cidr :
  ParseCIDR subnet = Some (ip, cidr) ->
  let gw := gateway_ip_mask cidr gatewayIP in
  plain_network name subnet gw excl = true ->
  secured (fun _ => True) (createOvnLS name subnet gatewayIP excl)
    (fun r => when_nil r.2 (fun d => r.1 = gw /\ has_switch name subnet gw excl d)).
Proof using others_apart.
  intros Hs gw Hp. unfold plain_network in Hp.
  rewrite !andb_true_iff, orb_true_iff, String.eqb_eq in Hp. destruct Hp as [[[Hn Hsub] Hgw] Hex].
  unfold createOvnLS.
  eapply secures_bind with (P := fun r d => when_nil r.2 (fun d => name <> r.1.1 -> switches d !! name = None) d).
  { eapply secures_read; [by apply parse_find_switch|by intros ??? [=]|done|apply stable_const| | |].
    - intros [[o se] err]. apply stable_when. intros d d' Ho Hwf H Hne. eapply stable_switch; eauto.
    - intros d a o se _ _ [= <-] Hr _ Hne. cbn in Hr. destruct (switches d !! name); [|done].
      rewrite Hr in Hne; [done|by rewrite Hn].
    - intros d o se x _ _ _ He. done. }
  intros [[o se] err]. cbn [fst snd]. destruct err as [x|]; [by apply secures_ret|].
  destruct (bool_decide_reflect (name = o)) as [Heq|Hne]; [by apply secures_ret|]. rewrite Hs.
  eapply secures_bind with (P := fun r => when_nil r.2 (has_switch name subnet gw excl)).
  { eapply secures_nb; [by apply parse_add_switch|done| | | |].
    - apply stable_when. intros d d' Ho Hwf H Hn'. eapply stable_switch; eauto.
    - intros r. apply stable_when, stable_switch.
    - intros d d' a _ HI Ha. specialize (HI eq_refl Hne). apply exec_add_switch in Ha as ->; [|done].
      split; [right; apply with_switch_step|]. split; [intros o' se' _ _; apply lookup_insert_eq|done].
    - done. }
  intros [[o' se'] err]. apply secures_ret. intros d H He. split; [done|by apply H].
Qed.

Lemma choose_mac_secured o J :
  stable J -> (o <> "" -> plain o = true) ->
  secured J (if o == "" then generateMac else mret o) (fun mac d => plain mac = true /\ J d).
Proof.
  intros HJ Ho. destruct (bool_decide_reflect (o = "")) as [He|He]; [by apply secures_generateMac|].
  apply secures_ret. intros d HJd. split; [by apply Ho|done].
Qed.

Lemma rport_there mac gw d :
  (forall x, rports d !! rtos name = Some x -> rp_router x = ovn4nfvRouterName /\ rp_mac x = mac /\ rp_network x = gw) ->
  has_rport name gw mac (with_rport ovn4nfvRouterName (rtos name) mac gw d).
Proof.
  intros H. unfold has_rport. cbn. unfold ensure. destruct (rports d !! rtos name) as [x|] eqn:Hx.
  - exists x. split; [done|]. by apply H.
  - eexists. by rewrite lookup_insert_eq.
Qed.

Lemma network_there subnet gw excl mac d :
  has_switch name subnet gw excl d -> has_rport name gw mac d ->
  (forall x, sports d !! stor name = Some x -> sp_switch x = name) ->
  has_network name subnet gw excl mac (with_peer name (stor name) (rtos name) mac d).
Proof.
  intros Hsw Hrp Hsp. split; [exact Hsw|]. split; [exact Hrp|]. eexists. cbn. rewrite lookup_insert_eq.
  split; [done|]. cbn. destruct (sports d !! stor name) as [x|] eqn:Hx; cbn; [rewrite (Hsp x eq_refl)|];
    (split_and!; [done..|apply lookup_insert_eq]).
Qed.

(** With no error the network is there; only its rows were touched. *)
Lemma CreateNetwork_secured cr sub rest ip cidr :
  name = Name (nw_meta cr) -> nw_Ipv4Subnets (nw_Spec cr) = sub :: rest -> ParseCIDR (Subnet sub) = Some (ip, cidr) ->
  let gw := gateway_ip_mask cidr (Gateway sub) in
  plain_network name (Subnet sub) gw (ExcludeIps sub) = true ->
  secured (fun _ => True) (CreateNetwork cr)
    (fun err => when_nil err (fun d => exists mac, plain mac = true /\ has_network name (Subnet sub) gw (ExcludeIps sub) mac d)).
Proof using others_apart.
  intros Hname Hsub Hs gw Hp. unfold CreateNetwork. rewrite <- Hname, Hsub, index_0.
  assert (Hpl := Hp). unfold plain_network in Hpl. rewrite !andb_true_iff in Hpl.
  destruct Hpl as [[[Hn _] Hg] _]. assert (Hrt := plain_rtos _ Hn). assert (Hst := plain_stor _ Hn).
  set (sw := has_switch name (Subnet sub) gw (ExcludeIps sub)).
  assert (Hsw : stable sw) by apply stable_switch.
  eapply secures_bind with (P := fun x _ => x = sub); [by apply secures_ret|]. intros x.
  apply (secures_pure _ _ _ (x = sub)); [done|]. intros ->.
  eapply secures_bind; [eapply secures_conseq; [| |by eapply createOvnLS_secured]; done|]. fold gw sw.
  intros [v [x|]]; cbn [fst snd]; [by apply secures_ret|].
  apply (secures_pure _ _ _ (v = gw)); [intros d H; by apply H|]. intros ->.
  apply secures_conseq with (I := sw) (P := fun err => when_nil err (fun d => exists mac, plain mac = true /\
    has_network name (Subnet sub) gw (ExcludeIps sub) mac d)); [intros d H; by apply H|done|].
  eapply secures_bind with (P := fun r d => (r.2 = None -> r.1.1 <> "" -> plain r.1.1 = true) /\ sw d).
  { eapply secures_read; [by apply parse_get_mac|by intros ??? [=]|done|done| | |].
    - intros r. apply stable_and; [apply stable_const|done].
    - intros d a o se Hwf Hd [= <-] Hr. split; [|done]. intros _ Ho. cbn [fst snd reads] in *.
      destruct (rports d !! _) as [rp|] eqn:Hrp; [|by specialize (Hr eq_refl)].
      destruct (wf_rport _ Hwf _ _ Hrp) as [_ Hm]. rewrite Hm in Hr. by rewrite Hr.
    - intros d o se x _ Hd _. by split. }
  intros [[mac se] [x|]]; cbn [fst snd]; [by apply secures_ret|].
  apply (secures_pure _ _ _ (mac <> "" -> plain mac = true)); [intros d H; by apply H|]. intros Hmac.
  eapply secures_bind with (P := fun mac d => plain mac = true /\ sw d).
  { eapply secures_conseq; [| |by apply (choose_mac_secured mac sw)]; [by intros d [_ H]|done]. }
  intros rmac. apply (secures_pure _ _ _ (plain rmac = true)); [by intros d [H _]|]. intros Hm.
  eapply secures_bind with (P := fun r d => sw d /\ when_nil r.2 (has_rport name gw rmac) d).
  { eapply secures_nb; [by apply parse_lrp_add|by cbn; rewrite Hm| | | |].
    - apply stable_and; [apply stable_const|done].
    - intros r. apply stable_and; [done|apply stable_when, stable_rport].
    - intros d d' a _ [_ Hd] Ha. destruct (exec_lrp_add _ _ _ _ _ _ _ Ha) as (-> & Hrp & _).
      split; [right; apply with_rport_step|]. split; [|by intros].
      intros o se' _. split; [done|]. intros _. by apply rport_there.
    - intros d o se' x _ [_ Hd] _. by split. }
  intros [[o se'] [x|]]; cbn [fst snd]; [by apply secures_ret|].
  eapply secures_bind with (P := fun r => when_nil r.2 (fun d => has_network name (Subnet sub) gw (ExcludeIps sub) rmac d)).
  { eapply secures_nb; [by apply (parse_router_port ["--wait=hv"]); auto|change (plain (stor name) && true = true); by rewrite Hst| | | |done].
    - apply stable_and; [done|apply stable_when, stable_rport].
    - intros r. apply stable_when, stable_network.
    - intros d d' a _ [Hd Hrp] Ha. destruct (exec_peer _ _ _ _ _ _ _ Ha) as [-> Hsp].
      split; [right; apply with_peer_step|]. split; [|done]. intros o' se'' _ _.
      by apply network_there; [|apply Hrp|]. }
  intros [[o' se''] err]. apply secures_ret. intros d H He. exists rmac. split; [done|by apply H].
Qed.
End create.
End shared.
