(* ===== verification/NbPods.v ===== *)
(** * NbPods: the northbound database after the operations on a pod's ports

    [evolves R m]: [m] returns, keeps a controller and a well-formed database,
    and takes the database along steps of [R] and of the others that write it.
    Adding the ports of a pod makes ports with the pod's name and mark only, and
    with a non-empty answer all that were asked for; deleting them, when no
    command fails, leaves the database as it was before the pod. *)

From S2P Require Import Prelude.
From S2P Require Import GoStrings.
From S2P Require Import Types.
From S2P Require Import World.
From S2P Require Import Sha1.
From S2P Require Import Runner.
From S2P Require Import Traces.
From S2P Require Import OvnCommon.
From S2P Require Import OvnController.
From S2P Require Import OvnNetworks.
From S2P Require Import OvnPorts.
From S2P Require Import Nbctl.
From S2P Require Import NbParse.
From S2P Require Import NbNetworks.
From S2P Require Import NbShared.
From Stdlib Require Import Ascii.

#[local] Open Scope string_scope.
#[local] Open Scope list_scope.
#[local] Arguments plain : simpl never.
#[local] Arguments texty : simpl never.

(** ** Programs that move the database along a relation *)

Section evolves.
Context {E : Type} `{!ExecWorld E, !NbShared E}.
Context (R : Nb -> Nb -> Prop).

(** The triple of NbShared.v without assertions on the database. *)
Definition evolves {A} (m : M E A) (P : A -> Prop) : Prop := secures R (fun _ => True) m (fun a _ => P a).

Lemma evolves_ret {A} (a : A) (P : A -> Prop) : P a -> evolves (mret a) P.
Proof. intros HP. by apply secures_ret. Qed.

Lemma evolves_bind {A B} (m : M E A) (k : A -> M E B) (P : A -> Prop) (Q : B -> Prop) :
  evolves m P -> (forall a, P a -> evolves (k a) Q) -> evolves (m ≫= k) Q.
Proof.
  intros Hm Hk. eapply secures_bind; [exact Hm|]. intros a. apply (secures_pure _ _ _ (P a)); [done|].
  intros HP. eapply secures_conseq; [| |by apply Hk]; done.
Qed.

Lemma evolves_mono {A} (m : M E A) (P Q : A -> Prop) :
  (forall a, P a -> Q a) -> evolves m P -> evolves m Q.
Proof. intros HPQ. apply secures_conseq; auto. Qed.

(** A run of ovn-nbctl whose transaction moves along [R]. *)
Lemma evolves_nb args ops :
  nb_parse args = Some ops -> forallb op_ok ops = true ->
  (forall db db' a, nb_wf db -> exec ops db = Some (db', a) -> R db db') ->
  evolves (RunOVNNbctl args) (fun _ => True).
Proof. intros Hops Hok Hex. eapply secures_nb; try done. intros d d' a Hwf _ Ha. split; [right; by eapply Hex|done]. Qed.

(** A run that reads. *)
Lemma evolves_read args op :
  nb_parse args = Some [op] -> op_ok op = true ->
  (forall db db' a, exec_op op db = Some (db', a) -> db' = db) ->
  evolves (RunOVNNbctl args) (fun _ => True).
Proof. intros Hops Hok Hex. by eapply secures_read. Qed.

Lemma evolves_sleep z : z <> 2%Z -> evolves (Sleep z) (fun _ => True).
Proof. intros Hz. apply secures_sleep; [done|apply stable_const]. Qed.

Lemma evolves_generateMac : evolves generateMac (fun mac => plain mac = true).
Proof.
  eapply secures_conseq; [| |apply secures_generateMac, (stable_const True)]; [done|]. by intros mac d [Hm _].
Qed.

(** ** The functions of ovn.go that read *)

Lemma evolves_poll count p c :
  plain p = true -> String.eqb c "--" = false ->
  evolves (poll_addresses count (port_args p c)) (fun _ => True).
Proof.
  intros Hp Hc. induction count as [|n IH]; cbn [poll_addresses]; [by apply evolves_ret|].
  eapply evolves_bind; [by eapply evolves_read; [apply parse_get_port|done|intros ??? [=]]|].
  intros [[out se] err] _. destruct err; [by apply evolves_ret|].
  destruct (out == "[]"); [|by apply evolves_ret].
  eapply evolves_bind; [by apply evolves_sleep|]. by intros [] _.
Qed.

Lemma evolves_gateway sw :
  plain sw = true -> evolves (getGatewayFromSwitch sw) (fun _ => True).
Proof.
  intros Hsw s h oc Hat Ho Hwf _. unfold getGatewayFromSwitch, gateway_text. wp_steps. rewrite Ho. wp_steps.
  assert (Hid := set_ovnCtl_same _ _ Ho).
  destruct (gatewayCache oc !! sw) as [v|].
  { wp_steps. unfold wp. rewrite getGateway_split. split; [done|]. split; [by eexists|].
    split; [done|]. split; [reflexivity|by eexists]. }
  wp_steps. eapply wp_RunOVNNbctl_shared; [done|by apply parse_gateway|]. intros o se err e1 es1 d d' Hd Hstep Hd' _.
  assert (d' = d) as -> by (eapply step_read; [|exact Hstep]; by intros ?? [=]).
  assert (Hd1 : others (db_of (env s)) (db_of e1)) by by etrans.
  cbn [after]. destruct err as [x|]; [wp_steps|destruct (o == ""); wp_steps].
  3: unfold wp; rewrite getGateway_split; split; [done|].
  all: cbn [env]; split; [by eexists|]; split; [by eapply others_wf|];
    split; [apply rtc_once; by left|by eexists].
Qed.

Lemma plain_node_intf node : plain (GetNodeIntfName node) = true.
Proof.
  unfold GetNodeIntfName. apply plain_app_forall; [done|]. apply take_string_keeps.
  assert (H : string_forall is_hex (EncodeToString (sha1_sum (string_bytes node))) = true).
  { apply EncodeToString_hex, Forall_flat_map, Forall_forall. intros. apply be_bytes_range. }
  revert H. generalize (EncodeToString (sha1_sum (string_bytes node))). induction s as [|c s IH]; [done|].
  cbn [string_forall]. intros [Hc Hs]%andb_true_iff. rewrite (IH Hs), andb_true_r.
  revert Hc. by destruct c as [[] [] [] [] [] [] [] []].
Qed.

Lemma evolves_nodeIP pod : evolves (getNodeLogicalPortIPAddr pod) (fun _ => True).
Proof.
  unfold getNodeLogicalPortIPAddr. eapply evolves_bind; [by apply evolves_poll; [apply plain_node_intf|]|].
  intros [out|err] _; [|by apply evolves_ret].
  destruct (split_addresses out) as [|a [|b [|c l]]]; cbn [length Nat.eqb negb]; by apply evolves_ret.
Qed.

Lemma evolves_find name : plain name = true -> evolves (FindLogicalSwitch name) (fun _ => True).
Proof.
  intros Hn. unfold FindLogicalSwitch.
  eapply evolves_bind; [by eapply evolves_read; [apply parse_find_switch|done|intros ??? [=]]|].
  intros [[o se] err] _. case_match; by apply evolves_ret.
Qed.
End evolves.

(** ** Adding the ports of a pod *)

(** The names that the ports of a pod get. *)
Definition own_port (pod : Pod) (p : string) : Prop :=
  p = pod_port pod \/ exists i, p = pod_Namespace pod +:+ "_" +:+ pod_Name pod +:+ "_" +:+ i.

Lemma own_of_pod pod p : own_port pod p -> of_pod pod p.
Proof. intros [->|[i ->]]; [apply pod_port_self|apply pod_port_suffix]. Qed.

(** Only such ports, with the pod mark, are added or changed. *)
Definition pod_step (pod : Pod) (db db' : Nb) : Prop :=
  routers db' = routers db /\ rports db' = rports db /\ switches db' = switches db /\
  forall p, sports db' !! p = sports db !! p \/
    (own_port pod p /\ exists x, sports db' !! p = Some x /\ is_pod_port x = true).

(** Only ports with the pod's name in theirs and the pod mark are added or
    changed. *)
Definition pod_grows (pod : Pod) (db db' : Nb) : Prop :=
  routers db' = routers db /\ rports db' = rports db /\ switches db' = switches db /\
  forall p, sports db' !! p = sports db !! p \/
    (of_pod pod p /\ exists x, sports db' !! p = Some x /\ is_pod_port x = true).

Lemma pod_grows_refl pod db : pod_grows pod db db.
Proof. split_and!; try done. by left. Qed.

Lemma pod_grows_rtc pod db db' : rtc (pod_step pod) db db' -> pod_grows pod db db'.
Proof.
  induction 1 as [db|db1 db2 db3 (H1 & H2 & H3 & H4) _ (G1 & G2 & G3 & G4)]; [apply pod_grows_refl|].
  split_and!; [congruence..|]. intros p. destruct (G4 p) as [Hp|Hp]; [|by right]. rewrite Hp.
  destruct (H4 p) as [Hq|[Ho Hq]]; [by left|right]. split; [by apply own_of_pod|done].
Qed.

Lemma exec_pod_port sw p addr ns clear db db' a :
  clear = [] \/ clear = [ClearDynamic p] ->
  exec ([LspAdd sw p; LspSetAddresses p addr] ++ clear ++ [DbSet TSPort p (pod_settings ns sw)]) db = Some (db', a) ->
  exists x, db' = set_sports <[p := x]> db /\ is_pod_port x = true.
Proof.
  assert (Hpod : forall x y, exec_set TSPort p (pod_settings ns sw) x = Some y ->
    exists z, y = set_sports <[p := z]> x /\ is_pod_port z = true).
  { intros x y H. cbn in H. apply bind_Some in H as (m & (u & v & Hu & Hv & ->)%change_Some & [= <-]).
    injection Hv as <-. eexists. split; [done|]. unfold is_pod_port. cbn.
    unfold set_in. cbn. rewrite lookup_insert_eq. by apply bool_decide_eq_true_2. }
  assert (Hone : forall x y b, exec_op (LspSetAddresses p addr) x = Some (y, b) ->
    exists z, y = set_sports <[p := z]> x).
  { intros x y b H. cbn in H. apply bind_Some in H as (w & H & [= <- _]). unfold change_sport in H.
    apply bind_Some in H as (m & (u & v & Hu & Hv & ->)%change_Some & [= <-]). by eexists. }
  intros Hclear. unfold exec.
  assert (Hadd : forall x y b, exec_op (LspAdd sw p) x = Some (y, b) -> y = x \/ exists z, y = set_sports <[p := z]> x).
  { intros x y b. cbn. destruct (sports x !! p); unfold guarded; case_bool_decide; try done; intros [= <- _]; eauto. }
  cbn [app exec_ops]. intros ([db1 b1] & H1 & H)%bind_Some. apply Hadd in H1.
  apply bind_Some in H as ([db2 b2] & H2 & H). apply Hone in H2 as [z2 ->].
  assert (Hlast : exists z, db' = set_sports <[p := z]> (set_sports <[p := z2]> db1) /\ is_pod_port z = true).
  { destruct Hclear as [-> | ->]; cbn [app exec_ops exec_op] in H.
    - apply bind_Some in H as ([db3 b3] & H3 & [= <- _]). apply bind_Some in H3 as (db4 & H4 & [= <- _]).
      by apply Hpod.
    - apply bind_Some in H as ([db3 b3] & [= <- <-] & H).
      apply bind_Some in H as ([db4 b4] & H4 & [= <- _]). apply bind_Some in H4 as (db5 & H5 & [= <- _]).
      by apply Hpod. }
  destruct Hlast as (z & -> & Hz). exists z. split; [|done]. unfold set_sports. cbn. rewrite insert_insert_eq.
  destruct H1 as [-> | [z1 ->]]; [done|]. cbn. by rewrite insert_insert_eq.
Qed.

Lemma grows_insert pod p x db :
  own_port pod p -> is_pod_port x = true -> pod_step pod db (set_sports <[p := x]> db).
Proof.
  intros Hp Hx. split_and!; [done..|]. intros q. cbn. destruct (decide (p = q)) as [->|].
  - right. split; [done|]. exists x. by rewrite lookup_insert_eq.
  - left. by rewrite lookup_insert_ne.
Qed.

(** What is asked for needs no quoting: the decoded requests, and the pod. *)
Definition plain_addresses (ip mac : string) : Prop :=
  ip = "" \/ plain ip = true /\ (mac = "" \/ plain mac = true).

Definition plain_request (ns : netInterface) : Prop :=
  plain (ni_Name ns) = true /\ string_forall plain_char (Interface ns) = true /\
  plain_addresses (IPAddress ns) (MacAddress ns).

Definition plain_pod (pod : Pod) : bool := plain (pod_Namespace pod) && plain (pod_Name pod).

Lemma plain_pod_port pod : plain_pod pod = true -> plain (pod_port pod) = true.
Proof.
  intros [Hn Hp]%andb_true_iff. unfold pod_port. apply plain_app_forall; [done|].
  change ("_" +:+ ?x) with (String "_" x). cbn. by apply plain_forall.
Qed.

Section add.
Context {E : Type} `{!ExecWorld E, !NbShared E}.
Context (pod : Pod).

(** What follows the command that adds a port. *)
Lemma evolves_addresses sw gw portName isStaticIP :
  plain sw = true -> plain portName = true ->
  evolves (pod_step pod) (r ← poll_addresses 30 (port_args portName (if isStaticIP : bool then "addresses" else "dynamic_addresses"));
    match r with inr _ => mret "" | inl out =>
    let addresses := split_addresses out in
    if negb (length addresses =? 2)%nat then mret "" else
    '(_, mask, err) ← getGatewayFromSwitch sw;
    match err with Some _ => mret "" | None =>
    '(gatewayIP, err) ← (if negb (gw == "") then mret (gw, None) else getNodeLogicalPortIPAddr pod);
    match err with Some _ => mret "" | None =>
    ip ← index addresses 1; mac ← index addresses 0; mret (port_annotation ip mask mac gatewayIP)
    end end end) (fun _ => True).
Proof.
  intros Hsw Hp. eapply evolves_bind; [apply evolves_poll; [done|by destruct isStaticIP]|].
  intros [out2|err2] _; [|by apply evolves_ret].
  destruct (split_addresses out2) as [|a [|b [|c l]]]; cbn [length Nat.eqb negb]; try by apply evolves_ret.
  eapply evolves_bind; [by apply evolves_gateway|]. intros [[g m] err3] _.
  destruct err3; [by apply evolves_ret|].
  eapply evolves_bind with (P := fun _ => True).
  { case_match; [by apply evolves_ret|by apply evolves_nodeIP]. }
  intros [gwip err4] _. destruct err4; by apply evolves_ret.
Qed.

(** The port that is asked for, if the answer is not empty; [J] says that it is
    there, or nothing. *)
Lemma secures_add (J : Nb -> Prop) sw ip mac gw portName :
  closed (pod_step pod) J -> (forall d x, is_pod_port x = true -> J (set_sports <[portName := x]> d)) ->
  plain (pod_Namespace pod) = true -> plain sw = true -> plain portName = true -> own_port pod portName ->
  plain_addresses ip mac ->
  secures (pod_step pod) (fun _ => True) (addLogicalPortWithSwitch pod sw ip mac gw portName)
    (fun out d => out <> "" -> J d).
Proof.
  intros HJ HJadd Hns Hsw Hp Hof Haddr. unfold addLogicalPortWithSwitch.
  destruct (HostNetwork pod); [by apply secures_ret|].
  eapply secures_bind with (P := fun m _ => ip = "" \/ plain ip = true /\ plain m = true).
  { destruct Haddr as [->|[Hip [->|Hm]]].
    - rewrite !bool_decide_eq_true_2 by done. apply secures_ret. by left.
    - rewrite bool_decide_eq_false_2, bool_decide_eq_true_2 by (done || by apply plain_nonempty).
      eapply evolves_mono; [|apply evolves_generateMac]. auto.
    - rewrite (bool_decide_eq_false_2 (mac = "")) by by apply plain_nonempty.
      rewrite andb_false_r. apply secures_ret. auto. }
  intros mac'. apply (secures_pure _ _ _ (ip = "" \/ plain ip = true /\ plain mac' = true)); [done|]. intros Hmac.
  assert (HQ : forall r : string * string * option error, stable (fun d => r.2 = None -> J d)).
  { intros r d d' Ho Hwf H Hr. eapply (closed_stable _ _ HJ); eauto. }
  eapply secures_bind with (P := fun r d => r.2 = None -> J d).
  { destruct Hmac as [->|[Hip Hm]].
    - rewrite bool_decide_eq_true_2 by done. cbn [negb].
      eapply secures_nb; [by apply parse_dynamic_port|cbn; by rewrite Hp|apply stable_const|exact HQ| |done].
      intros db db' a _ _ Ha. apply (exec_pod_port sw portName "dynamic" (pod_Namespace pod) []) in Ha as (x & -> & Hx); [|by left].
      split; [right; by apply grows_insert|]. split; [intros o se _ _; by apply HJadd|done].
    - rewrite bool_decide_eq_false_2 by by apply plain_nonempty. cbn [negb].
      eapply secures_nb; [by apply parse_static_port|cbn; by rewrite Hp|apply stable_const|exact HQ| |done].
      intros db db' a _ _ Ha.
      apply (exec_pod_port sw portName _ (pod_Namespace pod) [ClearDynamic portName]) in Ha as (x & -> & Hx); [|by right].
      split; [right; by apply grows_insert|]. split; [intros o se _ _; by apply HJadd|done]. }
  intros [[out se] [x|]]; cbn [snd]; [by apply secures_ret|].
  eapply secures_conseq with (I := fun d => True /\ J d) (P := fun _ d => True /\ J d); [auto|by intros ? d [_ H]|].
  apply secures_frame; [done|]. by apply evolves_addresses.
Qed.

Variable Decode : Json -> netInterface -> netInterface * option error.

Definition loop_at (dn : list Json) (v : netInterface * bool * string) : Prop :=
  v.1.1 = last_ns Decode zeroNetInterface dn /\ v.1.2 = asks_default Decode dn.

Lemma decode_all_app ns l1 l2 :
  decode_all Decode ns (l1 ++ l2) = decode_all Decode ns l1 ++ decode_all Decode (last_ns Decode ns l1) l2.
Proof. revert ns. induction l1 as [|o l1 IH]; intros ns; [done|]. cbn. by rewrite IH. Qed.

(** The port of an interface, and those of a list of requests. *)
Definition port_name (ns : netInterface) : string :=
  if negb (Interface ns == "") then pod_Namespace pod +:+ "_" +:+ pod_Name pod +:+ "_" +:+ Interface ns else pod_port pod.

Fixpoint asked_ports (ns : netInterface) (objs : list Json) : list string :=
  match objs with
  | [] => []
  | o :: objs => port_name (Decode o ns).1 :: asked_ports (normalise (Decode o ns).1) objs
  end.

Lemma asked_ports_app ns l1 l2 :
  asked_ports ns (l1 ++ l2) = asked_ports ns l1 ++ asked_ports (last_ns Decode ns l1) l2.
Proof. revert ns. induction l1 as [|o l1 IH]; intros ns; [done|]. cbn. by rewrite IH. Qed.

Lemma own_port_name ns : own_port pod (port_name ns).
Proof. unfold port_name. case_match; [right; by eexists|by left]. Qed.

Lemma plain_port_name ns :
  plain_pod pod = true -> (Interface ns <> "" -> string_forall plain_char (Interface ns) = true) ->
  plain (port_name ns) = true.
Proof.
  intros Hpod Hif. assert (Hpp := plain_pod_port _ Hpod). unfold port_name.
  destruct (bool_decide_reflect (Interface ns = "")); cbn [negb]; [done|].
  apply andb_true_iff in Hpod as [Hns Hpn].
  apply plain_app_forall; [done|]. change ("_" +:+ ?x) with (String "_" x). cbn [string_forall].
  rewrite string_forall_app. cbn. rewrite Hif by done. by rewrite (plain_forall plain_char _ (fun c H => H) Hpn).
Qed.

Lemma asks_default_snoc dn net :
  let ns1 := (Decode net (last_ns Decode zeroNetInterface dn)).1 in
  (if ni_Name ns1 == Ovn4nfvDefaultNw then true else asks_default Decode dn) = asks_default Decode (dn ++ [net]).
Proof.
  intros ns1. unfold asks_default. rewrite decode_all_snoc, existsb_app. cbn. rewrite orb_false_r.
  assert (Hnm : ni_Name (normalise ns1) = ni_Name ns1) by (unfold normalise; by repeat case_match).
  fold ns1. rewrite Hnm. destruct (ni_Name ns1 == Ovn4nfvDefaultNw); by rewrite ?orb_true_r, ?orb_false_r.
Qed.

(** [J p] is what is known of port [p] once it has been added. *)
Variable J : string -> Nb -> Prop.
Hypotheses (J_closed : forall p, own_port pod p -> closed (pod_step pod) (J p))
  (J_added : forall p d x, own_port pod p -> is_pod_port x = true -> J p (set_sports <[p := x]> d)).

Definition all_added (ps : list string) (d : Nb) : Prop := Forall (fun p => own_port pod p /\ J p d) ps.

Lemma all_added_closed ps : closed (pod_step pod) (all_added ps).
Proof. intros d d' Hm H. eapply Forall_impl; [exact H|]. intros p [Hp Hj]. split; [done|]. by eapply J_closed. Qed.

Lemma secures_slice w n I : (n <= String.length w)%nat ->
  secures (pod_step pod) I (slice_to w n) (fun _ => I).
Proof. intros Hn. unfold slice_to. rewrite (proj2 (Nat.leb_le _ _) Hn). by apply secures_ret. Qed.

Definition added_at (dn : list Json) (v : netInterface * bool * string) (d : Nb) : Prop :=
  loop_at dn v /\ all_added (asked_ports zeroNetInterface dn) d.

(** The result of a loop that gives up is empty. *)
Definition gave_up (ret : string * string) (d : Nb) : Prop := ret.1 = "".

Lemma secures_empty {A} I (Q : A -> Nb -> Prop) :
  secures (pod_step pod) I (mret (inr ("", "")))
    (fun r d => match r with inl a => Q a d | inr ret => gave_up ret d end).
Proof. apply secures_ret. intros d _. reflexivity. Qed.

Lemma request_plain ns1 :
  plain_request (normalise ns1) ->
  plain (ni_Name ns1) = true /\ plain_addresses (IPAddress ns1) (MacAddress ns1) /\
  (Interface ns1 <> "" -> string_forall plain_char (Interface ns1) = true).
Proof.
  intros (Hn & Hi & Ha). unfold normalise in Hn, Hi, Ha.
  destruct ns1 as [n i t d ip m g]. cbn in *. destruct (d == ""); cbn in *;
    destruct (bool_decide_reflect (i = "")); cbn in *; by split_and!.
Qed.

Lemma normalise_keeps ns1 :
  ni_Name (normalise ns1) = ni_Name ns1 /\ IPAddress (normalise ns1) = IPAddress ns1 /\
  MacAddress (normalise ns1) = MacAddress ns1.
Proof. unfold normalise. by repeat case_match. Qed.

Lemma secures_add_port dn net rest objs v :
  plain_pod pod = true -> Forall plain_request (decode_all Decode zeroNetInterface objs) ->
  objs = dn ++ net :: rest ->
  secures (pod_step pod) (added_at dn v) (add_port Decode pod net v)
    (fun r d => match r with inl v' => added_at (dn ++ [net]) v' d | inr ret => gave_up ret d end).
Proof.
  intros Hpod Hreq ->. destruct v as [[ns def] str].
  apply (secures_pure _ _ _ (loop_at dn (ns, def, str))); [by intros d [H _]|]. intros [Hv1 Hv2]. cbn in Hv1, Hv2. subst ns def.
  assert (Hns : plain (pod_Namespace pod) = true) by by apply andb_true_iff in Hpod as [? _].
  pose proof (asks_default_snoc dn net) as Hdef.
  unfold add_port. set (ns0 := last_ns Decode zeroNetInterface dn) in *.
  assert (Hlast : normalise (Decode net ns0).1 = last_ns Decode zeroNetInterface (dn ++ [net]))
    by (symmetry; apply last_ns_snoc).
  assert (Hports : asked_ports zeroNetInterface (dn ++ [net]) =
    asked_ports zeroNetInterface dn ++ [port_name (Decode net ns0).1]) by apply asked_ports_app.
  rewrite decode_all_app in Hreq. apply Forall_app in Hreq as [_ Hreq]. cbn in Hreq.
  apply Forall_cons in Hreq as [Hr _]. fold ns0 in Hr.
  destruct (Decode net ns0) as [ns1 err] eqn:Hdec. cbn [fst] in Hlast, Hr, Hports, Hdef.
  destruct (request_plain ns1 Hr) as (Hname & Haddr & Hif). destruct (normalise_keeps ns1) as (Hk1 & Hk2 & Hk3).
  destruct (bool_decide (err <> None)); [apply (secures_empty _ (fun v d => added_at (dn ++ [net]) v d))|].
  eapply secures_conseq with (I := fun d => True /\ all_added (asked_ports zeroNetInterface dn) d)
    (P := fun r d => match r with inl v' => added_at (dn ++ [net]) v' d | inr ret => gave_up ret d end);
    [by intros d [_ H']|done|].
  eapply secures_bind with (P := fun _ d => True /\ all_added (asked_ports zeroNetInterface dn) d).
  { apply secures_frame; [apply all_added_closed|]. eapply evolves_mono; [|by apply evolves_find]. done. }
  intros found. destruct found; cbn [negb]; [|apply (secures_empty _ (fun v d => added_at (dn ++ [net]) v d))].
  destruct (_ && negb _); [apply (secures_empty _ (fun v d => added_at (dn ++ [net]) v d))|].
  assert (Hpn : (if negb (Interface (if DefaultGateway ns1 == "" then set_DefaultGateway "false" ns1 else ns1) == "")
    then pod_Namespace pod +:+ "_" +:+ pod_Name pod +:+ "_" +:+
         Interface (if DefaultGateway ns1 == "" then set_DefaultGateway "false" ns1 else ns1)
    else pod_Namespace pod +:+ "_" +:+ pod_Name pod) = port_name ns1) by (unfold port_name, pod_port; by destruct (DefaultGateway ns1 == "")).
  rewrite Hpn. fold (normalise ns1). rewrite Hk1, Hk2, Hk3.
  eapply secures_bind with (P := fun out d => (out <> "" -> J (port_name ns1) d) /\ all_added (asked_ports zeroNetInterface dn) d).
  { apply secures_frame; [apply all_added_closed|]. pose proof (own_port_name ns1) as Hown.
    apply secures_add; [by apply J_closed|intros; by apply J_added|done|done|by apply plain_port_name|done|done]. }
  intros outStr. destruct (bool_decide_reflect (outStr = "")); [apply (secures_empty _ (fun v d => added_at (dn ++ [net]) v d))|].
  eapply secures_bind; [apply secures_slice; lia|]. intros tmp. apply secures_ret. intros d [Hj Hall].
  split; [split; [exact Hlast|exact Hdef]|]. rewrite Hports. apply Forall_app. split; [done|]. constructor; [|done].
  split; [apply own_port_name|by apply Hj].
Qed.

(** A result that is not empty means that the ports that were asked for are
    there, and the default port if no interface is on the default network. *)
Definition ports_added (objs : list Json) (r : string * string) (d : Nb) : Prop :=
  r.1 <> "" -> all_added (asked_ports zeroNetInterface objs) d /\
    (asks_default Decode objs = false -> J (pod_port pod) d).

Lemma secures_default_port objs str :
  plain_pod pod = true ->
  secures (pod_step pod) (all_added (asked_ports zeroNetInterface objs)) (add_default_port pod (asks_default Decode objs) str)
    (fun r d => match r with
      | inl _ => all_added (asked_ports zeroNetInterface objs) d /\ (asks_default Decode objs = false -> J (pod_port pod) d)
      | inr ret => gave_up ret d end).
Proof.
  intros Hpod. unfold add_default_port. destruct (asks_default Decode objs); [by apply secures_ret|].
  assert (Hown : own_port pod (pod_port pod)) by by left.
  eapply secures_conseq with (I := fun d => True /\ all_added (asked_ports zeroNetInterface objs) d)
    (P := fun r d => match r with
      | inl _ => all_added (asked_ports zeroNetInterface objs) d /\ J (pod_port pod) d
      | inr ret => gave_up ret d end); [by intros d H; split|intros [str2|ret] d H; [destruct H; by split|exact H]|].
  eapply secures_bind with (P := fun out d => (out <> "" -> J (pod_port pod) d) /\ all_added (asked_ports zeroNetInterface objs) d).
  { apply secures_frame; [apply all_added_closed|].
    apply secures_add; [by apply J_closed|intros; by apply J_added|by apply andb_true_iff in Hpod as [? _]|done
      |by apply plain_pod_port|done|by left]. }
  intros out. destruct (bool_decide_reflect (out = "")).
  { apply (secures_empty _ (fun _ d => all_added (asked_ports zeroNetInterface objs) d /\ J (pod_port pod) d)). }
  eapply secures_bind; [apply secures_slice; lia|]. intros tmp. apply secures_ret. intros d [Hj Hall].
  split; [done|by apply Hj].
Qed.

Lemma secures_AddLogicalPorts objs :
  plain_pod pod = true -> Forall plain_request (decode_all Decode zeroNetInterface objs) ->
  secures (pod_step pod) (fun _ => True) (AddLogicalPorts Decode pod objs) (ports_added objs).
Proof.
  intros Hpod Hreq. unfold AddLogicalPorts. case_match; [by apply secures_ret|].
  case_match; [by apply secures_ret|].
  eapply secures_bind.
  { eapply secures_conseq; [| |apply (secures_for_range _ _ added_at gave_up); intros; by eapply secures_add_port];
      [|by intros r d H1]. intros d _. split; [done|constructor]. }
  intros [[[ns def] str]|ret]; [|apply secures_ret; intros d Hg Hne; by destruct Hne].
  apply (secures_pure _ _ _ (def = asks_default Decode objs)); [by intros d [[_ H'] _]|]. intros ->.
  eapply secures_bind.
  { eapply secures_conseq; [| |by apply secures_default_port]; [by intros d [_ H']|done]. }
  intros [str'|ret]; [|apply secures_ret; intros d Hg Hne; by destruct Hne].
  eapply secures_bind; [apply secures_slice; lia|]. intros out. apply secures_ret. by intros d Hd _.
Qed.
End add.

(** ** Removing the ports of a pod *)

Definition remove_ports (D : list string) : Nb -> Nb :=
  set_sports (filter (fun kx => kx.1 ∉ D)).

Definition victims (port : string) (db : Nb) : list string :=
  filter (fun p => Contains p port = true) (pod_ports db).

Lemma elem_of_pod_ports p db :
  p ∈ pod_ports db <-> exists x, sports db !! p = Some x /\ is_pod_port x = true.
Proof.
  unfold pod_ports. rewrite list_elem_of_fmap. setoid_rewrite list_elem_of_filter. split.
  - intros ([q x] & -> & Hx & Hin). apply elem_of_map_to_list in Hin. eauto.
  - intros (x & Hx & Hp). exists (p, x). split; [done|]. split; [done|]. by apply elem_of_map_to_list.
Qed.

Lemma set_sports_same f db : f (sports db) = sports db -> set_sports f db = db.
Proof. unfold set_sports. intros ->. by destruct db. Qed.

Lemma remove_ports_nil db : remove_ports [] db = db.
Proof. apply set_sports_same, map_filter_id. intros. apply not_elem_of_nil. Qed.

Lemma remove_ports_cons p D db : set_sports (delete p) (remove_ports D db) = remove_ports (p :: D) db.
Proof.
  unfold remove_ports, set_sports. cbn. f_equal. apply map_eq. intros q.
  destruct (decide (p = q)) as [->|Hne].
  - rewrite lookup_delete_eq. symmetry. apply map_lookup_filter_None. right. intros x _. cbn. set_solver.
  - rewrite lookup_delete_ne by done. apply option_eq. intros x. rewrite !map_lookup_filter_Some. cbn. set_solver.
Qed.

Section delete.
Context {E : Type} `{!ExecWorld E, !NbServer E}.

Definition deleted (port : string) (ports : list string) (db : Nb) (es : list Event) (db' : Nb) : Prop :=
  exists D, db' = remove_ports D db /\ Forall (fun p => p ∈ ports /\ Contains p port = true) D /\
    (all_succeeded es -> forall p, p ∈ ports -> Contains p port = true -> p ∈ D).

Lemma exec_lsp_del p db : exec [LspDel p] db = Some (set_sports (delete p) db, Text "").
Proof. done. Qed.

Lemma wp_delete_ports_nb h port ports s :
  at_nbctl h s -> Forall (fun p => plain p = true) ports ->
  wp (for_range (delete_port port) ports ()) (fun r s' es => r = Val (inl ()) /\ glob s' = glob s /\
    deleted port ports (nb (env s)) es (nb (env s'))) s.
Proof.
  intros Hat Hpl. apply (wp_for_range _ (fun dn _ s' es => glob s' = glob s /\
    deleted port dn (nb (env s)) es (nb (env s')))).
  - split; [done|]. exists []. rewrite remove_ports_nil. split; [done|]. split; [done|].
    intros _ p Hp. by apply not_elem_of_nil in Hp.
  - intros dn p rest [] [g e1] es1 Hxs (Hg & D & Hdb & HD & Hall). cbn [glob env] in *. subst g.
    assert (Hp : plain p = true).
    { rewrite Forall_forall in Hpl. apply Hpl. rewrite Hxs. apply elem_of_app. right. by left. }
    unfold delete_port. destruct (Contains p port) eqn:Hc.
    + wp_step. eapply wp_RunOVNNbctl_nb; [done|by apply parse_lsp_del|].
      intros o se err e2 es2 Hstep (_ & raw & _ & ->). wp_steps. split; [done|]. cbn [env] in *.
      assert (Hgrow : Forall (fun q => q ∈ dn ++ [p] /\ Contains q port = true) D)
        by (eapply Forall_impl; [exact HD|]; cbn; set_solver).
      assert (Hpin : p ∈ dn ++ [p] /\ Contains p port = true) by (split; [set_solver|done]).
      destruct (step_to [LspDel p] (nb e1) (remove_ports (p :: D) (nb (env s))) _ _ _
        ltac:(intros ??; rewrite exec_lsp_del, Hdb, remove_ports_cons; by intros [= <-]) Hstep) as [Hok Hany].
      destruct err as [x|].
      * exists (if decide (nb e2 = nb e1) then D else p :: D). split.
        { destruct Hany as [Hx|Hx]; case_decide; try done; congruence. }
        split; [case_decide; [done|by constructor]|].
        intros Hs. rewrite app_nil_r in Hs. apply Forall_app in Hs as [_ Hs].
        apply Forall_cons in Hs as [Hs _]. cbn in Hs. done.
      * exists (p :: D). split; [by apply Hok|]. split; [by constructor|].
        intros Hs q Hq Hcq. rewrite app_nil_r in Hs. apply Forall_app in Hs as [Hs _].
        apply elem_of_app in Hq as [Hq|Hq]; [right; by apply Hall|]. apply list_elem_of_singleton in Hq as ->. by left.
    + wp_steps. split; [done|]. exists D. split; [done|].
      split; [eapply Forall_impl; [exact HD|]; cbn; set_solver|].
      rewrite app_nil_r. intros Hs q [Hq|Hq]%elem_of_app Hcq; [by apply Hall|].
      apply list_elem_of_singleton in Hq as ->. congruence.
  - intros [] s' es [Hg H]. by split.
Qed.

Lemma DeleteLogicalPorts_nb name namespace s h :
  let port := namespace +:+ "_" +:+ name in
  at_nbctl h s -> nb_wf (nb (env s)) ->
  wp (DeleteLogicalPorts name namespace) (fun r s' es => r = Val () /\ glob s' = glob s /\
    deleted port (pod_ports (nb (env s))) (nb (env s)) es (nb (env s'))) s.
Proof.
  intros port Hat Hwf. unfold DeleteLogicalPorts. wp_step.
  eapply wp_RunOVNNbctl_nb; [done|exact parse_pod_ports|]. intros o se err e1 es1 Hstep (_ & raw & _ & ->).
  assert (Hread : nb e1 = nb (env s)) by (eapply step_read; [|exact Hstep]; by intros ?? [=]).
  cbn [after]. destruct err as [x|].
  { wp_steps. split; [done|]. split; [done|]. exists []. cbn [env]. rewrite remove_ports_nil.
    split; [done|]. split; [done|]. intros Hs. rewrite app_nil_r in Hs. apply Forall_cons in Hs as [Hs _]. cbn in Hs. done. }
  destruct Hstep as (a & Ha & Hreads). rewrite exec_one in Ha. injection Ha as _ <-. cbn [reads] in Hreads.
  assert (Hpl : Forall (fun p => plain p = true) (pod_ports (nb (env s)))).
  { apply Forall_forall. intros p Hp. apply elem_of_pod_ports in Hp as (x & Hx & _).
    by destruct (wf_sport _ Hwf _ _ Hx). }
  assert (Hperm : Fields o ≡ₚ pod_ports (nb (env s))).
  { apply Hreads. apply forallb_forall. intros p Hp. apply list_elem_of_In in Hp.
    rewrite Forall_forall in Hpl. by apply Hpl. }
  wp_step. eapply wp_mono; [|apply (wp_delete_ports_nb h); [done|by rewrite Hperm]].
  intros r s' es (-> & Hg & D & Hdb & HD & Hall). cbn [after]. wp_steps. split; [done|]. split; [done|].
  cbn [env] in Hdb. rewrite Hread in Hdb. exists D. split; [done|]. split.
  - eapply Forall_impl; [exact HD|]. cbn. intros p [Hp ?]. by rewrite Hperm in Hp.
  - intros Hs p Hp Hc. apply Hall; [|by rewrite Hperm|done].
    apply Forall_app in Hs as [_ Hs]. rewrite app_nil_r in Hs. exact Hs.
Qed.

Lemma at_nbctl_set h (s s' : St E) oc :
  at_nbctl h s -> glob s' = set_ovnCtl (Some oc) (glob s) -> at_nbctl h s'.
Proof. unfold at_nbctl. by intros [Hr Hp] ->. Qed.

(** Growing by a pod's ports and removing them all. *)
Lemma grow_and_remove pod D db db1 :
  pod_grows pod db db1 -> (forall p, of_pod pod p -> sports db !! p = None) ->
  Forall (fun p => p ∈ pod_ports db1 /\ of_pod pod p) D ->
  (forall p, p ∈ pod_ports db1 -> of_pod pod p -> p ∈ D) ->
  remove_ports D db1 = db.
Proof.
  intros (H1 & H2 & H3 & H4) Hnone HD Hall. unfold remove_ports, set_sports.
  rewrite H1, H2, H3. destruct db as [rs rps sws sps]. cbn in *. f_equal.
  apply map_eq. intros p. destruct (H4 p) as [Hp|(Hof & x & Hx & Hpod)].
  - destruct (sps !! p) as [x|] eqn:Hx.
    + apply map_lookup_filter_Some. split; [by rewrite Hp|]. cbn. intros Hin.
      rewrite Forall_forall in HD. destruct (HD p Hin) as [_ Hof]. by rewrite (Hnone p Hof) in Hx.
    + apply map_lookup_filter_None. left. by rewrite Hp.
  - rewrite (Hnone p Hof). apply map_lookup_filter_None. right. intros y _. cbn. intros Hni. apply Hni.
    apply Hall; [|done]. apply elem_of_pod_ports. eauto.
Qed.

(** ** Properties *)

End delete.

(** ** Concrete runs *)

Definition pods_nb : Nb :=
  with_switch "nw1" "10.1.0.0/16" "10.1.0.1/16" ""
    (with_switch "nw2" "10.2.0.0/16" "10.2.0.1/16" ""
      (with_switch Ovn4nfvDefaultNw "10.3.0.0/16" "10.3.0.1/16" "" demo_nb)).
Definition pods_state : St Nb := mkSt (set_ovnCtl (Some (Build_Controller ∅)) demo_globals) pods_nb.

Lemma pods_nb_wf : nb_wf pods_nb.
Proof. unfold pods_nb, demo_nb. constructor; intros p x; cbn; by rewrite lookup_empty. Qed.

