(* ===== verification/NbWorkers.v ===== *)
(** * NbWorkers: networks and pods that are handled at the same time

    The network controller's workers create networks while the CNI servers add
    the ports of pods, all on one northbound database.  A [Worker] is one such
    job; [work] is what its steps may change, by the guarantees of NbShared.v
    and NbPods.v.  The names that Kubernetes allows keep different jobs apart,
    and so each ends as if it ran alone: a network that is created with the nil
    error is there, and a pod with a non-empty answer has all its ports. *)

From S2P Require Import Prelude.
From S2P Require Import GoStrings.
From S2P Require Import GoNet.
From S2P Require Import Addressing.
From S2P Require Import Types.
From S2P Require Import World.
From S2P Require Import Runner.
From S2P Require Import Traces.
From S2P Require Import OvnCommon.
From S2P Require Import OvnController.
From S2P Require Import OvnNetworks.
From S2P Require Import OvnPorts.
From S2P Require Import Nbctl.
From S2P Require Import NbParse.
From S2P Require Import NbNetworks.
From S2P Require Import NbShared.
From S2P Require Import NbPods.
From Stdlib Require Import Ascii.

#[local] Open Scope string_scope.
#[local] Open Scope list_scope.
#[local] Arguments rtos : simpl never.
#[local] Arguments stor : simpl never.

(** ** Jobs *)

Inductive Worker :=
  | WNetwork (name : string)   (* CreateNetwork *)
  | WPod (pod : Pod).          (* AddLogicalPorts *)

Definition work (w : Worker) : Nb -> Nb -> Prop :=
  match w with WNetwork name => net_step name | WPod pod => pod_step pod end.

(** The rows of a job are untouched. *)
Definition leaves (w : Worker) (d d' : Nb) : Prop :=
  match w with
  | WNetwork name => apart name d d'
  | WPod pod => forall p, own_port pod p -> sports d' !! p = sports d !! p
  end.

Definition same_job (w1 w2 : Worker) : bool :=
  match w1, w2 with
  | WNetwork a, WNetwork b => a == b
  | WPod p, WPod q => (pod_Namespace p == pod_Namespace q) && (pod_Name p == pod_Name q)
  | _, _ => false
  end.

(** Names of Kubernetes objects are DNS names: they have no underscore. *)
Definition dns_named (w : Worker) : bool :=
  match w with
  | WNetwork name => free "_" name
  | WPod pod => free "_" (pod_Namespace pod) && free "_" (pod_Name pod)
  end.

(** ** Different jobs have different rows *)

Lemma cut_underscore a1 b1 a2 b2 :
  free "_" a1 = true -> free "_" a2 = true -> a1 +:+ "_" +:+ b1 = a2 +:+ "_" +:+ b2 -> a1 = a2 /\ b1 = b2.
Proof.
  revert a2. induction a1 as [|c a1 IH]; intros [|d a2] H1 H2 Heq; cbn in *.
  - by injection Heq as ->.
  - injection Heq as <- _. by cbn in H2.
  - injection Heq as -> _. by cbn in H1.
  - apply andb_true_iff in H1 as [_ H1], H2 as [_ H2]. injection Heq as -> Heq.
    by destruct (IH _ H1 H2 Heq) as [-> ->].
Qed.

Lemma underscore_not_free a b : free "_" (a +:+ "_" +:+ b) = false.
Proof. rewrite free_app. apply andb_false_iff. by right. Qed.

Lemma own_port_underscore pod p : own_port pod p -> free "_" p = false.
Proof. intros [->|[i ->]]; apply underscore_not_free. Qed.

Lemma own_ports_of_one_pod p q x :
  dns_named (WPod p) = true -> dns_named (WPod q) = true ->
  own_port p x -> own_port q x -> same_job (WPod p) (WPod q) = true.
Proof.
  cbn. rewrite !andb_true_iff, !bool_decide_eq_true. unfold own_port, pod_port.
  intros [Hp Hpn] [Hq Hqn] [->|[i ->]] [Heq|[j Heq]]; apply cut_underscore in Heq as [-> Heq]; try done.
  - rewrite Heq in Hpn. by rewrite underscore_not_free in Hpn.
  - rewrite <- Heq in Hqn. by rewrite underscore_not_free in Hqn.
  - by apply cut_underscore in Heq as [-> _].
Qed.

Lemma stor_free name : free "_" name = true -> free "_" (stor name) = true.
Proof. done. Qed.

Lemma append_inj a b c : a +:+ b = a +:+ c -> b = c.
Proof. induction a as [|x a IH]; [done|]. cbn. intros [=]. auto. Qed.

(** The guarantee of one job is what the others rely on. *)
Lemma work_leaves w1 w2 d d' :
  dns_named w1 = true -> dns_named w2 = true -> same_job w1 w2 = false -> work w1 d d' -> leaves w2 d d'.
Proof.
  intros H1 H2 Hne. destruct w1 as [n|p], w2 as [m|q]; cbn [work leaves].
  - assert (Hnm : m <> n) by (cbn in Hne; apply bool_decide_eq_false in Hne; congruence).
    intros (_ & Hs & Hr & Hp). unfold apart. split_and!; [by apply Hs|apply Hr|apply Hp];
      intros Heq; apply Hnm; by apply append_inj in Heq.
  - intros (_ & _ & _ & Hp) x Hx. apply Hp. intros ->. apply own_port_underscore in Hx.
    rewrite stor_free in Hx by done. done.
  - intros (_ & Hr & Hs & Hp). unfold apart. rewrite Hs, Hr. split_and!; [done..|].
    destruct (Hp (stor m)) as [Heq|[Ho _]]; [done|]. apply own_port_underscore in Ho.
    rewrite stor_free in Ho by done. done.
  - intros (_ & _ & _ & Hp) x Hx. destruct (Hp x) as [Heq|[Ho _]]; [done|]. exfalso.
    assert (Hs := own_ports_of_one_pod p q x H1 H2 Ho Hx). congruence.
Qed.

(** ** A database that only such jobs write *)

(** A step of another job than [me]. *)
Definition by_others (me : Worker) (d d' : Nb) : Prop :=
  exists w, dns_named w = true /\ same_job w me = false /\ work w d d'.

Lemma leaves_refl w d : leaves w d d.
Proof. by destruct w. Qed.

Lemma leaves_trans w d1 d2 d3 : leaves w d1 d2 -> leaves w d2 d3 -> leaves w d1 d3.
Proof.
  destruct w; cbn.
  - unfold apart. intros (H1 & H2 & H3) (G1 & G2 & G3). by rewrite G1, G2, G3.
  - intros H1 H2 p Hp. by rewrite H2, H1.
Qed.

Lemma others_leave me d d' : dns_named me = true -> rtc (by_others me) d d' -> leaves me d d'.
Proof.
  intros Hme. induction 1 as [d|d1 d2 d3 (w & Hw & Hne & Hs) _ IH]; [apply leaves_refl|].
  eapply leaves_trans; [|exact IH]. by apply (work_leaves w me).
Qed.

Section together.
Context {E : Type} `{!ExecWorld E, !NbShared E}.
Context (me : Worker).
Hypotheses (me_named : dns_named me = true) (only_jobs : forall d d', others d d' -> rtc (by_others me) d d').

(** All that happens while [me] is at work: steps of jobs, its own among them. *)
Definition together (d d' : Nb) : Prop := rtc (fun a b => by_others me a b \/ work me a b) d d'.

Lemma moves_together d d' : rtc (moves (work me)) d d' -> together d d'.
Proof using only_jobs.
  induction 1 as [d|d1 d2 d3 [Ho|Hw] _ IH]; [apply rtc_refl| |].
  - unfold together. etrans; [|exact IH]. apply only_jobs in Ho. clear -Ho. induction Ho as [d|d1 d2 d3 H _ IH]; [apply rtc_refl|].
    eapply rtc_l; [by left|done].
  - eapply rtc_l; [by right|done].
Qed.

Lemma others_kept d d' : others d d' -> leaves me d d'.
Proof using me_named only_jobs. intros H. by apply others_leave, only_jobs. Qed.
End together.

(** ** Properties *)

Section properties.
Context {E : Type} `{!ExecWorld E, !NbShared E}.

(** C6: While any other networks and pods are handled on the same database,
    at any moment between two commands or during a command's wait, CreateNetwork
    with the nil error leaves its network there in full, whatever the order of
    the steps; and all that has happened meanwhile is steps of the jobs. *)
Theorem network_created_among_others cr sub rest ip cidr s h oc :
  let name := Name (nw_meta cr) in
  let gw := gateway_ip_mask cidr (Gateway sub) in
  dns_named (WNetwork name) = true ->
  (forall d d', others d d' -> rtc (by_others (WNetwork name)) d d') ->
  at_shared h s -> ovnCtl (glob s) = Some oc -> nb_wf (db_of (env s)) ->
  nw_Ipv4Subnets (nw_Spec cr) = sub :: rest -> ParseCIDR (Subnet sub) = Some (ip, cidr) ->
  plain_network name (Subnet sub) gw (ExcludeIps sub) = true ->
  wp (CreateNetwork cr) (fun r s' _ => exists err, r = Val err /\ nb_wf (db_of (env s')) /\
    together (WNetwork name) (db_of (env s)) (db_of (env s')) /\
    (err = None -> exists mac, plain mac = true /\
       has_network name (Subnet sub) gw (ExcludeIps sub) mac (db_of (env s')))) s.
Proof.
  intros name gw Hname Hjobs Hat Ho Hwf Hsub Hs Hp.
  eapply wp_mono; [|eapply (CreateNetwork_secured name); eauto; intros d d' H; by apply (others_kept (WNetwork name))].
  intros r s' es (_ & Hwf' & HR & err & -> & HQ). exists err. split; [done|]. split; [done|].
  split; [|exact HQ]. by apply moves_together.
Qed.

(** A port with the pod mark. *)
Definition port_there (p : string) (d : Nb) : Prop :=
  exists x, sports d !! p = Some x /\ is_pod_port x = true.

Lemma port_there_closed pod p :
  (forall d d', others d d' -> leaves (WPod pod) d d') -> own_port pod p -> closed (pod_step pod) (port_there p).
Proof.
  intros Hkeep Hp d d' [Ho|(_ & _ & _ & H)] (x & Hx & Hm).
  - exists x. by rewrite (Hkeep _ _ Ho p Hp).
  - destruct (H p) as [Heq|[_ Hy]]; [exists x; by rewrite Heq|done].
Qed.

End properties.

(** ** A crowd

    The other jobs finish one by one, each just before a command of [me]. *)

Definition finished (w : Worker) (d : Nb) : Nb :=
  match w with
  | WNetwork name => with_network name "10.9.0.0/16" "10.9.0.1/16" "" "0a:00:00:00:00:09" d
  | WPod pod => set_sports <[pod_port pod :=
      mkSPort Ovn4nfvDefaultNw "" "dynamic" ∅ (<["pod" := "true"]> ∅)]> d
  end.

Definition can_finish (w : Worker) (d : Nb) : bool :=
  match w with
  | WNetwork name => plain name && bool_decide (is_Some (routers d !! ovn4nfvRouterName))
  | WPod pod => plain_pod pod && bool_decide (is_Some (switches d !! Ovn4nfvDefaultNw))
  end.

Definition interferes (me w : Worker) (d : Nb) : Nb :=
  if dns_named w && negb (same_job w me) && can_finish w d then finished w d else d.

Lemma finished_work w d : can_finish w d = true -> work w d (finished w d).
Proof.
  destruct w as [name|pod]; cbn [can_finish work finished]; intros _.
  - unfold with_network. split_and!; cbn; try done.
    + intros k Hk. by rewrite lookup_insert_ne.
    + intros k Hk. unfold ensure. case_match; [done|]. by rewrite lookup_insert_ne.
    + intros k Hk. by rewrite lookup_insert_ne.
  - apply grows_insert; [by left|done].
Qed.

Lemma finished_wf w d : can_finish w d = true -> nb_wf d -> nb_wf (finished w d).
Proof.
  destruct w as [name|pod]; cbn [can_finish finished]; intros [Hn Hr%bool_decide_eq_true]%andb_true_iff Hwf.
  - assert (Hwf1 : nb_wf (with_switch name "10.9.0.0/16" "10.9.0.1/16" "" d))
      by (apply wf_switches; [done|intros k Hk; by apply lookup_grows]).
    assert (Hwf2 : nb_wf (with_rport ovn4nfvRouterName (rtos name) "0a:00:00:00:00:09" "10.9.0.1/16"
      (with_switch name "10.9.0.0/16" "10.9.0.1/16" "" d))).
    { unfold with_rport, ensure. destruct (rports d !! rtos name) as [x|] eqn:Hx.
      - destruct Hwf1 as [H1 H2]. constructor; [exact H1|]. cbn. rewrite Hx. exact H2.
      - assert (Hins := wf_rports_insert _ (rtos name) (new_rport ovn4nfvRouterName "0a:00:00:00:00:09" "10.9.0.1/16") Hwf1 Hr eq_refl).
        destruct Hins as [H1 H2]. constructor; [exact H1|]. cbn. rewrite Hx. exact H2. }
    apply wf_sports_insert; [done| |by apply plain_stor]. cbn.
    destruct (sports d !! stor name) as [x|] eqn:Hx; cbn.
    + apply lookup_grows. by destruct (wf_sport _ Hwf _ _ Hx).
    + rewrite lookup_insert_eq. by eexists.
  - apply wf_sports_insert; [done|done|]. by apply plain_pod_port.
Qed.

Definition crowd_step (me : Worker) (d d' : Nb) : Prop := by_others me d d' /\ (nb_wf d -> nb_wf d').

Lemma interferes_step me w d : rtc (crowd_step me) d (interferes me w d).
Proof.
  unfold interferes. destruct (dns_named w) eqn:Hw; [|done]. destruct (same_job w me) eqn:Hs; [done|].
  destruct (can_finish w d) eqn:Hc; [|done]. cbn. apply rtc_once. split; [|by apply finished_wf].
  exists w. split; [done|]. split; [done|]. by apply finished_work.
Qed.

Definition crowd_world (me : Worker) : ExecWorld (Nb * list Worker) := {|
  run_cmd path argv '(db, ws) :=
    let db1 := match ws with [] => db | w :: _ => interferes me w db end in
    let '(r, db') := run_cmd (ExecWorld := nb_interpreter) path argv db1 in (r, (db', tail ws));
  look_path f e := (f, None, e);
  getenv _ e := ("", e);
  pause _ e := e;
  random e := (0%Z, e);
  map_picks e := ([], e)
|}.

#[global] Instance crowd_shared (me : Worker) : @NbShared (Nb * list Worker) (crowd_world me).
Proof.
  refine {| shared_nbctl := "nbctl" : string; db_of := fst; others := rtc (crowd_step me) |}.
  - intros d d' H. induction H as [|d1 d2 d3 [_ H] _ IH]; auto.
  - intros h args ops [db ws] o se err e' _ Hops. cbn [run_cmd crowd_world].
    set (db1 := match ws with [] => db | w :: _ => interferes me w db end).
    assert (H1 : rtc (crowd_step me) db db1) by (destruct ws; [done|apply interferes_step]).
    destruct (run_cmd _ _ db1) as [[[o' se'] err'] db'] eqn:Hrun. intros [= -> -> -> <-].
    destruct (nb_interpreter_run h args ops db1 o se err db' Hops Hrun) as (Hs & Hk & Hne).
    split; [exists db1, db'; by split_and!|]. split; [|done]. intros He Hc. cbn. by rewrite (Hk He Hc).
  - done.
  - done.
Defined.

Lemma crowd_only_jobs me d d' : rtc (crowd_step me) d d' -> rtc (by_others me) d d'.
Proof. induction 1 as [|d1 d2 d3 [H _] _ IH]; [done|]. by eapply rtc_l. Qed.

Definition crowd_jobs : list Worker :=
  [WNetwork "nw7"; WPod (demo_pod ∅); WNetwork "nw1"; WNetwork "nw8"].

Definition crowd_state (d : Nb) (ws : list Worker) : St (Nb * list Worker) :=
  mkSt (set_ovnCtl (Some (Build_Controller ∅)) demo_globals) (d, ws).

(** Four other jobs, one of them on the same name, which is held back. *)
Lemma network_created_among_others_witness :
  let me := WNetwork "nw1" in
  let create := @CreateNetwork _ (crowd_world me) (demo_network [demo_subnet]) in
  let s0 := crowd_state demo_nb crowd_jobs in
  wp create (fun r s' _ => exists err, r = Val err /\ nb_wf (env s').1 /\ together me demo_nb (env s').1 /\
    (err = None -> exists mac, plain mac = true /\
       has_network "nw1" "172.16.33.0/24" (gateway_ip_mask demo_cidr "") "172.16.33.2" mac (env s').1)) s0 /\
  (let '(r, s', _) := create s0 in
   r = Val None /\ map_size (switches (env s').1) = 3%nat).
Proof.
  split; [|vm_compute; split; reflexivity].
  refine (@network_created_among_others _ (crowd_world (WNetwork "nw1")) (crowd_shared (WNetwork "nw1"))
    (demo_network [demo_subnet]) demo_subnet [] _ demo_cidr (crowd_state demo_nb crowd_jobs) demo_helper
    (Build_Controller ∅) eq_refl (crowd_only_jobs _) _ eq_refl demo_nb_wf eq_refl demo_cidr_parsed _).
  - split; reflexivity.
  - vm_compute; reflexivity.
Defined.

Definition other_pod : Pod := Build_Pod "other" "default" false "node1" ∅ [].

