(* ===== verification/Reconciler.v ===== *)
(** * Reconciler: the reconcile loop that the three custom-resource
    controllers share, and pkg/utils/finalizer_utils.go

    The controllers of pkg/controller/network, providernetwork and
    networkchaining have the same [Reconcile] and [reconcileFinalizers]; what
    differs (the resource, its finalizer, how it is created and deleted) is the
    interface [Reconcilable], of which each controller file gives an instance.
    The theorems on the order of effects are proved here, against the
    interface. *)

From S2P Require Import Prelude.
From S2P Require Import GoStrings.
From S2P Require Import Types.
From S2P Require Import World.
From S2P Require Import Runner.

#[local] Open Scope string_scope.
#[local] Open Scope list_scope.

(** ** pkg/utils *)
Module utils.
Definition Contains (slice : list string) (str : string) : bool :=
  existsb (fun item => item == str) slice.

Fixpoint Remove (slice : list string) (str : string) : list string :=
  match slice with
  | [] => []
  | item :: slice' => if item == str then Remove slice' str else item :: Remove slice' str
  end.

Lemma Contains_elem_of slice str : Contains slice str = true <-> str ∈ slice.
Proof.
  unfold Contains. rewrite existsb_exists. setoid_rewrite bool_decide_eq_true.
  setoid_rewrite <- list_elem_of_In. split; [intros (x & Hx & ->); done|eauto].
Qed.

Lemma Remove_filter slice str : Remove slice str = filter (fun item => item <> str) slice.
Proof.
  induction slice as [|x slice IH]; [done|]. cbn [Remove]. rewrite filter_cons.
  case_bool_decide; case_decide; try done. by rewrite IH.
Qed.

Lemma Contains_Remove slice str : Contains (Remove slice str) str = false.
Proof.
  apply not_true_iff_false. rewrite Contains_elem_of, Remove_filter, list_elem_of_filter. tauto.
Qed.

(** removing a finalizer removes every copy of it and nothing else, keeps
    the order of the others, and does nothing when it is absent. *)
Theorem Remove_spec slice str :
  (forall x, x ∈ Remove slice str <-> x ∈ slice /\ x <> str) /\
  Remove slice str `sublist_of` slice /\
  (Contains slice str = false -> Remove slice str = slice) /\
  Remove (slice ++ [str]) str = Remove slice str.
Proof.
  rewrite !Remove_filter. split; [|split; [|split]].
  - intros x. rewrite list_elem_of_filter. tauto.
  - apply sublist_filter.
  - intros Hc. apply not_true_iff_false in Hc. rewrite Contains_elem_of in Hc.
    clear -Hc. induction slice as [|x slice IH]; [done|]. rewrite elem_of_cons in Hc.
    rewrite filter_cons_True by (intros ->; tauto). f_equal. apply IH. tauto.
  - by rewrite filter_app, filter_cons_False, filter_nil, app_nil_r by tauto.
Qed.
End utils.

(** ** The interface of a controller *)
Class Reconcilable (E T : Type) := {
  obj_meta : T -> ObjectMeta;
  with_finalizers : list string -> T -> T;
  finalizerName : string;
  (** [client.Get] and [client.Update]; the object of an update is replaced by
      what the API server answers. *)
  obj_get : string -> string -> E -> (T * option error) * E;
  obj_update : T -> E -> (T * option error) * E;
  update_event : T -> option error -> Event;
  (** createNetwork or createChain; deleteNetwork or deleteChain.  Both may
      change the object (its status). *)
  obj_create : T -> M E (T * option error);
  obj_delete : T -> M E (T * option error);
  (** [errors.IsNotFound] of k8s.io/apimachinery. *)
  is_not_found : error -> bool
}.

(** The laws of the accessors. *)
Class ReconcilableLaws (E T : Type) `{!Reconcilable E T} := {
  meta_with_finalizers : forall fs (o : T), obj_meta (with_finalizers fs o) = set_finalizers fs (obj_meta o);
  update_event_no_pause : forall (o : T) err, is_retry_pause (update_event o err) = false
}.

Section reconcile.
Context {E T : Type} `{!Reconcilable E T}.

Definition Get (namespace name : string) : M E (T * option error) :=
  prim (obj_get namespace name) (fun _ => EQuery "Get").
Definition Update (o : T) : M E (T * option error) :=
  prim (obj_update o) (fun '(_, err) => update_event o err).

Definition obj_finalizers (o : T) : list string := Finalizers (obj_meta o).
Definition deleting (o : T) : bool := negb (IsZero (DeletionTimestamp (obj_meta o))).

(** The instance that the caller goes on with, and the error. *)
Definition reconcileFinalizers (instance : T) : M E (T * option error) :=
  if deleting instance then
    if utils.Contains (obj_finalizers instance) finalizerName then
      '(instance, _) ← obj_delete instance;
      let instance := with_finalizers (utils.Remove (obj_finalizers instance) finalizerName) instance in
      Update instance
    else mret (instance, None)
  else
    if negb (utils.Contains (obj_finalizers instance) finalizerName) then
      let instance := with_finalizers (obj_finalizers instance ++ [finalizerName]) instance in
      Update instance
    else mret (instance, None).

Definition Reconcile (namespace name : string) : M E (option error) :=
  '(instance, err) ← Get namespace name;
  match err with
  | Some e => if is_not_found e then mret None else mret (Some e)
  | None =>
      '(instance, err) ← reconcileFinalizers instance;
      match err with
      | Some e => mret (Some e)
      | None => '(_, err) ← obj_create instance; mret err
      end
  end.
End reconcile.

(** ** The order of effects *)
Section order.
Context {E T : Type} `{!Reconcilable E T, !ReconcilableLaws E T}.

Definition add_finalizer (o : T) : T := with_finalizers (obj_finalizers o ++ [finalizerName]) o.
Definition drop_finalizer (o : T) : T :=
  with_finalizers (utils.Remove (obj_finalizers o) finalizerName) o.

(** [D o r es] and [C o r es] say what is known of a run of the delete and of
    the create operation on [o] with outcome [r]. *)
Variables D C : T -> Res (T * option error) -> list Event -> Prop.
(** What the operations need of the package variables, and keep. *)
Variable G : Globals -> Prop.

Definition op_spec (m : T -> M E (T * option error))
    (R : T -> Res (T * option error) -> list Event -> Prop) : Prop :=
  forall o s, G (glob s) -> wp (m o) (fun r s' es => G (glob s') /\ R o r es) s.

(** The error part of an outcome. *)
Definition res_err (r : Res (T * option error)) : Res (option error) :=
  match r with Val (_, err) => Val err | Panic w => Panic w | Block => Block end.

(** The effects of [reconcileFinalizers] on [o]. *)
Definition finalizer_post (o : T) (r1 : Res (T * option error)) (es1 : list Event) : Prop :=
  match deleting o, utils.Contains (obj_finalizers o) finalizerName with
  | true, true => exists rd esd, D o rd esd /\
      match rd with
      | Val (od, _) => exists o1 err1, r1 = Val (o1, err1) /\
          es1 = esd ++ [update_event (drop_finalizer od) err1]
      | _ => r1 = rd /\ es1 = esd
      end
  | false, false => exists o1 err1, r1 = Val (o1, err1) /\ es1 = [update_event (add_finalizer o) err1]
  | _, _ => r1 = Val (o, None) /\ es1 = []
  end.

(** The effects of a reconcile of [o]: the finalizer first, and only when that
    went well the creation, on the object that the API server answered. *)
Definition reconcile_post (o : T) (r : Res (option error)) (es : list Event) : Prop :=
  exists r1 es1, finalizer_post o r1 es1 /\
    match r1 with
    | Val (o1, None) => exists rc es2, C o1 rc es2 /\ r = res_err rc /\ es = EQuery "Get" :: es1 ++ es2
    | _ => r = res_err r1 /\ es = EQuery "Get" :: es1
    end.

Lemma wp_Update (o : T) (Q : Res (T * option error) -> St E -> list Event -> Prop) s :
  (forall o' err e', Q (Val (o', err)) (mkSt (glob s) e') [update_event o err]) ->
  wp (Update o) Q s.
Proof.
  intros HQ. apply wp_ask. intros [o' err] e'. split; [apply update_event_no_pause|apply HQ].
Qed.

Lemma wp_reconcileFinalizers o s :
  G (glob s) -> op_spec obj_delete D ->
  wp (reconcileFinalizers o) (fun r s' es => G (glob s') /\ finalizer_post o r es) s.
Proof.
  intros Hr HD. unfold reconcileFinalizers, finalizer_post.
  destruct (deleting o), (utils.Contains (obj_finalizers o) finalizerName); cbn [negb].
  - wp_step. eapply wp_mono; [|by apply (HD o s)].
    intros rd s1 es1 [Hg Hd].
    destruct rd as [[od ed]|w|]; cbn [after]; [|split; [done|]; by eexists _, _..].
    apply wp_Update. intros o' err e'. split; [done|]. exists (Val (od, ed)), es1.
    split; [done|]. by exists o', err.
  - by apply wp_ret.
  - by apply wp_ret.
  - apply wp_Update. intros o' err e'. split; [done|]. by exists o', err.
Qed.

(** The reconcile loop, for an object that the API server knows. *)
Lemma wp_Reconcile namespace name o e1 s :
  G (glob s) -> obj_get namespace name (env s) = ((o, None), e1) ->
  op_spec obj_delete D -> op_spec obj_create C ->
  wp (Reconcile namespace name) (fun r s' es => G (glob s') /\ reconcile_post o r es) s.
Proof.
  intros Hr Hget HD HC. unfold Reconcile. wp_step. apply wp_prim. rewrite Hget.
  intros a e' [= <- <-]. split; [done|]. cbn [after]. wp_step.
  eapply wp_mono; [|by apply (wp_reconcileFinalizers o (mkSt (glob s) e1))].
  intros r s2 es2 [Hg Hf].
  assert (Hstop : forall r', reconcile_post o r' (EQuery "Get" :: es2) ->
    G (glob s2) /\ reconcile_post o r' ([EQuery "Get"] ++ es2)) by done.
  destruct r as [[o1 [x|]]|w|]; cbn [after].
  - apply wp_ret. rewrite app_nil_r. apply Hstop. by exists (Val (o1, Some x)), es2.
  - wp_step. eapply wp_mono; [|by apply (HC o1 s2)]. intros rc s3 es3 [Hg3 Hc].
    assert (Hend : G (glob s3) /\ reconcile_post o (res_err rc) ([EQuery "Get"] ++ es2 ++ es3)).
    { split; [done|]. exists (Val (o1, None)), es2. split; [done|]. by exists rc, es3. }
    destruct rc as [[o2 err]|w|]; cbn [after]; [|exact Hend..].
    apply wp_ret. rewrite app_nil_r. exact Hend.
  - apply Hstop. by exists (Panic w), es2.
  - apply Hstop. by exists Block, es2.
Qed.

(** For an object that the API server does not give. *)
Lemma Reconcile_not_read namespace name o x e1 s :
  obj_get namespace name (env s) = ((o, Some x), e1) ->
  Reconcile namespace name s =
    (Val (if is_not_found x then None else Some x), mkSt (glob s) e1, [EQuery "Get"]).
Proof.
  intros Hget. unfold Reconcile, Get, prim, mbind, M_bind. rewrite Hget.
  by destruct (is_not_found x).
Qed.
End order.
