(* ===== verification/Cluster.v ===== *)
(** * Cluster: finalizers over whole histories of reconciles

    One controller runs against an API server that other clients use too.  The
    server is honest: reads and writes behave as the API conventions say
    ([HonestServer]); the other clients create, change and delete objects as
    they like, as long as they leave the controller's finalizer alone
    ([user_step]).  A name is exposed when the controller has created
    something outside the cluster under it and has not tried to remove it
    since; it is guarded when the server holds an object of that name with the
    finalizer.  Every exposed name is guarded, at every moment of every
    history ([reconcile_safe], [reachable_safe]), and a reconcile of a dying
    object releases it or asks to be run again ([reconcile_releases]).

    The development is against the interface [Reconcilable]; the files of the
    controllers give the instances. *)

From stdpp Require Import relations.
From S2P Require Import Prelude.
From S2P Require Import Types.
From S2P Require Import World.
From S2P Require Import Reconciler.
From S2P Require Import History.

#[local] Open Scope string_scope.
#[local] Open Scope list_scope.

(** What a kind of objects stands for outside the cluster: which objects the
    controller serves, and the events that create and remove something under a
    name. *)
Class Managed (E T : Type) := {
  managed : T -> bool;
  store : E -> gmap (string * string) T;
  exposes : Event -> option string;
  releases : Event -> option string
}.

(** ** The API server and its other clients *)
Section server.
Context {E T : Type} `{!Reconcilable E T, !Managed E T}.

Definition obj_name (o : T) : string := Name (obj_meta o).
Definition key (o : T) : string * string := (Namespace (obj_meta o), obj_name o).
Definition guarding (o : T) : bool := utils.Contains (obj_finalizers o) finalizerName.

Inductive user_step : gmap (string * string) T -> gmap (string * string) T -> Prop :=
| user_create st o : st !! key o = None -> user_step st (<[key o := o]> st)
| user_change st o o' :
    st !! key o = Some o -> key o' = key o -> guarding o' = guarding o -> managed o' = managed o ->
    (deleting o = true -> deleting o' = true) -> user_step st (<[key o := o']> st)
| user_remove st o : st !! key o = Some o -> guarding o = false -> user_step st (delete (key o) st).

Abbreviation user_steps := (rtc user_step).

(** A dying object goes away with its last finalizer. *)
Definition put (o : T) (st : gmap (string * string) T) : gmap (string * string) T :=
  if deleting o && bool_decide (obj_finalizers o = []) then delete (key o) st else <[key o := o]> st.

(** A write goes through only on the version that was read. *)
Definition same_version (o cur : T) : Prop := deleting cur = deleting o /\ managed cur = managed o.
Definition accepted (o o' : T) : Prop := obj_meta o' = obj_meta o /\ managed o' = managed o.

(** An update, its answer, and the objects before and after: it is accepted,
    refused, or accepted without the client learning of it. *)
Inductive write (o : T) : T * option error ->
    gmap (string * string) T -> gmap (string * string) T -> Prop :=
| write_ok st cur o' :
    st !! key o = Some cur -> same_version o cur -> accepted o o' -> write o (o', None) st (put o' st)
| write_refused st x : write o (o, Some x) st st
| write_lost st cur o' x :
    st !! key o = Some cur -> same_version o cur -> accepted o o' -> write o (o, Some x) st (put o' st).

Class HonestServer := {
  honest_get : forall ns n e, exists st,
    user_steps (store e) st /\ user_steps st (store (obj_get ns n e).2) /\
    match (obj_get ns n e).1 with
    | (o, None) => st !! (ns, n) = Some o
    | (_, Some x) => is_not_found x = true -> st !! (ns, n) = None
    end;
  honest_update : forall o e, exists st1 st2,
    user_steps (store e) st1 /\ write o (obj_update o e).1 st1 st2 /\
    user_steps st2 (store (obj_update o e).2)
}.

(** ** Exposed and guarded names *)

Definition exposure (n : string) (b : bool) (ev : Event) : bool :=
  if bool_decide (exposes ev = Some n) then true
  else if bool_decide (releases ev = Some n) then false else b.
Definition exposed (n : string) (h : list Event) : bool := foldl (exposure n) false h.

Definition guarded (n : string) (st : gmap (string * string) T) : Prop :=
  exists o, st !! key o = Some o /\ obj_name o = n /\ guarding o = true /\ managed o = true.

Definition well_keyed (st : gmap (string * string) T) : Prop := forall k o, st !! k = Some o -> key o = k.

(** The object under the key of [o] has the finalizer, and its kind is that of [o]. *)
Definition holds (o : T) (st : gmap (string * string) T) : Prop :=
  exists o', st !! key o = Some o' /\ key o' = key o /\ guarding o' = true /\ managed o' = managed o.

Lemma user_steps_keyed st st' : user_steps st st' -> well_keyed st -> well_keyed st'.
Proof.
  induction 1 as [|st st1 st' Hs _ IH]; [done|]. intros Hw. apply IH. clear IH.
  destruct Hs as [st o|st o o' ? Hk|st o]; intros k x.
  - rewrite lookup_insert_Some. intros [[<- <-]|[_ Hx]]; [done|by apply Hw].
  - rewrite lookup_insert_Some. intros [[<- <-]|[_ Hx]]; [done|by apply Hw].
  - rewrite lookup_delete_Some. intros [_ Hx]. by apply Hw.
Qed.

Lemma user_steps_guarded n st st' : user_steps st st' -> guarded n st -> guarded n st'.
Proof.
  induction 1 as [|st st1 st' Hs _ IH]; [done|]. intros (w & Hw & Hn & Hg & Hm). apply IH. clear IH.
  destruct Hs as [st o|st o o' Ho Hk Hgu Hma Hd|st o Ho Hgu].
  - exists w. rewrite lookup_insert_ne by congruence. done.
  - destruct (decide (key o = key w)) as [Heq|Hne].
    + rewrite Heq, Hw in Ho. injection Ho as ->. exists o'. rewrite Hk, lookup_insert_eq.
      split; [done|]. split; [|by rewrite Hgu, Hma]. unfold key in Hk. congruence.
    + exists w. by rewrite lookup_insert_ne.
  - exists w. rewrite lookup_delete_ne; [done|]. intros Heq. rewrite Heq, Hw in Ho. congruence.
Qed.

Lemma user_steps_holds o st st' : user_steps st st' -> holds o st -> holds o st'.
Proof.
  induction 1 as [|st st1 st' Hs _ IH]; [done|]. intros (w & Hw & Hk & Hg & Hm). apply IH. clear IH.
  destruct Hs as [st x|st x x' Hx Hkx Hgu Hma Hd|st x Hx Hgu].
  - exists w. rewrite lookup_insert_ne by congruence. done.
  - destruct (decide (key x = key o)) as [Heq|Hne].
    + rewrite Heq, Hw in Hx. injection Hx as ->. exists x'. rewrite Heq, lookup_insert_eq.
      split; [done|]. split; [congruence|]. split; congruence.
    + exists w. by rewrite lookup_insert_ne.
  - exists w. rewrite lookup_delete_ne; [done|]. intros Heq. rewrite Heq, Hw in Hx. congruence.
Qed.

Lemma user_steps_dying o st st' :
  user_steps st st' -> (exists w, st !! key o = Some w /\ guarding w = true /\ deleting w = true) ->
  exists w, st' !! key o = Some w /\ guarding w = true /\ deleting w = true.
Proof.
  induction 1 as [|st st1 st' Hs _ IH]; [done|]. intros (w & Hw & Hg & Hd). apply IH. clear IH.
  destruct Hs as [st x|st x x' Hx Hkx Hgu Hma Hde|st x Hx Hgu].
  - exists w. rewrite lookup_insert_ne by congruence. done.
  - destruct (decide (key x = key o)) as [Heq|Hne].
    + rewrite Heq, Hw in Hx. injection Hx as ->. exists x'. rewrite Heq, lookup_insert_eq.
      split; [done|]. split; [congruence|]. by apply Hde.
    + exists w. by rewrite lookup_insert_ne.
  - exists w. rewrite lookup_delete_ne; [done|]. intros Heq. rewrite Heq, Hw in Hx. congruence.
Qed.

Lemma put_keyed o st : well_keyed st -> well_keyed (put o st).
Proof.
  intros Hw k x. unfold put. destruct (_ && _).
  - rewrite lookup_delete_Some. intros [_ Hx]. by apply Hw.
  - rewrite lookup_insert_Some. intros [[<- <-]|[_ Hx]]; [done|by apply Hw].
Qed.

(** Writing an object guards the names that were guarded, the name of the
    object excepted; that one too when the object has the finalizer and
    replaces one of its kind. *)
Lemma put_guarded_ne n o st :
  guarded n st -> (forall w, st !! key o = Some w -> obj_name o = n -> managed w = true -> False) ->
  guarded n (put o st).
Proof.
  intros (w & Hw & Hn & Hg & Hm) Hno. exists w.
  assert (Hk : key o <> key w).
  { intros Heq. apply (Hno w); [by rewrite Heq| |done]. unfold key in Heq. congruence. }
  unfold put. destruct (_ && _); [by rewrite lookup_delete_ne|by rewrite lookup_insert_ne].
Qed.

Lemma guarding_finalizers o : guarding o = true -> obj_finalizers o <> [].
Proof. intros Hg Heq. unfold guarding in Hg. by rewrite Heq in Hg. Qed.

Lemma put_here o st : guarding o = true -> put o st = <[key o := o]> st.
Proof.
  intros Hg. unfold put. rewrite bool_decide_eq_false_2 by by apply guarding_finalizers.
  by rewrite andb_false_r.
Qed.

Lemma put_guarded_new o st : guarding o = true -> managed o = true -> guarded (obj_name o) (put o st).
Proof. intros Hg Hm. exists o. rewrite put_here by done. by rewrite lookup_insert_eq. Qed.

Lemma put_guarded n o st cur :
  guarded n st -> guarding o = true -> st !! key o = Some cur -> managed cur = managed o ->
  guarded n (put o st).
Proof.
  intros Hgd Hg Hc Hm. destruct (decide (obj_name o = n /\ managed o = true)) as [[<- Hmo]|Hne].
  - by apply put_guarded_new.
  - apply put_guarded_ne; [done|]. intros w Hw Hn Hmw. apply Hne. split; [done|].
    rewrite Hc in Hw. congruence.
Qed.

Lemma exposed_app n h es : exposed n (h ++ es) = foldl (exposure n) (exposed n h) es.
Proof. apply foldl_app. Qed.

Lemma silent_exposed n es b :
  Forall (fun ev => exposes ev = None) es -> foldl (exposure n) b es = true -> b = true.
Proof.
  intros Hs. revert b. induction Hs as [|ev es He _ IH]; intros b; [done|]. simpl. intros H.
  apply IH in H. revert H. unfold exposure. rewrite He. rewrite bool_decide_eq_false_2 by done.
  by case_bool_decide.
Qed.

(** Once released, and with nothing new created, a name is not exposed. *)
Lemma released_exposed n es b ev :
  Forall (fun ev => exposes ev = None) es -> ev ∈ es -> releases ev = Some n ->
  foldl (exposure n) b es = false.
Proof.
  intros Hs. revert b. induction Hs as [|e es He Hes IH]; intros b Hev Hr; [by apply not_elem_of_nil in Hev|].
  simpl. apply elem_of_cons in Hev as [->|Hev]; [|by apply IH].
  unfold exposure at 2. rewrite He, Hr. rewrite bool_decide_eq_false_2 by done.
  rewrite bool_decide_eq_true_2 by done.
  apply not_true_iff_false. intros H. by apply silent_exposed in H.
Qed.
End server.

#[global] Arguments HonestServer E T {_ _}.
Abbreviation user_steps := (rtc user_step).

(** ** The controller *)

(** What the two operations of a controller promise.  They need [op_ready] of
    the package variables; their uses of the environment leave the objects to
    the other clients. *)
Class GuardedOps (E T : Type) `{!Reconcilable E T, !Managed E T} (op_ready : Globals -> Prop) := {
  managed_finalizers : forall fs (o : T), managed (with_finalizers fs o) = managed o;
  update_silent : forall (o : T) err, exposes (update_event o err) = None;
  query_silent : forall q, exposes (EQuery q) = None;
  create_framed : forall o : T, framed store user_steps
    (fun ev => exposes ev = None \/
       (managed o && negb (deleting o) = true /\ exposes ev = Some (obj_name o))) (obj_create o);
  delete_framed : forall o : T, framed store user_steps (fun ev => exposes ev = None) (obj_delete o);
  delete_releases : forall (o : T) s a s' es, op_ready (glob s) -> managed o = true ->
    obj_delete o s = (Val a, s', es) -> exists ev, ev ∈ es /\ releases ev = Some (obj_name o);
  delete_answer : forall (o : T) s od err s' es, obj_delete o s = (Val (od, err), s', es) ->
    key od = key o /\ managed od = managed o /\ (deleting o = true -> deleting od = true)
}.

Section safety.
Context {E T : Type} `{!Reconcilable E T, !ReconcilableLaws E T, !Managed E T, !HonestServer E T}.
Context (op_ready : Globals -> Prop) `{!GuardedOps E T op_ready}.
Implicit Types (s : St E) (h : list Event) (o : T).

Definition safe h s : Prop :=
  op_ready (glob s) /\ well_keyed (store (env s)) /\
  forall n, exposed (E := E) (T := T) n h = true -> guarded n (store (env s)).

Definition live o : bool := managed o && negb (deleting o).

(** Others cannot break safety, and neither can a silent event. *)
Lemma safe_step h s ev e' :
  safe h s -> exposes (E := E) (T := T) ev = None ->
  user_steps (store (env s)) (store e') -> safe (h ++ [ev]) (mkSt (glob s) e').
Proof.
  intros (Hr & Hw & Hg) He Hu. split; [done|]. cbn [env].
  split; [by eapply user_steps_keyed|]. intros n Hn. eapply user_steps_guarded; [done|]. apply Hg.
  rewrite exposed_app in Hn. eapply silent_exposed; [|done]. by constructor.
Qed.

Lemma safe_closed : closed store user_steps (fun ev => exposes (E := E) (T := T) ev = None) safe.
Proof. intros h s ev e' Hs He Hu. by apply safe_step. Qed.

(** A creation keeps safety when the name it exposes is guarded. *)
Lemma safe_closed_create o :
  closed store user_steps
    (fun ev => exposes (E := E) (T := T) ev = None \/ (live o = true /\ exposes (E := E) (T := T) ev = Some (obj_name o)))
    (fun h s => safe h s /\ (live o = true -> guarded (obj_name o) (store (env s)))).
Proof.
  intros h s ev e' [Hs Hgd] Ha Hu.
  assert (Hgd' : live o = true -> guarded (obj_name o) (store e')).
  { intros Hl. eapply user_steps_guarded; [done|]. by apply Hgd. }
  split; [|done]. destruct Ha as [He|[Hl He]]; [by apply safe_step|].
  destruct Hs as (Hr & Hw & Hg). split; [done|]. cbn [env]. split; [by eapply user_steps_keyed|].
  intros n Hn. rewrite exposed_app in Hn. revert Hn. simpl. unfold exposure. rewrite He.
  case_bool_decide as Hname; [injection Hname as <-; auto|].
  intros Hn. assert (Hx : exposed (E := E) (T := T) n h = true) by (by case_bool_decide).
  eapply user_steps_guarded; [done|]. by apply Hg.
Qed.

Lemma create_safe o :
  triple (fun h s => safe h s /\ (live o = true -> guarded (obj_name o) (store (env s))))
    (obj_create o) (fun _ => safe).
Proof.
  eapply triple_conseq; [by eapply framed_keeps; [apply safe_closed_create|apply create_framed]|done|].
  by intros r h s [? _].
Qed.

Lemma key_set_finalizers fs o : key (with_finalizers fs o) = key o.
Proof. unfold key, obj_name. by rewrite meta_with_finalizers. Qed.
Lemma finalizers_set fs o : obj_finalizers (with_finalizers fs o) = fs.
Proof. unfold obj_finalizers. by rewrite meta_with_finalizers. Qed.
Lemma deleting_set_finalizers fs o : deleting (with_finalizers fs o) = deleting o.
Proof. unfold deleting. by rewrite meta_with_finalizers. Qed.

Lemma accepted_facts o o' :
  accepted o o' -> key o' = key o /\ obj_finalizers o' = obj_finalizers o /\
    deleting o' = deleting o /\ managed o' = managed o.
Proof. intros [Hm Hma]. unfold key, obj_name, obj_finalizers, deleting. by rewrite Hm. Qed.

(** What an update of [o] does to the objects: nothing but what others do, or
    a version of [o] is put, with the moves of others before and after. *)
Lemma update_cases o s :
  let '(ans, e') := obj_update o (env s) in
  (ans.2 <> None /\ user_steps (store (env s)) (store e')) \/
  exists st1 cur o', user_steps (store (env s)) st1 /\ st1 !! key o = Some cur /\ same_version o cur /\
    accepted o o' /\ user_steps (put o' st1) (store e') /\ (ans.2 = None -> ans = (o', None)).
Proof.
  pose proof (honest_update o (env s)) as (st1 & st2 & H1 & Hw & H2).
  destruct (obj_update o (env s)) as [ans e']. cbn [fst snd] in *.
  inversion Hw; subst.
  - right. by exists st1, cur, o'.
  - left. split; [done|]. by etrans.
  - right. by exists st1, cur, o'.
Qed.

(** Adding the finalizer to an object of its kind. *)
Lemma add_safe o :
  triple safe (Update (add_finalizer o)) (fun r h s => safe h s /\
    forall o1, r = Val (o1, None) -> live o1 = true -> guarded (obj_name o1) (store (env s))).
Proof.
  apply triple_prim. intros h s a e' Hsafe Hup.
  pose proof (update_cases (add_finalizer o) s) as Hc. rewrite Hup in Hc.
  assert (Hsil : exposes (E := E) (T := T) (let '(_, err) := a in update_event (add_finalizer o) err) = None)
    by (destruct a; apply update_silent).
  destruct Hc as [[Hne Hu]|(st1 & cur & o' & H1 & Hcur & Hv & Hacc & H2 & Hans)].
  - split; [by apply safe_step|]. by intros o1 [= ->].
  - destruct (accepted_facts _ _ Hacc) as (Hk & Hf & Hd & Hm).
    assert (Hg : guarding o' = true).
    { unfold guarding. rewrite Hf. unfold add_finalizer. rewrite finalizers_set.
      apply utils.Contains_elem_of, elem_of_app. right. by apply list_elem_of_singleton. }
    assert (Hs1 : safe h (mkSt (glob s) (env s)) /\ well_keyed st1 /\
                  forall n, exposed (E := E) (T := T) n h = true -> guarded n st1).
    { destruct Hsafe as (Hr & Hw & Hgd). split; [done|]. split; [by eapply user_steps_keyed|].
      intros n Hn. eapply user_steps_guarded; [done|]. by apply Hgd. }
    destruct Hs1 as (_ & Hw1 & Hg1). split.
    + destruct Hsafe as (Hr & _). split; [done|]. cbn [env].
      split; [eapply user_steps_keyed; [done|]; by apply put_keyed|]. intros n Hn.
      rewrite exposed_app in Hn. apply silent_exposed in Hn; [|by constructor].
      eapply user_steps_guarded; [done|]. apply (put_guarded n o' st1 cur); [by apply Hg1|done| |].
      * by rewrite Hk.
      * destruct Hv as [_ Hv]. congruence.
    + intros o1 [= Ha] Hl. rewrite Hans in Ha by (by rewrite Ha). injection Ha as <-.
      eapply user_steps_guarded; [done|]. apply put_guarded_new; [done|].
      by apply andb_true_iff in Hl as [? _].
Qed.

(** The removal from outside, for a dying object that has the finalizer. *)
Lemma delete_safe o :
  deleting o = true ->
  triple (fun h s => safe h s /\ holds o (store (env s))) (obj_delete o) (fun r h s =>
    (safe h s /\ holds o (store (env s))) /\
    forall od err, r = Val (od, err) -> key od = key o /\ managed od = managed o /\
      deleting od = true /\ (managed o = true -> exposed (E := E) (T := T) (obj_name o) h = false)).
Proof.
  intros Hdel h s [Hs Hh]. pose proof (delete_framed o s) as Hp.
  destruct (obj_delete o s) as [[r s'] es] eqn:Hrun.
  assert (Hcl : closed store user_steps (fun ev => exposes (E := E) (T := T) ev = None)
    (fun h s => safe h s /\ holds o (store (env s)))).
  { intros h1 s1 ev e' [Hs1 Hh1] He Hu. split; [by apply safe_step|]. by eapply user_steps_holds. }
  split; [by apply (closed_path _ _ _ _ h s es s' Hcl Hp)|].
  intros od err ->. destruct (delete_answer o s od err s' es Hrun) as (Hk & Hm & Hd).
  split; [done|]. split; [done|]. split; [by apply Hd|]. intros Hma.
  destruct (delete_releases o s (od, err) s' es (proj1 Hs) Hma Hrun) as (ev & Hev & Hrel).
  rewrite exposed_app. eapply released_exposed; [by eapply path_events|done|done].
Qed.

Lemma guarding_drop o o' : accepted (drop_finalizer o) o' -> guarding o' = false.
Proof.
  intros Hacc. destruct (accepted_facts _ _ Hacc) as (_ & Hf & _). unfold guarding. rewrite Hf.
  unfold drop_finalizer. rewrite finalizers_set. apply utils.Contains_Remove.
Qed.

(** Dropping the finalizer, once nothing is exposed under the name. *)
Lemma drop_safe o od :
  key od = key o -> managed od = managed o -> deleting od = true ->
  triple (fun h s => (safe h s /\ holds o (store (env s))) /\
      (managed o = true -> exposed (E := E) (T := T) (obj_name o) h = false))
    (Update (drop_finalizer od)) (fun r h s => safe h s /\
      forall o1, r = Val (o1, None) -> live o1 = false).
Proof.
  intros Hko Hmo Hdo. apply triple_prim. intros h s a e' [[Hsafe Hh] Hex] Hup.
  pose proof (update_cases (drop_finalizer od) s) as Hc. rewrite Hup in Hc.
  assert (Hsil : exposes (E := E) (T := T) (let '(_, err) := a in update_event (drop_finalizer od) err) = None)
    by (destruct a; apply update_silent).
  destruct Hc as [[Hne Hu]|(st1 & cur & o' & H1 & Hcur & Hv & Hacc & H2 & Hans)].
  { split; [by apply safe_step|]. by intros o1 [= ->]. }
  pose proof (guarding_drop _ _ Hacc) as Hng.
  destruct (accepted_facts _ _ Hacc) as (Hk & Hf & Hd & Hm).
  unfold drop_finalizer in Hk, Hd, Hm. rewrite key_set_finalizers in Hk.
  rewrite deleting_set_finalizers in Hd. split; [|intros o1 [= Ha]].
  - destruct Hsafe as (Hr & Hw & Hgd). split; [done|]. cbn [env].
    split; [eapply user_steps_keyed; [done|]; apply put_keyed; by eapply user_steps_keyed|].
    intros n Hn. rewrite exposed_app in Hn. apply silent_exposed in Hn; [|by constructor].
    eapply user_steps_guarded; [done|]. apply put_guarded_ne.
    + eapply user_steps_guarded; [done|]. by apply Hgd.
    + intros w Hw1 Hname Hmw. destruct (user_steps_holds _ _ _ H1 Hh) as (c & Hc & Hkc & Hgc & Hmc).
      assert (Hkk : key o' = key o) by congruence. rewrite Hkk, Hc in Hw1.
      injection Hw1 as ->. assert (Hnn : obj_name o = n) by (unfold key in Hkk; congruence). subst n.
      rewrite Hnn in Hex. rewrite Hex in Hn by congruence. done.
  - rewrite Hans in Ha by (by rewrite Ha). injection Ha as <-. unfold live.
    rewrite Hd, Hdo. by rewrite andb_false_r.
Qed.

Lemma holds_guarded o st : holds o st -> managed o = true -> guarded (obj_name o) st.
Proof.
  intros (w & Hw & Hk & Hg & Hm) Hma. exists w. rewrite Hk. split; [done|].
  split; [unfold key in Hk; congruence|]. split; [done|congruence].
Qed.

Lemma reconcileFinalizers_safe o :
  triple (fun h s => safe h s /\ (guarding o = true -> holds o (store (env s))))
    (reconcileFinalizers o) (fun r h s => safe h s /\
      forall o1, r = Val (o1, None) -> live o1 = true -> guarded (obj_name o1) (store (env s))).
Proof.
  unfold reconcileFinalizers. fold (guarding o).
  destruct (deleting o) eqn:Hd, (guarding o) eqn:Hg; cbn [negb].
  - eapply (triple_bind _ (fun '(od, _) h s =>
      (key od = key o /\ managed od = managed o /\ deleting od = true) /\
      (safe h s /\ holds o (store (env s))) /\
      (managed o = true -> exposed (E := E) (T := T) (obj_name o) h = false))).
    + eapply triple_conseq; [by apply (delete_safe o)|intros h s [? ?]; auto|].
      intros [[od err]|w|] h s [Hs Ha]; [|by split; [apply Hs|]..].
      destruct (Ha od err eq_refl) as (? & ? & ? & ?). done.
    + intros [od err]. eapply triple_pure; [intros h s [H _]; exact H|]. intros (Hk & Hm & Hdo).
      eapply triple_conseq; [by apply (drop_safe o od)|by intros h s [_ H]|].
      intros r h s [Hs Hl]. split; [done|]. intros o1 Hr. by rewrite (Hl o1 Hr).
  - apply triple_ret. intros h s [Hs _]. split; [done|]. intros o1 [= <-]. unfold live.
    rewrite Hd, andb_false_r. done.
  - apply triple_ret. intros h s [Hs Hh]. split; [done|]. intros o1 [= <-] Hl.
    apply andb_true_iff in Hl as [Hm _]. by apply holds_guarded; [apply Hh|].
  - eapply triple_conseq; [apply add_safe|by intros h s [H _]|done].
Qed.

(** A reconcile keeps every exposed name guarded, at its end, however it ends. *)
Lemma Reconcile_safe ns name : triple safe (Reconcile (E := E) (T := T) ns name) (fun _ => safe).
Proof.
  unfold Reconcile. eapply (triple_bind _ (fun '(o, err) h s => safe h s /\
    (err = None -> guarding o = true -> holds o (store (env s))))).
  { apply triple_prim. intros h s [o err] e' Hs Hget.
    pose proof (honest_get ns name (env s)) as (st & H1 & H2 & Hst). rewrite Hget in *. cbn [fst snd] in *.
    assert (Hu : user_steps (store (env s)) (store e')) by (by etrans).
    split; [apply safe_step; [done|apply query_silent|done]|]. intros -> Hg.
    assert (Hk : key o = (ns, name)).
    { destruct Hs as (_ & Hw & _). by apply (user_steps_keyed _ _ H1 Hw). }
    apply (user_steps_holds o st); [done|]. exists o. by rewrite Hk. }
  intros [o [x|]].
  { destruct (is_not_found x); apply triple_ret; by intros h s [H _]. }
  eapply (triple_bind _ (fun '(o1, err) h s => safe h s /\
    (err = None -> live o1 = true -> guarded (obj_name o1) (store (env s))))).
  { eapply triple_conseq; [apply (reconcileFinalizers_safe o)|intros h s [? H]; auto|].
    intros [[o1 err]|w|] h s [Hs Hl]; [|done..]. split; [done|]. intros ->. by apply Hl. }
  intros [o1 [x|]]; [apply triple_ret; by intros h s [H _]|].
  eapply (triple_bind _ (fun _ => safe)).
  - eapply triple_conseq; [apply (create_safe o1)|intros h s [? H]; auto|]. by intros [?|?|] h s H.
  - intros [o2 err]. by apply triple_ret.
Qed.

(** Histories: reconciles of any names in any order, moves of the other
    clients between them, and restarts of the controller after a panic, when
    its package variables are set up anew. *)
Inductive reachable : list Event -> St E -> Prop :=
| reach_init s : op_ready (glob s) -> store (env s) = ∅ -> reachable [] s
| reach_reconcile h s ns name r s' es :
    reachable h s -> Reconcile (T := T) ns name s = (r, s', es) -> reachable (h ++ es) s'
| reach_others h s e' :
    reachable h s -> user_steps (store (env s)) (store e') -> reachable h (mkSt (glob s) e')
| reach_restart h s g : reachable h s -> op_ready g -> reachable h (mkSt g (env s)).

Lemma reachable_is_safe h s : reachable h s -> safe h s.
Proof.
  induction 1 as [s Hr He|h s ns name r s' es _ IH Hrun|h s e' _ IH Hu|h s g _ IH Hg].
  - split; [done|]. rewrite He. split; [by intros k o Hk%lookup_empty_Some|done].
  - pose proof (Reconcile_safe ns name h s IH) as H. by rewrite Hrun in H.
  - destruct IH as (Hr & Hw & Hg). split; [done|]. cbn [env]. split; [by eapply user_steps_keyed|].
    intros n Hn. eapply user_steps_guarded; [done|]. by apply Hg.
  - destruct IH as (_ & Hw & Hgd). by split.
Qed.
End safety.

(** ** Progress *)

(** A removal comes back, and a dying object is not created. *)
Class PromptOps (E T : Type) `{!Reconcilable E T} (op_ready : Globals -> Prop) := {
  delete_returns : forall (o : T) s, op_ready (glob s) -> exists a, (obj_delete o s).1.1 = Val a;
  create_dying : forall (o : T) s, deleting o = true -> obj_create o s = (Val (o, None), s, [])
}.

Section progress.
Context {E T : Type} `{!Reconcilable E T, !ReconcilableLaws E T, !Managed E T, !HonestServer E T}.
Context (op_ready : Globals -> Prop) `{!GuardedOps E T op_ready, !PromptOps E T op_ready}.
Implicit Types (s : St E) (h : list Event) (o : T).

(** The object is there, marked for deletion and held by the finalizer. *)
Definition dying (k : string * string) (st : gmap (string * string) T) : Prop :=
  exists o, st !! k = Some o /\ guarding o = true /\ deleting o = true.

(** The object is gone, unless another finalizer holds it. *)
Definition let_go (k : string * string) (st : gmap (string * string) T) : Prop :=
  forall o, st !! k = Some o -> guarding o = false /\ obj_finalizers o <> [].

(** The call has an error, so that the request is queued again, or the object
    was let go during it. *)
Definition retried_or_let_go (k : string * string) (r : Res (option error)) s : Prop :=
  (exists x, r = Val (Some x)) \/
  r = Val None /\ exists st, let_go k st /\ user_steps st (store (env s)).

Lemma put_let_go o st : guarding o = false -> deleting o = true -> let_go (key o) (put o st).
Proof.
  intros Hg Hd w. unfold put. rewrite Hd. case_bool_decide as Hf; cbn [andb].
  - by rewrite lookup_delete_eq.
  - rewrite lookup_insert_eq. by intros [= <-].
Qed.

Lemma Update_drop o : deleting o = true ->
  triple (fun _ _ => True) (Update (drop_finalizer o)) (fun r _ s => exists o1 err, r = Val (o1, err) /\
    (err = None -> deleting o1 = true /\ exists st, let_go (key o) st /\ user_steps st (store (env s)))).
Proof.
  intros Hd. apply triple_prim. intros h s [o1 err] e' _ Hup. exists o1, err. split; [done|]. intros ->.
  pose proof (update_cases (drop_finalizer o) s) as Hc. rewrite Hup in Hc.
  destruct Hc as [[? _]|(st1 & cur & o' & _ & _ & _ & Hacc & H2 & Hans)]; [done|].
  destruct (accepted_facts _ _ Hacc) as (Hk & _ & Hde & _).
  unfold drop_finalizer in Hk, Hde. rewrite key_set_finalizers in Hk. rewrite deleting_set_finalizers in Hde.
  injection (Hans eq_refl) as ->. split; [by rewrite Hde|]. exists (put o' st1). split; [|done].
  rewrite <- Hk. apply put_let_go; [by eapply guarding_drop|by rewrite Hde].
Qed.

Lemma delete_dying o : deleting o = true ->
  triple (fun _ s => op_ready (glob s)) (obj_delete o) (fun r _ _ => exists od err,
    r = Val (od, err) /\ key od = key o /\ deleting od = true).
Proof.
  intros Hd h s Hr. destruct (delete_returns o s Hr) as [[od err] Ha].
  destruct (obj_delete o s) as [[r s'] es] eqn:Hrun. cbn in Ha. subst r. exists od, err.
  destruct (delete_answer o s od err s' es Hrun) as (? & _ & ?). auto.
Qed.

(** A reconcile of a dying object always comes back, without a panic; it lets
    the object go or asks to be run again. *)
Lemma Reconcile_lets_go ns name :
  triple (fun _ s => op_ready (glob s) /\ well_keyed (store (env s)) /\ dying (ns, name) (store (env s)))
    (Reconcile (T := T) ns name) (fun r _ s => retried_or_let_go (ns, name) r s).
Proof.
  unfold Reconcile. eapply (triple_bind _ (fun '(o, err) _ s => op_ready (glob s) /\
    match err with
    | None => key o = (ns, name) /\ guarding o = true /\ deleting o = true
    | Some x => is_not_found x = false
    end)).
  { apply triple_prim. intros _ s [o err] e' (Hr & Hw & w & Hwk & Hg & Hd) Hget. split; [done|].
    pose proof (honest_get ns name (env s)) as (st & H1 & _ & Hst). rewrite Hget in Hst. cbn [fst] in Hst.
    assert (Hkw : key w = (ns, name)) by (by apply Hw). rewrite <- Hkw in Hwk.
    destruct (user_steps_dying w _ _ H1 (ex_intro _ w (conj Hwk (conj Hg Hd)))) as (w2 & Hw2 & Hg2 & Hd2).
    rewrite Hkw in Hw2. destruct err as [x|].
    - apply not_true_iff_false. intros Hnf. apply Hst in Hnf. congruence.
    - rewrite Hst in Hw2. injection Hw2 as ->. split; [|done].
      by apply (user_steps_keyed _ _ H1 Hw). }
  intros [o [x|]].
  { eapply triple_pure; [intros h s [_ H]; exact H|]. intros ->. apply triple_ret. left. eauto. }
  eapply triple_pure; [intros h s [_ H]; exact H|]. intros (Hk & Hg & Hd).
  eapply (triple_bind _ (fun '(o1, err) _ s => err = None -> deleting o1 = true /\
    exists st, let_go (ns, name) st /\ user_steps st (store (env s)))).
  - unfold reconcileFinalizers. fold (guarding o). rewrite Hd, Hg.
    eapply (triple_bind _ (fun '(od, _) _ _ => key od = key o /\ deleting od = true)).
    + eapply triple_conseq; [by apply (delete_dying o)|by intros h s [? _]|].
      intros r h s (od & err & -> & ? & ?). done.
    + intros [od err]. eapply triple_pure; [intros h s H; exact H|]. intros [Hko Hdo].
      eapply triple_conseq; [by apply (Update_drop od)|done|].
      intros r h s (o1 & err1 & -> & H). rewrite <- Hk, <- Hko. exact H.
  - intros [o1 [x|]]; [apply triple_ret; left; eauto|].
    intros h s H. destruct (H eq_refl) as (Hd1 & st & Hst). unfold mbind, M_bind.
    rewrite create_dying by done. right. split; [done|]. eauto.
Qed.
End progress.
