(* ===== verification/NetworkController.v ===== *)
(** * NetworkController: pkg/controller/network/network_controller.go

    The [Reconcilable] instance of networks, and what a reconcile of a network
    does to the API server and to OVN. *)

From S2P Require Import Prelude.
From S2P Require Import GoStrings.
From S2P Require Import GoNet.
From S2P Require Import Addressing.
From S2P Require Import Types.
From S2P Require Import World.
From S2P Require Import Runner.
From S2P Require Import Traces.
From S2P Require Import OvnCommon.
From S2P Require Import OvnController.
From S2P Require Import OvnNetworks.
From S2P Require Import Reconciler.

#[local] Open Scope string_scope.
#[local] Open Scope list_scope.

(** ** The API server (client-go, controller-runtime) *)
Class KubeWorld (E : Type) := {
  get_network : string -> string -> E -> (Network * option error) * E;
  update_network : Network -> E -> (Network * option error) * E;
  status_network : Network -> E -> (Network * option error) * E;
  get_pn : string -> string -> E -> (ProviderNetwork * option error) * E;
  update_pn : ProviderNetwork -> E -> (ProviderNetwork * option error) * E;
  status_pn : ProviderNetwork -> E -> (ProviderNetwork * option error) * E;
  get_nc : string -> string -> E -> (NetworkChaining * option error) * E;
  update_nc : NetworkChaining -> E -> (NetworkChaining * option error) * E;
  status_nc : NetworkChaining -> E -> (NetworkChaining * option error) * E;
  IsNotFound : error -> bool
}.

Definition nfnNetworkFinalizer := "nfnCleanUpNetwork".

Definition nw_set_finalizers (fs : list string) (cr : Network) : Network :=
  mkNetwork (set_finalizers fs (nw_meta cr)) (nw_Spec cr) (nw_Status cr).
Definition nw_set_state (st : string) (cr : Network) : Network :=
  mkNetwork (nw_meta cr) (nw_Spec cr) (Build_NetworkStatus st).

Section network.
Context {E : Type} `{!ExecWorld E, !KubeWorld E}.

(** [client.Status().Update]: the object becomes the server's answer. *)
Definition StatusUpdate (cr : Network) : M E (Network * option error) :=
  prim (status_network cr) (fun '(_, err) => EStatusNetwork cr err).

Definition createNetwork (cr : Network) : M E (Network * option error) :=
  if negb (IsZero (DeletionTimestamp (nw_meta cr))) then mret (cr, None) else
  if nw_CniType (nw_Spec cr) == "ovn4nfv" then
    err ← GetOvnController;
    match err with Some e => mret (cr, Some e) | None =>
    err ← CreateNetwork cr;
    let failed := match err with Some e => negb (DeepEqualErrorf e "LS exists") | None => false end in
    let cr := nw_set_state (if failed then CreateInternalError else Created) cr in
    StatusUpdate cr
    end
  else mret (cr, Errorf "CNI type not supported").

Definition deleteNetwork (cr : Network) : M E (Network * option error) :=
  if nw_CniType (nw_Spec cr) == "ovn4nfv" then
    err ← GetOvnController;
    match err with Some e => mret (cr, Some e) | None =>
    err ← DeleteNetwork cr;
    match err with
    | Some _ =>
        let cr := nw_set_state DeleteInternalError cr in
        StatusUpdate cr
    | None => mret (cr, None)
    end end
  else mret (cr, Errorf "CNI type not supported").

#[export] Instance network_reconcilable : Reconcilable E Network := {|
  obj_meta := nw_meta;
  with_finalizers := nw_set_finalizers;
  finalizerName := nfnNetworkFinalizer;
  obj_get := get_network;
  obj_update := update_network;
  update_event := EUpdateNetwork;
  obj_create := createNetwork;
  obj_delete := deleteNetwork;
  is_not_found := IsNotFound
|}.

#[export] Instance network_laws : ReconcilableLaws E Network.
Proof. by split. Qed.

(** [ReconcileNetwork.Reconcile] and its [reconcileFinalizers]. *)
Definition ReconcileNetwork_Reconcile (namespace name : string) : M E (option error) :=
  Reconcile (T := Network) namespace name.
Definition ReconcileNetwork_reconcileFinalizers (instance : Network) : M E (Network * option error) :=
  reconcileFinalizers instance.

(** ** The effects of the two operations *)

Definition nw_deleting (cr : Network) : bool := negb (IsZero (DeletionTimestamp (nw_meta cr))).

(** Deleting: the plan is followed; a failure is written to the status. *)
Definition network_deletes (h : execHelper) (cr : Network)
    (r : Res (Network * option error)) (es : list Event) : Prop :=
  if nw_CniType (nw_Spec cr) == "ovn4nfv" then
    exists derr es1, follows (map (nb_cmd h) (delete_network_plan (Name (nw_meta cr)))) derr es1 /\
      match derr with
      | None => r = Val (cr, None) /\ es = es1
      | Some _ => exists cr' err, r = Val (cr', err) /\
          es = es1 ++ [EStatusNetwork (nw_set_state DeleteInternalError cr) err]
      end
  else r = Val (cr, Errorf "CNI type not supported") /\ es = [].

(** The state that the outcome of a creation stands for: the switch that is
    already there counts as created. *)
Definition state_of (cerr : option error) : string :=
  if bool_decide (cerr = None \/ cerr = Errorf "LS exists") then Created else CreateInternalError.

Definition network_commands (h : execHelper) (cr : Network) (sub : IpSubnet)
    (cerr : option error) (es : list Event) : Prop :=
  let name := Name (nw_meta cr) in
  match ParseCIDR (Subnet sub) with
  | Some (_, cidr) => exists mac, creates h name (create_network_plan name (Subnet sub)
      (gateway_ip_mask cidr (Gateway sub)) (ExcludeIps sub) mac) cerr es
  | None => cerr <> None /\ creates h name [find_switch_args name] cerr es
  end.

(** Creating: nothing for an object marked for deletion; otherwise the
    switch and its router ports, then the status that says how it went. *)
Definition network_creates (h : execHelper) (cr : Network)
    (r : Res (Network * option error)) (es : list Event) : Prop :=
  if nw_deleting cr then r = Val (cr, None) /\ es = []
  else if nw_CniType (nw_Spec cr) == "ovn4nfv" then
    match nw_Ipv4Subnets (nw_Spec cr) with
    | [] => r = Panic "index out of range" /\ es = []
    | sub :: _ => exists cerr es1 cr' err, network_commands h cr sub cerr es1 /\ r = Val (cr', err) /\
        es = es1 ++ [EStatusNetwork (nw_set_state (state_of cerr) cr) err]
    end
  else r = Val (cr, Errorf "CNI type not supported") /\ es = [].

Definition ready (h : execHelper) (g : Globals) : Prop :=
  runner g = Some h /\ is_Some (ovnCtl g).

Lemma wp_GetOvnController h (Q : Res (option error) -> St E -> list Event -> Prop) s :
  ready h (glob s) -> Q (Val None) s [] -> wp GetOvnController Q s.
Proof.
  intros [_ [oc Ho]] HQ. unfold GetOvnController. wp_steps. rewrite Ho. by apply wp_ret.
Qed.

Lemma wp_StatusUpdate cr (Q : Res (Network * option error) -> St E -> list Event -> Prop) s :
  (forall cr' err e', Q (Val (cr', err)) (mkSt (glob s) e') [EStatusNetwork cr err]) ->
  wp (StatusUpdate cr) Q s.
Proof. intros HQ. apply wp_ask. intros [cr' err] e'. split; [done|apply HQ]. Qed.

Lemma deleteNetwork_spec h : op_spec (ready h) deleteNetwork (network_deletes h).
Proof.
  intros cr s Hr. unfold deleteNetwork, network_deletes.
  destruct (nw_CniType (nw_Spec cr) == "ovn4nfv"); [|by apply wp_ret].
  wp_step. apply (wp_GetOvnController h); [done|]. cbn [after]. wp_step.
  eapply wp_mono; [|by apply (DeleteNetwork_run cr s h), Hr].
  intros r s1 es1 (Hg & derr & -> & Hf). cbn [after]. destruct derr as [x|].
  - apply wp_StatusUpdate. intros cr' err e'. cbn [glob]. rewrite Hg. split; [done|].
    exists (Some x), es1. split; [done|]. by exists cr', err.
  - apply wp_ret. rewrite Hg. split; [done|]. exists None, es1. by rewrite app_nil_r.
Qed.

Lemma wp_network_commands h cr sub rest s :
  runner (glob s) = Some h -> nw_Ipv4Subnets (nw_Spec cr) = sub :: rest ->
  wp (CreateNetwork cr) (network_post h s (network_commands h cr sub)) s.
Proof.
  intros Hr Hsub. unfold network_commands.
  destruct (ParseCIDR (Subnet sub)) as [[ip cidr]|] eqn:Hs.
  - by eapply CreateNetwork_run.
  - by eapply CreateNetwork_bad.
Qed.

Lemma state_of_failed cerr :
  (if match cerr with Some e => negb (DeepEqualErrorf e "LS exists") | None => false end
   then CreateInternalError else Created) = state_of cerr.
Proof.
  unfold state_of, DeepEqualErrorf, Errorf. destruct cerr as [x|]; [|done].
  case_bool_decide; case_bool_decide; simpl; intuition congruence.
Qed.

Lemma createNetwork_spec h : op_spec (ready h) createNetwork (network_creates h).
Proof.
  intros cr s Hr. unfold createNetwork, network_creates. fold (nw_deleting cr).
  destruct (nw_deleting cr); [by apply wp_ret|].
  destruct (nw_CniType (nw_Spec cr) == "ovn4nfv"); [|by apply wp_ret].
  wp_step. apply (wp_GetOvnController h); [done|]. cbn [after]. wp_step.
  destruct (nw_Ipv4Subnets (nw_Spec cr)) as [|sub rest] eqn:Hsub.
  { unfold CreateNetwork. rewrite Hsub. wp_steps. by apply wp_panic. }
  eapply wp_mono; [|by eapply wp_network_commands; [apply Hr|]].
  intros r s1 es1 (Hg & cerr & -> & Hc). cbn [after]. rewrite state_of_failed.
  apply wp_StatusUpdate. intros cr' err e'. cbn [glob]. rewrite Hg. split; [done|].
  by exists cerr, es1, cr', err.
Qed.

(** ** Properties *)

(** C16: a reconcile of a network object.  A live object gets the finalizer
    first, and OVN is touched only when the finalizer is on the server; the
    creation follows its plan and the status says whether it worked.  A
    deleted object that carries the finalizer is removed from OVN, router
    port before switch, and then loses the finalizer whatever came of the
    removal; without the finalizer nothing is done. *)
Theorem NetworkReconcile_effects namespace name cr e1 h s :
  ready h (glob s) -> get_network namespace name (env s) = ((cr, None), e1) ->
  wp (ReconcileNetwork_Reconcile namespace name) (fun r s' es =>
    ready h (glob s') /\ reconcile_post (network_deletes h) (network_creates h) cr r es) s.
Proof.
  intros Hr Hget. eapply wp_Reconcile; [done|done|apply deleteNetwork_spec|apply createNetwork_spec].
Qed.
End network.

(** ** Concrete runs *)

(** An API server that answers every read with the given objects and accepts
    every update. *)
Definition static_kube (cr : Network) (pcr : ProviderNetwork) (nc : NetworkChaining) : KubeWorld Z := {|
  get_network _ _ n := (cr, None, n);
  update_network o n := (o, None, n);
  status_network o n := (o, None, n);
  get_pn _ _ n := (pcr, None, n);
  update_pn o n := (o, None, n);
  status_pn o n := (o, None, n);
  get_nc _ _ n := (nc, None, n);
  update_nc o n := (o, None, n);
  status_nc o n := (o, None, n);
  IsNotFound e := Error e == "not found"
|}.

Definition demo_nc : NetworkChaining :=
  mkNetworkChaining (demo_meta "chain1")
    (Build_NetworkChainingSpec "Routing" (Build_RouteSpec [] [] "" "default")) (Build_NetworkChainingStatus "").

(** A network marked for deletion that carries two finalizers. *)
Definition dying_network : Network :=
  mkNetwork (mkMeta "nw1" "default" ["other"; nfnNetworkFinalizer] (Some 7%Z) ∅)
    (nw_Spec (demo_network [demo_subnet])) (Build_NetworkStatus Created).

(** The updates of network objects in a run: finalizers sent, or state sent. *)
Definition network_updates (es : list Event) : list (list string + string) :=
  omap (fun e => match e with
                 | EUpdateNetwork o _ => Some (inl (Finalizers (nw_meta o)))
                 | EStatusNetwork o _ => Some (inr (nw_State (nw_Status o)))
                 | _ => None
                 end) es.

Lemma NetworkReconcile_effects_witness :
  let kube cr := static_kube cr (demo_pn []) demo_nc in
  let recon nb cr := @ReconcileNetwork_Reconcile Z nb (kube cr) "default" "nw1" in
  wp (recon empty_db (demo_network [demo_subnet])) (fun r s' es => ready demo_helper (glob s') /\
    @reconcile_post Z Network (@network_reconcilable Z empty_db (kube (demo_network [demo_subnet])))
      (network_deletes demo_helper) (network_creates demo_helper) (demo_network [demo_subnet]) r es)
    demo_ctl_state /\
  network_updates (recon empty_db (demo_network [demo_subnet]) demo_ctl_state).2
    = [inl [nfnNetworkFinalizer]; inr Created] /\
  network_updates (recon stuck_db dying_network demo_ctl_state).2 = [inr DeleteInternalError; inl ["other"]].
Proof.
  split; [|split; vm_compute; reflexivity].
  refine (@NetworkReconcile_effects Z empty_db (static_kube (demo_network [demo_subnet]) (demo_pn []) demo_nc)
    "default" "nw1" (demo_network [demo_subnet]) 0%Z demo_helper demo_ctl_state _ eq_refl).
  split; [reflexivity|by eexists].
Defined.
