(* ===== verification/Notify.v ===== *)
(** * Notify: the notification server (internal/pkg/nfnNotify/server.go)

    The subscribed clients are the map [notifServer.clientList]; a client's
    gRPC stream is a number.  The listing goroutine of [nodeListIterator] hands
    over the names in order, which is a list here; the nil channel that it
    returns on an error makes the receiving loop wait forever ([block]). *)

From S2P Require Import Prelude.
From S2P Require Import GoStrings.
From S2P Require Import Types.
From S2P Require Import World.
From S2P Require Import Runner.
From S2P Require Import Traces.
From S2P Require Import OvnCommon.
From S2P Require Import OvnController.
From S2P Require Import OvnNetworks.
From S2P Require Import OvnPorts.
From Stdlib Require Import Ascii.

#[local] Open Scope string_scope.
#[local] Open Scope list_scope.

(** ** gRPC streams and the two client sets *)
Class NotifyWorld (E : Type) := {
  stream_send : nat -> Notification -> E -> option error * E;
  list_pns : string -> E -> (list ProviderNetwork * option error) * E;
  client_update_pn : string -> ProviderNetwork -> E -> option error * E;
  list_nodes : string -> E -> (list string * option error) * E
}.

(** ** Messages *)

Definition createVlanMsg (pn : ProviderNetwork) : Notification :=
  let v := pn_Vlan (pn_Spec pn) in
  {| CniType := "ovn4nfv";
     payload := Some (Notification_ProviderNwCreate
       {| pc_ProviderNwName := Name (pn_meta pn);
          Vlan := Some {| VlanId := vs_VlanId v; vi_ProviderIntf := vs_ProviderInterfaceName v;
                          LogicalIntf := LogicalInterfaceName v |};
          Direct := None |}) |}.

Definition deleteVlanMsg (pn : ProviderNetwork) : Notification :=
  {| CniType := "ovn4nfv";
     payload := Some (Notification_ProviderNwRemove
       {| pr_ProviderNwName := Name (pn_meta pn);
          VlanLogicalIntf := LogicalInterfaceName (pn_Vlan (pn_Spec pn));
          DirectProviderIntf := "" |}) |}.

Definition createDirectMsg (pn : ProviderNetwork) : Notification :=
  {| CniType := "ovn4nfv";
     payload := Some (Notification_ProviderNwCreate
       {| pc_ProviderNwName := Name (pn_meta pn);
          Vlan := None;
          Direct := Some {| di_ProviderIntf := ds_ProviderInterfaceName (pn_Direct (pn_Spec pn)) |} |}) |}.

Definition deleteDirectMsg (pn : ProviderNetwork) : Notification :=
  {| CniType := "ovn4nfv";
     payload := Some (Notification_ProviderNwRemove
       {| pr_ProviderNwName := Name (pn_meta pn);
          VlanLogicalIntf := "";
          DirectProviderIntf := ds_ProviderInterfaceName (pn_Direct (pn_Spec pn)) |}) |}.

Definition zeroClient : client := {| context := Build_SubscribeContext ""; stream := None |}.

Definition pn_set_state (st : string) (pn : ProviderNetwork) : ProviderNetwork :=
  mkProviderNetwork (pn_meta pn) (pn_Spec pn) (Build_ProviderNetworkStatus st).

Section notify.
Context {E : Type} `{!ExecWorld E, !NotifyWorld E}.

Definition Send (st : nat) (msg : Notification) : M E (option error) :=
  prim (stream_send st msg) (fun err => ESend st msg err).

Definition get_clients : M E (gmap string client) := g ← get_glob; deref (notifServer g).

Definition GetClient (nodeName : string) : M E client :=
  cl ← get_clients; mret (default zeroClient (cl !! nodeName)).

Definition updatePnStatus (pn : ProviderNetwork) (status : string) : M E (option error) :=
  let pnCopy := pn_set_state status pn in
  g ← get_glob;
  if pnClientset g then
    prim (client_update_pn (Namespace (pn_meta pn)) pnCopy)
         (fun err => EClientUpdatePn (Namespace (pn_meta pn)) pnCopy err)
  else panic "nil pointer dereference".

(** The names that arrive on the channel; [None] is the nil channel. *)
Definition nodeListIterator (labels : string) : M E (option (list string)) :=
  g ← get_glob;
  if kubeClientset g then
    '(nodes, err) ← prim (list_nodes labels) (fun _ => EQuery "Nodes");
    match err with Some _ => mret None | None => mret (Some nodes) end
  else panic "nil pointer dereference".

(** ** The loops of [sendMsg] *)

Definition send_all (msg : Notification) (nodeReq : string) (kv : string * client) (_ : ())
  : M E (() + option error) :=
  let '(name, client) := kv in
  if negb (nodeReq == "") && negb (nodeReq == name) then mret (inl ()) else
  match stream client with
  | Some st => Send st msg;; mret (inl ())
  | None => mret (inl ())
  end.

Definition send_any (msg : Notification) (kv : string * client) (_ : ())
  : M E (() + option error) :=
  match stream kv.2 with
  | Some st => err ← Send st msg; mret (inr err)
  | None => mret (inl ())
  end.

Definition send_specific (msg : Notification) (nodeReq : string) (name : string) (_ : ())
  : M E (() + option error) :=
  if negb (nodeReq == "") && negb (nodeReq == name) then mret (inl ()) else
  client ← GetClient name;
  match stream client with
  | Some st => err ← Send st msg;
               match err with Some e => mret (inr (Some e)) | None => mret (inl ()) end
  | None => mret (inl ())
  end.

Definition returned (r : () + option error) : option error :=
  match r with inl _ => None | inr err => err end.

Definition sendMsg (msg : Notification) (labels option_ nodeReq : string) : M E (option error) :=
  if option_ == "all" then
    cl ← get_clients; kvs ← map_range cl;
    r ← for_range (send_all msg nodeReq) kvs (); mret (returned r)
  else if option_ == "any" then
    cl ← get_clients; kvs ← map_range cl;
    r ← for_range (send_any msg) kvs (); mret (returned r)
  else
    names ← nodeListIterator labels;
    match names with
    | None => block
    | Some names => r ← for_range (send_specific msg nodeReq) names (); mret (returned r)
    end.

(** ** [SendNotif] *)

(** The node selection of one provider network type: selector, labels. *)
Definition check_labels (labels : list string) : bool :=
  forallb (fun label => negb (length (Split label "=") =? 0)%nat) labels.

Definition dispatch (pn : ProviderNetwork) (msg : Notification) (selector : string)
    (nodeLabels : list string) (nodeReq : string) : M E (option error) :=
  if EqualFold selector "SPECIFIC" then
    if check_labels nodeLabels then sendMsg msg (Join nodeLabels ",") "specific" nodeReq
    else mret None
  else if EqualFold selector "ALL" then sendMsg msg "" "all" nodeReq
  else if EqualFold selector "ANY" then
    if negb (pn_State (pn_Status pn) == Created) then
      err ← sendMsg msg "" "any" nodeReq;
      match err with
      | None => updatePnStatus pn Created;; mret None
      | Some e => mret (Some e)
      end
    else mret None
  else mret None.

Definition SendNotif (pn : ProviderNetwork) (msgType nodeReq : string) : M E (option error) :=
  let spec := pn_Spec pn in
  if pn_CniType spec == "ovn4nfv" then
    if ProviderNetType spec == "VLAN" then
      let msg := if msgType == "create" then createVlanMsg pn
                 else if msgType == "delete" then deleteVlanMsg pn else zeroNotification in
      dispatch pn msg (VlanNodeSelector (pn_Vlan spec)) (vs_NodeLabelList (pn_Vlan spec)) nodeReq
    else if ProviderNetType spec == "DIRECT" then
      let msg := if msgType == "create" then createDirectMsg pn
                 else if msgType == "delete" then deleteDirectMsg pn else zeroNotification in
      dispatch pn msg (DirectNodeSelector (pn_Direct spec)) (ds_NodeLabelList (pn_Direct spec)) nodeReq
    else mret (Errorf "Unsupported Provider Network type")
  else mret (Errorf "Unsupported CNI type").

(** ** [SendRouteNotif] *)

Definition route_data (r : Route) : RouteData := {| rd_Dst := Dst r; rd_Gw := GW r |}.

Definition route_insert (r : RoutingInfo) : ContainerRouteInsert :=
  {| ContainerId := ri_Id r;
     ins_Route := [route_data (LeftNetworkRoute r); route_data (RightNetworkRoute r)]
                  ++ map route_data (DynamicNetworkRoutes r) |}.

Definition send_route (msgType : string) (r : RoutingInfo) (msg : Notification)
  : M E (Notification + option error) :=
  let msg := if msgType == "create"
             then {| CniType := "ovn4nfv";
                     payload := Some (Notification_ContainterRtInsert (route_insert r)) |}
             else msg in
  client ← GetClient (ri_Node r);
  match stream client with
  | Some st => err ← Send st msg;
               match err with Some e => mret (inr (Some e)) | None => mret (inl msg) end
  | None => mret (inl msg)
  end.

Definition SendRouteNotif (chainRoutingInfo : list RoutingInfo) (msgType : string) : M E (option error) :=
  r ← for_range (send_route msgType) chainRoutingInfo zeroNotification;
  match r with inl _ => mret None | inr err => mret err end.

(** ** [Subscribe] *)

Definition inSyncMsg (ip mac : string) : Notification :=
  {| CniType := "ovn4nfv";
     payload := Some (Notification_InSync {| NodeIntfIpAddress := ip; NodeIntfMacAddress := mac |}) |}.

Definition add_client (nodeName : string) (c : client) (g : Globals) : Globals :=
  set_notifServer (insert nodeName c <$> notifServer g) g.

(** One provider network sent to a new subscriber. *)
Definition notify_new (nodeName : string) (pn : ProviderNetwork) (_ : ()) : M E (() + ()) :=
  SendNotif pn "create" nodeName;; mret (inl ()).

(** The handler never returns without an error: the stream is kept open. *)
Definition Subscribe (sc : SubscribeContext) (ss : nat) : M E (option error) :=
  let nodeName := sc_NodeName sc in
  if nodeName == "" then mret (Errorf "Node name can't be empty") else
  '(nodeIntfIPAddr, nodeIntfMacAddr, err) ← node_AddNodeLogicalPorts nodeName;
  match err with
  | Some e => mret (Errorf ("Error in creating node logical port for node- " +:+ nodeName
                            +:+ ": " +:+ Error e))
  | None =>
      let cp := {| context := sc; stream := Some ss |} in
      get_clients;;
      mod_glob (add_client nodeName cp);;
      g ← get_glob;
      (if pnClientset g then mret () else panic "nil pointer dereference");;
      '(pns, err) ← prim (list_pns "default") (fun _ => EQuery "ProviderNetworks");
      (match err with
       | None => for_range (notify_new nodeName) pns ();; mret ()
       | Some _ => mret ()
       end);;
      Send ss (inSyncMsg nodeIntfIPAddr nodeIntfMacAddr);;
      block
  end.
End notify.
