(* ===== verification/NotifyProps.v ===== *)
(** * NotifyProps: who receives which message

    Properties of the notification server of Notify.v: delivery to all, to any
    and to the selected nodes, the order of route messages, and what a
    subscription sends. *)

From S2P Require Import Prelude.
From S2P Require Import GoStrings.
From S2P Require Import Types.
From S2P Require Import World.
From S2P Require Import Runner.
From S2P Require Import Traces.
From S2P Require Import OvnCommon.
From S2P Require Import OvnController.
From S2P Require Import OvnNetworks.
From S2P Require Import OvnPorts.
From S2P Require Import Notify.
From Stdlib Require Import Ascii.

#[local] Open Scope string_scope.
#[local] Open Scope list_scope.

(** ** Who is addressed *)

(** A request names one node, or none in particular. *)
Definition wanted (nodeReq name : string) : bool := (nodeReq == "") || (nodeReq == name).

(** The stream of a subscribed node. *)
Definition stream_of (cl : gmap string client) (name : string) : option nat :=
  cl !! name ≫= stream.

Definition addressed (nodeReq : string) (kv : string * client) : option nat :=
  if wanted nodeReq kv.1 then stream kv.2 else None.

(** The messages sent when [msg] goes to the streams [sts]. *)
Definition to_all (msg : Notification) (sts : list nat) : list (nat * Notification) :=
  map (fun st => (st, msg)) sts.

Lemma negb_wanted nodeReq name : negb (nodeReq == "") && negb (nodeReq == name) = negb (wanted nodeReq name).
Proof. unfold wanted. by rewrite negb_orb. Qed.

Lemma default_stream cl name : stream (default zeroClient (cl !! name)) = stream_of cl name.
Proof. unfold stream_of. by destruct (cl !! name). Qed.

(** One node asked for: the permutation of the clients does not matter. *)
Lemma addressed_one (cl : gmap string client) nodeReq kvs :
  nodeReq <> "" -> kvs ≡ₚ map_to_list cl ->
  omap (addressed nodeReq) kvs = option_list (stream_of cl nodeReq).
Proof.
  intros Hne Hp. unfold stream_of.
  assert (Hnone : forall m : gmap string client, m !! nodeReq = None ->
    omap (addressed nodeReq) (map_to_list m) = []).
  { intros m Hm. apply elem_of_nil_inv. intros st Hst.
    apply list_elem_of_omap in Hst as ([k c] & Hk & Ha). apply elem_of_map_to_list in Hk.
    unfold addressed, wanted in Ha. rewrite bool_decide_eq_false_2 in Ha by done.
    cbn [orb fst snd] in Ha.
    destruct (nodeReq == k) eqn:Heq; [|done]. apply bool_decide_eq_true in Heq. congruence. }
  assert (Hperm : omap (addressed nodeReq) kvs ≡ₚ option_list (cl !! nodeReq ≫= stream)).
  { rewrite Hp. destruct (cl !! nodeReq) as [c|] eqn:Hc; [|by rewrite Hnone].
    rewrite <- (insert_delete_id cl nodeReq c Hc) at 1.
    rewrite map_to_list_insert by apply lookup_delete_eq. simpl.
    rewrite Hnone by apply lookup_delete_eq. unfold addressed, wanted. simpl.
    rewrite (bool_decide_eq_true_2 (nodeReq = nodeReq)), orb_true_r by done.
    by destruct (stream c). }
  destruct (cl !! nodeReq ≫= stream); simpl in *.
  - by apply Permutation_singleton_r in Hperm.
  - by apply Permutation_nil_r in Hperm.
Qed.

Section delivery.
Context {E : Type} `{!ExecWorld E, !NotifyWorld E}.
Implicit Types s : St E.

Lemma wp_Send st msg (Q : Res (option error) -> St E -> list Event -> Prop) s :
  (forall err e', Q (Val err) (mkSt (glob s) e') [ESend st msg err]) -> wp (Send st msg) Q s.
Proof. intros HQ. apply wp_ask. intros err e'. split; [done|apply HQ]. Qed.

Lemma wp_get_clients cl (Q : Res (gmap string client) -> St E -> list Event -> Prop) s :
  notifServer (glob s) = Some cl -> Q (Val cl) s [] -> wp get_clients Q s.
Proof. intros Hs HQ. unfold get_clients. wp_steps. rewrite Hs. by wp_steps. Qed.

Lemma wp_range {V} (m : gmap string V) (Q : Res (list (string * V)) -> St E -> list Event -> Prop) s :
  (forall kvs e', kvs ≡ₚ map_to_list m -> Q (Val kvs) (mkSt (glob s) e') [EQuery "range"]) ->
  wp (map_range m) Q s.
Proof.
  intros HQ. apply wp_prim. intros a e'. destruct (map_picks _) as [p e'']. intros [= <- <-].
  split; [done|]. apply HQ, pick_order_perm.
Qed.

Lemma wp_send_all msg nodeReq kvs s :
  wp (for_range (send_all msg nodeReq) kvs ()) (fun r s' es =>
    r = Val (inl ()) /\ glob s' = glob s /\
    sends es = to_all msg (omap (addressed nodeReq) kvs)) s.
Proof.
  apply (wp_for_range _ (fun dn _ s' es => glob s' = glob s /\
    sends es = to_all msg (omap (addressed nodeReq) dn))); [done| |].
  2: intros [] s' es [Hg Hs]; split; [done|]; by split.
  intros dn [name c] rest [] s1 es1 _ [Hg Hs]. unfold send_all. rewrite negb_wanted.
  rewrite omap_app. unfold to_all. rewrite map_app. fold (to_all msg (omap (addressed nodeReq) dn)).
  simpl. unfold addressed at 2. cbn [fst snd].
  destruct (wanted nodeReq name); cbn [negb]; [destruct (stream c) as [st|]|].
  - wp_step. apply wp_Send. intros err e'. wp_steps. split; [done|]. by rewrite sends_app, Hs.
  - wp_steps. split; [done|]. by rewrite !app_nil_r.
  - wp_steps. split; [done|]. by rewrite !app_nil_r.
Qed.

Lemma wp_send_any msg kvs s :
  wp (for_range (send_any msg) kvs ()) (fun r s' es => glob s' = glob s /\
    match omap (fun kv : string * client => stream kv.2) kvs with
    | st :: _ => exists err, r = Val (inr err) /\ es = [ESend st msg err]
    | [] => r = Val (inl ()) /\ es = []
    end) s.
Proof.
  revert s. induction kvs as [|[name c] kvs IH]; intros s; cbn [for_range].
  - by apply wp_ret.
  - wp_step. simpl omap.
    change (send_any msg (name, c) ()) with (match stream c with
      | Some st => err ← Send st msg; mret (inr err) | None => mret (inl ()) end : M E (() + option error)).
    destruct (stream c) as [st|].
    + wp_step. apply wp_Send. intros err e'. wp_steps. split; [done|]. by exists err.
    + wp_steps. apply IH.
Qed.

(** The plan of the specific case. *)
Definition specific_plan (cl : gmap string client) (msg : Notification) (nodeReq : string)
    (names : list string) : list (nat * Notification) :=
  to_all msg (omap (fun name => if wanted nodeReq name then stream_of cl name else None) names).

Lemma flat_map_omap {A B C} (f : A -> option B) (g : B -> C) l :
  map g (omap f l) = flat_map (fun a => map g (option_list (f a))) l.
Proof.
  induction l as [|a l IH]; [done|]. cbn [flat_map]. rewrite <- IH.
  change (omap f (a :: l)) with (match f a with Some b => b :: omap f l | None => omap f l end).
  by destruct (f a).
Qed.

Lemma wp_send_specific cl msg nodeReq names s :
  notifServer (glob s) = Some cl ->
  wp (for_range (send_specific msg nodeReq) names ()) (fun r s' es => glob s' = glob s /\
    exists res, r = Val res /\ delivers (specific_plan cl msg nodeReq names) (returned res) es) s.
Proof.
  intros Hs. eapply wp_mono; [|apply (wp_for_range_follows send_of (fun g => g = glob s)
    (fun name => to_all msg (option_list (if wanted nodeReq name then stream_of cl name else None))))].
  - intros r s' es (Hg & res & -> & H). split; [done|]. exists res. split; [done|].
    unfold specific_plan, to_all. rewrite flat_map_omap.
    destruct res; [exact H|apply H].
  - intros name [] s1 Hg.
    assert (Hskip : wp (mret (inl ()) : M E (() + option error)) (fun r s' es => glob s' = glob s /\
      exists res, r = Val res /\ match res with
        | inl _ => delivers [] None es | inr err => err <> None /\ delivers [] err es end) s1)
      by (apply wp_ret; split; [done|]; eexists; split; [done|]; apply follows_nil).
    unfold send_specific. rewrite negb_wanted.
    destruct (wanted nodeReq name); cbn [negb]; [|exact Hskip].
    unfold GetClient. wp_steps. apply (wp_get_clients cl); [by rewrite Hg|]. wp_steps.
    rewrite default_stream. destruct (stream_of cl name) as [st|]; [|exact Hskip].
    wp_step. apply wp_Send. intros err e'. cbn [after].
    assert (Hd := delivers_one st msg err).
    destruct err as [x|]; apply wp_ret; (split; [done|]); eexists; (split; [done|]); [by split|done].
  - done.
Qed.

(** ** [sendMsg] *)

(** The outcomes of the three options, for the clients [cl]. *)
Definition sent_to_all (cl : gmap string client) (msg : Notification) (nodeReq : string)
    (r : Res (option error)) (es : list Event) : Prop :=
  r = Val None /\ exists kvs, kvs ≡ₚ map_to_list cl /\
    sends es = to_all msg (omap (addressed nodeReq) kvs).

Definition sent_to_any (cl : gmap string client) (msg : Notification)
    (r : Res (option error)) (es : list Event) : Prop :=
  exists kvs, kvs ≡ₚ map_to_list cl /\
    match omap (fun kv : string * client => stream kv.2) kvs with
    | st :: _ => exists err, r = Val err /\ es = [EQuery "range"; ESend st msg err]
    | [] => r = Val None /\ es = [EQuery "range"]
    end.

Definition sent_to_nodes (cl : gmap string client) (msg : Notification) (nodeReq labels : string) (s : St E)
    (r : Res (option error)) (es : list Event) : Prop :=
  let '((names, err), _) := list_nodes labels (env s) in
  match err with
  | Some _ => r = Block /\ es = [EQuery "Nodes"]
  | None => exists err', r = Val err' /\ delivers (specific_plan cl msg nodeReq names) err' es
  end.

Lemma sendMsg_all_run cl msg labels nodeReq s :
  notifServer (glob s) = Some cl ->
  wp (sendMsg msg labels "all" nodeReq)
     (fun r s' es => glob s' = glob s /\ sent_to_all cl msg nodeReq r es) s.
Proof.
  intros Hs. unfold sendMsg. simpl. wp_step. apply (wp_get_clients cl); [done|]. cbn [after].
  wp_step. apply wp_range. intros kvs e' Hp. cbn [after]. wp_step.
  eapply wp_mono; [|apply wp_send_all]. intros r s1 es1 (-> & Hg & Hes). cbn [after].
  apply wp_ret. split; [done|]. split; [done|]. exists kvs. split; [done|].
  by rewrite !app_nil_r.
Qed.

Lemma sendMsg_any_run cl msg labels nodeReq s :
  notifServer (glob s) = Some cl ->
  wp (sendMsg msg labels "any" nodeReq)
     (fun r s' es => glob s' = glob s /\ sent_to_any cl msg r es) s.
Proof.
  intros Hs. unfold sendMsg. simpl. wp_step. apply (wp_get_clients cl); [done|]. cbn [after].
  wp_step. apply wp_range. intros kvs e' Hp. cbn [after]. wp_step.
  eapply wp_mono; [|apply wp_send_any]. intros r s1 es1 [Hg Hes].
  destruct (omap _ kvs) as [|st sts] eqn:Ho.
  - destruct Hes as [-> ->]. cbn [after]. apply wp_ret. split; [done|]. exists kvs.
    split; [done|]. by rewrite Ho.
  - destruct Hes as (err & -> & ->). cbn [after]. apply wp_ret. split; [done|]. exists kvs.
    split; [done|]. rewrite Ho. by exists err.
Qed.

Lemma sendMsg_specific_run cl msg labels nodeReq s :
  notifServer (glob s) = Some cl -> kubeClientset (glob s) = true ->
  wp (sendMsg msg labels "specific" nodeReq)
     (fun r s' es => glob s' = glob s /\ sent_to_nodes cl msg nodeReq labels s r es) s.
Proof.
  intros Hs Hk. unfold sendMsg, sent_to_nodes. simpl. wp_step. unfold nodeListIterator.
  wp_steps. rewrite Hk. wp_step. apply wp_prim. intros [names err] e' Hl. rewrite Hl.
  split; [done|]. cbn [after]. destruct err as [x|]; wp_steps; [done|].
  eapply wp_mono; [|by apply (wp_send_specific cl)]. intros r s1 es1 (Hg & res & -> & Hd).
  cbn [after]. apply wp_ret. split; [done|]. eexists. split; [done|].
  cbn [app]. rewrite app_nil_r. by apply follows_skip.
Qed.

(** ** Properties of [sendMsg] *)

(** a message to all is sent once to every subscribed client, or to the
    one client asked for, whatever the order in which the runtime visits the
    map; a failed send neither stops the others nor is reported. *)
Theorem sendMsg_all cl msg labels nodeReq s :
  notifServer (glob s) = Some cl ->
  wp (sendMsg msg labels "all" nodeReq) (fun r s' es =>
    glob s' = glob s /\ r = Val None /\
    (nodeReq = "" -> sends es ≡ₚ to_all msg (omap (fun kv => stream kv.2) (map_to_list cl))) /\
    (nodeReq <> "" -> sends es = to_all msg (option_list (stream_of cl nodeReq)))) s.
Proof.
  intros Hs. eapply wp_mono; [|by apply sendMsg_all_run].
  intros r s' es (Hg & -> & kvs & Hp & ->). split; [done|]. split; [done|]. split.
  - intros ->. unfold to_all. rewrite Hp. done.
  - intros Hne. by rewrite (addressed_one cl).
Qed.

(** a message to any node is sent at most once: to one subscribed client
    that has a stream, whose send decides the result.  With no such client
    nothing is sent and there is no error. *)
Theorem sendMsg_any cl msg labels nodeReq s :
  notifServer (glob s) = Some cl ->
  wp (sendMsg msg labels "any" nodeReq) (fun r s' es =>
    glob s' = glob s /\
    ((exists name st err, stream_of cl name = Some st /\ r = Val err /\
        es = [EQuery "range"; ESend st msg err]) \/
     ((forall name, stream_of cl name = None) /\ r = Val None /\ sends es = []))) s.
Proof.
  intros Hs. eapply wp_mono; [|by apply sendMsg_any_run].
  intros r s' es (Hg & kvs & Hp & Hes). split; [done|].
  destruct (omap _ kvs) as [|st sts] eqn:Ho.
  - right. destruct Hes as [-> ->]. split; [|done]. intros name.
    destruct (stream_of cl name) as [st|] eqn:Hst; [|done]. exfalso.
    unfold stream_of in Hst. destruct (cl !! name) as [c|] eqn:Hc; [|done]. simpl in Hst.
    assert (Hin : st ∈ omap (fun kv : string * client => stream kv.2) kvs).
    { apply list_elem_of_omap. exists (name, c). split; [|done].
      rewrite Hp. by apply elem_of_map_to_list. }
    rewrite Ho in Hin. by apply elem_of_nil in Hin.
  - left. destruct Hes as (err & -> & ->).
    assert (Hin : st ∈ omap (fun kv : string * client => stream kv.2) kvs) by (rewrite Ho; left).
    apply list_elem_of_omap in Hin as ([name c] & Hin & Hst). rewrite Hp in Hin.
    apply elem_of_map_to_list in Hin. exists name, st, err. split; [|done].
    unfold stream_of. by rewrite Hin.
Qed.

(** a message to selected nodes goes, in the order in which the API server
    lists the nodes with the labels, to each that is subscribed (and asked
    for); it stops at the first failed send with that error.  When the list
    cannot be read the sender waits forever. *)
Theorem sendMsg_specific cl msg labels nodeReq s :
  notifServer (glob s) = Some cl -> kubeClientset (glob s) = true ->
  wp (sendMsg msg labels "specific" nodeReq)
     (fun r s' es => glob s' = glob s /\ sent_to_nodes cl msg nodeReq labels s r es) s.
Proof. apply sendMsg_specific_run. Qed.

(** ** [SendNotif] *)

(** A server that is up: clients known, both client sets built. *)
Definition serving (cl : gmap string client) (g : Globals) : Prop :=
  notifServer g = Some cl /\ pnClientset g = true /\ kubeClientset g = true.

(** The message for a provider network; [None] for the types that are refused. *)
Definition notif_msg (pn : ProviderNetwork) (msgType : string) : option Notification :=
  if negb (pn_CniType (pn_Spec pn) == "ovn4nfv") then None
  else if ProviderNetType (pn_Spec pn) == "VLAN" then
    Some (if msgType == "create" then createVlanMsg pn
          else if msgType == "delete" then deleteVlanMsg pn else zeroNotification)
  else if ProviderNetType (pn_Spec pn) == "DIRECT" then
    Some (if msgType == "create" then createDirectMsg pn
          else if msgType == "delete" then deleteDirectMsg pn else zeroNotification)
  else None.

Definition notif_selector (pn : ProviderNetwork) : string * list string :=
  if ProviderNetType (pn_Spec pn) == "VLAN"
  then (VlanNodeSelector (pn_Vlan (pn_Spec pn)), vs_NodeLabelList (pn_Vlan (pn_Spec pn)))
  else (DirectNodeSelector (pn_Direct (pn_Spec pn)), ds_NodeLabelList (pn_Direct (pn_Spec pn))).

(** Who gets the message, by selector.  A delivery to any node is recorded in
    the status of the network, and not repeated for a network in that state. *)
Definition selected (cl : gmap string client) (pn : ProviderNetwork) (msg : Notification) (nodeReq : string)
    (s : St E) (r : Res (option error)) (es : list Event) : Prop :=
  let '(selector, labels) := notif_selector pn in
  if EqualFold selector "SPECIFIC" then sent_to_nodes cl msg nodeReq (Join labels ",") s r es
  else if EqualFold selector "ALL" then sent_to_all cl msg nodeReq r es
  else if EqualFold selector "ANY" then
    if pn_State (pn_Status pn) == Created then r = Val None /\ es = []
    else exists err es1, sent_to_any cl msg (Val err) es1 /\ r = Val err /\
      match err with
      | Some _ => es = es1
      | None => exists err2, es = es1 ++
          [EClientUpdatePn (Namespace (pn_meta pn)) (pn_set_state Created pn) err2]
      end
  else r = Val None /\ es = [].

Definition notified (cl : gmap string client) (pn : ProviderNetwork) (msgType nodeReq : string)
    (s : St E) (r : Res (option error)) (es : list Event) : Prop :=
  match notif_msg pn msgType with
  | None => (exists m, r = Val (Errorf m)) /\ es = []
  | Some msg => selected cl pn msg nodeReq s r es
  end.

Lemma check_labels_true labels : check_labels labels = true.
Proof.
  unfold check_labels. apply forallb_forall. intros l _.
  destruct (Split l "=") eqn:Hs; [by apply Split_not_nil in Hs|done].
Qed.

Lemma wp_updatePnStatus pn st (Q : Res (option error) -> St E -> list Event -> Prop) s :
  pnClientset (glob s) = true ->
  (forall err e', Q (Val err) (mkSt (glob s) e')
     [EClientUpdatePn (Namespace (pn_meta pn)) (pn_set_state st pn) err]) ->
  wp (updatePnStatus pn st) Q s.
Proof.
  intros Hp HQ. unfold updatePnStatus. wp_steps. rewrite Hp. apply wp_ask.
  intros err e'. split; [done|apply HQ].
Qed.

Lemma wp_dispatch cl pn msg nodeReq s :
  serving cl (glob s) ->
  wp (dispatch pn msg (notif_selector pn).1 (notif_selector pn).2 nodeReq) (fun r s' es =>
    glob s' = glob s /\ selected cl pn msg nodeReq s r es) s.
Proof.
  intros (Hs & Hp & Hk). unfold dispatch, selected.
  destruct (notif_selector pn) as [selector labels]. cbn [fst snd]. rewrite check_labels_true.
  destruct (EqualFold selector "SPECIFIC"); [by apply sendMsg_specific_run|].
  destruct (EqualFold selector "ALL"); [by apply sendMsg_all_run|].
  destruct (EqualFold selector "ANY"); [|by apply wp_ret].
  destruct (pn_State (pn_Status pn) == Created); cbn [negb]; [by apply wp_ret|].
  wp_step. eapply wp_mono; [|by apply (sendMsg_any_run cl)].
  intros r s1 es1 [Hg Hes].
  assert (Hval : exists err, r = Val err).
  { destruct Hes as (kvs & _ & Hes). destruct (omap _ kvs); [|destruct Hes as (? & Hes)];
      destruct Hes as [-> _]; by eexists. }
  destruct Hval as [err ->]. cbn [after]. destruct err as [x|].
  - apply wp_ret. split; [done|]. exists (Some x), es1. by rewrite app_nil_r.
  - wp_step. apply wp_updatePnStatus; [by rewrite Hg|]. intros err2 e'. wp_steps.
    split; [done|]. exists None, es1. split; [done|]. split; [done|]. by exists err2.
Qed.

Lemma SendNotif_run cl pn msgType nodeReq s :
  serving cl (glob s) ->
  wp (SendNotif pn msgType nodeReq) (fun r s' es =>
    glob s' = glob s /\ notified cl pn msgType nodeReq s r es) s.
Proof.
  intros Hs. unfold SendNotif, notified, notif_msg.
  destruct (pn_CniType (pn_Spec pn) == "ovn4nfv"); cbn [negb];
    [|apply wp_ret; split; [done|]; split; [by eexists|done]].
  assert (Hd := fun msg => wp_dispatch cl pn msg nodeReq s Hs).
  revert Hd. unfold notif_selector.
  destruct (ProviderNetType (pn_Spec pn) == "VLAN") eqn:Hv; intros Hd; [apply Hd|].
  destruct (ProviderNetType (pn_Spec pn) == "DIRECT"); [apply Hd|].
  apply wp_ret. split; [done|]. split; [by eexists|done].
Qed.


(** a network for any node that is in the state Created is never removed
    from the node that has it: the delete request, for either network type,
    sends nothing and reports no error. *)
Theorem SendNotif_any_not_deleted pn nodeReq s :
  notif_msg pn "delete" <> None -> EqualFold (notif_selector pn).1 "ANY" = true ->
  pn_State (pn_Status pn) = Created ->
  SendNotif pn "delete" nodeReq s = (Val None, s, []).
Proof.
  intros Hm Ha Hst.
  assert (Hl : forall b, "any" <> ToLower b -> EqualFold (notif_selector pn).1 b = false).
  { unfold EqualFold in *. intros b Hb. apply bool_decide_eq_true in Ha. change (ToLower "ANY") with "any" in Ha.
    apply bool_decide_eq_false. congruence. }
  assert (Hd : forall msg, dispatch pn msg (notif_selector pn).1 (notif_selector pn).2 nodeReq s
                           = (Val None, s, [])).
  { intros msg. unfold dispatch. rewrite !Hl, Ha, Hst by done. reflexivity. }
  revert Hm Hd. unfold SendNotif, notif_msg, notif_selector.
  destruct (pn_CniType (pn_Spec pn) == "ovn4nfv"); [|done].
  destruct (ProviderNetType (pn_Spec pn) == "VLAN"); [done|].
  by destruct (ProviderNetType (pn_Spec pn) == "DIRECT").
Qed.

(** ** [SendRouteNotif] *)

Definition routeMsg (r : RoutingInfo) : Notification :=
  {| CniType := "ovn4nfv"; payload := Some (Notification_ContainterRtInsert (route_insert r)) |}.

(** One message per chain member on a subscribed node, in the order of the chain. *)
Definition route_plan (cl : gmap string client) (rs : list RoutingInfo) : list (nat * Notification) :=
  flat_map (fun r => to_all (routeMsg r) (option_list (stream_of cl (ri_Node r)))) rs.

Lemma SendRouteNotif_run cl rs s :
  notifServer (glob s) = Some cl ->
  wp (SendRouteNotif rs "create") (fun r s' es => glob s' = glob s /\
    exists err, r = Val err /\ delivers (route_plan cl rs) err es) s.
Proof.
  intros Hs. unfold SendRouteNotif. wp_step.
  eapply wp_mono; [|apply (wp_for_range_follows send_of (fun g => g = glob s)
    (fun r => to_all (routeMsg r) (option_list (stream_of cl (ri_Node r)))))].
  - intros r s1 es1 (Hg & res & -> & H). cbn [after].
    destruct res as [m|err]; apply wp_ret; (split; [done|]); eexists; (split; [done|]);
      rewrite app_nil_r; [exact H|apply H].
  - intros r m s1 Hg. unfold send_route. cbn [bool_decide].
    unfold GetClient. wp_steps. apply (wp_get_clients cl); [by rewrite Hg|]. wp_steps.
    rewrite default_stream. destruct (stream_of cl (ri_Node r)) as [st|].
    + wp_step. apply wp_Send. intros err e'. cbn [after].
      assert (Hd := delivers_one st (routeMsg r) err).
      destruct err as [x|]; apply wp_ret; (split; [done|]); eexists; (split; [done|]); [by split|done].
    + apply wp_ret. split; [done|]. eexists. split; [done|]. apply follows_nil.
  - done.
Qed.

(** the routes of a chain are sent member by member in the order given,
    each to the node that runs the member, as one message with its left,
    right and dynamic routes; the first failed send ends it with that error,
    and without an error every member on a subscribed node has its message. *)
Theorem SendRouteNotif_order cl rs s :
  notifServer (glob s) = Some cl ->
  wp (SendRouteNotif rs "create") (fun r s' es => glob s' = glob s /\
    exists err, r = Val err /\ delivers (route_plan cl rs) err es) s.
Proof. apply SendRouteNotif_run. Qed.

(** ** [Subscribe] *)

(** Messages that announce a provider network. *)
Definition is_create (m : Notification) : Prop :=
  exists p, payload m = Some (Notification_ProviderNwCreate p).

Definition creates_only (es : list Event) : Prop := Forall (fun sm => is_create sm.2) (sends es).

Lemma to_all_forall (P : Notification -> Prop) msg sts :
  P msg -> Forall (fun sm => P sm.2) (to_all msg sts).
Proof. intros H. unfold to_all. apply Forall_map, Forall_true. by intros. Qed.

Lemma prefix_Forall {A} (P : A -> Prop) l1 l2 : l1 `prefix_of` l2 -> Forall P l2 -> Forall P l1.
Proof. intros [k ->] H. by apply Forall_app in H as [H _]. Qed.

Lemma notif_msg_create pn msg : notif_msg pn "create" = Some msg -> is_create msg.
Proof.
  unfold notif_msg. simpl. destruct (negb _); [done|].
  destruct (ProviderNetType (pn_Spec pn) == "VLAN"); [intros [= <-]; by eexists|].
  destruct (ProviderNetType (pn_Spec pn) == "DIRECT"); [intros [= <-]; by eexists|done].
Qed.

Lemma notified_create cl pn nodeReq s r es :
  notified cl pn "create" nodeReq s r es ->
  creates_only es /\ ((exists err, r = Val err) \/ (r = Block /\ es = [EQuery "Nodes"])).
Proof.
  unfold notified, creates_only. destruct (notif_msg pn "create") as [msg|] eqn:Hm.
  2: intros [[m ->] ->]; split; [constructor|]; left; by eexists.
  apply notif_msg_create in Hm. unfold selected. destruct (notif_selector pn) as [sel labels].
  destruct (EqualFold sel "SPECIFIC"); [|destruct (EqualFold sel "ALL"); [|destruct (EqualFold sel "ANY")]].
  - unfold sent_to_nodes. destruct (list_nodes _ _) as [[names [x|]] e'].
    + intros [-> ->]. split; [constructor|by right].
    + intros (err & -> & Hp & _). split; [|left; by eexists].
      eapply prefix_Forall; [exact Hp|]. by apply to_all_forall.
  - intros (-> & kvs & _ & ->). split; [|left; by eexists]. by apply to_all_forall.
  - destruct (pn_State (pn_Status pn) == Created).
    { intros [-> ->]. split; [constructor|left; by eexists]. }
    intros (err & es1 & (kvs & _ & Hany) & -> & Hes). split; [|left; by eexists].
    assert (H1 : Forall (fun sm => is_create sm.2) (sends es1)).
    { destruct (omap _ kvs); [destruct Hany as [_ ->]|destruct Hany as (e & _ & ->)];
        by repeat constructor. }
    destruct err as [x|]; [by subst|]. destruct Hes as [err2 ->]. by rewrite sends_app, app_nil_r.
  - intros [-> ->]. split; [constructor|left; by eexists].
Qed.

Lemma wp_notify_loop cl nodeName pns s :
  serving cl (glob s) ->
  wp (for_range (notify_new nodeName) pns ()) (fun r s' es => glob s' = glob s /\ creates_only es /\
    (r = Val (inl ()) \/ (r = Block /\ last es = Some (EQuery "Nodes")))) s.
Proof.
  intros Hs. apply (wp_for_range _ (fun _ _ s' es => glob s' = glob s /\ creates_only es)); [by split; [|constructor]| |].
  2: intros [] s' es [Hg Hc]; split; [done|]; split; [done|]; by left.
  intros dn pn rest [] s1 es1 _ [Hg Hc]. unfold notify_new. wp_step.
  eapply wp_mono; [|apply (SendNotif_run cl); by rewrite Hg].
  intros r s2 es2 [Hg2 Hn]. apply notified_create in Hn as [Hc2 Hr].
  assert (Hc12 : creates_only (es1 ++ es2)) by (unfold creates_only; rewrite sends_app; by apply Forall_app).
  destruct Hr as [[err ->]|[-> ->]]; cbn [after].
  - wp_steps. rewrite app_nil_r. split; [congruence|done].
  - split; [congruence|]. split; [done|]. right. split; [done|]. by rewrite last_app.
Qed.

Definition subscribed (sc : SubscribeContext) (ss : nat) : client :=
  {| context := sc; stream := Some ss |}.

Definition subscribe_post (cl : gmap string client) (sc : SubscribeContext) (ss : nat)
    (r : Res (option error)) (s' : St E) (es : list Event) : Prop :=
  ((exists e, r = Val (Some e)) /\ notifServer (glob s') = Some cl /\ sends es = []) \/
  (r = Block /\ notifServer (glob s') = Some (<[sc_NodeName sc := subscribed sc ss]> cl) /\
   exists es1, creates_only es1 /\
     ((es = es1 /\ last es1 = Some (EQuery "Nodes")) \/
      exists ip mac err, es = es1 ++ [ESend ss (inSyncMsg ip mac) err])).

Lemma Subscribe_run cl sc ss oc s h :
  runner (glob s) = Some h -> ovnCtl (glob s) = Some oc -> serving cl (glob s) ->
  wp (Subscribe sc ss) (subscribe_post cl sc ss) s.
Proof.
  intros Hr Ho (Hs & Hp & Hk). unfold Subscribe.
  destruct (sc_NodeName sc == ""); [apply wp_ret; left; eauto|].
  wp_step. eapply wp_mono; [|eapply (port_ok_node (fun _ => True) (sc_NodeName sc)); done].
  intros r s1 es1 ([oc1 Hg] & Hadd & [[ip mac] err] & -> & _). cbn [after].
  apply adds_only_no_send in Hadd.
  destruct err as [x|].
  { apply wp_ret. left. rewrite Hg, app_nil_r. eauto. }
  wp_step. apply (wp_get_clients cl); [by rewrite Hg|]. wp_steps. rewrite Hg. simpl. rewrite Hp.
  wp_steps. apply wp_ask. intros [pns err] e2. split; [done|]. cbn [after].
  set (s2 := mkSt _ e2).
  assert (Hserv : serving (<[sc_NodeName sc := subscribed sc ss]> cl) (glob s2)).
  { subst s2. unfold serving, add_client. simpl. by rewrite Hs. }
  assert (Hend : forall s3 pre, glob s3 = glob s2 -> creates_only pre ->
    wp (Send ss (inSyncMsg ip mac);; block) (fun r s' es => subscribe_post cl sc ss r s' (pre ++ es)) s3).
  { intros s3 pre Hg3 Hpre. wp_step. apply wp_Send. intros err3 e3. wp_steps. right.
    split; [done|]. cbn [glob]. rewrite Hg3. split; [apply Hserv|]. exists pre. split; [done|].
    right. exists ip, mac, err3. done. }
  assert (Hc1 : creates_only (es1 ++ [EQuery "ProviderNetworks"])).
  { unfold creates_only. rewrite sends_app, Hadd. constructor. }
  apply (wp_mono _ (fun r s0 e0 =>
    subscribe_post cl sc ss r s0 ((es1 ++ [EQuery "ProviderNetworks"]) ++ e0))).
  { intros r s0 e0. by rewrite <- app_assoc. }
  wp_step. destruct err as [x|].
  { apply wp_ret. cbn [after]. by apply Hend. }
  wp_step. eapply wp_mono; [|by apply (wp_notify_loop _ _ _ s2 Hserv)].
  intros r s3 es3 (Hg3 & Hc3 & Hr3).
  assert (Hc13 : creates_only ((es1 ++ [EQuery "ProviderNetworks"]) ++ es3))
    by (unfold creates_only; rewrite sends_app; by apply Forall_app).
  destruct Hr3 as [->|[-> Hlast]]; cbn [after].
  - apply wp_ret. cbn [after]. rewrite app_nil_r.
    eapply wp_mono; [|by apply (Hend s3 _ Hg3 Hc13)]. intros r s4 es4 H4. by rewrite app_assoc.
  - right. split; [done|]. rewrite Hg3. split; [apply Hserv|]. eexists. split; [exact Hc13|].
    left. split; [done|]. by rewrite last_app, Hlast.
Qed.

(** a subscription either fails, and then changes nothing and sends
    nothing, or registers the node and never returns.  In that case the
    messages are the announcements of provider networks and, last and once,
    the synchronisation message on the node's own stream; only an unreadable
    node list keeps that one from being sent. *)
Theorem Subscribe_sends cl sc ss oc s h :
  runner (glob s) = Some h -> ovnCtl (glob s) = Some oc -> serving cl (glob s) ->
  wp (Subscribe sc ss) (subscribe_post cl sc ss) s.
Proof. apply Subscribe_run. Qed.
End delivery.

(** ** Concrete runs *)

(** A server with three nodes of which two listen; sends to stream 9 fail. *)
Definition demo_notify (pns : list ProviderNetwork) (nodes : list string * option error) : NotifyWorld Z := {|
  stream_send st _ n := (if (st =? 9)%nat then Some (OtherError "status" "gone") else None, n);
  list_pns _ n := (pns, None, n);
  client_update_pn _ _ n := (None, n);
  list_nodes _ n := (nodes, n)
|}.

Definition demo_clients : gmap string client :=
  <["node1" := subscribed (Build_SubscribeContext "node1") 1]>
  (<["node2" := subscribed (Build_SubscribeContext "node2") 9]> (<["node3" := zeroClient]> ∅)).

Definition serving_globals : Globals :=
  mkGlobals (Some demo_helper) None (Some (Build_Controller ∅)) (Some demo_clients) true true [] false [].
Definition serving_state : St Z := mkSt serving_globals 0%Z.
Definition demo_msg : Notification := inSyncMsg "ip" "mac".

Lemma demo_serving : serving demo_clients (glob serving_state).
Proof. done. Qed.

Lemma sendMsg_all_witness :
  let m := @sendMsg Z empty_db (demo_notify [] ([], None)) demo_msg "" "all" "node1" in
  wp m (fun r s' es =>
      glob s' = glob serving_state /\ r = Val None /\
      ("node1" = "" -> sends es ≡ₚ to_all demo_msg (omap (fun kv => stream kv.2) (map_to_list demo_clients))) /\
      ("node1" <> "" -> sends es = to_all demo_msg (option_list (stream_of demo_clients "node1")))) serving_state /\
  sends (m serving_state).2 = [(1%nat, demo_msg)].
Proof.
  split; [|vm_compute; reflexivity].
  exact (@sendMsg_all Z empty_db (demo_notify [] ([], None)) demo_clients demo_msg "" "node1" serving_state eq_refl).
Defined.

Lemma sendMsg_any_witness :
  let m := @sendMsg Z empty_db (demo_notify [] ([], None)) demo_msg "" "any" "" in
  wp m (fun r s' es =>
      glob s' = glob serving_state /\
      ((exists name st err, stream_of demo_clients name = Some st /\ r = Val err /\
          es = [EQuery "range"; ESend st demo_msg err]) \/
       ((forall name, stream_of demo_clients name = None) /\ r = Val None /\ sends es = []))) serving_state /\
  length (sends (m serving_state).2) = 1%nat.
Proof.
  split; [|vm_compute; reflexivity].
  exact (@sendMsg_any Z empty_db (demo_notify [] ([], None)) demo_clients demo_msg "" "" serving_state eq_refl).
Defined.

Lemma sendMsg_specific_witness :
  let nw := demo_notify [] (["node3"; "node1"; "node2"; "node1"], None) in
  let m := @sendMsg Z empty_db nw demo_msg "a=b" "specific" "" in
  wp m (fun r s' es => glob s' = glob serving_state /\
    @sent_to_nodes Z nw demo_clients demo_msg "" "a=b" serving_state r es) serving_state /\
  sends (m serving_state).2 = [(1%nat, demo_msg); (9%nat, demo_msg)] /\
  (@sendMsg Z empty_db (demo_notify [] ([], Errorf "no")) demo_msg "a=b" "specific" "" serving_state).1.1 = Block.
Proof.
  split; [|split; vm_compute; reflexivity].
  exact (@sendMsg_specific Z empty_db (demo_notify [] (["node3"; "node1"; "node2"; "node1"], None))
    demo_clients demo_msg "a=b" "" serving_state eq_refl eq_refl).
Defined.

(** A VLAN network for the given nodes, in the given state. *)
Definition demo_vlan_pn (sel state : string) : ProviderNetwork :=
  mkProviderNetwork (demo_meta "pn1")
    (Build_ProviderNetworkSpec "ovn4nfv" [demo_subnet] [] demo_dns [] "VLAN"
       (Build_VlanSpec "100" sel [] "eth1" "eth1.100") (Build_DirectSpec "" [] ""))
    (Build_ProviderNetworkStatus state).


Lemma SendNotif_any_not_deleted_witness :
  @SendNotif Z empty_db (demo_notify [] ([], None)) (demo_vlan_pn "any" Created) "delete" "" serving_state
    = (Val None, serving_state, []).
Proof.
  apply SendNotif_any_not_deleted; [discriminate|reflexivity|reflexivity].
Defined.

Definition demo_member_route (pod node : string) : RoutingInfo :=
  {| ri_Name := pod; ri_Namespace := "default"; ri_Id := pod; ri_Node := node;
     LeftNetworkRoute := {| Dst := "10.1.0.0/16"; GW := "10.2.0.1" |};
     RightNetworkRoute := {| Dst := "10.3.0.0/16"; GW := "10.2.0.2" |};
     DynamicNetworkRoutes := [] |}.

Lemma SendRouteNotif_order_witness :
  let rs := [demo_member_route "a" "node1"; demo_member_route "b" "node4"; demo_member_route "c" "node2";
             demo_member_route "d" "node1"] in
  let m := @SendRouteNotif Z (demo_notify [] ([], None)) rs "create" in
  wp m (fun r s' es => glob s' = glob serving_state /\
      exists err, r = Val err /\ delivers (route_plan demo_clients rs) err es) serving_state /\
  sends (m serving_state).2 =
    [(1%nat, routeMsg (demo_member_route "a" "node1")); (9%nat, routeMsg (demo_member_route "c" "node2"))].
Proof.
  split; [|vm_compute; reflexivity].
  exact (@SendRouteNotif_order Z (demo_notify [] ([], None)) demo_clients
    [demo_member_route "a" "node1"; demo_member_route "b" "node4"; demo_member_route "c" "node2";
     demo_member_route "d" "node1"] serving_state eq_refl).
Defined.

Lemma Subscribe_sends_witness :
  let nw := demo_notify [demo_vlan_pn "all" ""; demo_vlan_pn "any" Created] ([], None) in
  let m := @Subscribe Z port_db nw (Build_SubscribeContext "node4") 4 in
  wp m (subscribe_post demo_clients (Build_SubscribeContext "node4") 4) serving_state /\
  sends (m serving_state).2 = [(4%nat, createVlanMsg (demo_vlan_pn "all" ""));
                               (4%nat, inSyncMsg "10.1.0.5/16" "0a:00:00:00:00:01")].
Proof.
  split; [|vm_compute; reflexivity].
  exact (@Subscribe_sends Z port_db (demo_notify [demo_vlan_pn "all" ""; demo_vlan_pn "any" Created] ([], None))
    demo_clients (Build_SubscribeContext "node4") 4 (Build_Controller ∅) serving_state demo_helper
    eq_refl eq_refl demo_serving).
Defined.
