(* ===== verification/NodeIter.v ===== *)
(** * NodeIter: the channel of [nodeListIterator] (nfnNotify/server.go)

    Notify.v hands the nodes' names to the loop of [sendMsg] as a list.  Here
    the goroutine that sends them and the loop that receives them are two
    processes over an unbuffered channel: a send and a receive happen together,
    and the loop's body runs between two receives.  The theorem says that the
    list is what the channel amounts to, for every schedule, and what becomes of
    the goroutine. *)

From S2P Require Import Prelude.
From S2P Require Import GoStrings.
From S2P Require Import Types.
From S2P Require Import World.
From S2P Require Import Notify.
From S2P Require Import NotifyProps.

#[local] Open Scope string_scope.
#[local] Open Scope list_scope.

Section channel.
Context {E R : Type}.

(** The goroutine: the names that it has still to send, then the close. *)
Inductive producer := Sending (names : list string) | Closed.

(** The function with the loop: waiting for a name, or returned. *)
Inductive consumer := Receiving | Finished (r : Res (() + R)).

Definition chan_config : Type := producer * consumer * St E * list Event.

(** What one round of the loop leaves. *)
Definition after_body (r : Res (() + R)) : consumer :=
  match r with Val (inl _) => Receiving | _ => Finished r end.

Context (body : string -> () -> M E (() + R)).

Inductive chan_step : chan_config -> chan_config -> Prop :=
| step_send n names s es r s' e' :     (* ch <- name meets range ch *)
    body n () s = (r, s', e') ->
    chan_step (Sending (n :: names), Receiving, s, es) (Sending names, after_body r, s', es ++ e')
| step_close c s es :                  (* close(ch) *)
    chan_step (Sending [], c, s, es) (Closed, c, s, es)
| step_end s es :                      (* the loop sees the channel closed *)
    chan_step (Closed, Receiving, s, es) (Closed, Finished (Val (inl ())), s, es).

Definition chan_stuck (c : chan_config) : Prop := forall c', ~ chan_step c c'.

(** The number of steps left, at most. *)
Definition steps_left (c : chan_config) : nat :=
  match c with
  | (Sending names, Receiving, _, _) => length names + 2
  | (Closed, Receiving, _, _) | (Sending _, Finished _, _, _) => 1
  | (Closed, Finished _, _, _) => 0
  end.

Lemma chan_step_decreases c c' : chan_step c c' -> (steps_left c' < steps_left c)%nat.
Proof.
  intros [n names s es r s' e' Hb|k s es|s es]; cbn; [|by destruct k; cbn; lia|lia].
  destruct r as [[[]|ret]|w|]; cbn; lia.
Qed.

Lemma chan_steps_bound n c c' : nsteps chan_step n c c' -> (n + steps_left c' <= steps_left c)%nat.
Proof. induction 1 as [|n c1 c2 c3 H%chan_step_decreases _ IH]; lia. Qed.

(** The run of the list loop that a configuration is on. *)
Definition then_log (es : list Event) (o : Res (() + R) * St E * list Event) : Res (() + R) * St E * list Event :=
  let '(r, s, e') := o in (r, s, es ++ e').

Definition rest_of (c : chan_config) : Res (() + R) * St E * list Event :=
  match c with
  | (_, Finished r, s, es) => (r, s, es)
  | (Sending names, Receiving, s, es) => then_log es (for_range body names () s)
  | (Closed, Receiving, s, es) => (Val (inl ()), s, es)
  end.

Lemma chan_step_rest c c' : chan_step c c' -> rest_of c' = rest_of c.
Proof.
  intros [n names s es r s' e' Hb|k s es|s es]; cbn [rest_of]; [| |done].
  - cbn [for_range]. unfold mbind, M_bind. rewrite Hb. destruct r as [[[]|ret]|w|]; cbn [after_body rest_of].
    + destruct (for_range body names () s') as [[r2 s2] e2]. unfold then_log. by rewrite app_assoc.
    + unfold then_log, mret, M_ret. by rewrite app_nil_r.
    + done.
    + done.
  - destruct k; [|done]. unfold then_log. cbn. unfold mret, M_ret. by rewrite app_nil_r.
Qed.

(** What the goroutine has left is an end of the list; with the loop at its
    end it has closed the channel. *)
Definition chan_inv (nodes : list string) (c : chan_config) : Prop :=
  match c with
  | (Sending names, Receiving, _, _) => names `suffix_of` nodes
  | (Closed, Receiving, _, _) => True
  | (Sending names, Finished r, _, _) => names `suffix_of` nodes /\ r <> Val (inl ())
  | (Closed, Finished _, _, _) => True
  end.

Lemma chan_step_inv nodes c c' : chan_step c c' -> chan_inv nodes c -> chan_inv nodes c'.
Proof.
  intros [n names s es r s' e' Hb|k s es|s es]; cbn; [|by destruct k|done].
  intros Hsuf. assert (Hs : names `suffix_of` nodes) by (etrans; [|exact Hsuf]; by exists [n]).
  destruct r as [[[]|ret]|w|]; cbn; [done|by split..].
Qed.

Lemma chan_run nodes c c' :
  rtc chan_step c c' -> chan_inv nodes c -> rest_of c' = rest_of c /\ chan_inv nodes c'.
Proof.
  induction 1 as [c|c1 c2 c3 Hstep _ IH]; [done|]. intros Hinv.
  rewrite <- (chan_step_rest _ _ Hstep). apply IH. by eapply chan_step_inv.
Qed.

(** ** Properties *)

(** whatever the schedule, the loop over the channel of [nodeListIterator]
    returns within two steps more than there are nodes, with the result, the
    state and the messages of a loop over the list of names.  The goroutine ends
    by closing the channel when the loop reads it to the end; when the loop
    returns early the goroutine stays blocked on the first name that was not
    read, for ever, unless there is none. *)
Theorem nodeListIterator_channel nodes s :
  let start := (Sending nodes, Receiving, s, []) in
  (forall n c, nsteps chan_step n start c -> (n <= length nodes + 2)%nat) /\
  forall p k s' es, rtc chan_step start (p, k, s', es) -> chan_stuck (p, k, s', es) ->
    exists r, k = Finished r /\ for_range body nodes () s = (r, s', es) /\
      (p = Closed \/ exists n rest, p = Sending (n :: rest) /\ (n :: rest) `suffix_of` nodes /\
                                    r <> Val (inl ())).
Proof.
  intros start. split; [intros n c H%chan_steps_bound; cbn in H; lia|].
  intros p k s' es Hrun Hstuck.
  assert (Hinit : chan_inv nodes start) by by exists [].
  destruct (chan_run nodes _ _ Hrun Hinit) as [Hrest Hinv]. cbn [rest_of start] in Hrest.
  assert (Hstart : then_log [] (for_range body nodes () s) = for_range body nodes () s)
    by by destruct (for_range body nodes () s) as [[? ?] ?].
  rewrite Hstart in Hrest. destruct k as [|r].
  { exfalso. destruct p as [[|n names]|].
    - eapply Hstuck, step_close.
    - destruct (body n () s') as [[r s2] e2] eqn:Hb. by eapply Hstuck, step_send.
    - eapply Hstuck, step_end. }
  exists r. split; [done|]. destruct p as [[|n names]|].
  - exfalso. eapply Hstuck, step_close.
  - split; [done|]. right. exists n, names. by destruct Hinv.
  - split; [done|]. by left.
Qed.
End channel.

(** ** A concrete run: of three nodes the second one's stream fails *)

Definition demo_send := @send_specific Z (demo_notify [] ([], None)) demo_msg "".

Lemma nodeListIterator_channel_witness :
  let nodes := ["node1"; "node2"; "node3"] in
  let start := (Sending nodes, Receiving, serving_state, []) in
  exists s' es,
    rtc (chan_step demo_send) start
      (Sending ["node3"], Finished (Val (inr (Some (OtherError "status" "gone")))), s', es) /\
    chan_stuck demo_send (Sending ["node3"], Finished (Val (inr (Some (OtherError "status" "gone")))), s', es) /\
    for_range demo_send nodes () serving_state = (Val (inr (Some (OtherError "status" "gone"))), s', es).
Proof.
  intros nodes start.
  exists serving_state, (for_range demo_send nodes () serving_state).2.
  assert (Hrun : rtc (chan_step demo_send) start
    (Sending ["node3"], Finished (Val (inr (Some (OtherError "status" "gone")))), serving_state,
     (for_range demo_send nodes () serving_state).2)).
  { eapply rtc_l; [eapply step_send; vm_compute; reflexivity|].
    eapply rtc_l; [eapply step_send; vm_compute; reflexivity|].
    vm_compute. apply rtc_refl. }
  assert (Hstuck : chan_stuck demo_send
    (Sending ["node3"], Finished (Val (inr (Some (OtherError "status" "gone")))), serving_state,
     (for_range demo_send nodes () serving_state).2)) by (intros c' Hc; inversion Hc).
  split; [exact Hrun|]. split; [exact Hstuck|].
  destruct (proj2 (@nodeListIterator_channel Z (option error) demo_send nodes serving_state) _ _ _ _ Hrun Hstuck)
    as (r & [= <-] & Hr & _). exact Hr.
Defined.
