(* ===== verification/ApiServer.v ===== *)
(** * ApiServer: what the generated clients do to the objects of the API server

    The objects of the custom resources are a map from resource, namespace and
    name.  [serve] is what the documentation of the Kubernetes API says of a
    request on custom resources, with or without the status subresource: on the
    main resource a write leaves the status alone, on [status] everything else.
    [RestServer] says that an answer without error comes from [serve], and that
    a request with an error was served or not.  Every typed client then meets
    [typed_contract]; and the status that the notification server sets with
    [Update] is lost where the status subresource is on, which it is in the
    resource definitions under deploy. *)

From S2P Require Import Prelude.
From S2P Require Import GoStrings.
From S2P Require Import Types.
From S2P Require Import World.
From S2P Require Import Runner.
From S2P Require Import Traces.
From S2P Require Import Clients.
From S2P Require Import Notify.
From S2P Require Import NotifyProps.

#[local] Open Scope string_scope.
#[local] Open Scope list_scope.

(** ** Objects *)

Variant Spec :=
| SNetwork (s : NetworkSpec)
| SNetworkChaining (s : NetworkChainingSpec)
| SProviderNetwork (s : ProviderNetworkSpec).

Record Object := mkObject { o_meta : ObjectMeta; o_spec : Spec; o_state : string }.

Abbreviation Key := (string * string * string)%type.
Abbreviation Store := (gmap Key Object).

Definition resource_of (s : Spec) : string :=
  match s with
  | SNetwork _ => "networks"
  | SNetworkChaining _ => "networkchainings"
  | SProviderNetwork _ => "providernetworks"
  end.

Definition network_object (o : Network) : Object :=
  mkObject (nw_meta o) (SNetwork (nw_Spec o)) (nw_State (nw_Status o)).
Definition chain_object (o : NetworkChaining) : Object :=
  mkObject (nc_meta o) (SNetworkChaining (nc_Spec o)) (nc_State (nc_Status o)).
Definition pn_object (o : ProviderNetwork) : Object :=
  mkObject (pn_meta o) (SProviderNetwork (pn_Spec o)) (pn_State (pn_Status o)).

Definition body_object (b : Body) : option Object :=
  match b with
  | BNetwork o => Some (network_object o)
  | BNetworkChaining o => Some (chain_object o)
  | BProviderNetwork o => Some (pn_object o)
  | BDeleteOptions _ | BData _ => None
  end.

(** ** Requests *)

(** Where a request goes and what it carries. *)
Record Target := mkTarget {
  t_ns : string; t_resource : string; t_name : option string; t_sub : list string;
  t_list : option ListOptions; t_body : option Body
}.

Definition on_call (t : Target) (c : Call) : Target :=
  let '(mkTarget ns res name sub lo b) := t in
  match c with
  | CNamespace n => mkTarget n res name sub lo b
  | CResource r => mkTarget ns r name sub lo b
  | CName n => mkTarget ns res (Some n) sub lo b
  | CSubResource l => mkTarget ns res name l lo b
  | CListParams o => mkTarget ns res name sub (Some o) b
  | CBody x => mkTarget ns res name sub lo (Some x)
  | CGetParams _ | CTimeout _ => t
  end.

Definition target (r : Request) : Target := foldl on_call (mkTarget "" "" None [] None None) r.2.

Definition plain_list (o : ListOptions) : bool :=
  bool_decide (LabelSelector o = "") && bool_decide (FieldSelector o = "") && negb (Watch o).

(** The requests that [serve] describes. *)
Definition described (r : Request) : bool :=
  match r.1, t_name (target r), t_list (target r) with
  | GET, Some _, None | POST, None, None | PUT, Some _, None | DELETE, Some _, None => true
  | GET, None, Some o => plain_list o
  | _, _, _ => false
  end.

(** ** The API *)

Variant Answer := AObject (o : Object) | AList (l : list Object) | ADeleted.

Definition members (res ns : string) (st : Store) : list Object :=
  omap (fun '((res', ns', _), o) =>
    if bool_decide (res' = res) && (bool_decide (ns = "") || bool_decide (ns' = ns)) then Some o else None)
    (map_to_list st).

Definition created (sub : bool) (ns : string) (o : Object) : Object :=
  mkObject (mkMeta (Name (o_meta o)) ns (Finalizers (o_meta o)) None (Labels (o_meta o))) (o_spec o)
    (if sub then "" else o_state o).

(** A write on the main resource. *)
Definition updated (sub : bool) (cur o : Object) : Object :=
  mkObject (mkMeta (Name (o_meta cur)) (Namespace (o_meta cur)) (Finalizers (o_meta o))
              (DeletionTimestamp (o_meta cur)) (Labels (o_meta o)))
    (o_spec o) (if sub then o_state cur else o_state o).

Definition with_status (cur o : Object) : Object := mkObject (o_meta cur) (o_spec cur) (o_state o).

(** A dying object goes away with its last finalizer. *)
Definition put (k : Key) (o : Object) (st : Store) : Store :=
  if negb (IsZero (DeletionTimestamp (o_meta o))) && bool_decide (Finalizers (o_meta o) = [])
  then delete k st else <[k := o]> st.

Definition dying (now : Z) (o : Object) : Object :=
  let m := o_meta o in
  mkObject (mkMeta (Name m) (Namespace m) (Finalizers m)
              (if IsZero (DeletionTimestamp m) then Some now else DeletionTimestamp m) (Labels m)) (o_spec o) (o_state o).

Definition fits (t : Target) (name : string) (o : Object) : bool :=
  bool_decide (resource_of (o_spec o) = t_resource t) && bool_decide (Name (o_meta o) = name) &&
  (bool_decide (Namespace (o_meta o) = "") || bool_decide (Namespace (o_meta o) = t_ns t)).

Definition the_object (t : Target) : option Object := t_body t ≫= body_object.

(** A request that goes through: its answer, and the objects after it. *)
Definition serve (sub : bool) (now : Z) (v : Verb) (t : Target) (st : Store) : option (Answer * Store) :=
  match v, t_name t, t_sub t with
  | GET, Some n, [] =>
      o ← st !! (t_resource t, t_ns t, n); Some (AObject o, st)
  | GET, None, [] => Some (AList (members (t_resource t) (t_ns t) st), st)
  | POST, None, [] =>
      o ← the_object t;
      let n := Name (o_meta o) in
      let k := (t_resource t, t_ns t, n) in
      if fits t n o && bool_decide (n <> "") && bool_decide (st !! k = None) then
        Some (AObject (created sub (t_ns t) o), <[k := created sub (t_ns t) o]> st)
      else None
  | PUT, Some n, [] =>
      o ← the_object t;
      cur ← st !! (t_resource t, t_ns t, n);
      if fits t n o then
        Some (AObject (updated sub cur o), put (t_resource t, t_ns t, n) (updated sub cur o) st)
      else None
  | PUT, Some n, ["status"] =>
      o ← the_object t;
      cur ← st !! (t_resource t, t_ns t, n);
      if sub && fits t n o then
        Some (AObject (with_status cur o), <[(t_resource t, t_ns t, n) := with_status cur o]> st)
      else None
  | DELETE, Some n, [] =>
      cur ← st !! (t_resource t, t_ns t, n);
      Some (ADeleted, put (t_resource t, t_ns t, n) (dying now cur) st)
  | _, _, _ => None
  end.

(** What an answer decodes to. *)
Definition decodes {T} (k : Into T) : Answer -> T -> Prop :=
  match k with
  | INetwork => fun a x => a = AObject (network_object x)
  | INetworkChaining => fun a x => a = AObject (chain_object x)
  | IProviderNetwork => fun a x => a = AObject (pn_object x)
  | INetworkList => fun a x => exists l, a = AList l /\ map network_object (nw_Items x) ≡ₚ l
  | INetworkChainingList => fun a x => exists l, a = AList l /\ map chain_object (nc_Items x) ≡ₚ l
  | IProviderNetworkList => fun a x => exists l, a = AList l /\ map pn_object (pn_Items x) ≡ₚ l
  end.

(** A request is served, or refused, or served without the client learning of it. *)
Definition answered {X} (sub : bool) (r : Request) (dec : Answer -> X -> Prop)
    (st : Store) (x : X) (err : option error) (st' : Store) : Prop :=
  match err with
  | None => exists now a, now <> 0%Z /\ serve sub now r.1 (target r) st = Some (a, st') /\ dec a x
  | Some _ => st' = st \/
      exists now a, now <> 0%Z /\ serve sub now r.1 (target r) st = Some (a, st')
  end.

Class RestServer (E : Type) `{!RestWorld E} := {
  objects : E -> Store;
  status_subresource : bool;
  rest_into : forall h T (r : Request) (k : Into T) e, described r = true ->
    let '((x, err), e') := rest h (DoInto r k) e in
    answered status_subresource r (decodes k) (objects e) x err (objects e');
  rest_error : forall h (r : Request) e, described r = true ->
    let '(err, e') := rest h (DoError r) e in
    answered status_subresource r (fun _ _ => True) (objects e) () err (objects e')
}.

(** ** The contract of a typed client

    [outcome]: without an error the objects are [new]; with one they are that
    or what they were. *)
Section contract.
Context {E : Type} `{!RestWorld E, !RestServer E}.
Implicit Types st : Store.

Definition outcome (err : option error) (st st' new : Store) : Prop :=
  match err with None => st' = new | Some _ => st' = st \/ st' = new end.

(** The requests that cannot go through. *)
Definition refused (err : option error) (st st' : Store) : Prop := err <> None /\ st' = st.

Record typed_contract {T L : Type} (res ns : string) (obj : T -> Object) (items : L -> list T)
    (get : string -> GetOptions -> E -> (T * option error) * E)
    (list_ : ListOptions -> E -> (L * option error) * E)
    (create update update_status : T -> E -> (T * option error) * E)
    (delete_ : string -> DeleteOptions -> E -> option error * E) : Prop := {
  tc_get name opts e : let '((x, err), e') := get name opts e in
    objects e' = objects e /\ (err = None -> objects e !! (res, ns, name) = Some (obj x));
  tc_list opts e : plain_list opts = true -> let '((l, err), e') := list_ opts e in
    objects e' = objects e /\ (err = None -> map obj (items l) ≡ₚ members res ns (objects e));
  tc_create x e : let '((y, err), e') := create x e in
    let o := created status_subresource ns (obj x) in
    let k := (res, ns, Name (o_meta (obj x))) in
    match objects e !! k with
    | Some _ => refused err (objects e) (objects e')
    | None => outcome err (objects e) (objects e') (<[k := o]> (objects e)) /\ (err = None -> obj y = o)
    end;
  tc_update x e : let '((y, err), e') := update x e in
    let k := (res, ns, Name (o_meta (obj x))) in
    match objects e !! k with
    | None => refused err (objects e) (objects e')
    | Some cur => let o := updated status_subresource cur (obj x) in
        outcome err (objects e) (objects e') (put k o (objects e)) /\ (err = None -> obj y = o)
    end;
  tc_update_status x e : let '((y, err), e') := update_status x e in
    let k := (res, ns, Name (o_meta (obj x))) in
    match objects e !! k with
    | None => refused err (objects e) (objects e')
    | Some cur => let o := with_status cur (obj x) in
        outcome err (objects e) (objects e') (<[k := o]> (objects e)) /\ (err = None -> obj y = o)
    end;
  tc_delete name opts e : let '(err, e') := delete_ name opts e in
    let k := (res, ns, name) in
    match objects e !! k with
    | None => refused err (objects e) (objects e')
    | Some cur => exists now, now <> 0%Z /\
        outcome err (objects e) (objects e') (put k (dying now cur) (objects e))
    end
}.

(** *** One lemma for each shape of request *)

Lemma answered_never {X} sub r (dec : Answer -> X -> Prop) st x err st' :
  (forall now, serve sub now r.1 (target r) st = None) ->
  answered sub r dec st x err st' -> refused err st st'.
Proof.
  intros Hnone. unfold answered, refused. destruct err.
  - intros [->|(now & a & _ & H)]; [by split|]. by rewrite Hnone in H.
  - intros (now & a & _ & H & _). by rewrite Hnone in H.
Qed.

Lemma answered_always {X} sub r (dec : Answer -> X -> Prop) st x err st' a new :
  (forall now, serve sub now r.1 (target r) st = Some (a, new)) ->
  answered sub r dec st x err st' -> outcome err st st' new /\ (err = None -> dec a x).
Proof.
  intros Hall. unfold answered, outcome. destruct err.
  - intros [->|(now & a' & _ & H)]; [split; [by left|done]|]. rewrite Hall in H.
    injection H as _ <-. split; [by right|done].
  - intros (now & a' & _ & H & Hd). rewrite Hall in H. by injection H as <- <-.
Qed.

Lemma refused_outcome {P : Prop} err st st' new :
  refused err st st' -> outcome err st st' new /\ (err = None -> P).
Proof. intros [Hne ->]. destruct err; [split; [by left|done]|done]. Qed.

Lemma served_get {T} h ns res n (k : Into T) (obj : T -> Object) opts e :
  (forall a x, decodes k a x -> a = AObject (obj x)) ->
  let '((x, err), e') := rest h (DoInto (GET, [CNamespace ns; CResource res; CName n; CGetParams opts]) k) e in
  objects e' = objects e /\ (err = None -> objects e !! (res, ns, n) = Some (obj x)).
Proof.
  intros Hdec. set (r := (GET, [CNamespace ns; CResource res; CName n; CGetParams opts])).
  pose proof (rest_into h T r k e eq_refl) as H. destruct (rest h _ e) as [[x err] e'].
  destruct (objects e !! (res, ns, n)) as [o|] eqn:Ho.
  - eapply (answered_always _ _ _ _ _ _ _ (AObject o) (objects e)) in H as [Hout Hx];
      [|intros now; cbn; by rewrite Ho].
    split; [destruct err; [by destruct Hout|done]|]. intros He. by apply Hx, Hdec in He as [= ->].
  - apply answered_never in H as [Hne ->]; [done|]. intros now. cbn. by rewrite Ho.
Qed.

Lemma served_list {L} h ns res (k : Into L) (objs : L -> list Object) opts d e :
  plain_list opts = true ->
  (forall a x, decodes k a x -> exists l, a = AList l /\ objs x ≡ₚ l) ->
  let '((x, err), e') := rest h (DoInto (GET, [CNamespace ns; CResource res; CListParams opts; CTimeout d]) k) e in
  objects e' = objects e /\ (err = None -> objs x ≡ₚ members res ns (objects e)).
Proof.
  intros Hp Hdec. set (r := (GET, [CNamespace ns; CResource res; CListParams opts; CTimeout d])).
  pose proof (rest_into h L r k e Hp) as H. destruct (rest h _ e) as [[x err] e'].
  eapply (answered_always _ _ _ _ _ _ _ (AList (members res ns (objects e))) (objects e)) in H as [Hout Hx]; [|done].
  split; [destruct err; [by destruct Hout|done]|]. intros He.
  by apply Hx, Hdec in He as (l & [= <-] & Hl).
Qed.

Lemma served_create {T} h ns res (k : Into T) (obj : T -> Object) b x e :
  (forall a x, decodes k a x -> a = AObject (obj x)) -> body_object b = Some (obj x) ->
  let '((y, err), e') := rest h (DoInto (POST, [CNamespace ns; CResource res; CBody b]) k) e in
  let o := created status_subresource ns (obj x) in
  let key := (res, ns, Name (o_meta (obj x))) in
  match objects e !! key with
  | Some _ => refused err (objects e) (objects e')
  | None => outcome err (objects e) (objects e') (<[key := o]> (objects e)) /\ (err = None -> obj y = o)
  end.
Proof.
  intros Hdec Hb. set (r := (POST, [CNamespace ns; CResource res; CBody b])).
  pose proof (rest_into h T r k e eq_refl) as H. destruct (rest h _ e) as [[y err] e'].
  set (o := created status_subresource ns (obj x)). set (key := (res, ns, Name (o_meta (obj x)))). cbv zeta.
  set (fine := fits (target r) (Name (o_meta (obj x))) (obj x) && bool_decide (Name (o_meta (obj x)) <> "")).
  assert (Hserve : forall now, serve status_subresource now r.1 (target r) (objects e) =
    if fine && bool_decide (objects e !! key = None) then Some (AObject o, <[key := o]> (objects e)) else None).
  { intros now. unfold serve, the_object. cbn. by rewrite Hb. }
  destruct (objects e !! key) as [cur|] eqn:Hcur.
  - eapply answered_never; [|exact H]. intros now. by rewrite Hserve, andb_false_r.
  - destruct fine.
    + eapply (answered_always _ _ _ _ _ _ _ (AObject o)) in H as [Hout Hx]; [|exact Hserve].
      split; [exact Hout|]. intros He. by apply Hx, Hdec in He as [= ->].
    + apply refused_outcome. by eapply answered_never.
Qed.

(** The two updates: [sub] is the path below the object, [merge] what it keeps. *)
Lemma served_put {T} h ns res (k : Into T) (obj : T -> Object) b x (calls : list Call) sub fine
    (merge : Object -> Object) store e :
  let n := Name (o_meta (obj x)) in
  let key := (res, ns, n) in
  let r := (PUT, [CNamespace ns; CResource res; CName n] ++ calls ++ [CBody b]) in
  (forall a x, decodes k a x -> a = AObject (obj x)) ->
  target r = mkTarget ns res (Some n) sub None (Some b) -> described r = true ->
  (forall now, serve status_subresource now PUT (target r) (objects e) =
     cur ← objects e !! key; if fine : bool then Some (AObject (merge cur), store cur) else None) ->
  let '((y, err), e') := rest h (DoInto r k) e in
  match objects e !! key with
  | None => refused err (objects e) (objects e')
  | Some cur => outcome err (objects e) (objects e') (store cur) /\ (err = None -> obj y = merge cur)
  end.
Proof.
  intros n key r Hdec Ht Hd Hserve. pose proof (rest_into h T r k e Hd) as H.
  destruct (rest h _ e) as [[y err] e']. destruct (objects e !! key) as [cur|] eqn:Hcur.
  - destruct fine.
    + eapply (answered_always _ r _ _ _ _ _ (AObject (merge cur))) in H as [Hout Hx]; [|exact Hserve].
      split; [exact Hout|]. intros He. by apply Hx, Hdec in He as [= ->].
    + apply refused_outcome. eapply (answered_never _ r); [exact Hserve|exact H].
  - eapply (answered_never _ r); [exact Hserve|exact H].
Qed.

Lemma served_update {T} h ns res (k : Into T) (obj : T -> Object) b x e :
  (forall a x, decodes k a x -> a = AObject (obj x)) -> body_object b = Some (obj x) ->
  let n := Name (o_meta (obj x)) in
  let key := (res, ns, n) in
  let '((y, err), e') := rest h (DoInto (PUT, [CNamespace ns; CResource res; CName n; CBody b]) k) e in
  match objects e !! key with
  | None => refused err (objects e) (objects e')
  | Some cur => let o := updated status_subresource cur (obj x) in
      outcome err (objects e) (objects e') (put key o (objects e)) /\ (err = None -> obj y = o)
  end.
Proof.
  intros Hdec Hb n key.
  apply (served_put h ns res k obj b x [] [] (fits (mkTarget ns res (Some n) [] None (Some b)) n (obj x))
           (fun cur => updated status_subresource cur (obj x))
           (fun cur => put key (updated status_subresource cur (obj x)) (objects e))); [exact Hdec|done|done|].
  intros now. unfold serve, the_object. cbn. by rewrite Hb.
Qed.

Lemma served_update_status {T} h ns res (k : Into T) (obj : T -> Object) b x e :
  (forall a x, decodes k a x -> a = AObject (obj x)) -> body_object b = Some (obj x) ->
  let n := Name (o_meta (obj x)) in
  let key := (res, ns, n) in
  let '((y, err), e') := rest h (DoInto (PUT, [CNamespace ns; CResource res; CName n; CSubResource ["status"]; CBody b]) k) e in
  match objects e !! key with
  | None => refused err (objects e) (objects e')
  | Some cur => let o := with_status cur (obj x) in
      outcome err (objects e) (objects e') (<[key := o]> (objects e)) /\ (err = None -> obj y = o)
  end.
Proof.
  intros Hdec Hb n key.
  apply (served_put h ns res k obj b x [CSubResource ["status"]] ["status"]
           (status_subresource && fits (mkTarget ns res (Some n) ["status"] None (Some b)) n (obj x))
           (fun cur => with_status cur (obj x))
           (fun cur => <[key := with_status cur (obj x)]> (objects e))); [exact Hdec|done|done|].
  intros now. unfold serve, the_object. cbn. by rewrite Hb.
Qed.

Lemma served_delete h ns res n opts e :
  let '(err, e') := rest h (DoError (DELETE, [CNamespace ns; CResource res; CName n; CBody (BDeleteOptions opts)])) e in
  let key := (res, ns, n) in
  match objects e !! key with
  | None => refused err (objects e) (objects e')
  | Some cur => exists now, now <> 0%Z /\
      outcome err (objects e) (objects e') (put key (dying now cur) (objects e))
  end.
Proof.
  set (r := (DELETE, [CNamespace ns; CResource res; CName n; CBody (BDeleteOptions opts)])).
  pose proof (rest_error h r e eq_refl) as H. destruct (rest h _ e) as [err e']. cbv zeta.
  destruct (objects e !! (res, ns, n)) as [cur|] eqn:Hcur.
  - unfold answered in H. unfold serve in H. cbn in H. rewrite Hcur in H. cbn in H. unfold outcome.
    destruct err as [w|].
    + destruct H as [->|(now & a & Hn & [= _ <-])]; [exists 1%Z; split; [done|by left]|].
      exists now. split; [done|by right].
    + destruct H as (now & a & Hn & [= _ <-] & _). by exists now.
  - eapply answered_never; [|exact H]. intros now. cbn. by rewrite Hcur.
Qed.

(** The six operations of one client. *)
Ltac typed_client res k obj objs :=
  constructor;
  [ intros name opts e; by apply (served_get _ _ res name k obj)
  | intros opts e Hp; by apply (served_list _ _ res _ objs)
  | intros x e; by apply (served_create _ _ res k obj)
  | intros x e; by apply (served_update _ _ res k obj)
  | intros x e; by apply (served_update_status _ _ res k obj)
  | intros name opts e; by apply (served_delete _ _ res) ].

(** The three typed clients of the group's client [c], at the namespace [ns]. *)
Lemma networks_contract (c : K8sV1alpha1Client) ns :
  let n := Networks c ns in
  typed_contract "networks" ns network_object nw_Items (networks_Get n) (networks_List n)
    (networks_Create n) (networks_Update n) (networks_UpdateStatus n) (networks_Delete n).
Proof. typed_client "networks" INetwork network_object (fun l => map network_object (nw_Items l)). Qed.

Lemma networkChainings_contract (c : K8sV1alpha1Client) ns :
  let n := NetworkChainings c ns in
  typed_contract "networkchainings" ns chain_object nc_Items (networkChainings_Get n) (networkChainings_List n)
    (networkChainings_Create n) (networkChainings_Update n) (networkChainings_UpdateStatus n)
    (networkChainings_Delete n).
Proof. typed_client "networkchainings" INetworkChaining chain_object (fun l => map chain_object (nc_Items l)). Qed.

Lemma providerNetworks_contract (c : K8sV1alpha1Client) ns :
  let n := ProviderNetworks c ns in
  typed_contract "providernetworks" ns pn_object pn_Items (providerNetworks_Get n) (providerNetworks_List n)
    (providerNetworks_Create n) (providerNetworks_Update n) (providerNetworks_UpdateStatus n)
    (providerNetworks_Delete n).
Proof. typed_client "providernetworks" IProviderNetwork pn_object (fun l => map pn_object (pn_Items l)). Qed.

(** ** Properties *)

End contract.

(** ** The notification server on these clients

    [pnClientset.K8sV1alpha1().ProviderNetworks(ns)] of server.go, for
    [NotifyWorld]; sending on a stream and listing nodes stay the environment's. *)
Definition no_options : ListOptions := mkListOptions "" "" false None "".

Section notify.
Context {E : Type} `{!RestWorld E}.
Variables (cs : Clientset) (send : nat -> Notification -> E -> option error * E)
  (nodes : string -> E -> (list string * option error) * E).

Definition clientset_notify : NotifyWorld E := {|
  stream_send := send;
  list_pns ns e :=
    let '((l, err), e') := providerNetworks_List (ProviderNetworks (K8sV1alpha1 cs) ns) no_options e in
    ((pn_Items l, err), e');
  client_update_pn ns pnCopy e :=
    let '((_, err), e') := providerNetworks_Update (ProviderNetworks (K8sV1alpha1 cs) ns) pnCopy e in (err, e');
  list_nodes := nodes
|}.
End notify.

(** Everything else that the notification server asks of the environment has
    nothing to do with the objects. *)
Class NotifyApart (E : Type) `{!ExecWorld E, !RestWorld E, !RestServer E}
    (send : nat -> Notification -> E -> option error * E)
    (nodes : string -> E -> (list string * option error) * E) : Prop := {
  apart_send st msg e : objects (send st msg e).2 = objects e;
  apart_nodes labels e : objects (nodes labels e).2 = objects e;
  apart_range e : objects (map_picks e).2 = objects e
}.

Section states.
Context {E : Type} `{!ExecWorld E, !RestWorld E, !RestServer E}.
Variables (cs : Clientset) (send : nat -> Notification -> E -> option error * E)
  (nodes : string -> E -> (list string * option error) * E).
Context `{!NotifyApart E send nodes}.
#[local] Instance on_clients : NotifyWorld E := clientset_notify cs send nodes.

(** The objects of [st'] were there in [st], and their states are those that
    they had, or [Created] where the status subresource is off. *)
Definition same_states (st st' : Store) : Prop :=
  forall k o', st' !! k = Some o' -> exists o, st !! k = Some o /\
    (o_state o' = o_state o \/ status_subresource = false /\ o_state o' = Created).

#[local] Instance same_states_refl : Reflexive same_states.
Proof. intros st k o H. exists o. auto. Qed.

#[local] Instance same_states_trans : Transitive same_states.
Proof.
  intros s1 s2 s3 H12 H23 k o3 H3. destruct (H23 k o3 H3) as (o2 & H2 & Hs2).
  destruct (H12 k o2 H2) as (o1 & H1 & Hs1). exists o1. split; [done|].
  destruct Hs2 as [->|Hs2]; [exact Hs1|by right].
Qed.

Definition keeps_states {A} (m : M E A) : Prop := forall s, same_states (objects (env s)) (objects (env (m s).1.2)).

Lemma states_ret {A} (a : A) : keeps_states (mret a).
Proof. intros s. reflexivity. Qed.
Lemma states_panic {A} w : keeps_states (panic (A:=A) w).
Proof. intros s. reflexivity. Qed.
Lemma states_block {A} : keeps_states (block (A:=A)).
Proof. intros s. reflexivity. Qed.
Lemma states_get_glob : keeps_states get_glob.
Proof. intros s. reflexivity. Qed.
Lemma states_deref {A} (o : option A) : keeps_states (deref o).
Proof. destruct o; intros s; reflexivity. Qed.

Lemma states_bind {A B} (m : M E A) (k : A -> M E B) : keeps_states m -> (forall a, keeps_states (k a)) -> keeps_states (m ≫= k).
Proof.
  intros Hm Hk s. unfold mbind, M_bind. specialize (Hm s).
  destruct (m s) as [[[a|w|] s1] e1]; cbn in *; [|done..].
  specialize (Hk a s1). destruct (k a s1) as [[r s2] e2]. cbn in *. by etrans.
Qed.

Lemma states_prim {A} (f : E -> A * E) ev : (forall e, same_states (objects e) (objects (f e).2)) -> keeps_states (prim f ev).
Proof. intros H s. unfold prim. specialize (H (env s)). by destruct (f (env s)). Qed.

Lemma states_for_range {X L R} (body : X -> L -> M E (L + R)) xs l :
  (forall x l, keeps_states (body x l)) -> keeps_states (for_range body xs l).
Proof.
  intros Hb. revert l. induction xs as [|x xs IH]; intros l; cbn [for_range]; [apply states_ret|].
  apply states_bind; [apply Hb|]. intros [l'|r]; [apply IH|apply states_ret].
Qed.

Lemma states_send st msg : keeps_states (Send st msg).
Proof. apply states_prim. intros e. cbn. by rewrite apart_send. Qed.

Lemma states_range {V} (m : gmap string V) : keeps_states (map_range m).
Proof.
  apply states_prim. intros e. pose proof (apart_range e) as H. by destruct (map_picks e); cbn in *; rewrite H.
Qed.

Lemma put_same_states (k : Key) (cur o : Object) (st : Store) :
  st !! k = Some cur -> o_state o = o_state cur \/ status_subresource = false /\ o_state o = Created ->
  same_states st (put k o st).
Proof.
  intros Hk Ho k' o'. unfold put. destruct (_ && _).
  - rewrite lookup_delete_Some. intros [_ H]. exists o'. auto.
  - rewrite lookup_insert_Some. intros [[<- <-]|[_ H]]; [by exists cur|]. exists o'. auto.
Qed.

(** [updatePnStatus] sends the state [Created] to the main resource. *)
Lemma states_updatePnStatus pn : keeps_states (updatePnStatus pn Created).
Proof.
  unfold updatePnStatus. apply states_bind; [apply states_get_glob|]. intros g.
  destruct (pnClientset g); [|apply states_panic]. apply states_prim. intros e. cbn [client_update_pn on_clients clientset_notify].
  pose proof (providerNetworks_contract (K8sV1alpha1 cs) (Namespace (pn_meta pn))) as Hpn.
  pose proof (tc_update _ _ _ _ _ _ _ _ _ _ Hpn (pn_set_state Created pn) e) as H. cbn zeta in H.
  destruct (providerNetworks_Update _ _ e) as [[y err] e']. cbn [snd].
  destruct (objects e !! _) as [cur|] eqn:Hcur; [|by destruct H as [_ ->]]. destruct H as [Hout _].
  assert (Hput : same_states (objects e) (put ("providernetworks", Namespace (pn_meta pn), Name (pn_meta pn))
    (updated status_subresource cur (pn_object (pn_set_state Created pn))) (objects e))).
  { eapply put_same_states; [exact Hcur|]. unfold updated. cbn. destruct status_subresource; auto. }
  unfold outcome in Hout. destruct err; [destruct Hout as [->| ->]|rewrite Hout]; done.
Qed.
Lemma states_GetClient name : keeps_states (GetClient name).
Proof.
  apply states_bind; [|intros cl; apply states_ret].
  apply states_bind; [apply states_get_glob|intros g; apply states_deref].
Qed.

Ltac states_tac :=
  repeat first
    [ apply states_ret | apply states_panic | apply states_block | apply states_get_glob | apply states_deref
    | apply states_send | apply states_range | apply states_GetClient | apply states_updatePnStatus
    | apply states_for_range; intros | apply states_bind; intros | break_goal ].

Lemma states_nodeListIterator labels : keeps_states (nodeListIterator labels).
Proof.
  unfold nodeListIterator. apply states_bind; [apply states_get_glob|]. intros g.
  destruct (kubeClientset g); [|apply states_panic]. apply states_bind; [|intros a; states_tac].
  apply states_prim. intros e. cbn. by rewrite apart_nodes.
Qed.

Lemma states_sendMsg msg labels opt nodeReq : keeps_states (sendMsg msg labels opt nodeReq).
Proof.
  unfold sendMsg, get_clients, send_all, send_any, send_specific.
  destruct (opt == "all"); [states_tac|]. destruct (opt == "any"); [states_tac|].
  apply states_bind; [apply states_nodeListIterator|]. intros names. states_tac.
Qed.

Lemma states_dispatch pn msg selector labels nodeReq : keeps_states (dispatch pn msg selector labels nodeReq).
Proof.
  unfold dispatch. destruct (EqualFold selector "SPECIFIC").
  { destruct (check_labels labels); [apply states_sendMsg|apply states_ret]. }
  destruct (EqualFold selector "ALL"); [apply states_sendMsg|].
  destruct (EqualFold selector "ANY"); [|apply states_ret].
  destruct (negb _); [|apply states_ret]. apply states_bind; [apply states_sendMsg|]. intros err. states_tac.
Qed.

(** ** Properties *)

(** C20: whatever a notification does, no stored network gets another state by it
    where the status subresource is on, and none but [Created] where it is off:
    the state that is to say that a network for any node has found its node is
    never recorded by the notification server on a cluster with the deployed
    resource definitions. *)
Theorem SendNotif_states pn msgType nodeReq s :
  let '(_, s', _) := SendNotif pn msgType nodeReq s in
  forall k o', objects (env s') !! k = Some o' -> exists o, objects (env s) !! k = Some o /\
    (o_state o' = o_state o \/ status_subresource = false /\ o_state o' = Created).
Proof.
  assert (Hk : keeps_states (SendNotif pn msgType nodeReq)).
  { unfold SendNotif. destruct (_ == "ovn4nfv"); [|apply states_ret].
    destruct (_ == "VLAN"); [apply states_dispatch|]. destruct (_ == "DIRECT"); [apply states_dispatch|apply states_ret]. }
  specialize (Hk s). destruct (SendNotif pn msgType nodeReq s) as [[r s'] es]. exact Hk.
Qed.
End states.

(** ** A concrete server: its objects are all that there is *)

Definition decode {T} (k : Into T) : Answer -> option T :=
  let nw ob := match o_spec ob with
    | SNetwork sp => Some (mkNetwork (o_meta ob) sp (Build_NetworkStatus (o_state ob))) | _ => None end in
  let nc ob := match o_spec ob with
    | SNetworkChaining sp => Some (mkNetworkChaining (o_meta ob) sp (Build_NetworkChainingStatus (o_state ob))) | _ => None end in
  let pn ob := match o_spec ob with
    | SProviderNetwork sp => Some (mkProviderNetwork (o_meta ob) sp (Build_ProviderNetworkStatus (o_state ob))) | _ => None end in
  match k with
  | INetwork => fun a => match a with AObject o => nw o | _ => None end
  | INetworkChaining => fun a => match a with AObject o => nc o | _ => None end
  | IProviderNetwork => fun a => match a with AObject o => pn o | _ => None end
  | INetworkList => fun a => match a with AList l => Build_NetworkList "" <$> mapM nw l | _ => None end
  | INetworkChainingList => fun a => match a with AList l => Build_NetworkChainingList "" <$> mapM nc l | _ => None end
  | IProviderNetworkList => fun a => match a with AList l => Build_ProviderNetworkList "" <$> mapM pn l | _ => None end
  end.

Definition zero {T} (k : Into T) : T :=
  let meta := mkMeta "" "" [] None ∅ in
  let dns := Build_DnsSpec [] "" [] [] in
  match k with
  | INetwork => mkNetwork meta (Build_NetworkSpec "" [] [] dns []) (Build_NetworkStatus "")
  | INetworkChaining =>
      mkNetworkChaining meta (Build_NetworkChainingSpec "" (Build_RouteSpec [] [] "" "")) (Build_NetworkChainingStatus "")
  | IProviderNetwork =>
      mkProviderNetwork meta
        (Build_ProviderNetworkSpec "" [] [] dns [] "" (Build_VlanSpec "" "" [] "" "") (Build_DirectSpec "" [] ""))
        (Build_ProviderNetworkStatus "")
  | INetworkList => Build_NetworkList "" []
  | INetworkChainingList => Build_NetworkChainingList "" []
  | IProviderNetworkList => Build_ProviderNetworkList "" []
  end.

Definition not_found : error := OtherError "*errors.StatusError" "not found".

#[global] Instance store_rest : RestWorld Store := fun _ _ q st =>
  match q with
  | DoInto r k =>
      match serve true 1 r.1 (target r) st with
      | Some (a, st') =>
          match decode k a with Some x => ((x, None), st') | None => ((zero k, Some not_found), st) end
      | None => ((zero k, Some not_found), st)
      end
  | DoError r =>
      match serve true 1 r.1 (target r) st with Some (_, st') => (None, st') | None => (Some not_found, st) end
  | DoWatch r => ((0%nat, None), st)
  end.

Lemma decode_decodes {T} (k : Into T) a x : decode k a = Some x -> decodes k a x.
Proof.
  assert (Hlist : forall X (f : Object -> option X) (g : X -> Object) l xs,
    (forall o y, f o = Some y -> g y = o) -> mapM f l = Some xs -> map g xs = l).
  { intros X f g l xs Hf Hm%mapM_Some. induction Hm as [|o y l xs Ho _ IH]; [done|]. cbn. by rewrite IH, (Hf _ _ Ho). }
  assert (Hone : forall o, match o with mkObject m sp st => mkObject m sp st = o end) by by intros [].
  destruct k, a as [o|l|]; cbn [decode decodes]; try done.
  all: try (destruct o as [m [sp|sp|sp] st]; cbn; by intros [= <-]).
  all: destruct (mapM _ l) as [xs|] eqn:Hm; [|done]; intros [= <-]; exists l; (split; [done|]); cbn.
  all: erewrite Hlist; [reflexivity| |exact Hm]; intros [m [sp|sp|sp] st] y; cbn; by intros [= <-].
Qed.

#[global] Instance store_server : RestServer Store.
Proof.
  refine (Build_RestServer Store _ (fun st => st) true _ _).
  - intros h T r k st _. cbn. unfold answered.
    destruct (serve true 1 r.1 (target r) st) as [[a st']|] eqn:Hs; [|by left].
    destruct (decode k a) as [x|] eqn:Hx; [|by left]. exists 1%Z, a. split; [done|]. split; [done|by apply decode_decodes].
  - intros h r st _. cbn. unfold answered.
    destruct (serve true 1 r.1 (target r) st) as [[a st']|] eqn:Hs; [|by left]. by exists 1%Z, a.
Defined.

(** The commands of a subscription answer as on a node whose ports are there. *)
Definition store_exec : ExecWorld Store := {|
  run_cmd _ args st := (if nth 1 args "" == "get" then (dq +:+ "0a:00:00:00:00:01 10.1.0.5" +:+ dq, "", None)
                        else if nth 2 args "" == "get" then (dq +:+ "10.1.0.1/16" +:+ dq, "", None)
                        else ("", "", None), st);
  look_path f st := (("/usr/bin/" +:+ f, None), st);
  getenv _ st := ("", st);
  pause _ st := st;
  random st := (0%Z, st);
  map_picks st := ([], st)
|}.

(** Streams always take messages; node1 and node2 have the label. *)
Definition store_send (_ : nat) (_ : Notification) (st : Store) : option error * Store := (None, st).
Definition store_nodes (_ : string) (st : Store) : (list string * option error) * Store := ((["node1"; "node2"], None), st).

Definition store_apart : @NotifyApart Store store_exec store_rest store_server store_send store_nodes.
Proof. constructor; reflexivity. Defined.

Definition demo_clientset : Clientset := {| k8sV1alpha1 := {| restClient := 0 |}; DiscoveryClient := 1 |}.
Definition demo_pn : ProviderNetwork :=
  mkProviderNetwork (mkMeta "pn1" "default" ["nfnCleanUpProviderNetwork"] None ∅)
    (pn_Spec (demo_vlan_pn "any" "")) (Build_ProviderNetworkStatus "").
Definition demo_store : Store := {[("providernetworks", "default", "pn1") := pn_object demo_pn]}.
Definition store_notify : NotifyWorld Store := clientset_notify demo_clientset store_send store_nodes.
Definition store_state (st : Store) : St Store := mkSt serving_globals st.


Lemma SendNotif_states_witness :
  let m := @SendNotif Store store_exec store_notify demo_pn "create" "" in
  (let '(_, s', _) := m (store_state demo_store) in
   forall k o', env s' !! k = Some o' -> exists o, demo_store !! k = Some o /\
     (o_state o' = o_state o \/ true = false /\ o_state o' = Created)) /\
  length (sends (m (store_state demo_store)).2) = 1%nat.
Proof.
  split; [|vm_compute; reflexivity].
  exact (@SendNotif_states Store store_exec store_rest store_server demo_clientset store_send store_nodes
    store_apart demo_pn "create" "" (store_state demo_store)).
Defined.

(** Two nodes subscribe one after the other: a network for any one node is
    announced to a node at each subscription, and so can end on both. *)
Definition subscribe_store (node : string) (ss : nat) (s : St Store) : St Store * list Event :=
  let '(_, s', es) := @Subscribe Store store_exec store_notify (Build_SubscribeContext node) ss s in (s', es).

Lemma any_network_sent_twice :
  let '(s1, es1) := subscribe_store "node1" 1 (store_state demo_store) in
  let '(_, es2) := subscribe_store "node2" 2 s1 in
  filter (fun m => m.2 = createVlanMsg demo_pn) (sends es1) = [(1%nat, createVlanMsg demo_pn)] /\
  length (filter (fun m => m.2 = createVlanMsg demo_pn) (sends es2)) = 1%nat.
Proof. vm_compute. split; reflexivity. Qed.

(** A network for any one node that is reconciled while no node is subscribed:
    nothing is sent and no error reported, so the controller writes [Created],
    and the nodes that subscribe later are not told. *)
Definition nobody : Globals := set_notifServer (Some ∅) serving_globals.
Definition recorded : Store := {[("providernetworks", "default", "pn1") := pn_object (pn_set_state Created demo_pn)]}.

Lemma any_network_never_sent :
  let '(r, _, es) := @SendNotif Store store_exec store_notify demo_pn "create" "" (mkSt nobody demo_store) in
  r = Val None /\ sends es = [] /\
  sends (subscribe_store "node1" 1 (mkSt nobody recorded)).2 = [(1%nat, inSyncMsg "10.1.0.5/16" "0a:00:00:00:00:01")].
Proof. vm_compute. split; [reflexivity|split; reflexivity]. Qed.
