(* ===== verification/Fakes.v ===== *)
(** * Fakes: the generated fake clients (pkg/generated/clientset/versioned/fake)

    A fake client turns each call into an action and invokes it on a [testing.Fake]
    of client-go, which a clientset points at an object tracker: the three fake
    clients (typed/k8s/v1alpha1/fake/fake_network.go, fake_networkchaining.go,
    fake_providernetwork.go), the fake of the group (fake_k8s_client.go) and
    the clientset (fake/clientset_generated.go).

    [TrackerLaws] is what client-go's documentation says of a fake over a tracker,
    which keeps objects as they are given.  The fakes then meet [fake_contract],
    and do what the API server does ([serve]) except where a status subresource,
    a finalizer or a deletion time is involved. *)

From S2P Require Import Prelude.
From S2P Require Import GoStrings.
From S2P Require Import Types.
From S2P Require Import World.
From S2P Require Import Clients.
From S2P Require Import Notify.
From S2P Require Import ApiServer.

#[local] Open Scope string_scope.
#[local] Open Scope list_scope.

(** ** k8s.io/client-go/testing *)

Record GroupVersionResource := mkGVR { gvr_Group : string; gvr_Version : string; gvr_Resource : string }.
Record GroupVersionKind := mkGVK { gvk_Group : string; gvk_Version : string; gvk_Kind : string }.

(** A [runtime.Object]: one of the types of the group, or another. *)
Variant RuntimeObject :=
| RNetwork (o : Network)
| RNetworkList (l : NetworkList)
| RNetworkChaining (o : NetworkChaining)
| RNetworkChainingList (l : NetworkChainingList)
| RProviderNetwork (o : ProviderNetwork)
| RProviderNetworkList (l : ProviderNetworkList)
| ROther (what : string).

Variant ClientAction :=
| GetAction (r : GroupVersionResource) (ns name : string)
| ListAction (r : GroupVersionResource) (k : GroupVersionKind) (ns : string) (opts : ListOptions)
| WatchAction (r : GroupVersionResource) (ns : string) (opts : ListOptions)
| CreateAction (r : GroupVersionResource) (ns : string) (o : RuntimeObject)
| UpdateAction (r : GroupVersionResource) (ns : string) (o : RuntimeObject)
| UpdateSubresourceAction (r : GroupVersionResource) (sub ns : string) (o : RuntimeObject)
| DeleteAction (r : GroupVersionResource) (ns name : string)
| DeleteCollectionAction (r : GroupVersionResource) (ns : string) (opts : ListOptions)
| PatchSubresourceAction (r : GroupVersionResource) (ns name pt data : string) (subs : list string).

Definition action_resource (a : ClientAction) : GroupVersionResource :=
  match a with
  | GetAction r _ _ | ListAction r _ _ _ | WatchAction r _ _ | CreateAction r _ _ | UpdateAction r _ _
  | UpdateSubresourceAction r _ _ _ | DeleteAction r _ _ | DeleteCollectionAction r _ _
  | PatchSubresourceAction r _ _ _ _ _ => r
  end.
Definition action_ns (a : ClientAction) : string :=
  match a with
  | GetAction _ ns _ | ListAction _ _ ns _ | WatchAction _ ns _ | CreateAction _ ns _ | UpdateAction _ ns _
  | UpdateSubresourceAction _ _ ns _ | DeleteAction _ ns _ | DeleteCollectionAction _ ns _
  | PatchSubresourceAction _ ns _ _ _ _ => ns
  end.

(** A [labels.Selector], by what it matches; [labels.Everything()]. *)
Definition Selector : Type := gmap string string -> bool.
Definition Everything : Selector := fun _ => true.

(** Fakes, trackers and watches are numbers.  [AddReactor] is called with
    [ObjectReaction] of a tracker, and [AddWatchReactor] with a function that
    reads one tracker ([watch_reaction]), so that they take trackers. *)
Class FakeWorld (E : Type) := {
  Invokes : nat -> ClientAction -> RuntimeObject -> E -> (option RuntimeObject * option error) * E;
  InvokesWatch : nat -> ClientAction -> E -> (option nat * option error) * E;
  ExtractFromListOptions : ListOptions -> option Selector;
  NewObjectTracker : E -> nat * E;
  tracker_Add : nat -> RuntimeObject -> E -> option error * E;
  tracker_Watch : nat -> GroupVersionResource -> string -> E -> (nat + error) * E;
  new_Fake : E -> nat * E;                            (* the Fake of &Clientset{} *)
  AddReactor : nat -> string -> string -> nat -> E -> E;
  AddWatchReactor : nat -> string -> nat -> E -> E
}.

Definition the_group : string := "k8s.plugin.opnfv.org".

Section fakes.
Context {E : Type} `{!FakeWorld E}.

(** What a typed call makes of the answer: nil stays nil, and the assertion of
    the type panics ([None]) on another type. *)
Definition asserted {T} (as_ : RuntimeObject -> option T) (obj : option RuntimeObject) (err : option error)
  : option (option T * option error) :=
  match obj with None => Some (None, err) | Some o => x ← as_ o; Some (Some x, err) end.

(** ** typed/k8s/v1alpha1/fake/fake_network.go *)

Record FakeNetworks := { fn_Fake : nat; fn_ns : string }.

Definition networksResource : GroupVersionResource := mkGVR "k8s.plugin.opnfv.org" "v1alpha1" "networks".
Definition networksKind : GroupVersionKind := mkGVK "k8s.plugin.opnfv.org" "v1alpha1" "Network".

Definition is_Network (o : RuntimeObject) : option Network := match o with RNetwork x => Some x | _ => None end.
Definition is_NetworkList (o : RuntimeObject) : option NetworkList := match o with RNetworkList l => Some l | _ => None end.

Definition zero_Network : RuntimeObject := RNetwork (zero INetwork).
Definition zero_NetworkList : RuntimeObject := RNetworkList (zero INetworkList).

Definition FakeNetworks_Get (c : FakeNetworks) (name : string) (options : GetOptions) (e : E)
  : option (option Network * option error) * E :=
  let '((obj, err), e) := Invokes (fn_Fake c) (GetAction networksResource (fn_ns c) name) zero_Network e in
  (asserted is_Network obj err, e).

Definition FakeNetworks_List (c : FakeNetworks) (opts : ListOptions) (e : E)
  : option (option NetworkList * option error) * E :=
  let '((obj, err), e) :=
    Invokes (fn_Fake c) (ListAction networksResource networksKind (fn_ns c) opts) zero_NetworkList e in
  match obj with
  | None => (Some (None, err), e)
  | Some obj =>
      let label := default Everything (ExtractFromListOptions opts) in
      (l ← is_NetworkList obj;
       Some (Some {| nw_ListMeta := nw_ListMeta l;
                     nw_Items := List.filter (fun item => label (Labels (nw_meta item))) (nw_Items l) |}, err), e)
  end.

Definition FakeNetworks_Watch (c : FakeNetworks) (opts : ListOptions) : E -> (option nat * option error) * E :=
  InvokesWatch (fn_Fake c) (WatchAction networksResource (fn_ns c) opts).

Definition FakeNetworks_Create (c : FakeNetworks) (network : Network) (e : E) : option (option Network * option error) * E :=
  let '((obj, err), e) :=
    Invokes (fn_Fake c) (CreateAction networksResource (fn_ns c) (RNetwork network)) zero_Network e in
  (asserted is_Network obj err, e).

Definition FakeNetworks_Update (c : FakeNetworks) (network : Network) (e : E) : option (option Network * option error) * E :=
  let '((obj, err), e) :=
    Invokes (fn_Fake c) (UpdateAction networksResource (fn_ns c) (RNetwork network)) zero_Network e in
  (asserted is_Network obj err, e).

Definition FakeNetworks_UpdateStatus (c : FakeNetworks) (network : Network) (e : E) : option (option Network * option error) * E :=
  let '((obj, err), e) :=
    Invokes (fn_Fake c) (UpdateSubresourceAction networksResource "status" (fn_ns c) (RNetwork network)) zero_Network e in
  (asserted is_Network obj err, e).

Definition FakeNetworks_Delete (c : FakeNetworks) (name : string) (options : DeleteOptions) (e : E) : option error * E :=
  let '((_, err), e) := Invokes (fn_Fake c) (DeleteAction networksResource (fn_ns c) name) zero_Network e in
  (err, e).

Definition FakeNetworks_DeleteCollection (c : FakeNetworks) (options : DeleteOptions) (listOptions : ListOptions) (e : E)
  : option error * E :=
  let action := DeleteCollectionAction networksResource (fn_ns c) listOptions in
  let '((_, err), e) := Invokes (fn_Fake c) action zero_NetworkList e in
  (err, e).

Definition FakeNetworks_Patch (c : FakeNetworks) (name pt data : string) (subresources : list string) (e : E)
  : option (option Network * option error) * E :=
  let '((obj, err), e) :=
    Invokes (fn_Fake c) (PatchSubresourceAction networksResource (fn_ns c) name pt data subresources) zero_Network e in
  (asserted is_Network obj err, e).

(** ** typed/k8s/v1alpha1/fake/fake_networkchaining.go *)

Record FakeNetworkChainings := { fc_Fake : nat; fc_ns : string }.

Definition networkchainingsResource : GroupVersionResource := mkGVR "k8s.plugin.opnfv.org" "v1alpha1" "networkchainings".
Definition networkchainingsKind : GroupVersionKind := mkGVK "k8s.plugin.opnfv.org" "v1alpha1" "NetworkChaining".

Definition is_NetworkChaining (o : RuntimeObject) : option NetworkChaining := match o with RNetworkChaining x => Some x | _ => None end.
Definition is_NetworkChainingList (o : RuntimeObject) : option NetworkChainingList := match o with RNetworkChainingList l => Some l | _ => None end.

Definition zero_NetworkChaining : RuntimeObject := RNetworkChaining (zero INetworkChaining).
Definition zero_NetworkChainingList : RuntimeObject := RNetworkChainingList (zero INetworkChainingList).

Definition FakeNetworkChainings_Get (c : FakeNetworkChainings) (name : string) (options : GetOptions) (e : E)
  : option (option NetworkChaining * option error) * E :=
  let '((obj, err), e) := Invokes (fc_Fake c) (GetAction networkchainingsResource (fc_ns c) name) zero_NetworkChaining e in
  (asserted is_NetworkChaining obj err, e).

Definition FakeNetworkChainings_List (c : FakeNetworkChainings) (opts : ListOptions) (e : E)
  : option (option NetworkChainingList * option error) * E :=
  let '((obj, err), e) :=
    Invokes (fc_Fake c) (ListAction networkchainingsResource networkchainingsKind (fc_ns c) opts) zero_NetworkChainingList e in
  match obj with
  | None => (Some (None, err), e)
  | Some obj =>
      let label := default Everything (ExtractFromListOptions opts) in
      (l ← is_NetworkChainingList obj;
       Some (Some {| nc_ListMeta := nc_ListMeta l;
                     nc_Items := List.filter (fun item => label (Labels (nc_meta item))) (nc_Items l) |}, err), e)
  end.

Definition FakeNetworkChainings_Watch (c : FakeNetworkChainings) (opts : ListOptions) : E -> (option nat * option error) * E :=
  InvokesWatch (fc_Fake c) (WatchAction networkchainingsResource (fc_ns c) opts).

Definition FakeNetworkChainings_Create (c : FakeNetworkChainings) (networkChaining : NetworkChaining) (e : E) : option (option NetworkChaining * option error) * E :=
  let '((obj, err), e) :=
    Invokes (fc_Fake c) (CreateAction networkchainingsResource (fc_ns c) (RNetworkChaining networkChaining)) zero_NetworkChaining e in
  (asserted is_NetworkChaining obj err, e).

Definition FakeNetworkChainings_Update (c : FakeNetworkChainings) (networkChaining : NetworkChaining) (e : E) : option (option NetworkChaining * option error) * E :=
  let '((obj, err), e) :=
    Invokes (fc_Fake c) (UpdateAction networkchainingsResource (fc_ns c) (RNetworkChaining networkChaining)) zero_NetworkChaining e in
  (asserted is_NetworkChaining obj err, e).

Definition FakeNetworkChainings_UpdateStatus (c : FakeNetworkChainings) (networkChaining : NetworkChaining) (e : E) : option (option NetworkChaining * option error) * E :=
  let '((obj, err), e) :=
    Invokes (fc_Fake c) (UpdateSubresourceAction networkchainingsResource "status" (fc_ns c) (RNetworkChaining networkChaining)) zero_NetworkChaining e in
  (asserted is_NetworkChaining obj err, e).

Definition FakeNetworkChainings_Delete (c : FakeNetworkChainings) (name : string) (options : DeleteOptions) (e : E) : option error * E :=
  let '((_, err), e) := Invokes (fc_Fake c) (DeleteAction networkchainingsResource (fc_ns c) name) zero_NetworkChaining e in
  (err, e).

Definition FakeNetworkChainings_DeleteCollection (c : FakeNetworkChainings) (options : DeleteOptions) (listOptions : ListOptions) (e : E)
  : option error * E :=
  let action := DeleteCollectionAction networkchainingsResource (fc_ns c) listOptions in
  let '((_, err), e) := Invokes (fc_Fake c) action zero_NetworkChainingList e in
  (err, e).

Definition FakeNetworkChainings_Patch (c : FakeNetworkChainings) (name pt data : string) (subresources : list string) (e : E)
  : option (option NetworkChaining * option error) * E :=
  let '((obj, err), e) :=
    Invokes (fc_Fake c) (PatchSubresourceAction networkchainingsResource (fc_ns c) name pt data subresources) zero_NetworkChaining e in
  (asserted is_NetworkChaining obj err, e).

(** ** typed/k8s/v1alpha1/fake/fake_providernetwork.go *)

Record FakeProviderNetworks := { fp_Fake : nat; fp_ns : string }.

Definition providernetworksResource : GroupVersionResource := mkGVR "k8s.plugin.opnfv.org" "v1alpha1" "providernetworks".
Definition providernetworksKind : GroupVersionKind := mkGVK "k8s.plugin.opnfv.org" "v1alpha1" "ProviderNetwork".

Definition is_ProviderNetwork (o : RuntimeObject) : option ProviderNetwork := match o with RProviderNetwork x => Some x | _ => None end.
Definition is_ProviderNetworkList (o : RuntimeObject) : option ProviderNetworkList := match o with RProviderNetworkList l => Some l | _ => None end.

Definition zero_ProviderNetwork : RuntimeObject := RProviderNetwork (zero IProviderNetwork).
Definition zero_ProviderNetworkList : RuntimeObject := RProviderNetworkList (zero IProviderNetworkList).

Definition FakeProviderNetworks_Get (c : FakeProviderNetworks) (name : string) (options : GetOptions) (e : E)
  : option (option ProviderNetwork * option error) * E :=
  let '((obj, err), e) := Invokes (fp_Fake c) (GetAction providernetworksResource (fp_ns c) name) zero_ProviderNetwork e in
  (asserted is_ProviderNetwork obj err, e).

Definition FakeProviderNetworks_List (c : FakeProviderNetworks) (opts : ListOptions) (e : E)
  : option (option ProviderNetworkList * option error) * E :=
  let '((obj, err), e) :=
    Invokes (fp_Fake c) (ListAction providernetworksResource providernetworksKind (fp_ns c) opts) zero_ProviderNetworkList e in
  match obj with
  | None => (Some (None, err), e)
  | Some obj =>
      let label := default Everything (ExtractFromListOptions opts) in
      (l ← is_ProviderNetworkList obj;
       Some (Some {| pn_ListMeta := pn_ListMeta l;
                     pn_Items := List.filter (fun item => label (Labels (pn_meta item))) (pn_Items l) |}, err), e)
  end.

Definition FakeProviderNetworks_Watch (c : FakeProviderNetworks) (opts : ListOptions) : E -> (option nat * option error) * E :=
  InvokesWatch (fp_Fake c) (WatchAction providernetworksResource (fp_ns c) opts).

Definition FakeProviderNetworks_Create (c : FakeProviderNetworks) (providerNetwork : ProviderNetwork) (e : E) : option (option ProviderNetwork * option error) * E :=
  let '((obj, err), e) :=
    Invokes (fp_Fake c) (CreateAction providernetworksResource (fp_ns c) (RProviderNetwork providerNetwork)) zero_ProviderNetwork e in
  (asserted is_ProviderNetwork obj err, e).

Definition FakeProviderNetworks_Update (c : FakeProviderNetworks) (providerNetwork : ProviderNetwork) (e : E) : option (option ProviderNetwork * option error) * E :=
  let '((obj, err), e) :=
    Invokes (fp_Fake c) (UpdateAction providernetworksResource (fp_ns c) (RProviderNetwork providerNetwork)) zero_ProviderNetwork e in
  (asserted is_ProviderNetwork obj err, e).

Definition FakeProviderNetworks_UpdateStatus (c : FakeProviderNetworks) (providerNetwork : ProviderNetwork) (e : E) : option (option ProviderNetwork * option error) * E :=
  let '((obj, err), e) :=
    Invokes (fp_Fake c) (UpdateSubresourceAction providernetworksResource "status" (fp_ns c) (RProviderNetwork providerNetwork)) zero_ProviderNetwork e in
  (asserted is_ProviderNetwork obj err, e).

Definition FakeProviderNetworks_Delete (c : FakeProviderNetworks) (name : string) (options : DeleteOptions) (e : E) : option error * E :=
  let '((_, err), e) := Invokes (fp_Fake c) (DeleteAction providernetworksResource (fp_ns c) name) zero_ProviderNetwork e in
  (err, e).

Definition FakeProviderNetworks_DeleteCollection (c : FakeProviderNetworks) (options : DeleteOptions) (listOptions : ListOptions) (e : E)
  : option error * E :=
  let action := DeleteCollectionAction providernetworksResource (fp_ns c) listOptions in
  let '((_, err), e) := Invokes (fp_Fake c) action zero_ProviderNetworkList e in
  (err, e).

Definition FakeProviderNetworks_Patch (c : FakeProviderNetworks) (name pt data : string) (subresources : list string) (e : E)
  : option (option ProviderNetwork * option error) * E :=
  let '((obj, err), e) :=
    Invokes (fp_Fake c) (PatchSubresourceAction providernetworksResource (fp_ns c) name pt data subresources) zero_ProviderNetwork e in
  (asserted is_ProviderNetwork obj err, e).

(** ** typed/k8s/v1alpha1/fake/fake_k8s_client.go *)

Record FakeK8sV1alpha1 := { v1alpha1_Fake : nat }.

Definition FakeK8sV1alpha1_Networks (c : FakeK8sV1alpha1) (namespace : string) : FakeNetworks :=
  {| fn_Fake := v1alpha1_Fake c; fn_ns := namespace |}.
Definition FakeK8sV1alpha1_NetworkChainings (c : FakeK8sV1alpha1) (namespace : string) : FakeNetworkChainings :=
  {| fc_Fake := v1alpha1_Fake c; fc_ns := namespace |}.
Definition FakeK8sV1alpha1_ProviderNetworks (c : FakeK8sV1alpha1) (namespace : string) : FakeProviderNetworks :=
  {| fp_Fake := v1alpha1_Fake c; fp_ns := namespace |}.
(** A nil pointer, in an interface. *)
Definition FakeK8sV1alpha1_RESTClient (c : FakeK8sV1alpha1) : option nat := None.

(** ** fake/clientset_generated.go *)

(** The embedded Fake, the Fake of the discovery client, the tracker. *)
Record FakeClientset := { cs_Fake : nat; cs_discovery : nat; cs_tracker : nat }.

Fixpoint add_all (o : nat) (objects : list RuntimeObject) (e : E) : bool * E :=
  match objects with
  | [] => (true, e)
  | obj :: objects =>
      let '(err, e) := tracker_Add o obj e in
      match err with Some _ => (false, e) | None => add_all o objects e end
  end.

(** What the clientset does with a watch action: the tracker's watch of the
    resource in the namespace, or not handled. *)
Definition watch_reaction (o : nat) (action : ClientAction) (e : E) : (bool * option nat * option error) * E :=
  let gvr := action_resource action in
  let ns := action_ns action in
  let '(r, e) := tracker_Watch o gvr ns e in
  match r with
  | inr err => ((false, None, Some err), e)
  | inl watch => ((true, Some watch, None), e)
  end.

(** [None]: an object that the tracker refuses panics. *)
Definition NewSimpleClientset (objects : list RuntimeObject) (e : E) : option FakeClientset * E :=
  let '(o, e) := NewObjectTracker e in
  let '(ok, e) := add_all o objects e in
  if ok then
    let '(fake, e) := new_Fake e in
    let cs := {| cs_Fake := fake; cs_discovery := fake; cs_tracker := o |} in
    let e := AddReactor (cs_Fake cs) "*" "*" o e in
    let e := AddWatchReactor (cs_Fake cs) "*" o e in
    (Some cs, e)
  else (None, e).

Definition FakeClientset_Discovery (c : FakeClientset) : nat := cs_discovery c.
Definition FakeClientset_Tracker (c : FakeClientset) : nat := cs_tracker c.
Definition FakeClientset_K8sV1alpha1 (c : FakeClientset) : FakeK8sV1alpha1 := {| v1alpha1_Fake := cs_Fake c |}.
End fakes.

(** ** A fake over a tracker *)

Definition fake_object (o : RuntimeObject) : option Object :=
  match o with
  | RNetwork o => Some (network_object o)
  | RNetworkChaining o => Some (chain_object o)
  | RProviderNetwork o => Some (pn_object o)
  | _ => None
  end.

Definition list_objects (kind : string) (o : RuntimeObject) : option (list Object) :=
  match o with
  | RNetworkList l => if kind == "Network" then Some (map network_object (nw_Items l)) else None
  | RNetworkChainingList l => if kind == "NetworkChaining" then Some (map chain_object (nc_Items l)) else None
  | RProviderNetworkList l => if kind == "ProviderNetwork" then Some (map pn_object (pn_Items l)) else None
  | _ => None
  end.

Definition kind_of (s : Spec) : string :=
  match s with SNetwork _ => "Network" | SNetworkChaining _ => "NetworkChaining" | SProviderNetwork _ => "ProviderNetwork" end.

Definition known_kind (k : string) : bool := (k == "Network") || (k == "NetworkChaining") || (k == "ProviderNetwork").

(** An object without a namespace gets that of the action. *)
Definition placed (ns : string) (o : Object) : Object :=
  let m := o_meta o in
  mkObject (mkMeta (Name m) (if Namespace m == "" then ns else Namespace m) (Finalizers m) (DeletionTimestamp m) (Labels m))
    (o_spec o) (o_state o).
Definition in_place (ns : string) (o : Object) : bool :=
  (Namespace (o_meta o) == "") || (Namespace (o_meta o) == ns).

(** What the object tracker does with an action, the objects being keyed as those
    of the API server: a status update replaces the object as an update does. *)
Definition track (a : ClientAction) (st : Store) : option (Answer * Store) :=
  match a with
  | GetAction r ns n => o ← st !! (gvr_Resource r, ns, n); Some (AObject o, st)
  | ListAction r k ns _ =>
      let l := members (gvr_Resource r) ns st in
      if known_kind (gvk_Kind k) && forallb (fun o => kind_of (o_spec o) == gvk_Kind k) l then Some (AList l, st) else None
  | CreateAction r ns o =>
      o ← fake_object o;
      let k := (gvr_Resource r, ns, Name (o_meta o)) in
      if in_place ns o && bool_decide (st !! k = None) then Some (AObject (placed ns o), <[k := placed ns o]> st) else None
  | UpdateAction r ns o | UpdateSubresourceAction r _ ns o =>
      o ← fake_object o;
      let k := (gvr_Resource r, ns, Name (o_meta o)) in
      _ ← st !! k;
      if in_place ns o then Some (AObject (placed ns o), <[k := placed ns o]> st) else None
  | DeleteAction r ns n =>
      let k := (gvr_Resource r, ns, n) in
      _ ← st !! k; Some (ADeleted, delete k st)
  | WatchAction _ _ _ | DeleteCollectionAction _ _ _ | PatchSubresourceAction _ _ _ _ _ _ => None
  end.

Definition tracker_action (a : ClientAction) : bool :=
  match a with WatchAction _ _ _ | DeleteCollectionAction _ _ _ | PatchSubresourceAction _ _ _ _ _ _ => false | _ => true end.

Definition answers (a : ClientAction) (ans : Answer) (obj : option RuntimeObject) : Prop :=
  match ans, a with
  | AObject o, _ => (obj ≫= fake_object) = Some o
  | AList l, ListAction _ k _ _ => exists l', (obj ≫= list_objects (gvk_Kind k)) = Some l' /\ l' ≡ₚ l
  | _, _ => True
  end.

Class TrackerLaws (E : Type) `{!FakeWorld E} := {
  tracked : nat -> E -> Store;           (* what a tracker keeps *)
  reacts : nat -> nat -> E -> Prop;      (* the actions of a fake are handled by a tracker *)
  invokes_law : forall f t a d e, reacts f t e -> tracker_action a = true ->
    let '((obj, err), e') := Invokes f a d e in
    reacts f t e' /\
    match track a (tracked t e) with
    | Some (ans, st') => err = None /\ tracked t e' = st' /\ answers a ans obj
    | None => err <> None /\ tracked t e' = tracked t e /\ obj = None
    end;
  every_law : forall opts, LabelSelector opts = "" ->
    match ExtractFromListOptions opts with Some s => forall m, s m = true | None => True end
}.

(** The objects of a resource are of its kind. *)
Definition kinded (st : Store) : Prop :=
  forall res ns n o, st !! (res, ns, n) = Some o -> resource_of (o_spec o) = res.

(** ** The contract of a fake client *)

Section contract.
Context {E : Type} `{!FakeWorld E, !TrackerLaws E}.

(** A call on objects [st] of the tracker [t]: what it returns and leaves. *)
Definition leaves {R} (f t : nat) (r : R) (e' : E) (st' : Store) (P : R -> Prop) : Prop :=
  reacts f t e' /\ tracked t e' = st' /\ kinded st' /\ P r.

Definition refuses {T} (r : option (option T * option error)) : Prop := exists err, r = Some (None, Some err).
Definition returns {T} (P : T -> Prop) (r : option (option T * option error)) : Prop :=
  exists x, r = Some (Some x, None) /\ P x.

(** The update of an object, whether of its status or not. *)
Definition replaces {T} (f t : nat) (res ns : string) (obj : T -> Object)
    (update : T -> E -> option (option T * option error) * E) : Prop := forall x e, reacts f t e -> kinded (tracked t e) ->
  let '(r, e') := update x e in
  let st := tracked t e in
  let k := (res, ns, Name (o_meta (obj x))) in
  if in_place ns (obj x) && bool_decide (is_Some (st !! k))
  then leaves f t r e' (<[k := placed ns (obj x)]> st) (returns (fun y => obj y = placed ns (obj x)))
  else leaves f t r e' st refuses.

Record fake_contract {T L : Type} (f t : nat) (res ns : string) (obj : T -> Object) (items : L -> list T)
    (get : string -> GetOptions -> E -> option (option T * option error) * E)
    (list_ : ListOptions -> E -> option (option L * option error) * E)
    (create update update_status : T -> E -> option (option T * option error) * E)
    (delete_ : string -> DeleteOptions -> E -> option error * E) : Prop := {
  fk_get name opts e : reacts f t e -> kinded (tracked t e) -> let '(r, e') := get name opts e in
    match tracked t e !! (res, ns, name) with
    | Some o => leaves f t r e' (tracked t e) (returns (fun x => obj x = o))
    | None => leaves f t r e' (tracked t e) refuses
    end;
  fk_list opts e : reacts f t e -> kinded (tracked t e) -> let '(r, e') := list_ opts e in
    let label := default Everything (ExtractFromListOptions opts) in
    leaves f t r e' (tracked t e) (returns (fun l => map obj (items l) ≡ₚ
      List.filter (fun o => label (Labels (o_meta o))) (members res ns (tracked t e))));
  fk_create x e : reacts f t e -> kinded (tracked t e) -> let '(r, e') := create x e in
    let st := tracked t e in
    let k := (res, ns, Name (o_meta (obj x))) in
    if in_place ns (obj x) && bool_decide (st !! k = None)
    then leaves f t r e' (<[k := placed ns (obj x)]> st) (returns (fun y => obj y = placed ns (obj x)))
    else leaves f t r e' st refuses;
  fk_update : replaces f t res ns obj update;
  fk_update_status : replaces f t res ns obj update_status;
  fk_delete name opts e : reacts f t e -> kinded (tracked t e) -> let '(err, e') := delete_ name opts e in
    let k := (res, ns, name) in
    match tracked t e !! k with
    | Some _ => leaves f t err e' (delete k (tracked t e)) (fun err => err = None)
    | None => leaves f t err e' (tracked t e) (fun err => err <> None)
    end
}.

(** *** One lemma for each shape of action *)

Section kind.
Context {T : Type} (res : string) (obj : T -> Object) (wrap : T -> RuntimeObject) (as_ : RuntimeObject -> option T).
Hypotheses (wrap_object : forall x, fake_object (wrap x) = Some (obj x))
  (obj_resource : forall x, resource_of (o_spec (obj x)) = res)
  (as_object : forall ro o, fake_object ro = Some o -> resource_of (o_spec o) = res -> exists x, as_ ro = Some x /\ obj x = o).
Variables (f t : nat) (gvr : GroupVersionResource) (ns : string).
Hypothesis gvr_res : gvr_Resource gvr = res.

Lemma kinded_insert st n o : kinded st -> resource_of (o_spec o) = res -> kinded (<[(res, ns, n) := o]> st).
Proof. intros Hk Ho r' ns' n' o'. rewrite lookup_insert_Some. intros [[[= <- <- <-] <-]|[_ H]]; [done|by eapply Hk]. Qed.

Lemma kinded_delete st k : kinded st -> kinded (delete k st).
Proof. intros Hk r' ns' n' o' [_ H]%lookup_delete_Some. by eapply Hk. Qed.

Lemma asserted_returns a o obj_ :
  answers a (AObject o) obj_ -> resource_of (o_spec o) = res -> returns (fun x => obj x = o) (asserted as_ obj_ None).
Proof.
  cbn. destruct obj_ as [ro|]; [|done]. cbn. intros Hro Hres. destruct (as_object ro o Hro Hres) as (x & Hx & Ho).
  exists x. by rewrite Hx.
Qed.

Lemma asserted_refuses (err : option error) : err <> None -> refuses (asserted as_ None err).
Proof. destruct err as [w|]; [|done]. intros _. by exists w. Qed.

(** The law, for an action that goes through and for one that does not. *)
Lemma invoked {R} a d e ans st' (dec : option RuntimeObject -> option error -> R) (P : R -> Prop) :
  reacts f t e -> tracker_action a = true -> track a (tracked t e) = Some (ans, st') -> kinded st' ->
  (forall ro, answers a ans ro -> P (dec ro None)) ->
  let '((ro, err), e') := Invokes f a d e in leaves f t (dec ro err) e' st' P.
Proof.
  intros Hr Ha Htr Hk HP. pose proof (invokes_law f t a d e Hr Ha) as H.
  destruct (Invokes f a d e) as [[ro err] e']. rewrite Htr in H. destruct H as (Hr' & -> & Hst & Hans).
  split; [done|]. split; [done|]. split; [done|by apply HP].
Qed.

Lemma not_invoked {R} a d e (dec : option RuntimeObject -> option error -> R) (P : R -> Prop) :
  reacts f t e -> tracker_action a = true -> track a (tracked t e) = None -> kinded (tracked t e) ->
  (forall err, err <> None -> P (dec None err)) ->
  let '((ro, err), e') := Invokes f a d e in leaves f t (dec ro err) e' (tracked t e) P.
Proof.
  intros Hr Ha Htr Hk HP. pose proof (invokes_law f t a d e Hr Ha) as H.
  destruct (Invokes f a d e) as [[ro err] e']. rewrite Htr in H. destruct H as (Hr' & Herr & Hst & ->).
  split; [done|]. split; [done|]. split; [done|by apply HP].
Qed.

Lemma fake_get name d e : reacts f t e -> kinded (tracked t e) ->
  let '((ro, err), e') := Invokes f (GetAction gvr ns name) d e in
  match tracked t e !! (res, ns, name) with
  | Some o => leaves f t (asserted as_ ro err) e' (tracked t e) (returns (fun x => obj x = o))
  | None => leaves f t (asserted as_ ro err) e' (tracked t e) refuses
  end.
Proof.
  intros Hr Hk. destruct (tracked t e !! (res, ns, name)) as [o|] eqn:Ho.
  - apply (invoked (GetAction gvr ns name) d e (AObject o)); try done; [cbn; by rewrite gvr_res, Ho|].
    intros ro Ha. eapply asserted_returns; [exact Ha|by eapply Hk].
  - apply (not_invoked (GetAction gvr ns name)); try done; [cbn; by rewrite gvr_res, Ho|].
    apply asserted_refuses.
Qed.

Lemma fake_create x d e : reacts f t e -> kinded (tracked t e) ->
  let '((ro, err), e') := Invokes f (CreateAction gvr ns (wrap x)) d e in
  let k := (res, ns, Name (o_meta (obj x))) in
  if in_place ns (obj x) && bool_decide (tracked t e !! k = None)
  then leaves f t (asserted as_ ro err) e' (<[k := placed ns (obj x)]> (tracked t e)) (returns (fun y => obj y = placed ns (obj x)))
  else leaves f t (asserted as_ ro err) e' (tracked t e) refuses.
Proof.
  intros Hr Hk. cbv zeta. set (k := (res, ns, Name (o_meta (obj x)))).
  assert (Htr : track (CreateAction gvr ns (wrap x)) (tracked t e) =
    if in_place ns (obj x) && bool_decide (tracked t e !! k = None)
    then Some (AObject (placed ns (obj x)), <[k := placed ns (obj x)]> (tracked t e)) else None).
  { cbn. by rewrite wrap_object, gvr_res. }
  destruct (in_place ns (obj x) && _).
  - eapply invoked; try done; [apply kinded_insert; [done|apply obj_resource]|]. intros ro Ha. eapply asserted_returns; [exact Ha|apply obj_resource].
  - apply not_invoked; try done. apply asserted_refuses.
Qed.

Lemma fake_replace a x d e : reacts f t e -> kinded (tracked t e) ->
  a = UpdateAction gvr ns (wrap x) \/ a = UpdateSubresourceAction gvr "status" ns (wrap x) ->
  let '((ro, err), e') := Invokes f a d e in
  let k := (res, ns, Name (o_meta (obj x))) in
  if in_place ns (obj x) && bool_decide (is_Some (tracked t e !! k))
  then leaves f t (asserted as_ ro err) e' (<[k := placed ns (obj x)]> (tracked t e)) (returns (fun y => obj y = placed ns (obj x)))
  else leaves f t (asserted as_ ro err) e' (tracked t e) refuses.
Proof.
  intros Hr Hk Ha. cbv zeta. set (k := (res, ns, Name (o_meta (obj x)))).
  assert (Htr : tracker_action a = true /\ track a (tracked t e) =
    if in_place ns (obj x) && bool_decide (is_Some (tracked t e !! k))
    then Some (AObject (placed ns (obj x)), <[k := placed ns (obj x)]> (tracked t e)) else None).
  { destruct Ha as [-> | ->]; (split; [done|]); cbn; rewrite wrap_object, gvr_res; cbn; fold k;
      destruct (tracked t e !! k); cbn; by rewrite ?andb_true_r, ?andb_false_r. }
  destruct Htr as [Hta Htr]. destruct (in_place ns (obj x) && _).
  - eapply invoked; try done; [apply kinded_insert; [done|apply obj_resource]|]. intros ro Hans. eapply asserted_returns; [exact Hans|apply obj_resource].
  - apply not_invoked; try done. apply asserted_refuses.
Qed.

Lemma fake_delete name d e : reacts f t e -> kinded (tracked t e) ->
  let '((_, err), e') := Invokes f (DeleteAction gvr ns name) d e in
  let k := (res, ns, name) in
  match tracked t e !! k with
  | Some _ => leaves f t err e' (delete k (tracked t e)) (fun err => err = None)
  | None => leaves f t err e' (tracked t e) (fun err => err <> None)
  end.
Proof.
  intros Hr Hk. cbv zeta. destruct (tracked t e !! (res, ns, name)) as [o|] eqn:Ho.
  - apply (invoked (DeleteAction gvr ns name) d e ADeleted _ (fun _ err => err)); try done;
      [cbn; by rewrite gvr_res, Ho|by apply kinded_delete].
  - apply (not_invoked (DeleteAction gvr ns name) d e (fun _ err => err)); try done.
    cbn. by rewrite gvr_res, Ho.
Qed.

Lemma members_kinded st o : kinded st -> In o (members res ns st) -> resource_of (o_spec o) = res.
Proof.
  intros Hk Hin. apply list_elem_of_In, list_elem_of_omap in Hin as ([[[r n1] n2] o'] & Hin & Ho).
  apply elem_of_map_to_list in Hin. apply Hk in Hin. case_bool_decide as Hr; [|done]. cbn in Ho.
  destruct (_ || _); [|done]. by injection Ho as <-; subst.
Qed.

Lemma filter_map_obj {B} (p : Object -> bool) (g : B -> Object) (l : list B) :
  map g (List.filter (fun x => p (g x)) l) = List.filter p (map g l).
Proof. induction l as [|x l IH]; [done|]. cbn. destruct (p (g x)); cbn; by rewrite IH. Qed.

Lemma filter_perm {B} (p : B -> bool) (l l' : list B) : l ≡ₚ l' -> List.filter p l ≡ₚ List.filter p l'.
Proof.
  induction 1 as [|x l l' _ IH|x y l|l1 l2 l3 _ IH1 _ IH2]; cbn; [done| | |by etrans].
  - by destruct (p x); rewrite IH.
  - destruct (p x), (p y); try done. apply Permutation_swap.
Qed.

Section list.
Context {L : Type} (gvk : GroupVersionKind) (items : L -> list T) (is_list : RuntimeObject -> option L).
Hypotheses (kind_known : known_kind (gvk_Kind gvk) = true) (kind_res : forall s, resource_of s = res -> kind_of s = gvk_Kind gvk)
  (is_list_objects : forall ro l, list_objects (gvk_Kind gvk) ro = Some l -> exists x, is_list ro = Some x /\ map obj (items x) = l).
Variables (label : Selector) (mk : L -> L).
Hypothesis mk_items : forall l, items (mk l) = List.filter (fun i => label (Labels (o_meta (obj i)))) (items l).

Lemma fake_list opts d e : reacts f t e -> kinded (tracked t e) ->
  let '((ro, err), e') := Invokes f (ListAction gvr gvk ns opts) d e in
  leaves f t (match ro with None => Some (None, err) | Some ro => l ← is_list ro; Some (Some (mk l), err) end) e'
    (tracked t e) (returns (fun l => map obj (items l) ≡ₚ
      List.filter (fun o => label (Labels (o_meta o))) (members res ns (tracked t e)))).
Proof.
  intros Hr Hk. eapply (invoked (ListAction gvr gvk ns opts) d e (AList (members res ns (tracked t e))) (tracked t e)
    (fun ro err => match ro with None => Some (None, err) | Some ro => l ← is_list ro; Some (Some (mk l), err) end));
    try done.
  - cbn. rewrite gvr_res, kind_known. rewrite (proj2 (forallb_forall _ _)); [done|]. intros o Hin.
    apply bool_decide_eq_true, kind_res. by eapply members_kinded.
  - intros [ro|] (l & Hl & Hp); [|done]. cbn in Hl. destruct (is_list_objects ro l Hl) as (x & Hx & Hi).
    exists (mk x). rewrite Hx. split; [done|]. rewrite mk_items.
    rewrite (filter_map_obj (fun o => label (Labels (o_meta o)))), Hi. by apply filter_perm.
Qed.
End list.
End kind.

Lemma as_network_object ro o :
  fake_object ro = Some o -> resource_of (o_spec o) = "networks" -> exists x, is_Network ro = Some x /\ network_object x = o.
Proof. destruct ro; try done; intros [= <-]; try done. intros _. by eexists. Qed.
Lemma as_chain_object ro o :
  fake_object ro = Some o -> resource_of (o_spec o) = "networkchainings" ->
  exists x, is_NetworkChaining ro = Some x /\ chain_object x = o.
Proof. destruct ro; try done; intros [= <-]; try done. intros _. by eexists. Qed.
Lemma as_pn_object ro o :
  fake_object ro = Some o -> resource_of (o_spec o) = "providernetworks" ->
  exists x, is_ProviderNetwork ro = Some x /\ pn_object x = o.
Proof. destruct ro; try done; intros [= <-]; try done. intros _. by eexists. Qed.

Lemma as_network_list ro l :
  list_objects "Network" ro = Some l -> exists x, is_NetworkList ro = Some x /\ map network_object (nw_Items x) = l.
Proof. destruct ro; try done; cbn; intros [= <-]. by eexists. Qed.
Lemma as_chain_list ro l :
  list_objects "NetworkChaining" ro = Some l ->
  exists x, is_NetworkChainingList ro = Some x /\ map chain_object (nc_Items x) = l.
Proof. destruct ro; try done; cbn; intros [= <-]. by eexists. Qed.
Lemma as_pn_list ro l :
  list_objects "ProviderNetwork" ro = Some l ->
  exists x, is_ProviderNetworkList ro = Some x /\ map pn_object (pn_Items x) = l.
Proof. destruct ro; try done; cbn; intros [= <-]. by eexists. Qed.

(** The operations of one fake client, each by its lemma. *)
Ltac answer H :=
  cbn; revert H; match goal with |- context [Invokes ?f ?a ?d ?e] => destruct (Invokes f a d e) as [[?ro ?err] ?e'] end;
  intros H; exact H.
Ltac by_get res obj as_ as_object gvr ns zero :=
  let H := fresh in intros name opts e Hr Hk;
  pose proof (fake_get res obj as_ as_object _ _ gvr ns eq_refl name zero e Hr Hk) as H; answer H.
Ltac by_create res obj wrap as_ as_object gvr ns zero :=
  let H := fresh in intros x e Hr Hk;
  pose proof (fake_create res obj wrap as_ (fun _ => eq_refl) (fun _ => eq_refl) as_object _ _ gvr ns eq_refl x zero e Hr Hk) as H;
  answer H.
Ltac by_replace res obj wrap as_ as_object gvr ns zero mk :=
  let H := fresh in intros x e Hr Hk;
  pose proof (fake_replace res obj wrap as_ (fun _ => eq_refl) (fun _ => eq_refl) as_object _ _ gvr ns eq_refl (mk (wrap x)) x zero e Hr Hk
    ltac:(auto)) as H; answer H.
Ltac by_delete res gvr ns zero :=
  let H := fresh in intros name opts e Hr Hk;
  pose proof (fake_delete res _ _ gvr ns eq_refl name zero e Hr Hk) as H; answer H.
Ltac by_list res obj as_ as_object gvr ns gvk items is_list as_list mk zero :=
  let H := fresh in intros opts e Hr Hk;
  pose proof (fake_list res obj as_ (fun _ => eq_refl) as_object _ _ gvr ns eq_refl gvk items is_list
    eq_refl ltac:(by intros []) as_list (default Everything (ExtractFromListOptions opts))
    (mk (default Everything (ExtractFromListOptions opts))) (fun _ => eq_refl) opts zero e Hr Hk) as H;
  cbn; revert H; match goal with |- context [Invokes ?f ?a ?d ?e] => destruct (Invokes f a d e) as [[[?ro|] ?err] ?e'] end;
  intros H; exact H.

Lemma FakeNetworks_contract (c : FakeK8sV1alpha1) ns t :
  let n := FakeK8sV1alpha1_Networks c ns in
  fake_contract (v1alpha1_Fake c) t "networks" ns network_object nw_Items (FakeNetworks_Get n) (FakeNetworks_List n)
    (FakeNetworks_Create n) (FakeNetworks_Update n) (FakeNetworks_UpdateStatus n) (FakeNetworks_Delete n).
Proof.
  cbv zeta. constructor.
  - unfold FakeNetworks_Get. by_get "networks" network_object is_Network as_network_object networksResource ns zero_Network.
  - unfold FakeNetworks_List. by_list "networks" network_object is_Network as_network_object networksResource ns networksKind nw_Items
      is_NetworkList as_network_list (fun (s : Selector) l => {| nw_ListMeta := nw_ListMeta l;
        nw_Items := List.filter (fun i => s (Labels (nw_meta i))) (nw_Items l) |}) zero_NetworkList.
  - unfold FakeNetworks_Create. by_create "networks" network_object RNetwork is_Network as_network_object networksResource ns zero_Network.
  - unfold FakeNetworks_Update.
    by_replace "networks" network_object RNetwork is_Network as_network_object networksResource ns zero_Network (UpdateAction networksResource ns).
  - unfold FakeNetworks_UpdateStatus.
    by_replace "networks" network_object RNetwork is_Network as_network_object networksResource ns zero_Network
      (UpdateSubresourceAction networksResource "status" ns).
  - unfold FakeNetworks_Delete. by_delete "networks" networksResource ns zero_Network.
Qed.

Lemma FakeNetworkChainings_contract (c : FakeK8sV1alpha1) ns t :
  let n := FakeK8sV1alpha1_NetworkChainings c ns in
  fake_contract (v1alpha1_Fake c) t "networkchainings" ns chain_object nc_Items (FakeNetworkChainings_Get n) (FakeNetworkChainings_List n)
    (FakeNetworkChainings_Create n) (FakeNetworkChainings_Update n) (FakeNetworkChainings_UpdateStatus n) (FakeNetworkChainings_Delete n).
Proof.
  cbv zeta. constructor.
  - unfold FakeNetworkChainings_Get. by_get "networkchainings" chain_object is_NetworkChaining as_chain_object networkchainingsResource ns zero_NetworkChaining.
  - unfold FakeNetworkChainings_List. by_list "networkchainings" chain_object is_NetworkChaining as_chain_object networkchainingsResource ns networkchainingsKind nc_Items
      is_NetworkChainingList as_chain_list (fun (s : Selector) l => {| nc_ListMeta := nc_ListMeta l;
        nc_Items := List.filter (fun i => s (Labels (nc_meta i))) (nc_Items l) |}) zero_NetworkChainingList.
  - unfold FakeNetworkChainings_Create. by_create "networkchainings" chain_object RNetworkChaining is_NetworkChaining as_chain_object networkchainingsResource ns zero_NetworkChaining.
  - unfold FakeNetworkChainings_Update.
    by_replace "networkchainings" chain_object RNetworkChaining is_NetworkChaining as_chain_object networkchainingsResource ns zero_NetworkChaining (UpdateAction networkchainingsResource ns).
  - unfold FakeNetworkChainings_UpdateStatus.
    by_replace "networkchainings" chain_object RNetworkChaining is_NetworkChaining as_chain_object networkchainingsResource ns zero_NetworkChaining
      (UpdateSubresourceAction networkchainingsResource "status" ns).
  - unfold FakeNetworkChainings_Delete. by_delete "networkchainings" networkchainingsResource ns zero_NetworkChaining.
Qed.

Lemma FakeProviderNetworks_contract (c : FakeK8sV1alpha1) ns t :
  let n := FakeK8sV1alpha1_ProviderNetworks c ns in
  fake_contract (v1alpha1_Fake c) t "providernetworks" ns pn_object pn_Items (FakeProviderNetworks_Get n) (FakeProviderNetworks_List n)
    (FakeProviderNetworks_Create n) (FakeProviderNetworks_Update n) (FakeProviderNetworks_UpdateStatus n) (FakeProviderNetworks_Delete n).
Proof.
  cbv zeta. constructor.
  - unfold FakeProviderNetworks_Get. by_get "providernetworks" pn_object is_ProviderNetwork as_pn_object providernetworksResource ns zero_ProviderNetwork.
  - unfold FakeProviderNetworks_List. by_list "providernetworks" pn_object is_ProviderNetwork as_pn_object providernetworksResource ns providernetworksKind pn_Items
      is_ProviderNetworkList as_pn_list (fun (s : Selector) l => {| pn_ListMeta := pn_ListMeta l;
        pn_Items := List.filter (fun i => s (Labels (pn_meta i))) (pn_Items l) |}) zero_ProviderNetworkList.
  - unfold FakeProviderNetworks_Create. by_create "providernetworks" pn_object RProviderNetwork is_ProviderNetwork as_pn_object providernetworksResource ns zero_ProviderNetwork.
  - unfold FakeProviderNetworks_Update.
    by_replace "providernetworks" pn_object RProviderNetwork is_ProviderNetwork as_pn_object providernetworksResource ns zero_ProviderNetwork (UpdateAction providernetworksResource ns).
  - unfold FakeProviderNetworks_UpdateStatus.
    by_replace "providernetworks" pn_object RProviderNetwork is_ProviderNetwork as_pn_object providernetworksResource ns zero_ProviderNetwork
      (UpdateSubresourceAction providernetworksResource "status" ns).
  - unfold FakeProviderNetworks_Delete. by_delete "providernetworks" providernetworksResource ns zero_ProviderNetwork.
Qed.

End contract.

(** ** A fake for the API server *)

Section standing_in.
Context {E1 : Type} `{!RestWorld E1, !RestServer E1} {E2 : Type} `{!FakeWorld E2, !TrackerLaws E2}.

(** The tracker keeps the objects of the server. *)
Definition same_objects (f t : nat) (e1 : E1) (e2 : E2) : Prop :=
  reacts f t e2 /\ kinded (tracked t e2) /\ objects e1 = tracked t e2.

(** A call that the server carries out for the typed client does the same on the
    fake client, where the two need not differ: an object is created alive, and
    without a state under the status subresource; an update leaves the state
    alone there, and the deletion time; a status update changes nothing else;
    what is deleted has no finalizers. *)
Record stands_in {T L : Type} (f t : nat) (res ns : string) (obj : T -> Object) (items : L -> list T)
    (get : string -> GetOptions -> E1 -> (T * option error) * E1)
    (list_ : ListOptions -> E1 -> (L * option error) * E1)
    (create update update_status : T -> E1 -> (T * option error) * E1)
    (delete_ : string -> DeleteOptions -> E1 -> option error * E1)
    (fget : string -> GetOptions -> E2 -> option (option T * option error) * E2)
    (flist : ListOptions -> E2 -> option (option L * option error) * E2)
    (fcreate fupdate fupdate_status : T -> E2 -> option (option T * option error) * E2)
    (fdelete : string -> DeleteOptions -> E2 -> option error * E2) : Prop := {
  si_get name opts e1 e2 : same_objects f t e1 e2 ->
    let '((x, err), e1') := get name opts e1 in let '(r, e2') := fget name opts e2 in
    err = None -> same_objects f t e1' e2' /\ returns (fun y => obj y = obj x) r;
  si_list opts e1 e2 : same_objects f t e1 e2 -> plain_list opts = true ->
    let '((l, err), e1') := list_ opts e1 in let '(r, e2') := flist opts e2 in
    err = None -> same_objects f t e1' e2' /\ returns (fun l' => map obj (items l') ≡ₚ map obj (items l)) r;
  si_create x e1 e2 : same_objects f t e1 e2 -> in_place ns (obj x) = true -> DeletionTimestamp (o_meta (obj x)) = None ->
    (status_subresource = true -> o_state (obj x) = "") ->
    let '((y, err), e1') := create x e1 in let '(r, e2') := fcreate x e2 in
    err = None -> same_objects f t e1' e2' /\ returns (fun z => obj z = obj y) r;
  si_update x cur e1 e2 : same_objects f t e1 e2 -> in_place ns (obj x) = true ->
    tracked t e2 !! (res, ns, Name (o_meta (obj x))) = Some cur ->
    Name (o_meta cur) = Name (o_meta (obj x)) -> Namespace (o_meta cur) = ns ->
    DeletionTimestamp (o_meta (obj x)) = None -> DeletionTimestamp (o_meta cur) = None ->
    (status_subresource = true -> o_state (obj x) = o_state cur) ->
    let '((y, err), e1') := update x e1 in let '(r, e2') := fupdate x e2 in
    err = None -> same_objects f t e1' e2' /\ returns (fun z => obj z = obj y) r;
  si_update_status x cur e1 e2 : same_objects f t e1 e2 -> in_place ns (obj x) = true ->
    tracked t e2 !! (res, ns, Name (o_meta (obj x))) = Some cur ->
    o_meta (placed ns (obj x)) = o_meta cur -> o_spec (obj x) = o_spec cur ->
    let '((y, err), e1') := update_status x e1 in let '(r, e2') := fupdate_status x e2 in
    err = None -> same_objects f t e1' e2' /\ returns (fun z => obj z = obj y) r;
  si_delete name opts cur e1 e2 : same_objects f t e1 e2 ->
    tracked t e2 !! (res, ns, name) = Some cur -> Finalizers (o_meta cur) = [] ->
    let '(err, e1') := delete_ name opts e1 in let '(ferr, e2') := fdelete name opts e2 in
    err = None -> same_objects f t e1' e2' /\ ferr = None
}.

Lemma placed_created sub ns o :
  in_place ns o = true -> DeletionTimestamp (o_meta o) = None -> (sub = true -> o_state o = "") -> placed ns o = created sub ns o.
Proof.
  destruct o as [[n nm fs dt ls] sp st]. unfold in_place, placed, created. cbn. intros Hp -> Hs.
  assert (Hns : (if nm == "" then ns else nm) = ns).
  { case_bool_decide; [done|]. cbn in Hp. by apply bool_decide_eq_true in Hp. }
  rewrite Hns. destruct sub; [by rewrite Hs|done].
Qed.

Lemma placed_updated sub ns o cur :
  in_place ns o = true -> Name (o_meta cur) = Name (o_meta o) -> Namespace (o_meta cur) = ns ->
  DeletionTimestamp (o_meta o) = None -> DeletionTimestamp (o_meta cur) = None ->
  (sub = true -> o_state o = o_state cur) -> placed ns o = updated sub cur o.
Proof.
  destruct o as [[n nm fs dt ls] sp st], cur as [[n' nm' fs' dt' ls'] sp' st']. unfold in_place, placed, updated. cbn.
  intros Hp -> -> -> -> Hs. f_equal; [|destruct sub; [by rewrite Hs|done]]. f_equal.
  case_bool_decide; [done|]. cbn in Hp. by apply bool_decide_eq_true in Hp.
Qed.

Lemma put_alive k o st : DeletionTimestamp (o_meta o) = None -> put k o st = <[k := o]> st.
Proof. intros H. unfold put. by rewrite H. Qed.

Lemma put_dying now k cur st : now <> 0%Z -> Finalizers (o_meta cur) = [] -> put k (dying now cur) st = delete k st.
Proof.
  intros Hn Hf. unfold put, dying. cbn. rewrite Hf, (bool_decide_eq_true_2 _ eq_refl), andb_true_r.
  destruct (IsZero (DeletionTimestamp (o_meta cur))) eqn:Hz; [|by rewrite Hz]. cbn. by rewrite bool_decide_eq_false_2.
Qed.

Lemma same_answer {R} f t (r : R) e1 e2 st (P : R -> Prop) :
  leaves f t r e2 st P -> objects e1 = st -> same_objects f t e1 e2 /\ P r.
Proof. intros (Hr & Hst & Hk & HP) Ho. split; [|done]. split; [done|]. rewrite Hst. by split. Qed.

Lemma every_label opts (l : list Object) :
  plain_list opts = true ->
  List.filter (fun o => default Everything (ExtractFromListOptions opts) (Labels (o_meta o))) l = l.
Proof.
  intros [[Hl%bool_decide_eq_true _]%andb_true_iff _]%andb_true_iff. pose proof (every_law opts Hl) as H.
  destruct (ExtractFromListOptions opts) as [s|]; cbn; induction l as [|o l IH]; try done; cbn; by rewrite ?H, IH.
Qed.

(** Any two clients that meet their contracts. *)
Lemma contracts_stand_in {T L} f t res ns (obj : T -> Object) (items : L -> list T) get list_ create update update_status
    delete_ fget flist fcreate fupdate fupdate_status fdelete :
  typed_contract res ns obj items get list_ create update update_status delete_ ->
  fake_contract f t res ns obj items fget flist fcreate fupdate fupdate_status fdelete ->
  stands_in f t res ns obj items get list_ create update update_status delete_
    fget flist fcreate fupdate fupdate_status fdelete.
Proof.
  intros Ht Hf. constructor.
  - intros name opts e1 e2 (Hr & Hk & Hs). pose proof (tc_get _ _ _ _ _ _ _ _ _ _ Ht name opts e1) as H1.
    pose proof (fk_get _ _ _ _ _ _ _ _ _ _ _ _ Hf name opts e2 Hr Hk) as H2.
    destruct (get name opts e1) as [[x err] e1']. destruct (fget name opts e2) as [r e2'].
    intros ->. destruct H1 as [Ho Hx]. specialize (Hx eq_refl). rewrite Hs in Hx. rewrite Hx in H2.
    eapply same_answer; [exact H2|congruence].
  - intros opts e1 e2 (Hr & Hk & Hs) Hp. pose proof (tc_list _ _ _ _ _ _ _ _ _ _ Ht opts e1 Hp) as H1.
    pose proof (fk_list _ _ _ _ _ _ _ _ _ _ _ _ Hf opts e2 Hr Hk) as H2.
    destruct (list_ opts e1) as [[l err] e1']. destruct (flist opts e2) as [r e2']. cbv zeta in H2.
    intros ->. destruct H1 as [Ho Hl]. specialize (Hl eq_refl). rewrite Hs in Hl. rewrite every_label in H2 by done.
    destruct (same_answer f t r e1' e2' _ _ H2 ltac:(congruence)) as [Hsame (l' & Hr' & Hl')]. split; [done|].
    exists l'. split; [done|]. by rewrite Hl', Hl.
  - intros x e1 e2 (Hr & Hk & Hs) Hin Hd Hst. pose proof (tc_create _ _ _ _ _ _ _ _ _ _ Ht x e1) as H1.
    pose proof (fk_create _ _ _ _ _ _ _ _ _ _ _ _ Hf x e2 Hr Hk) as H2.
    destruct (create x e1) as [[y err] e1']. destruct (fcreate x e2) as [r e2']. cbv zeta in H1, H2.
    intros ->. rewrite Hs, Hin in *. destruct (tracked t e2 !! _) eqn:Hfree; [by destruct H1|].
    destruct H1 as [Ho Hy]. rewrite Hy by done. rewrite <- (placed_created status_subresource ns (obj x)) in * by done.
    eapply same_answer; [exact H2|exact Ho].
  - intros x cur e1 e2 (Hr & Hk & Hs) Hin Hcur Hn Hns Hd Hdc Hst. pose proof (tc_update _ _ _ _ _ _ _ _ _ _ Ht x e1) as H1.
    pose proof (fk_update _ _ _ _ _ _ _ _ _ _ _ _ Hf x e2 Hr Hk) as H2.
    destruct (update x e1) as [[y err] e1']. destruct (fupdate x e2) as [r e2']. cbv zeta in H1, H2.
    intros ->. rewrite Hs, Hcur in H1. rewrite Hin, Hcur in H2. destruct H1 as [Ho Hy]. rewrite Hy by done.
    rewrite <- (placed_updated status_subresource ns (obj x) cur) in * by done.
    rewrite put_alive in Ho by done. eapply same_answer; [exact H2|exact Ho].
  - intros x cur e1 e2 (Hr & Hk & Hs) Hin Hcur Hm Hsp. pose proof (tc_update_status _ _ _ _ _ _ _ _ _ _ Ht x e1) as H1.
    pose proof (fk_update_status _ _ _ _ _ _ _ _ _ _ _ _ Hf x e2 Hr Hk) as H2.
    destruct (update_status x e1) as [[y err] e1']. destruct (fupdate_status x e2) as [r e2']. cbv zeta in H1, H2.
    intros ->. rewrite Hs, Hcur in H1. rewrite Hin, Hcur in H2. destruct H1 as [Ho Hy]. rewrite Hy by done.
    assert (Heq : with_status cur (obj x) = placed ns (obj x)) by (unfold with_status, placed; by rewrite <- Hm, <- Hsp).
    rewrite Heq in *. eapply same_answer; [exact H2|exact Ho].
  - intros name opts cur e1 e2 (Hr & Hk & Hs) Hcur Hfin. pose proof (tc_delete _ _ _ _ _ _ _ _ _ _ Ht name opts e1) as H1.
    pose proof (fk_delete _ _ _ _ _ _ _ _ _ _ _ _ Hf name opts e2 Hr Hk) as H2.
    destruct (delete_ name opts e1) as [err e1']. destruct (fdelete name opts e2) as [ferr e2']. cbv zeta in H1, H2.
    intros ->. rewrite Hs, Hcur in H1. rewrite Hcur in H2. destruct H1 as (now & Hnow & Ho).
    rewrite put_dying in Ho by done. eapply same_answer; [exact H2|exact Ho].
Qed.

(** ** Properties *)

End standing_in.

(** ** One tracker that is all that there is *)

Definition runtime (o : Object) : RuntimeObject :=
  match o_spec o with
  | SNetwork sp => RNetwork (mkNetwork (o_meta o) sp (Build_NetworkStatus (o_state o)))
  | SNetworkChaining sp => RNetworkChaining (mkNetworkChaining (o_meta o) sp (Build_NetworkChainingStatus (o_state o)))
  | SProviderNetwork sp => RProviderNetwork (mkProviderNetwork (o_meta o) sp (Build_ProviderNetworkStatus (o_state o)))
  end.

Definition runtime_list (kind : string) (l : list Object) : RuntimeObject :=
  if kind == "Network" then RNetworkList {| nw_ListMeta := ""; nw_Items := omap is_Network (map runtime l) |}
  else if kind == "NetworkChaining" then
    RNetworkChainingList {| nc_ListMeta := ""; nc_Items := omap is_NetworkChaining (map runtime l) |}
  else RProviderNetworkList {| pn_ListMeta := ""; pn_Items := omap is_ProviderNetwork (map runtime l) |}.

Definition answer_object (a : ClientAction) (ans : Answer) : option RuntimeObject :=
  match ans, a with
  | AObject o, _ => Some (runtime o)
  | AList l, ListAction _ k _ _ => Some (runtime_list (gvk_Kind k) l)
  | _, _ => None
  end.

#[global] Instance store_fake : FakeWorld Store := {|
  Invokes _ a _ st := match track a st with
    | Some (ans, st') => ((answer_object a ans, None), st')
    | None => ((None, Some not_found), st)
    end;
  InvokesWatch _ _ st := ((None, Some not_found), st);
  ExtractFromListOptions _ := None;
  NewObjectTracker st := (0%nat, ∅);
  tracker_Add _ o st := match fake_object o with
    | Some ob => (None, <[(resource_of (o_spec ob), Namespace (o_meta ob), Name (o_meta ob)) := ob]> st)
    | None => (Some not_found, st)
    end;
  tracker_Watch _ _ _ st := (inr not_found, st);
  new_Fake st := (1%nat, st);
  AddReactor _ _ _ _ st := st;
  AddWatchReactor _ _ _ st := st
|}.

Lemma fake_runtime o : fake_object (runtime o) = Some o.
Proof. by destruct o as [m [sp|sp|sp] st]. Qed.

Lemma omap_runtime {T} (is_ : RuntimeObject -> option T) (obj : T -> Object) kind l :
  (forall o, kind_of (o_spec o) = kind -> exists x, is_ (runtime o) = Some x /\ obj x = o) ->
  forallb (fun o => kind_of (o_spec o) == kind) l = true -> map obj (omap is_ (map runtime l)) = l.
Proof.
  intros His. induction l as [|o l IH]; [done|]. cbn. intros [Ho%bool_decide_eq_true Hl]%andb_true_iff.
  destruct (His o Ho) as (x & -> & Hx). cbn. by rewrite IH, Hx.
Qed.

Lemma runtime_list_objects kind l :
  known_kind kind = true -> forallb (fun o => kind_of (o_spec o) == kind) l = true ->
  list_objects kind (runtime_list kind l) = Some l.
Proof.
  intros [[Hk|Hk]%orb_true_iff|Hk]%orb_true_iff Hl; apply bool_decide_eq_true in Hk as ->; unfold runtime_list;
    repeat first [rewrite bool_decide_eq_true_2 by done | rewrite bool_decide_eq_false_2 by done]; unfold list_objects;
    rewrite bool_decide_eq_true_2 by done; f_equal;
    [apply (omap_runtime is_Network network_object "Network")
    |apply (omap_runtime is_NetworkChaining chain_object "NetworkChaining")
    |apply (omap_runtime is_ProviderNetwork pn_object "ProviderNetwork")]; try exact Hl;
    intros [m' [sp'|sp'|sp'] st'] Ho; try done; by eexists.
Qed.
#[global] Instance store_tracker : TrackerLaws Store.
Proof.
  refine (Build_TrackerLaws Store _ (fun _ st => st) (fun _ _ _ => True) _ (fun _ _ => I)).
  intros f t a d e _ Ha. cbn. destruct (track a e) as [[ans st']|] eqn:Htr; [|done].
  split; [done|]. split; [done|]. split; [done|].
  destruct a as [r ns n|r k ns o| |r ns o|r ns o|r s ns o|r ns n| |]; try done; cbn in Htr;
    try (destruct (e !! _); [|done]; injection Htr as <- <-; cbn; by rewrite ?fake_runtime);
    try (destruct (fake_object o); [|done]; cbn in Htr;
         try (destruct (e !! _); [|done]; cbn in Htr); destruct (in_place ns o0); [|done]; cbn in Htr;
         try (case_bool_decide; [|done]); injection Htr as <- <-; cbn; by rewrite fake_runtime).
  destruct (known_kind _ && forallb _ _) eqn:Hl; [|done]. apply andb_true_iff in Hl as [Hk Hl].
  injection Htr as <- <-. eexists. split; [by apply runtime_list_objects|done].
Defined.

(** A clientset with one provider network. *)
Definition fake_start : option FakeClientset * Store := NewSimpleClientset [RProviderNetwork demo_pn] ∅.
Definition demo_fakes : FakeClientset := {| cs_Fake := 1; cs_discovery := 1; cs_tracker := 0 |}.
Definition demo_fake_pns : FakeProviderNetworks := FakeK8sV1alpha1_ProviderNetworks (FakeClientset_K8sV1alpha1 demo_fakes) "default".
Definition demo_key : Key := ("providernetworks", "default", "pn1").

Lemma fake_start_is : fake_start = (Some demo_fakes, demo_store).
Proof. reflexivity. Qed.


(** Where they differ: the fake keeps a status that comes with an update, which
    the notification server sends and a cluster with the deployed resource
    definitions drops; and it deletes an object that has finalizers. *)
Lemma fakes_differ :
  let x := pn_set_state Created demo_pn in
  let c := ProviderNetworks (k8sV1alpha1 demo_clientset) "default" in
  bool_decide (o_state <$> (providerNetworks_Update c x demo_store).2 !! demo_key = Some "") = true /\
  bool_decide (o_state <$> (FakeProviderNetworks_Update demo_fake_pns x demo_store).2 !! demo_key = Some Created) = true /\
  bool_decide (is_Some ((providerNetworks_Delete c "pn1" None demo_store).2 !! demo_key)) = true /\
  bool_decide ((FakeProviderNetworks_Delete demo_fake_pns "pn1" None demo_store).2 !! demo_key = None) = true.
Proof. vm_compute. repeat split. Qed.
