(* ===== verification/Registration.v ===== *)
(** * Registration: the types of the group in the schemes

    A scheme is a value of client-go; what the code does with one is to register
    the types of the group (pkg/apis/k8s/v1alpha1/register.go and the [init] of
    each file of types), in the scheme that a manager has (pkg/apis) and in the
    two schemes of the generated clients (pkg/generated/clientset/versioned/scheme
    and fake).  The functions [init] run when a package is loaded, after those of
    the packages that it imports. *)

From S2P Require Import Prelude.
From S2P Require Import Clients.

#[local] Open Scope string_scope.
#[local] Open Scope list_scope.

Abbreviation GVersion := (string * string)%type.

(** k8s.io/apimachinery: [Recognizes s (group, version) kind].  A registered type
    is known by its name; [AddToGroupVersion] registers the option types. *)
Class SchemeWorld (S : Type) := {
  AddKnownTypes : GVersion -> list string -> S -> S;
  AddToGroupVersion : GVersion -> S -> S;
  Recognizes : S -> GVersion -> string -> bool;
  option_kinds : list string;
  known_law : forall gv ks s gv' k,
    Recognizes (AddKnownTypes gv ks s) gv' k = bool_decide (gv' = gv /\ k ∈ ks) || Recognizes s gv' k;
  group_law : forall gv s gv' k, k ∉ option_kinds -> Recognizes (AddToGroupVersion gv s) gv' k = Recognizes s gv' k
}.

Section registration.
Context {S : Type} `{!SchemeWorld S}.

(** ** sigs.k8s.io/controller-runtime/pkg/scheme, k8s.io/apimachinery/pkg/runtime

    A builder keeps what it was given; it hands it to a scheme in that order. *)
Record Builder := mkBuilder { b_GroupVersion : GVersion; b_registered : list (list string) }.

Definition Register (objects : list string) (b : Builder) : Builder :=
  mkBuilder (b_GroupVersion b) (b_registered b ++ [objects]).

Definition Builder_AddToScheme (b : Builder) (s : S) : S :=
  foldl (fun s objects => AddToGroupVersion (b_GroupVersion b) (AddKnownTypes (b_GroupVersion b) objects s)) s
    (b_registered b).

(** [runtime.SchemeBuilder]: functions that run in their order; none of these fails. *)
Definition run_builder (fs : list (S -> S)) (s : S) : S := foldl (fun s f => f s) s fs.

(** ** pkg/apis/k8s/v1alpha1 *)

Definition SchemeBuilder : Builder := mkBuilder SchemeGroupVersion [].

Definition network_init : Builder -> Builder := Register ["Network"; "NetworkList"].
Definition networkchaining_init : Builder -> Builder := Register ["NetworkChaining"; "NetworkChainingList"].
Definition providernetwork_init : Builder -> Builder := Register ["ProviderNetwork"; "ProviderNetworkList"].

(** The functions [init] of the package, in the order of [inits]. *)
Definition loaded (inits : list (Builder -> Builder)) : Builder := foldl (fun b f => f b) SchemeBuilder inits.

(** [AddToScheme = SchemeBuilder.AddToScheme], of the builder as it is when called. *)
Definition v1alpha1_AddToScheme (b : Builder) : S -> S := Builder_AddToScheme b.

(** ** pkg/apis *)

Definition apis_init (b : Builder) (AddToSchemes : list (S -> S)) : list (S -> S) := AddToSchemes ++ [Builder_AddToScheme b].
Definition apis_AddToScheme (AddToSchemes : list (S -> S)) (s : S) : S := run_builder AddToSchemes s.

(** ** The schemes of the generated clients *)

Definition clientset_AddToScheme (b : Builder) (s : S) : S := run_builder [v1alpha1_AddToScheme b] s.
Definition clientset_init (b : Builder) (Scheme : S) : S := clientset_AddToScheme b (AddToGroupVersion ("", "v1") Scheme).
Definition fake_AddToScheme (b : Builder) (s : S) : S := run_builder [v1alpha1_AddToScheme b] s.
Definition fake_init (b : Builder) (scheme : S) : S := fake_AddToScheme b (AddToGroupVersion ("", "v1") scheme).

(** ** Properties *)

Definition registered_kinds : list string :=
  ["Network"; "NetworkList"; "NetworkChaining"; "NetworkChainingList"; "ProviderNetwork"; "ProviderNetworkList"].

Lemma builder_recognizes b s gv k :
  k ∉ option_kinds ->
  Recognizes (Builder_AddToScheme b s) gv k =
  bool_decide (gv = b_GroupVersion b /\ k ∈ concat (b_registered b)) || Recognizes s gv k.
Proof.
  intros Hk. unfold Builder_AddToScheme. revert s. induction (b_registered b) as [|ks l IH]; intros s; cbn [foldl concat].
  - by rewrite bool_decide_eq_false_2 by (intros [_ []%not_elem_of_nil]).
  - rewrite IH, group_law, known_law by done. rewrite orb_assoc. f_equal.
    apply eq_true_iff_eq. rewrite orb_true_iff, !bool_decide_eq_true, elem_of_app. naive_solver.
Qed.

Lemma loaded_builder inits :
  inits ∈ permutations [network_init; networkchaining_init; providernetwork_init] ->
  b_GroupVersion (loaded inits) = SchemeGroupVersion /\ concat (b_registered (loaded inits)) ≡ₚ registered_kinds.
Proof.
  cbn. rewrite !elem_of_cons, elem_of_nil. intros H.
  destruct_or! H; subst; try done; split; try done; apply NoDup_Permutation;
    try (apply (bool_decide_unpack _); vm_compute; exact I); intros k; cbn; set_solver.
Qed.

(** In whichever order the files of the package are initialised, each of the
    three schemes then knows of the group's kinds those that are registered, and
    of every other group version what it knew. *)
Theorem schemes_know_the_kinds inits s gv k :
  inits ∈ permutations [network_init; networkchaining_init; providernetwork_init] -> k ∉ option_kinds ->
  let b := loaded inits in
  let known := bool_decide (gv = SchemeGroupVersion /\ k ∈ registered_kinds) || Recognizes s gv k in
  Recognizes (apis_AddToScheme (apis_init b []) s) gv k = known /\
  Recognizes (clientset_init b s) gv k = known /\ Recognizes (fake_init b s) gv k = known.
Proof.
  intros Hp Hk b known. destruct (loaded_builder inits Hp) as [Hg Hr]. fold b in Hg, Hr.
  assert (Hb : forall s', Recognizes s' gv k = Recognizes s gv k -> Recognizes (Builder_AddToScheme b s') gv k = known).
  { intros s' Hs. rewrite builder_recognizes, Hs, Hg by done. unfold known. f_equal.
    apply bool_decide_ext. by rewrite Hr. }
  split; [by apply Hb|]. split; apply Hb, group_law, Hk.
Qed.
End registration.

(** A scheme that is the list of what was registered. *)
#[global] Instance list_scheme : SchemeWorld (list (GVersion * list string)) := {|
  AddKnownTypes gv ks s := (gv, ks) :: s;
  AddToGroupVersion gv s := s;
  Recognizes s gv k := existsb (fun x => bool_decide (gv = x.1 /\ k ∈ x.2)) s;
  option_kinds := ["ListOptions"; "WatchEvent"];
  known_law gv ks s gv' k := eq_refl;
  group_law gv s gv' k _ := eq_refl
|}.

Lemma schemes_know_the_kinds_witness :
  let b := loaded [providernetwork_init; network_init; networkchaining_init] in
  Recognizes (clientset_init b []) SchemeGroupVersion "ProviderNetwork" = true /\
  Recognizes (clientset_init b []) SchemeGroupVersion "Route" = false.
Proof.
  split.
  - refine (proj1 (proj2 (schemes_know_the_kinds [providernetwork_init; network_init; networkchaining_init] []
      SchemeGroupVersion "ProviderNetwork" _ _))); set_solver.
  - refine (proj1 (proj2 (schemes_know_the_kinds [providernetwork_init; network_init; networkchaining_init] []
      SchemeGroupVersion "Route" _ _))); set_solver.
Defined.
