(* ===== verification/Schema.v ===== *)
(** * Schema: JSON of Go structs and the schemas that describe them

    What the custom resources rely on of encoding/json, of OpenAPI and of the
    generators that print schemas from struct definitions: a Go type as its
    struct tags give it ([GoType]), the values of a type ([GoVal]), the two
    directions of encoding/json ([json_of], [of_json]), schemas with references
    ([Schema]), what it is for a JSON value to meet a schema ([meets]), and
    the schema of a type ([inline]).  The types and the schemas of the repository
    are in OpenApi.v.

    A JSON object has one member for each name, as in what an API server sends;
    names are matched exactly, as Kubernetes' serializer does.  A struct of the
    library ([TLib]) is a parameter with its own two directions. *)

From S2P Require Import Prelude.
From S2P Require Import GoStrings.
From S2P Require Import Types.

#[local] Open Scope string_scope.
#[local] Open Scope list_scope.
#[local] Set Warnings "-register-all".

(** ** Go types *)

(** The tag of a field, and the comment in front of it. *)
Record Tag := mkTag { t_json : string; t_omitempty : bool; t_doc : string }.

Inductive GoType :=
| TStr
| TSlice (t : GoType)
| TStruct (name doc : string) (fields : list (Tag * GoType))
| TLib (name : string).

Section GoType_ind.
Variable P : GoType -> Prop.
Hypotheses (Hstr : P TStr) (Hslice : forall t, P t -> P (TSlice t))
  (Hstruct : forall n d fs, Forall (fun f => P f.2) fs -> P (TStruct n d fs)) (Hlib : forall n, P (TLib n)).

Fixpoint GoType_deep_ind (t : GoType) : P t :=
  match t with
  | TStr => Hstr
  | TSlice t => Hslice t (GoType_deep_ind t)
  | TStruct n d fs => Hstruct n d fs
      ((fix go fs := match fs return Forall (fun f => P f.2) fs with
        | [] => List.Forall_nil _
        | f :: fs => List.Forall_cons _ _ _ (GoType_deep_ind f.2) (go fs)
        end) fs)
  | TLib n => Hlib n
  end.
End GoType_ind.

Definition field_names (fs : list (Tag * GoType)) : list string := map (fun f => t_json f.1) fs.

(** No two fields of a struct have one name. *)
Fixpoint well_tagged (t : GoType) : bool :=
  match t with
  | TStr | TLib _ => true
  | TSlice t => well_tagged t
  | TStruct _ _ fs => bool_decide (NoDup (field_names fs)) && forallb (fun f => well_tagged f.2) fs
  end.

(** ** Members of an object *)

Section member.
Context {A : Type}.

Fixpoint member (k : string) (ms : list (string * A)) : option A :=
  match ms with
  | [] => None
  | (k', v) :: ms => if k' == k then Some v else member k ms
  end.

Lemma member_None k ms : k ∉ ms.*1 -> member k ms = None.
Proof.
  induction ms as [|[k' v] ms IH]; [done|]. rewrite fmap_cons, not_elem_of_cons. intros [Hne Hk]. cbn in *.
  rewrite bool_decide_eq_false_2 by congruence. by apply IH.
Qed.

Lemma member_elem k v ms : member k ms = Some v -> (k, v) ∈ ms.
Proof.
  induction ms as [|[k' w] ms IH]; [done|]. cbn. destruct (k' == k) eqn:Hk.
  - apply bool_decide_eq_true in Hk as ->. intros [= ->]. by left.
  - intros H. right. by apply IH.
Qed.

Lemma member_here k v ms : NoDup ms.*1 -> (k, v) ∈ ms -> member k ms = Some v.
Proof.
  induction ms as [|[k' w] ms IH]; [by rewrite elem_of_nil|]. rewrite fmap_cons, NoDup_cons, elem_of_cons. cbn.
  intros [Hk Hnd] [[= -> ->]|Hin].
  - by rewrite bool_decide_eq_true_2.
  - case_bool_decide as Heq; [|by apply IH]. subst k'. destruct Hk. apply list_elem_of_fmap. by exists (k, v).
Qed.

Lemma member_perm k ms ms' : NoDup ms.*1 -> ms ≡ₚ ms' -> member k ms = member k ms'.
Proof.
  intros Hnd Hp. assert (Hnd' : NoDup ms'.*1) by by rewrite <- Hp. apply option_eq. intros v. split; intros H.
  - apply member_here; [done|]. rewrite <- Hp. by apply member_elem.
  - apply member_here; [done|]. rewrite Hp. by apply member_elem.
Qed.
End member.

(** ** Values and encoding/json *)

Section json.
(** A struct of the library, its JSON, and the value of a fresh one. *)
Context {L : Type} (lib_json : L -> Json) (json_lib : Json -> option L) (lib_zero : L).

(** [VSlice None] is the nil slice. *)
Inductive GoVal :=
| VStr (s : string)
| VSlice (elems : option (list GoVal))
| VStruct (fields : list GoVal)
| VLib (x : L).

(** [v] is a value of the type [t]. *)
Fixpoint typed (t : GoType) (v : GoVal) {struct t} : Prop :=
  match t, v with
  | TStr, VStr _ => True
  | TSlice t, VSlice o => match o with None => True | Some l => Forall (typed t) l end
  | TStruct _ _ fs, VStruct vs =>
      (fix go fs vs := match fs, vs with
        | [], [] => True
        | f :: fs, v :: vs => typed f.2 v /\ go fs vs
        | _, _ => False
        end) fs vs
  | TLib _, VLib _ => True
  | _, _ => False
  end.

(** encoding/json's empty values; a struct never is. *)
Definition empty_value (v : GoVal) : bool :=
  match v with
  | VStr s => s == ""
  | VSlice None | VSlice (Some []) => true
  | _ => false
  end.

(** A member is left out when its tag says so and its value is empty. *)
Definition omitted (tag : Tag) (v : GoVal) : bool := t_omitempty tag && empty_value v.

Fixpoint json_of (t : GoType) (v : GoVal) {struct t} : Json :=
  match t, v with
  | TStr, VStr s => JString s
  | TSlice t, VSlice (Some l) => JArray (map (json_of t) l)
  | TStruct _ _ fs, VStruct vs =>
      JObject ((fix go fs vs := match fs, vs with
        | f :: fs, v :: vs =>
            if omitted f.1 v then go fs vs else (t_json f.1, json_of f.2 v) :: go fs vs
        | _, _ => []
        end) fs vs)
  | TLib _, VLib x => lib_json x
  | _, _ => JNull
  end.

Fixpoint zero_value (t : GoType) : GoVal :=
  match t with
  | TStr => VStr ""
  | TSlice _ => VSlice None
  | TStruct _ _ fs => VStruct (map (fun f => zero_value f.2) fs)
  | TLib _ => VLib lib_zero
  end.

(** Into a fresh value: null leaves it, and so do members without a field. *)
Fixpoint of_json (t : GoType) (j : Json) {struct t} : option GoVal :=
  match t, j with
  | TLib _, _ => VLib <$> json_lib j
  | _, JNull => Some (zero_value t)
  | TStr, JString s => Some (VStr s)
  | TSlice t, JArray l => (fun vs => VSlice (Some vs)) <$> mapM (of_json t) l
  | TStruct _ _ fs, JObject ms =>
      VStruct <$> (fix go fs := match fs with
        | [] => Some []
        | f :: fs =>
            v ← match member (t_json f.1) ms with Some j => of_json f.2 j | None => Some (zero_value f.2) end;
            vs ← go fs; Some (v :: vs)
        end) fs
  | _, _ => None
  end.

(** What decoding gives back for [v]: an empty slice that is left out is nil. *)
Fixpoint read_back (t : GoType) (v : GoVal) {struct t} : GoVal :=
  match t, v with
  | TSlice t, VSlice (Some l) => VSlice (Some (map (read_back t) l))
  | TStruct _ _ fs, VStruct vs =>
      VStruct ((fix go fs vs := match fs, vs with
        | f :: fs, v :: vs => (if omitted f.1 v then zero_value f.2 else read_back f.2 v) :: go fs vs
        | _, _ => []
        end) fs vs)
  | _, _ => v
  end.

(** No slice that is printed is nil. *)
Fixpoint no_null (t : GoType) (v : GoVal) {struct t} : bool :=
  match t, v with
  | TSlice t, VSlice (Some l) => forallb (no_null t) l
  | TSlice _, VSlice None => false
  | TStruct _ _ fs, VStruct vs =>
      (fix go fs vs := match fs, vs with
        | f :: fs, v :: vs => (omitted f.1 v || no_null f.2 v) && go fs vs
        | _, _ => true
        end) fs vs
  | _, _ => true
  end.

(** *** The members of a struct *)

Fixpoint json_fields (fs : list (Tag * GoType)) (vs : list GoVal) : list (string * Json) :=
  match fs, vs with
  | f :: fs, v :: vs => if omitted f.1 v then json_fields fs vs else (t_json f.1, json_of f.2 v) :: json_fields fs vs
  | _, _ => []
  end.

Fixpoint fields_json (fs : list (Tag * GoType)) (ms : list (string * Json)) : option (list GoVal) :=
  match fs with
  | [] => Some []
  | f :: fs =>
      v ← match member (t_json f.1) ms with Some j => of_json f.2 j | None => Some (zero_value f.2) end;
      vs ← fields_json fs ms; Some (v :: vs)
  end.

Fixpoint read_fields (fs : list (Tag * GoType)) (vs : list GoVal) : list GoVal :=
  match fs, vs with
  | f :: fs, v :: vs => (if omitted f.1 v then zero_value f.2 else read_back f.2 v) :: read_fields fs vs
  | _, _ => []
  end.

Fixpoint typed_fields (fs : list (Tag * GoType)) (vs : list GoVal) : Prop :=
  match fs, vs with
  | [], [] => True
  | f :: fs, v :: vs => typed f.2 v /\ typed_fields fs vs
  | _, _ => False
  end.

Fixpoint no_null_fields (fs : list (Tag * GoType)) (vs : list GoVal) : bool :=
  match fs, vs with
  | f :: fs, v :: vs => (omitted f.1 v || no_null f.2 v) && no_null_fields fs vs
  | _, _ => true
  end.

Lemma json_of_struct n d fs vs : json_of (TStruct n d fs) (VStruct vs) = JObject (json_fields fs vs).
Proof. reflexivity. Qed.
Lemma of_json_struct n d fs ms : of_json (TStruct n d fs) (JObject ms) = VStruct <$> fields_json fs ms.
Proof. cbn. f_equal. induction fs as [|f fs IH]; [done|]. cbn. by rewrite IH. Qed.
Lemma read_back_struct n d fs vs : read_back (TStruct n d fs) (VStruct vs) = VStruct (read_fields fs vs).
Proof. reflexivity. Qed.
Lemma typed_struct n d fs vs : typed (TStruct n d fs) (VStruct vs) = typed_fields fs vs.
Proof. reflexivity. Qed.
Lemma no_null_struct n d fs vs : no_null (TStruct n d fs) (VStruct vs) = no_null_fields fs vs.
Proof. reflexivity. Qed.

Lemma typed_struct_inv n d fs v : typed (TStruct n d fs) v -> exists vs, v = VStruct vs /\ typed_fields fs vs.
Proof. destruct v; try done. cbn. eauto. Qed.

Lemma typed_slice_inv t v : typed (TSlice t) v -> exists o, v = VSlice o /\ forall l, o = Some l -> Forall (typed t) l.
Proof. destruct v as [|o| |]; try done. intros H. exists o. split; [done|]. by intros l ->. Qed.

Lemma json_fields_names fs vs : incl ((json_fields fs vs).*1) (field_names fs).
Proof.
  revert vs. induction fs as [|f fs IH]; intros [|v vs]; cbn; try by intros ?.
  destruct (omitted _ _); cbn; intros k; [intros H; right; by apply (IH vs)|]. intros [->|H]; [by left|].
  right. by apply (IH vs).
Qed.

Lemma member_skips k fs vs : k ∉ field_names fs -> member k (json_fields fs vs) = None.
Proof.
  intros Hk. apply member_None. intros Hin. destruct Hk. apply list_elem_of_In.
  apply (json_fields_names fs vs). by apply list_elem_of_In.
Qed.

(** The member of a field of a struct without repeated names. *)
Lemma member_field fs1 f fs2 vs1 v vs2 :
  length fs1 = length vs1 -> NoDup (field_names (fs1 ++ f :: fs2)) ->
  member (t_json f.1) (json_fields (fs1 ++ f :: fs2) (vs1 ++ v :: vs2)) =
  if omitted f.1 v then None else Some (json_of f.2 v).
Proof.
  revert vs1. induction fs1 as [|g fs1 IH]; intros [|w vs1]; try done; cbn.
  - intros _. rewrite NoDup_cons. intros [Hf _]. destruct (omitted f.1 v); [by apply member_skips|]. cbn.
    by rewrite bool_decide_eq_true_2.
  - intros [= Hl]. rewrite NoDup_cons. intros [Hg Hnd]. specialize (IH vs1 Hl Hnd). destruct (omitted g.1 w); [done|].
    cbn. rewrite bool_decide_eq_false_2; [done|]. intros Heq. destruct Hg. unfold field_names.
    rewrite map_app, elem_of_app. right. rewrite Heq. left.
Qed.

(** ** Round trip *)

(** The library's values within [v] are among those that read back. *)
Variable exact : L -> Prop.
Hypothesis json_lib_json : forall x, exact x -> json_lib (lib_json x) = Some x.

Fixpoint libs_exact (t : GoType) (v : GoVal) {struct t} : Prop :=
  match t, v with
  | TLib _, VLib x => exact x
  | TSlice t, VSlice (Some l) => Forall (libs_exact t) l
  | TStruct _ _ fs, VStruct vs =>
      (fix go fs vs := match fs, vs with f :: fs, v :: vs => libs_exact f.2 v /\ go fs vs | _, _ => True end) fs vs
  | _, _ => True
  end.

Fixpoint exact_fields (fs : list (Tag * GoType)) (vs : list GoVal) : Prop :=
  match fs, vs with f :: fs, v :: vs => libs_exact f.2 v /\ exact_fields fs vs | _, _ => True end.

(** A value that was printed reads back, with the slices that were left out nil. *)
Lemma of_json_of t v : well_tagged t = true -> typed t v -> libs_exact t v -> of_json t (json_of t v) = Some (read_back t v).
Proof.
  revert v. induction t as [|t IH|n d fs IH|n] using GoType_deep_ind; intros v Hw Hv Hx.
  - by destruct v.
  - apply typed_slice_inv in Hv as ([l|] & -> & Hl); [|done]. specialize (Hl l eq_refl). cbn in Hw |- *.
    assert (Hm : mapM (of_json t) (map (json_of t) l) = Some (map (read_back t) l)); [|by rewrite Hm].
    cbn in Hx. induction Hl as [|v l Hv Hl IHl]; [done|]. inversion Hx; subst. cbn. rewrite IH by done. cbn. by rewrite IHl.
  - apply typed_struct_inv in Hv as (vs & -> & Hv). change (exact_fields fs vs) in Hx. rewrite json_of_struct, of_json_struct, read_back_struct.
    cbn in Hw. apply andb_true_iff in Hw as [Hnd%bool_decide_eq_true Hw]. rewrite forallb_forall in Hw.
    assert (Hgo : forall fs2 vs2 fs1 vs1, fs = fs1 ++ fs2 -> vs = vs1 ++ vs2 -> length fs1 = length vs1 ->
      typed_fields fs2 vs2 -> exact_fields fs2 vs2 -> fields_json fs2 (json_fields fs vs) = Some (read_fields fs2 vs2)).
    { induction fs2 as [|f fs2 IHfs]; intros [|v vs2] fs1 vs1 -> -> Hlen; try done. intros [Hf Hfs] [Hxf Hxs].
      cbn. rewrite member_field by done.
      assert (Hin : In f (fs1 ++ f :: fs2)) by (apply in_or_app; right; by left).
      assert (Hone : match (if omitted f.1 v then None else Some (json_of f.2 v)) with
        | Some j => of_json f.2 j | None => Some (zero_value f.2) end =
        Some (if omitted f.1 v then zero_value f.2 else read_back f.2 v)).
      { destruct (omitted f.1 v); [done|]. rewrite List.Forall_forall in IH. apply IH; [done|by apply Hw|done|done]. }
      rewrite Hone. cbn.
      assert (Hrest := IHfs vs2 (fs1 ++ [f]) (vs1 ++ [v])). rewrite <- !app_assoc in Hrest. cbn in Hrest.
      rewrite Hrest; [done|done|done|rewrite !length_app; cbn; lia|done|done]. }
    by rewrite (Hgo fs vs [] []).
  - destruct v; try done. cbn. by rewrite json_lib_json.
Qed.
End json.

(** ** Schemas

    The fields of [spec.SchemaProps] that are used; [Ref] is [None] for the zero
    reference.  [Properties] is a Go map: its names are distinct. *)

Inductive Schema (R : Type) := mkSchema {
  Description : string; SType : list string; Format : string; Ref : option R;
  Items : option (Schema R); Properties : list (string * Schema R); Required : list string
}.
Arguments mkSchema {R}.
Arguments Description {R}.
Arguments SType {R}.
Arguments Format {R}.
Arguments Ref {R}.
Arguments Items {R}.
Arguments Properties {R}.
Arguments Required {R}.

Section Schema_ind.
Context {R : Type} (P : Schema R -> Prop).
Hypothesis Hschema : forall d ty f r it ps req,
  from_option P True it -> Forall (fun p => P p.2) ps -> P (mkSchema d ty f r it ps req).

Fixpoint Schema_deep_ind (s : Schema R) : P s :=
  match s with
  | mkSchema d ty f r it ps req => Hschema d ty f r it ps req
      (match it return from_option P True it with None => I | Some s => Schema_deep_ind s end)
      ((fix go ps := match ps return Forall (fun p => P p.2) ps with
        | [] => List.Forall_nil _
        | p :: ps => List.Forall_cons _ _ _ (Schema_deep_ind p.2) (go ps)
        end) ps)
  end.
End Schema_ind.

(** A schema without references. *)
Abbreviation Plain := (Schema Empty_set).

(** *** Meeting a schema (JSON schema validation) *)

Definition of_type (ty : string) (j : Json) : bool :=
  match j with
  | JString _ => ty == "string"
  | JArray _ => ty == "array"
  | JObject _ => ty == "object"
  | JBool _ => ty == "boolean"
  | JNumber _ => (ty == "number") || (ty == "integer")
  | JNull => ty == "null"
  end.

Definition has_member {A} (ms : list (string * A)) (k : string) : bool :=
  match member k ms with Some _ => true | None => false end.

Fixpoint meets (s : Plain) (j : Json) {struct s} : bool :=
  match s with
  | mkSchema _ ty _ _ it ps req =>
      (bool_decide (ty = []) || existsb (fun t => of_type t j) ty) &&
      match j with
      | JObject ms =>
          forallb (has_member ms) req &&
          forallb (fun p => match member p.1 ms with Some v => meets p.2 v | None => true end) ps
      | JArray l => match it with Some s => forallb (meets s) l | None => true end
      | _ => true
      end
  end.

(** *** References

    A reference stands for the definition that it names; [None]: it names none. *)
Section expand.
Context {R : Type} (defs : R -> option (Schema R)).

Fixpoint expand (fuel : nat) : Schema R -> option Plain :=
  fix go (s : Schema R) : option Plain :=
    match s with
    | mkSchema d ty f (Some r) _ _ _ =>
        match fuel with O => None | S fuel => defs r ≫= expand fuel end
    | mkSchema d ty f None it ps req =>
        it' ← match it with None => Some None | Some s => Some <$> go s end;
        ps' ← (fix gos ps := match ps with
          | [] => Some []
          | (k, s) :: ps => s' ← go s; ps' ← gos ps; Some ((k, s') :: ps')
          end) ps;
        Some (mkSchema d ty f None it' ps' req)
    end.
End expand.

(** *** The schema of a type

    The rule of the generators: a property for each field, required unless its
    tag has [omitempty].  A field's schema has the comment in front of it. *)

Definition str_schema {R} (d : string) : Schema R := mkSchema d ["string"] "" None None [] [].
Definition array_schema {R} (d : string) (it : Schema R) : Schema R := mkSchema d ["array"] "" None (Some it) [] [].
Definition object_schema {R} (d : string) (ps : list (string * Schema R)) (req : list string) : Schema R :=
  mkSchema d ["object"] "" None None ps req.
Definition ref_schema {R} (d : string) (r : R) : Schema R := mkSchema d [] "" (Some r) None [] [].

Definition required_names (fs : list (Tag * GoType)) : list string :=
  field_names (List.filter (fun f => negb (t_omitempty f.1)) fs).

Lemma required_cons f fs :
  required_names (f :: fs) = if t_omitempty f.1 then required_names fs else t_json f.1 :: required_names fs.
Proof. unfold required_names. cbn. by destruct (t_omitempty f.1). Qed.

(** With the structs in place. *)
Fixpoint inline (d : string) (t : GoType) : Plain :=
  match t with
  | TStr => str_schema d
  | TSlice t => array_schema d (inline "" t)
  | TStruct _ doc fs =>
      object_schema doc (map (fun f => (t_json f.1, inline (t_doc f.1) f.2)) fs) (required_names fs)
  | TLib _ => object_schema d [] []
  end.

(** With references to the structs. *)
Fixpoint refer {R} (ref : string -> R) (d : string) (t : GoType) : Schema R :=
  match t with
  | TStr => str_schema d
  | TSlice t => array_schema d (refer ref "" t)
  | TStruct name _ _ | TLib name => ref_schema d (ref name)
  end.

Definition definition_of {R} (ref : string -> R) (t : GoType) : Schema R :=
  match t with
  | TStruct _ doc fs =>
      object_schema doc (map (fun f => (t_json f.1, refer ref (t_doc f.1) f.2)) fs) (required_names fs)
  | _ => refer ref "" t
  end.

(** Schemas that differ only in descriptions and in the order of names. *)
Fixpoint insert_by {A} (key : A -> string) (x : A) (l : list A) : list A :=
  match l with
  | [] => [x]
  | y :: l => match String.compare (key x) (key y) with Gt => y :: insert_by key x l | _ => x :: y :: l end
  end.
Definition sort_by {A} (key : A -> string) (l : list A) : list A := foldr (insert_by key) [] l.

Fixpoint canon (s : Plain) : Plain :=
  match s with
  | mkSchema _ ty f r it ps req =>
      mkSchema "" ty f r (match it with None => None | Some s => Some (canon s) end)
        (sort_by fst (map (fun p => (p.1, canon p.2)) ps)) (sort_by id req)
  end.

Lemma insert_by_perm {A} (key : A -> string) x l : insert_by key x l ≡ₚ x :: l.
Proof.
  induction l as [|y l IH]; [done|]. cbn. destruct (String.compare _ _); [done..|]. rewrite IH. apply Permutation_swap.
Qed.

Lemma sort_by_perm {A} (key : A -> string) l : sort_by key l ≡ₚ l.
Proof. induction l as [|x l IH]; [done|]. cbn. by rewrite insert_by_perm, IH. Qed.

Lemma forallb_perm {A} (f : A -> bool) l l' : l ≡ₚ l' -> forallb f l = forallb f l'.
Proof. induction 1; cbn; [done|by f_equal|by rewrite !andb_assoc, (andb_comm (f y))|by etrans]. Qed.

Lemma forallb_map {A B} (f : B -> bool) (g : A -> B) l : forallb f (map g l) = forallb (fun x => f (g x)) l.
Proof. induction l as [|x l IH]; [done|]. cbn. by rewrite IH. Qed.

Lemma forallb_ext_in {A} (f g : A -> bool) l : Forall (fun x => f x = g x) l -> forallb f l = forallb g l.
Proof. induction 1 as [|x l Hx _ IH]; [done|]. cbn. by rewrite Hx, IH. Qed.

(** The order of names does not matter to a value. *)
Lemma meets_canon s j : meets (canon s) j = meets s j.
Proof.
  revert j. induction s as [d ty f r it ps req Hit Hps] using Schema_deep_ind. intros j.
  cbn. f_equal. destruct j as [| | | |l|ms]; try done.
  - destruct it as [s|]; [|done]. apply forallb_ext_in, List.Forall_forall. intros x _. apply Hit.
  - rewrite (forallb_perm _ _ _ (sort_by_perm id req)). f_equal.
    rewrite (forallb_perm _ _ _ (sort_by_perm fst _)), forallb_map. apply forallb_ext_in.
    eapply List.Forall_impl; [|exact Hps]. intros [k s] Hs. cbn in *. by destruct (member k ms).
Qed.

(** ** Printing and admission *)

Section admission.
Context {L : Type} (lib_json : L -> Json) (json_lib : Json -> option L) (lib_zero : L).
Hypothesis lib_object : forall x, exists ms, lib_json x = JObject ms.
Implicit Types (v : @GoVal L) (vs : list (@GoVal L)).

Abbreviation print := (json_of lib_json).
Abbreviation read := (of_json json_lib lib_zero).
Abbreviation zero := (zero_value lib_zero).

Lemma has_required fs vs fs0 vs0 :
  NoDup (field_names (fs0 ++ fs)) -> length fs0 = length vs0 -> typed_fields fs vs ->
  forallb (has_member (json_fields lib_json (fs0 ++ fs) (vs0 ++ vs))) (required_names fs) = true.
Proof.
  revert fs0 vs vs0. induction fs as [|f fs IH]; intros fs0 [|v vs] vs0 Hnd Hl; try done. intros [_ Hvs].
  assert (Hrest := IH (fs0 ++ [f]) vs (vs0 ++ [v])). rewrite <- !app_assoc in Hrest.
  rewrite !length_app, Hl in Hrest. specialize (Hrest Hnd eq_refl Hvs). cbn [app] in Hrest.
  rewrite required_cons. destruct (t_omitempty f.1) eqn:Hom; [exact Hrest|]. cbn [forallb]. rewrite Hrest, andb_true_r.
  unfold has_member. rewrite member_field by done. unfold omitted. by rewrite Hom.
Qed.

(** What a value prints to meets the schema of its type if and only if no slice
    that is printed is nil. *)
Lemma meets_print d t v :
  well_tagged t = true -> typed t v -> meets (inline d t) (print t v) = no_null t v.
Proof using lib_object.
  revert d v. induction t as [|t IH|n doc fs IH|n] using GoType_deep_ind; intros d v Hw Hv.
  - by destruct v.
  - apply typed_slice_inv in Hv as ([l|] & -> & Hl); [|done]. specialize (Hl l eq_refl). cbn in Hw |- *.
    rewrite forallb_map. apply forallb_ext_in. eapply List.Forall_impl; [|exact Hl]. intros v Hv. by apply IH.
  - apply typed_struct_inv in Hv as (vs & -> & Hv). rewrite json_of_struct, no_null_struct.
    cbn in Hw. apply andb_true_iff in Hw as [Hnd%bool_decide_eq_true Hw]. rewrite forallb_forall in Hw.
    pose proof (has_required fs vs [] [] Hnd eq_refl Hv) as Hreq. cbn [app] in Hreq.
    cbn [inline meets object_schema]. rewrite Hreq, forallb_map. cbn [of_type andb orb existsb fst snd].
    assert (Hgo : forall fs2 vs2 fs1 vs1, fs = fs1 ++ fs2 -> vs = vs1 ++ vs2 -> length fs1 = length vs1 ->
      typed_fields fs2 vs2 ->
      forallb (fun f => match member (t_json f.1) (json_fields lib_json fs vs) with
        | Some j => meets (inline (t_doc f.1) f.2) j | None => true end) fs2 = no_null_fields fs2 vs2);
      [|by apply (Hgo fs vs [] [])].
    induction fs2 as [|f fs2 IHfs]; intros [|v vs2] fs1 vs1 -> -> Hlen; try done. intros [Hf Hfs].
    assert (Hin : In f (fs1 ++ f :: fs2)) by (apply in_or_app; right; by left).
    assert (Hrest := IHfs vs2 (fs1 ++ [f]) (vs1 ++ [v])). rewrite <- !app_assoc in Hrest. cbn in Hrest.
    cbn. rewrite member_field by done. rewrite Hrest by (done || (rewrite !length_app; cbn; lia)). f_equal.
    destruct (omitted f.1 v); [done|]. rewrite List.Forall_forall in IH. cbn. apply IH; [done|by apply Hw|done].
  - destruct v; try done. cbn. destruct (lib_object x) as [ms ->]. done.
Qed.

(** The library's structs within a value read. *)
Fixpoint lib_reads (t : GoType) (j : Json) {struct t} : Prop :=
  match t, j with
  | TLib _, _ => is_Some (json_lib j)
  | TSlice t, JArray l => Forall (lib_reads t) l
  | TStruct _ _ fs, JObject ms =>
      (fix go fs := match fs with
        | [] => True
        | f :: fs => match member (t_json f.1) ms with Some j => lib_reads f.2 j | None => True end /\ go fs
        end) fs
  | _, _ => True
  end.

(** The members that are missing may be missing when the value is printed. *)
Definition fine (f : Tag * GoType) (v : @GoVal L) : bool := omitted f.1 v || no_null f.2 v.

Fixpoint filled (t : GoType) (j : Json) {struct t} : bool :=
  match t, j with
  | TSlice t, JArray l => forallb (filled t) l
  | TStruct _ _ fs, JObject ms =>
      forallb (fun f => match member (t_json f.1) ms with
        | Some j => filled f.2 j | None => fine f (zero f.2) end) fs
  | _, _ => true
  end.

Lemma typed_zero t : typed t (zero t).
Proof.
  induction t as [| |n d fs IH|] using GoType_deep_ind; try done. cbn.
  induction IH as [|f fs Hf _ IHfs]; [done|]. by split.
Qed.

(** A value of an array that is not null is fine as soon as it has no null. *)
Lemma fine_no_null f v : v <> VSlice None -> typed f.2 v -> fine f v = no_null f.2 v.
Proof.
  intros Hne Hv. unfold fine, omitted. destruct (empty_value v) eqn:He; [|by rewrite andb_false_r].
  destruct (no_null f.2 v) eqn:Hn; [by rewrite orb_true_r|]. exfalso.
  destruct f as [tag t], v as [s|[[|]|]|vs|x], t; cbn in *; done.
Qed.

(** What the schema of a type admits reads as a value of the type; nothing that
    it prints is null exactly when no struct with a required slice is missing. *)
Definition admitted_reads (t : GoType) (j : Json) : Prop :=
  exists v, read t j = Some v /\ typed t v /\ no_null t v = filled t j /\ v <> VSlice None.

Lemma admitted_slice t l :
  Forall (admitted_reads t) l ->
  exists vs, mapM (read t) l = Some vs /\ Forall (typed t) vs /\ forallb (no_null t) vs = forallb (filled t) l.
Proof.
  induction 1 as [|j l (v & Hr & Ht & Hn & _) _ (vs & Hrs & Hts & Hns)]; [by exists []|].
  exists (v :: vs). cbn. rewrite Hr. cbn. rewrite Hrs, Hn, Hns. repeat split. by constructor.
Qed.

Lemma admitted_fields fs ms :
  Forall (fun f => match member (t_json f.1) ms with Some j => admitted_reads f.2 j | None => True end) fs ->
  exists vs, fields_json json_lib lib_zero fs ms = Some vs /\ typed_fields fs vs /\
    no_null_fields fs vs = forallb (fun f => match member (t_json f.1) ms with
      | Some j => filled f.2 j | None => fine f (zero f.2) end) fs.
Proof.
  induction 1 as [|f fs Hf _ (vs & Hrs & Hts & Hns)]; [by exists []|]. cbn.
  destruct (member (t_json f.1) ms) as [j|].
  - destruct Hf as (v & Hr & Ht & Hn & Hne). exists (v :: vs). rewrite Hr. cbn. rewrite Hrs, Hns. cbn.
    repeat split; [done..|]. f_equal. change (fine f v = filled f.2 j). by rewrite fine_no_null.
  - exists (zero f.2 :: vs). cbn. rewrite Hrs, Hns. cbn. repeat split; [apply typed_zero|done].
Qed.

Lemma meets_reads d t j : meets (inline d t) j = true -> lib_reads t j -> admitted_reads t j.
Proof.
  revert d j. induction t as [|t IH|n doc fs IH|n] using GoType_deep_ind; intros d j Hm Hl.
  - destruct j; try done. by exists (VStr s).
  - destruct j as [| | | |l|]; try done. cbn in Hm. apply andb_true_iff in Hm as [_ Hm]. rewrite forallb_forall in Hm.
    destruct (admitted_slice t l) as (vs & Hr & Ht & Hn).
    { apply List.Forall_forall. intros j Hin. apply (IH ""); [by apply Hm|]. cbn in Hl.
      rewrite List.Forall_forall in Hl. by apply Hl. }
    exists (VSlice (Some vs)). cbn. rewrite Hr. repeat split; done.
  - destruct j as [| | | | |ms]; try done. cbn in Hm. apply andb_true_iff in Hm as [_ [_ Hm]%andb_true_iff].
    rewrite forallb_map, forallb_forall in Hm. cbn in Hm.
    destruct (admitted_fields fs ms) as (vs & Hr & Ht & Hn).
    { clear -IH Hm Hl. induction fs as [|f fs IHfs]; [constructor|]. destruct Hl as [Hf Hfs].
      inversion IH as [|? ? Hi His]; subst. constructor.
      - specialize (Hm f (or_introl eq_refl)). destruct (member (t_json f.1) ms); [by apply (Hi (t_doc f.1))|done].
      - apply IHfs; [done| |done]. intros x Hx. apply Hm. by right. }
    exists (VStruct vs). rewrite of_json_struct, Hr, no_null_struct. by repeat split.
  - destruct Hl as [x Hx]. destruct j; try done. exists (VLib x). cbn. rewrite Hx. by repeat split.
Qed.
(** A type without structs of the library. *)
Fixpoint lib_free (t : GoType) : bool :=
  match t with
  | TStr => true
  | TSlice t => lib_free t
  | TStruct _ _ fs => forallb (fun f => lib_free f.2) fs
  | TLib _ => false
  end.

Lemma lib_free_reads t j : lib_free t = true -> lib_reads t j.
Proof.
  revert j. induction t as [|t IH|n doc fs IH|n] using GoType_deep_ind; intros j Hf; try done.
  - destruct j as [| | | |l|]; try done. cbn. induction l; constructor; auto.
  - destruct j as [| | | | |ms]; try done. cbn in *. induction IH as [|f fs Hi _ IHfs]; [done|].
    cbn in Hf. apply andb_true_iff in Hf as [Hf Hfs]. split; [|by apply IHfs].
    destruct (member _ ms); [by apply Hi|done].
Qed.

(** A type whose structs may all be missing where they may be left out. *)
Fixpoint self_filled (t : GoType) : bool :=
  match t with
  | TSlice t => self_filled t
  | TStruct _ _ fs =>
      forallb (fun f => self_filled f.2 && (negb (t_omitempty f.1) || fine f (zero f.2))) fs
  | _ => true
  end.

Lemma required_member f fs (ms : list (string * Json)) :
  In f fs -> t_omitempty f.1 = false -> forallb (@has_member Json ms) (required_names fs) = true ->
  exists j, member (t_json f.1) ms = Some j.
Proof.
  intros Hin Hom. rewrite forallb_forall. intros Hreq. specialize (Hreq (t_json f.1)). unfold has_member in Hreq.
  destruct (member _ _) as [j|]; [by exists j|]. discriminate Hreq. apply in_map_iff. exists f. split; [done|].
  apply filter_In. by rewrite Hom.
Qed.

Lemma meets_filled d t j : self_filled t = true -> meets (inline d t) j = true -> filled t j = true.
Proof.
  revert d j. induction t as [|t IH|n doc fs IH|n] using GoType_deep_ind; intros d j Hs Hm; try by destruct j.
  - destruct j as [| | | |l|]; try done. cbn in Hm |- *. apply andb_true_iff in Hm as [_ Hm].
    rewrite forallb_forall in *. intros j Hin. by apply (IH ""), Hm.
  - destruct j as [| | | | |ms]; try done. cbn in Hs, Hm |- *.
    apply andb_true_iff in Hm as [_ [Hreq Hm]%andb_true_iff]. rewrite forallb_map in Hm.
    rewrite forallb_forall in *. rewrite List.Forall_forall in IH. intros f Hin. specialize (Hs f Hin). specialize (Hm f Hin).
    apply andb_true_iff in Hs as [Hs Hz]. cbn in Hm.
    destruct (member (t_json f.1) ms) as [j|] eqn:Hmem; [by eapply IH|].
    destruct (t_omitempty f.1) eqn:Hom; [done|].
    destruct (required_member f fs ms) as [j Hj]; [done..|by apply forallb_forall|congruence].
Qed.
End admission.
