(* ===== verification/OpenApi.v ===== *)
(** * OpenApi: the schemas of the custom resources

    - the struct tags of pkg/apis/k8s/v1alpha1 ([NetworkType] and the others) and
      what a value of these types is as a record of Types.v ([as_Network]);
    - the generated definitions (zz_generated.openapi.go);
    - the schemas by which an API server admits the resources, as they are under
      deploy ([crd_networks] and the others, without their descriptions).

    The generated definitions are those of the struct tags, but six structs that
    they refer to have none.  What the deployed schemas admit can be read and, but
    for a resource without a spec, written back; this fails for network chains,
    whose deployed schema does not know the member [subnet]. *)

From S2P Require Import Prelude.
From S2P Require Import GoStrings.
From S2P Require Import Types.
From S2P Require Import Runner.
From S2P Require Import Schema.

#[local] Open Scope string_scope.
#[local] Open Scope list_scope.

(** ** The types, by their tags *)

Definition pkg (s : string) : string := "./pkg/apis/k8s/v1alpha1." +:+ s.
Definition ObjectMetaName : string := "k8s.io/apimachinery/pkg/apis/meta/v1.ObjectMeta".

(** metav1.TypeMeta, which the resources embed. *)
Definition kind_doc : string :=
  "Kind is a string value representing the REST resource this object represents. Servers may infer this from the endpoint the client submits requests to. Cannot be updated. In CamelCase. More info: https://git.k8s.io/community/contributors/devel/sig-architecture/api-conventions.md#types-kinds".
Definition apiVersion_doc : string :=
  "APIVersion defines the versioned schema of this representation of an object. Servers should convert recognized schemas to the latest internal value, and may reject unrecognized values. More info: https://git.k8s.io/community/contributors/devel/sig-architecture/api-conventions.md#resources".
Definition TypeMetaFields : list (Tag * GoType) :=
  [(mkTag "kind" true kind_doc, TStr); (mkTag "apiVersion" true apiVersion_doc, TStr)].

Definition spec_doc : string :=
  "INSERT ADDITIONAL SPEC FIELDS - desired state of cluster Important: Run " +:+ dq +:+ "operator-sdk generate k8s" +:+ dq +:+ " to regenerate code after modifying this file Add custom validation using kubebuilder tags: https://book-v1.book.kubebuilder.io/beyond_basics/generating_crd.html".
Definition status_doc : string :=
  "INSERT ADDITIONAL STATUS FIELD - define observed state of cluster Important: Run " +:+ dq +:+ "operator-sdk generate k8s" +:+ dq +:+ " to regenerate code after modifying this file Add custom validation using kubebuilder tags: https://book-v1.book.kubebuilder.io/beyond_basics/generating_crd.html".

(** A field without a comment of its own. *)
Definition field (json : string) (t : GoType) : Tag * GoType := (mkTag json false "", t).
Definition optional (json : string) (t : GoType) : Tag * GoType := (mkTag json true "", t).

(** The structs that no definition is generated for; their comments are left out. *)
Definition IpSubnetType : GoType := TStruct (pkg "IpSubnet") ""
  [field "name" TStr; field "subnet" TStr; optional "gateway" TStr; optional "excludeIps" TStr].
Definition RouteType : GoType := TStruct (pkg "Route") "" [field "dst" TStr; optional "gw" TStr].
Definition DnsSpecType : GoType := TStruct (pkg "DnsSpec") ""
  [optional "nameservers" (TSlice TStr); optional "domain" TStr; optional "search" (TSlice TStr);
   optional "options" (TSlice TStr)].
Definition VlanSpecType : GoType := TStruct (pkg "VlanSpec") ""
  [field "vlanId" TStr; field "vlanNodeSelector" TStr; optional "nodeLabelList" (TSlice TStr);
   field "providerInterfaceName" TStr; optional "logicalInterfaceName" TStr].
Definition DirectSpecType : GoType := TStruct (pkg "DirectSpec") ""
  [field "directNodeSelector" TStr; optional "nodeLabelList" (TSlice TStr); field "providerInterfaceName" TStr].
Definition RoutingNetworkType : GoType := TStruct (pkg "RoutingNetwork") ""
  [field "networkName" TStr; field "gatewayIp" TStr; field "subnet" TStr].
Definition RouteSpecType : GoType := TStruct (pkg "RouteSpec") ""
  [field "leftNetwork" (TSlice RoutingNetworkType); field "rightNetwork" (TSlice RoutingNetworkType);
   field "networkChain" TStr; field "namespace" TStr].

Definition NetworkSpecType : GoType :=
  TStruct (pkg "NetworkSpec") "NetworkSpec defines the desired state of Network"
    [(mkTag "cniType" false spec_doc, TStr); field "ipv4Subnets" (TSlice IpSubnetType);
     optional "ipv6Subnets" (TSlice IpSubnetType); optional "dns" DnsSpecType; optional "routes" (TSlice RouteType)].
Definition NetworkStatusType : GoType :=
  TStruct (pkg "NetworkStatus") "NetworkStatus defines the observed state of Network"
    [(mkTag "state" false status_doc, TStr)].

Definition ProviderNetworkSpecType : GoType :=
  TStruct (pkg "ProviderNetworkSpec") "ProviderNetworkSpec defines the desired state of ProviderNetwork"
    [(mkTag "cniType" false spec_doc, TStr); field "ipv4Subnets" (TSlice IpSubnetType);
     optional "ipv6Subnets" (TSlice IpSubnetType); optional "dns" DnsSpecType; optional "routes" (TSlice RouteType);
     field "providerNetType" TStr; optional "vlan" VlanSpecType;
     (mkTag "direct" true "For now VLAN & Direct only supported type", DirectSpecType)].
Definition ProviderNetworkStatusType : GoType :=
  TStruct (pkg "ProviderNetworkStatus") "ProviderNetworkStatus defines the observed state of ProviderNetwork"
    [(mkTag "state" false status_doc, TStr)].

Definition NetworkChainingSpecType : GoType :=
  TStruct (pkg "NetworkChainingSpec") "NetworkChainingSpec defines the desired state of NetworkChaining"
    [field "chainType" TStr; (mkTag "routingSpec" false "Currently only Routing type is supported", RouteSpecType)].
Definition NetworkChainingStatusType : GoType :=
  TStruct (pkg "NetworkChainingStatus") "NetworkChainingStatus defines the observed state of NetworkChaining"
    [field "state" TStr].

(** A resource: the library's metadata, a spec and a status. *)
Definition resource_fields (spec status : GoType) : list (Tag * GoType) :=
  TypeMetaFields ++ [optional "metadata" (TLib ObjectMetaName); optional "spec" spec; optional "status" status].
Definition NetworkType : GoType :=
  TStruct (pkg "Network") "Network is the Schema for the networks API"
    (resource_fields NetworkSpecType NetworkStatusType).
Definition ProviderNetworkType : GoType :=
  TStruct (pkg "ProviderNetwork") "ProviderNetwork is the Schema for the providernetworks API"
    (resource_fields ProviderNetworkSpecType ProviderNetworkStatusType).
Definition NetworkChainingType : GoType :=
  TStruct (pkg "NetworkChaining") "NetworkChaining is the Schema for the networkchainings API"
    (resource_fields NetworkChainingSpecType NetworkChainingStatusType).

(** ** zz_generated.openapi.go *)

Section definitions.
Context {R : Type} (ref : string -> R).

Record OpenAPIDefinition := mkDefinition { OpenAPISchema : Schema R; Dependencies : list string }.

Definition schema_pkg_apis_k8s_v1alpha1_Network : OpenAPIDefinition := {|
  OpenAPISchema := object_schema "Network is the Schema for the networks API"
    [("kind", str_schema kind_doc);
     ("apiVersion", str_schema apiVersion_doc);
     ("metadata", ref_schema "" (ref "k8s.io/apimachinery/pkg/apis/meta/v1.ObjectMeta"));
     ("spec", ref_schema "" (ref "./pkg/apis/k8s/v1alpha1.NetworkSpec"));
     ("status", ref_schema "" (ref "./pkg/apis/k8s/v1alpha1.NetworkStatus"))] [];
  Dependencies := ["./pkg/apis/k8s/v1alpha1.NetworkSpec"; "./pkg/apis/k8s/v1alpha1.NetworkStatus";
    "k8s.io/apimachinery/pkg/apis/meta/v1.ObjectMeta"]
|}.

Definition schema_pkg_apis_k8s_v1alpha1_NetworkChaining : OpenAPIDefinition := {|
  OpenAPISchema := object_schema "NetworkChaining is the Schema for the networkchainings API"
    [("kind", str_schema kind_doc);
     ("apiVersion", str_schema apiVersion_doc);
     ("metadata", ref_schema "" (ref "k8s.io/apimachinery/pkg/apis/meta/v1.ObjectMeta"));
     ("spec", ref_schema "" (ref "./pkg/apis/k8s/v1alpha1.NetworkChainingSpec"));
     ("status", ref_schema "" (ref "./pkg/apis/k8s/v1alpha1.NetworkChainingStatus"))] [];
  Dependencies := ["./pkg/apis/k8s/v1alpha1.NetworkChainingSpec"; "./pkg/apis/k8s/v1alpha1.NetworkChainingStatus";
    "k8s.io/apimachinery/pkg/apis/meta/v1.ObjectMeta"]
|}.

Definition schema_pkg_apis_k8s_v1alpha1_NetworkChainingSpec : OpenAPIDefinition := {|
  OpenAPISchema := object_schema "NetworkChainingSpec defines the desired state of NetworkChaining"
    [("chainType", str_schema "");
     ("routingSpec", ref_schema "Currently only Routing type is supported" (ref "./pkg/apis/k8s/v1alpha1.RouteSpec"))]
    ["chainType"; "routingSpec"];
  Dependencies := ["./pkg/apis/k8s/v1alpha1.RouteSpec"]
|}.

Definition schema_pkg_apis_k8s_v1alpha1_NetworkChainingStatus : OpenAPIDefinition := {|
  OpenAPISchema := object_schema "NetworkChainingStatus defines the observed state of NetworkChaining"
    [("state", str_schema "")] ["state"];
  Dependencies := []
|}.

Definition schema_pkg_apis_k8s_v1alpha1_NetworkSpec : OpenAPIDefinition := {|
  OpenAPISchema := object_schema "NetworkSpec defines the desired state of Network"
    [("cniType", str_schema spec_doc);
     ("ipv4Subnets", array_schema "" (ref_schema "" (ref "./pkg/apis/k8s/v1alpha1.IpSubnet")));
     ("ipv6Subnets", array_schema "" (ref_schema "" (ref "./pkg/apis/k8s/v1alpha1.IpSubnet")));
     ("dns", ref_schema "" (ref "./pkg/apis/k8s/v1alpha1.DnsSpec"));
     ("routes", array_schema "" (ref_schema "" (ref "./pkg/apis/k8s/v1alpha1.Route")))]
    ["cniType"; "ipv4Subnets"];
  Dependencies := ["./pkg/apis/k8s/v1alpha1.DnsSpec"; "./pkg/apis/k8s/v1alpha1.IpSubnet";
    "./pkg/apis/k8s/v1alpha1.Route"]
|}.

Definition schema_pkg_apis_k8s_v1alpha1_NetworkStatus : OpenAPIDefinition := {|
  OpenAPISchema := object_schema "NetworkStatus defines the observed state of Network"
    [("state", str_schema status_doc)] ["state"];
  Dependencies := []
|}.

Definition schema_pkg_apis_k8s_v1alpha1_ProviderNetwork : OpenAPIDefinition := {|
  OpenAPISchema := object_schema "ProviderNetwork is the Schema for the providernetworks API"
    [("kind", str_schema kind_doc);
     ("apiVersion", str_schema apiVersion_doc);
     ("metadata", ref_schema "" (ref "k8s.io/apimachinery/pkg/apis/meta/v1.ObjectMeta"));
     ("spec", ref_schema "" (ref "./pkg/apis/k8s/v1alpha1.ProviderNetworkSpec"));
     ("status", ref_schema "" (ref "./pkg/apis/k8s/v1alpha1.ProviderNetworkStatus"))] [];
  Dependencies := ["./pkg/apis/k8s/v1alpha1.ProviderNetworkSpec"; "./pkg/apis/k8s/v1alpha1.ProviderNetworkStatus";
    "k8s.io/apimachinery/pkg/apis/meta/v1.ObjectMeta"]
|}.

Definition schema_pkg_apis_k8s_v1alpha1_ProviderNetworkSpec : OpenAPIDefinition := {|
  OpenAPISchema := object_schema "ProviderNetworkSpec defines the desired state of ProviderNetwork"
    [("cniType", str_schema spec_doc);
     ("ipv4Subnets", array_schema "" (ref_schema "" (ref "./pkg/apis/k8s/v1alpha1.IpSubnet")));
     ("ipv6Subnets", array_schema "" (ref_schema "" (ref "./pkg/apis/k8s/v1alpha1.IpSubnet")));
     ("dns", ref_schema "" (ref "./pkg/apis/k8s/v1alpha1.DnsSpec"));
     ("routes", array_schema "" (ref_schema "" (ref "./pkg/apis/k8s/v1alpha1.Route")));
     ("providerNetType", str_schema "");
     ("vlan", ref_schema "" (ref "./pkg/apis/k8s/v1alpha1.VlanSpec"));
     ("direct", ref_schema "For now VLAN & Direct only supported type" (ref "./pkg/apis/k8s/v1alpha1.DirectSpec"))]
    ["cniType"; "ipv4Subnets"; "providerNetType"];
  Dependencies := ["./pkg/apis/k8s/v1alpha1.DirectSpec"; "./pkg/apis/k8s/v1alpha1.DnsSpec";
    "./pkg/apis/k8s/v1alpha1.IpSubnet"; "./pkg/apis/k8s/v1alpha1.Route"; "./pkg/apis/k8s/v1alpha1.VlanSpec"]
|}.

Definition schema_pkg_apis_k8s_v1alpha1_ProviderNetworkStatus : OpenAPIDefinition := {|
  OpenAPISchema := object_schema "ProviderNetworkStatus defines the observed state of ProviderNetwork"
    [("state", str_schema status_doc)] ["state"];
  Dependencies := []
|}.

Definition GetOpenAPIDefinitions : gmap string OpenAPIDefinition := list_to_map [
  ("./pkg/apis/k8s/v1alpha1.Network", schema_pkg_apis_k8s_v1alpha1_Network);
  ("./pkg/apis/k8s/v1alpha1.NetworkChaining", schema_pkg_apis_k8s_v1alpha1_NetworkChaining);
  ("./pkg/apis/k8s/v1alpha1.NetworkChainingSpec", schema_pkg_apis_k8s_v1alpha1_NetworkChainingSpec);
  ("./pkg/apis/k8s/v1alpha1.NetworkChainingStatus", schema_pkg_apis_k8s_v1alpha1_NetworkChainingStatus);
  ("./pkg/apis/k8s/v1alpha1.NetworkSpec", schema_pkg_apis_k8s_v1alpha1_NetworkSpec);
  ("./pkg/apis/k8s/v1alpha1.NetworkStatus", schema_pkg_apis_k8s_v1alpha1_NetworkStatus);
  ("./pkg/apis/k8s/v1alpha1.ProviderNetwork", schema_pkg_apis_k8s_v1alpha1_ProviderNetwork);
  ("./pkg/apis/k8s/v1alpha1.ProviderNetworkSpec", schema_pkg_apis_k8s_v1alpha1_ProviderNetworkSpec);
  ("./pkg/apis/k8s/v1alpha1.ProviderNetworkStatus", schema_pkg_apis_k8s_v1alpha1_ProviderNetworkStatus)].
End definitions.

(** ** The deployed schemas

    deploy/ovn4nfv-k8s-plugin.yaml, as the files of deploy/crds. *)

Definition text : Plain := str_schema "".
Definition texts : Plain := array_schema "" text.

Definition crd_subnets : Plain := array_schema "" (object_schema ""
  [("excludeIps", text); ("gateway", text); ("name", text); ("subnet", text)] ["name"; "subnet"]).
Definition crd_routes : Plain := array_schema "" (object_schema "" [("dst", text); ("gw", text)] ["dst"]).
Definition crd_dns : Plain := object_schema ""
  [("domain", text); ("nameservers", texts); ("options", texts); ("search", texts)] [].
Definition crd_status : Plain := object_schema "" [("state", text)] ["state"].

Definition crd_resource (spec : Plain) : Plain := object_schema ""
  [("apiVersion", text); ("kind", text); ("metadata", object_schema "" [] []); ("spec", spec);
   ("status", crd_status)] [].

Definition crd_networks : Plain := crd_resource (object_schema ""
  [("cniType", text); ("dns", crd_dns); ("ipv4Subnets", crd_subnets); ("ipv6Subnets", crd_subnets);
   ("routes", crd_routes)] ["cniType"; "ipv4Subnets"]).

Definition crd_providernetworks : Plain := crd_resource (object_schema ""
  [("cniType", text);
   ("direct", object_schema "" [("directNodeSelector", text); ("nodeLabelList", texts); ("providerInterfaceName", text)]
      ["directNodeSelector"; "providerInterfaceName"]);
   ("dns", crd_dns); ("ipv4Subnets", crd_subnets); ("ipv6Subnets", crd_subnets);
   ("providerNetType", text); ("routes", crd_routes);
   ("vlan", object_schema ""
      [("logicalInterfaceName", text); ("nodeLabelList", texts); ("providerInterfaceName", text); ("vlanId", text);
       ("vlanNodeSelector", text)] ["providerInterfaceName"; "vlanId"; "vlanNodeSelector"])]
  ["cniType"; "ipv4Subnets"; "providerNetType"]).

Definition crd_ends : Plain := array_schema "" (object_schema ""
  [("gatewayIp", text); ("networkName", text)] ["gatewayIp"; "networkName"]).
Definition crd_networkchainings : Plain := crd_resource (object_schema ""
  [("chainType", text);
   ("routingSpec", object_schema ""
      [("leftNetwork", crd_ends); ("namespace", text); ("networkChain", text); ("rightNetwork", crd_ends)]
      ["leftNetwork"; "namespace"; "networkChain"; "rightNetwork"])] ["chainType"; "routingSpec"]).

(** ** Values as records *)

Section values.
Context (meta_json : ObjectMeta -> Json) (json_meta : Json -> option ObjectMeta).

Definition no_meta : ObjectMeta := mkMeta "" "" [] None ∅.
Definition Value : Type := @GoVal ObjectMeta.
Implicit Type v : Value.

Definition as_string v : option string := match v with VStr s => Some s | _ => None end.
(** Nil and empty slices are both the empty list. *)
Definition as_list {A} (f : Value -> option A) v : option (list A) :=
  match v with VSlice None => Some [] | VSlice (Some l) => mapM f l | _ => None end.
Definition as_strings : Value -> option (list string) := as_list as_string.

Definition as_subnet v : option IpSubnet :=
  match v with
  | VStruct [n; s; g; x] =>
      n ← as_string n; s ← as_string s; g ← as_string g; x ← as_string x;
      Some {| sub_Name := n; Subnet := s; Gateway := g; ExcludeIps := x |}
  | _ => None
  end.
Definition as_route v : option Route :=
  match v with
  | VStruct [d; g] => d ← as_string d; g ← as_string g; Some {| Dst := d; GW := g |}
  | _ => None
  end.
Definition as_dns v : option DnsSpec :=
  match v with
  | VStruct [n; d; s; o] =>
      n ← as_strings n; d ← as_string d; s ← as_strings s; o ← as_strings o;
      Some {| Nameservers := n; Domain := d; Search := s; Options := o |}
  | _ => None
  end.
Definition as_vlan v : option VlanSpec :=
  match v with
  | VStruct [i; s; l; p; n] =>
      i ← as_string i; s ← as_string s; l ← as_strings l; p ← as_string p; n ← as_string n;
      Some {| vs_VlanId := i; VlanNodeSelector := s; vs_NodeLabelList := l; vs_ProviderInterfaceName := p;
              LogicalInterfaceName := n |}
  | _ => None
  end.
Definition as_direct v : option DirectSpec :=
  match v with
  | VStruct [s; l; p] =>
      s ← as_string s; l ← as_strings l; p ← as_string p;
      Some {| DirectNodeSelector := s; ds_NodeLabelList := l; ds_ProviderInterfaceName := p |}
  | _ => None
  end.

Definition as_network_spec v : option NetworkSpec :=
  match v with
  | VStruct [c; i4; i6; d; r] =>
      c ← as_string c; i4 ← as_list as_subnet i4; i6 ← as_list as_subnet i6; d ← as_dns d; r ← as_list as_route r;
      Some {| nw_CniType := c; nw_Ipv4Subnets := i4; nw_Ipv6Subnets := i6; nw_DNS := d; nw_Routes := r |}
  | _ => None
  end.
Definition as_pn_spec v : option ProviderNetworkSpec :=
  match v with
  | VStruct [c; i4; i6; d; r; t; vl; di] =>
      c ← as_string c; i4 ← as_list as_subnet i4; i6 ← as_list as_subnet i6; d ← as_dns d; r ← as_list as_route r;
      t ← as_string t; vl ← as_vlan vl; di ← as_direct di;
      Some {| pn_CniType := c; pn_Ipv4Subnets := i4; pn_Ipv6Subnets := i6; pn_DNS := d; pn_Routes := r;
              ProviderNetType := t; pn_Vlan := vl; pn_Direct := di |}
  | _ => None
  end.

(** The kind and the API version are not kept in Types.v. *)
Definition as_resource {A S T} (mk : ObjectMeta -> A -> S -> T) (spec : Value -> option A) (st : string -> S) v
  : option T :=
  match v with
  | VStruct [VStr _; VStr _; VLib m; sp; VStruct [VStr s]] => sp ← spec sp; Some (mk m sp (st s))
  | _ => None
  end.
Definition as_Network : Value -> option Network := as_resource mkNetwork as_network_spec Build_NetworkStatus.
Definition as_ProviderNetwork : Value -> option ProviderNetwork :=
  as_resource mkProviderNetwork as_pn_spec Build_ProviderNetworkStatus.

(** The assignments of the controllers: to the metadata and to the state. *)
Definition rewritten (m : ObjectMeta) (st : string) v : Value :=
  match v with
  | VStruct [k; a; VLib _; sp; VStruct [VStr _]] => VStruct [k; a; VLib m; sp; VStruct [VStr st]]
  | _ => v
  end.

Definition print (t : GoType) (v : Value) : Json := json_of meta_json t v.
Definition read (t : GoType) (j : Json) : option Value := of_json json_meta no_meta t j.

(** The server has read the metadata of what it hands out. *)
Definition metadata_reads (j : Json) : Prop :=
  match j with
  | JObject ms => match member "metadata" ms with Some m => is_Some (json_meta m) | None => True end
  | _ => True
  end.

Definition has_spec (j : Json) : bool :=
  match j with JObject ms => has_member ms "spec" | _ => false end.
End values.

(** ** The generated definitions *)

Fixpoint refers_to (t : GoType) : list string :=
  match t with TStr => [] | TSlice t => refers_to t | TStruct n _ _ | TLib n => [n] end.
Definition dependencies (t : GoType) : list string :=
  match t with TStruct _ _ fs => remove_dups (sort_by id (concat (map (fun f => refers_to f.2) fs))) | _ => [] end.

Definition generated {R} (ref : string -> R) (t : GoType) : string * @OpenAPIDefinition R :=
  (nth 0 (refers_to t) "", mkDefinition (definition_of ref t) (dependencies t)).

(** The structs with the mark [+k8s:openapi-gen=true]. *)
Definition marked : list GoType :=
  [NetworkType; NetworkChainingType; NetworkChainingSpecType; NetworkChainingStatusType; NetworkSpecType;
   NetworkStatusType; ProviderNetworkType; ProviderNetworkSpecType; ProviderNetworkStatusType].
Definition unmarked : list GoType :=
  [IpSubnetType; RouteType; DnsSpecType; VlanSpecType; DirectSpecType; RoutingNetworkType; RouteSpecType].

(** The definitions, references being names, with that of the library. *)
Definition named : gmap string (@OpenAPIDefinition string) :=
  <[ObjectMetaName := mkDefinition (object_schema "" [] []) []]> (GetOpenAPIDefinitions id).
Definition completed : gmap string (@OpenAPIDefinition string) :=
  list_to_map (map (generated id) unmarked) ∪ named.
Definition schema_in (m : gmap string (@OpenAPIDefinition string)) (n : string) : option (Schema string) :=
  OpenAPISchema <$> m !! n.

Lemma definitions_match_types {R} (ref : string -> R) :
  GetOpenAPIDefinitions ref = list_to_map (map (generated ref) marked).
Proof. reflexivity. Qed.

Lemma completed_definitions_deployed :
  let deployed n := canon <$> (schema_in completed (pkg n) ≫= expand (schema_in completed) 3) in
  deployed "Network" = Some (canon crd_networks) /\
  deployed "ProviderNetwork" = Some (canon crd_providernetworks).
Proof. vm_compute. split; reflexivity. Qed.

(** Names that the definitions refer to and do not define. *)
Definition undefined : list string :=
  List.filter (fun n => negb (bool_decide (is_Some (named !! n))))
    (remove_dups (concat (map (fun d => Dependencies d.2) (map_to_list (GetOpenAPIDefinitions (@id string)))))).

Lemma undefined_names :
  sort_by id undefined = map pkg ["DirectSpec"; "DnsSpec"; "IpSubnet"; "Route"; "RouteSpec"; "VlanSpec"].
Proof. vm_compute. reflexivity. Qed.

Lemma no_definition_without fuel n :
  In n (map pkg ["Network"; "NetworkSpec"; "ProviderNetwork"; "ProviderNetworkSpec"; "NetworkChaining";
                 "NetworkChainingSpec"]) ->
  schema_in named n ≫= expand (schema_in named) fuel = None.
Proof. intros H. cbn in H. destruct fuel as [|[|fuel]]; by repeat destruct H as [<-|H]. Qed.

(** ** Reading and writing the resources *)

Section resources.
Context (meta_json : ObjectMeta -> Json) (json_meta : Json -> option ObjectMeta).
Hypothesis meta_object : forall m, exists ms, meta_json m = JObject ms.
Implicit Type v : Value.

(** The record of a value is that of what is read back for it, whatever the tag. *)
Definition kept {A} (t : GoType) (f : Value -> option A) : Prop :=
  forall v, typed t v -> is_Some (f v) /\
    forall tag, f (if omitted tag v then zero_value no_meta t else read_back no_meta t v) = f v.

Lemma read_string tag s :
  (if omitted tag (VStr s : Value) then zero_value no_meta TStr else read_back no_meta TStr (VStr s)) = VStr s.
Proof. unfold omitted. cbn. destruct (t_omitempty tag); [|done]. cbn. case_bool_decide; [by subst|done]. Qed.

Lemma kept_string : kept TStr as_string.
Proof. intros [s| | |] Hv; try done. split; [by eexists|]. intros tag. by rewrite read_string. Qed.

Lemma kept_list {A} t (f : Value -> option A) : kept t f -> kept (TSlice t) (as_list f).
Proof.
  intros Hf v Hv. apply typed_slice_inv in Hv as ([l|] & -> & Hl);
    [|split; [by eexists|]; intros tag; unfold omitted; cbn; by destruct (_ && _)].
  specialize (Hl l eq_refl).
  assert (Hall : is_Some (mapM f l) /\ mapM f (map (read_back no_meta t) l) = mapM f l).
  { induction Hl as [|v l Hv _ [[xs Hxs] IH]]; [split; [by eexists|done]|].
    destruct (Hf v Hv) as [[x Hx] Hr]. specialize (Hr (mkTag "" false "")). cbn in Hr |- *. rewrite Hr, Hx, IH. cbn.
    rewrite Hxs. split; [by eexists|done]. }
  split; [apply Hall|]. intros tag. unfold omitted. destruct (t_omitempty tag), l; cbn; try done; apply Hall.
Qed.

Lemma kept_strings : kept (TSlice TStr) as_strings.
Proof. apply kept_list, kept_string. Qed.

Lemma kept_struct {A} n d fs (f : Value -> option A) :
  (forall vs, typed_fields fs vs -> is_Some (f (VStruct vs)) /\
     f (VStruct (read_fields no_meta fs vs)) = f (VStruct vs)) -> kept (TStruct n d fs) f.
Proof.
  intros H v Hv. apply typed_struct_inv in Hv as (vs & -> & Hv). destruct (H vs Hv) as [Hs He].
  split; [done|]. intros tag. unfold omitted. cbn [empty_value]. by rewrite andb_false_r, read_back_struct.
Qed.

(** The fields of a struct one after the other, each kept by a lemma of [kept]. *)
Ltac open_fields Hv :=
  repeat match type of Hv with
  | typed_fields (_ :: _) ?vs => destruct vs as [|?v vs]; [done|]; destruct Hv as [?Ht Hv]
  | typed_fields [] ?vs => destruct vs as [|]; [clear Hv|done]
  end.
Ltac keep_field :=
  match goal with
  | Ht : typed ?t ?v |- context [?f (if omitted ?tag ?v then zero_value no_meta ?t else _)] =>
      let Hf := fresh in let x := fresh "x" in let Hx := fresh "Hx" in let Hk := fresh "Hk" in
      assert (Hf : kept t f) by auto with kept;
      destruct (Hf v Ht) as [[x Hx] Hk]; rewrite !Hk, !Hx; clear Hf Hk Ht; cbn [mbind option_bind]
  end.
Ltac keep_struct :=
  apply kept_struct; intros vs Hv; open_fields Hv;
  cbn [read_fields field optional fst snd as_subnet as_route as_dns as_vlan as_direct as_network_spec as_pn_spec] in *;
  repeat keep_field; split; [by eexists|done].

Create HintDb kept.
#[local] Hint Resolve kept_string kept_list kept_strings : kept.

Lemma kept_subnet : kept IpSubnetType as_subnet.
Proof. keep_struct. Qed.
Lemma kept_route : kept RouteType as_route.
Proof. keep_struct. Qed.
Lemma kept_dns : kept DnsSpecType as_dns.
Proof. keep_struct. Qed.
Lemma kept_vlan : kept VlanSpecType as_vlan.
Proof. keep_struct. Qed.
Lemma kept_direct : kept DirectSpecType as_direct.
Proof. keep_struct. Qed.
#[local] Hint Resolve kept_subnet kept_route kept_dns kept_vlan kept_direct : kept.

Lemma kept_network_spec : kept NetworkSpecType as_network_spec.
Proof. keep_struct. Qed.
Lemma kept_pn_spec : kept ProviderNetworkSpecType as_pn_spec.
Proof. keep_struct. Qed.

(** *** A resource whose status is a state *)

Section resource.
Context {A S T : Type} (mk : ObjectMeta -> A -> S -> T) (spec : Value -> option A) (st : string -> S).
Variables (n d n' d' : string) (tag : Tag) (specT : GoType).
Hypothesis spec_kept : kept specT spec.

Abbreviation statusT := (TStruct n' d' [(tag, TStr)]).
Abbreviation resourceT := (TStruct n d (resource_fields specT statusT)).

Lemma typed_resource v :
  typed resourceT v ->
  exists k a m sp s, v = VStruct [VStr k; VStr a; VLib m; sp; VStruct [VStr s]] /\ typed specT sp.
Proof.
  intros Hv. apply typed_struct_inv in Hv as (vs & -> & Hv). unfold resource_fields, TypeMetaFields in Hv. cbn [app] in Hv.
  open_fields Hv. cbn in *. destruct v as [k| | |], v0 as [a| | |], v1 as [| | |m], v3 as [| |vs|]; try done.
  destruct vs as [|[s| | |] [|]]; try done; cbn in Ht3; destruct Ht3; try done. by exists k, a, m, v2, s.
Qed.

Lemma kept_resource : kept resourceT (as_resource mk spec st).
Proof.
  intros v Hv. destruct (typed_resource v Hv) as (k & a & m & sp & s & -> & Hsp).
  destruct (spec_kept sp Hsp) as [[x Hx] Hk]. cbn [as_resource]. rewrite Hx. split; [by eexists|]. intros tg.
  unfold omitted at 1. cbn [empty_value]. rewrite andb_false_r, read_back_struct.
  cbn [read_fields resource_fields TypeMetaFields app fst snd optional].
  assert (Hs : read_back no_meta statusT (VStruct [VStr s]) = VStruct [VStr s]).
  { rewrite read_back_struct. cbn [read_fields fst snd]. by rewrite read_string. }
  unfold omitted at 3 5. cbn [t_omitempty empty_value andb]. rewrite !read_string, Hs. cbn [read_back as_resource].
  by rewrite Hk, Hx.
Qed.

(** What is assigned to the metadata and to the state is what changes. *)
Lemma as_rewritten m s v o :
  typed resourceT v -> as_resource mk spec st v = Some o ->
  exists x m' s', o = mk m' x (st s') /\ as_resource mk spec st (rewritten m s v) = Some (mk m x (st s)).
Proof.
  intros Hv. destruct (typed_resource v Hv) as (k & a & m' & sp & s' & -> & _). cbn.
  destruct (spec sp) as [x|]; [|done]. intros [= <-]. by exists x, m', s'.
Qed.

Lemma typed_rewritten m s v : typed resourceT v -> typed resourceT (rewritten m s v).
Proof. intros Hv. by destruct (typed_resource v Hv) as (k & a & m' & sp & s' & -> & Hsp). Qed.

Lemma no_null_rewritten m s v : typed resourceT v -> no_null resourceT (rewritten m s v) = no_null resourceT v.
Proof.
  intros Hv. destruct (typed_resource v Hv) as (k & a & m' & sp & s' & -> & Hsp). cbn [rewritten].
  rewrite !no_null_struct. cbn [no_null_fields resource_fields TypeMetaFields app fst snd optional].
  rewrite !no_null_struct. cbn [no_null_fields fst snd no_null]. by rewrite !orb_true_r.
Qed.

(** *** Admission *)

Hypotheses (spec_tagged : well_tagged specT = true) (spec_filled : self_filled no_meta specT = true)
  (spec_needed : no_null specT (zero_value no_meta specT) = false) (spec_struct : exists a b c, specT = TStruct a b c).
Variable crd : Plain.
Hypothesis crd_matches : canon (inline "" resourceT) = canon crd.
Hypothesis spec_own : forall j, lib_reads json_meta specT j.

Lemma crd_meets j : meets crd j = meets (inline "" resourceT) j.
Proof. by rewrite <- (meets_canon crd), <- crd_matches, meets_canon. Qed.

Lemma resource_tagged : well_tagged resourceT = true.
Proof. cbn. by rewrite spec_tagged. Qed.

Lemma status_filled j : filled no_meta statusT j = true.
Proof.
  destruct j as [| | | | |ms]; try done. cbn. destruct (member _ ms); [done|]. unfold fine. cbn.
  by rewrite orb_true_r.
Qed.

Lemma spec_meets ms j :
  meets (inline "" resourceT) (JObject ms) = true -> member "spec" ms = Some j -> meets (inline "" specT) j = true.
Proof.
  cbn [inline meets object_schema]. rewrite !andb_true_iff, forallb_map. intros [_ [_ Hm]] Hj.
  rewrite forallb_forall in Hm.
  assert (Hin : In (optional "spec" specT) (resource_fields specT statusT)) by (do 3 right; by left).
  specialize (Hm _ Hin). cbn in Hm. by rewrite Hj in Hm.
Qed.

Lemma filled_struct n0 d0 fs ms :
  filled no_meta (TStruct n0 d0 fs) (JObject ms) = forallb (fun f => match member (t_json f.1) ms with
    | Some j => filled no_meta f.2 j | None => fine f (zero_value no_meta f.2) end) fs.
Proof. reflexivity. Qed.

Lemma resource_filled ms :
  meets (inline "" resourceT) (JObject ms) = true -> filled no_meta resourceT (JObject ms) = has_member ms "spec".
Proof.
  intros Hm. rewrite filled_struct. cbn [forallb resource_fields TypeMetaFields app fst snd optional t_json].
  change (zero_value no_meta TStr) with (VStr "" : Value).
  assert (Hstr : forall (k : string) tg (o : option Json),
    match o with Some j => filled no_meta TStr j | None => fine (tg, TStr) (VStr "" : Value) end = true).
  { intros k [? [|] ?] [[]|]; reflexivity. }
  rewrite (Hstr "kind"), (Hstr "apiVersion"). cbn [andb].
  replace (match member "metadata" ms with Some _ => _ | None => _ end) with true
    by (by destruct (member "metadata" ms) as [[]|]).
  replace (match member "status" ms with Some j => _ | None => _ end) with true.
  2: { destruct (member "status" ms) as [j|]; [by rewrite status_filled|]. unfold fine. cbn. by rewrite orb_true_r. }
  cbn [andb]. rewrite andb_true_r. unfold has_member. destruct (member "spec" ms) as [j|] eqn:Hj.
  - eapply meets_filled; [exact spec_filled|]. by apply (spec_meets ms).
  - destruct spec_struct as (a & b & c & ->). unfold fine, omitted. cbn [empty_value zero_value].
    rewrite andb_false_r. exact spec_needed.
Qed.

Lemma resource_lib_reads j : metadata_reads json_meta j -> lib_reads json_meta resourceT j.
Proof.
  destruct j as [| | | | |ms]; try done. intros Hm. repeat split; cbn [fst snd t_json optional]; try (by destruct (member _ ms) as [[]|]).
  - cbn in Hm. by destruct (member "metadata" ms).
  - destruct (member "status" ms) as [[]|]; try done. cbn. by destruct (member (t_json tag) members) as [[]|].
Qed.

(** What is admitted is read as a record, and is admitted again when it is
    written with other metadata and another state, if it has a spec. *)
Lemma admitted_resource j :
  meets crd j = true -> metadata_reads json_meta j ->
  exists v x m s, read json_meta resourceT j = Some v /\ as_resource mk spec st v = Some (mk m x (st s)) /\
    forall m' s', as_resource mk spec st (rewritten m' s' v) = Some (mk m' x (st s')) /\
      meets crd (print meta_json resourceT (rewritten m' s' v)) = has_spec j.
Proof.
  rewrite crd_meets. intros Hm Hr. pose proof (resource_lib_reads j Hr) as Hl.
  destruct (meets_reads json_meta no_meta "" resourceT j Hm Hl) as (v & Hv & Ht & Hn & _).
  destruct j as [| | | | |ms]; try done. rewrite (resource_filled ms Hm) in Hn.
  destruct (typed_resource v Ht) as (k & a & m & sp & s & Heq & Hsp).
  destruct (proj1 (spec_kept sp Hsp)) as [x Hx].
  exists v, x, m, s. split; [done|]. split; [subst v; cbn; by rewrite Hx|]. intros m' s'.
  split; [subst v; cbn; by rewrite Hx|]. rewrite crd_meets. unfold print.
  rewrite meets_print; [|done|apply resource_tagged|by apply typed_rewritten]. by rewrite no_null_rewritten.
Qed.
End resource.

Lemma network_admitted j :
  meets crd_networks j = true -> metadata_reads json_meta j ->
  exists v x m s, read json_meta NetworkType j = Some v /\ as_Network v = Some (mkNetwork m x (Build_NetworkStatus s)) /\
    forall m' s', as_Network (rewritten m' s' v) = Some (mkNetwork m' x (Build_NetworkStatus s')) /\
      meets crd_networks (print meta_json NetworkType (rewritten m' s' v)) = has_spec j.
Proof.
  apply (admitted_resource mkNetwork as_network_spec Build_NetworkStatus _ _ _ _ _ NetworkSpecType);
    [exact kept_network_spec|reflexivity|reflexivity|reflexivity|by do 3 eexists|vm_compute; reflexivity|].
  intros j'. by apply lib_free_reads.
Qed.

Lemma providernetwork_admitted j :
  meets crd_providernetworks j = true -> metadata_reads json_meta j ->
  exists v x m s, read json_meta ProviderNetworkType j = Some v /\
    as_ProviderNetwork v = Some (mkProviderNetwork m x (Build_ProviderNetworkStatus s)) /\
    forall m' s', as_ProviderNetwork (rewritten m' s' v) = Some (mkProviderNetwork m' x (Build_ProviderNetworkStatus s')) /\
      meets crd_providernetworks (print meta_json ProviderNetworkType (rewritten m' s' v)) = has_spec j.
Proof.
  apply (admitted_resource mkProviderNetwork as_pn_spec Build_ProviderNetworkStatus _ _ _ _ _ ProviderNetworkSpecType);
    [exact kept_pn_spec|reflexivity|reflexivity|reflexivity|by do 3 eexists|vm_compute; reflexivity|].
  intros j'. by apply lib_free_reads.
Qed.

(** ** Properties *)

(** C35: What the deployed schemas of networks and provider networks admit is read as
    a record; with any metadata and any state that a controller then assigns it
    is admitted again if and only if it has a spec.  (Without one, the nil slice
    of its subnets is printed as null, which is not an array.) *)
Theorem admitted_written_back j :
  metadata_reads json_meta j ->
  (meets crd_networks j = true ->
   exists v x m s, read json_meta NetworkType j = Some v /\ as_Network v = Some (mkNetwork m x (Build_NetworkStatus s)) /\
     forall m' s', as_Network (rewritten m' s' v) = Some (mkNetwork m' x (Build_NetworkStatus s')) /\
       meets crd_networks (print meta_json NetworkType (rewritten m' s' v)) = has_spec j) /\
  (meets crd_providernetworks j = true ->
   exists v x m s, read json_meta ProviderNetworkType j = Some v /\
     as_ProviderNetwork v = Some (mkProviderNetwork m x (Build_ProviderNetworkStatus s)) /\
     forall m' s', as_ProviderNetwork (rewritten m' s' v) = Some (mkProviderNetwork m' x (Build_ProviderNetworkStatus s')) /\
       meets crd_providernetworks (print meta_json ProviderNetworkType (rewritten m' s' v)) = has_spec j).
Proof. intros Hr. split; intros Hm; [by apply network_admitted|by apply providernetwork_admitted]. Qed.

Variable exact : ObjectMeta -> Prop.
Hypothesis json_meta_json : forall m, exact m -> json_meta (meta_json m) = Some m.

Lemma round_trip {A} t (f : Value -> option A) v :
  kept t f -> well_tagged t = true -> typed t v -> libs_exact exact t v ->
  exists o, f v = Some o /\ read json_meta t (print meta_json t v) ≫= f = Some o.
Proof.
  intros Hf Hw Hv Hx. destruct (Hf v Hv) as [[o Ho] Hk]. exists o. split; [done|].
  unfold read, print. rewrite (of_json_of _ _ _ exact) by done. cbn.
  rewrite <- Ho. exact (Hk (mkTag "" false "")).
Qed.

(** A network or provider network that is printed and read again is the same
    record, whichever of its slices are nil. *)
Theorem resources_round_trip v :
  (typed NetworkType v -> libs_exact exact NetworkType v ->
   exists o, as_Network v = Some o /\ read json_meta NetworkType (print meta_json NetworkType v) ≫= as_Network = Some o) /\
  (typed ProviderNetworkType v -> libs_exact exact ProviderNetworkType v ->
   exists o, as_ProviderNetwork v = Some o /\
     read json_meta ProviderNetworkType (print meta_json ProviderNetworkType v) ≫= as_ProviderNetwork = Some o).
Proof.
  split; intros Hv Hx; (apply round_trip; [apply kept_resource|reflexivity|exact Hv|exact Hx]);
    [exact kept_network_spec|exact kept_pn_spec].
Qed.
End resources.


(** ** Network chains

    The deployed schema of the networks at the ends of a chain has no subnet. *)

Lemma chain_schema_deployed :
  let ends := TSlice (TStruct (pkg "RoutingNetwork") "" [field "networkName" TStr; field "gatewayIp" TStr]) in
  let routing := TStruct (pkg "RouteSpec") ""
    [field "leftNetwork" ends; field "rightNetwork" ends; field "networkChain" TStr; field "namespace" TStr] in
  canon (inline "" (TStruct "" "" (resource_fields
    (TStruct "" "" [field "chainType" TStr; field "routingSpec" routing]) NetworkChainingStatusType))) =
  canon crd_networkchainings.
Proof. vm_compute. reflexivity. Qed.

Definition chain_with_subnet (subnet : Json) : Json :=
  let end_ := JObject [("networkName", JString "net1"); ("gatewayIp", JString "10.1.0.1"); ("subnet", subnet)] in
  JObject [("spec", JObject [("chainType", JString "Routing"); ("routingSpec", JObject
    [("leftNetwork", JArray [end_]); ("rightNetwork", JArray [end_]); ("networkChain", JString "app=a"); ("namespace", JString "default")])])].

(** So a subnet of any form is admitted; one that is not a string cannot be read,
    and neither can a list that has such a chain in it. *)
Lemma chain_admitted_unread json_meta n l :
  let bad := chain_with_subnet (JNumber n) in
  meets crd_networkchainings bad = true /\ read json_meta NetworkChainingType bad = None /\
  (In bad l -> read json_meta (TSlice NetworkChainingType) (JArray l) = None).
Proof.
  intros bad. assert (Hbad : read json_meta NetworkChainingType bad = None) by reflexivity.
  split; [reflexivity|]. split; [exact Hbad|]. unfold read in *. cbn [of_json].
  generalize NetworkChainingType bad Hbad. clear. intros t bad Hbad Hin.
  assert (Hm : mapM (of_json json_meta no_meta t) l = None); [|by rewrite Hm].
  induction l as [|j l IH]; [done|]. cbn. destruct Hin as [->|Hin]; [by rewrite Hbad|].
  destruct (of_json _ _ _ j); [|done]. cbn. by rewrite IH.
Qed.

(** ** Instances *)

(** Metadata without labels and deletion time. *)
Definition simple_json (m : ObjectMeta) : Json :=
  JObject [("name", JString (Name m)); ("namespace", JString (Namespace m));
           ("finalizers", JArray (map JString (Finalizers m)))].
Definition json_simple (j : Json) : option ObjectMeta :=
  match j with
  | JObject [(_, JString n); (_, JString ns); (_, JArray fs)] =>
      fs ← mapM (fun j => match j with JString s => Some s | _ => None end) fs; Some (mkMeta n ns fs None ∅)
  | _ => None
  end.
Definition simple (m : ObjectMeta) : Prop := DeletionTimestamp m = None /\ Labels m = ∅.

Lemma simple_read m : simple m -> json_simple (simple_json m) = Some m.
Proof.
  destruct m as [n ns fs t ls]. intros [Ht Hl]. cbn in *. subst.
  assert (Hm : mapM (fun j => match j with JString s => Some s | _ => None end) (map JString fs) = Some fs); [|by rewrite Hm].
  induction fs as [|f fs IH]; [done|]. cbn. by rewrite IH.
Qed.

Definition demo_network (spec : list (string * Json)) : Json :=
  JObject ([("kind", JString "Network"); ("metadata", simple_json (mkMeta "net1" "default" [] None ∅))] ++ spec).
Definition demo_spec : list (string * Json) :=
  [("spec", JObject [("cniType", JString "ovn4nfv"); ("ipv4Subnets", JArray
     [JObject [("name", JString "subnet1"); ("subnet", JString "10.1.0.0/16")]])])].

Lemma admitted_written_back_witness :
  metadata_reads json_simple (demo_network demo_spec) /\ metadata_reads json_simple (demo_network []) /\
  ((exists v x m s, read json_simple NetworkType (demo_network demo_spec) = Some v /\
      as_Network v = Some (mkNetwork m x (Build_NetworkStatus s)) /\
      forall m' s', as_Network (rewritten m' s' v) = Some (mkNetwork m' x (Build_NetworkStatus s')) /\
        meets crd_networks (print simple_json NetworkType (rewritten m' s' v)) = true) /\
   (exists v x m s, read json_simple NetworkType (demo_network []) = Some v /\
      as_Network v = Some (mkNetwork m x (Build_NetworkStatus s)) /\
      forall m' s', as_Network (rewritten m' s' v) = Some (mkNetwork m' x (Build_NetworkStatus s')) /\
        meets crd_networks (print simple_json NetworkType (rewritten m' s' v)) = false)).
Proof.
  split; [by eexists|]. split; [by eexists|]. split.
  - exact (proj1 (admitted_written_back simple_json json_simple (fun m => ex_intro _ _ eq_refl) (demo_network demo_spec)
      (ex_intro _ _ eq_refl)) eq_refl).
  - exact (proj1 (admitted_written_back simple_json json_simple (fun m => ex_intro _ _ eq_refl) (demo_network [])
      (ex_intro _ _ eq_refl)) eq_refl).
Defined.

Definition demo_value : Value :=
  VStruct [VStr "Network"; VStr ""; VLib (mkMeta "net1" "default" ["f"] None ∅);
    VStruct [VStr "ovn4nfv"; VSlice None; VSlice (Some []); VStruct [VSlice None; VStr ""; VSlice (Some []); VSlice None];
             VSlice None]; VStruct [VStr Created]].

Lemma resources_round_trip_witness :
  typed NetworkType demo_value /\ libs_exact simple NetworkType demo_value /\
  exists o, as_Network demo_value = Some o /\
    read json_simple NetworkType (print simple_json NetworkType demo_value) ≫= as_Network = Some o.
Proof.
  assert (Ht : typed NetworkType demo_value) by (cbn; repeat split; constructor).
  assert (Hx : libs_exact simple NetworkType demo_value) by (cbn; repeat split; constructor).
  split; [exact Ht|]. split; [exact Hx|].
  exact (proj1 (resources_round_trip simple_json json_simple simple simple_read demo_value) Ht Hx).
Defined.
