(* ===== verification/Informers.v ===== *)
(** * Informers: the generated informers and listers (pkg/generated/informers, pkg/generated/listers)

    The factory of factory.go as state that its methods pass on; its lock makes
    every method one step.  [reflect.Type] is the name of the type.  Shared index
    informers are client-go's ([CacheWorld]) and are numbers here; starting one
    in a goroutine is in the list of runs that [Start] gives.  The informers of
    k8s/v1alpha1, what they list and watch, and the listers over an indexer. *)

From S2P Require Import Prelude.
From S2P Require Import Types.
From S2P Require Import World.
From S2P Require Import Clients.
From S2P Require Import Listers.
From S2P Require Import ApiServer.

#[local] Open Scope string_scope.
#[local] Open Scope list_scope.

(** ** client-go's cache *)

Variant ListResult :=
| LNetworks (l : NetworkList) | LNetworkChainings (l : NetworkChainingList) | LProviderNetworks (l : ProviderNetworkList).

Record ListWatch (E : Type) := {
  ListFunc : ListOptions -> E -> (ListResult * option error) * E;
  WatchFunc : ListOptions -> E -> (nat * option error) * E
}.
Arguments Build_ListWatch {E}.
Arguments ListFunc {E}.
Arguments WatchFunc {E}.

Class CacheWorld (E : Type) := {
  (** the list-watch, the type of the objects, the resync period, the indexers *)
  NewSharedIndexInformer : ListWatch E -> string -> Z -> list string -> E -> nat * E;
  (** [cache.WaitForCacheSync(stopCh, informer.HasSynced)] *)
  wait_synced : nat -> E -> bool * E;
  GetIndexer : nat -> nat;
  NewGenericLister : nat -> string * string -> nat
}.

Definition NamespaceIndex : string := "namespace".

Section informers.
Context {E : Type} `{!RestWorld E, !CacheWorld E}.

Definition TweakListOptionsFunc : Type := ListOptions -> ListOptions.
Definition NewInformerFunc : Type := Clientset -> Z -> E -> nat * E.

(** ** factory.go *)

Record sharedInformerFactory := mkFactory {
  sif_client : Clientset; sif_namespace : string; sif_tweak : option TweakListOptionsFunc;
  defaultResync : Z; customResync : gmap string Z;
  informers : gmap string nat; startedInformers : gmap string bool
}.

Definition SharedInformerOption : Type := sharedInformerFactory -> sharedInformerFactory.

(** The entries of the map in the order of the loop, each with the type of its key. *)
Definition WithCustomResyncConfig (resyncConfig : list (string * Z)) : SharedInformerOption := fun f =>
  mkFactory (sif_client f) (sif_namespace f) (sif_tweak f) (defaultResync f)
    (foldl (fun m '(k, v) => <[k := v]> m) (customResync f) resyncConfig) (informers f) (startedInformers f).

Definition WithTweakListOptions (tweak : option TweakListOptionsFunc) : SharedInformerOption := fun f =>
  mkFactory (sif_client f) (sif_namespace f) tweak (defaultResync f) (customResync f) (informers f) (startedInformers f).

Definition WithNamespace (namespace : string) : SharedInformerOption := fun f =>
  mkFactory (sif_client f) namespace (sif_tweak f) (defaultResync f) (customResync f) (informers f) (startedInformers f).

Definition NewSharedInformerFactoryWithOptions (client : Clientset) (defaultResync : Z)
    (options : list SharedInformerOption) : sharedInformerFactory :=
  foldl (fun factory opt => opt factory) (mkFactory client "" None defaultResync ∅ ∅ ∅) options.

Definition NewSharedInformerFactory (client : Clientset) (defaultResync : Z) : sharedInformerFactory :=
  NewSharedInformerFactoryWithOptions client defaultResync [].

Definition NewFilteredSharedInformerFactory (client : Clientset) (defaultResync : Z) (namespace : string)
    (tweak : option TweakListOptionsFunc) : sharedInformerFactory :=
  NewSharedInformerFactoryWithOptions client defaultResync [WithNamespace namespace; WithTweakListOptions tweak].

Definition set_informers (m : gmap string nat) (f : sharedInformerFactory) : sharedInformerFactory :=
  mkFactory (sif_client f) (sif_namespace f) (sif_tweak f) (defaultResync f) (customResync f) m (startedInformers f).
Definition set_started (m : gmap string bool) (f : sharedInformerFactory) : sharedInformerFactory :=
  mkFactory (sif_client f) (sif_namespace f) (sif_tweak f) (defaultResync f) (customResync f) (informers f) m.

(** Reading a Go map of booleans. *)
Definition is_started (m : gmap string bool) (t : string) : bool := default false (m !! t).

(** One entry of the loop of [Start]: the runs so far, the map of started informers. *)
Definition start_one (a : list (string * nat) * gmap string bool) (kv : string * nat)
  : list (string * nat) * gmap string bool :=
  let '(runs, started) := a in
  let '(informerType, informer) := kv in
  if negb (is_started started informerType)
  then (runs ++ [(informerType, informer)], <[informerType := true]> started)
  else (runs, started).

(** [picks] decides the order of the loop over the map. *)
Definition factory_Start (picks : list nat) (f : sharedInformerFactory) : list (string * nat) * sharedInformerFactory :=
  let '(runs, started) := foldl start_one ([], startedInformers f) (pick_order picks (map_to_list (informers f))) in
  (runs, set_started started f).

Fixpoint wait_all (informers : list (string * nat)) (res : gmap string bool) (e : E) : gmap string bool * E :=
  match informers with
  | [] => (res, e)
  | (informType, informer) :: rest =>
      let '(b, e) := wait_synced informer e in wait_all rest (<[informType := b]> res) e
  end.

Definition WaitForCacheSync (picks : list nat) (f : sharedInformerFactory) : E -> gmap string bool * E :=
  let started := filter (fun kv => is_started (startedInformers f) kv.1 = true) (informers f) in
  wait_all (pick_order picks (map_to_list started)) ∅.

Definition InformerFor (informerType : string) (newFunc : NewInformerFunc) (f : sharedInformerFactory)
  : E -> nat * sharedInformerFactory * E := fun e =>
  match informers f !! informerType with
  | Some informer => (informer, f, e)
  | None =>
      let resyncPeriod := default (defaultResync f) (customResync f !! informerType) in
      let '(informer, e) := newFunc (sif_client f) resyncPeriod e in
      (informer, set_informers (<[informerType := informer]> (informers f)) f, e)
  end.

Definition tweaked (tweak : option TweakListOptionsFunc) (options : ListOptions) : ListOptions :=
  match tweak with Some t => t options | None => options end.

(** ** k8s/v1alpha1/network.go *)

Record networkInformer := { nwi_tweak : option TweakListOptionsFunc; nwi_namespace : string }.

Definition network_ListWatch (client : Clientset) (namespace : string) (tweak : option TweakListOptionsFunc) : ListWatch E :=
  Build_ListWatch
    (fun options e =>
       let '((l, err), e) := networks_List (Networks (K8sV1alpha1 client) namespace) (tweaked tweak options) e in
       ((LNetworks l, err), e))
    (fun options => networks_Watch (Networks (K8sV1alpha1 client) namespace) (tweaked tweak options)).

Definition NewFilteredNetworkInformer (client : Clientset) (namespace : string) (resyncPeriod : Z)
    (indexers : list string) (tweak : option TweakListOptionsFunc) : E -> nat * E :=
  NewSharedIndexInformer (network_ListWatch client namespace tweak) "*v1alpha1.Network" resyncPeriod indexers.

Definition NewNetworkInformer (client : Clientset) (namespace : string) (resyncPeriod : Z) (indexers : list string)
  : E -> nat * E :=
  NewFilteredNetworkInformer client namespace resyncPeriod indexers None.

Definition network_defaultInformer (i : networkInformer) : NewInformerFunc := fun client resyncPeriod =>
  NewFilteredNetworkInformer client (nwi_namespace i) resyncPeriod [NamespaceIndex] (nwi_tweak i).

Definition network_Informer (i : networkInformer) (f : sharedInformerFactory) : E -> nat * sharedInformerFactory * E :=
  InformerFor "*v1alpha1.Network" (network_defaultInformer i) f.

Definition network_Lister (i : networkInformer) (f : sharedInformerFactory) : E -> networkLister * sharedInformerFactory * E := fun e =>
  let '(informer, f, e) := network_Informer i f e in (NewNetworkLister (GetIndexer informer), f, e).

(** ** k8s/v1alpha1/networkchaining.go *)

Record networkChainingInformer := { nci_tweak : option TweakListOptionsFunc; nci_namespace : string }.

Definition networkChaining_ListWatch (client : Clientset) (namespace : string) (tweak : option TweakListOptionsFunc) : ListWatch E :=
  Build_ListWatch
    (fun options e =>
       let '((l, err), e) := networkChainings_List (NetworkChainings (K8sV1alpha1 client) namespace) (tweaked tweak options) e in
       ((LNetworkChainings l, err), e))
    (fun options => networkChainings_Watch (NetworkChainings (K8sV1alpha1 client) namespace) (tweaked tweak options)).

Definition NewFilteredNetworkChainingInformer (client : Clientset) (namespace : string) (resyncPeriod : Z)
    (indexers : list string) (tweak : option TweakListOptionsFunc) : E -> nat * E :=
  NewSharedIndexInformer (networkChaining_ListWatch client namespace tweak) "*v1alpha1.NetworkChaining" resyncPeriod indexers.

Definition NewNetworkChainingInformer (client : Clientset) (namespace : string) (resyncPeriod : Z) (indexers : list string)
  : E -> nat * E :=
  NewFilteredNetworkChainingInformer client namespace resyncPeriod indexers None.

Definition networkChaining_defaultInformer (i : networkChainingInformer) : NewInformerFunc := fun client resyncPeriod =>
  NewFilteredNetworkChainingInformer client (nci_namespace i) resyncPeriod [NamespaceIndex] (nci_tweak i).

Definition networkChaining_Informer (i : networkChainingInformer) (f : sharedInformerFactory) : E -> nat * sharedInformerFactory * E :=
  InformerFor "*v1alpha1.NetworkChaining" (networkChaining_defaultInformer i) f.

Definition networkChaining_Lister (i : networkChainingInformer) (f : sharedInformerFactory) : E -> networkChainingLister * sharedInformerFactory * E := fun e =>
  let '(informer, f, e) := networkChaining_Informer i f e in (NewNetworkChainingLister (GetIndexer informer), f, e).

(** ** k8s/v1alpha1/providernetwork.go *)

Record providerNetworkInformer := { pni_tweak : option TweakListOptionsFunc; pni_namespace : string }.

Definition providerNetwork_ListWatch (client : Clientset) (namespace : string) (tweak : option TweakListOptionsFunc) : ListWatch E :=
  Build_ListWatch
    (fun options e =>
       let '((l, err), e) := providerNetworks_List (ProviderNetworks (K8sV1alpha1 client) namespace) (tweaked tweak options) e in
       ((LProviderNetworks l, err), e))
    (fun options => providerNetworks_Watch (ProviderNetworks (K8sV1alpha1 client) namespace) (tweaked tweak options)).

Definition NewFilteredProviderNetworkInformer (client : Clientset) (namespace : string) (resyncPeriod : Z)
    (indexers : list string) (tweak : option TweakListOptionsFunc) : E -> nat * E :=
  NewSharedIndexInformer (providerNetwork_ListWatch client namespace tweak) "*v1alpha1.ProviderNetwork" resyncPeriod indexers.

Definition NewProviderNetworkInformer (client : Clientset) (namespace : string) (resyncPeriod : Z) (indexers : list string)
  : E -> nat * E :=
  NewFilteredProviderNetworkInformer client namespace resyncPeriod indexers None.

Definition providerNetwork_defaultInformer (i : providerNetworkInformer) : NewInformerFunc := fun client resyncPeriod =>
  NewFilteredProviderNetworkInformer client (pni_namespace i) resyncPeriod [NamespaceIndex] (pni_tweak i).

Definition providerNetwork_Informer (i : providerNetworkInformer) (f : sharedInformerFactory) : E -> nat * sharedInformerFactory * E :=
  InformerFor "*v1alpha1.ProviderNetwork" (providerNetwork_defaultInformer i) f.

Definition providerNetwork_Lister (i : providerNetworkInformer) (f : sharedInformerFactory) : E -> providerNetworkLister * sharedInformerFactory * E := fun e =>
  let '(informer, f, e) := providerNetwork_Informer i f e in (NewProviderNetworkLister (GetIndexer informer), f, e).

(** ** k8s/interface.go, k8s/v1alpha1/interface.go and generic.go

    A group and a version keep the factory's namespace and tweak. *)
Record version := { v_namespace : string; v_tweak : option TweakListOptionsFunc }.

Definition K8s (f : sharedInformerFactory) : version := {| v_namespace := sif_namespace f; v_tweak := sif_tweak f |}.
Definition V1alpha1 (g : version) : version := {| v_namespace := v_namespace g; v_tweak := v_tweak g |}.

Definition version_Networks (v : version) : networkInformer := {| nwi_tweak := v_tweak v; nwi_namespace := v_namespace v |}.
Definition version_NetworkChainings (v : version) : networkChainingInformer :=
  {| nci_tweak := v_tweak v; nci_namespace := v_namespace v |}.
Definition version_ProviderNetworks (v : version) : providerNetworkInformer :=
  {| pni_tweak := v_tweak v; pni_namespace := v_namespace v |}.

Record genericInformer := { gi_informer : nat; gi_resource : string * string }.

Definition genericInformer_Lister (f : genericInformer) : nat := NewGenericLister (GetIndexer (gi_informer f)) (gi_resource f).

(** A resource is its group, version and name. *)
Definition ForResource (resource : string * string * string) (f : sharedInformerFactory)
  : E -> (genericInformer + error) * sharedInformerFactory * E := fun e =>
  let generic (a : nat * sharedInformerFactory * E) :=
    let '(i, f, e) := a in (inl {| gi_informer := i; gi_resource := (resource.1.1, resource.2) |}, f, e) in
  if bool_decide (resource = (SchemeGroupVersion, "networks")) then
    generic (network_Informer (version_Networks (V1alpha1 (K8s f))) f e)
  else if bool_decide (resource = (SchemeGroupVersion, "networkchainings")) then
    generic (networkChaining_Informer (version_NetworkChainings (V1alpha1 (K8s f))) f e)
  else if bool_decide (resource = (SchemeGroupVersion, "providernetworks")) then
    generic (providerNetwork_Informer (version_ProviderNetworks (V1alpha1 (K8s f))) f e)
  else
    let '(group, v, r) := resource in
    (inr (ErrorString ("no informer found for " +:+ group +:+ "/" +:+ v +:+ ", Resource=" +:+ r)), f, e).

(** ** Histories of a factory

    Requests for informers, of any type and with any maker, and starts. *)
Variant factory_op :=
| OpInformerFor (informerType : string) (newFunc : NewInformerFunc)
| OpStart (picks : list nat).

Definition factory_step (c : sharedInformerFactory * list (string * nat) * E) (o : factory_op)
  : sharedInformerFactory * list (string * nat) * E :=
  let '(f, runs, e) := c in
  match o with
  | OpInformerFor t newFunc => let '(_, f, e) := InformerFor t newFunc f e in (f, runs, e)
  | OpStart picks => let '(r, f) := factory_Start picks f in (f, runs ++ r, e)
  end.

Definition factory_run (ops : list factory_op) (f : sharedInformerFactory) (e : E) :=
  foldl factory_step (f, [], e) ops.

(** The options that the package offers. *)
Definition package_option (opt : SharedInformerOption) : Prop :=
  (exists c, opt = WithCustomResyncConfig c) \/ (exists t, opt = WithTweakListOptions t) \/
  (exists n, opt = WithNamespace n).

(** What has run is what is marked as started, once each, and belongs to the
    factory. *)
Record runs_inv (m : gmap string nat) (runs : list (string * nat)) (started : gmap string bool) : Prop := {
  runs_once : NoDup runs.*1;
  runs_own : forall t i, (t, i) ∈ runs -> m !! t = Some i;
  runs_started : forall t, is_started started t = true <-> t ∈ runs.*1
}.

Lemma is_started_insert (m : gmap string bool) t t' :
  is_started (<[t := true]> m) t' = bool_decide (t = t') || is_started m t'.
Proof.
  unfold is_started. destruct (decide (t = t')) as [->|Hne].
  - by rewrite lookup_insert_eq, bool_decide_eq_true_2.
  - by rewrite lookup_insert_ne, bool_decide_eq_false_2.
Qed.

Lemma start_one_inv m runs started t i :
  m !! t = Some i -> runs_inv m runs started ->
  let '(runs', started') := start_one (runs, started) (t, i) in
  runs_inv m runs' started' /\ (t, i) ∈ runs' /\ runs `prefix_of` runs'.
Proof.
  intros Hm [Hnd Hown Hst]. unfold start_one. destruct (is_started started t) eqn:Hs; cbn [negb].
  - split; [by constructor|]. split; [|done]. apply Hst, list_elem_of_fmap in Hs as ([t' i'] & Heq & Hin).
    cbn in Heq. subst t'. assert (i' = i) by (apply Hown in Hin; congruence). by subst i'.
  - assert (Hnew : t ∉ runs.*1) by (intros Hin; apply Hst in Hin; congruence).
    split; [|split; [apply elem_of_app; right; by apply list_elem_of_singleton|by eexists]]. constructor.
    + rewrite fmap_app. apply NoDup_app. split; [done|]. split; [|apply NoDup_singleton].
      intros x Hx ->%list_elem_of_singleton. done.
    + intros t' i' [Hin|Heq%list_elem_of_singleton]%elem_of_app; [by apply Hown|by injection Heq as -> ->].
    + intros t'. rewrite is_started_insert, orb_true_iff, bool_decide_eq_true, Hst, fmap_app, elem_of_app.
      cbn. rewrite list_elem_of_singleton. intuition congruence.
Qed.

Lemma start_loop_inv m kvs runs started :
  (forall t i, (t, i) ∈ kvs -> m !! t = Some i) -> runs_inv m runs started ->
  let '(runs', started') := foldl start_one (runs, started) kvs in
  runs_inv m runs' started' /\ (forall t i, (t, i) ∈ kvs -> (t, i) ∈ runs') /\ runs `prefix_of` runs'.
Proof.
  revert runs started. induction kvs as [|[t i] kvs IH]; intros runs started Hm Hinv; cbn [foldl].
  { split; [done|]. split; [|done]. by intros ?? ?%not_elem_of_nil. }
  pose proof (start_one_inv m runs started t i (Hm t i ltac:(left)) Hinv) as H1.
  destruct (start_one (runs, started) (t, i)) as [runs1 started1]. destruct H1 as (Hinv1 & Hin1 & Hp1).
  specialize (IH runs1 started1 ltac:(intros; apply Hm; by right) Hinv1).
  destruct (foldl start_one _ kvs) as [runs2 started2]. destruct IH as (Hinv2 & Hin2 & Hp2).
  split; [done|]. split; [|by etrans]. intros t' i' [[= -> ->]|Hin]%elem_of_cons; [|by apply Hin2].
  destruct Hp2 as [k ->]. apply elem_of_app. by left.
Qed.

(** The loop of [Start] begins with no runs; those of before come in front. *)
Lemma start_loop_app pre kvs runs started :
  foldl start_one (pre ++ runs, started) kvs =
  let '(r, s) := foldl start_one (runs, started) kvs in (pre ++ r, s).
Proof.
  revert runs started. induction kvs as [|[t i] kvs IH]; intros runs started; cbn [foldl]; [done|].
  unfold start_one at 2 4. destruct (negb _); [|apply IH]. rewrite <- app_assoc. apply IH.
Qed.

Lemma factory_Start_inv picks f runs :
  runs_inv (informers f) runs (startedInformers f) ->
  let '(r, f') := factory_Start picks f in
  informers f' = informers f /\ runs_inv (informers f') (runs ++ r) (startedInformers f') /\
  forall t i, informers f' !! t = Some i -> (t, i) ∈ runs ++ r.
Proof.
  intros Hinv. unfold factory_Start.
  assert (Hkvs : forall t i, (t, i) ∈ pick_order picks (map_to_list (informers f)) <-> informers f !! t = Some i).
  { intros t i. rewrite pick_order_perm. apply elem_of_map_to_list. }
  pose proof (start_loop_inv (informers f) (pick_order picks (map_to_list (informers f))) runs (startedInformers f)
    (fun t i => proj1 (Hkvs t i)) Hinv) as H.
  pose proof (start_loop_app runs (pick_order picks (map_to_list (informers f))) [] (startedInformers f)) as Happ.
  rewrite app_nil_r in Happ. rewrite Happ in H. clear Happ.
  destruct (foldl start_one ([], _) _) as [r started]. destruct H as (H1 & H2 & _). cbn.
  split; [done|]. split; [done|]. intros t i Hi. apply H2, Hkvs, Hi.
Qed.

Lemma InformerFor_inv t newFunc f runs e :
  runs_inv (informers f) runs (startedInformers f) ->
  let '(i, f', _) := InformerFor t newFunc f e in
  informers f' !! t = Some i /\ informers f ⊆ informers f' /\ runs_inv (informers f') runs (startedInformers f').
Proof.
  intros Hinv. unfold InformerFor. destruct (informers f !! t) as [i|] eqn:Ht; [done|].
  destruct (newFunc _ _ e) as [i e']. cbn. split; [apply lookup_insert_eq|].
  assert (Hsub : informers f ⊆ <[t:=i]> (informers f)) by by apply insert_subseteq.
  split; [done|]. destruct Hinv as [Hnd Hown Hst]. constructor; [done| |done].
  intros t' i' Hin. eapply lookup_weaken; [by apply Hown|done].
Qed.

Lemma factory_step_inv f runs e o :
  runs_inv (informers f) runs (startedInformers f) ->
  let '(f', runs', _) := factory_step (f, runs, e) o in
  informers f ⊆ informers f' /\ runs `prefix_of` runs' /\ runs_inv (informers f') runs' (startedInformers f').
Proof.
  intros Hinv. destruct o as [t newFunc|picks]; cbn [factory_step].
  - pose proof (InformerFor_inv t newFunc f runs e Hinv) as H. destruct (InformerFor t newFunc f e) as [[i f'] e'].
    by destruct H as (_ & H1 & H2).
  - pose proof (factory_Start_inv picks f runs Hinv) as H. destruct (factory_Start picks f) as [r f'].
    destruct H as (-> & H & _). split; [done|]. split; [by eexists|done].
Qed.

Lemma factory_run_inv ops f runs e :
  runs_inv (informers f) runs (startedInformers f) ->
  let '(f', runs', _) := foldl factory_step (f, runs, e) ops in
  informers f ⊆ informers f' /\ runs `prefix_of` runs' /\ runs_inv (informers f') runs' (startedInformers f').
Proof.
  revert f runs e. induction ops as [|o ops IH]; intros f runs e Hinv; cbn [foldl]; [done|].
  pose proof (factory_step_inv f runs e o Hinv) as H. destruct (factory_step _ o) as [[f1 runs1] e1].
  destruct H as (Hs1 & Hp1 & Hinv1). specialize (IH f1 runs1 e1 Hinv1).
  destruct (foldl factory_step _ ops) as [[f2 runs2] e2]. destruct IH as (Hs2 & Hp2 & Hinv2).
  split; [by etrans|]. split; [by etrans|done].
Qed.

(** ** Properties *)

(** in every history of a new factory, whatever the options and the order of
    the loops over its maps: a type keeps the informer that it got first; an
    informer of the factory runs at most once, however often [Start] is called;
    and after a [Start] every informer requested so far has been run. *)
Theorem informers_run_once client resync options ops picks more e :
  Forall package_option options ->
  let '(f1, runs1, e1) := factory_run ops (NewSharedInformerFactoryWithOptions client resync options) e in
  let '(f2, runs2, e2) := factory_step (f1, runs1, e1) (OpStart picks) in
  let '(f3, runs3, _) := foldl factory_step (f2, runs2, e2) more in
  (forall t i, informers f1 !! t = Some i -> (t, i) ∈ runs2 /\ informers f3 !! t = Some i) /\
  NoDup runs3.*1 /\ runs2 `prefix_of` runs3 /\ forall t i, (t, i) ∈ runs3 -> informers f3 !! t = Some i.
Proof.
  intros Hopts. set (f0 := NewSharedInformerFactoryWithOptions client resync options).
  assert (Hf0 : informers f0 = ∅ /\ startedInformers f0 = ∅).
  { unfold f0, NewSharedInformerFactoryWithOptions.
    set (f := mkFactory client "" None resync ∅ ∅ ∅).
    assert (Hf : informers f = ∅ /\ startedInformers f = ∅) by done. revert Hf. generalize f.
    induction options as [|opt options IH]; intros g Hg; cbn [foldl]; [done|].
    apply Forall_cons in Hopts as [Ho Hopts]. apply IH; [done|].
    destruct Ho as [[c ->]|[[t ->]|[n ->]]]; exact Hg. }
  assert (Hinv0 : runs_inv (informers f0) [] (startedInformers f0)).
  { destruct Hf0 as [-> ->]. constructor; [constructor|by intros ?? ?%not_elem_of_nil|].
    intros t. unfold is_started. rewrite lookup_empty. cbn. split; [done|by intros ?%not_elem_of_nil]. }
  unfold factory_run. pose proof (factory_run_inv ops f0 [] e Hinv0) as H1.
  destruct (foldl factory_step _ ops) as [[f1 runs1] e1]. destruct H1 as (_ & _ & Hinv1). cbn [factory_step].
  pose proof (factory_Start_inv picks f1 runs1 Hinv1) as H2. destruct (factory_Start picks f1) as [r f2].
  destruct H2 as (Heq & Hinv2 & Hall).
  pose proof (factory_run_inv more f2 (runs1 ++ r) e1 Hinv2) as H3.
  destruct (foldl factory_step _ more) as [[f3 runs3] e3]. destruct H3 as (Hsub & Hpre & [Hnd Hown _]).
  split; [|done]. intros t i Hi. rewrite <- Heq in Hi. split; [by apply Hall|by eapply lookup_weaken].
Qed.
End informers.

(** ** A concrete factory *)

#[local] Instance counted : CacheWorld Store := {|
  NewSharedIndexInformer _ ty _ _ st := (String.length ty, st);
  wait_synced _ st := (true, st);
  GetIndexer i := i;
  NewGenericLister i _ := i
|}.

Definition demo_ops : list (factory_op (E:=Store)) :=
  [OpInformerFor "*v1alpha1.Network" (network_defaultInformer {| nwi_tweak := None; nwi_namespace := "default" |});
   OpInformerFor "*v1alpha1.ProviderNetwork"
     (providerNetwork_defaultInformer {| pni_tweak := None; pni_namespace := "default" |});
   OpStart []].
Definition demo_more : list (factory_op (E:=Store)) :=
  [OpStart []; OpInformerFor "*v1alpha1.Network" (network_defaultInformer {| nwi_tweak := None; nwi_namespace := "other" |});
   OpStart []].

Lemma informers_run_once_witness :
  let f0 := NewSharedInformerFactoryWithOptions demo_clientset 30 [WithNamespace "default"] in
  let '(f1, runs1, e1) := factory_run demo_ops f0 demo_store in
  let '(f2, runs2, e2) := factory_step (f1, runs1, e1) (OpStart []) in
  let '(f3, runs3, _) := foldl factory_step (f2, runs2, e2) demo_more in
  ((forall t i, informers f1 !! t = Some i -> (t, i) ∈ runs2 /\ informers f3 !! t = Some i) /\
   NoDup runs3.*1 /\ runs2 `prefix_of` runs3 /\ forall t i, (t, i) ∈ runs3 -> informers f3 !! t = Some i) /\
  length runs3 = 2%nat.
Proof.
  pose proof (@informers_run_once Store demo_clientset 30 [WithNamespace "default"] demo_ops []
    demo_more demo_store) as H.
  cbv zeta.
  assert (Hl : length (foldl factory_step (factory_step (factory_run demo_ops
    (NewSharedInformerFactoryWithOptions demo_clientset 30 [WithNamespace "default"]) demo_store) (OpStart [])) demo_more).1.2
    = 2%nat) by (vm_compute; reflexivity).
  destruct (factory_run demo_ops _ demo_store) as [[f1 runs1] e1].
  destruct (factory_step (f1, runs1, e1) (OpStart [])) as [[f2 runs2] e2].
  destruct (foldl factory_step (f2, runs2, e2) demo_more) as [[f3 runs3] e3].
  split; [|exact Hl]. apply H. constructor; [|constructor]. right. right. by eexists.
Defined.
