(* ===== verification/Chain.v ===== *)
(** * Chain: routes of a network chain (internal/pkg/utils/chain.go)

    A chain is a text that alternates deployments (labels key=value) and the
    networks between them.  [CalculateRoutes] gives every member its routes to
    the edge networks and to the networks that are not its neighbours.  The
    package variable [chainRoutingInfo] collects the results.  Not in this
    file: [ContainerAddRoute] and [GetPidForContainer], which run on the node. *)

From S2P Require Import Prelude.
From S2P Require Import GoStrings.
From S2P Require Import GoNet.
From S2P Require Import Types.
From S2P Require Import World.
From S2P Require Import Runner.
From S2P Require Import Traces.
From S2P Require Import OvnCommon.
From Stdlib Require Import Ascii.

#[local] Open Scope string_scope.
#[local] Open Scope list_scope.

(** ** client-go and controller-runtime's configuration *)
Class ChainWorld (E : Type) := {
  kube_config : E -> option error * E;    (* config.GetConfig *)
  kube_clientset : E -> option error * E; (* kubernetes.NewForConfig *)
  list_pods : string -> string -> E -> (list Pod * option error) * E
}.

Definition zeroRoute : Route := {| Dst := ""; GW := "" |}.
Definition zeroRoutingInfo : RoutingInfo :=
  {| ri_Name := ""; ri_Namespace := ""; ri_Id := ""; ri_Node := "";
     LeftNetworkRoute := zeroRoute; RightNetworkRoute := zeroRoute; DynamicNetworkRoutes := [] |}.

(** The split of the chain text: even positions are deployments, odd ones
    networks. *)
Definition split_step (v : nat * list string * list string) (chain : string) :=
  let '(i, deploymentList, networkList) := v in
  if (i mod 2 =? 0)%nat then (S i, deploymentList ++ [chain], networkList)
  else (S i, deploymentList, networkList ++ [chain]).

Definition split_chain (chains : list string) : list string * list string :=
  let '(_, deploymentList, networkList) := foldl split_step (0%nat, [], []) chains in
  (deploymentList, networkList).

Section chain.
Context {E : Type} `{!ExecWorld E, !ChainWorld E}.

(** The address of the neighbour: the edge gateway, or the pod of the
    deployment [other] on the network [nw]. *)
Definition neighbour (edge : bool) (gateways : list RoutingNetwork) (other nw : M E string)
  : M E (string * option error) :=
  if edge then g ← index gateways 0; mret (rn_GatewayIP g, None)
  else
    label ← other;
    nw ← nw;
    n ← index (Split label "=") 1;
    GetIPAdressForPod nw n.

(** One network of the loop over [networkList]. *)
Definition dynamic_route (pos : Z) (nextLeftIP nextRightIP : string) (x : Z * string)
    (rts : list Route) : M E (list Route + option error) :=
  let '(i, nw) := x in
  if ((i =? pos) || (i =? pos - 1))%Z then mret (inl rts) else
  '(dst, err) ← GetNetworkSubnet nw;
  match err with
  | Some e => mret (inr (Some e))
  | None => mret (inl (rts ++ [{| Dst := dst; GW := if (pos <? i)%Z then nextRightIP else nextLeftIP |}]))
  end.

Definition calculateDeploymentRoutes (namespace label : string) (pos num : Z)
    (ln rn : list RoutingNetwork) (networkList deploymentList : list string)
  : M E (RoutingInfo * option error) :=
  let fail (e : error) : M E (RoutingInfo * option error) := mret (zeroRoutingInfo, Some e) in
  err ← prim kube_config (fun _ => EQuery "GetConfig");
  match err with Some e => fail e | None =>
  err ← prim kube_clientset (fun _ => EQuery "NewForConfig");
  match err with Some e => fail e | None =>
  '(pods, err) ← prim (list_pods namespace label) (fun _ => EQuery "Pods");
  match err with Some e => fail e | None =>
  if (length pods <=? 0)%nat then fail (ErrorString "Pod not found") else
  pod ← index pods 0;
  cid ← index (ContainerIDs pod) 0;
  '(nextLeftIP, err) ← neighbour (pos =? 0)%Z ln (index deploymentList (pos - 1)) (index networkList (pos - 1));
  match err with Some e => fail e | None =>
  '(nextRightIP, err) ← neighbour (pos =? num - 1)%Z rn (index deploymentList (pos + 1)) (index networkList pos);
  match err with Some e => fail e | None =>
  l0 ← index ln 0;
  r0 ← index rn 0;
  rts ← for_range (dynamic_route pos nextLeftIP nextRightIP)
          (zip (seqZ 0 (Z.of_nat (length networkList))) networkList) [];
  match rts with
  | inr err => mret (zeroRoutingInfo, err)
  | inl rts =>
      mret ({| ri_Name := pod_Name pod; ri_Namespace := namespace;
               ri_Id := TrimPrefix cid "docker://"; ri_Node := NodeName pod;
               LeftNetworkRoute := {| Dst := rn_Subnet l0; GW := nextLeftIP |};
               RightNetworkRoute := {| Dst := rn_Subnet r0; GW := nextRightIP |};
               DynamicNetworkRoutes := rts ++ [{| Dst := "0.0.0.0"; GW := nextRightIP |}] |}, None)
  end end end end end end.

Definition append_routing (r : RoutingInfo) (g : Globals) : Globals :=
  set_chainRoutingInfo (chainRoutingInfo g ++ [r]) g.

(** One deployment of the loop of [CalculateRoutes]. *)
Definition member_routes (cr : NetworkChaining) (num : Z) (networkList deploymentList : list string)
    (x : Z * string) (_ : ()) : M E (() + option error) :=
  let '(i, deployment) := x in
  let spec := RoutingSpec (nc_Spec cr) in
  '(r, err) ← calculateDeploymentRoutes (Namespace (nc_meta cr)) deployment i num
                (LeftNetwork spec) (RightNetwork spec) networkList deploymentList;
  match err with
  | Some e => mret (inr (Some e))
  | None => mod_glob (append_routing r);; mret (inl ())
  end.

Definition CalculateRoutes (cr : NetworkChaining) : M E (list RoutingInfo * option error) :=
  let chains := Split (NetworkChain (RoutingSpec (nc_Spec cr))) "," in
  let '(deploymentList, networkList) := split_chain chains in
  let num := Z.of_nat (length deploymentList) in
  r ← for_range (member_routes cr num networkList deploymentList)
        (zip (seqZ 0 num) deploymentList) ();
  match r with
  | inr err => mret ([], err)
  | inl _ => g ← get_glob; mret (chainRoutingInfo g, None)
  end.
End chain.

(** ** The shape of a chain *)

(** The chain text that alternates deployments and networks. *)
Fixpoint interleave (ds ns : list string) : list string :=
  match ds with
  | [] => []
  | d :: ds' => d :: match ns with n :: ns' => n :: interleave ds' ns' | [] => [] end
  end.

Lemma split_step_eq i d n c :
  split_step (i, d, n) c = if (i mod 2 =? 0)%nat then (S i, d ++ [c], n) else (S i, d, n ++ [c]).
Proof. done. Qed.

Lemma split_steps i ds ns d0 n0 :
  (i mod 2 = 0)%nat -> length ds = S (length ns) ->
  (foldl split_step (i, d0, n0) (interleave ds ns)).1.2 = d0 ++ ds /\
  (foldl split_step (i, d0, n0) (interleave ds ns)).2 = n0 ++ ns.
Proof.
  revert i ns d0 n0. induction ds as [|d ds IH]; intros i ns d0 n0 Hi Hlen; [done|].
  destruct ns as [|n ns].
  - destruct ds; [|done]. cbn [interleave foldl]. rewrite split_step_eq, Hi. simpl.
    by rewrite app_nil_r.
  - cbn [interleave foldl]. rewrite !split_step_eq, Hi. cbn [Nat.eqb].
    assert (Hs : ((S i) mod 2 = 1)%nat).
    { replace (S i) with (i + 1)%nat by lia. rewrite Nat.Div0.add_mod, Hi. done. }
    rewrite split_step_eq, Hs. cbn [Nat.eqb].
    rewrite (cons_middle d d0 ds), (cons_middle n n0 ns), !app_assoc.
    apply IH; [|simpl in Hlen; lia].
    replace (S (S i)) with (i + 1 * 2)%nat by lia. by rewrite Nat.Div0.mod_add.
Qed.

Lemma split_interleave ds ns :
  length ds = S (length ns) -> split_chain (interleave ds ns) = (ds, ns).
Proof.
  intros Hlen. unfold split_chain.
  destruct (split_steps 0 ds ns [] [] eq_refl Hlen) as [H1 H2].
  destruct (foldl _ _ _) as [[i d] n]. simpl in *. by subst.
Qed.

Lemma interleave_forall (P : string -> Prop) ds ns :
  Forall P ds -> Forall P ns -> Forall P (interleave ds ns).
Proof.
  revert ns. induction ds as [|d ds IH]; intros ns Hd Hn; [constructor|].
  apply Forall_cons in Hd as [Hd Hds].
  destruct ns as [|n ns]; [by repeat constructor|].
  apply Forall_cons in Hn as [Hn Hns]. constructor; [done|]. constructor; [done|]. by apply IH.
Qed.

(** a chain written as deployments and networks in turn, separated by
    commas, is read back as those two lists. *)
Theorem chain_roundtrip ds ns :
  length ds = S (length ns) ->
  Forall (fun w => free "," w = true) ds -> Forall (fun w => free "," w = true) ns ->
  split_chain (Split (Join (interleave ds ns) ",") ",") = (ds, ns).
Proof.
  intros Hlen Hd Hn. rewrite Split_Join.
  - by apply split_interleave.
  - by destruct ds.
  - by apply interleave_forall.
Qed.

Lemma chain_roundtrip_witness :
  split_chain (Split "app=slb,net1,app=ngfw,net2,app=sdwan" ",")
  = (["app=slb"; "app=ngfw"; "app=sdwan"], ["net1"; "net2"]).
Proof.
  apply (chain_roundtrip ["app=slb"; "app=ngfw"; "app=sdwan"] ["net1"; "net2"]);
    [reflexivity|repeat constructor|repeat constructor].
Defined.

(** ** The routes of one member *)

Section routes.
Context {E : Type} `{!ExecWorld E, !ChainWorld E}.
Implicit Types s : St E.

Lemma quiet_index {A} (l : list A) (i : Z) :
  (0 <= i < Z.of_nat (length l))%Z -> quiet (@index E A l i).
Proof.
  intros Hi. unfold index. rewrite (proj2 (Z.ltb_ge _ _)) by lia.
  destruct (lookup_lt_is_Some_2 l (Z.to_nat i)) as [x ->]; [lia|]. apply quiet_ret.
Qed.

Lemma index_in {A} (l : list A) (i : Z) x :
  (0 <= i)%Z -> l !! Z.to_nat i = Some x -> @index E A l i = mret x.
Proof. intros Hi Hx. unfold index. by rewrite (proj2 (Z.ltb_ge _ _)), Hx by lia. Qed.

Lemma quiet_port_line name l u : quiet (port_line name l u).
Proof.
  unfold port_line. destruct (Fields l) as [|a [|b ws]]; cbn [length Nat.ltb Nat.leb];
    [apply quiet_ret..|].
  apply quiet_bind; [apply quiet_index; simpl; lia|]. intros p.
  destruct (Contains p name); [|apply quiet_ret].
  apply quiet_bind; [apply quiet_RunOVNNbctl|]. intros [[dna se] [e|]]; [apply quiet_ret|].
  destruct (Fields dna) as [|x [|y zs]]; cbn [length Nat.ltb Nat.leb]; [apply quiet_ret..|].
  apply quiet_bind; [apply quiet_index; simpl; lia|]. intros. apply quiet_ret.
Qed.

Lemma quiet_GetIPAdressForPod nw name : quiet (GetIPAdressForPod nw name).
Proof.
  unfold GetIPAdressForPod. apply quiet_bind; [apply quiet_RunOVNNbctl|].
  intros [[o se] [e|]]; [apply quiet_ret|]. apply quiet_bind; [apply quiet_RunOVNNbctl|].
  intros [[o2 se2] [e|]]; [apply quiet_ret|]. case_match; [apply quiet_ret|].
  apply quiet_bind; [apply quiet_for_range, quiet_port_line|]. intros [?|?]; apply quiet_ret.
Qed.

Definition subnet_args (nw : string) : list string :=
  ["--if-exists"; "get"; "logical_switch"; nw; "other_config:subnet"].

(** A network that is not next to the member at [pos]. *)
Definition far (pos : Z) (x : Z * string) : bool := negb ((x.1 =? pos) || (x.1 =? pos - 1))%Z.

(** The route to a network: the subnet that OVN answered, through the
    neighbour on its side. *)
Definition route_to (h : execHelper) (pos : Z) (left right : string) (es : list Event)
    (x : Z * string) (rt : Route) : Prop :=
  GW rt = (if (pos <? x.1)%Z then right else left) /\
  exists o se, ECmd (nbctlPath h) (nb_argv h ovsCommandTimeout (subnet_args x.2)) o se None ∈ es /\
    Dst rt = nb_out o.

Lemma route_to_app h pos left right es1 es2 x rt :
  route_to h pos left right es1 x rt -> route_to h pos left right (es1 ++ es2) x rt.
Proof.
  intros (Hg & o & se & Hin & Hd). split; [done|]. exists o, se. split; [|done].
  apply elem_of_app. by left.
Qed.

Lemma wp_dynamic_routes h pos left right xs s :
  runner (glob s) = Some h ->
  wp (for_range (dynamic_route pos left right) xs []) (fun r s' es => glob s' = glob s /\
    ((exists e, r = Val (inr (Some e))) \/
     exists rts, r = Val (inl rts) /\
       Forall2 (route_to h pos left right es) (filter (fun x => far pos x = true) xs) rts)) s.
Proof.
  intros Hr. apply (wp_for_range _ (fun dn rts s' es => glob s' = glob s /\
    Forall2 (route_to h pos left right es) (filter (fun x => far pos x = true) dn) rts));
    [by split; [|constructor]| |].
  2: intros l s' es [Hg Hf]; split; [done|]; right; by exists l.
  intros dn [i nw] rest rts s1 es1 _ [Hg Hf]. unfold dynamic_route. rewrite filter_app.
  assert (Hmono : forall es2, Forall2 (route_to h pos left right (es1 ++ es2))
    (filter (fun x => far pos x = true) dn) rts).
  { intros es2. eapply Forall2_impl; [exact Hf|]. intros. by apply route_to_app. }
  destruct ((i =? pos) || (i =? pos - 1))%Z eqn:Hadj.
  - wp_steps. split; [done|]. rewrite filter_cons_False, filter_nil by (unfold far; cbn [fst]; by rewrite Hadj).
    by rewrite !app_nil_r.
  - rewrite filter_cons_True, filter_nil by (unfold far; cbn [fst]; by rewrite Hadj).
    wp_step. unfold GetNetworkSubnet. fold (subnet_args nw). wp_step.
    eapply wp_RunOVNNbctl; [by rewrite Hg|]. intros o se err e1. cbn [after].
    destruct err as [x|]; wp_steps; [split; [done|]; left; by eexists|].
    split; [done|]. apply Forall2_app; [apply Hmono|]. constructor; [|constructor].
    split; [done|]. exists o, se. split; [|done]. apply elem_of_app. right. left.
Qed.

(** ** The arguments that [CalculateRoutes] gives for a well-formed chain *)
Record chain_args (num : Z) (ln rn : list RoutingNetwork) (networkList deploymentList : list string)
    (l0 r0 : RoutingNetwork) : Prop := {
  ca_num : num = Z.of_nat (length deploymentList);
  ca_shape : length deploymentList = S (length networkList);
  ca_left : exists ln', ln = l0 :: ln';
  ca_right : exists rn', rn = r0 :: rn';
  (** every deployment is a label key=value *)
  ca_labels : Forall (fun d => (2 <= length (Split d "="))%nat) deploymentList
}.

(** A chain of deployments separated by networks, with its two edges. *)
Definition wf_chain (cr : NetworkChaining) (l0 r0 : RoutingNetwork) : Prop :=
  let '(deps, nets) := split_chain (Split (NetworkChain (RoutingSpec (nc_Spec cr))) ",") in
  chain_args (Z.of_nat (length deps)) (LeftNetwork (RoutingSpec (nc_Spec cr)))
    (RightNetwork (RoutingSpec (nc_Spec cr))) nets deps l0 r0.

(** Every pod of the cluster has a first container. *)
Definition pods_started : Prop :=
  forall ns label e, Forall (fun p => ContainerIDs p <> []) (list_pods ns label e).1.1.

Lemma wp_neighbour (edge : bool) gws g deps nets (i j : Z) s h :
  runner (glob s) = Some h -> (exists gws', gws = g :: gws') ->
  (edge = false -> (0 <= i < Z.of_nat (length deps))%Z /\ (0 <= j < Z.of_nat (length nets))%Z) ->
  Forall (fun d => (2 <= length (Split d "="))%nat) deps ->
  wp (neighbour edge gws (index deps i) (index nets j)) (fun r s' es =>
    exists e' ip err, r = Val (ip, err) /\ s' = mkSt (glob s) e' /\
      (edge = true -> ip = rn_GatewayIP g)) s.
Proof.
  intros Hr [gws' ->] Hij Hlab. unfold neighbour. destruct edge.
  { rewrite index_0. wp_steps. exists (env s), (rn_GatewayIP g), None. by destruct s. }
  destruct (Hij eq_refl) as [Hi Hj].
  destruct (lookup_lt_is_Some_2 deps (Z.to_nat i)) as [d Hd]; [lia|].
  destruct (lookup_lt_is_Some_2 nets (Z.to_nat j)) as [n Hn]; [lia|].
  rewrite (index_in deps i d), (index_in nets j n) by (done || lia).
  eapply Forall_lookup_1 in Hlab; [|exact Hd].
  do 2 (wp_step; apply wp_ret; cbn [after]).
  eapply wp_mono; [|eapply (quiet_elim _ _ h); [|done]].
  - intros r s' es (a & e' & -> & ->). destruct a as [ip err]. exists e', ip, err. done.
  - apply quiet_bind; [apply quiet_index; lia|]. intros. apply quiet_GetIPAdressForPod.
Qed.

(** What is promised of the routes of the member at position [pos]. *)
Definition member_post (h : execHelper) (namespace : string) (pos num : Z) (l0 r0 : RoutingNetwork)
    (networkList : list string) (r : RoutingInfo) (es : list Event) : Prop :=
  exists left right rts,
    (pos = 0%Z -> left = rn_GatewayIP l0) /\ (pos = (num - 1)%Z -> right = rn_GatewayIP r0) /\
    ri_Namespace r = namespace /\
    LeftNetworkRoute r = {| Dst := rn_Subnet l0; GW := left |} /\
    RightNetworkRoute r = {| Dst := rn_Subnet r0; GW := right |} /\
    DynamicNetworkRoutes r = rts ++ [{| Dst := "0.0.0.0"; GW := right |}] /\
    Forall2 (route_to h pos left right es)
      (filter (fun x => far pos x = true) (zip (seqZ 0 (Z.of_nat (length networkList))) networkList)) rts.

Lemma member_post_app h namespace pos num l0 r0 nets r es1 es2 es3 :
  member_post h namespace pos num l0 r0 nets r es2 ->
  member_post h namespace pos num l0 r0 nets r (es1 ++ es2 ++ es3).
Proof.
  intros (left & right & rts & H1 & H2 & H3 & H4 & H5 & H6 & Hf). exists left, right, rts.
  split_and!; try done. eapply Forall2_impl; [exact Hf|].
  intros x rt (Hg & o & se & Hin & Hd). split; [done|]. exists o, se. split; [|done]. set_solver.
Qed.

Lemma calculateDeploymentRoutes_run namespace label pos num ln rn nets deps l0 r0 s h :
  runner (glob s) = Some h -> chain_args num ln rn nets deps l0 r0 -> pods_started ->
  (0 <= pos < num)%Z ->
  wp (calculateDeploymentRoutes namespace label pos num ln rn nets deps) (fun r s' es =>
    glob s' = glob s /\ exists ri err, r = Val (ri, err) /\
      (err = None -> member_post h namespace pos num l0 r0 nets ri es)) s.
Proof.
  intros Hr [Hnum Hsh [ln' Hl] [rn' Hr'] Hlab] Hpods Hpos. unfold calculateDeploymentRoutes.
  wp_step. apply wp_ask. intros err1 e1. split; [done|]. cbn [after].
  destruct err1 as [x|]; [wp_steps; split; [done|]; by (do 2 eexists; split)|].
  wp_step. apply wp_ask. intros err2 e2. split; [done|]. cbn [after].
  destruct err2 as [x|]; [wp_steps; split; [done|]; by (do 2 eexists; split)|].
  wp_step. apply wp_prim. intros [pods err3] e3 Hq. split; [done|]. cbn [after].
  destruct err3 as [x|]; [wp_steps; split; [done|]; by (do 2 eexists; split)|].
  destruct pods as [|pod pods]; cbn [length Nat.leb]; [wp_steps; split; [done|]; by (do 2 eexists; split)|].
  rewrite index_0. wp_step. apply wp_ret. cbn [after].
  assert (Hc : ContainerIDs pod <> []).
  { specialize (Hpods namespace label (env (mkSt (glob s) e2))). cbn [env] in Hpods, Hq.
    rewrite Hq in Hpods. by apply Forall_cons in Hpods as [? _]. }
  destruct (ContainerIDs pod) as [|cid cids]; [done|]. rewrite index_0.
  wp_step. apply wp_ret. cbn [after].
  wp_step. eapply wp_mono; [|eapply (wp_neighbour (pos =? 0)%Z ln l0 _ _ _ _ _ h); [done|eauto| |done]].
  2: intros ?%Z.eqb_neq; lia.
  intros r s4 es4 (e4 & left & err4 & -> & -> & Hleft). cbn [after].
  destruct err4 as [x|]; [wp_steps; split; [done|]; by (do 2 eexists; split)|].
  wp_step. eapply wp_mono; [|eapply (wp_neighbour (pos =? num - 1)%Z rn r0 _ _ _ _ _ h); [done|eauto| |done]].
  2: intros ?%Z.eqb_neq; lia.
  intros r s5 es5 (e5 & right & err5 & -> & -> & Hright). cbn [after].
  destruct err5 as [x|]; [wp_steps; split; [done|]; by (do 2 eexists; split)|].
  rewrite Hl, Hr', !index_0. do 2 (wp_step; apply wp_ret; cbn [after]).
  wp_step. eapply wp_mono; [|by apply (wp_dynamic_routes h)].
  intros r s6 es6 (Hg & Hres). cbn [glob] in Hg.
  destruct Hres as [[x ->]|(rts & -> & Hf)]; cbn [after]; apply wp_ret.
  - split; [done|]. by (do 2 eexists; split).
  - split; [done|]. do 2 eexists. split; [done|]. intros _.
    rewrite !app_assoc. rewrite <- (app_assoc _ es6 []). apply member_post_app.
    exists left, right, rts. cbn. split_and!; try done.
    + intros ->. by apply Hleft.
    + intros ->. apply Hright. apply Z.eqb_refl.
Qed.

Definition add_routing (news : list RoutingInfo) (g : Globals) : Globals :=
  set_chainRoutingInfo (chainRoutingInfo g ++ news) g.

(** The result of [CalculateRoutes], when the package state was [g]. *)
Definition chain_post (h : execHelper) (cr : NetworkChaining) (l0 r0 : RoutingNetwork) (g : Globals)
    (r : Res (list RoutingInfo * option error)) (s' : St E) (es : list Event) : Prop :=
  let '(deps, nets) := split_chain (Split (NetworkChain (RoutingSpec (nc_Spec cr))) ",") in
  let num := Z.of_nat (length deps) in
  exists news, glob s' = add_routing news g /\
    Forall2 (fun pos ri => member_post h (Namespace (nc_meta cr)) pos num l0 r0 nets ri es)
      (take (length news) (seqZ 0 num)) news /\
    ((exists e, r = Val ([], Some e)) \/
     (r = Val (chainRoutingInfo g ++ news, None) /\ length news = length deps)).

Lemma zip_seqZ_range {A} (n : Z) (l : list A) i x : (i, x) ∈ zip (seqZ 0 n) l -> (0 <= i < n)%Z.
Proof. intros H. apply elem_of_zip_l, elem_of_seqZ in H. lia. Qed.

Lemma CalculateRoutes_run cr l0 r0 s h :
  runner (glob s) = Some h -> pods_started ->
  wf_chain cr l0 r0 ->
  wp (CalculateRoutes cr) (chain_post h cr l0 r0 (glob s)) s.
Proof.
  intros Hr Hpods. unfold CalculateRoutes, chain_post, wf_chain.
  destruct (split_chain _) as [deps nets]. intros Hargs. set (num := Z.of_nat (length deps)) in *.
  assert (Hlen : length (seqZ 0 num) = length deps) by (rewrite length_seqZ; lia).
  wp_step. apply (wp_for_range _ (fun dn _ s' es => exists news,
    glob s' = add_routing news (glob s) /\
    Forall2 (fun x ri => member_post h (Namespace (nc_meta cr)) x.1 num l0 r0 nets ri es) dn news)).
  - exists []. split; [|constructor]. unfold add_routing. rewrite app_nil_r. by destruct (glob s).
  - intros dn [pos dep] rest [] s1 es1 Hxs (news & Hg & Hf).
    assert (Hpos : (0 <= pos < num)%Z)
      by (apply (zip_seqZ_range num deps pos dep); rewrite Hxs; set_solver).
    assert (Htake : take (length news) (seqZ 0 num) = dn.*1).
    { rewrite <- (Forall2_length _ _ _ Hf). rewrite <- (fst_zip (seqZ 0 num) deps) by lia.
      rewrite Hxs, fmap_app, take_app_length'; [done|by rewrite length_fmap]. }
    assert (Hkeep : forall es2, Forall2 (fun pos ri => member_post h (Namespace (nc_meta cr)) pos num l0 r0
      nets ri (es1 ++ es2)) (take (length news) (seqZ 0 num)) news).
    { intros es2. rewrite Htake. apply Forall2_fmap_l. eapply Forall2_impl; [exact Hf|].
      intros x ri Hm. apply (member_post_app _ _ _ _ _ _ _ _ [] es1 es2 Hm). }
    unfold member_routes. wp_step.
    eapply wp_mono; [|apply (calculateDeploymentRoutes_run _ _ pos num _ _ nets deps l0 r0 s1 h); [by rewrite Hg|done..]].
    intros r s2 es2 (Hg2 & ri & err & -> & Hm). cbn [after]. destruct err as [x|].
    + wp_steps. exists news. rewrite !app_nil_r.
      split; [congruence|]. split; [apply Hkeep|left; by eexists].
    + wp_steps. exists (news ++ [ri]). rewrite app_nil_r. split.
      { cbn [glob]. rewrite Hg2, Hg. unfold append_routing, add_routing. simpl. by rewrite app_assoc. }
      apply Forall2_app.
      * eapply Forall2_impl; [exact Hf|]. intros x ri' Hm'.
        apply (member_post_app _ _ _ _ _ _ _ _ [] es1 _ Hm').
      * constructor; [|constructor]. specialize (Hm eq_refl).
        rewrite <- (app_nil_r es2). by apply member_post_app.
  - intros [] s1 es1 (news & Hg & Hf). cbn [after]. wp_steps. exists news.
    assert (Hln := Forall2_length _ _ _ Hf). rewrite length_zip, Hlen, Nat.min_id in Hln.
    rewrite !app_nil_r. split; [done|]. split.
    + rewrite firstn_all2 by lia. rewrite <- (fst_zip (seqZ 0 num) deps) by lia. by apply Forall2_fmap_l.
    + right. split; [|done]. by rewrite Hg.
Qed.

End routes.

(** ** A concrete chain *)

Definition demo_chain : NetworkChaining :=
  mkNetworkChaining (mkMeta "chain1" "default" [] None ∅)
    (Build_NetworkChainingSpec "Routing"
       (Build_RouteSpec [Build_RoutingNetwork "left-pn" "172.30.10.2" "172.30.10.0/24"]
          [Build_RoutingNetwork "right-pn" "172.30.20.2" "172.30.20.0/24"]
          "app=slb,net1,app=ngfw,net2,app=sdwan" "default"))
    (Build_NetworkChainingStatus "").

(** Every label selects one started pod. *)
Definition demo_pods : ChainWorld Z := {|
  kube_config n := (None, n);
  kube_clientset n := (None, n);
  list_pods ns label n := ([Build_Pod (drop_string 4 label) ns false "node1" ∅ ["docker://c1"]], None, n)
|}.

(** A database with one port per pod and a subnet per network. *)
Definition chain_db : ExecWorld Z := reply_world (fun args =>
  if nth 1 args "" == "lsp-list" then ("u1 (default_slb)" +:+ String newline "u2 (default_ngfw)"
                                       +:+ String newline "u3 (default_sdwan)", "", None)
  else if nth 4 args "" == "dynamic_addresses" then ("0a:00 10.0." +:+ nth 3 args "", "", None)
  else if nth 2 args "" == "get" then ("subnet-" +:+ nth 4 args "", "", None)
  else ("", "", None)).

Lemma demo_pods_started : @pods_started Z demo_pods.
Proof. intros ns label e. by repeat constructor. Qed.

Lemma demo_chain_wf : wf_chain demo_chain (Build_RoutingNetwork "left-pn" "172.30.10.2" "172.30.10.0/24")
  (Build_RoutingNetwork "right-pn" "172.30.20.2" "172.30.20.0/24").
Proof. split; [reflexivity|reflexivity|by eexists|by eexists|]. repeat constructor; vm_compute; lia. Qed.

