(* ===== verification/ProviderNetworkController.v ===== *)
(** * ProviderNetworkController: pkg/controller/providernetwork and
    pkg/controller/networkchaining

    The [Reconcilable] instances of provider networks and of network chains,
    which reach the nodes through the notification server. *)

From S2P Require Import Prelude.
From S2P Require Import GoStrings.
From S2P Require Import GoNet.
From S2P Require Import Addressing.
From S2P Require Import Types.
From S2P Require Import World.
From S2P Require Import Runner.
From S2P Require Import Traces.
From S2P Require Import OvnCommon.
From S2P Require Import OvnController.
From S2P Require Import OvnNetworks.
From S2P Require Import OvnPorts.
From S2P Require Import Notify.
From S2P Require Import NotifyProps.
From S2P Require Import Reconciler.
From S2P Require Import NetworkController.
From S2P Require Import Chain.

#[local] Open Scope string_scope.
#[local] Open Scope list_scope.

Definition nfnProviderNetworkFinalizer := "nfnCleanUpProviderNetwork".
Definition nfnNetworkChainFinalizer := "nfnCleanUpNetworkChain".

Definition pn_set_finalizers (fs : list string) (cr : ProviderNetwork) : ProviderNetwork :=
  mkProviderNetwork (set_finalizers fs (pn_meta cr)) (pn_Spec cr) (pn_Status cr).

Definition nc_set_finalizers (fs : list string) (cr : NetworkChaining) : NetworkChaining :=
  mkNetworkChaining (set_finalizers fs (nc_meta cr)) (nc_Spec cr) (nc_Status cr).
Definition nc_set_state (st : string) (cr : NetworkChaining) : NetworkChaining :=
  mkNetworkChaining (nc_meta cr) (nc_Spec cr) (Build_NetworkChainingStatus st).

Section controllers.
Context {E : Type} `{!ExecWorld E, !KubeWorld E, !NotifyWorld E, !ChainWorld E}.
Implicit Types s : St E.

(** ** Provider networks *)

Definition pn_StatusUpdate (cr : ProviderNetwork) : M E (ProviderNetwork * option error) :=
  prim (status_pn cr) (fun '(_, err) => EStatusPn cr err).

(** An OVN failure changes the state in memory only: the status is written to
    the API server in the other branch. *)
Definition pn_createNetwork (cr : ProviderNetwork) : M E (ProviderNetwork * option error) :=
  if negb (IsZero (DeletionTimestamp (pn_meta cr))) then mret (cr, None) else
  if pn_CniType (pn_Spec cr) == "ovn4nfv" then
    err ← GetOvnController;
    match err with Some e => mret (cr, Some e) | None =>
    err ← CreateProviderNetwork cr;
    let failed := match err with Some e => negb (DeepEqualErrorf e "LS exists") | None => false end in
    if failed then mret (pn_set_state CreateInternalError cr, None)
    else
      err ← SendNotif cr "create" "";
      let cr := pn_set_state (if bool_decide (err <> None) then CreateInternalError else Created) cr in
      pn_StatusUpdate cr
    end
  else mret (cr, Errorf "CNI type not supported").

Definition pn_deleteNetwork (cr : ProviderNetwork) : M E (ProviderNetwork * option error) :=
  if pn_CniType (pn_Spec cr) == "ovn4nfv" then
    err ← GetOvnController;
    match err with Some e => mret (cr, Some e) | None =>
    SendNotif cr "delete" "";;
    err ← DeleteProviderNetwork cr;
    match err with
    | Some _ =>
        let cr := pn_set_state DeleteInternalError cr in
        pn_StatusUpdate cr
    | None => mret (cr, None)
    end end
  else mret (cr, Errorf "CNI type not supported").

#[export] Instance pn_reconcilable : Reconcilable E ProviderNetwork := {|
  obj_meta := pn_meta;
  with_finalizers := pn_set_finalizers;
  finalizerName := nfnProviderNetworkFinalizer;
  obj_get := get_pn;
  obj_update := update_pn;
  update_event := EUpdatePn;
  obj_create := pn_createNetwork;
  obj_delete := pn_deleteNetwork;
  is_not_found := IsNotFound
|}.

#[export] Instance pn_laws : ReconcilableLaws E ProviderNetwork.
Proof. by split. Qed.

Definition ReconcileProviderNetwork_Reconcile (namespace name : string) : M E (option error) :=
  Reconcile (T := ProviderNetwork) namespace name.
Definition ReconcileProviderNetwork_reconcileFinalizers (instance : ProviderNetwork)
  : M E (ProviderNetwork * option error) := reconcileFinalizers instance.

(** ** Network chains *)

Definition nc_StatusUpdate (cr : NetworkChaining) : M E (NetworkChaining * option error) :=
  prim (status_nc cr) (fun '(_, err) => EStatusNc cr err).

Definition createChain (cr : NetworkChaining) : M E (NetworkChaining * option error) :=
  if negb (IsZero (DeletionTimestamp (nc_meta cr))) then mret (cr, None) else
  if ChainType (nc_Spec cr) == "Routing" then
    '(routeList, err) ← CalculateRoutes cr;
    match err with Some e => mret (cr, Some e) | None =>
    err ← SendRouteNotif routeList "create";
    let cr := nc_set_state (if bool_decide (err <> None) then CreateInternalError else Created) cr in
    nc_StatusUpdate cr
    end
  else mret (cr, Errorf "Chaining type not supported").

Definition deleteChain (cr : NetworkChaining) : M E (NetworkChaining * option error) :=
  mret (cr, Errorf "Not Implemented").

#[export] Instance nc_reconcilable : Reconcilable E NetworkChaining := {|
  obj_meta := nc_meta;
  with_finalizers := nc_set_finalizers;
  finalizerName := nfnNetworkChainFinalizer;
  obj_get := get_nc;
  obj_update := update_nc;
  update_event := EUpdateNc;
  obj_create := createChain;
  obj_delete := deleteChain;
  is_not_found := IsNotFound
|}.

#[export] Instance nc_laws : ReconcilableLaws E NetworkChaining.
Proof. by split. Qed.

Definition ReconcileNetworkChaining_Reconcile (namespace name : string) : M E (option error) :=
  Reconcile (T := NetworkChaining) namespace name.
Definition ReconcileNetworkChaining_reconcileFinalizers (instance : NetworkChaining)
  : M E (NetworkChaining * option error) := reconcileFinalizers instance.

(** ** The effects of the operations on provider networks *)

(** The package variables that provider networks need. *)
Definition pn_ready (h : execHelper) (cl : gmap string client) (g : Globals) : Prop :=
  ready h g /\ serving cl g.

(** Deleting: the nodes are told first, then the switch is removed; a send
    that waits forever holds the removal back. *)
Definition pn_deletes (h : execHelper) (cl : gmap string client) (cr : ProviderNetwork)
    (r : Res (ProviderNetwork * option error)) (es : list Event) : Prop :=
  if pn_CniType (pn_Spec cr) == "ovn4nfv" then
    exists s0 rn es1, notified cl cr "delete" "" s0 rn es1 /\
      match rn with
      | Block => r = Block /\ es = es1
      | Panic _ => False
      | Val _ => exists derr o se, let del := ECmd (nbctlPath h) (nb_argv h ovsCommandTimeout
            ["--if-exist"; "--wait=hv"; "ls-del"; Name (pn_meta cr)]) o se derr in
          match derr with
          | None => r = Val (cr, None) /\ es = es1 ++ [del]
          | Some _ => exists cr' err, r = Val (cr', err) /\
              es = es1 ++ [del; EStatusPn (pn_set_state DeleteInternalError cr) err]
          end
      end
  else r = Val (cr, Errorf "CNI type not supported") /\ es = [].

Definition pn_commands (h : execHelper) (cr : ProviderNetwork) (sub : IpSubnet)
    (cerr : option error) (es : list Event) : Prop :=
  let name := Name (pn_meta cr) in
  match ParseCIDR (Subnet sub) with
  | Some (_, cidr) => creates h name (create_switch_plan name (Subnet sub)
      (gateway_ip_mask cidr (Gateway sub)) (ExcludeIps sub) ++ [localnet_args name]) cerr es
  | None => cerr <> None /\ creates h name [find_switch_args name] cerr es
  end.

(** Creating: the switch with its localnet port; when it is there, the nodes
    are told and the status says whether that worked. *)
Definition pn_creates (h : execHelper) (cl : gmap string client) (cr : ProviderNetwork)
    (r : Res (ProviderNetwork * option error)) (es : list Event) : Prop :=
  if negb (IsZero (DeletionTimestamp (pn_meta cr))) then r = Val (cr, None) /\ es = []
  else if pn_CniType (pn_Spec cr) == "ovn4nfv" then
    match pn_Ipv4Subnets (pn_Spec cr) with
    | [] => r = Panic "index out of range" /\ es = []
    | sub :: _ => exists cerr es1, pn_commands h cr sub cerr es1 /\
        if bool_decide (cerr = None \/ cerr = Errorf "LS exists") then
          exists s0 rn es2, notified cl cr "create" "" s0 rn es2 /\
            match rn with
            | Block => r = Block /\ es = es1 ++ es2
            | Panic _ => False
            | Val nerr => exists cr' err, r = Val (cr', err) /\
                es = es1 ++ es2 ++ [EStatusPn (pn_set_state
                       (if bool_decide (nerr = None) then Created else CreateInternalError) cr) err]
            end
        else r = Val (pn_set_state CreateInternalError cr, None) /\ es = es1
    end
  else r = Val (cr, Errorf "CNI type not supported") /\ es = [].

Lemma notified_no_panic cl pn msgType nodeReq s r es :
  notified cl pn msgType nodeReq s r es -> (exists err, r = Val err) \/ r = Block.
Proof.
  unfold notified. destruct (notif_msg pn msgType); [|intros [[m ->] _]; left; by eexists].
  unfold selected. destruct (notif_selector pn) as [sel labels]. unfold sent_to_nodes, sent_to_all.
  repeat case_match; intros; inv_all; eauto.
Qed.

Lemma pn_deleteNetwork_spec h cl : op_spec (pn_ready h cl) pn_deleteNetwork (pn_deletes h cl).
Proof.
  intros cr s Hr. unfold pn_deleteNetwork, pn_deletes.
  destruct (pn_CniType (pn_Spec cr) == "ovn4nfv"); [|by apply wp_ret].
  wp_step. apply (wp_GetOvnController h); [by destruct Hr|]. cbn [after]. wp_step.
  eapply wp_mono; [|by apply (SendNotif_run cl), Hr].
  intros r s1 es1 [Hg Hn]. destruct (notified_no_panic _ _ _ _ _ _ _ Hn) as [[err ->]| ->]; cbn [after].
  2: rewrite Hg; split; [done|]; by exists s, Block, es1.
  assert (Hrun : runner (glob s1) = Some h) by (rewrite Hg; apply Hr).
  unfold DeleteProviderNetwork. wp_step. wp_step. eapply wp_RunOVNNbctl; [done|].
  intros o se derr e2. cbn [after]. wp_step. cbn [after]. destruct derr as [x|].
  - apply wp_ask. intros [cr' err2] e3. split; [done|]. cbn [glob]. rewrite Hg. split; [done|].
    exists s, (Val err), es1. split; [done|]. exists (Some x), o, se, cr', err2. done.
  - apply wp_ret. cbn [glob]. rewrite Hg. split; [done|]. exists s, (Val err), es1.
    split; [done|]. by exists None, o, se.
Qed.

Lemma wp_pn_commands h cr sub rest s :
  runner (glob s) = Some h -> pn_Ipv4Subnets (pn_Spec cr) = sub :: rest ->
  wp (CreateProviderNetwork cr) (network_post h s (pn_commands h cr sub)) s.
Proof.
  intros Hr Hsub. unfold pn_commands.
  destruct (ParseCIDR (Subnet sub)) as [[ip cidr]|] eqn:Hs.
  - by eapply CreateProviderNetwork_run.
  - by eapply CreateProviderNetwork_bad.
Qed.

Lemma failed_state cerr :
  match cerr with Some e => negb (DeepEqualErrorf e "LS exists") | None => false end
  = negb (bool_decide (cerr = None \/ cerr = Errorf "LS exists")).
Proof.
  unfold DeepEqualErrorf, Errorf. destruct cerr as [x|]; [|done]. f_equal.
  case_bool_decide; case_bool_decide; intuition congruence.
Qed.

Lemma pn_createNetwork_spec h cl : op_spec (pn_ready h cl) pn_createNetwork (pn_creates h cl).
Proof.
  intros cr s Hr. unfold pn_createNetwork, pn_creates.
  destruct (negb (IsZero _)); [by apply wp_ret|].
  destruct (pn_CniType (pn_Spec cr) == "ovn4nfv"); [|by apply wp_ret].
  wp_step. apply (wp_GetOvnController h); [by destruct Hr|]. cbn [after]. wp_step.
  destruct (pn_Ipv4Subnets (pn_Spec cr)) as [|sub rest] eqn:Hsub.
  { unfold CreateProviderNetwork. rewrite Hsub. wp_steps. by apply wp_panic. }
  eapply wp_mono; [|eapply wp_pn_commands; [apply Hr|done]].
  intros r s1 es1 (Hg & cerr & -> & Hc). cbn [after]. rewrite failed_state.
  destruct (bool_decide (cerr = None \/ cerr = Errorf "LS exists")) eqn:Hok; cbn [negb].
  - wp_step. eapply wp_mono; [|apply (SendNotif_run cl); rewrite Hg; apply Hr].
    intros r s2 es2 [Hg2 Hn]. destruct (notified_no_panic _ _ _ _ _ _ _ Hn) as [[err ->]| ->]; cbn [after].
    + apply wp_ask. intros [cr' err2] e3. split; [done|]. cbn [glob]. rewrite Hg2, Hg. split; [done|].
      exists cerr, es1. split; [done|]. rewrite Hok. exists s1, (Val err), es2. split; [done|].
      exists cr', err2. split; [done|]. by destruct err.
    + rewrite Hg2, Hg. split; [done|]. exists cerr, es1. split; [done|]. rewrite Hok.
      by exists s1, Block, es2.
  - apply wp_ret. rewrite Hg. split; [done|]. exists cerr, es1. split; [done|]. rewrite Hok.
    by rewrite app_nil_r.
Qed.

(** ** The effects of the operations on chains *)

(** Creating a chain: the routes are computed, then sent, then recorded. *)
Definition chain_creates (h : execHelper) (cl : gmap string client) (g : Globals) (cr : NetworkChaining)
    (r : Res (NetworkChaining * option error)) (es : list Event) : Prop :=
  if negb (IsZero (DeletionTimestamp (nc_meta cr))) then r = Val (cr, None) /\ es = []
  else if ChainType (nc_Spec cr) == "Routing" then
    forall l0 r0, wf_chain cr l0 r0 ->
    exists rc s1 es1, chain_post h cr l0 r0 g rc s1 es1 /\
      match rc with
      | Val (rs, None) => exists nerr es2 cr' err, delivers (route_plan cl rs) nerr es2 /\
          r = Val (cr', err) /\
          es = es1 ++ es2 ++ [EStatusNc (nc_set_state
                 (if bool_decide (nerr = None) then Created else CreateInternalError) cr) err]
      | Val (_, Some e) => r = Val (cr, Some e) /\ es = es1
      | _ => False
      end
  else r = Val (cr, Errorf "Chaining type not supported") /\ es = [].

Lemma createChain_run h cl cr s :
  runner (glob s) = Some h -> serving cl (glob s) -> pods_started ->
  (ChainType (nc_Spec cr) = "Routing" -> exists l0 r0, wf_chain cr l0 r0) ->
  wp (createChain cr) (fun r s' es => serving cl (glob s') /\ runner (glob s') = Some h /\
    chain_creates h cl (glob s) cr r es) s.
Proof.
  intros Hr Hs Hpods Hwf. unfold createChain, chain_creates.
  destruct (negb (IsZero _)); [by apply wp_ret|].
  destruct (ChainType (nc_Spec cr) == "Routing") eqn:Ht; [|by apply wp_ret].
  apply bool_decide_eq_true in Ht. destruct (Hwf Ht) as (l0' & r0' & Hwf').
  wp_step. eapply wp_mono; [|by apply (CalculateRoutes_run cr l0' r0')].
  intros rc s1 es1 Hc. assert (Hc0 := Hc). unfold chain_post in Hc0.
  destruct (split_chain _) as [deps nets]. destruct Hc0 as (news & Hg & _ & Hrc).
  assert (Hserv : serving cl (glob s1) /\ runner (glob s1) = Some h) by (by rewrite Hg).
  assert (Hedges : forall l0 r0, wf_chain cr l0 r0 -> l0 = l0' /\ r0 = r0').
  { intros l0 r0. unfold wf_chain in *. destruct (split_chain _).
    intros [_ _ [? H1] [? H2] _]. destruct Hwf' as [_ _ [? H3] [? H4] _]. split; congruence. }
  destruct Hrc as [[x ->]|[-> Hlen]]; cbn [after].
  - apply wp_ret. split; [apply Hserv|]. split; [apply Hserv|].
    intros l0 r0 [-> ->]%Hedges. exists (Val ([], Some x)), s1, es1.
    split; [done|]. by rewrite app_nil_r.
  - wp_step. eapply wp_mono; [|apply (SendRouteNotif_run cl), Hserv].
    intros r s2 es2 (Hg2 & nerr & -> & Hd). cbn [after]. apply wp_ask. intros [cr' err] e3.
    split; [done|]. cbn [glob]. rewrite Hg2. split; [apply Hserv|]. split; [apply Hserv|].
    intros l0 r0 [-> ->]%Hedges.
    exists (Val (chainRoutingInfo (glob s) ++ news, None)), s1, es1. split; [done|].
    exists nerr, es2, cr', err. split; [done|]. split; [done|]. by destruct nerr.
Qed.

(** ** Properties *)

(** C17: a reconcile of a provider network.  A live object gets the finalizer,
    then the switch with its localnet port, then the nodes are told and the
    status is written; when OVN fails nobody is told and no status is
    written.  A deleted object tells the nodes before its switch is removed
    and loses the finalizer whatever came of that; only a node list that
    cannot be read holds it forever. *)
Theorem ProviderNetworkReconcile_effects namespace name cr e1 h cl s :
  pn_ready h cl (glob s) -> get_pn namespace name (env s) = ((cr, None), e1) ->
  wp (ReconcileProviderNetwork_Reconcile namespace name) (fun r s' es =>
    pn_ready h cl (glob s') /\ reconcile_post (pn_deletes h cl) (pn_creates h cl) cr r es) s.
Proof.
  intros Hr Hget. eapply wp_Reconcile; [done|done|apply pn_deleteNetwork_spec|apply pn_createNetwork_spec].
Qed.

End controllers.

(** ** Concrete runs *)

Definition pn_live (st : string) : ProviderNetwork :=
  pn_set_finalizers [nfnProviderNetworkFinalizer] (demo_vlan_pn "all" st).
Definition pn_dying : ProviderNetwork :=
  mkProviderNetwork (mkMeta "pn1" "default" [nfnProviderNetworkFinalizer] (Some 7%Z) ∅)
    (pn_Spec (demo_vlan_pn "all" Created)) (Build_ProviderNetworkStatus Created).

(** The kinds of the events of a run, queries apart. *)
Definition event_kind (e : Event) : option string :=
  match e with
  | ECmd _ a _ _ _ => Some (nth 3 a "")
  | ESend _ _ _ => Some "send"
  | EUpdatePn o _ => Some ("update " +:+ Join (Finalizers (pn_meta o)) ",")
  | EStatusPn o _ => Some ("status " +:+ pn_State (pn_Status o))
  | EStatusNc o _ => Some ("status " +:+ nc_State (nc_Status o))
  | _ => None
  end.

Lemma ProviderNetworkReconcile_effects_witness :
  let nw := demo_notify [] ([], None) in
  let kube cr := static_kube (demo_network []) cr demo_nc in
  let recon cr := @ReconcileProviderNetwork_Reconcile Z empty_db (kube cr) nw "default" "pn1" in
  wp (recon pn_dying) (fun r s' es => pn_ready demo_helper demo_clients (glob s') /\
    @reconcile_post Z ProviderNetwork (@pn_reconcilable Z empty_db (kube pn_dying) nw)
      (@pn_deletes Z nw demo_helper demo_clients) (@pn_creates Z nw demo_helper demo_clients) pn_dying r es)
    serving_state /\
  omap event_kind (recon pn_dying serving_state).2 = ["send"; "send"; "ls-del"; "update "] /\
  omap event_kind (recon (demo_vlan_pn "all" "") serving_state).2 =
    ["update nfnCleanUpProviderNetwork"; "--columns=name"; "--may-exist"; "--may-exist"; "send"; "send";
     "status Created"].
Proof.
  split; [|split; vm_compute; reflexivity].
  refine (@ProviderNetworkReconcile_effects Z empty_db (static_kube (demo_network []) pn_dying demo_nc)
    (demo_notify [] ([], None)) "default" "pn1" pn_dying 0%Z demo_helper demo_clients serving_state _ eq_refl).
  split; [split; [reflexivity|by eexists]|exact demo_serving].
Defined.

