(* ===== verification/NbReconcile.v ===== *)
(** * NbReconcile: the state of a network object and the northbound database

    What the state that the network controller writes says of the database. *)

From S2P Require Import Prelude.
From S2P Require Import GoStrings.
From S2P Require Import GoNet.
From S2P Require Import Addressing.
From S2P Require Import Types.
From S2P Require Import World.
From S2P Require Import Runner.
From S2P Require Import OvnCommon.
From S2P Require Import OvnController.
From S2P Require Import OvnNetworks.
From S2P Require Import Reconciler.
From S2P Require Import NetworkController.
From S2P Require Import ProviderNetworkController.
From S2P Require Import Nbctl.
From S2P Require Import NbParse.
From S2P Require Import NbNetworks.
From Stdlib Require Import Ascii.

#[local] Open Scope string_scope.
#[local] Open Scope list_scope.

(** Writing the status of an object leaves the northbound database alone. *)
Class NbApart (E : Type) `{!ExecWorld E, !KubeWorld E, !NbServer E} :=
  nb_status cr e : nb (status_network cr e).2 = nb e.

Section reconcile.
Context {E : Type} `{!ExecWorld E, !KubeWorld E, !NbServer E, !NbApart E}.
Implicit Types s : St E.

(** The state [st] written for the network and the database [db'] left. *)
Definition created_state (name subnet gw excl : string) (db : Nb) (st : string) (db' : Nb) : Prop :=
  match switches db !! name with
  | Some _ => (st = Created \/ st = CreateInternalError) /\ db' = db
  | None => exists mac,
      st = Created /\ db' = with_network name subnet gw excl mac db /\
        has_network name subnet gw excl mac db' \/
      st = CreateInternalError /\ db' ∈ network_stages name subnet gw excl mac db
  end.

(** C12: for a network whose switch is not in the database, the state Created is
    written only when the whole network has been made, and the state
    CreateInternalError otherwise.  For one whose switch is there the database
    is left alone: the state Created says nothing about its ports. *)
Theorem createNetwork_state cr sub rest ip cidr oc s h :
  let name := Name (nw_meta cr) in
  let gw := gateway_ip_mask cidr (Gateway sub) in
  at_nbctl h s -> nb_wf (nb (env s)) -> ovnCtl (glob s) = Some oc ->
  IsZero (DeletionTimestamp (nw_meta cr)) = true -> nw_CniType (nw_Spec cr) = "ovn4nfv" ->
  nw_Ipv4Subnets (nw_Spec cr) = sub :: rest -> ParseCIDR (Subnet sub) = Some (ip, cidr) ->
  plain_network name (Subnet sub) gw (ExcludeIps sub) = true ->
  wp (createNetwork cr) (fun r s' es => glob s' = glob s /\ exists st pre err a,
    es = pre ++ [EStatusNetwork (nw_set_state st cr) err] /\ r = Val (a, err) /\
    created_state name (Subnet sub) gw (ExcludeIps sub) (nb (env s)) st (nb (env s'))) s.
Proof.
  intros name gw Hat Hwf Ho Hlive Hcni Hsub Hs Hp. unfold createNetwork, GetOvnController.
  rewrite Hlive, Hcni. cbn [negb]. rewrite bool_decide_eq_true_2 by done. wp_steps. rewrite Ho. wp_steps.
  eapply wp_mono; [|by eapply (CreateNetwork_nb _ _ _ _ _ _ h)].
  intros r [g e1] es1 (Hg & err & -> & mac & Hout & Hj). cbn [glob] in Hg. subst g. cbn [after env] in *.
  set (st := if match err with Some e => negb (DeepEqualErrorf e "LS exists") | None => false end
             then CreateInternalError else Created).
  unfold StatusUpdate. apply wp_prim. intros [a err2] e2 He2. split; [done|]. cbn [glob env] in *. split; [done|].
  exists st, es1, err2, a. split; [done|]. split; [done|].
  assert (Hnb := nb_status (nw_set_state st cr) e1). rewrite He2 in Hnb. cbn [snd] in Hnb.
  rewrite Hnb. unfold created_state, switch_outcome in *. fold name gw in Hout, Hj.
  destruct (switches (nb (env s)) !! name).
  { destruct Hout as [_ ->]. split; [unfold st; case_match; auto|done]. }
  exists mac. destruct Hout as (Hin & Hok & Hne). destruct err as [x|].
  - right. split; [|done]. unfold st, DeepEqualErrorf. rewrite bool_decide_eq_false_2; [done|].
    intros ->. by apply Hne.
  - left. split; [done|]. specialize (Hok eq_refl). injection Hok as ->. destruct (Hj eq_refl).
    split; [done|]. by apply with_network_has.
Qed.
End reconcile.

(** ** A server that does not answer in time, once

    The [n]-th run of ovn-nbctl from now is killed by its timeout before
    anything is committed. *)
Definition slow_server : ExecWorld (Nb * nat) := {|
  run_cmd path argv '(db, n) :=
    match n with
    | 1%nat => (("", "timeout expired", Some (OtherError "*exec.ExitError" "signal: alarm clock")), (db, O))
    | _ => let '(r, db') := run_cmd (ExecWorld := nb_interpreter) path argv db in (r, (db', pred n))
    end;
  look_path f e := (f, None, e);
  getenv _ e := ("", e);
  pause _ e := e;
  random e := (0%Z, e);
  map_picks e := ([], e)
|}.

Lemma slow_server_run h args ops db n o se err e' :
  nb_parse args = Some ops ->
  run_cmd (ExecWorld := slow_server) "nbctl" (nb_argv h ovsCommandTimeout args) (db, n) = ((o, se, err), e') ->
  nb_step ops db (nb_out o) err e'.1 /\
  (err <> None -> Contains se "Connection refused" = true -> e'.1 = db) /\ err <> Errorf "LS exists".
Proof.
  intros Hops. cbn [run_cmd slow_server].
  assert (Hgood : forall k, (let '(r, db') := run_cmd (ExecWorld := nb_interpreter) "nbctl"
      (nb_argv h ovsCommandTimeout args) db in (r, (db', k))) = ((o, se, err), e') ->
    nb_step ops db (nb_out o) err e'.1 /\
    (err <> None -> Contains se "Connection refused" = true -> e'.1 = db) /\ err <> Errorf "LS exists").
  { intros k. destruct (run_cmd _ _ _) as [[[o' se'] err'] db'] eqn:Hrun. intros [= -> -> -> <-].
    by apply (nb_interpreter_run h args). }
  destruct n as [|[|n]]; [apply Hgood| |apply Hgood].
  intros [= <- <- <- <-]. split; [by left|done].
Qed.

#[global] Instance slow_server_nb : @NbServer (Nb * nat) slow_server := {|
  nbctl := "nbctl";
  nb := fst;
  nb_run h args ops e o se err e' _ := match e with (db, n) => slow_server_run h args ops db n o se err e' end;
  nb_pause _ _ := eq_refl;
  nb_random _ := eq_refl
|}.

Definition slow_kube : KubeWorld (Nb * nat) := {|
  get_network ns n e := ((demo_network [demo_subnet], None), e);
  update_network cr e := ((cr, None), e);
  status_network cr e := ((cr, None), e);
  get_pn ns n e := ((demo_pn [], None), e);
  update_pn cr e := ((cr, None), e);
  status_pn cr e := ((cr, None), e);
  get_nc ns n e := ((demo_nc, None), e);
  update_nc cr e := ((cr, None), e);
  status_nc cr e := ((cr, None), e);
  IsNotFound _ := false
|}.

#[global] Instance slow_apart : @NbApart (Nb * nat) slow_server slow_kube slow_server_nb.
Proof. done. Qed.

Definition slow_state (n : nat) : St (Nb * nat) :=
  mkSt (set_ovnCtl (Some (Build_Controller ∅)) demo_globals) (demo_nb, n).

Lemma createNetwork_state_witness :
  wp (@createNetwork (Nb * nat) slow_server slow_kube (demo_network [demo_subnet])) (fun r s' es =>
    glob s' = glob (slow_state 4) /\ exists st pre err a,
    es = pre ++ [EStatusNetwork (nw_set_state st (demo_network [demo_subnet])) err] /\ r = Val (a, err) /\
    created_state "nw1" "172.16.33.0/24" (gateway_ip_mask demo_cidr "") "172.16.33.2" demo_nb st (env s').1)
    (slow_state 4).
Proof.
  refine (@createNetwork_state (Nb * nat) slow_server slow_kube slow_server_nb slow_apart
    (demo_network [demo_subnet]) demo_subnet [] _ demo_cidr (Build_Controller ∅) (slow_state 4) demo_helper
    _ demo_nb_wf eq_refl eq_refl eq_refl eq_refl demo_cidr_parsed _).
  - split; reflexivity.
  - vm_compute; reflexivity.
Defined.

(** A creation that fails at the router port (the fourth command) is retried by
    the status update that it makes: the second round finds the switch, runs
    nothing else, and writes the state Created for a network without a router
    port. *)
Lemma half_made_network_created :
  let run s := @createNetwork (Nb * nat) slow_server slow_kube (demo_network [demo_subnet]) s in
  let '(_, s1, es1) := run (slow_state 4) in
  let '(_, s2, es2) := run s1 in
  network_updates es1 = [inr CreateInternalError] /\
  network_updates es2 = [inr Created] /\ length (cmds es2) = 1%nat /\
  rports (env s2).1 !! rtos "nw1" = None /\ sports (env s2).1 !! stor "nw1" = None.
Proof. vm_compute. split_and!; reflexivity. Qed.
