(* ===== verification/ClusterNetworks.v ===== *)
(** * ClusterNetworks: switches and finalizers of networks and provider networks

    The two controllers that create logical switches, as instances of the
    interface of Cluster.v.  A name is exposed when ls-add was run for it; a
    network is released by the attempt to remove its router port, the first
    command of its deletion, and a provider network by ls-del. *)

From stdpp Require Import relations.
From S2P Require Import Prelude.
From S2P Require Import GoStrings.
From S2P Require Import Types.
From S2P Require Import World.
From S2P Require Import Runner.
From S2P Require Import Traces.
From S2P Require Import OvnCommon.
From S2P Require Import OvnController.
From S2P Require Import OvnNetworks.
From S2P Require Import Reconciler.
From S2P Require Import History.
From S2P Require Import Cluster.
From S2P Require Import NetworkController.
From S2P Require Import Notify.
From S2P Require Import NotifyProps.
From S2P Require Import Chain.
From S2P Require Import ProviderNetworkController.

#[local] Open Scope string_scope.
#[local] Open Scope list_scope.

(** ** The verb and the operand of a command line *)

Fixpoint skip_options (args : list string) : list string :=
  match args with
  | a :: args' => if HasPrefix a "--" then skip_options args' else args
  | [] => []
  end.

(** The argument after the verb [v]. *)
Definition operand (v : string) (e : Event) : option string :=
  match e with
  | ECmd _ args _ _ _ =>
      match skip_options args with
      | v' :: x :: _ => if v' == v then Some x else None
      | _ => None
      end
  | _ => None
  end.

Definition added_switch : Event -> option string := operand "ls-add".
Definition deleted_switch : Event -> option string := operand "ls-del".
(** The network whose router port is removed. *)
Definition unplugged_network (e : Event) : option string :=
  match operand "lrp-del" e with
  | Some port => if HasPrefix port "rtos-" then Some (drop_string 5 port) else None
  | None => None
  end.

Lemma skip_nb_argv h args : skip_options (nb_argv h ovsCommandTimeout args) = skip_options args.
Proof. unfold nb_argv. by destruct (_ <? _)%nat. Qed.

Lemma operand_nb v p h args o se err :
  operand v (ECmd p (nb_argv h ovsCommandTimeout args) o se err)
  = match skip_options args with
    | v' :: x :: _ => if v' == v then Some x else None
    | _ => None
    end.
Proof. unfold operand. by rewrite skip_nb_argv. Qed.

(** A run of ovn-nbctl runs it at least once. *)
Lemma RunOVNNbctl_runs {E} `{!ExecWorld E} args (s : St E) h :
  runner (glob s) = Some h ->
  exists o se err, ECmd (nbctlPath h) (nb_argv h ovsCommandTimeout args) o se err ∈ (RunOVNNbctl args s).2.
Proof.
  intros Hr.
  pose proof (wp_RunOVNNbctl args (fun _ _ es => exists o se err,
    es = [ECmd (nbctlPath h) (nb_argv h ovsCommandTimeout args) o se err]) s h Hr) as H.
  unfold wp in H. destruct (RunOVNNbctl args s) as [[r s'] es].
  destruct H as (_ & o & se & err & Hes); [by eauto|]. exists o, se, err. cbn.
  enough (Hin : forall e, e ∈ compress es -> e ∈ es) by (apply Hin; rewrite Hes; by left).
  clear. intros e. induction es as [|x es IH]; [done|]. simpl.
  destruct x; repeat case_match; rewrite ?elem_of_cons; tauto.
Qed.

Section bind_events.
Context {E A B : Type}.
Lemma bind_events (m : M E A) (k : A -> M E B) s ev :
  ev ∈ (m s).2 -> ev ∈ ((m ≫= k) s).2.
Proof.
  unfold mbind, M_bind. destruct (m s) as [[[a|w|] s1] e1]; cbn; [|done..].
  destruct (k a s1) as [[r s2] e2]. cbn. rewrite elem_of_app. tauto.
Qed.
Lemma bind_events_then (m : M E A) (k : A -> M E B) s b s' es :
  (m ≫= k) s = (Val b, s', es) -> exists a s1 e1 e2, m s = (Val a, s1, e1) /\
    k a s1 = (Val b, s', e2) /\ es = e1 ++ e2.
Proof.
  unfold mbind, M_bind. destruct (m s) as [[[a|w|] s1] e1]; [|done..].
  destruct (k a s1) as [[r s2] e2] eqn:Hk. intros [= -> <- <-]. by exists a, s1, e1, e2.
Qed.
End bind_events.

(** The automation treats the tools as units. *)
#[local] Opaque RunOVNNbctl Intn.

Section switches.
Context {E V : Type} `{!ExecWorld E} (view : E -> V) (others : V -> V -> Prop) `{!ExecFrame view others}.

Lemma framed_GetOvnController (A : Event -> Prop) : framed view others A GetOvnController.
Proof. unfold GetOvnController. framed_tac. Qed.

Lemma GetOvnController_ready (s : St E) oc : ovnCtl (glob s) = Some oc -> GetOvnController s = (Val None, s, []).
Proof. intros Hoc. unfold GetOvnController, mbind, M_bind, get_glob. by rewrite Hoc. Qed.

(** The commands of a creation; only the second adds a switch. *)
Lemma framed_verb (A : Event -> Prop) args :
  (forall e, added_switch e = None -> A e) ->
  match skip_options args with v :: _ :: _ => v <> "ls-add" | _ => True end ->
  framed view others A (RunOVNNbctl args).
Proof.
  intros Hno Hv. apply framed_RunOVNNbctl; [apply _| |by apply Hno]. intros. apply Hno.
  unfold added_switch. rewrite operand_nb. repeat case_match; try done.
  by destruct (bool_decide_reflect (s = "ls-add")).
Qed.

Lemma framed_createOvnLS (A : Event -> Prop) name subnet gw ex :
  (forall e, added_switch e = None -> A e) -> (forall e, added_switch e = Some name -> A e) ->
  framed view others A (createOvnLS name subnet gw ex).
Proof.
  intros Hno Hyes.
  assert (H1 : framed view others A (RunOVNNbctl (find_switch_args name))) by (by apply framed_verb).
  assert (H2 : forall x y z, framed view others A (RunOVNNbctl (add_switch_args name x y z))).
  { intros. apply framed_RunOVNNbctl; [apply _| |by apply Hno]. intros. apply Hyes.
    unfold added_switch. by rewrite operand_nb. }
  clear Hno Hyes. unfold createOvnLS. framed_tac.
Qed.
End switches.

(** ** Networks *)

Definition network_managed (cr : Network) : bool := nw_CniType (nw_Spec cr) == "ovn4nfv".

(** The networks that the server holds. *)
Class NetworkStore (E : Type) := network_store : E -> gmap (string * string) Network.

#[export] Instance managed_networks {E} `{!NetworkStore E} : Managed E Network := {|
  managed := network_managed;
  store := network_store;
  exposes := added_switch;
  releases := unplugged_network
|}.

(** A write of the status is a change like those of the other clients, and its
    answer is a version of the object; on an error the object stays as it was. *)
Class HonestStatus (E T : Type) `{!Reconcilable E T, !Managed E T}
    (status : T -> E -> (T * option error) * E) := {
  status_store : forall o e, user_steps (store e) (store (status o e).2);
  status_answer : forall o e, let o' := (status o e).1.1 in
    key o' = key o /\ managed o' = managed o /\ (deleting o = true -> deleting o' = true)
}.

Definition ready_some (g : Globals) : Prop := exists h, ready h g.

Section network.
Context {E : Type} `{!ExecWorld E, !KubeWorld E, !NetworkStore E}.
Abbreviation nw_steps := (rtc (user_step (E:=E) (T:=Network))).
Context `{!ExecFrame network_store nw_steps, !HonestStatus E Network status_network}.

Abbreviation framedN := (framed (E := E) network_store nw_steps).

Lemma framed_StatusUpdate (A : Event -> Prop) cr :
  (forall cr' err, A (EStatusNetwork cr' err)) -> framedN A (StatusUpdate cr).
Proof. intros Ha. apply framed_prim; [by intros []|]. intros e. exact (status_store (status := status_network) cr e). Qed.

Lemma framed_CreateNetwork (A : Event -> Prop) cr :
  (forall e, added_switch e = None -> A e) -> (forall e, added_switch e = Some (Name (nw_meta cr)) -> A e) ->
  framedN A (CreateNetwork cr).
Proof.
  intros Hno Hyes. unfold CreateNetwork, generateMac.
  assert (Hi : framedN A (Intn 255)) by (apply framed_Intn; [apply _|by apply Hno]).
  assert (Hls := fun a b c => framed_createOvnLS network_store nw_steps A (Name (nw_meta cr)) a b c Hno Hyes).
  assert (Hnb := fun args => framed_verb network_store nw_steps A args Hno). clear Hno Hyes.
  framed_tac; by apply Hnb.
Qed.

Lemma framed_DeleteNetwork cr : framedN (fun e => added_switch e = None) (DeleteNetwork cr).
Proof.
  unfold DeleteNetwork. assert (Hnb := fun args => framed_verb network_store nw_steps (fun e => added_switch e = None) args ltac:(done)).
  framed_tac; by apply Hnb.
Qed.

Lemma DeleteNetwork_unplugs cr s h :
  runner (glob s) = Some h ->
  exists ev, ev ∈ (DeleteNetwork cr s).2 /\ unplugged_network ev = Some (Name (nw_meta cr)).
Proof.
  intros Hr. unfold DeleteNetwork.
  destruct (RunOVNNbctl_runs ["--if-exist"; "--wait=hv"; "lrp-del"; "rtos-" +:+ Name (nw_meta cr)] s h Hr)
    as (o & se & err & Hin).
  eexists. split; [by apply bind_events|]. unfold unplugged_network. by rewrite operand_nb.
Qed.

(** With OVN there, a deletion of ours removes the router port. *)
Lemma deleteNetwork_unplugs cr s a s' es :
  ready_some (glob s) -> managed (E:=E) cr = true -> deleteNetwork cr s = (Val a, s', es) ->
  exists ev, ev ∈ es /\ releases (E:=E) (T:=Network) ev = Some (Name (nw_meta cr)).
Proof.
  intros [h [Hr [oc Hoc]]] Hm. unfold deleteNetwork.
  change (nw_CniType (nw_Spec cr) == "ovn4nfv") with (managed (E:=E) cr). rewrite Hm.
  intros Hrun. apply bind_events_then in Hrun as (x & s1 & e1 & e2 & H1 & H2 & ->).
  rewrite (GetOvnController_ready s oc Hoc) in H1. injection H1 as <- <- <-.
  destruct (DeleteNetwork_unplugs cr s h Hr) as (ev & Hin & Hrel). exists ev. split; [|done].
  assert (Hin2 := bind_events _ (fun err => match err with
    | Some _ => StatusUpdate (nw_set_state DeleteInternalError cr) | None => mret (cr, None) end) s ev Hin).
  cbn zeta in H2. rewrite H2 in Hin2. exact Hin2.
Qed.

(** It gives back the object, or the server's answer to the status. *)
Lemma deleteNetwork_returns cr :
  returns (E := E) (fun r => key r.1 = key cr /\ managed (E:=E) r.1 = managed (E:=E) cr /\
    (deleting cr = true -> deleting r.1 = true)) (deleteNetwork cr).
Proof.
  unfold deleteNetwork. case_match; [|by apply returns_ret]. apply returns_bind_any. intros [x|]; [by apply returns_ret|].
  apply returns_bind_any. intros [x|]; [|by apply returns_ret].
  intros s0. unfold StatusUpdate, prim.
  pose proof (status_answer (status := status_network) (nw_set_state DeleteInternalError cr) (env s0)) as Ha.
  destruct (status_network _ _) as [[o' x'] e']. intros a [= <-]. exact Ha.
Qed.

#[export] Instance network_ops : GuardedOps E Network ready_some.
Proof.
  split.
  - done.
  - done.
  - done.
  - intros cr. cbn [obj_create network_reconcilable]. unfold createNetwork.
    change (managed cr) with (network_managed cr). unfold network_managed.
    change (deleting cr) with (negb (IsZero (DeletionTimestamp (nw_meta cr)))).
    destruct (negb (IsZero _)); [apply framed_ret|].
    destruct (nw_CniType (nw_Spec cr) == "ovn4nfv"); [|apply framed_ret].
    assert (Hg := framed_GetOvnController (E:=E) network_store nw_steps). assert (Hs := framed_StatusUpdate).
    assert (Hc := framed_CreateNetwork). framed_tac; [|apply Hs; by left..].
    apply Hc; intros e He; [by left|by right].
  - intros cr. cbn [obj_delete network_reconcilable]. unfold deleteNetwork.
    assert (Hg := framed_GetOvnController (E:=E) network_store nw_steps). assert (Hs := framed_StatusUpdate (fun e => added_switch e = None)).
    assert (Hd := framed_DeleteNetwork cr). framed_tac; by apply Hs.
  - intros cr s a s' es Hready Hm Hrun. by apply (deleteNetwork_unplugs cr s a s' es).
  - intros cr s od err s' es Hrun. assert (Hret := deleteNetwork_returns cr s).
    cbn [obj_delete network_reconcilable] in Hrun. rewrite Hrun in Hret. by apply (Hret (od, err)).
Qed.
#[export] Instance network_prompt : PromptOps E Network ready_some.
Proof.
  split.
  - intros cr s [h Hr]. cbn [obj_delete network_reconcilable].
    pose proof (deleteNetwork_spec h cr s Hr) as H. unfold wp in H.
    destruct (deleteNetwork cr s) as [[r s'] es]. destruct H as (_ & _ & Hd). cbn.
    unfold network_deletes in Hd. destruct (nw_CniType (nw_Spec cr) == "ovn4nfv").
    + destruct Hd as ([x|] & es1 & _ & Hd); [destruct Hd as (cr' & err & -> & _)|destruct Hd as [-> _]];
        by eexists.
    + destruct Hd as [-> _]. by eexists.
  - intros cr s Hd. cbn [obj_create network_reconcilable]. unfold createNetwork.
    change (negb (IsZero (DeletionTimestamp (nw_meta cr)))) with (deleting cr). by rewrite Hd.
Qed.
End network.

(** ** Provider networks *)

Definition pn_managed (cr : ProviderNetwork) : bool := pn_CniType (pn_Spec cr) == "ovn4nfv".

Class PnStore (E : Type) := pn_store : E -> gmap (string * string) ProviderNetwork.

#[export] Instance managed_pns {E} `{!PnStore E} : Managed E ProviderNetwork := {|
  managed := pn_managed;
  store := pn_store;
  exposes := added_switch;
  releases := deleted_switch
|}.

(** The gRPC streams and the second client of the server leave the objects to
    the others; [client_update_pn] writes a status. *)
Class NotifyFrame {E V : Type} `{!NotifyWorld E} (view : E -> V) (others : V -> V -> Prop) := {
  frame_send : forall st m e, others (view e) (view (stream_send st m e).2);
  frame_nodes : forall l e, others (view e) (view (list_nodes l e).2);
  frame_update_pn : forall ns p e, others (view e) (view (client_update_pn ns p e).2)
}.

Section sending.
Context {E V : Type} `{!ExecWorld E, !NotifyWorld E} (view : E -> V) (others : V -> V -> Prop)
  `{!ExecFrame view others, !NotifyFrame view others}.

(** Sending a notification runs no command. *)
Lemma framed_SendNotif (A : Event -> Prop) pn msgType nodeReq :
  (forall e, added_switch e = None -> A e) -> framed view others A (SendNotif pn msgType nodeReq).
Proof.
  intros Hno.
  assert (Hs : forall st msg, framed view others A (Send st msg)).
  { intros. apply framed_prim; [intros; by apply Hno|]. intros e. apply frame_send. }
  assert (Hn : forall l, framed view others A (nodeListIterator l)).
  { intros l. assert (Hl : framed view others A (prim (list_nodes l) (fun _ => EQuery "Nodes"))).
    { apply framed_prim; [intros; by apply Hno|]. intros e. apply frame_nodes. }
    unfold nodeListIterator. framed_tac. }
  assert (Hm : forall m : gmap string client, framed view others A (map_range m)).
  { intros m. apply framed_map_range; [apply _|by apply Hno]. }
  assert (Hg : forall n, framed view others A (GetClient n)).
  { intros n. unfold GetClient, get_clients. framed_tac. }
  assert (Hc : framed view others A get_clients) by (unfold get_clients; framed_tac).
  assert (Hu : forall p st, framed view others A (updatePnStatus p st)).
  { intros p st. unfold updatePnStatus. cbn zeta. apply framed_bind; [apply framed_get_glob|]. intros g.
    destruct (pnClientset g); [|apply framed_panic].
    apply framed_prim; [intros; by apply Hno|]. intros e. apply frame_update_pn. }
  clear Hno. unfold SendNotif, dispatch, sendMsg, send_all, send_any, send_specific. framed_tac.
Qed.
End sending.

Section provider_network.
Context {E : Type} `{!ExecWorld E, !KubeWorld E, !NotifyWorld E, !ChainWorld E, !PnStore E}.
Abbreviation pn_steps := (rtc (user_step (E:=E) (T:=ProviderNetwork))).
Context `{!ExecFrame pn_store pn_steps, !NotifyFrame pn_store pn_steps, !HonestStatus E ProviderNetwork status_pn}.
Abbreviation framedP := (framed (E := E) pn_store pn_steps).

Lemma framed_pn_StatusUpdate (A : Event -> Prop) cr :
  (forall cr' err, A (EStatusPn cr' err)) -> framedP A (pn_StatusUpdate cr).
Proof.
  intros Ha. apply framed_prim; [by intros []|]. intros e. exact (status_store (status := status_pn) cr e).
Qed.
Lemma framed_CreateProviderNetwork (A : Event -> Prop) cr :
  (forall e, added_switch e = None -> A e) -> (forall e, added_switch e = Some (Name (pn_meta cr)) -> A e) ->
  framedP A (CreateProviderNetwork cr).
Proof.
  intros Hno Hyes. unfold CreateProviderNetwork.
  assert (Hls := fun a b c => framed_createOvnLS pn_store pn_steps A (Name (pn_meta cr)) a b c Hno Hyes).
  assert (Hnb := fun args => framed_verb pn_store pn_steps A args Hno). clear Hno Hyes.
  framed_tac; by apply Hnb.
Qed.

Lemma framed_DeleteProviderNetwork cr : framedP (fun e => added_switch e = None) (DeleteProviderNetwork cr).
Proof.
  unfold DeleteProviderNetwork.
  assert (Hnb := fun args => framed_verb pn_store pn_steps (fun e => added_switch e = None) args ltac:(done)).
  framed_tac; by apply Hnb.
Qed.

Lemma DeleteProviderNetwork_deletes cr s h :
  runner (glob s) = Some h ->
  exists ev, ev ∈ (DeleteProviderNetwork cr s).2 /\ deleted_switch ev = Some (Name (pn_meta cr)).
Proof.
  intros Hr. unfold DeleteProviderNetwork.
  destruct (RunOVNNbctl_runs ["--if-exist"; "--wait=hv"; "ls-del"; Name (pn_meta cr)] s h Hr)
    as (o & se & err & Hin).
  eexists. split; [by apply bind_events|]. unfold deleted_switch. by rewrite operand_nb.
Qed.

(** With OVN there, a deletion of ours removes the switch, whatever came of
    telling the nodes. *)
Lemma pn_deleteNetwork_deletes cr s a s' es :
  ready_some (glob s) -> managed (E:=E) cr = true -> pn_deleteNetwork cr s = (Val a, s', es) ->
  exists ev, ev ∈ es /\ releases (E:=E) (T:=ProviderNetwork) ev = Some (Name (pn_meta cr)).
Proof.
  intros [h [Hr [oc Hoc]]] Hm. unfold pn_deleteNetwork.
  change (pn_CniType (pn_Spec cr) == "ovn4nfv") with (managed (E:=E) cr). rewrite Hm.
  intros Hrun. apply bind_events_then in Hrun as (x & s1 & e1 & e2 & H1 & H2 & ->).
  rewrite (GetOvnController_ready s oc Hoc) in H1. injection H1 as <- <- <-. cbn zeta in H2.
  apply bind_events_then in H2 as (y & s2 & e3 & e4 & H3 & H4 & ->).
  assert (Hp := framed_SendNotif (E:=E) pn_store pn_steps (fun e => True) cr "delete" "" ltac:(done) s).
  rewrite H3 in Hp. rewrite <- (path_glob _ _ _ _ _ _ Hp) in Hr.
  destruct (DeleteProviderNetwork_deletes cr s2 h Hr) as (ev & Hin & Hrel). exists ev. split; [|done].
  assert (Hin2 := bind_events _ (fun err => match err with
    | Some _ => pn_StatusUpdate (pn_set_state DeleteInternalError cr) | None => mret (cr, None) end) s2 ev Hin).
  rewrite H4 in Hin2. rewrite !elem_of_app. tauto.
Qed.

Lemma pn_deleteNetwork_returns cr :
  returns (E := E) (fun r => key r.1 = key cr /\ managed (E:=E) r.1 = managed (E:=E) cr /\
    (deleting cr = true -> deleting r.1 = true)) (pn_deleteNetwork cr).
Proof.
  unfold pn_deleteNetwork. case_match; [|by apply returns_ret]. apply returns_bind_any.
  intros [x|]; [by apply returns_ret|]. apply returns_bind_any. intros _.
  apply returns_bind_any. intros [x|]; [|by apply returns_ret].
  intros s0. unfold pn_StatusUpdate, prim.
  pose proof (status_answer (status := status_pn) (pn_set_state DeleteInternalError cr) (env s0)) as Ha.
  destruct (status_pn _ _) as [[o' x'] e']. intros a [= <-]. exact Ha.
Qed.

#[export] Instance pn_ops : GuardedOps E ProviderNetwork ready_some.
Proof.
  assert (Hg := framed_GetOvnController (E:=E) pn_store pn_steps).
  assert (Hn := framed_SendNotif (E:=E) pn_store pn_steps).
  split.
  - done.
  - done.
  - done.
  - intros cr. cbn [obj_create pn_reconcilable]. unfold pn_createNetwork.
    change (managed cr) with (pn_managed cr). unfold pn_managed.
    change (deleting cr) with (negb (IsZero (DeletionTimestamp (pn_meta cr)))).
    destruct (negb (IsZero _)); [apply framed_ret|].
    destruct (pn_CniType (pn_Spec cr) == "ovn4nfv"); [|apply framed_ret].
    assert (Hs := framed_pn_StatusUpdate). assert (Hc := framed_CreateProviderNetwork).
    framed_tac; lazymatch goal with
      | |- framed _ _ _ (CreateProviderNetwork _) => apply Hc; intros e He; [by left|by right]
      | |- framed _ _ _ (SendNotif _ _ _) => apply Hn; by left
      | |- _ => apply Hs; by left
      end.
  - intros cr. cbn [obj_delete pn_reconcilable]. unfold pn_deleteNetwork.
    assert (Hs := framed_pn_StatusUpdate (fun e => added_switch e = None)).
    assert (Hd := framed_DeleteProviderNetwork cr).
    framed_tac; first [by apply Hs|by apply Hn].
  - intros cr s a s' es Hready Hm Hrun. by apply (pn_deleteNetwork_deletes cr s a s' es).
  - intros cr s od err s' es Hrun. assert (Hret := pn_deleteNetwork_returns cr s).
    cbn [obj_delete pn_reconcilable] in Hrun. rewrite Hrun in Hret. by apply (Hret (od, err)).
Qed.
End provider_network.
