(* ===== verification/Agent.v ===== *)
(** * Agent: the node agent's handling of notifications
    (cmd/nfn-agent/nfn-agent.go)

    The package variables [inSync] and [pnCreateStore] are in [Globals].  The
    agent handles the messages of its stream one after the other; start-up,
    shutdown and the gRPC client are not modelled. *)

From S2P Require Import Prelude.
From S2P Require Import GoStrings.
From S2P Require Import GoNet.
From S2P Require Import Types.
From S2P Require Import World.
From S2P Require Import Sha1.
From S2P Require Import Runner.
From S2P Require Import Traces.
From S2P Require Import OvnCommon.
From S2P Require Import BridgeMappings.
From S2P Require Import OvnController.
From S2P Require Import IpTables.
From S2P Require Import Iface.
From S2P Require Import HelperLinux.
From Stdlib Require Import Ascii.

#[local] Open Scope string_scope.
#[local] Open Scope list_scope.

Section agent.
Context {E : Type} `{!ExecWorld E, !LinkWorld E, !IPTWorld E, !RouteWorld E, !NodeWorld E}.

Definition createVlanProvidernetwork (payload : ProviderNetworkCreate) : M E (option error) :=
  let vlanID := GetVlanId (Vlan payload) in
  let ln := GetLogicalIntf (Vlan payload) in
  let pn := GetVlanProviderIntf (Vlan payload) in
  let name := pc_ProviderNwName payload in
  let ln := if ln == "" then name +:+ "." +:+ vlanID else ln in
  err ← CreateVlan vlanID pn ln;
  match err with Some e => mret (Some e) | None =>
  err ← CreatePnBridge ("nw_" +:+ name) ("br-" +:+ name) ln;
  match err with Some e => mret (Some e) | None => mret None end
  end.

Definition createDirectProvidernetwork (payload : ProviderNetworkCreate) : M E (option error) :=
  let pn := GetDirectProviderIntf (Direct payload) in
  let name := pc_ProviderNwName payload in
  err ← CreatePnBridge ("nw_" +:+ name) ("br-" +:+ name) pn;
  match err with Some e => mret (Some e) | None => mret None end.

Definition deleteVlanProvidernetwork (payload : ProviderNetworkRemove) : M E () :=
  let ln := VlanLogicalIntf payload in
  let name := pr_ProviderNwName payload in
  DeleteVlan ln;;
  DeletePnBridge ("nw_" +:+ name) ("br-" +:+ name);;
  mret ().

Definition deleteDirectProvidernetwork (payload : ProviderNetworkRemove) : M E () :=
  let ln := VlanLogicalIntf payload in
  let name := pr_ProviderNwName payload in
  DeleteVlan ln;;
  DeletePnBridge ("nw_" +:+ name) ("br-" +:+ name);;
  mret ().

(** ** Synchronisation: the stored networks against the node *)

(** The loop labelled VLAN. *)
Definition sync_vlan (vlanList : list string) (pn : ProviderNetworkCreate) (diffVlan : gset string)
  : M E (gset string + ()) :=
  if bool_decide (Vlan pn <> None) then mret (inl diffVlan) else
  let id := GetVlanId (Vlan pn) in
  let ln := GetLogicalIntf (Vlan pn) in
  let pi := GetVlanProviderIntf (Vlan pn) in
  let ln := if ln == "" then pi +:+ "." +:+ id else ln in
  if existsb (fun vlan => vlan == ln) vlanList then mret (inl ({[ ln ]} ∪ diffVlan)) else
  err ← CreateVlan id pi ln;
  match err with Some _ => mret (inr ()) | None => mret (inl diffVlan) end.

Definition bridge_name (br : string) : string := ReplaceAll br "br-" "".

(** The loops labelled PRNETWORK and DIRECTPRNETWORK, after their skip. *)
Definition sync_bridge (pnBridgeList : list string) (name port : string) (diffPnBridge : gset string)
  : M E (gset string + ()) :=
  match List.find (fun br => name == bridge_name br) pnBridgeList with
  | Some br => mret (inl ({[ br ]} ∪ diffPnBridge))
  | None => CreatePnBridge ("nw_" +:+ name) ("br-" +:+ name) port;; mret (inl diffPnBridge)
  end.

Definition sync_vlan_bridge (pnBridgeList : list string) (pn : ProviderNetworkCreate)
    (diffPnBridge : gset string) : M E (gset string + ()) :=
  if bool_decide (Vlan pn <> None) then mret (inl diffPnBridge)
  else sync_bridge pnBridgeList (pc_ProviderNwName pn) (GetLogicalIntf (Vlan pn)) diffPnBridge.

Definition sync_direct_bridge (pnBridgeList : list string) (pn : ProviderNetworkCreate)
    (diffPnBridge : gset string) : M E (gset string + ()) :=
  if bool_decide (Direct pn <> None) then mret (inl diffPnBridge)
  else sync_bridge pnBridgeList (pc_ProviderNwName pn) (GetDirectProviderIntf (Direct pn)) diffPnBridge.

Definition drop_vlan (diffVlan : gset string) (vlan : string) (_ : ()) : M E (() + ()) :=
  if bool_decide (vlan ∈ diffVlan) then mret (inl ()) else DeleteVlan vlan;; mret (inl ()).

Definition drop_bridge (diffPnBridge : gset string) (br : string) (_ : ()) : M E (() + ()) :=
  if bool_decide (br ∈ diffPnBridge) then mret (inl ())
  else
    let name := bridge_name br in
    DeletePnBridge ("nw_" +:+ name) ("br-" +:+ name);; mret (inl ()).

Definition inSyncVlanProvidernetwork : M E () :=
  vlanList ← GetVlan;
  pnBridgeList ← GetPnBridge "nfn";
  g ← get_glob;
  diffVlan ← for_range (sync_vlan vlanList) (pnCreateStore g) ∅;
  match diffVlan with inr _ => mret () | inl diffVlan =>
  diffPnBridge ← for_range (sync_vlan_bridge pnBridgeList) (pnCreateStore g) ∅;
  match diffPnBridge with inr _ => mret () | inl diffPnBridge =>
  for_range (drop_vlan diffVlan) vlanList ();;
  for_range (drop_bridge diffPnBridge) pnBridgeList ();;
  mret ()
  end end.

Definition inSyncDirectProvidernetwork : M E () :=
  pnBridgeList ← GetPnBridge "nfn";
  g ← get_glob;
  diffPnBridge ← for_range (sync_direct_bridge pnBridgeList) (pnCreateStore g) ∅;
  match diffPnBridge with inr _ => mret () | inl diffPnBridge =>
  for_range (drop_bridge diffPnBridge) pnBridgeList ();;
  mret ()
  end.

Definition createNodeOVSInternalPort (payload : InSync) : M E (option error) :=
  let nodeIntfIPAddr := Trim (TrimSpace (NodeIntfIpAddress payload)) quote in
  let nodeIntfMacAddr := Trim (TrimSpace (NodeIntfMacAddress payload)) quote in
  nodeName ← Getenv "NFN_NODE_NAME";
  CreateNodeOVSInternalPort nodeIntfIPAddr nodeIntfMacAddr nodeName.

(** ** The handler *)

Definition store_create (p : ProviderNetworkCreate) (g : Globals) : Globals :=
  set_pnCreateStore (pnCreateStore g ++ [p]) g.

Definition handle_create (payload : ProviderNetworkCreate) : M E () :=
  g ← get_glob;
  if negb (inSync g) then mod_glob (store_create payload) else
  err ← (if bool_decide (Vlan payload <> None) then createVlanProvidernetwork payload else mret None);
  match err with Some _ => mret () | None =>
  (if bool_decide (Direct payload <> None) then createDirectProvidernetwork payload else mret None);;
  mret ()
  end.

Definition handle_remove (payload : ProviderNetworkRemove) : M E () :=
  g ← get_glob;
  if negb (inSync g) then mret () else
  (if negb (VlanLogicalIntf payload == "") then deleteVlanProvidernetwork payload else mret ());;
  (if negb (DirectProviderIntf payload == "") then deleteDirectProvidernetwork payload else mret ()).

Definition handle_routes (payload : ContainerRouteInsert) : M E () :=
  '(pid, err) ← GetPidForContainer (ContainerId payload);
  match err with Some _ => mret () | None =>
  ContainerAddRoute pid (ins_Route payload);; mret ()
  end.

Definition enter_sync (g : Globals) : Globals := set_inSync true (set_pnCreateStore [] g).

Definition handle_insync (payload : InSync) : M E () :=
  inSyncVlanProvidernetwork;;
  inSyncDirectProvidernetwork;;
  mod_glob (set_pnCreateStore []);;
  mod_glob (set_inSync true);;
  if negb (NodeIntfIpAddress payload == "") && negb (NodeIntfMacAddress payload == "")
  then createNodeOVSInternalPort payload;; mret ()
  else mret ().

Definition handleNotif (msg : Notification) : M E () :=
  if CniType msg == "ovn4nfv" then
    match payload msg with
    | Some (Notification_ProviderNwCreate p) => handle_create p
    | Some (Notification_ProviderNwRemove p) => handle_remove p
    | Some (Notification_ContainterRtInsert p) => handle_routes p
    | Some (Notification_InSync p) => handle_insync p
    | Some (Notification_ContainterRtRemove _) | None => mret ()
    end
  else mret ().

(** The inner loop of [subscribeNotif], for the messages of a stream. *)
Definition receive (msgs : list Notification) : M E () :=
  for_range (fun msg (_ : ()) => handleNotif msg;; mret (inl () : () + ())) msgs ();; mret ().
End agent.
