(* ===== verification/AgentProps.v ===== *)
(** * AgentProps: the node agent as a state machine (cmd/nfn-agent/nfn-agent.go)

    The agent waits for the operator's InSync message, storing the provider
    networks announced before it, and is synchronised from then on.  [phase]
    is that abstract state, [agent_step] its step relation; the handlers of
    Agent.v are shown to refine it for every message and every answer of the
    tools.  The second part states what the synchronisation does to the
    node. *)

From S2P Require Import Prelude.
From S2P Require Import GoStrings.
From S2P Require Import GoNet.
From S2P Require Import Types.
From S2P Require Import World.
From S2P Require Import Sha1.
From S2P Require Import Runner.
From S2P Require Import Traces.
From S2P Require Import Safety.
From S2P Require Import OvnCommon.
From S2P Require Import BridgeMappings.
From S2P Require Import OvnController.
From S2P Require Import IpTables.
From S2P Require Import Iface.
From S2P Require Import HelperLinux.
From S2P Require Import Agent.
From Stdlib Require Import Ascii.

#[local] Open Scope string_scope.
#[local] Open Scope list_scope.

Definition any_event (e : Event) : Prop := True.

(** ** The functions of the node leave the agent's variables alone *)
Section keeps.
Context {E : Type} `{!ExecWorld E, !LinkWorld E, !IPTWorld E, !RouteWorld E, !NodeWorld E}.
Abbreviation keeps := (upholds (E:=E) any_event).

Lemma keeps_RunIP args : keeps (RunIP args).
Proof. by apply upholds_RunIP. Qed.
Lemma keeps_RunOVSVsctl args : keeps (RunOVSVsctl args).
Proof. by apply upholds_RunOVSVsctl. Qed.
Lemma keeps_prim {A} (f : E -> A * E) ev : keeps (prim f ev).
Proof. by apply upholds_prim. Qed.
#[local] Hint Resolve keeps_RunIP keeps_RunOVSVsctl keeps_prim : upholds.

Lemma keeps_updateOvnBridgeMapping br nw act : keeps (updateOvnBridgeMapping br nw act).
Proof.
  unfold updateOvnBridgeMapping, parse_mappings, parse_label, edit_mappings, write_mappings.
  unfold map_range. upholds_tac.
Qed.
#[local] Hint Resolve keeps_updateOvnBridgeMapping : upholds.

Lemma keeps_CreateVlan a b c : keeps (CreateVlan a b c).
Proof. unfold CreateVlan, LinkByName. upholds_tac. Qed.
Lemma keeps_DeleteVlan a : keeps (DeleteVlan a).
Proof. unfold DeleteVlan. upholds_tac. Qed.
Lemma keeps_CreatePnBridge a b c : keeps (CreatePnBridge a b c).
Proof. unfold CreatePnBridge. upholds_tac. Qed.
Lemma keeps_DeletePnBridge a b : keeps (DeletePnBridge a b).
Proof. unfold DeletePnBridge. upholds_tac. Qed.
#[local] Hint Resolve keeps_CreateVlan keeps_DeleteVlan keeps_CreatePnBridge
  keeps_DeletePnBridge : upholds.

Lemma keeps_GetVlan : keeps GetVlan.
Proof. unfold GetVlan, LinkList. upholds_tac. Qed.
Lemma keeps_GetPnBridge id : keeps (GetPnBridge id).
Proof. unfold GetPnBridge, keep_bridge. upholds_tac. Qed.
#[local] Hint Resolve keeps_GetVlan keeps_GetPnBridge : upholds.

Lemma keeps_inSyncVlan : keeps inSyncVlanProvidernetwork.
Proof.
  unfold inSyncVlanProvidernetwork, sync_vlan, sync_vlan_bridge, sync_bridge, drop_vlan, drop_bridge.
  upholds_tac.
Qed.
Lemma keeps_inSyncDirect : keeps inSyncDirectProvidernetwork.
Proof.
  unfold inSyncDirectProvidernetwork, sync_direct_bridge, sync_bridge, drop_bridge. upholds_tac.
Qed.

Lemma keeps_SetupAndEnsureIPTables rules : keeps (SetupAndEnsureIPTables rules).
Proof.
  unfold SetupAndEnsureIPTables, ensureIPTables, ipTablesRulesExist, check_rule, setupIPTables,
    insert_rule, teardownIPTables, remove_rule, ipt_New, Exists, AppendUnique, Delete.
  upholds_tac.
Qed.
#[local] Hint Resolve keeps_SetupAndEnsureIPTables : upholds.

Lemma keeps_createNodeOVSInternalPort m : keeps (createNodeOVSInternalPort m).
Proof.
  unfold createNodeOVSInternalPort, CreateNodeOVSInternalPort, Getenv, CombinedOutput, LinkByName,
    Netlink. upholds_tac.
Qed.

Lemma keeps_handle_routes m : keeps (handle_routes m).
Proof.
  unfold handle_routes, GetPidForContainer, ContainerAddRoute, GetHostNetwork,
    GetDefaultGatewayInterface, GetInterfaceIP4Addr, RouteList, default_interface, getIfaceAddrs,
    pick_addr, GetNS, Do, add_member_routes, add_member_route, GetDefaultGateway, default_gateway,
    RouteList.
  upholds_tac.
Qed.

Lemma keeps_create_networks (p : ProviderNetworkCreate) :
  keeps (createVlanProvidernetwork p) /\ keeps (createDirectProvidernetwork p).
Proof. unfold createVlanProvidernetwork, createDirectProvidernetwork. split; upholds_tac. Qed.

Lemma keeps_delete_networks (p : ProviderNetworkRemove) :
  keeps (deleteVlanProvidernetwork p) /\ keeps (deleteDirectProvidernetwork p).
Proof. unfold deleteVlanProvidernetwork, deleteDirectProvidernetwork. split; upholds_tac. Qed.
End keeps.

(** ** The abstract machine *)

Inductive phase :=
| Waiting (announced : list ProviderNetworkCreate)
| Synchronised.

(** The payload of a message for this agent. *)
Definition for_us (m : Notification) : option Payload :=
  if CniType m == "ovn4nfv" then payload m else None.

Definition announcement (m : Notification) : option ProviderNetworkCreate :=
  match for_us m with Some (Notification_ProviderNwCreate p) => Some p | _ => None end.
Definition is_insync (m : Notification) : bool :=
  match for_us m with Some (Notification_InSync _) => true | _ => false end.

Inductive agent_step : phase -> Notification -> phase -> Prop :=
| step_announce ps m p : announcement m = Some p -> agent_step (Waiting ps) m (Waiting (ps ++ [p]))
| step_insync ph m : is_insync m = true -> agent_step ph m Synchronised
| step_waiting ps m :
    announcement m = None -> is_insync m = false -> agent_step (Waiting ps) m (Waiting ps)
| step_synchronised m : is_insync m = false -> agent_step Synchronised m Synchronised.

Inductive agent_steps : phase -> list Notification -> phase -> Prop :=
| steps_nil ph : agent_steps ph [] ph
| steps_cons ph1 ph2 ph3 m ms :
    agent_step ph1 m ph2 -> agent_steps ph2 ms ph3 -> agent_steps ph1 (m :: ms) ph3.

(** The phase that a message history leads to. *)
Definition phase_after (ph : phase) (ms : list Notification) : phase :=
  match ph with
  | Synchronised => Synchronised
  | Waiting ps => if existsb is_insync ms then Synchronised else Waiting (ps ++ omap announcement ms)
  end.

Lemma agent_steps_phase ph ms ph' : agent_steps ph ms ph' -> ph' = phase_after ph ms.
Proof.
  induction 1 as [ph|ph1 ph2 ph3 m ms Hs _ ->].
  - destruct ph; simpl; [by rewrite app_nil_r|done].
  - destruct Hs as [ps m p Hp|ph m Hm|ps m Hp Hm|m Hm]; simpl.
    + assert (is_insync m = false) as ->.
      { revert Hp. unfold announcement, is_insync. by destruct (for_us m) as [[]|]. }
      rewrite Hp. simpl. by rewrite <- app_assoc.
    + destruct ph; simpl; by rewrite ?Hm.
    + by rewrite Hm, Hp.
    + done.
Qed.

(** How the package variables represent a phase. *)
Definition represents (g : Globals) : phase :=
  if inSync g then Synchronised else Waiting (pnCreateStore g).
Definition agent_inv (g : Globals) : Prop := inSync g = true -> pnCreateStore g = [].

(** What a handled message may change: the two variables of the agent. *)
Definition agent_frame (g g' : Globals) : Prop :=
  g' = set_inSync (inSync g') (set_pnCreateStore (pnCreateStore g') g).

Lemma agent_frame_refl g : agent_frame g g.
Proof. by destruct g. Qed.

Lemma agent_frame_trans g1 g2 g3 : agent_frame g1 g2 -> agent_frame g2 g3 -> agent_frame g1 g3.
Proof. unfold agent_frame. intros -> ->. by destruct g1. Qed.

Section refinement.
Context {E : Type} `{!ExecWorld E, !LinkWorld E, !IPTWorld E, !RouteWorld E, !NodeWorld E}.
Implicit Types (s : St E) (m : Notification).

(** [moves_to G m s]: [m] does not block, and when it returns the package
    variables satisfy [G]. *)
Definition moves_to {A} (G : Globals -> Prop) (c : M E A) s : Prop :=
  let '(r, s', _) := c s in r <> Block /\ forall a, r = Val a -> G (glob s').

Lemma moves_bind {A B} (c : M E A) (k : A -> M E B) G s :
  upholds any_event c ->
  (forall a s', glob s' = glob s -> moves_to G (k a) s') -> moves_to G (c ≫= k) s.
Proof.
  intros Hc Hk. unfold moves_to, mbind, M_bind. specialize (Hc s).
  destruct (c s) as [[[a|w|] s1] e1]; destruct Hc as (Hg & _ & Hb); [|by split|done].
  specialize (Hk a s1 Hg). unfold moves_to in Hk. by destruct (k a s1) as [[r s2] e2].
Qed.

Lemma moves_keeps {A} (c : M E A) (G : Globals -> Prop) s :
  upholds any_event c -> G (glob s) -> moves_to G c s.
Proof.
  intros Hc HG. unfold moves_to. specialize (Hc s). destruct (c s) as [[r s'] es].
  destruct Hc as (Hg & _ & Hb). split; [done|]. by rewrite Hg.
Qed.

Lemma moves_mod {A} f (k : M E A) (G : Globals -> Prop) s :
  moves_to G k (mkSt (f (glob s)) (env s)) -> moves_to G (mod_glob f;; k) s.
Proof.
  unfold moves_to, mbind, M_bind, mod_glob. by destruct (k _) as [[r s'] es].
Qed.

Lemma moves_get {A} (k : Globals -> M E A) (G : Globals -> Prop) s :
  moves_to G (k (glob s)) s -> moves_to G (get_glob ≫= k) s.
Proof. unfold moves_to, mbind, M_bind, get_glob. by destruct (k _ s) as [[r s'] es]. Qed.

(** What a handled message promises, from the package variables [g]. *)
Definition good_move (g : Globals) m (g' : Globals) : Prop :=
  agent_inv g' /\ agent_frame g g' /\ agent_step (represents g) m (represents g').

(** Staying is a move, unless the message is an announcement to store or
    the one that ends the waiting. *)
Lemma good_stay g m :
  agent_inv g -> announcement m = None \/ inSync g = true -> is_insync m = false ->
  good_move g m g.
Proof.
  intros Hinv Ha Hi. split; [done|]. split; [apply agent_frame_refl|]. unfold represents.
  destruct (inSync g) eqn:Hs; [by constructor|]. destruct Ha; [by constructor|congruence].
Qed.

Lemma good_store g m p :
  announcement m = Some p -> inSync g = false -> good_move g m (store_create p g).
Proof.
  intros Ha Hs. split; [|split].
  - unfold agent_inv. simpl. by rewrite Hs.
  - by destruct g.
  - unfold represents. simpl. rewrite Hs. by constructor.
Qed.

Lemma good_enter g m : is_insync m = true -> good_move g m (enter_sync g).
Proof. intros Hi. split; [done|]. split; [by destruct g|]. by apply step_insync. Qed.

(** A message for which the phase does not change. *)
Lemma moves_stay {A} (c : M E A) g m s :
  glob s = g -> agent_inv g -> announcement m = None \/ inSync g = true -> is_insync m = false ->
  upholds any_event c -> moves_to (good_move g m) c s.
Proof. intros <- ????. apply moves_keeps; [done|]. by apply good_stay. Qed.

Lemma handle_create_moves m p s :
  announcement m = Some p -> is_insync m = false -> agent_inv (glob s) ->
  moves_to (good_move (glob s) m) (handle_create p) s.
Proof.
  intros Ha Hi Hinv. unfold handle_create. apply moves_get.
  destruct (inSync (glob s)) eqn:Hs; cbn [negb].
  - apply moves_stay; auto. destruct (keeps_create_networks (E:=E) p). upholds_tac.
  - unfold moves_to, mod_glob. split; [done|]. intros _ _. by apply good_store.
Qed.

Lemma handle_remove_moves m p s :
  announcement m = None -> is_insync m = false -> agent_inv (glob s) ->
  moves_to (good_move (glob s) m) (handle_remove p) s.
Proof.
  intros Ha Hi Hinv. apply moves_stay; auto. unfold handle_remove.
  destruct (keeps_delete_networks (E:=E) p). upholds_tac.
Qed.

Lemma handle_insync_moves m i s :
  is_insync m = true -> moves_to (good_move (glob s) m) (handle_insync i) s.
Proof.
  intros Hi. unfold handle_insync. apply moves_bind; [apply keeps_inSyncVlan|]. intros _ s1 H1.
  apply moves_bind; [apply keeps_inSyncDirect|]. intros _ s2 H2. do 2 apply moves_mod.
  assert (HK := keeps_createNodeOVSInternalPort (E:=E) i).
  apply moves_keeps; [upholds_tac|]. cbn [glob]. rewrite H2, H1. by apply good_enter.
Qed.

Lemma handleNotif_moves m s :
  agent_inv (glob s) -> moves_to (good_move (glob s) m) (handleNotif m) s.
Proof.
  intros Hinv. unfold handleNotif.
  destruct (CniType m == "ovn4nfv") eqn:Hc; cycle 1.
  { apply moves_stay; unfold announcement, is_insync, for_us; rewrite ?Hc; auto with upholds. }
  destruct (payload m) as [[i|p|p|p|p]|] eqn:Hp;
    [apply handle_insync_moves|apply handle_create_moves|apply handle_remove_moves
    |apply moves_stay|apply moves_stay|apply moves_stay];
    unfold announcement, is_insync, for_us; rewrite ?Hc, ?Hp; auto using keeps_handle_routes with upholds.
Qed.

Lemma receive_moves ms s :
  agent_inv (glob s) ->
  moves_to (fun g' => agent_inv g' /\ agent_frame (glob s) g' /\
                      agent_steps (represents (glob s)) ms (represents g')) (receive ms) s.
Proof.
  unfold receive. revert s. induction ms as [|m ms IH]; intros s Hinv; cbn [for_range].
  { unfold moves_to. simpl. split; [done|]. intros _ _.
    split; [done|]. split; [apply agent_frame_refl|constructor]. }
  assert (Hm := handleNotif_moves m s Hinv). unfold moves_to, mbind, M_bind in *.
  destruct (handleNotif m s) as [[[u|w|] s1] e1]; simpl; destruct Hm as [Hb Hm]; [|by split|done].
  destruct (Hm u eq_refl) as (Hinv1 & Hf1 & Hs1). specialize (IH s1 Hinv1).
  destruct (for_range _ ms ()  s1) as [[[a|w|] s2] e2]; simpl in *; [|by split|by destruct IH].
  split; [done|]. intros _ _. destruct IH as [_ IH]. destruct (IH _ eq_refl) as (Hinv2 & Hf2 & Hs2).
  split; [done|]. split; [by eapply agent_frame_trans|]. by econstructor.
Qed.

(** C4: the agent refines its abstract machine: while it waits it only
    stores the announced networks, an InSync message makes it synchronised
    for good and empties the store, and no other message changes a package
    variable, whatever the tools answer; it never blocks, so any history of
    messages that is handled to the end leaves the phase that the history
    determines. *)
Theorem receive_refines ms s :
  agent_inv (glob s) ->
  let '(r, s', _) := receive ms s in
  r <> Block /\
  (r = Val () ->
     agent_inv (glob s') /\ agent_frame (glob s) (glob s') /\
     agent_steps (represents (glob s)) ms (represents (glob s')) /\
     represents (glob s') = phase_after (represents (glob s)) ms).
Proof.
  intros Hinv. assert (H := receive_moves ms s Hinv). unfold moves_to in H.
  destruct (receive ms s) as [[r s'] es]. destruct H as [Hb H]. split; [done|].
  intros Hr. destruct (H () Hr) as (?&?&?). repeat split; [done..|]. by apply agent_steps_phase.
Qed.

(** Before the InSync message the agent touches nothing on the node: a
    create message is stored after the earlier ones, and a remove message is
    dropped, so that a network announced and removed before the
    synchronisation stays in the store. *)
Lemma waiting_is_silent m s :
  inSync (glob s) = false -> is_insync m = false ->
  (forall p, for_us m <> Some (Notification_ContainterRtInsert p)) ->
  handleNotif m s =
    (Val (), mkSt (match announcement m with
                   | Some p => store_create p (glob s)
                   | None => glob s
                   end) (env s), []).
Proof.
  intros Hs. unfold is_insync, announcement, for_us, handleNotif.
  destruct (CniType m == "ovn4nfv"); [|by destruct s].
  destruct (payload m) as [[i|p|p|p|p]|]; intros Hi Hr; [done| | |by destruct (Hr p)|by destruct s..].
  - unfold handle_create, mbind, M_bind, get_glob. by rewrite Hs.
  - unfold handle_remove, mbind, M_bind, get_glob. rewrite Hs. by destruct s.
Qed.
End refinement.

(** ** What the agent does to the node once it is synchronised *)

Definition no_pause (e : Event) : Prop := is_retry_pause e = false.

Lemma no_pause_compress es :
  Forall no_pause es -> starts_with_pause es = false /\ compress es = es.
Proof.
  induction 1 as [|e es He _ [IH1 IH2]]; [done|]. unfold no_pause in He. split; [done|].
  simpl. rewrite IH1, IH2, He. by destruct e.
Qed.

Section effects.
Context {E : Type} `{!ExecWorld E, !LinkWorld E, !IPTWorld E, !RouteWorld E, !NodeWorld E}.
Implicit Types (s : St E) (h : execHelper).

(** The commands that make a VLAN interface, and those that make a bridge of
    it. *)
Definition vlan_plan h (id provider ln : string) : list (string * list string) :=
  [ (ipPath h, ["link"; "add"; "link"; provider; "name"; ln; "type"; "vlan"; "id"; id]);
    (ipPath h, ["link"; "set"; ln; "alias"; "nfn-" +:+ ln]);
    (ipPath h, ["link"; "set"; "dev"; ln; "up"]) ].
Definition bridge_plan h (nw br intf : string) : list (string * list string) :=
  [ (vsctlPath h, vs_argv ["--may-exist"; "add-br"; br]);
    (vsctlPath h, vs_argv ["--may-exist"; "add-port"; br; intf]);
    (vsctlPath h, vs_argv ["set"; "bridge"; br; "external_ids:nfn=" +:+ nw]) ].

(** A function without retry pauses satisfies what its equation says. *)
Lemma wp_exact {A} (c : M E A) s :
  upholds no_pause c -> wp c (fun r s' es => c s = (r, s', es)) s.
Proof.
  intros Hc. unfold wp. specialize (Hc s). destruct (c s) as [[r s'] es].
  destruct Hc as (_ & Hp & _). destruct (no_pause_compress es Hp) as [H1 H2]. by rewrite H2.
Qed.

Lemma no_pause_updateOvnBridgeMapping br nw act :
  upholds (E:=E) no_pause (updateOvnBridgeMapping br nw act).
Proof.
  unfold updateOvnBridgeMapping, parse_mappings, parse_label, edit_mappings, write_mappings.
  unfold map_range. assert (H := fun args => upholds_RunOVSVsctl (E:=E) no_pause args).
  upholds_tac; first [by apply H|done].
Qed.

(** The three commands of a bridge, then the update of the mappings, whose
    outcome only matters when it panics. *)
Definition bridge_made nw br (plan : list (string * list string)) s
    (r : Res (option error)) s' es : Prop :=
  glob s' = glob s /\
  exists err es1 es2, es = es1 ++ es2 /\ follows plan err es1 /\
    match err with
    | Some e => r = Val (Some e) /\ es2 = []
    | None => exists s1 ru, glob s1 = glob s /\
                updateOvnBridgeMapping br nw "add" s1 = (ru, s', es2) /\
                match ru with Val _ => r = Val None | Panic w => r = Panic w | Block => False end
    end.

Lemma made_stops nw br plan s x s' es :
  glob s' = glob s -> follows plan (Some x) es -> bridge_made nw br plan s (Val (Some x)) s' es.
Proof.
  intros Hg Hf. split; [done|]. exists (Some x), es, []. by rewrite app_nil_r.
Qed.

(** The commands of a plan of three, as far as they were run. *)
Lemma follows_two p1 a1 o1 se1 p2 a2 o2 se2 err2 :
  follows [(p1, a1); (p2, a2)] err2 [ECmd p1 a1 o1 se1 None; ECmd p2 a2 o2 se2 err2].
Proof.
  apply (follows_app [(p1, a1)] [(p2, a2)] err2 [_] [_]); apply follows_one.
Qed.

Lemma follows_three p1 a1 o1 se1 p2 a2 o2 se2 p3 a3 o3 se3 err3 :
  follows [(p1, a1); (p2, a2); (p3, a3)] err3
    [ECmd p1 a1 o1 se1 None; ECmd p2 a2 o2 se2 None; ECmd p3 a3 o3 se3 err3].
Proof.
  apply (follows_app [(p1, a1)] [(p2, a2); (p3, a3)] err3 [_] [_; _]);
    [apply follows_one|apply follows_two].
Qed.

Lemma wp_CreatePnBridge nw br intf s h :
  runner (glob s) = Some h -> nw <> "" -> br <> "" -> intf <> "" ->
  wp (CreatePnBridge nw br intf) (bridge_made nw br (bridge_plan h nw br intf) s) s.
Proof.
  intros Hr Hnw Hbr Hi. unfold CreatePnBridge. rewrite !bool_decide_eq_false_2 by done. cbn [orb].
  wp_step. eapply wp_RunOVSVsctl; [done|]. intros o1 se1 err1 e1. cbn [after].
  destruct err1 as [x|].
  { wp_steps. apply made_stops; [done|]. by apply (follows_stop [_]), follows_one. }
  wp_step. eapply wp_RunOVSVsctl; [done|]. intros o2 se2 err2 e2. cbn [after].
  destruct err2 as [x|].
  { wp_steps. apply made_stops; [done|]. apply (follows_stop [_; _]), follows_two. }
  wp_step. eapply wp_RunOVSVsctl; [done|]. intros o3 se3 err3 e3. cbn [after].
  destruct err3 as [x|].
  { wp_steps. apply made_stops; [done|]. apply follows_three. }
  wp_step. eapply wp_mono; [|apply wp_exact, no_pause_updateOvnBridgeMapping].
  intros ru s4 es4 Hu.
  destruct (upholds_glob _ _ _ _ _ _ (no_pause_updateOvnBridgeMapping br nw "add") Hu)
    as (Hg & _ & Hb).
  assert (HB : forall r, match ru with Val _ => r = Val None | Panic w => r = Panic w | Block => False end ->
    bridge_made nw br (bridge_plan h nw br intf) s r s4
      ([ECmd (vsctlPath h) (vs_argv ["--may-exist"; "add-br"; br]) o1 se1 None] ++
       [ECmd (vsctlPath h) (vs_argv ["--may-exist"; "add-port"; br; intf]) o2 se2 None] ++
       [ECmd (vsctlPath h) (vs_argv ["set"; "bridge"; br; "external_ids:nfn=" +:+ nw]) o3 se3 None] ++ es4)).
  { intros r Hru. split; [done|]. eexists None, _, es4. split; [|split; [apply follows_three|]]; [done|].
    eexists _, ru. split; [|split; [exact Hu|done]]; done. }
  destruct ru as [a|w|]; cbn [after]; [|by apply HB|done].
  apply wp_ret. rewrite app_nil_r. by apply HB.
Qed.

(** A VLAN interface is made unless a link of its name is there. *)
Lemma wp_CreateVlan id provider ln s h :
  runner (glob s) = Some h -> id <> "" -> provider <> "" -> ln <> "" ->
  let present := bool_decide ((link_by_name ln (env s)).1 = None) in
  wp (CreateVlan id provider ln) (fun r s' es => glob s' = glob s /\
    exists err, r = Val err /\ follows (if present then [] else vlan_plan h id provider ln) err es) s.
Proof.
  intros Hr Hid Hp Hl. unfold CreateVlan, LinkByName. rewrite !bool_decide_eq_false_2 by done.
  cbn [orb]. wp_step. apply wp_prim. intros err e1 He. rewrite He. cbn [fst]. split; [done|].
  cbn [after].
  destruct err as [x0|]; cycle 1.
  { rewrite bool_decide_eq_true_2 by done. wp_steps. split; [done|]. eexists. split; [done|].
    apply follows_skip; [done..|]. apply follows_nil. }
  rewrite bool_decide_eq_false_2 by done.
  wp_step. eapply wp_RunIP; [done|]. intros o1 se1 err1 e2. cbn [after].
  destruct err1 as [x|].
  { wp_steps. split; [done|]. eexists. split; [done|]. apply follows_skip; [done..|].
    by apply (follows_stop [_]), follows_one. }
  wp_step. eapply wp_RunIP; [done|]. intros o2 se2 err2 e3. cbn [after].
  destruct err2 as [x|].
  { wp_steps. split; [done|]. eexists. split; [done|]. apply follows_skip; [done..|].
    apply (follows_stop [_; _]), follows_two. }
  wp_step. eapply wp_RunIP; [done|]. intros o3 se3 err3 e4. cbn [after].
  wp_steps. split; [done|]. eexists. split; [done|]. apply follows_skip; [done..|].
  apply follows_three.
Qed.

(** A plan carried out in front of a bridge. *)
Lemma made_after nw br plan0 plan s s1 r s' es0 es :
  glob s1 = glob s -> follows plan0 None es0 -> bridge_made nw br plan s1 r s' es ->
  bridge_made nw br (plan0 ++ plan) s r s' (es0 ++ es).
Proof.
  intros Hg Hf (Hg' & err & es1 & es2 & -> & Hf1 & Hm). split; [congruence|].
  exists err, (es0 ++ es1), es2. split; [by rewrite <- app_assoc|].
  split; [by apply follows_app|]. rewrite Hg in Hm. done.
Qed.

(** The interface of a VLAN network. *)
Definition vlan_name (p : ProviderNetworkCreate) (v : VlanInfo) : string :=
  if LogicalIntf v == "" then pc_ProviderNwName p +:+ "." +:+ VlanId v else LogicalIntf v.

Lemma vlan_name_nonempty p v : vlan_name p v <> "".
Proof.
  unfold vlan_name. case_bool_decide; [|done]. by destruct (pc_ProviderNwName p).
Qed.

(** What a run of a handler that makes a network amounts to. *)
Definition network_made name plan s (r : Res ()) s' es : Prop :=
  exists rb, bridge_made ("nw_" +:+ name) ("br-" +:+ name) plan s rb s' es /\
    match rb with Val _ => r = Val () | Panic w => r = Panic w | Block => False end.

(** a synchronised agent told to create a VLAN network adds the VLAN
    interface (unless the link is there), sets its alias, brings it up, adds
    the bridge, plugs the interface and records the network, in this order,
    nothing following the first command that fails; when all succeed it
    updates the bridge mappings, whose errors are dropped. *)
Theorem handle_create_vlan p v s h :
  runner (glob s) = Some h -> inSync (glob s) = true ->
  Vlan p = Some v -> Direct p = None -> VlanId v <> "" -> vi_ProviderIntf v <> "" ->
  let name := pc_ProviderNwName p in
  let ln := vlan_name p v in
  let present := bool_decide ((link_by_name ln (env s)).1 = None) in
  wp (handle_create p)
     (network_made name ((if present then [] else vlan_plan h (VlanId v) (vi_ProviderIntf v) ln)
                         ++ bridge_plan h ("nw_" +:+ name) ("br-" +:+ name) ln) s) s.
Proof.
  intros Hr Hs Hv Hd Hid Hpr name ln present. unfold handle_create. wp_steps. rewrite Hs.
  cbn [negb]. wp_step. rewrite (bool_decide_eq_true_2 (Vlan p <> None)) by (by rewrite Hv).
  unfold createVlanProvidernetwork. rewrite Hv. cbn [GetVlanId GetLogicalIntf GetVlanProviderIntf from_option].
  fold (vlan_name p v). fold name ln. wp_step.
  assert (Hne := vlan_name_nonempty p v). fold ln in Hne.
  eapply wp_mono; [|by apply (wp_CreateVlan _ _ ln s h)].
  intros r1 s1 es1 (Hg1 & err & -> & Hf). fold present in Hf. cbn [after].
  destruct err as [x|].
  { wp_steps. exists (Val (Some x)). split; [|done]. rewrite !app_nil_r.
    apply made_stops; [done|]. by apply follows_stop. }
  wp_step. eapply wp_mono; [|apply (wp_CreatePnBridge _ _ ln s1 h); [by rewrite Hg1|done..]].
  intros r2 s2 es2 Hm.
  assert (HB := made_after _ _ _ _ s s1 _ _ _ _ Hg1 Hf Hm).
  destruct r2 as [[x|]|w|]; cbn [after].
  - wp_steps. exists (Val (Some x)). split; [|done]. by rewrite !app_nil_r.
  - wp_steps. rewrite (bool_decide_eq_false_2 (Direct p <> None)) by (rewrite Hd; tauto).
    wp_steps. exists (Val None). split; [|done]. by rewrite !app_nil_r.
  - by exists (Panic w).
  - destruct HB as (_ & [x|] & ? & ? & ? & ? & HB); [by destruct HB|].
    destruct HB as (? & [] & ? & ? & ?); done.
Qed.
End effects.

(** ** What the synchronisation does to the node *)

(** A command that makes a VLAN interface, a bridge or a port of a bridge. *)
Definition makes_network (e : Event) : bool :=
  match cmd_of e with
  | Some (_, "link" :: "add" :: _) | Some (_, _ :: "--may-exist" :: _) => true
  | _ => false
  end.

(** The VLAN interface that a command deletes. *)
Definition deleted_link (e : Event) : option string :=
  match cmd_of e with Some (_, ["link"; "del"; "dev"; v]) => Some v | _ => None end.

Section sync.
Context {E : Type} `{!ExecWorld E, !LinkWorld E, !IPTWorld E, !RouteWorld E, !NodeWorld E}.
Implicit Types (s : St E) (h : execHelper).

Definition emits {A} (P : Event -> Prop) (m : M E A) : Prop := forall s, Forall P (m s).2.

Lemma emits_upholds {A} P (m : M E A) : upholds P m -> emits P m.
Proof. intros H s. specialize (H s). destruct (m s) as [[r s'] es]. tauto. Qed.

Lemma emits_bind {A B} P (m : M E A) (k : A -> M E B) :
  emits P m -> (forall a, emits P (k a)) -> emits P (m ≫= k).
Proof.
  intros Hm Hk s. unfold mbind, M_bind. specialize (Hm s).
  destruct (m s) as [[[a|w|] s1] e1]; [|done..]. specialize (Hk a s1).
  destruct (k a s1) as [[r s2] e2]. by apply Forall_app.
Qed.

Definition makes_nothing (e : Event) : Prop := makes_network e = false.

Lemma nothing_RunOVSVsctl a args :
  a <> "--may-exist" -> upholds (E:=E) makes_nothing (RunOVSVsctl (a :: args)).
Proof.
  intros Ha. apply upholds_RunOVSVsctl. intros. unfold makes_nothing, makes_network. simpl.
  repeat case_match; congruence.
Qed.

Lemma nothing_link_del v : upholds (E:=E) makes_nothing (RunIP ["link"; "del"; "dev"; v]).
Proof. by apply upholds_RunIP. Qed.
#[local] Hint Resolve nothing_link_del : upholds.
#[local] Hint Extern 1 (upholds _ (RunOVSVsctl _)) => (apply nothing_RunOVSVsctl; done) : upholds.

Lemma nothing_DeletePnBridge nw br : upholds (E:=E) makes_nothing (DeletePnBridge nw br).
Proof.
  unfold DeletePnBridge, updateOvnBridgeMapping, parse_mappings, parse_label, edit_mappings,
    write_mappings, map_range.
  upholds_tac. done.
Qed.

Lemma nothing_DeleteVlan v : upholds (E:=E) makes_nothing (DeleteVlan v).
Proof. unfold DeleteVlan. upholds_tac. Qed.

Lemma nothing_reads :
  upholds (E:=E) makes_nothing GetVlan /\ upholds (E:=E) makes_nothing (GetPnBridge "nfn").
Proof.
  unfold GetVlan, LinkList, GetPnBridge, keep_bridge.
  split; upholds_tac. done.
Qed.

(** The two creations of the synchronisation have an empty parameter. *)
Lemma CreateVlan_no_id provider ln :
  @CreateVlan E _ _ "" provider ln
  = mret (Errorf ("CreateVlan invalid parameters: " +:+ provider +:+ " " +:+ "" +:+ " " +:+ ln)).
Proof. unfold CreateVlan. by rewrite orb_true_r. Qed.

Lemma CreatePnBridge_no_port nw br :
  @CreatePnBridge E _ nw br "" = mret (Errorf "CreatePnBridge invalid parameters").
Proof. unfold CreatePnBridge. by rewrite orb_true_r. Qed.

Lemma nothing_sync_vlan vl pn d : upholds (E:=E) makes_nothing (sync_vlan vl pn d).
Proof.
  unfold sync_vlan. case_bool_decide as Hv; [upholds_tac|]. rewrite Hv.
  change (GetVlanId None) with "". cbn zeta. rewrite CreateVlan_no_id. upholds_tac.
Qed.

Lemma nothing_sync_bridge bl name d : upholds (E:=E) makes_nothing (sync_bridge bl name "" d).
Proof. unfold sync_bridge. rewrite CreatePnBridge_no_port. upholds_tac. Qed.

Lemma nothing_sync_vlan_bridge bl pn d : upholds (E:=E) makes_nothing (sync_vlan_bridge bl pn d).
Proof.
  unfold sync_vlan_bridge. case_bool_decide as Hv; [upholds_tac|]. rewrite Hv.
  apply nothing_sync_bridge.
Qed.

Lemma nothing_sync_direct_bridge bl pn d :
  upholds (E:=E) makes_nothing (sync_direct_bridge bl pn d).
Proof.
  unfold sync_direct_bridge. case_bool_decide as Hv; [upholds_tac|]. rewrite Hv.
  apply nothing_sync_bridge.
Qed.

Lemma nothing_node_port i : upholds (E:=E) makes_nothing (createNodeOVSInternalPort i).
Proof.
  unfold createNodeOVSInternalPort, CreateNodeOVSInternalPort, Getenv, CombinedOutput, LinkByName,
    Netlink, SetupAndEnsureIPTables, ensureIPTables, ipTablesRulesExist, check_rule, setupIPTables,
    insert_rule, teardownIPTables, remove_rule, ipt_New, Exists, AppendUnique, Delete.
  upholds_tac; by destruct_or?.
Qed.

Lemma emits_handle_insync i : emits makes_nothing (handle_insync i).
Proof.
  apply emits_bind; [|intros _; apply emits_bind; [|intros _]].
  - apply emits_upholds. destruct nothing_reads. unfold inSyncVlanProvidernetwork, drop_vlan, drop_bridge.
    assert (H1 := nothing_sync_vlan). assert (H2 := nothing_sync_vlan_bridge).
    assert (H3 := nothing_DeleteVlan). assert (H4 := nothing_DeletePnBridge). upholds_tac.
  - apply emits_upholds. destruct nothing_reads. unfold inSyncDirectProvidernetwork, drop_bridge.
    assert (H1 := nothing_sync_direct_bridge). assert (H4 := nothing_DeletePnBridge). upholds_tac.
  - do 2 (apply emits_bind; [intros s; constructor|intros _]).
    apply emits_upholds. assert (H := nothing_node_port i). upholds_tac.
Qed.

(** an InSync message creates none of the networks announced before it:
    whatever is stored and whatever the tools answer, its handling runs no
    command that adds a VLAN interface, a bridge or a port of a bridge.  (A
    stored network with the section that a loop is about is skipped, and one
    without it is offered for creation with an empty interface.) *)
Theorem insync_creates_nothing i s :
  Forall (fun e => makes_network e = false) (handle_insync i s).2.
Proof. apply emits_handle_insync. Qed.

(** *** The VLANs of the node *)

Definition deletes_no_link (e : Event) : Prop := no_pause e /\ deleted_link e = None.

Lemma wp_upholds {A} P (m : M E A) s :
  (forall e, P e -> no_pause e) -> upholds P m ->
  wp m (fun r s' es => glob s' = glob s /\ Forall P es /\ r <> Block) s.
Proof.
  intros HP Hm. unfold wp. specialize (Hm s). destruct (m s) as [[r s'] es].
  destruct Hm as (Hg & Hes & Hb).
  destruct (no_pause_compress es) as [H1 H2]; [by eapply Forall_impl|]. by rewrite H2.
Qed.

Lemma no_deleted es : Forall deletes_no_link es -> omap deleted_link es = [].
Proof. induction 1 as [|e es [_ He] _ IH]; [done|]. simpl. by rewrite He. Qed.

Lemma keeps_links_RunOVSVsctl args : upholds (E:=E) deletes_no_link (RunOVSVsctl args).
Proof. apply upholds_RunOVSVsctl. by split. Qed.
#[local] Hint Resolve keeps_links_RunOVSVsctl : upholds.

Lemma keeps_links_bridges d bl :
  upholds (E:=E) deletes_no_link (GetPnBridge "nfn") /\
  upholds (E:=E) deletes_no_link (for_range (drop_bridge d) bl ()).
Proof.
  unfold GetPnBridge, keep_bridge, drop_bridge, DeletePnBridge, updateOvnBridgeMapping,
    parse_mappings, parse_label, edit_mappings, write_mappings, map_range.
  split; upholds_tac; done.
Qed.

(** The VLAN interfaces that [GetVlan] finds. *)
Definition node_vlans (e : E) : list string :=
  omap (fun '(alias, name) => if Contains alias "nfn-" then Some name else None) (link_list e).1.

Lemma wp_drop_vlans vl s h :
  runner (glob s) = Some h ->
  wp (for_range (drop_vlan ∅) vl ()) (fun r s' es => glob s' = glob s /\ r = Val (inl ()) /\
    omap deleted_link es = filter (fun v => v <> "") vl) s.
Proof.
  intros Hr. eapply (wp_for_range _ (fun dn _ s' es => glob s' = glob s /\
    omap deleted_link es = filter (fun v => v <> "") dn)); [by split| |by intros [] s' es []].
  intros dn v rest l s' es _ [Hg He]. unfold drop_vlan. rewrite bool_decide_eq_false_2 by set_solver.
  assert (Hf : filter (fun v => v <> "") (dn ++ [v]) =
               filter (fun v => v <> "") dn ++ (if bool_decide (v = "") then [] else [v])).
  { rewrite filter_app. f_equal. case_bool_decide; [by rewrite filter_cons_False; auto|].
    by rewrite filter_cons_True. }
  unfold DeleteVlan. case_bool_decide as Hv.
  - wp_steps. split; [done|]. rewrite omap_app, He, Hf. done.
  - wp_step. wp_step. eapply wp_RunIP; [by rewrite Hg|]. intros o se err e'. wp_steps.
    split; [done|]. rewrite omap_app, He, Hf. done.
Qed.

(** Stored VLAN networks are skipped by both loops. *)
Lemma wp_skip_vlans (body : ProviderNetworkCreate -> gset string -> M E (gset string + ())) store s :
  (forall pn d, Vlan pn <> None -> body pn d = mret (inl d)) ->
  Forall (fun pn => Vlan pn <> None) store ->
  wp (for_range body store ∅) (fun r s' es => r = Val (inl ∅) /\ s' = s /\ es = []) s.
Proof.
  intros Hb Hall. eapply (wp_for_range _ (fun _ d s' es => d = ∅ /\ s' = s /\ es = [])); [done| |].
  - intros dn pn rest d s' es -> (-> & -> & ->). apply Forall_app in Hall as [_ Hall].
    apply Forall_cons in Hall as [Hpn _]. rewrite Hb by done. apply wp_ret. done.
  - by intros d s' es (-> & -> & ->).
Qed.

(** synchronising a store of VLAN networks deletes every VLAN interface
    that the agent finds on the node, those of the announced networks
    included, in the order of the links and however the run ends. *)
Theorem insync_deletes_vlans s h :
  runner (glob s) = Some h ->
  Forall (fun pn => Vlan pn <> None) (pnCreateStore (glob s)) ->
  wp inSyncVlanProvidernetwork (fun r s' es =>
    glob s' = glob s /\ r <> Block /\
    omap deleted_link es = filter (fun v => v <> "") (node_vlans (env s))) s.
Proof.
  intros Hr Hall. unfold inSyncVlanProvidernetwork, GetVlan, LinkList. wp_step. wp_step.
  apply wp_prim. intros links e1 Hl. split; [done|]. wp_steps. fold (node_vlans (env s)).
  assert (Hvl : omap (fun '(alias, name) => if Contains alias "nfn-" then Some name else None) links
                = node_vlans (env s)) by (unfold node_vlans; by rewrite Hl).
  rewrite Hvl. generalize (node_vlans (env s)) as vl. intros vl.
  set (s1 := mkSt (glob s) e1).
  assert (Hq : quiet (E:=E) (GetPnBridge "nfn")) by (unfold GetPnBridge, keep_bridge; quiet_tac).
  eapply wp_mono; [|apply wp_and; [by apply (quiet_elim _ s1 h Hq)|
    apply wp_upholds; [|apply (keeps_links_bridges ∅ [])]; by intros e []]].
  intros r s2 es2 [(bl & e2 & -> & ->) (_ & H2 & _)]. cbn [after]. wp_steps.
  eapply wp_mono; [|apply wp_skip_vlans; [|exact Hall]; intros pn d Hpn; unfold sync_vlan;
    by rewrite bool_decide_eq_true_2].
  intros r s3 es3 (-> & -> & ->). cbn [after]. wp_step.
  eapply wp_mono; [|apply wp_skip_vlans; [|exact Hall]; intros pn d Hpn; unfold sync_vlan_bridge;
    by rewrite bool_decide_eq_true_2].
  intros r s3 es3 (-> & -> & ->). cbn [after]. wp_step.
  eapply wp_mono; [|by apply (wp_drop_vlans vl _ h)].
  intros r s3 es3 (Hg3 & -> & H3). cbn [after]. wp_step.
  eapply wp_mono; [|apply wp_upholds; [|apply (keeps_links_bridges ∅ bl)]; by intros e []].
  intros r s4 es4 (Hg4 & H4 & Hb). simpl in Hg3.
  assert (Hd : omap deleted_link ([EQuery "LinkList"] ++ es2 ++ es3 ++ es4) = filter (fun v => v <> "") vl).
  { rewrite !omap_app, (no_deleted _ H2), (no_deleted _ H4), H3. simpl. by rewrite app_nil_r. }
  destruct r as [a|w|]; cbn [after]; [wp_steps| |done].
  all: split; [congruence|]; split; [done|].
  all: etransitivity; [|exact Hd]; f_equal; rewrite ?app_nil_r; done.
Qed.
End sync.

(** ** A concrete node

    Two VLAN links of ours, a bridge, no mappings yet; every operation
    succeeds, and a link is found when the node lists it. *)

Definition demo_links : list (string * string) :=
  [("nfn-eth1.100", "eth1.100"); ("", "eth0"); ("nfn-eth1.200", "eth1.200")].

Definition node_exec : ExecWorld Z :=
  reply_world (fun args => match args with
    | [_; "list-br"] => ("br-pn1", "", None)
    | [_; "get"; "bridge"; _; _] => ("nw_pn1", "", None)
    | [_; "get"; "open"; _; _] => ("", "no key", Some (OtherError "exit" "1"))
    | _ => ("", "", None)
    end).
Definition node_links : LinkWorld Z := {|
  link_by_name n e := (if bool_decide (n ∈ demo_links.*2) then None
                       else Some (OtherError "netlink.LinkNotFoundError" n), e);
  link_list e := (demo_links, e)
|}.
Definition node_ipt : IPTWorld Z := {|
  ipt_new e := (None, e);
  ipt_exists _ e := ((true, None), e);
  ipt_append _ e := (None, e);
  ipt_delete _ e := (None, e)
|}.
Definition node_rest : NodeWorld Z := {|
  combined_output _ _ e := (("", None), e);
  netlink_op _ _ e := (None, e);
  parse_addr _ := None;
  get_ns _ e := (None, e);
  enter_ns _ e := (None, e);
  leave_ns _ e := e;
  setup_veth _ _ e := (({| hostVeth_Name := "veth0"; hostVeth_Mac := []; containerVeth_Name := "eth0" |}, None), e);
  docker_client e := (None, e);
  docker_inspect _ e := ((42%Z, None), e)
|}.
Definition node_routes : RouteWorld Z := iface_world demo_routes [v4net 192 168 1 17 24].

Definition vlan_net (name id : string) : ProviderNetworkCreate :=
  {| pc_ProviderNwName := name;
     Vlan := Some {| VlanId := id; vi_ProviderIntf := "eth1"; LogicalIntf := "eth1." +:+ id |};
     Direct := None |}.
Definition create_msg p : Notification :=
  {| CniType := "ovn4nfv"; payload := Some (Notification_ProviderNwCreate p) |}.
Definition insync_msg : Notification :=
  {| CniType := "ovn4nfv"; payload := Some (Notification_InSync {| NodeIntfIpAddress := ""; NodeIntfMacAddress := "" |}) |}.

Definition node_receive := @receive Z node_exec node_links node_ipt node_routes node_rest.
Definition node_handle := @handleNotif Z node_exec node_links node_ipt node_routes node_rest.
Definition node_start : St Z := mkSt demo_globals 0%Z.

Lemma receive_refines_witness :
  let ms := [create_msg (vlan_net "pn1" "100"); insync_msg; create_msg (vlan_net "pn2" "300")] in
  (let '(r, s', _) := node_receive ms node_start in
   r <> Block /\
   (r = Val () ->
      agent_inv (glob s') /\ agent_frame (glob node_start) (glob s') /\
      agent_steps (represents (glob node_start)) ms (represents (glob s')) /\
      represents (glob s') = phase_after (represents (glob node_start)) ms)) /\
  (node_receive ms node_start).1.1 = Val () /\
  represents (glob (node_receive ms node_start).1.2) = Synchronised.
Proof.
  split; [|split; vm_compute; reflexivity].
  apply (@receive_refines Z node_exec node_links node_ipt node_routes node_rest). intros H. discriminate H.
Defined.

Lemma waiting_is_silent_witness :
  node_handle (create_msg (vlan_net "pn1" "100")) node_start =
    (Val (), mkSt (store_create (vlan_net "pn1" "100") demo_globals) 0%Z, []).
Proof.
  apply (@waiting_is_silent Z node_exec node_links node_ipt node_routes node_rest
           (create_msg (vlan_net "pn1" "100")) node_start); [reflexivity..|].
  intros p H. discriminate H.
Defined.

Lemma handle_create_vlan_witness :
  let s := mkSt (set_inSync true demo_globals) 0%Z in
  let run := @handle_create Z node_exec node_links (vlan_net "pn2" "300") in
  wp run (@network_made Z node_exec "pn2"
    (vlan_plan demo_helper "300" "eth1" "eth1.300" ++
     bridge_plan demo_helper "nw_pn2" "br-pn2" "eth1.300") s) s /\
  length (cmds (run s).2) = 8%nat.
Proof.
  split; [|vm_compute; reflexivity].
  exact (@handle_create_vlan Z node_exec node_links (vlan_net "pn2" "300") _
    (mkSt (set_inSync true demo_globals) 0%Z) demo_helper eq_refl eq_refl eq_refl eq_refl
    ltac:(discriminate) ltac:(discriminate)).
Defined.

Lemma insync_deletes_vlans_witness :
  let s := mkSt (store_create (vlan_net "pn1" "100") demo_globals) 0%Z in
  let run := @inSyncVlanProvidernetwork Z node_exec node_links in
  wp run (fun r s' es => glob s' = glob s /\ r <> Block /\
    omap deleted_link es = filter (fun v => v <> "") (@node_vlans Z node_links (env s))) s /\
  omap deleted_link (run s).2 = ["eth1.100"; "eth1.200"].
Proof.
  split; [|vm_compute; reflexivity].
  apply (@insync_deletes_vlans Z node_exec node_links
           (mkSt (store_create (vlan_net "pn1" "100") demo_globals) 0%Z) demo_helper); [reflexivity|].
  repeat constructor. discriminate.
Defined.
