(* ===== verification/Sync.v ===== *)
(** * Sync: a subscription, from the operator to the node

    Two processes: the operator runs [Subscribe] (internal/pkg/nfnNotify/
    server.go) and the agent of the node handles what arrives on the stream
    (cmd/nfn-agent/nfn-agent.go).  Their environments are independent; the
    stream delivers the messages that were sent without an error, in order. *)

From S2P Require Import Prelude.
From S2P Require Import GoStrings.
From S2P Require Import Types.
From S2P Require Import World.
From S2P Require Import Runner.
From S2P Require Import Traces.
From S2P Require Import OvnCommon.
From S2P Require Import OvnController.
From S2P Require Import OvnNetworks.
From S2P Require Import OvnPorts.
From S2P Require Import IpTables.
From S2P Require Import Iface.
From S2P Require Import HelperLinux.
From S2P Require Import Notify.
From S2P Require Import NotifyProps.
From S2P Require Import Agent.
From S2P Require Import AgentProps.

#[local] Open Scope string_scope.
#[local] Open Scope list_scope.

(** What arrives on a stream. *)
Definition delivery (ss : nat) (e : Event) : option Notification :=
  match e with ESend st m None => if (st =? ss)%nat then Some m else None | _ => None end.
Definition delivered (ss : nat) (es : list Event) : list Notification := omap (delivery ss) es.

Definition insync_sent (ss : nat) (es : list Event) : Prop :=
  exists ip mac, last es = Some (ESend ss (inSyncMsg ip mac) None).

Lemma delivered_app ss es1 es2 : delivered ss (es1 ++ es2) = delivered ss es1 ++ delivered ss es2.
Proof. apply omap_app. Qed.

Lemma delivered_creates ss es : creates_only es -> Forall is_create (delivered ss es).
Proof.
  unfold creates_only. induction es as [|e es IH]; [constructor|]. unfold delivered in *. simpl.
  destruct e; try exact IH. simpl. destruct err; simpl; [by intros [_ H]%Forall_cons; auto|].
  intros [Hm H]%Forall_cons. destruct (_ =? _)%nat; auto.
Qed.

Lemma create_not_insync m : is_create m -> is_insync m = false.
Proof. intros [p Hp]. unfold is_insync, for_us. rewrite Hp. by destruct (_ == _). Qed.

Lemma creates_no_insync ms : Forall is_create ms -> existsb is_insync ms = false.
Proof. induction 1 as [|m ms Hm _ IH]; [done|]. simpl. by rewrite create_not_insync. Qed.

(** ** The node *)
Section node.
Context {E : Type} `{!ExecWorld E, !LinkWorld E, !IPTWorld E, !RouteWorld E, !NodeWorld E}.
Implicit Types (a : St E) (ms : list Notification).

Definition fresh (g : Globals) : Prop := inSync g = false /\ pnCreateStore g = [].

Lemma receive_cons m ms a :
  receive (m :: ms) a = (handleNotif m ≫= fun _ => receive ms) a.
Proof.
  unfold receive. cbn [for_range]. unfold mbind, M_bind, mret, M_ret.
  destruct (handleNotif m a) as [[[[]|w|] a1] e1]; [|done..].
  destruct (for_range _ ms () a1) as [[[x|w|] a2] e2]; simpl; by rewrite ?app_nil_r.
Qed.

(** Announcements before the InSync message only fill the store. *)
Lemma receive_creates ms ms' a :
  Forall is_create ms -> inSync (glob a) = false ->
  exists a', inSync (glob a') = false /\ receive (ms ++ ms') a = receive ms' a'.
Proof.
  intros Hms. revert a. induction Hms as [|m ms Hm _ IH]; intros a Ha; [by exists a|].
  cbn [app]. rewrite receive_cons. unfold mbind, M_bind.
  rewrite waiting_is_silent; [|done|by apply create_not_insync|].
  2: { intros p. destruct Hm as [q Hq]. unfold for_us. rewrite Hq. by destruct (_ == _). }
  set (a1 := mkSt _ (env a)). destruct (IH a1) as (a' & Ha' & Heq).
  { subst a1. cbn [glob]. by destruct (announcement m). }
  exists a'. split; [done|]. rewrite Heq. by destruct (receive ms' a') as [[r s'] es].
Qed.

Lemma receive_nil a : receive [] a = (Val (), a, []).
Proof. done. Qed.

(** What a fresh agent does with announcements and then, maybe, InSync. *)
Lemma receive_stream ms ip mac (b : bool) a :
  fresh (glob a) -> Forall is_create ms ->
  let '(r, a', es) := receive (ms ++ if b then [inSyncMsg ip mac] else []) a in
  r <> Block /\ Forall (fun e => makes_network e = false) es /\
  (r = Val () -> represents (glob a') = if b then Synchronised else Waiting (omap announcement ms)).
Proof.
  intros [Hin Hst] Hms.
  assert (Hinv : agent_inv (glob a)) by (intros H; congruence).
  pose proof (receive_moves (ms ++ if b then [inSyncMsg ip mac] else []) a Hinv) as Hmv.
  unfold moves_to in Hmv.
  destruct (receive_creates ms (if b then [inSyncMsg ip mac] else []) a Hms Hin) as (a1 & Ha1 & Heq).
  assert (Hev : Forall (fun e => makes_network e = false) (receive (if b then [inSyncMsg ip mac] else []) a1).2).
  { destruct b; [|constructor]. rewrite receive_cons. apply emits_bind; [|intros _ s; constructor].
    exact (emits_handle_insync _). }
  rewrite <- Heq in Hev.
  destruct (receive _ a) as [[r a'] es]. destruct Hmv as [Hb Hmv]. split; [done|]. split; [exact Hev|].
  intros ->. destruct (Hmv () eq_refl) as (_ & _ & Hs). rewrite (agent_steps_phase _ _ _ Hs).
  unfold represents, phase_after. rewrite Hin, Hst, existsb_app, creates_no_insync by done.
  destruct b; [done|]. simpl. by rewrite app_nil_r.
Qed.
End node.

(** ** Both ends *)
Section subscription.
Context {EO : Type} `{!ExecWorld EO, !NotifyWorld EO}.
Context {EA : Type} `{!ExecWorld EA, !LinkWorld EA, !IPTWorld EA, !RouteWorld EA, !NodeWorld EA}.

(** What a freshly started agent makes of the messages [ms]. *)
Definition agent_outcome (synced : Prop) (ms : list Notification) (a : St EA) : Prop :=
  let '(r, a', es) := receive ms a in
  r <> Block /\ Forall (fun e => makes_network e = false) es /\
  (r = Val () -> (synced -> represents (glob a') = Synchronised) /\
                 (~ synced -> represents (glob a') = Waiting (omap announcement ms))).

Lemma stream_outcome ss es1 es ip mac err (a : St EA) :
  fresh (glob a) -> creates_only es1 ->
  es = es1 ++ [ESend ss (inSyncMsg ip mac) err] ->
  agent_outcome (insync_sent ss es) (delivered ss es) a.
Proof.
  intros Ha Hc ->. unfold agent_outcome. rewrite delivered_app.
  pose proof (receive_stream (delivered ss es1) ip mac (bool_decide (err = None)) a Ha
    (delivered_creates _ _ Hc)) as H.
  assert (Hd : delivered ss [ESend ss (inSyncMsg ip mac) err]
               = if bool_decide (err = None) then [inSyncMsg ip mac] else []).
  { unfold delivered. simpl. rewrite Nat.eqb_refl. by destruct err. }
  rewrite Hd. destruct (receive _ a) as [[r a'] es']. destruct H as (Hb & He & Hr).
  split; [done|]. split; [done|]. intros Hv. specialize (Hr Hv). rewrite Hr. destruct err as [x|]; simpl.
  - split; [intros (? & ? & Hl); by rewrite last_snoc in Hl|]. by rewrite app_nil_r.
  - split; [done|]. intros Hn. destruct Hn. exists ip, mac. by rewrite last_snoc.
Qed.

Lemma unsynced_outcome ss es (a : St EA) :
  fresh (glob a) -> creates_only es -> ~ insync_sent ss es ->
  agent_outcome (insync_sent ss es) (delivered ss es) a.
Proof.
  intros Ha Hc Hno. unfold agent_outcome.
  pose proof (receive_stream (delivered ss es) "" "" false a Ha (delivered_creates _ _ Hc)) as H.
  rewrite app_nil_r in H. destruct (receive _ a) as [[r a'] es']. destruct H as (Hb & He & Hr).
  split; [done|]. split; [done|]. intros Hv. specialize (Hr Hv). tauto.
Qed.

End subscription.

