(* ===== verification/PodController.v ===== *)
(** * PodController: the ports and the annotation of a pod
    (pkg/controller/pod/pod_controller.go)

    The API server is the environment ([PodWorld]).  [json.Unmarshal] of the
    nfn-network annotation goes through Json.v; [mapstructure.Decode], which
    [AddLogicalPorts] calls, is a parameter. *)

From S2P Require Import Prelude.
From S2P Require Import GoStrings.
From S2P Require Import GoNet.
From S2P Require Import Types.
From S2P Require Import World.
From S2P Require Import Runner.
From S2P Require Import Traces.
From S2P Require Import OvnCommon.
From S2P Require Import OvnController.
From S2P Require Import OvnNetworks.
From S2P Require Import OvnPorts.
From S2P Require Import Json.
From Stdlib Require Import Ascii.

#[local] Open Scope string_scope.
#[local] Open Scope list_scope.

Class PodWorld (E : Type) := {
  get_pod : string -> string -> E -> (Pod * option error) * E;   (* client.Get *)
  patch_pod : Pod -> string -> E -> option error * E;            (* client.Patch, a merge patch *)
  pod_not_found : error -> bool                                  (* errors.IsNotFound *)
}.

Definition nfnNetworkAnnotation := "k8s.plugin.opnfv.org/nfn-network".

(** The elements of [Interface] are Go maps as [JObject], nil ones [JNull]. *)
Record nfnNetwork := mkNfn { nfn_Type : string; nfn_Interface : list Json }.

Definition enableOvnDefaultIntf : bool := true.

(** ** [json.Unmarshal] into an nfnNetwork

    A repeated member "interface" decodes into the elements that the slice had:
    an object adds to the map of its position. *)
Definition decode_element (old : option Json) (j : Json) : option Json :=
  match go_value j with
  | JObject ms =>
      Some (JObject (match old with
                     | Some (JObject os) => foldl (fun acc '(k, v) => set_member k v acc) os ms
                     | _ => ms
                     end))
  | JNull => Some JNull
  | _ => None
  end.

Fixpoint decode_elements (olds : list Json) (l : list Json) : option (list Json) :=
  match l with
  | [] => Some []
  | j :: l' =>
      match decode_element (head olds) j, decode_elements (tail olds) l' with
      | Some x, Some xs => Some (x :: xs)
      | _, _ => None
      end
  end.

(** One member of the object; the second component is what the slice's array
    holds beyond its length. *)
Definition decode_nfn_member (v : nfnNetwork * list Json) (kv : string * Json)
  : option (nfnNetwork * list Json) :=
  let '(nfn, spare) := v in
  if EqualFold kv.1 "type" then
    match kv.2 with
    | JString t => Some (mkNfn t (nfn_Interface nfn), spare)
    | JNull => Some v
    | _ => None
    end
  else if EqualFold kv.1 "interface" then
    match kv.2 with
    | JArray [] | JNull => Some (mkNfn (nfn_Type nfn) [], [])
    | JArray l =>
        let olds := nfn_Interface nfn ++ spare in
        match decode_elements olds l with
        | Some xs => Some (mkNfn (nfn_Type nfn) xs, drop (length xs) olds)
        | None => None
        end
    | _ => None
    end
  else Some v.

Definition Unmarshal_nfn (text : string) : option nfnNetwork :=
  match parse_json text with
  | Some (JObject ms) =>
      match foldl (fun acc kv => match acc with Some v => decode_nfn_member v kv | None => None end)
                  (Some (mkNfn "" [], [])) ms with
      | Some (nfn, _) => Some nfn
      | None => None
      end
  | Some JNull => Some (mkNfn "" [])
  | _ => None
  end.

(** [parseOvnNetworkObject] of internal/pkg/ovn/common.go: a list of objects,
    decoded the same way; the caller of it sees only whether it worked. *)
Definition ovn_parseOvnNetworkObject (ovnnetwork : string) : option (list Json) :=
  if ovnnetwork == "" then None else
  match parse_json ovnnetwork with
  | Some (JArray l) => decode_elements [] l
  | Some JNull => Some []
  | _ => None
  end.

Section pod.
Context {E : Type} `{!ExecWorld E, !PodWorld E}.
Variable Decode : Json -> netInterface -> netInterface * option error.

(** The predicate on update events. *)
Definition UpdateFunc (annotations : gmap string string) : bool :=
  if bool_decide (annotations !! nfnNetworkAnnotation = None) then false
  else if bool_decide (is_Some (annotations !! Ovn4nfvAnnotationTag)) then false
  else true.

(** A failed decoding and a missing annotation are the same to the caller. *)
Definition readPodAnnotation (pod : Pod) : option nfnNetwork :=
  match Annotations pod !! nfnNetworkAnnotation with
  | None => None
  | Some annotation => Unmarshal_nfn annotation
  end.

Definition patch_text (key value : string) : string :=
  "{" +:+ dq +:+ "metadata" +:+ dq +:+ ":{" +:+ dq +:+ "annotations" +:+ dq +:+ ":{"
  +:+ dq +:+ key +:+ dq +:+ ":" +:+ dq +:+ value +:+ dq +:+ "}}}".

Definition setPodAnnotation (pod : Pod) (key value : string) : M E (option error) :=
  let patchData := patch_text key value in
  err ← prim (patch_pod pod patchData) (fun err => EPatchPod (pod_Name pod) patchData err);
  match err with Some e => mret (Some e) | None => mret None end.

Definition addLogicalPorts (pod : Pod) : M E (option error) :=
  let nfn := match readPodAnnotation pod with
             | Some nfn => inl nfn
             | None => if enableOvnDefaultIntf then inl (mkNfn "ovn4nfv" [])
                       else inr (ErrorString "Invalid annotations")
             end in
  match nfn with
  | inr e => mret (Some e)
  | inl nfn =>
      if nfn_Type nfn == "ovn4nfv" then
        err ← GetOvnController;
        match err with Some e => mret (Some e) | None =>
        if bool_decide (is_Some (Annotations pod !! Ovn4nfvAnnotationTag))
        then mret (Errorf "Pod annotation found") else
        '(key, value) ← AddLogicalPorts Decode pod (nfn_Interface nfn);
        if (0 <? String.length key)%nat then setPodAnnotation pod key value
        else mret (Errorf "Failed to add ports")
        end
      else mret (Errorf ("Unsupported Networking type " +:+ nfn_Type nfn))
  end.

Definition deleteLogicalPorts (name namespace : string) : M E (option error) :=
  err ← GetOvnController;
  match err with Some e => mret (Some e) | None =>
  DeleteLogicalPorts name namespace;;
  mret None
  end.

(** The result is [Requeue] and the error. *)
Definition ReconcilePod_Reconcile (namespace name : string) : M E (bool * option error) :=
  '(instance, err) ← prim (get_pod namespace name) (fun _ => EQuery "Get");
  match err with
  | Some e =>
      if pod_not_found e then
        deleteLogicalPorts name namespace;;
        mret (false, None)
      else mret (false, Some e)
  | None =>
      if (pod_Name instance == "") || (pod_Namespace instance == "") then mret (false, None)
      else if HostNetwork instance then mret (false, None)
      else if NodeName instance == "" then mret (true, None)
      else
        err ← addLogicalPorts instance;
        match err with
        | Some e => if Error e == "Failed to add ports" then mret (false, Some e) else mret (false, None)
        | None => mret (false, None)
        end
  end.
End pod.

(** ** Properties *)
Section properties.
Context {E : Type} `{!ExecWorld E, !PodWorld E}.
Variable Decode : Json -> netInterface -> netInterface * option error.
Implicit Types s : St E.

(** What the pod asks for: its annotation, or the default interface alone. *)
Definition asked_for (pod : Pod) : nfnNetwork :=
  default (mkNfn "ovn4nfv" []) (readPodAnnotation pod).

(** A pod whose networks are ours and that is not annotated yet. *)
Definition to_plug (pod : Pod) : bool :=
  (nfn_Type (asked_for pod) == "ovn4nfv")
  && bool_decide (Annotations pod !! Ovn4nfvAnnotationTag = None).

(** A pod that has names and is not on the host network. *)
Definition has_interfaces (pod : Pod) : bool :=
  negb ((pod_Name pod == "") || (pod_Namespace pod == "")) && negb (HostNetwork pod).

(** The errors that the controller passes on. *)
Definition reported (err : option error) : option error :=
  match err with
  | Some e => if Error e == "Failed to add ports" then Some e else None
  | None => None
  end.

(** The effects of plugging: the ports are added first; when that gave an
    annotation it is written, once; otherwise the error is the one that is
    reported. *)
Definition plugged (pod : Pod) (err : option error) (es : list Event) : Prop :=
  exists kv es1, ports_result Decode (nfn_Interface (asked_for pod)) kv /\
    Forall (adds_only (of_pod pod)) es1 /\
    ((nothing kv /\ es = es1 /\ err = Errorf "Failed to add ports") \/
     (kv.1 = Ovn4nfvAnnotationTag /\
      es = es1 ++ [EPatchPod (pod_Name pod) (patch_text kv.1 kv.2) err])).

Lemma wp_addLogicalPorts pod s h oc :
  runner (glob s) = Some h -> ovnCtl (glob s) = Some oc ->
  wp (addLogicalPorts Decode pod) (fun r s' es => exists err, r = Val err /\
    if to_plug pod then plugged pod err es else es = [] /\ reported err = None) s.
Proof.
  intros Hr Ho. unfold addLogicalPorts, to_plug.
  assert (Hnfn : match readPodAnnotation pod with
                 | Some nfn => inl nfn
                 | None => if enableOvnDefaultIntf then inl (mkNfn "ovn4nfv" [])
                           else inr (ErrorString "Invalid annotations")
                 end = (inl (asked_for pod) : nfnNetwork + error))
    by (unfold asked_for; by destruct (readPodAnnotation pod)).
  rewrite Hnfn. destruct (nfn_Type (asked_for pod) == "ovn4nfv") eqn:Ht; cbn [andb]; cycle 1.
  { apply wp_ret. eexists. split; [done|]. done. }
  unfold GetOvnController. wp_steps. rewrite Ho. wp_steps.
  destruct (Annotations pod !! Ovn4nfvAnnotationTag) as [a|] eqn:Ha.
  { rewrite bool_decide_eq_true_2 by done. rewrite bool_decide_eq_false_2 by done.
    apply wp_ret. eexists. by split. }
  rewrite bool_decide_eq_false_2 by (intros []; done). rewrite bool_decide_eq_true_2 by done.
  wp_step. eapply wp_mono; [|by eapply (port_ok_AddLogicalPorts Decode pod (nfn_Interface (asked_for pod)))].
  intros r s1 es1 (_ & Hadd & kv & -> & Hres). cbn [after].
  destruct Hres as [Hn|(addrs & Hl & Hkv)].
  - rewrite Hn. cbn [fst snd String.length Nat.ltb Nat.leb]. apply wp_ret. eexists. split; [done|].
    exists kv, es1. split; [by left|]. split; [done|]. left. by rewrite !app_nil_r.
  - destruct kv as [k v]. assert (k = Ovn4nfvAnnotationTag) as -> by congruence.
    change (0 <? String.length Ovn4nfvAnnotationTag)%nat with true. cbv iota.
    unfold setPodAnnotation. wp_step. apply wp_ask. intros err e'. split; [done|]. cbn [after].
    assert (Hp : plugged pod err
      (es1 ++ [EPatchPod (pod_Name pod) (patch_text Ovn4nfvAnnotationTag v) err])).
    { exists (Ovn4nfvAnnotationTag, v), es1. split; [right; by exists addrs|]. split; [done|]. by right. }
    destruct err; apply wp_ret; eexists; (split; [done|]); by rewrite ?app_nil_r.
Qed.

Definition pod_post (h : execHelper) (namespace name : string) (pod : Pod) (rerr : option error)
    (r : Res (bool * option error)) (es : list Event) : Prop :=
  match rerr with
  | Some x =>
      if pod_not_found x then
        r = Val (false, None) /\
        exists o se err tl, es = EQuery "Get" ::
            ECmd (nbctlPath h) (nb_argv h ovsCommandTimeout pod_ports_args) o se err :: tl /\
          cmds tl = match err with
                    | Some _ => []
                    | None => map (fun p => nb_cmd h (del_port_args p))
                        (filter (fun p => Contains p (namespace +:+ "_" +:+ name) = true)
                                (Fields (nb_out o)))
                    end
      else r = Val (false, Some x) /\ es = [EQuery "Get"]
  | None =>
      if has_interfaces pod && negb (NodeName pod == "") && to_plug pod then
        exists err es1, r = Val (false, reported err) /\ plugged pod err es1 /\ es = EQuery "Get" :: es1
      else r = Val (has_interfaces pod && (NodeName pod == ""), None) /\ es = [EQuery "Get"]
  end.

Lemma PodReconcile_run namespace name pod rerr e1 s h oc :
  runner (glob s) = Some h -> ovnCtl (glob s) = Some oc ->
  get_pod namespace name (env s) = ((pod, rerr), e1) ->
  wp (ReconcilePod_Reconcile Decode namespace name)
     (fun r _ es => pod_post h namespace name pod rerr r es) s.
Proof.
  intros Hr Ho Hget. unfold ReconcilePod_Reconcile, pod_post. wp_step. apply wp_prim. rewrite Hget.
  intros a e' [= <- <-]. split; [done|]. cbn [after]. destruct rerr as [x|].
  - destruct (pod_not_found x); [|by apply wp_ret].
    unfold deleteLogicalPorts, GetOvnController. wp_steps. cbn [glob]. rewrite Ho. wp_steps.
    eapply wp_mono; [|by apply (wp_DeleteLogicalPorts name namespace (mkSt (glob s) e1) h)].
    intros r s2 es2 (-> & _ & o & se & err & tl & -> & Htl). cbn [after]. wp_steps.
    split; [done|]. exists o, se, err, tl. split; [|done]. by rewrite !app_nil_r.
  - unfold has_interfaces. destruct ((pod_Name pod == "") || (pod_Namespace pod == "")); [by apply wp_ret|].
    destruct (HostNetwork pod); [by apply wp_ret|]. cbn [negb andb].
    destruct (NodeName pod == ""); [by apply wp_ret|]. cbn [negb andb]. wp_step.
    eapply wp_mono; [|by apply (wp_addLogicalPorts pod (mkSt (glob s) e1) h oc)].
    intros r s2 es2 (err & -> & H). cbn [after].
    assert (Hend : wp (match err with
      | Some e => if Error e == "Failed to add ports" then mret (false, Some e) else mret (false, None)
      | None => mret (false, None) end)
      (fun r s' es => r = Val (false, reported err) /\ es = []) s2).
    { unfold reported. destruct err as [e|]; [|by apply wp_ret]. destruct (Error e == _); by apply wp_ret. }
    eapply wp_mono; [|exact Hend]. intros r s3 es3 [-> ->]. rewrite app_nil_r.
    destruct (to_plug pod).
    + exists err, es2. done.
    + destruct H as [-> ->]. done.
Qed.

End properties.

(** ** Concrete runs *)

Definition static_pod (pod : Pod) (err : option error) : PodWorld Z := {|
  get_pod _ _ n := ((pod, err), n);
  patch_pod _ _ n := (None, n);
  pod_not_found e := bool_decide (e = OtherError "*errors.StatusError" "not found")
|}.

Definition nfn_text : string :=
  "{" +:+ dq +:+ "type" +:+ dq +:+ ": " +:+ dq +:+ "ovn4nfv" +:+ dq +:+ ", " +:+ dq +:+ "interface" +:+ dq
  +:+ ": [{" +:+ dq +:+ "name" +:+ dq +:+ ": " +:+ dq +:+ "nw1" +:+ dq +:+ ", " +:+ dq +:+ "interface" +:+ dq
  +:+ ": " +:+ dq +:+ "net1" +:+ dq +:+ "}]}".

Example Unmarshal_nfn_run : Unmarshal_nfn nfn_text = Some (mkNfn "ovn4nfv" [demo_obj "nw1" "net1"]).
Proof. vm_compute. reflexivity. Qed.

