(* ===== verification/CniServer.v ===== *)
(** * CniServer: the CNI server of the node agent and its client
    (internal/pkg/cniserver/cni.go, cniserver.go; internal/pkg/cnishim/cnishim.go;
    [ConfigureNetConf] of internal/pkg/config/config.go)

    The CNI libraries, the Kubernetes client, net/http and the wait package are
    the environment ([CniWorld]); the socket is in CniSocket.v. *)

From stdpp Require Import sorting.
From S2P Require Import Prelude.
From S2P Require Import GoStrings.
From S2P Require Import GoNet.
From S2P Require Import Types.
From S2P Require Import World.
From S2P Require Import Sha1.
From S2P Require Import Runner.
From S2P Require Import Traces.
From S2P Require Import OvnCommon.
From S2P Require Import OvnController.
From S2P Require Import IpTables.
From S2P Require Import Iface.
From S2P Require Import HelperLinux.
From S2P Require Import Json.
From Stdlib Require Import Ascii.

#[local] Open Scope string_scope.
#[local] Open Scope list_scope.

(** ** The CNI data types (github.com/containernetworking/cni)

    [current.Result] and its parts; a nil [net.IP] is the empty list. *)
Record IPConfig := {
  ip_Version : string; ip_Interface : option Z; ip_Address : IPNet; ip_Gateway : list Z
}.
Record CniRoute := { cr_Dst : IPNet; cr_GW : list Z }.
Record CniResult := mkResult {
  res_CNIVersion : string; res_Interfaces : list NetIface; res_IPs : list IPConfig;
  res_Routes : list CniRoute; res_DNS : DnsSpec
}.

(** [types.NetConf], with the two fields that the code reads. *)
Record NetConf := { CNIVersion : string; RawPrevResult : bool; other_fields : string }.

(** ** Requests *)

Record CNIServerRequest := {
  Command : string; PodNamespace : string; PodName : string; SandboxID : string;
  Netns : string; IfName : string; CNIConf : NetConf
}.
Record CNIEndpointRequest := { ArgEnv : gmap string string; NetConfig : string }.

Definition CNIAdd := "ADD".
Definition CNIDel := "DEL".

Class CniWorld (E : Type) := {
  new_result_from : CniResult -> CniResult + error;        (* current.NewResultFromResult *)
  new_result : string -> CniResult + error;                (* current.NewResult *)
  marshal_result : CniResult -> string + error;            (* json.Marshal of a result *)
  unmarshal_netconf : string -> NetConf + error;           (* json.Unmarshal into a NetConf *)
  parse_prev_result : NetConf -> NetConf + error;          (* version.ParsePrevResult *)
  marshal_request : CNIEndpointRequest -> string + error;  (* json.Marshal of a request *)
  unmarshal_request : string -> CNIEndpointRequest + error;
  show_request : CNIServerRequest -> string;               (* %v of the request, with its pointer *)
  status_code : error -> option Z;                         (* Status().Code of an *errors.StatusError *)
  client_get_pod : string -> string -> E -> (Pod * option error) * E;
  environ : E -> list string * E;
  http_post : string -> E -> ((Z * string * option error) + error) * E; (* status, body, read error *)
  print_result : CniResult -> string -> E -> option error * E;          (* types.PrintResult *)
  (** [wait.ExponentialBackoff] with the back-off of [cmdAdd]; [L] are the
      variables that the condition assigns. *)
  ExponentialBackoff : forall L, (L -> M E (bool * option error * L)) -> L -> M E (option error * L)
}.

Definition ovn4nfvAnnotationTag := "k8s.plugin.opnfv.org/ovnInterfaces".

(** Reading a Go map of strings. *)
Definition at_key (m : gmap string string) (k : string) : string := default "" (m !! k).

Definition parseOvnNetworkObject (ovnnetwork : string) : option (list (gmap string string)) :=
  if ovnnetwork == "" then None else Unmarshal_maps ovnnetwork.

Definition zeroDns : DnsSpec := Build_DnsSpec [] "" [] [].

(** The order of the keys of a printed map. *)
Definition key_le (a b : string * string) : Prop := String.leb a.1 b.1 = true.
#[global] Instance key_le_dec a b : Decision (key_le a b).
Proof. unfold key_le. apply _. Defined.

(** ** Results *)
Section merge.
Context {E : Type} `{!CniWorld E}.

(** [ip.Interface] counts from the interfaces that are there already. *)
Definition shift_ip (ifacesLength : Z) (ip : IPConfig) : IPConfig :=
  match ip_Interface ip with
  | Some i =>
      if negb (i =? -1)%Z
      then {| ip_Version := ip_Version ip; ip_Interface := Some (i + ifacesLength)%Z;
              ip_Address := ip_Address ip; ip_Gateway := ip_Gateway ip |}
      else ip
  | None => ip
  end.

Definition mergeWithResult (srcObj : CniResult) (dstObj : option CniResult)
  : option CniResult * option error :=
  match dstObj with
  | None => (Some srcObj, None)
  | Some dstObj =>
      match new_result_from srcObj with
      | inr e => (None, Errorf ("Couldn't convert old result to current version: " +:+ Error e))
      | inl src =>
          match new_result_from dstObj with
          | inr e => (None, Errorf ("Couldn't convert old result to current version: " +:+ Error e))
          | inl dst =>
              let ifacesLength := Z.of_nat (length (res_Interfaces dst)) in
              let d := res_DNS dst in
              (Some {| res_CNIVersion := res_CNIVersion dst;
                       res_Interfaces := res_Interfaces dst ++ res_Interfaces src;
                       res_IPs := res_IPs dst ++ map (shift_ip ifacesLength) (res_IPs src);
                       res_Routes := res_Routes dst ++ res_Routes src;
                       res_DNS := Build_DnsSpec (Nameservers d ++ Nameservers (res_DNS src)) (Domain d)
                                    (Search d ++ Search (res_DNS src))
                                    (Options d ++ Options (res_DNS src)) |}, None)
          end
      end
  end.
End merge.

Section cni.
Context {E : Type} `{!ExecWorld E, !LinkWorld E, !IPTWorld E, !RouteWorld E, !NodeWorld E, !CniWorld E}.
(** [config.Default.MTU]. *)
Variable MTU : Z.

(** ** cni.go *)

Definition isNotFoundError (err : error) : bool :=
  match status_code err with Some c => (c =? 404)%Z | None => false end.

(** The default gateway of one interface: the first one that asks for it wins,
    and eth0 has it when none asked.  Also the new [isDefaultGW]. *)
Definition choose_gateway (interfaceName ifName defaultGateway : string) (isDefaultGW : bool)
  : string * bool :=
  let star := interfaceName == "*" in
  let '(defaultGateway, isDefaultGW) :=
    if negb star && (defaultGateway == "true") && negb isDefaultGW then (defaultGateway, true)
    else if negb star && (defaultGateway == "true") then ("false", isDefaultGW)
    else (defaultGateway, isDefaultGW) in
  let defaultGateway := if star && isDefaultGW then "false" else defaultGateway in
  let defaultGateway := if star && negb isDefaultGW then "true" else defaultGateway in
  let defaultGateway := if star && negb (ifName == "eth0") then "false" else defaultGateway in
  (defaultGateway, isDefaultGW).

Definition zero_net : IPNet := {| net_ip := v4InV6Prefix ++ [0;0;0;0]%Z; net_mask := [0;0;0;0]%Z |}.

Definition interface_result (ifaces : list NetIface) (addr : list Z) (mask : list Z)
    (gatewayIP defaultGateway : string) : CniResult :=
  let gw := default [] (ParseIP gatewayIP) in
  {| res_CNIVersion := ""; res_Interfaces := ifaces;
     res_IPs := [ {| ip_Version := if bool_decide (To4 addr = None) then "6" else "4";
                     ip_Interface := Some 1%Z;
                     ip_Address := {| net_ip := addr; net_mask := mask |};
                     ip_Gateway := gw |} ];
     res_Routes := if defaultGateway == "true" then [ {| cr_Dst := zero_net; cr_GW := gw |} ] else [];
     res_DNS := zeroDns |}.

(** The variables of the loop: [index], [isDefaultGW] and [dstResult]. *)
Definition add_interface (cr : CNIServerRequest) (namespace podName : string)
    (ovnNet : gmap string string) (v : Z * bool * option CniResult)
  : M E ((Z * bool * option CniResult) + option CniResult) :=
  let '(index, isDefaultGW, dstResult) := v in
  let ipAddress := at_key ovnNet "ip_address" in
  let macAddress := at_key ovnNet "mac_address" in
  let gatewayIP := at_key ovnNet "gateway_ip" in
  let defaultGateway := at_key ovnNet "defaultGateway" in
  if (ipAddress == "") || (macAddress == "") then mret (inr None) else
  let index := (index + 1)%Z in
  let interfaceName := at_key ovnNet "interface" in
  if interfaceName == "" then mret (inr None) else
  let '(defaultGateway, isDefaultGW) :=
    choose_gateway interfaceName (IfName cr) defaultGateway isDefaultGW in
  '(interfacesArray, err) ← ConfigureInterface (Netns cr) (SandboxID cr) (IfName cr) namespace podName
     macAddress ipAddress gatewayIP interfaceName defaultGateway index MTU isDefaultGW;
  match err with Some _ => mret (inr None) | None =>
  match ParseCIDR ipAddress with
  | None => mret (inr None)
  | Some (addr, addrNet) =>
      let result := interface_result interfacesArray addr (net_mask addrNet) gatewayIP defaultGateway in
      let '(dstResult, err) := mergeWithResult result dstResult in
      match err with
      | Some _ => mret (inr None)
      | None => mret (inl (index, isDefaultGW, dstResult))
      end
  end end.

Definition addMultipleInterfaces (cr : CNIServerRequest) (ovnAnnotation namespace podName : string)
  : M E (option CniResult) :=
  match parseOvnNetworkObject ovnAnnotation with
  | None => mret None
  | Some ovnAnnotatedMap =>
      if (namespace == "") || (podName == "") then mret None else
      r ← for_range (add_interface cr namespace podName) ovnAnnotatedMap (0%Z, false, None);
      match r with inr ret => mret ret | inl (_, _, dstResult) => mret dstResult end
  end.

(** One round of [addRoutes]; the mask of a destination that does not parse
    dereferences nil, here as in [ConfigureRoute] before. *)
Definition add_route (cr : CNIServerRequest) (ovnNet : gmap string string) (routes : list CniRoute)
  : M E (list CniRoute + option CniResult) :=
  let dst := at_key ovnNet "dst" in
  let gw := at_key ovnNet "gw" in
  let dev := at_key ovnNet "dev" in
  if (dst == "") || (gw == "") || (dev == "") then mret (inr None) else
  err ← ConfigureRoute (Netns cr) dst gw dev;
  match err with Some _ => mret (inr None) | None =>
  '(dstAddr, dstAddrNet) ← deref (ParseCIDR dst);
  mret (inl (routes ++ [ {| cr_Dst := {| net_ip := dstAddr; net_mask := net_mask dstAddrNet |};
                            cr_GW := default [] (ParseIP gw) |} ]))
  end.

Definition addRoutes (cr : CNIServerRequest) (ovnAnnotation : string) (dstResult : option CniResult)
  : M E (option CniResult) :=
  match parseOvnNetworkObject ovnAnnotation with
  | None => mret None
  | Some ovnAnnotatedMap =>
      r ← for_range (add_route cr) ovnAnnotatedMap [];
      match r with
      | inr ret => mret ret
      | inl routes =>
          let '(dstResult, err) := mergeWithResult (mkResult "" [] [] routes zeroDns) dstResult in
          match err with Some _ => mret None | None => mret dstResult end
      end
  end.

(** [GetAnnotationsOnPod] of internal/pkg/kube. *)
Definition GetAnnotationsOnPod (namespace name : string) : M E (gmap string string * option error) :=
  '(pod, err) ← prim (client_get_pod namespace name) (fun _ => EQuery "Get");
  match err with Some e => mret (∅, Some e) | None => mret (Annotations pod, None) end.

(** The condition that [cmdAdd] waits for. *)
Definition annotation_ready (namespace podname : string) (_ : gmap string string)
  : M E (bool * option error * gmap string string) :=
  '(annotation, err) ← GetAnnotationsOnPod namespace podname;
  match err with
  | Some e => if isNotFoundError e
              then mret (false, Errorf ("Error - pod not found - " +:+ Error e), annotation)
              else mret (false, None, annotation)
  | None => mret (bool_decide (is_Some (annotation !! ovn4nfvAnnotationTag)), None, annotation)
  end.

Definition cmdAdd (cr : CNIServerRequest) : M E (string * option error) :=
  let namespace := PodNamespace cr in
  let podname := PodName cr in
  if (namespace == "") || (podname == "") then mret ("", Errorf "required CNI variable missing") else
  '(err, annotation) ← ExponentialBackoff _ (annotation_ready namespace podname) ∅;
  match err with Some e => mret ("", Errorf ("failed to get pod annotation - " +:+ Error e)) | None =>
  match annotation !! ovn4nfvAnnotationTag with
  | None => mret ("", Errorf "Error while obtaining pod annotations")
  | Some ovnAnnotation =>
      result ← addMultipleInterfaces cr ovnAnnotation namespace podname;
      result ← match annotation !! "ovnNetworkRoutes" with
               | Some ovnRouteAnnotation => addRoutes cr ovnRouteAnnotation result
               | None => mret result
               end;
      match result with
      | None => mret ("", Errorf "result is nil from cni server response")
      | Some result =>
          match marshal_result result with
          | inr e => mret ("", Errorf ("failed to marshal pod request response: " +:+ Error e))
          | inl responseBytes => mret (responseBytes, None)
          end
      end
  end end.

(** One of the ten rounds of [cmdDel]. *)
Definition delete_interface (cr : CNIServerRequest) (i : Z) (_ : ()) : M E (() + ()) :=
  pre ← slice_to (SandboxID cr) 14;
  '(done, _) ← PlatformSpecificCleanup (pre +:+ itoa i);
  if (done : bool) then mret (inr ()) else mret (inl ()).

Definition cmdDel (cr : CNIServerRequest) : M E (string * option error) :=
  for_range (delete_interface cr) [0;1;2;3;4;5;6;7;8;9]%Z ();;
  mret ("", None).

(** ** cniserver.go *)

(** [%s] and [%v] of a map: its keys are sorted. *)
Definition show_map (m : gmap string string) : string :=
  "map[" +:+ Join (map (fun '(k, v) => k +:+ ":" +:+ v)
                       (merge_sort key_le (map_to_list m))) " " +:+ "]".

Definition shim_arg (arg : string) (mapArgs : gmap string string) : gmap string string + error :=
  match Split arg "=" with
  | [k; v] => inl (<[TrimSpace k := TrimSpace v]> mapArgs)
  | _ => inr (ErrorString ("invalid CNI_ARG from cnishim '" +:+ arg +:+ "'"))
  end.

Fixpoint shim_args (args : list string) (mapArgs : gmap string string) : gmap string string + error :=
  match args with
  | [] => inl mapArgs
  | arg :: args' => match shim_arg arg mapArgs with inl m => shim_args args' m | inr e => inr e end
  end.

Definition loadCNIShimArgs (env : gmap string string) : gmap string string + error :=
  match env !! "CNI_ARGS" with
  | None => inr (ErrorString ("cnishim req missing CNI_ARGS: '" +:+ show_map env +:+ "'"))
  | Some cnishimArgs => shim_args (Split cnishimArgs ";") ∅
  end.

Definition ConfigureNetConf (bytes : string) : NetConf + error :=
  match unmarshal_netconf bytes with
  | inr e => inr (ErrorString ("failed to load netconf: " +:+ Error e))
  | inl conf => if RawPrevResult conf then parse_prev_result conf else inl conf
  end.

(** A required key. *)
Definition required (m : gmap string string) (k : string) : string + error :=
  match m !! k with Some v => inl v | None => inr (ErrorString ("cnishim req missing " +:+ k)) end.

Definition loadCNIRequestToCNIServer (r : CNIEndpointRequest) : CNIServerRequest + error :=
  match required (ArgEnv r) "CNI_COMMAND" with inr e => inr e | inl cmd =>
  match required (ArgEnv r) "CNI_CONTAINERID" with inr e => inr e | inl sandbox =>
  match required (ArgEnv r) "CNI_NETNS" with inr e => inr e | inl netns =>
  match required (ArgEnv r) "CNI_IFNAME" with inr e => inr e | inl ifname =>
  match loadCNIShimArgs (ArgEnv r) with inr e => inr e | inl cnishimArgs =>
  match required cnishimArgs "K8S_POD_NAMESPACE" with inr e => inr e | inl ns =>
  match required cnishimArgs "K8S_POD_NAME" with inr e => inr e | inl pod =>
  match ConfigureNetConf (NetConfig r) with
  | inr e => inr (ErrorString ("cnishim req CNI arg configuration failed:" +:+ Error e))
  | inl netconf =>
      inl {| Command := cmd; PodNamespace := ns; PodName := pod; SandboxID := sandbox;
             Netns := netns; IfName := ifname; CNIConf := netconf |}
  end end end end end end end end.

Definition HandleCNIcommandRequest (request : CNIServerRequest) : M E (string * option error) :=
  '(result, err) ← (if Command request == CNIAdd then cmdAdd request
                    else if Command request == CNIDel then cmdDel request
                    else mret ("", None));
  match err with
  | Some e => mret ("", Errorf ("[PodNamespace:" +:+ PodNamespace request +:+ "/PodName:" +:+ PodName request
                                +:+ "] CNI request " +:+ show_request request +:+ " " +:+ Error e))
  | None => mret (result, None)
  end.

(** [http.Error(w, m, http.StatusBadRequest)]. *)
Definition bad_request (m : string) : Z * string := (400%Z, m +:+ String newline "").

(** The status and the body of the answer; [requestFunc] is
    [HandleCNIcommandRequest], which the agent starts the server with. *)
Definition handleCNIShimRequest (body : string) : M E (Z * string) :=
  match unmarshal_request body with
  | inr e => mret (bad_request (Error e))
  | inl cr =>
      match loadCNIRequestToCNIServer cr with
      | inr e => mret (bad_request (Error e))
      | inl req =>
          '(result, err) ← HandleCNIcommandRequest req;
          match err with
          | Some e => mret (bad_request (Error e))
          | None => mret (200%Z, result)
          end
      end
  end.

(** ** cnishim.go: the CNI plugin's side *)

Fixpoint index_of (c : ascii) (s : string) : option nat :=
  match s with
  | String d s' => if d == c then Some 0 else option_map S (index_of c s')
  | EmptyString => None
  end.

Definition env_item (m : gmap string string) (item : string) : gmap string string :=
  match index_of "=" item with
  | Some (S i) => <[TrimSpace (take_string (S i) item) := drop_string (S (S i)) item]> m
  | _ => m
  end.

Definition cniEndpointRequest (StdinData : string) : M E CNIEndpointRequest :=
  items ← prim environ (fun _ => EQuery "Environ");
  mret {| ArgEnv := foldl env_item ∅ items; NetConfig := StdinData |}.

(** [%v] of a request. *)
Definition show_endpoint_request (req : CNIEndpointRequest) : string :=
  "&{" +:+ show_map (ArgEnv req) +:+ " ["
  +:+ Join (map (fun c => fmt_d (Z.of_nat (nat_of_ascii c))) (String.list_ascii_of_string (NetConfig req))) " " +:+ "]}".

Definition sendCNIServerReq (req : CNIEndpointRequest) : M E (string * option error) :=
  match marshal_request req with
  | inr e => mret ("", Errorf ("sendCNIServerReq: failed to Marshal CNIShim Req "
                            +:+ show_endpoint_request req +:+ ":" +:+ Error e))
  | inl cnireqdata =>
      r ← prim (http_post cnireqdata) (fun _ => EQuery "Post");
      match r with
      | inr e => mret ("", Errorf ("Failed to send CNIServer request: " +:+ Error e))
      | inl (status, rbody, err) =>
          match err with
          | Some e => mret ("", Errorf ("Failed to read the CNI Server reponse:" +:+ Error e))
          | None =>
              if negb (status =? 200)%Z
              then mret ("", Errorf ("CNI Server request is failed with reponse status " +:+ fmt_d status
                                     +:+ " and reponse body " +:+ rbody))
              else mret (rbody, None)
          end
      end
  end.

Definition CmdAdd (StdinData : string) : M E (option error) :=
  match ConfigureNetConf StdinData with
  | inr _ => mret (Errorf "invalid stdin args")
  | inl conf =>
      req ← cniEndpointRequest StdinData;
      '(reponsebody, err) ← sendCNIServerReq req;
      match err with Some e => mret (Some e) | None =>
      match new_result reponsebody with
      | inr e => mret (Errorf ("failed to unmarshall CNIServer Result reponse " +:+ reponsebody
                               +:+ " - err:" +:+ Error e))
      | inl result => prim (print_result result (CNIVersion conf)) (fun _ => EQuery "PrintResult")
      end end
  end.

Definition CmdDel (StdinData : string) : M E (option error) :=
  req ← cniEndpointRequest StdinData;
  '(_, err) ← sendCNIServerReq req;
  mret err.
End cni.
