(* ===== verification/CniSocket.v ===== *)
(** * CniSocket: the unix socket of the CNI server (internal/pkg/cniserver/cniserver.go)

    Making the server and starting it: the run directory is removed or checked,
    the socket is made in it and closed to everybody else.  The file system and
    the listener are the environment; [SocketLaws] says what the system calls
    promise about owners and permissions.  What is served on the socket is in
    CniServer.v. *)

From S2P Require Import Prelude.
From S2P Require Import GoStrings.
From S2P Require Import Types.
From S2P Require Import World.
From S2P Require Import Safety.
From Stdlib Require Import Ascii.

#[local] Open Scope string_scope.
#[local] Open Scope list_scope.

(** ** [filepath.Join] of two elements, the first not empty *)

(** One element of a path that is being cleaned; [acc] is kept reversed. *)
Definition clean_elem (rooted : bool) (acc : list string) (x : string) : list string :=
  if (x == "") || (x == ".") then acc
  else if x == ".." then
    match acc with
    | y :: acc' => if y == ".." then ".." :: acc else acc'
    | [] => if rooted then [] else [".."]
    end
  else x :: acc.

Definition Clean (path : string) : string :=
  let rooted := match path with String c _ => c == "/"%char | EmptyString => false end in
  let body := Join (reverse (foldl (clean_elem rooted) [] (Split path "/"))) "/" in
  if rooted then "/" +:+ body else if body == "" then "." else body.

Definition filepath_Join (a b : string) : string :=
  if a == "" then (if b == "" then "" else Clean b) else Clean (a +:+ "/" +:+ b).

(** ** The server *)

Definition CNIServerRunDir := "/var/run/ovn4nfv-k8s-plugin/cniserver".
Definition CNIServerSocketName := "ovn4nfv-k8s-plugin-cni-server.sock".
Definition CNIServerSocketPath := CNIServerRunDir +:+ "/" +:+ CNIServerSocketName.

(** [CNIServer]: [F] is the type of request functions; [routes] are the method
    and path that the router hands to [handleCNIShimRequest], anything else
    being answered by http.NotFound; [serving] is the socket that the
    background goroutine serves. *)
Record CNIServer (F : Type) := mkCNIServer {
  requestFunc : option F; serverrundir : string; routes : list (string * string);
  keepAlives : bool; serving_on : option string
}.
Arguments mkCNIServer {F}.
Arguments requestFunc {F}.
Arguments serverrundir {F}.
Arguments routes {F}.
Arguments keepAlives {F}.
Arguments serving_on {F}.

Definition NewCNIServer {F} (serverRunSir : string) : CNIServer F :=
  let serverRunSir := if (String.length serverRunSir =? 0)%nat then CNIServerRunDir else serverRunSir in
  mkCNIServer None serverRunSir [("POST", "/")] true None.

Definition set_requestFunc {F} (f : F) (cs : CNIServer F) : CNIServer F :=
  mkCNIServer (Some f) (serverrundir cs) (routes cs) (keepAlives cs) (serving_on cs).
(** [SetKeepAlivesEnabled(false)] and the goroutine that serves for ever. *)
Definition start_serving {F} (socketPath : string) (cs : CNIServer F) : CNIServer F :=
  mkCNIServer (requestFunc cs) (serverrundir cs) (routes cs) false (Some socketPath).

(** [os.FileInfo]: the mode, and of [Sys()] the owner when it is a [Stat_t],
    the name of its type otherwise. *)
Record FileInfo := { fi_Mode : Z; fi_Sys : Z + string }.

(** [FileMode.String]. *)
Fixpoint mode_letters (letters : string) (bit : Z) (m : Z) (other : bool) : string :=
  match letters with
  | String c s =>
      if Z.testbit m bit then String c (mode_letters s (bit - 1) m other)
      else if other then String "-" (mode_letters s (bit - 1) m other)
      else mode_letters s (bit - 1) m other
  | EmptyString => ""
  end.
Definition FileMode_String (m : Z) : string :=
  let kind := mode_letters "dalTLDpSugct?" 31 m false in
  (if kind == "" then "-" else kind) +:+ mode_letters "rwxrwxrwx" 8 m true.

Class SocketWorld (E : Type) := {
  os_RemoveAll : string -> E -> option error * E;
  fs_Stat : string -> E -> (FileInfo + error) * E;
  os_Remove : string -> E -> option error * E;
  os_MkdirAll : string -> Z -> E -> option error * E;
  net_Listen : string -> E -> option error * E;       (* on a unix socket *)
  os_Chmod : string -> Z -> E -> option error * E;
  listener_Close : string -> E -> option error * E;
  is_not_exist : error -> bool                        (* os.IsNotExist *)
}.

(** The permission bits 0777, 0700 and 0600. *)
Definition perm (m : Z) : Z := Z.land m 511.
Definition rwx_owner : Z := 448.
Definition rw_owner : Z := 384.

Section server.
Context {E : Type} `{!SocketWorld E} {F : Type}.

Definition file_op (op path : string) (f : string -> E -> option error * E) : M E (option error) :=
  prim (f path) (EFile op path).

Definition exists_err (err : option error) : bool :=
  match err with Some e => negb (is_not_exist e) | None => false end.

(** The old directory could not be removed: it must be root's and private. *)
Definition check_rundir (dir socketPath : string) : M E (option error) :=
  r ← prim (fs_Stat dir) (fun _ => EQuery "Stat");
  match r with
  | inr e => mret (Errorf ("failed to stat old cni server info socket directory " +:+ dir +:+ ": " +:+ Error e))
  | inl info =>
      match fi_Sys info with
      | inr tmp => mret (Errorf ("failed to read CNI Server info socket directory stat info: " +:+ tmp))
      | inl uid =>
          if negb (bool_decide (uid = 0%Z))
          then mret (Errorf ("insecure owner of CNI Server info socket directory " +:+ dir +:+ ": " +:+ pretty uid))
          else if negb (bool_decide (perm (fi_Mode info) = rwx_owner))
          then mret (Errorf ("insecure permissions on CNI Server info socket directory " +:+ dir +:+ ": " +:+
                         FileMode_String (fi_Mode info)))
          else
            err ← file_op "remove" socketPath os_Remove;
            mret (match err with
                  | Some e => if is_not_exist e then None
                      else Errorf ("failed to remove old CNI Server info socket " +:+ socketPath +:+ ": " +:+ Error e)
                  | None => None
                  end)
      end
  end.

(** The directory and the socket; [listening] is the end of [Start]. *)
Definition listening (dir socketPath : string) : M E (option error) :=
  err ← file_op "mkdir" dir (fun p => os_MkdirAll p rwx_owner);
  match err with
  | Some e => mret (Errorf ("failed to create CNI Server info socket directory " +:+ dir +:+ ": " +:+ Error e))
  | None =>
      err ← file_op "listen" socketPath net_Listen;
      match err with
      | Some e => mret (Errorf ("failed to listen on CNI Server info socket: " +:+ Error e))
      | None =>
          err ← file_op "chmod" socketPath (fun p => os_Chmod p rw_owner);
          match err with
          | Some e =>
              file_op "close" socketPath listener_Close;;
              mret (Errorf ("failed to set CNI Server info socket mode: " +:+ Error e))
          | None => mret None
          end
      end
  end.

(** The server is changed in place: it is returned with the error. *)
Definition Start (requestFunc : option F) (cs : CNIServer F) : M E (CNIServer F * option error) :=
  match requestFunc with
  | None => mret (cs, Errorf "no CNI request handler")
  | Some f =>
      let cs := set_requestFunc f cs in
      let socketPath := filepath_Join (serverrundir cs) CNIServerSocketName in
      err ← file_op "removeall" (serverrundir cs) os_RemoveAll;
      err ← (if exists_err err then check_rundir (serverrundir cs) socketPath else mret None);
      match err with
      | Some e => mret (cs, Some e)
      | None =>
          err ← listening (serverrundir cs) socketPath;
          match err with
          | Some e => mret (cs, Some e)
          | None => mret (start_serving socketPath cs, None)
          end
      end
  end.
End server.

Example run_dir_socket : filepath_Join CNIServerRunDir CNIServerSocketName = CNIServerSocketPath.
Proof. reflexivity. Qed.

Example mode_texts : FileMode_String (2 ^ 31 + 448) = "drwx------" /\ FileMode_String 420 = "-rw-r--r--".
Proof. split; reflexivity. Qed.

Example clean_dots : Clean "/a/./b/../c//" = "/a/c" /\ Clean "../x/.." = ".." /\ Clean "" = ".".
Proof. repeat split; reflexivity. Qed.

(** ** Who can reach the socket *)

(** What the system calls promise: [file_at] is the owner and mode of a path,
    [uid] the user that the process runs as.  Success tells what the call did;
    no call changes the owner or the permissions of another path. *)
Class SocketLaws (E : Type) `{!SocketWorld E} := {
  file_at : string -> E -> option FileInfo;
  uid : Z;
  law_RemoveAll p e : exists_err (os_RemoveAll p e).1 = false -> file_at p (os_RemoveAll p e).2 = None;
  law_Stat p e : forall q, file_at q (fs_Stat p e).2 = file_at q e;
  law_Stat_info p e i : (fs_Stat p e).1 = inl i -> file_at p e = Some i;
  law_Remove p e : forall q, q <> p -> file_at q (os_Remove p e).2 = file_at q e;
  law_MkdirAll_old p m e i : file_at p e = Some i -> file_at p (os_MkdirAll p m e).2 = Some i;
  law_MkdirAll_new p m e : file_at p e = None -> (os_MkdirAll p m e).1 = None ->
    exists i, file_at p (os_MkdirAll p m e).2 = Some i /\ fi_Sys i = inl uid /\
              Z.land (perm (fi_Mode i)) (Z.lnot m) = 0%Z;
  law_Listen p e : forall q, q <> p -> file_at q (net_Listen p e).2 = file_at q e;
  law_Chmod p m e : (os_Chmod p m e).1 = None ->
    exists i, file_at p (os_Chmod p m e).2 = Some i /\ perm (fi_Mode i) = perm m;
  law_Chmod_others p m e : forall q, q <> p -> file_at q (os_Chmod p m e).2 = file_at q e
}.

Section secure.
Context {E : Type} `{!SocketWorld E, !SocketLaws E} {F : Type}.

(** A directory of root's that group and others cannot use at all. *)
Definition private_dir (dir : string) (e : E) : Prop :=
  exists i, file_at dir e = Some i /\ fi_Sys i = inl 0%Z /\ Z.land (perm (fi_Mode i)) (Z.lnot rwx_owner) = 0%Z.

Definition private_socket (path : string) (e : E) : Prop :=
  exists i, file_at path e = Some i /\ perm (fi_Mode i) = rw_owner.

(** The directory was removed, or it is private. *)
Definition safe_dir (dir : string) (e : E) : Prop := file_at dir e = None \/ private_dir dir e.

Lemma wp_file_op op path f (Q : Res (option error) -> St E -> list Event -> Prop) s :
  Q (Val (f path (env s)).1) (mkSt (glob s) (f path (env s)).2) [EFile op path (f path (env s)).1] ->
  wp (file_op op path f) Q s.
Proof. intros HQ. apply wp_prim. intros a e' He. by rewrite He in HQ. Qed.

Lemma private_dir_eq dir e e' : file_at dir e' = file_at dir e -> private_dir dir e -> private_dir dir e'.
Proof. intros He (i & Hi & H). exists i. by rewrite He. Qed.

Lemma check_rundir_run dir socketPath s :
  dir <> socketPath ->
  wp (check_rundir dir socketPath) (fun r s' _ => exists err, r = Val err /\
    (err = None -> private_dir dir (env s'))) s.
Proof.
  intros Hd. unfold check_rundir. wp_steps. apply wp_prim. intros r e' He. split; [done|].
  assert (Hs := law_Stat dir (env s) dir). assert (Hi := law_Stat_info dir (env s)).
  rewrite He in Hs, Hi. simpl in Hs, Hi. wp_steps.
  destruct r as [i|x]; wp_steps; [|by eexists]. destruct (fi_Sys i) as [u|] eqn:Hu; wp_steps; [|by eexists].
  case_bool_decide as Hu0; simpl; wp_steps; [|by eexists].
  case_bool_decide as Hp; simpl; wp_steps; [|by eexists].
  apply wp_file_op. simpl. wp_steps. eexists. split; [done|]. intros _. simpl.
  apply (private_dir_eq dir (env s)).
  - rewrite law_Remove by done. exact Hs.
  - exists i. split; [by apply Hi|]. rewrite Hu, Hu0, Hp. done.
Qed.

Lemma mkdir_private dir e :
  uid = 0%Z -> safe_dir dir e -> (os_MkdirAll dir rwx_owner e).1 = None ->
  private_dir dir (os_MkdirAll dir rwx_owner e).2.
Proof.
  intros Hu [Hn|(i & Hi & H)] Hok.
  - destruct (law_MkdirAll_new _ _ _ Hn Hok) as (i & Hi & Hs & Hm). exists i. by rewrite Hs, Hu.
  - exists i. split; [by apply law_MkdirAll_old|done].
Qed.

Lemma listening_run dir socketPath s :
  uid = 0%Z -> dir <> socketPath -> safe_dir dir (env s) ->
  wp (listening dir socketPath) (fun r s' _ => exists err, r = Val err /\
    (err = None -> private_dir dir (env s') /\ private_socket socketPath (env s'))) s.
Proof.
  intros Hu Hd Hs. unfold listening. wp_steps. apply wp_file_op. simpl.
  destruct (os_MkdirAll dir rwx_owner (env s)).1 eqn:Hm; wp_steps; [by eexists|].
  assert (Hp := mkdir_private dir (env s) Hu Hs Hm). apply wp_file_op. simpl.
  destruct (net_Listen _ _).1; wp_steps; [by eexists|]. apply wp_file_op. simpl.
  destruct (os_Chmod _ _ _).1 eqn:Hc; wp_steps.
  - apply wp_file_op. simpl. wp_steps. by eexists.
  - eexists. split; [done|]. intros _. split; [|by apply law_Chmod].
    eapply private_dir_eq; [|exact Hp]. simpl. by rewrite law_Chmod_others, law_Listen.
Qed.

Lemma Start_run (rf : option F) cs s :
  let socketPath := filepath_Join (serverrundir cs) CNIServerSocketName in
  uid = 0%Z -> serverrundir cs <> socketPath ->
  wp (Start rf cs) (fun r s' _ => exists cs' err, r = Val (cs', err) /\
    match err with
    | None => cs' = mkCNIServer rf (serverrundir cs) (routes cs) false (Some socketPath) /\ rf <> None /\
        private_dir (serverrundir cs) (env s') /\ private_socket socketPath (env s')
    | Some _ => serving_on cs' = serving_on cs
    end) s.
Proof.
  intros socketPath Hu Hd. unfold Start. destruct rf as [f|]; wp_steps; [|by do 2 eexists].
  apply wp_file_op. simpl. fold socketPath. apply wp_bind.
  apply (wp_mono _ (fun r s' _ => exists err, r = Val err /\ (err = None -> safe_dir (serverrundir cs) (env s')))).
  - intros r s' es (err & -> & He). simpl. destruct err as [x|]; wp_steps; [by do 2 eexists|].
    eapply wp_mono; [|apply listening_run; auto].
    intros r2 s2 e2 (err2 & -> & H2). simpl. destruct err2 as [x|]; wp_steps; do 2 eexists; (split; [done|]); [done|].
    destruct (H2 eq_refl). done.
  - destruct (exists_err _) eqn:Hx.
    + eapply wp_mono; [|by apply check_rundir_run].
      intros r s' es (err & -> & He). eexists. split; [done|]. intros Hn. right. auto.
    + wp_steps. eexists. split; [done|]. intros _. left. simpl. by apply law_RemoveAll.
Qed.

(** The package variables are left alone. *)
Lemma wp_keeps_Start (rf : option F) cs s :
  let socketPath := filepath_Join (serverrundir cs) CNIServerSocketName in
  uid = 0%Z -> serverrundir cs <> socketPath ->
  wp (Start rf cs) (fun r s' _ => exists cs' err, r = Val (cs', err) /\ glob s' = glob s /\
    match err with
    | None => cs' = mkCNIServer rf (serverrundir cs) (routes cs) false (Some socketPath) /\ rf <> None /\
        private_dir (serverrundir cs) (env s') /\ private_socket socketPath (env s')
    | Some _ => serving_on cs' = serving_on cs
    end) s.
Proof.
  intros socketPath Hu Hd.
  assert (Hk : upholds (fun _ => True) (Start rf cs)) by (unfold Start, check_rundir, listening, file_op; upholds_tac).
  assert (HS := Start_run rf cs s Hu Hd). unfold wp in *. specialize (Hk s).
  destruct (Start rf cs s) as [[r s'] es]. destruct Hk as [Hg _]. destruct HS as (Hp & cs' & err & -> & H).
  split; [done|]. by exists cs', err.
Qed.

(** C28: when the CNI server of a process that runs as root starts without an
    error, its socket is in a directory that belongs to root and that nobody
    else can use, whatever was there before, and can itself be used by root
    only; it serves the given handler there, without keep-alive.  When anything
    fails nothing new is served. *)
Theorem Start_secure (rf : option F) cs s :
  let socketPath := filepath_Join (serverrundir cs) CNIServerSocketName in
  uid = 0%Z -> serverrundir cs <> socketPath ->
  wp (Start rf cs) (fun r s' _ => exists cs' err, r = Val (cs', err) /\
    match err with
    | None => cs' = mkCNIServer rf (serverrundir cs) (routes cs) false (Some socketPath) /\ rf <> None /\
        private_dir (serverrundir cs) (env s') /\ private_socket socketPath (env s')
    | Some _ => serving_on cs' = serving_on cs
    end) s.
Proof. apply Start_run. Qed.
End secure.

(** ** A file system

    Files with owner and mode, where the run directory is a mount point: it
    cannot be removed.  The process is root's. *)
Definition busy := ErrorString "device or resource busy".
Definition no_such_file := ErrorString "no such file or directory".

#[export] Instance demo_fs : SocketWorld (gmap string FileInfo) := {|
  os_RemoveAll p e := if p == CNIServerRunDir then (Some busy, e) else (None, delete p e);
  fs_Stat p e := (match e !! p with Some i => inl i | None => inr no_such_file end, e);
  os_Remove p e := (match e !! p with Some _ => None | None => Some no_such_file end, delete p e);
  os_MkdirAll p m e := (None, match e !! p with
                              | Some _ => e
                              | None => <[p := {| fi_Mode := Z.lor (2 ^ 31) (Z.land m 493); fi_Sys := inl 0%Z |}]> e end);
  net_Listen p e := (None, <[p := {| fi_Mode := 493; fi_Sys := inl 0%Z |}]> e);
  os_Chmod p m e := match e !! p with
                    | Some i => (None, <[p := {| fi_Mode := perm m; fi_Sys := fi_Sys i |}]> e)
                    | None => (Some no_such_file, e) end;
  listener_Close p e := (None, delete p e);
  is_not_exist x := x == no_such_file
|}.

Definition demo_dir (mode owner : Z) : gmap string FileInfo :=
  <[CNIServerRunDir := {| fi_Mode := mode; fi_Sys := inl owner |}]> ∅.

Definition demo_start (e : gmap string FileInfo) : Res (CNIServer () * option error) :=
  (Start (Some ()) (NewCNIServer "") (mkSt initGlobals e)).1.1.

Example start_private : demo_start (demo_dir (2 ^ 31 + 448) 0) =
  Val (mkCNIServer (Some ()) CNIServerRunDir [("POST", "/")] false (Some CNIServerSocketPath), None).
Proof. vm_compute. reflexivity. Qed.

Example start_open_to_all : exists cs, demo_start (demo_dir (2 ^ 31 + 511) 0) = Val (cs,
  Errorf ("insecure permissions on CNI Server info socket directory " +:+ CNIServerRunDir +:+ ": drwxrwxrwx")).
Proof. vm_compute. by eexists. Qed.

Example start_other_owner : exists cs, demo_start (demo_dir (2 ^ 31 + 448) 1000) = Val (cs,
  Errorf ("insecure owner of CNI Server info socket directory " +:+ CNIServerRunDir +:+ ": 1000")).
Proof. vm_compute. by eexists. Qed.

Lemma umask_kept m : Z.land (perm (Z.lor (2 ^ 31) (Z.land m 493))) (Z.lnot m) = 0%Z.
Proof.
  apply Z.bits_inj'. intros n Hn. unfold perm. rewrite !Z.land_spec, Z.lor_spec, Z.land_spec.
  rewrite Z.lnot_spec, Z.pow2_bits_eqb, Z.bits_0 by lia.
  destruct (31 =? n)%Z eqn:Hb; [apply Z.eqb_eq in Hb; subst n; reflexivity|].
  destruct (Z.testbit m n), (Z.testbit 493 n), (Z.testbit 511 n); done.
Qed.

#[export] Instance demo_fs_laws : SocketLaws (gmap string FileInfo).
Proof.
  refine {| file_at p e := e !! p; uid := 0%Z |}; simpl.
  - intros p e. case_bool_decide; simpl; [done|]. intros _. apply lookup_delete_eq.
  - done.
  - intros p e i. destruct (e !! p); congruence.
  - intros p e q Hq. by apply lookup_delete_ne.
  - intros p m e i Hi. by rewrite Hi.
  - intros p m e Hp _. rewrite Hp, lookup_insert_eq. eexists. split; [done|]. split; [done|]. apply umask_kept.
  - intros p e q Hq. by rewrite lookup_insert_ne.
  - intros p m e. destruct (e !! p) eqn:Hp; simpl; [|done]. intros _. rewrite lookup_insert_eq.
    eexists. split; [done|]. unfold perm. simpl. by rewrite <- Z.land_assoc.
  - intros p m e q Hq. destruct (e !! p); simpl; [|done]. by rewrite lookup_insert_ne.
Defined.

(** An old directory that is private, with the socket of an earlier run. *)
Lemma Start_secure_witness :
  let fs := <[CNIServerSocketPath := {| fi_Mode := 493; fi_Sys := inl 0%Z |}]> (demo_dir (2 ^ 31 + 448) 0) in
  wp (Start (Some ()) (NewCNIServer "")) (fun r s' _ => exists cs' err, r = Val (cs', err) /\
    match err with
    | None => cs' = mkCNIServer (Some ()) CNIServerRunDir [("POST", "/")] false (Some CNIServerSocketPath) /\
        Some () <> None /\ private_dir CNIServerRunDir (env s') /\ private_socket CNIServerSocketPath (env s')
    | Some _ => serving_on cs' = None
    end) (mkSt initGlobals fs) /\
  (exists cs, demo_start fs = Val (cs, None)).
Proof.
  intros fs. split; [|vm_compute; by eexists].
  apply (@Start_secure _ demo_fs demo_fs_laws () (Some ()) (NewCNIServer "") (mkSt initGlobals fs)); [reflexivity|].
  vm_compute. discriminate.
Defined.
