(* ===== verification/CniMain.v ===== *)
(** * CniMain: the CNI executable (cmd/ovn4nfvk8s-cni/ovn4nfvk8s-cni.go)

    The command line and the configuration (Config.v), then the CNI skeleton
    library with the functions of the shim (CniServer.v).  The libraries cli and
    skel are the environment. *)

From S2P Require Import Prelude.
From S2P Require Import GoStrings.
From S2P Require Import Types.
From S2P Require Import World.
From S2P Require Import CniServer.
From S2P Require Import Config.

#[local] Open Scope string_scope.
#[local] Open Scope list_scope.

Class CliWorld (E : Type) := {
  (** cli parses the arguments: what the flags' destinations become, or an error. *)
  parse_flags : list cliFlag -> E -> ((config -> config) + error) * E;
  (** skel.PluginMain calls one of the three functions and may end the process. *)
  PluginMain : (string -> M E (option error)) -> (string -> M E (option error)) ->
               (string -> M E (option error)) -> M E ();
  error_code : error -> option Z;                 (* the code of a *types.Error *)
  print_error : Z -> string -> E -> E             (* types.Error.Print, on standard output *)
}.

Section cni_main.
Context {E : Type} `{!CniWorld E, !ConfigWorld E, !CliWorld E}.

Definition CmdCheck (StdinData : string) : M E (option error) := mret None.

(** [c.Action]. *)
Definition Action (v : Vars) : M E (option error) :=
  '(_, (_, err)) ← InitConfig v;
  match err with
  | Some e => mret (Some e)
  | None => PluginMain CmdAdd CmdCheck CmdDel;; mret None
  end.

Definition report (e : error) : M E () :=
  prim (fun en => ((), print_error (default 100%Z (error_code e)) (Error e) en))
       (fun _ => EFile "print" (Error e) (Some e)).

Definition cni_main (v : Vars) : M E () :=
  r ← prim (parse_flags Flags) (fun _ => EQuery "args");
  match r with
  | inr e => report e
  | inl given =>
      err ← Action (set_cliConfig (given (cliConfig v)) v);
      match err with Some e => report e | None => mret () end
  end.

(** ** Errors of the start *)

(** An error of the configuration is printed, in the form that the CNI
    specification asks for, and nothing else is done. *)
Lemma Action_config_error v (s : St E) v' e s' es :
  InitConfig v s = (Val (v', ("", Some e)), s', es) -> Action v s = (Val (Some e), s', es ++ []).
Proof. intros H. unfold Action, mbind, M_bind. by rewrite H. Qed.

Lemma cni_main_reports v (s : St E) given e1 v' e s' es :
  parse_flags Flags (env s) = (inl given, e1) ->
  InitConfig (set_cliConfig (given (cliConfig v)) v) (mkSt (glob s) e1) = (Val (v', ("", Some e)), s', es) ->
  cni_main v s = (Val (), mkSt (glob s') (print_error (default 100%Z (error_code e)) (Error e) (env s')),
                  EQuery "args" :: es ++ [EFile "print" (Error e) (Some e)]).
Proof.
  intros Hp Hc. unfold cni_main. unfold mbind at 1, M_bind at 1, prim at 1. rewrite Hp.
  unfold mbind at 1, M_bind at 1. rewrite (Action_config_error _ _ _ _ _ _ Hc). simpl.
  by rewrite app_nil_r.
Qed.
End cni_main.
