(* ===== verification/AgentMain.v ===== *)
(** * AgentMain: the life of the agent process (cmd/nfn-agent/nfn-agent.go)

    [agent_main] is what main does before it starts its two goroutines: the
    subscriber ([subscribeNotif] and [shutDownAgent]) and the shutdown handler
    ([shutdownHandler], on main's own goroutine).  From then on the process is a
    machine whose steps are those of the goroutines, of the gRPC stream and of
    the operating system.  The CNI server's goroutines are part of [step_other]:
    the variables of package main are not theirs to change. *)

From S2P Require Import Prelude.
From S2P Require Import GoStrings.
From S2P Require Import Types.
From S2P Require Import World.
From S2P Require Import Runner.
From S2P Require Import OvnCommon.
From S2P Require Import IpTables.
From S2P Require Import Iface.
From S2P Require Import HelperLinux.
From S2P Require Import Agent.
From S2P Require Import AgentProps.
From S2P Require Import CniSocket.

#[local] Open Scope string_scope.
#[local] Open Scope list_scope.

(** ** Starting *)

Class AgentLibs (E : Type) := {
  grpc_Dial : string -> E -> option error * E;
  InClusterConfig : E -> option error * E;
  kubernetes_NewForConfig : E -> option error * E
}.

Section start.
Context {E : Type} `{!ExecWorld E, !SocketWorld E, !AgentLibs E} {F : Type}.

(** [None] when main returns early; else the CNI server that is running when
    the goroutines start.  [handler] is [cs.HandleCNIcommandRequest]. *)
Definition agent_main (handler : F) : M E (option (CNIServer F)) :=
  host ← Getenv "NFN_OPERATOR_SERVICE_HOST";
  port ← Getenv "NFN_OPERATOR_SERVICE_PORT";
  let serverAddr := host +:+ ":" +:+ port in
  err ← SetExec;
  match err with Some _ => mret None | None =>
  err ← prim (grpc_Dial serverAddr) (fun _ => EQuery "Dial");
  match err with Some _ => mret None | None =>
  err ← prim InClusterConfig (fun _ => EQuery "InClusterConfig");
  match err with Some _ => mret None | None =>
  err ← prim kubernetes_NewForConfig (fun _ => EQuery "NewForConfig");
  match err with Some _ => mret None | None =>
  '(cniserver, err) ← Start (Some handler) (NewCNIServer "");
  match err with Some _ => mret None | None =>
  mret (Some cniserver)
  end end end end end.
End start.

(** ** Running *)

(** Where the goroutine of [subscribeNotif] is: subscribing, waiting for a
    message of its stream, handing [reason] to the unbuffered channel, or
    asleep in [shutDownAgent]. *)
Inductive subscriber := Subscribing | Receiving | Sending (reason : string) | Sleeping | Stuck.

(** Where main is: in the select of [shutdownHandler], or on its way out. *)
Inductive handler := Selecting | Returning (reason : string).

Inductive process (E : Type) :=
| Running (sub : subscriber) (main : handler) (node : St E)
| Exited (reason : string)
| Crashed (why : string).
Arguments Running {E}.
Arguments Exited {E}.
Arguments Crashed {E}.

Inductive os_signal := SIGTERM | SIGINT | SIGHUP.
(** Their [String] method. *)
Definition signal_String (sig : os_signal) : string :=
  match sig with SIGTERM => "terminated" | SIGINT => "interrupt" | SIGHUP => "hangup" end.

Inductive action :=
| Refused                    (* client.Subscribe returns an error *)
| Subscribed
| Received (m : Notification)
| StreamEnds (eof : bool)    (* stream.Recv returns io.EOF, or another error *)
| Reported                   (* the reason goes through errorChannel *)
| Slept                      (* the ten seconds are over *)
| Signalled (sig : os_signal)
| Returned                   (* main returns *)
| Other.                     (* anything else in the process or outside *)

Definition close_reason (eof : bool) : string := if eof then "Stream closed" else "Stream closed from server".
Definition signal_reason (sig : os_signal) : string := "Received OS signal " +:+ signal_String sig.
Definition shutdown_failed := "Shutdown failed. Panicking.".

Section run.
Context {E : Type} `{!ExecWorld E, !LinkWorld E, !IPTWorld E, !RouteWorld E, !NodeWorld E}.

Inductive step : process E -> action -> process E -> Prop :=
| step_refused main s : step (Running Subscribing main s) Refused (Running Subscribing main s)
| step_subscribed main s : step (Running Subscribing main s) Subscribed (Running Receiving main s)
| step_received main s m s' es :
    handleNotif m s = (Val (), s', es) ->
    step (Running Receiving main s) (Received m) (Running Receiving main s')
| step_panics main s m w s' es :
    handleNotif m s = (Panic w, s', es) -> step (Running Receiving main s) (Received m) (Crashed w)
| step_stuck main s m s' es :
    handleNotif m s = (Block, s', es) -> step (Running Receiving main s) (Received m) (Running Stuck main s')
| step_stream_ends main s eof :
    step (Running Receiving main s) (StreamEnds eof) (Running (Sending (close_reason eof)) main s)
| step_reported reason s :
    step (Running (Sending reason) Selecting s) Reported (Running Sleeping (Returning reason) s)
| step_slept main s : step (Running Sleeping main s) Slept (Crashed shutdown_failed)
| step_signalled sub s sig :
    step (Running sub Selecting s) (Signalled sig) (Running sub (Returning (signal_reason sig)) s)
| step_returned sub reason s : step (Running sub (Returning reason) s) Returned (Exited reason)
| step_other sub main s e : step (Running sub main s) Other (Running sub main (mkSt (glob s) e)).

(** The runs of a process from [p], with the actions in order. *)
Inductive runs (p : process E) : list action -> process E -> Prop :=
| runs_start : runs p [] p
| runs_step tr q a q' : runs p tr q -> step q a q' -> runs p (tr ++ [a]) q'.

(** main starts the goroutines. *)
Definition launch (s : St E) : process E := Running Subscribing Selecting s.

(** The messages of a run. *)
Definition received (tr : list action) : list Notification :=
  omap (fun a => match a with Received m => Some m | _ => None end) tr.

(** ** The subscriber is the machine of AgentProps.v *)

Lemma received_app tr a : received (tr ++ [a]) = received tr ++ match a with Received m => [m] | _ => [] end.
Proof. unfold received. rewrite omap_app. by destruct a. Qed.

Lemma phase_after_app ph ms ms' : phase_after ph (ms ++ ms') = phase_after (phase_after ph ms) ms'.
Proof.
  destruct ph as [ps|]; [|done]. simpl. rewrite existsb_app, omap_app.
  destruct (existsb is_insync ms); simpl; [done|]. by rewrite app_assoc.
Qed.

Lemma phase_after_step ph m ph' : agent_step ph m ph' -> ph' = phase_after ph [m].
Proof. intros Hs. apply agent_steps_phase. by eapply steps_cons; [|constructor]. Qed.

(** Why a process is over. *)
Definition ended_because (tr : list action) (reason : string) : Prop :=
  (exists eof, StreamEnds eof ∈ tr /\ reason = close_reason eof) \/
  (exists sig, Signalled sig ∈ tr /\ reason = signal_reason sig).

Definition running_inv (s : St E) (tr : list action) (sub : subscriber) (main : handler) (node : St E) : Prop :=
  agent_inv (glob node) /\ agent_frame (glob s) (glob node) /\
  represents (glob node) = phase_after (represents (glob s)) (received tr) /\
  match sub with
  | Stuck => False
  | Sleeping => Reported ∈ tr /\ exists reason, main = Returning reason
  | Sending reason => exists eof, StreamEnds eof ∈ tr /\ reason = close_reason eof
  | _ => True
  end /\
  match main with Returning reason => ended_because tr reason | Selecting => True end.

Definition process_inv (s : St E) (tr : list action) (p : process E) : Prop :=
  match p with
  | Running sub main node => running_inv s tr sub main node
  | Exited reason => ended_because tr reason
  | Crashed why => why = shutdown_failed /\ Reported ∈ tr \/ exists m, last tr = Some (Received m)
  end.

Lemma ended_because_more tr tr' reason : ended_because tr reason -> ended_because (tr ++ tr') reason.
Proof. intros [(x & H & ->)|(x & H & ->)]; [left|right]; exists x; set_solver. Qed.

Lemma running_inv_more s tr a sub main node :
  running_inv s tr sub main node -> (forall m, a <> Received m) -> running_inv s (tr ++ [a]) sub main node.
Proof.
  intros (H1 & H2 & H3 & H4 & H5) Ha. split; [done|]. split; [done|]. split.
  - rewrite received_app. destruct a; rewrite ?app_nil_r; try done. by destruct (Ha m).
  - split.
    + destruct sub; try done; [destruct H4 as (x & H & ->); exists x|destruct H4]; set_solver.
    + destruct main; [done|]. by apply ended_because_more.
Qed.

Lemma step_inv s tr p a q : process_inv s tr p -> step p a q -> process_inv s (tr ++ [a]) q.
Proof.
  intros Hp Hs. destruct Hs as [main n|main n|main n m n' es Hm|main n m w n' es Hm|main n m n' es Hm
    |main n eof|reason n|main n|sub n sig|sub reason n|sub main n e]; simpl in *.
  - by apply running_inv_more.
  - exact (running_inv_more s tr Subscribed Subscribing main n Hp ltac:(done)).
  - destruct Hp as (H1 & H2 & H3 & _ & H5). assert (Hv := handleNotif_moves m n H1).
    unfold moves_to in Hv. rewrite Hm in Hv. destruct (proj2 Hv () eq_refl) as (Hi & Hf & Hst).
    split; [done|]. split; [by eapply agent_frame_trans|]. split.
    + rewrite received_app, phase_after_app, <- H3. by apply phase_after_step.
    + split; [done|]. destruct main; [done|]. by apply ended_because_more.
  - right. exists m. by rewrite last_snoc.
  - destruct Hp as (H1 & _). assert (Hv := handleNotif_moves m n H1).
    unfold moves_to in Hv. rewrite Hm in Hv. by destruct (proj1 Hv).
  - apply (running_inv_more _ _ (StreamEnds eof)) in Hp; [|done].
    destruct Hp as (H1 & H2 & H3 & _ & H5). repeat split; try done. exists eof. set_solver.
  - assert (He : ended_because (tr ++ [Reported]) reason).
    { destruct Hp as (_ & _ & _ & (eof & H & ->) & _). left. exists eof. set_solver. }
    apply (running_inv_more _ _ Reported) in Hp; [|done]. destruct Hp as (H1 & H2 & H3 & _ & _).
    repeat split; try done; [set_solver|by eexists].
  - left. destruct Hp as (_ & _ & _ & [H _] & _). split; [done|set_solver].
  - apply (running_inv_more _ _ (Signalled sig)) in Hp; [|done].
    destruct Hp as (H1 & H2 & H3 & H4 & _). repeat split; try done.
    + destruct sub; try done. destruct H4 as [H [r Hr]]. done.
    + right. exists sig. set_solver.
  - apply ended_because_more. by destruct Hp as (_ & _ & _ & _ & H).
  - apply (running_inv_more _ _ Other) in Hp; [|done]. exact Hp.
Qed.

Lemma runs_inv s tr p : agent_inv (glob s) -> runs (launch s) tr p -> process_inv s tr p.
Proof.
  intros Hi. induction 1 as [|tr q a q' _ IH Hs].
  - repeat split; try done. by destruct (glob s). by destruct (represents (glob s)) as [ps|]; simpl; rewrite ?app_nil_r.
  - by eapply step_inv.
Qed.

(** C26: whatever the goroutines, the stream and the system do, and however
    they interleave, the agent has handled exactly the messages it received,
    one after the other: as long as it runs it is in the phase of the abstract
    machine that they determine and the subscriber is never stuck in a handler.
    It exits only after the end of its stream or a signal, and for that reason;
    it dies only in a handler or when a reported shutdown takes ten seconds. *)
Theorem agent_process_refines s tr p :
  agent_inv (glob s) -> runs (launch s) tr p ->
  match p with
  | Running sub main node => sub <> Stuck /\ agent_inv (glob node) /\ agent_frame (glob s) (glob node) /\
      represents (glob node) = phase_after (represents (glob s)) (received tr)
  | Exited reason => ended_because tr reason
  | Crashed why => why = shutdown_failed /\ Reported ∈ tr \/ exists m, last tr = Some (Received m)
  end.
Proof.
  intros Hi Hr. assert (H := runs_inv s tr p Hi Hr). destruct p as [sub main n| |]; [|done..].
  destruct H as (H1 & H2 & H3 & H4 & _). repeat split; try done. by intros ->.
Qed.

(** ** The end of the stream *)

Definition is_other (a : action) : bool := match a with Other => true | _ => false end.
Definition own (tr : list action) : list action := filter (fun a => is_other a = false) tr.

(** The subscriber neither subscribes again nor handles another message. *)
Definition silent (a : action) : Prop :=
  match a with Refused | Subscribed | Received _ | StreamEnds _ => False | _ => True end.

(** The reason that main can leave with, from where it is when the subscriber
    has [reason] to report. *)
Definition leaves_with (main : handler) (reason why : string) : Prop :=
  match main with
  | Returning r => why = r
  | Selecting => why = reason \/ exists sig, why = signal_reason sig
  end.

Inductive closing (reason : string) (main : handler) : list action -> process E -> Prop :=
| closing_start s : closing reason main [] (Running (Sending reason) main s)
| closing_reported s :
    main = Selecting -> closing reason main [Reported] (Running Sleeping (Returning reason) s)
| closing_signalled sig s :
    main = Selecting ->
    closing reason main [Signalled sig] (Running (Sending reason) (Returning (signal_reason sig)) s)
| closing_exited tr why :
    length tr <= 2 -> leaves_with main reason why -> closing reason main tr (Exited why)
| closing_crashed : main = Selecting -> closing reason main [Reported; Slept] (Crashed shutdown_failed).

Lemma own_app tr a : own (tr ++ [a]) = own tr ++ if is_other a then [] else [a].
Proof. unfold own. rewrite filter_app. by destruct a. Qed.

Lemma closing_step reason main tr q a q' :
  closing reason main tr q -> step q a q' ->
  silent a /\ closing reason main (tr ++ if is_other a then [] else [a]) q'.
Proof.
  intros Hc Hs. destruct Hc as [s|s ->|sig s ->|tr why Hl Hw|Hm]; inversion Hs; subst; simpl;
    rewrite ?app_nil_r; (split; [done|]); try (by constructor).
  - apply closing_exited; [simpl; lia|done].
  - apply closing_exited; [simpl; lia|by left].
  - apply closing_exited; [simpl; lia|right; by eexists].
Qed.

Lemma runs_closing reason main s tr q :
  runs (Running (Sending reason) main s) tr q -> Forall silent tr /\ closing reason main (own tr) q.
Proof.
  induction 1 as [|tr q a q' _ [Hq IH] Hs]; [split; constructor|].
  destruct (closing_step _ _ _ _ _ _ IH Hs) as [Ha Hc]. rewrite own_app. split; [|done].
  apply Forall_app. by repeat constructor.
Qed.

(** C27: an agent that has lost its stream ends.  From then on it neither
    subscribes again nor handles a message; as long as it runs, one of its
    goroutines can move without waiting for anybody outside, and it takes at
    most two such moves until the process is over, with the reason of the lost
    stream or of a signal that came in between, or, when main does not get away
    within ten seconds, by the panic of [shutDownAgent]. *)
Theorem lost_stream_ends_agent reason main s tr q :
  runs (Running (Sending reason) main s) tr q ->
  Forall silent tr /\ length (own tr) <= 2 /\
  match q with
  | Running _ _ _ => length (own tr) <= 1 /\ exists a q', a ∈ [Reported; Returned] /\ step q a q'
  | Exited why => leaves_with main reason why
  | Crashed why => why = shutdown_failed
  end.
Proof.
  intros Hr. destruct (runs_closing _ _ _ _ _ Hr) as [Hq Hc]. split; [done|].
  destruct Hc as [n|n Hm|sig n Hm|tr' why Hl Hw|Hm]; simpl; (split; [lia|]); try done; (split; [lia|]).
  - destruct main; [exists Reported|exists Returned]; eexists; (split; [set_solver|constructor]).
  - exists Returned. eexists. split; [set_solver|constructor].
  - exists Returned. eexists. split; [set_solver|constructor].
Qed.
End run.

(** ** A start that is safe *)
Section secure_start.
Context {E : Type} `{!ExecWorld E, !SocketWorld E, !SocketLaws E, !AgentLibs E} {F : Type}.

(** when the agent, running as root, gets to start its goroutines, the tools
    of OVN are located, and the CNI server already serves the handler on its
    socket, which only root can reach. *)
Theorem agent_main_starts (h : F) s :
  uid = 0%Z ->
  wp (agent_main h) (fun r s' _ => exists started, r = Val started /\
    match started with
    | None => True
    | Some cs => cs = mkCNIServer (Some h) CNIServerRunDir [("POST", "/")] false (Some CNIServerSocketPath) /\
        (exists tools, runner (glob s') = Some tools) /\
        private_dir CNIServerRunDir (env s') /\ private_socket CNIServerSocketPath (env s')
    end) s.
Proof.
  intros Hu. unfold agent_main, Getenv. wp_steps. apply wp_ask. intros host e1; split; [done|].
  wp_steps. apply wp_ask. intros port e2; split; [done|]. wp_steps.
  apply wp_SetExec. intros e3 tools err es. wp_steps. destruct err; wp_steps; [by eexists|].
  do 3 (apply wp_ask; intros [x|] ?; (split; [done|]); wp_steps; [by eexists|]).
  eapply wp_mono; [|apply wp_keeps_Start; [done|vm_compute; discriminate]].
  intros r s' es' (cs & err & -> & Hg & Hcs). cbn [after]. destruct err; wp_steps; [by eexists|].
  destruct Hcs as (-> & _ & Hd & Hso). eexists. split; [done|]. repeat split; [|done..].
  rewrite Hg. by exists tools.
Qed.
End secure_start.

(** ** Runs on a small node *)

Abbreviation demo_step := (@step Z node_exec node_links node_ipt node_routes node_rest).
Abbreviation demo_runs := (@runs Z node_exec node_links node_ipt node_routes node_rest).

(** A message handled without panic leads on. *)
Lemma demo_received main m s :
  (node_handle m s).1.1 = Val () -> demo_step (Running Receiving main s) (Received m) (Running Receiving main (node_handle m s).1.2).
Proof.
  intros Hv. destruct (node_handle m s) as [[r s'] es] eqn:Hm. simpl in *. subst r.
  eapply step_received. exact Hm.
Qed.

Definition demo_trace : list action :=
  [Refused; Subscribed; Received (create_msg (vlan_net "pn1" "100")); Received insync_msg].
Definition demo_node1 : St Z := (node_handle (create_msg (vlan_net "pn1" "100")) node_start).1.2.
Definition demo_node2 : St Z := (node_handle insync_msg demo_node1).1.2.

Lemma demo_run : demo_runs (launch node_start) demo_trace (Running Receiving Selecting demo_node2).
Proof.
  apply (runs_step _ [Refused; Subscribed; Received (create_msg (vlan_net "pn1" "100"))]
    (Running Receiving Selecting demo_node1)); [|apply demo_received; vm_compute; reflexivity].
  apply (runs_step _ [Refused; Subscribed] (Running Receiving Selecting node_start));
    [|apply demo_received; vm_compute; reflexivity].
  apply (runs_step _ [Refused] (Running Subscribing Selecting node_start)); [|constructor].
  apply (runs_step _ [] (launch node_start)); constructor.
Qed.

Lemma agent_process_refines_witness :
  demo_runs (launch node_start) demo_trace (Running Receiving Selecting demo_node2) /\
  (Receiving <> Stuck /\ agent_inv (glob demo_node2) /\ agent_frame (glob node_start) (glob demo_node2) /\
   represents (glob demo_node2) = phase_after (represents (glob node_start)) (received demo_trace)).
Proof.
  split; [exact demo_run|].
  apply (@agent_process_refines Z node_exec node_links node_ipt node_routes node_rest node_start demo_trace
    (Running Receiving Selecting demo_node2)); [intros H; discriminate H|exact demo_run].
Defined.

Lemma lost_stream_ends_agent_witness :
  let tr := [Other; Reported; Returned] in
  demo_runs (Running (Sending "Stream closed") Selecting node_start) tr (Exited "Stream closed") /\
  Forall silent tr /\ length (own tr) <= 2 /\ leaves_with Selecting "Stream closed" "Stream closed".
Proof.
  intros tr.
  assert (Hr : demo_runs (Running (Sending "Stream closed") Selecting node_start) tr (Exited "Stream closed")).
  { change tr with ((([] ++ [Other]) ++ [Reported]) ++ [Returned]).
    eapply runs_step; [|apply step_returned]. eapply runs_step; [|apply step_reported].
    eapply runs_step; [apply runs_start|]. exact (step_other _ _ node_start 1%Z). }
  split; [exact Hr|].
  exact (@lost_stream_ends_agent Z node_exec node_links node_ipt node_routes node_rest
    "Stream closed" Selecting node_start tr (Exited "Stream closed") Hr).
Defined.

(** The file system of CniSocket.v, with the tools found and a cluster to talk to. *)
Definition fs_exec : ExecWorld (gmap string FileInfo) := {|
  run_cmd _ _ e := ("", "", None, e);
  look_path file e := (file, None, e);
  getenv k e := (k, e);
  pause _ e := e;
  random e := (0%Z, e);
  map_picks e := ([], e)
|}.
Definition demo_libs : AgentLibs (gmap string FileInfo) := {|
  grpc_Dial _ e := (None, e); InClusterConfig e := (None, e); kubernetes_NewForConfig e := (None, e)
|}.

Lemma agent_main_starts_witness :
  let run := @agent_main _ fs_exec demo_fs demo_libs () () in
  let s := mkSt initGlobals (demo_dir (2 ^ 31 + 448) 0) in
  wp run (fun r s' _ => exists started, r = Val started /\
    match started with
    | None => True
    | Some cs => cs = mkCNIServer (Some ()) CNIServerRunDir [("POST", "/")] false (Some CNIServerSocketPath) /\
        (exists tools, runner (glob s') = Some tools) /\
        private_dir CNIServerRunDir (env s') /\ private_socket CNIServerSocketPath (env s')
    end) s /\
  (run s).1.1 = Val (Some (mkCNIServer (Some ()) CNIServerRunDir [("POST", "/")] false (Some CNIServerSocketPath))).
Proof.
  split; [|vm_compute; reflexivity].
  exact (@agent_main_starts _ fs_exec demo_fs demo_fs_laws demo_libs () () _ eq_refl).
Defined.
