(* ===== verification/Settled.v ===== *)
(** * Settled: what the operator sets up once stays set up

    A handler of the operator may fill the gateway cache, collect routes and add
    clients, but it never takes back what start-up has put in place:
    [settles m] says that of a computation, [settle_tac] shows it by following
    the code. *)

From S2P Require Import Prelude.
From S2P Require Import GoStrings.
From S2P Require Import GoNet.
From S2P Require Import Types.
From S2P Require Import World.
From S2P Require Import Runner.
From S2P Require Import OvnCommon.
From S2P Require Import OvnController.
From S2P Require Import Addressing.
From S2P Require Import Notify.
From S2P Require Import Reconciler.
From S2P Require Import NetworkController.
From S2P Require Import Chain.
From S2P Require Import ProviderNetworkController.
From S2P Require Import PodController.

#[local] Open Scope string_scope.
#[local] Open Scope list_scope.

(** ** Growth of the package state *)

Definition keeps_some {A B} (R : A -> B -> Prop) (x : option A) (y : option B) : Prop :=
  match x with Some a => exists b, y = Some b /\ R a b | None => True end.

Record grows (g g' : Globals) : Prop := {
  grows_runner : runner g' = runner g;
  grows_conf : ovnConf g' = ovnConf g;
  grows_ctl : keeps_some (fun _ _ => True) (ovnCtl g) (ovnCtl g');
  grows_clients : keeps_some (fun cl cl' : gmap string client => dom cl ⊆ dom cl') (notifServer g) (notifServer g');
  grows_pn : pnClientset g' = pnClientset g;
  grows_kube : kubeClientset g' = kubeClientset g
}.

Lemma keeps_some_refl {A} (R : A -> A -> Prop) `{!Reflexive R} x : keeps_some R x x.
Proof. destruct x; simpl; eauto. Qed.
Lemma keeps_some_trans {A} (R : A -> A -> Prop) `{!Transitive R} x y z :
  keeps_some R x y -> keeps_some R y z -> keeps_some R x z.
Proof. destruct x as [a|]; [|done]. intros (b & -> & Hab) (c & -> & Hbc). simpl. eauto. Qed.

#[export] Instance grows_preorder : PreOrder grows.
Proof.
  assert (HT2 : Transitive (fun cl cl' : gmap string client => dom cl ⊆ dom cl')) by (intros ???; set_solver).
  split.
  - intros g. split; try done; apply keeps_some_refl; by intros ?.
  - intros g1 g2 g3 [] []. split; try congruence; eapply keeps_some_trans; eauto.
Qed.

Create HintDb settles.

Section settles.
Context {E : Type}.

Definition settles {A} (m : M E A) : Prop := forall s, grows (glob s) (glob (m s).1.2).

Lemma settles_ret {A} (a : A) : settles (mret a).
Proof. intros s. reflexivity. Qed.
Lemma settles_panic {A} w : settles (panic (A:=A) w).
Proof. intros s. reflexivity. Qed.
Lemma settles_block {A} : settles (block (A:=A)).
Proof. intros s. reflexivity. Qed.
Lemma settles_get_glob : settles get_glob.
Proof. intros s. reflexivity. Qed.
Lemma settles_prim {A} (f : E -> A * E) ev : settles (prim f ev).
Proof. intros s. unfold prim. destruct (f (env s)). reflexivity. Qed.
Lemma settles_mod_glob f : (forall g, grows g (f g)) -> settles (mod_glob f).
Proof. intros H s. apply H. Qed.

Lemma settles_bind {A B} (m : M E A) (k : A -> M E B) :
  settles m -> (forall a, settles (k a)) -> settles (m ≫= k).
Proof.
  intros Hm Hk s. unfold mbind, M_bind. specialize (Hm s).
  destruct (m s) as [[[a|w|] s1] e1]; [|done..].
  specialize (Hk a s1). destruct (k a s1) as [[r s2] e2]. by etrans.
Qed.

(** A change that depends on the variables read just before. *)
Lemma settles_get_bind {B} (k : Globals -> M E B) :
  (forall s, grows (glob s) (glob (k (glob s) s).1.2)) -> settles (get_glob ≫= k).
Proof. intros H s. unfold mbind, M_bind, get_glob. specialize (H s). by destruct (k (glob s) s) as [[r s2] e2]. Qed.

Lemma settles_deref {A} (o : option A) : settles (deref o).
Proof. destruct o; [apply settles_ret|apply settles_panic]. Qed.
Lemma settles_index {A} (l : list A) i : settles (index l i).
Proof. unfold index. repeat case_match; first [apply settles_ret|apply settles_panic]. Qed.
Lemma settles_slice_to w n : settles (slice_to w n).
Proof. unfold slice_to. case_match; [apply settles_ret|apply settles_panic]. Qed.

Lemma settles_for_range {X L R} (body : X -> L -> M E (L + R)) xs l :
  (forall x l, settles (body x l)) -> settles (for_range body xs l).
Proof.
  intros Hb. revert l. induction xs as [|x xs IH]; intros l; cbn [for_range]; [apply settles_ret|].
  apply settles_bind; [apply Hb|]. intros [l'|ret]; [apply IH|apply settles_ret].
Qed.
End settles.

#[export] Hint Resolve settles_ret settles_panic settles_block settles_get_glob settles_deref settles_index
  settles_slice_to settles_prim : settles.

(** Follows the control flow of a function; its calls are in the database. *)
Ltac settle_tac :=
  repeat (intros; first
    [ solve [auto with settles]
    | apply settles_bind
    | apply settles_for_range
    | progress cbv zeta
    | case_match ]).

(** ** Tools and OVN *)
Section ovn.
Context {E : Type} `{!ExecWorld E}.

Lemma settles_retry_loop n p args : settles (E:=E) (retry_loop n p args).
Proof. induction n; simpl; unfold run, get_runner, Sleep; settle_tac. Qed.
Lemma settles_RunOVNNbctl args : settles (E:=E) (RunOVNNbctl args).
Proof.
  unfold RunOVNNbctl, RunOVNNbctlWithTimeout, get_runner. apply settles_bind; [settle_tac|]. intros h.
  apply settles_bind; [apply settles_retry_loop|]. settle_tac.
Qed.
Lemma settles_Intn z : settles (E:=E) (Intn z).
Proof. apply settles_prim. Qed.
Lemma settles_Sleep z : settles (E:=E) (Sleep z).
Proof. apply settles_prim. Qed.
Lemma settles_map_range {V} (m : gmap string V) : settles (E:=E) (map_range m).
Proof. apply settles_prim. Qed.
End ovn.
#[export] Hint Resolve settles_RunOVNNbctl settles_Intn settles_Sleep settles_map_range : settles.
#[local] Opaque RunOVNNbctl Intn Sleep map_range.

Section operations.
Context {E : Type} `{!ExecWorld E}.

Lemma settles_createOvnLS name subnet gw ex : settles (E:=E) (createOvnLS name subnet gw ex).
Proof. unfold createOvnLS. settle_tac. Qed.
Lemma settles_GetOvnController : settles (E:=E) GetOvnController.
Proof. unfold GetOvnController. settle_tac. Qed.
Hint Resolve settles_createOvnLS settles_GetOvnController : settles.

Lemma settles_CreateNetwork cr : settles (E:=E) (CreateNetwork cr).
Proof. unfold CreateNetwork. settle_tac. Qed.
Lemma settles_DeleteNetwork cr : settles (E:=E) (DeleteNetwork cr).
Proof. unfold DeleteNetwork. settle_tac. Qed.
Lemma settles_CreateProviderNetwork cr : settles (E:=E) (CreateProviderNetwork cr).
Proof. unfold CreateProviderNetwork. settle_tac. Qed.
Lemma settles_DeleteProviderNetwork cr : settles (E:=E) (DeleteProviderNetwork cr).
Proof. unfold DeleteProviderNetwork. settle_tac. Qed.

Lemma grows_cache sw v oc g : grows g (cache_gateway sw v oc g).
Proof.
  split; try done; simpl; [destruct (ovnCtl g); simpl; eauto|].
  by apply keeps_some_refl; intros ?.
Qed.
Lemma grows_routing r g : grows g (append_routing r g).
Proof. split; try done; by apply keeps_some_refl; intros ?. Qed.
Lemma grows_client n c g : grows g (add_client n c g).
Proof.
  split; try done; simpl; [by apply keeps_some_refl; intros ?|].
  destruct (notifServer g) as [cl|]; simpl; [|done]. eexists. split; [done|]. set_solver.
Qed.

Lemma settles_getGatewayFromSwitch sw : settles (E:=E) (getGatewayFromSwitch sw).
Proof.
  assert (H : settles (E:=E) (gateway_text sw)).
  { unfold gateway_text. settle_tac. apply settles_mod_glob. intros g. apply grows_cache. }
  unfold getGatewayFromSwitch. settle_tac.
Qed.
Lemma settles_poll_addresses n args : settles (E:=E) (poll_addresses n args).
Proof. induction n; simpl; settle_tac. Qed.
Hint Resolve settles_getGatewayFromSwitch settles_poll_addresses : settles.
#[local] Opaque poll_addresses.

Lemma settles_node_AddNodeLogicalPorts n : settles (E:=E) (node_AddNodeLogicalPorts n).
Proof. unfold node_AddNodeLogicalPorts, AddNodeLogicalPorts, addNodeLogicalPortWithSwitch. settle_tac. Qed.

Lemma settles_addLogicalPortWithSwitch pod ls ip mac gw n :
  settles (E:=E) (addLogicalPortWithSwitch pod ls ip mac gw n).
Proof. unfold addLogicalPortWithSwitch, generateMac, getNodeLogicalPortIPAddr. settle_tac. Qed.
Hint Resolve settles_addLogicalPortWithSwitch : settles.

Lemma settles_AddLogicalPorts Decode pod nets : settles (E:=E) (AddLogicalPorts Decode pod nets).
Proof. unfold AddLogicalPorts, add_port, add_default_port, FindLogicalSwitch. settle_tac. Qed.
Lemma settles_DeleteLogicalPorts name namespace : settles (E:=E) (DeleteLogicalPorts name namespace).
Proof. unfold DeleteLogicalPorts, delete_port. settle_tac. Qed.
End operations.
#[export] Hint Resolve settles_GetOvnController settles_CreateNetwork settles_DeleteNetwork
  settles_CreateProviderNetwork settles_DeleteProviderNetwork settles_node_AddNodeLogicalPorts
  settles_AddLogicalPorts settles_DeleteLogicalPorts : settles.

(** ** Notifications *)
Section notifications.
Context {E : Type} `{!ExecWorld E, !NotifyWorld E}.

Lemma settles_GetClient n : settles (E:=E) (GetClient n).
Proof. unfold GetClient, get_clients. settle_tac. Qed.
Lemma settles_Send st m : settles (E:=E) (Send st m).
Proof. apply settles_prim. Qed.
Hint Resolve settles_GetClient settles_Send : settles.

Lemma settles_sendMsg m l o n : settles (E:=E) (sendMsg m l o n).
Proof. unfold sendMsg, send_all, send_any, send_specific, get_clients, nodeListIterator. settle_tac. Qed.
Lemma settles_SendNotif pn t n : settles (E:=E) (SendNotif pn t n).
Proof. assert (H := settles_sendMsg). unfold SendNotif, dispatch, updatePnStatus. settle_tac. Qed.
Lemma settles_SendRouteNotif l t : settles (E:=E) (SendRouteNotif l t).
Proof. unfold SendRouteNotif, send_route. settle_tac. Qed.
Hint Resolve settles_SendNotif : settles.

Lemma settles_Subscribe sc ss : settles (E:=E) (Subscribe sc ss).
Proof.
  assert (H : forall n c, settles (E:=E) (mod_glob (add_client n c))).
  { intros n c. apply settles_mod_glob. intros g. apply grows_client. }
  unfold Subscribe, get_clients, notify_new. settle_tac.
Qed.
End notifications.
#[export] Hint Resolve settles_SendNotif settles_SendRouteNotif settles_Subscribe : settles.

(** ** Reconciles *)
Section reconciles.
Context {E : Type} `{!ExecWorld E, !KubeWorld E, !NotifyWorld E, !ChainWorld E, !PodWorld E}.

Lemma settles_Reconcile {T} `{!Reconcilable E T} ns n :
  (forall o, settles (E:=E) (obj_create (T:=T) o)) -> (forall o, settles (E:=E) (obj_delete (T:=T) o)) ->
  settles (Reconcile (E:=E) (T:=T) ns n).
Proof. intros Hc Hd. unfold Reconcile, reconcileFinalizers, Get, Update. settle_tac. Qed.

Lemma settles_network ns n : settles (E:=E) (ReconcileNetwork_Reconcile ns n).
Proof.
  apply settles_Reconcile; simpl; intros o; unfold createNetwork, deleteNetwork, StatusUpdate; settle_tac.
Qed.
Lemma settles_pn ns n : settles (E:=E) (ReconcileProviderNetwork_Reconcile ns n).
Proof.
  apply settles_Reconcile; simpl; intros o; unfold pn_createNetwork, pn_deleteNetwork, pn_StatusUpdate; settle_tac.
Qed.

Lemma settles_CalculateRoutes cr : settles (E:=E) (CalculateRoutes cr).
Proof.
  assert (H : forall r, settles (E:=E) (mod_glob (append_routing r))).
  { intros r. apply settles_mod_glob. intros g. apply grows_routing. }
  unfold CalculateRoutes, member_routes, calculateDeploymentRoutes, neighbour, dynamic_route, GetIPAdressForPod,
    GetNetworkSubnet, port_line.
  settle_tac.
Qed.
Hint Resolve settles_CalculateRoutes : settles.
Lemma settles_chain ns n : settles (E:=E) (ReconcileNetworkChaining_Reconcile ns n).
Proof.
  apply settles_Reconcile; simpl; intros o; unfold createChain, deleteChain, nc_StatusUpdate; settle_tac.
Qed.
Lemma settles_pod Decode ns n : settles (E:=E) (ReconcilePod_Reconcile Decode ns n).
Proof.
  unfold ReconcilePod_Reconcile, deleteLogicalPorts, addLogicalPorts, setPodAnnotation. settle_tac.
Qed.
End reconciles.
#[export] Hint Resolve settles_network settles_pn settles_chain settles_pod : settles.
