(* ===== verification/Operator.v ===== *)
(** * Operator: the start of the operator and its goroutines

    cmd/nfn-operator/nfn-operator.go, [SetupNotifServer] of internal/pkg/
    nfnNotify/server.go, and the registration of the controllers in
    pkg/controller.  main goes through stages; after the API configuration it
    starts the notification server in a goroutine of its own, so from then on
    the two interleave, step by step, with the reconciles that the manager
    dispatches and the subscriptions that the server accepts. *)

From S2P Require Import Prelude.
From S2P Require Import GoStrings.
From S2P Require Import Types.
From S2P Require Import World.
From S2P Require Import Runner.
From S2P Require Import OvnCommon.
From S2P Require Import OvnController.
From S2P Require Import OvnNetworks.
From S2P Require Import OvnPorts.
From S2P Require Import Notify.
From S2P Require Import NotifyProps.
From S2P Require Import Reconciler.
From S2P Require Import NetworkController.
From S2P Require Import Chain.
From S2P Require Import ProviderNetworkController.
From S2P Require Import PodController.
From S2P Require Import Settled.

#[local] Open Scope string_scope.
#[local] Open Scope list_scope.

(** The event filters of a watch; without any, every event is taken. *)
Record predicate := { on_create : bool; on_update : gmap string string -> bool; on_delete : bool }.
Definition every_event : predicate := {| on_create := true; on_update _ := true; on_delete := true |}.

Class OperatorLibs (E : Type) := {
  config_GetConfig : E -> option error * E;
  manager_New : E -> option error * E;
  AddToScheme : E -> option error * E;                       (* apis.AddToScheme *)
  controller_New : string -> E -> option error * E;
  controller_Watch : string -> string -> predicate -> E -> option error * E;  (* controller, kind *)
  pn_NewForConfig : E -> option error * E;
  kube_NewForConfig : E -> option error * E;
  tcp_Listen : string -> E -> option error * E
}.

(** ** Registration of the controllers *)
Section registration.
Context {E : Type} `{!OperatorLibs E}.

(** [add] of a controller package: a new controller that watches a kind. *)
Definition add (name kind : string) (p : predicate) : M E (option error) :=
  err ← prim (controller_New name) (fun _ => EQuery ("controller.New " +:+ name));
  match err with Some e => mret (Some e) | None =>
  prim (controller_Watch name kind p) (fun _ => EQuery ("Watch " +:+ kind))
  end.

Definition network_Add := add "network-controller" "Network" every_event.
Definition networkchaining_Add := add "networkchaining-controller" "NetworkChaining" every_event.
Definition pod_Add := add "pod-controller" "Pod"
  {| on_create := true; on_update := UpdateFunc; on_delete := true |}.
Definition providernetwork_Add := add "providernetwork-controller" "ProviderNetwork" every_event.

(** As appended by the init functions of the package's files, in their order. *)
Definition AddToManagerFuncs : list (M E (option error)) :=
  [network_Add; networkchaining_Add; pod_Add; providernetwork_Add].

Definition add_controller (f : M E (option error)) (_ : ()) : M E (() + option error) :=
  err ← f;
  match err with Some e => mret (inr (Some e)) | None => mret (inl ()) end.

Definition AddToManager : M E (option error) :=
  r ← for_range add_controller AddToManagerFuncs ();
  match r with inl _ => mret None | inr err => mret err end.

(** With the nil error every controller was made and watches its kind. *)
Definition registration (name kind : string) : list Event :=
  [EQuery ("controller.New " +:+ name); EQuery ("Watch " +:+ kind)].
Definition registrations : list Event :=
  registration "network-controller" "Network" ++ registration "networkchaining-controller" "NetworkChaining" ++
  registration "pod-controller" "Pod" ++ registration "providernetwork-controller" "ProviderNetwork".

Lemma wp_add name kind p (Q : Res (option error) -> St E -> list Event -> Prop) s :
  (forall e err es, (err = None -> es = registration name kind) -> Q (Val err) (mkSt (glob s) e) es) ->
  wp (add name kind p) Q s.
Proof.
  intros HQ. unfold add. wp_steps. apply wp_ask. intros [x|] e; (split; [done|]); wp_steps; [by apply HQ|].
  apply wp_ask. intros err e'. split; [done|]. apply HQ. done.
Qed.

Lemma AddToManager_run s :
  wp AddToManager (fun r s' es => exists err, r = Val err /\ glob s' = glob s /\ (err = None -> es = registrations)) s.
Proof.
  unfold AddToManager, AddToManagerFuncs, add_controller. cbn [for_range].
  do 4 (wp_steps; apply wp_add; intros ? [x|] es Hes; wp_steps; [by eexists|];
    specialize (Hes eq_refl); subst es).
  eexists. split; [done|]. split; [done|]. done.
Qed.
End registration.

(** ** Stages *)

(** Of main, up to the running manager. *)
Inductive stage := NewController | Configuring | Spawning | NewManager | Schemes | Controllers | Managing.

(** Of the goroutine of [SetupNotifServer]; [lis] says whether there is a
    listener. *)
Inductive notif_stage := NotStarted | PnClients | KubeClients | Listening | Registering (lis : bool)
  | Serving (lis : bool) | Ended.

Definition set_pnClientset b g := mkGlobals (runner g) (ovnConf g) (ovnCtl g) (notifServer g) b
  (kubeClientset g) (chainRoutingInfo g) (inSync g) (pnCreateStore g).
Definition set_kubeClientset b g := mkGlobals (runner g) (ovnConf g) (ovnCtl g) (notifServer g) (pnClientset g)
  b (chainRoutingInfo g) (inSync g) (pnCreateStore g).

Definition is_nil (err : option error) : bool := match err with None => true | Some _ => false end.

Section stages.
Context {E : Type} `{!ExecWorld E, !OperatorLibs E}.

(** The next stage, or the code of os.Exit. *)
Definition or_exit (err : option error) (next : stage) : stage + Z :=
  match err with Some _ => inr 1%Z | None => inl next end.

Definition main_stage (m : stage) : M E (stage + Z) :=
  match m with
  | NewController => err ← NewOvnController; mret (or_exit err Configuring)
  | Configuring => err ← prim config_GetConfig (fun _ => EQuery "GetConfig"); mret (or_exit err Spawning)
  | Spawning => mret (inl NewManager)
  | NewManager => err ← prim manager_New (fun _ => EQuery "manager.New"); mret (or_exit err Schemes)
  | Schemes => err ← prim AddToScheme (fun _ => EQuery "AddToScheme"); mret (or_exit err Controllers)
  | Controllers => err ← AddToManager; mret (or_exit err Managing)
  | Managing => mret (inl Managing)
  end.

(** Errors of the client sets and of the listener are logged only. *)
Definition setup_stage (n : notif_stage) : M E notif_stage :=
  match n with
  | PnClients =>
      err ← prim pn_NewForConfig (fun _ => EQuery "NewForConfig");
      mod_glob (set_pnClientset (is_nil err));; mret KubeClients
  | KubeClients =>
      err ← prim kube_NewForConfig (fun _ => EQuery "NewForConfig");
      mod_glob (set_kubeClientset (is_nil err));; mret Listening
  | Listening =>
      err ← prim (tcp_Listen ":50000") (fun _ => EQuery "Listen");
      mret (Registering (is_nil err))
  | Registering lis => mod_glob (set_notifServer (Some ∅));; mret (Serving lis)
  | NotStarted | Serving _ | Ended => mret n
  end.

(** What the goroutine runs when nothing comes in between. *)
Definition SetupNotifServer : M E notif_stage :=
  n ← setup_stage PnClients; n ← setup_stage n; n ← setup_stage n; setup_stage n.
End stages.

(** ** The process *)

Inductive op_process (E : Type) :=
| Up (main : stage) (notif : notif_stage) (s : St E)
| OpExited (code : Z)
| OpCrashed (why : string).
Arguments Up {E}.
Arguments OpExited {E}.
Arguments OpCrashed {E}.

(** What the manager's workers do: the reconcile of one request. *)
Inductive work := WNetwork (namespace name : string) | WProviderNetwork (namespace name : string)
  | WChain (namespace name : string) | WPod (namespace name : string).

Inductive op_action :=
| AMain | ASetup
| AWork (w : work)
| ASubscribe (sc : SubscribeContext) (ss : nat)
| AManagerEnds (err : option error)
| AServeEnds
| AOther.

Section process.
Context {E : Type} `{!ExecWorld E, !KubeWorld E, !NotifyWorld E, !ChainWorld E, !PodWorld E, !OperatorLibs E}.
Variable Decode : Json -> netInterface -> netInterface * option error.

Definition do_work (w : work) : M E () :=
  match w with
  | WNetwork ns n => ReconcileNetwork_Reconcile ns n;; mret ()
  | WProviderNetwork ns n => ReconcileProviderNetwork_Reconcile ns n;; mret ()
  | WChain ns n => ReconcileNetworkChaining_Reconcile ns n;; mret ()
  | WPod ns n => ReconcilePod_Reconcile Decode ns n;; mret ()
  end.

Definition spawned (m : stage) (n : notif_stage) : notif_stage :=
  match m with Spawning => PnClients | _ => n end.

(** A handler that panics takes the process with it; one that blocks leaves
    its goroutine behind. *)
Inductive op_step : op_process E -> op_action -> op_process E -> Prop :=
| op_main m n s m' s' es :
    m <> Managing -> main_stage m s = (Val (inl m'), s', es) ->
    op_step (Up m n s) AMain (Up m' (spawned m n) s')
| op_exit m n s c s' es :
    m <> Managing -> main_stage m s = (Val (inr c), s', es) -> op_step (Up m n s) AMain (OpExited c)
| op_main_panics m n s w s' es :
    m <> Managing -> main_stage m s = (Panic w, s', es) -> op_step (Up m n s) AMain (OpCrashed w)
| op_setup m n s n' s' es :
    setup_stage n s = (Val n', s', es) -> op_step (Up m n s) ASetup (Up m n' s')
| op_work n s w r s' es :
    do_work w s = (r, s', es) -> (forall why, r <> Panic why) ->
    op_step (Up Managing n s) (AWork w) (Up Managing n s')
| op_work_panics n s w why s' es :
    do_work w s = (Panic why, s', es) -> op_step (Up Managing n s) (AWork w) (OpCrashed why)
| op_subscribe m s sc ss r s' es :
    Subscribe sc ss s = (r, s', es) -> (forall why, r <> Panic why) ->
    op_step (Up m (Serving true) s) (ASubscribe sc ss) (Up m (Serving true) s')
| op_subscribe_panics m s sc ss why s' es :
    Subscribe sc ss s = (Panic why, s', es) ->
    op_step (Up m (Serving true) s) (ASubscribe sc ss) (OpCrashed why)
| op_manager_ends n s err :
    op_step (Up Managing n s) (AManagerEnds err) (OpExited (if is_nil err then 0%Z else 1%Z))
| op_serve_ends m lis s : op_step (Up m (Serving lis) s) AServeEnds (Up m Ended s)
| op_serve_nil m s why : op_step (Up m (Serving false) s) AServeEnds (OpCrashed why)
| op_other m n s e : op_step (Up m n s) AOther (Up m n (mkSt (glob s) e)).

Inductive op_runs (p : op_process E) : list op_action -> op_process E -> Prop :=
| op_runs_start : op_runs p [] p
| op_runs_step tr q a q' : op_runs p tr q -> op_step q a q' -> op_runs p (tr ++ [a]) q'.

Definition boot (s : St E) : op_process E := Up NewController NotStarted s.

(** ** What is there when *)

(** The tools are located, the default subnet is configured and the OVN
    controller is initialised. *)
Definition ovn_up (g : Globals) : Prop := exists h conf c,
  runner g = Some h /\ ovnConf g = Some conf /\ conf_Subnet conf <> "" /\ ovnCtl g = Some c.

Lemma ovn_up_grows g g' : grows g g' -> ovn_up g -> ovn_up g'.
Proof.
  intros [Hr Hc Ho _ _ _] (h & conf & c & H1 & H2 & H3 & H4). rewrite H4 in Ho.
  destruct Ho as (c' & Ho & _). exists h, conf, c'. by rewrite Hr, Hc.
Qed.

(** The notification server, once registered, is there for good. *)
Definition notif_ready (n : notif_stage) (g : Globals) : Prop :=
  match n with Serving _ | Ended => is_Some (notifServer g) | _ => True end.

Lemma notif_ready_grows n g g' : grows g g' -> notif_ready n g -> notif_ready n g'.
Proof.
  intros [_ _ _ Hn _ _]. destruct n; simpl; try done; intros [cl Hcl]; rewrite Hcl in Hn;
    destruct Hn as (cl' & -> & _); eauto.
Qed.

Definition early (m : stage) : bool :=
  match m with NewController | Configuring | Spawning => true | _ => false end.

Definition up_inv (m : stage) (n : notif_stage) (s : St E) : Prop :=
  (m <> NewController -> ovn_up (glob s)) /\ (early m = true -> n = NotStarted) /\ notif_ready n (glob s).

Lemma main_stage_up m s :
  let '(r, s', _) := main_stage m s in
  (m <> NewController -> grows (glob s) (glob s')) /\ (forall m', r = Val (inl m') -> m <> Managing ->
     (m = NewController -> ovn_up (glob s')) /\ m' <> NewController /\ (early m' = true -> early m = true /\ m <> Spawning)) /\
  (forall c, r = Val (inr c) -> c = 1%Z) /\ (forall w, r <> Panic w).
Proof.
  destruct m.
  - assert (H := NewOvnController_run s). simpl. unfold wp, mbind, M_bind in *.
    destruct (NewOvnController s) as [[r s1] es]. destruct H as (_ & err & -> & He).
    split; [done|]. destruct err as [x|]; simpl; (split; [|split; [|done]]); try by intros ? [= <-].
    intros m' [= <-] _. split; [|done]. intros _. destruct He as (Hc & h & conf & Hh & Hconf & Hs & _).
    exists h, conf. eauto.
  - simpl. unfold mbind, M_bind, prim. destruct (config_GetConfig (env s)) as [[x|] e]; simpl;
      (split; [done|]); (split; [|split; [|done]]); by intros ? [= <-].
  - simpl. split; [done|]. split; [|done]. by intros ? [= <-].
  - simpl. unfold mbind, M_bind, prim. destruct (manager_New (env s)) as [[x|] e]; simpl;
      (split; [done|]); (split; [|split; [|done]]); by intros ? [= <-].
  - simpl. unfold mbind, M_bind, prim. destruct (AddToScheme (env s)) as [[x|] e]; simpl;
      (split; [done|]); (split; [|split; [|done]]); by intros ? [= <-].
  - assert (H := AddToManager_run s). simpl. unfold wp, mbind, M_bind in *.
    destruct (AddToManager s) as [[r s1] es]. destruct H as (_ & err & -> & Hg & _).
    destruct err as [x|]; simpl; rewrite Hg; (split; [done|]); (split; [|split; [|done]]); by intros ? [= <-].
  - simpl. split; [done|]. split; [|done]. intros ? _ []. done.
Qed.

Definition op_inv (tr : list op_action) (p : op_process E) : Prop :=
  match p with
  | Up m n s => up_inv m n s
  | OpExited c => c = 0%Z /\ last tr = Some (AManagerEnds None) \/
      c = 1%Z /\ (last tr = Some AMain \/ exists e, last tr = Some (AManagerEnds (Some e)))
  | OpCrashed why => exists a, last tr = Some a /\
      match a with AWork _ | ASubscribe _ _ => True | AServeEnds => True | _ => False end
  end.

Lemma up_inv_grows m n s s' : grows (glob s) (glob s') -> up_inv m n s -> up_inv m n s'.
Proof.
  intros Hg (Ho & He & Hn). split; [|split; [done|]].
  - intros Hm. eapply ovn_up_grows; eauto.
  - by eapply notif_ready_grows.
Qed.

Lemma settles_do_work w : settles (do_work w).
Proof. destruct w; simpl; settle_tac. Qed.

Lemma main_stage_inv m n s m' s' es :
  m <> Managing -> up_inv m n s -> main_stage m s = (Val (inl m'), s', es) -> up_inv m' (spawned m n) s'.
Proof.
  intros Hm (Ho & He & Hn) Hst. assert (H := main_stage_up m s). rewrite Hst in H.
  destruct H as (Hg & Hv & _). destruct (Hv m' eq_refl Hm) as (Hup & Hm' & Hearly). split; [|split].
  - intros _. destruct m; first [by apply Hup|eapply ovn_up_grows; [by apply Hg|by apply Ho]].
  - intros H. destruct (Hearly H) as [Hem Hsp]. unfold spawned. destruct m; try done; by apply He.
  - destruct m; try done; simpl; try (eapply notif_ready_grows; [by apply Hg|done]).
    rewrite (He eq_refl). done.
Qed.

Lemma setup_stage_up n s :
  let '(r, s', _) := setup_stage n s in
  exists n', r = Val n' /\ (n = NotStarted -> n' = NotStarted) /\ (ovn_up (glob s) -> ovn_up (glob s')) /\
    (notif_ready n (glob s) -> notif_ready n' (glob s')).
Proof.
  destruct n; simpl; unfold mbind, M_bind, prim, mod_glob;
    [|destruct (pn_NewForConfig (env s))|destruct (kube_NewForConfig (env s))|destruct (tcp_Listen _ (env s))|..];
    simpl; eexists; (split; [done|]); (split; [done|]); (split; [by intros H|done || by eexists]).
Qed.

Lemma setup_stage_inv m n s n' s' es :
  up_inv m n s -> setup_stage n s = (Val n', s', es) -> up_inv m n' s'.
Proof.
  intros (Ho & He & Hn) Hst. assert (H := setup_stage_up n s). rewrite Hst in H.
  destruct H as (n2 & [= <-] & H1 & H2 & H3). split; [auto|]. split; auto.
Qed.

Lemma op_step_inv tr p a q : op_inv tr p -> op_step p a q -> op_inv (tr ++ [a]) q.
Proof.
  intros Hp Hs. destruct Hs as [m n s m' s' es Hm Hst|m n s c s' es Hm Hst|m n s w s' es Hm Hst|m n s n' s' es Hst
    |n s w r s' es Hst _|n s w why s' es Hst|m s sc ss r s' es Hst _|m s sc ss why s' es Hst|n s err|m lis s|m s why
    |m n s e]; simpl in *; rewrite ?last_snoc.
  - by eapply main_stage_inv.
  - right. assert (H := main_stage_up m s). rewrite Hst in H. destruct H as (_ & _ & H & _). eauto.
  - assert (H := main_stage_up m s). rewrite Hst in H. by destruct (proj2 (proj2 (proj2 H)) w).
  - by eapply setup_stage_inv.
  - eapply up_inv_grows; [|exact Hp]. assert (H := settles_do_work w s). by rewrite Hst in H.
  - by eexists.
  - eapply up_inv_grows; [|exact Hp]. assert (H := settles_Subscribe sc ss s). by rewrite Hst in H.
  - by eexists.
  - destruct err; simpl; [right|left]; eauto.
  - destruct Hp as (Ho & He & Hn). split; [done|]. split; [|done]. intros Hm. by specialize (He Hm).
  - by eexists.
  - exact Hp.
Qed.

Lemma op_runs_inv s tr p : op_runs (boot s) tr p -> op_inv tr p.
Proof.
  induction 1 as [|tr q a q' _ IH Hs]; [by split|by eapply op_step_inv].
Qed.

(** C7: whatever main, the goroutine of the notification server, the workers and
    the subscribers do, and however they interleave: requests are reconciled,
    and subscriptions accepted, only when the tools are located, the default
    network is configured and the OVN controller is initialised; while
    subscriptions are accepted the table of clients exists.  Start-up itself
    never panics: a failing step exits with code 1, and only the end of the
    manager without an error gives 0; the process dies only in a reconcile, in
    a subscription or serving without a listener. *)
Theorem operator_order s tr p :
  op_runs (boot s) tr p ->
  match p with
  | Up m n s' => (m = Managing \/ (exists lis, n = Serving lis) -> ovn_up (glob s')) /\
      ((exists lis, n = Serving lis) -> is_Some (notifServer (glob s')))
  | OpExited c => c = 0%Z /\ last tr = Some (AManagerEnds None) \/
      c = 1%Z /\ (last tr = Some AMain \/ exists e, last tr = Some (AManagerEnds (Some e)))
  | OpCrashed why => exists a, last tr = Some a /\
      match a with AWork _ | ASubscribe _ _ | AServeEnds => True | _ => False end
  end.
Proof.
  intros Hr. apply op_runs_inv in Hr. destruct p as [m n s'|c|why]; simpl in Hr; [|done|].
  - destruct Hr as (Ho & He & Hn). split; [|by intros [lis ->]].
    intros [->|[lis ->]]; apply Ho; [done|]. intros ->. by specialize (He eq_refl).
  - destruct Hr as (a & Ha & H). exists a. split; [done|]. by destruct a.
Qed.

(** ** Running the process *)

(** The step that an action makes, where the relation leaves no choice. *)
Definition running_manager (m : stage) : bool := match m with Managing => true | _ => false end.

Definition op_next (p : op_process E) (a : op_action) : option (op_process E) :=
  match p with
  | Up m n s =>
      match a with
      | AMain =>
          if running_manager m then None else
          match main_stage m s with
          | (Val (inl m'), s', _) => Some (Up m' (spawned m n) s')
          | (Val (inr c), _, _) => Some (OpExited c)
          | (Panic w, _, _) => Some (OpCrashed w)
          | (Block, _, _) => None
          end
      | ASetup => match setup_stage n s with (Val n', s', _) => Some (Up m n' s') | _ => None end
      | AWork w =>
          if running_manager m then
            match do_work w s with (Panic why, _, _) => Some (OpCrashed why) | (_, s', _) => Some (Up Managing n s') end
          else None
      | ASubscribe sc ss =>
          match n with
          | Serving true =>
              match Subscribe sc ss s with
              | (Panic why, _, _) => Some (OpCrashed why)
              | (_, s', _) => Some (Up m (Serving true) s')
              end
          | _ => None
          end
      | AManagerEnds err => if running_manager m then Some (OpExited (if is_nil err then 0%Z else 1%Z)) else None
      | AServeEnds => match n with Serving _ => Some (Up m Ended s) | _ => None end
      | AOther => Some p
      end
  | _ => None
  end.

Fixpoint op_exec (p : op_process E) (tr : list op_action) : option (op_process E) :=
  match tr with [] => Some p | a :: tr' => q ← op_next p a; op_exec q tr' end.

Lemma op_next_sound p a q : op_next p a = Some q -> op_step p a q.
Proof.
  destruct p as [m n s|c|w]; [|done|done].
  assert (Hm : running_manager m = true -> m = Managing) by (by destruct m).
  assert (Hm' : running_manager m = false -> m <> Managing) by (by intros ? ->).
  destruct a as [| |w|sc ss|err| |]; cbn [op_next].
  - destruct (running_manager m); [done|]. specialize (Hm' eq_refl).
    destruct (main_stage m s) as [[[[m'|c]|w|] s'] es] eqn:Hst; intros ?; simplify_eq; econstructor; eauto.
  - destruct (setup_stage n s) as [[[n'|w|] s'] es] eqn:Hst; intros ?; simplify_eq; econstructor; eauto.
  - destruct (running_manager m); [|done]. rewrite (Hm eq_refl).
    destruct (do_work w s) as [[[n'|w'|] s'] es] eqn:Hst; intros ?; simplify_eq; econstructor; eauto.
  - destruct n as [| | | | |[]|]; try done.
    destruct (Subscribe sc ss s) as [[[n'|w'|] s'] es] eqn:Hst; intros ?; simplify_eq; econstructor; eauto.
  - destruct (running_manager m); [|done]. rewrite (Hm eq_refl). intros ?; simplify_eq. constructor.
  - destruct n; try done; intros ?; simplify_eq; constructor.
  - intros ?; simplify_eq. destruct s. constructor.
Qed.

Lemma op_runs_cons p a q tr r : op_step p a q -> op_runs q tr r -> op_runs p (a :: tr) r.
Proof.
  intros Hs. induction 1 as [|tr q' b r' _ IH Hb].
  - change [a] with ([] ++ [a]). eapply op_runs_step; [constructor|done].
  - change (a :: tr ++ [b]) with ((a :: tr) ++ [b]). by eapply op_runs_step.
Qed.

Lemma op_exec_runs p tr q : op_exec p tr = Some q -> op_runs p tr q.
Proof.
  revert p. induction tr as [|a tr IH]; intros p; simpl; [intros [= ->]; constructor|].
  destruct (op_next p a) as [p'|] eqn:Hn; [|done]. intros H.
  eapply op_runs_cons; [by apply op_next_sound|by apply IH].
Qed.
End process.

(** ** An operator with one provider network *)

Definition boot_db : ExecWorld Z := {|
  run_cmd _ args n := (("", "", None), n);
  look_path file n := (file, None, n);
  getenv _ n := ("10.128.0.0/16", n);
  pause _ n := n;
  random n := (0%Z, n);
  map_picks n := ([], n)
|}.
Definition demo_libs : OperatorLibs Z := {|
  config_GetConfig n := (None, n); manager_New n := (None, n); AddToScheme n := (None, n);
  controller_New _ n := (None, n); controller_Watch _ _ _ n := (None, n);
  pn_NewForConfig n := (None, n); kube_NewForConfig n := (None, n); tcp_Listen _ n := (None, n)
|}.
Definition no_decode (_ : Json) (n : netInterface) : netInterface * option error := (n, None).

Definition demo_kube : KubeWorld Z := static_kube (demo_network []) (pn_live "") demo_nc.
Abbreviation demo_exec := (@op_exec Z boot_db demo_kube (demo_notify [] ([], None)) demo_pods
  (static_pod (demo_pod ∅) None) demo_libs no_decode).
Abbreviation demo_op_runs := (@op_runs Z boot_db demo_kube (demo_notify [] ([], None)) demo_pods
  (static_pod (demo_pod ∅) None) demo_libs no_decode).

Definition demo_boot : op_process Z := boot (mkSt initGlobals 0%Z).
Definition main_all : list op_action := replicate 6 AMain.
Definition first_pn : op_action := AWork (WProviderNetwork "default" "pn1").

(** The server is set up before the first request; a node subscribes. *)
Definition demo_orderly : list op_action := main_all ++ replicate 4 ASetup ++
  [first_pn; ASubscribe (Build_SubscribeContext "node1") 1; AManagerEnds None].

Example orderly_start : demo_exec demo_boot demo_orderly = Some (OpExited 0).
Proof. vm_compute. reflexivity. Qed.

(** The goroutine of [SetupNotifServer] is not waited for: a provider network
    that is reconciled before it has registered the server brings the operator
    down. *)
Lemma first_reconcile_races : demo_op_runs demo_boot (main_all ++ [first_pn]) (OpCrashed "nil pointer dereference").
Proof. apply op_exec_runs. vm_compute. reflexivity. Qed.

Lemma operator_order_witness : exists s',
  demo_op_runs demo_boot (main_all ++ replicate 4 ASetup ++ [first_pn]) (Up Managing (Serving true) s') /\
  ((Managing = Managing \/ (exists lis, Serving true = Serving lis) -> ovn_up (glob s')) /\
   ((exists lis, Serving true = Serving lis) -> is_Some (notifServer (glob s')))).
Proof.
  destruct (demo_exec demo_boot (main_all ++ replicate 4 ASetup ++ [first_pn])) as [q|] eqn:Hq;
    [|vm_compute in Hq; discriminate Hq].
  assert (Hup : match q with Up Managing (Serving true) _ => True | _ => False end).
  { vm_compute in Hq. injection Hq as <-. exact I. }
  apply op_exec_runs in Hq. destruct q as [[] [| | | | |[]|] s'|c|w]; try (destruct Hup; fail).
  exists s'. split; [exact Hq|].
  exact (@operator_order Z boot_db demo_kube (demo_notify [] ([], None)) demo_pods
    (static_pod (demo_pod ∅) None) demo_libs no_decode (mkSt initGlobals 0%Z) _ (Up Managing (Serving true) s') Hq).
Defined.
