(* ===== verification/Annotation.v ===== *)
(** * Annotation: what the operator writes on a pod is what the CNI server reads

    [AddLogicalPorts] (internal/pkg/ovn/ovn.go) prints the annotation with
    escaped quotes, [setPodAnnotation] (pod_controller.go) puts it inside a JSON
    patch, the API server decodes the patch, and [parseOvnNetworkObject]
    (internal/pkg/cniserver/cni.go) decodes the text that is left.  The theorem
    follows an annotation through these steps. *)

From S2P Require Import Prelude.
From S2P Require Import GoStrings.
From S2P Require Import GoNet.
From S2P Require Import Types.
From S2P Require Import World.
From S2P Require Import Runner.
From S2P Require Import Traces.
From S2P Require Import OvnCommon.
From S2P Require Import OvnController.
From S2P Require Import OvnNetworks.
From S2P Require Import OvnPorts.
From S2P Require Import Json.
From S2P Require Import PodController.
From S2P Require Import CniServer.
From Stdlib Require Import Ascii.

#[local] Open Scope string_scope.
#[local] Open Scope list_scope.

(** ** Text that JSON strings take as it is *)

Definition plain_char (c : ascii) : bool :=
  (0x20 <=? byte_val c)%Z && (byte_val c <? 0x80)%Z && negb (c == quot) && negb (c == bslash).
Definition plain (s : string) : bool := string_forall plain_char s.

(** Text that only needs its quotes escaped. *)
Definition quotable (s : string) : bool := string_forall (fun c => plain_char c || (c == quot)) s.

Fixpoint esc (s : string) : string :=
  match s with
  | String c s' => if c == quot then String bslash (String quot (esc s')) else String c (esc s')
  | EmptyString => ""
  end.

Lemma esc_app a b : esc (a +:+ b) = esc a +:+ esc b.
Proof. induction a as [|c a IH]; [done|]. simpl. case_match; simpl; by rewrite IH. Qed.

Lemma plain_char_spec c :
  plain_char c = true -> (0x20 <= byte_val c < 0x80)%Z /\ c <> quot /\ c <> bslash.
Proof.
  unfold plain_char. rewrite !andb_true_iff, !negb_true_iff, !bool_decide_eq_false.
  rewrite Z.leb_le, Z.ltb_lt. tauto.
Qed.

Lemma esc_plain s : plain s = true -> esc s = s.
Proof.
  unfold plain. induction s as [|c s IH]; [done|]. simpl. intros [Hc Hs]%andb_true_iff.
  apply plain_char_spec in Hc as (_ & Hq & _). rewrite bool_decide_eq_false_2 by done. by rewrite IH.
Qed.

Lemma quotable_plain s : plain s = true -> quotable s = true.
Proof.
  unfold plain, quotable. induction s as [|c s IH]; [done|]. simpl.
  intros [-> Hs]%andb_true_iff. by rewrite IH.
Qed.

Lemma quotable_app a b : quotable (a +:+ b) = quotable a && quotable b.
Proof. apply string_forall_app. Qed.

(** A literal made of quotable text is read back. *)
Lemma parse_chars_esc n t rest :
  quotable t = true -> String.length (esc t) < n ->
  parse_chars n (esc t +:+ String quot rest) = Some (t, rest).
Proof.
  unfold quotable. revert n. induction t as [|c t IH]; intros n Hq Hn.
  - destruct n; [simpl in Hn; lia|]. done.
  - simpl in Hq. apply andb_true_iff in Hq as [Hc Ht]. simpl in Hn |- *.
    destruct (bool_decide_reflect (c = quot)) as [->|Hne].
    + simpl in Hn. destruct n as [|n]; [lia|]. cbn [String.append parse_chars].
      change (bslash == quot) with false. change (bslash == bslash) with true. cbv iota.
      change (escape quot) with (Some quot). cbv iota. rewrite IH by (done || lia). done.
    + simpl in Hn. destruct n as [|n]; [lia|]. rewrite orb_false_r in Hc.
      apply plain_char_spec in Hc as (Hr & Hq & Hb). cbn [String.append parse_chars].
      rewrite !bool_decide_eq_false_2 by done.
      rewrite (proj2 (Z.ltb_ge _ _)), (proj2 (Z.ltb_lt _ _)) by lia.
      rewrite IH by (done || lia). done.
Qed.

Lemma parse_chars_plain n t rest :
  plain t = true -> String.length t < n -> parse_chars n (t +:+ String quot rest) = Some (t, rest).
Proof.
  intros Ht Hn. rewrite <- (esc_plain t Ht) at 1. apply parse_chars_esc; [by apply quotable_plain|].
  by rewrite esc_plain.
Qed.

(** ** Reading values *)

(** A quoted literal. *)
Definition lit (t : string) : string := dq +:+ t +:+ dq.

Lemma lit_app t rest : lit t +:+ rest = String quot (t +:+ String quot rest).
Proof. unfold lit, dq. by rewrite !append_assoc. Qed.

Lemma read_lit n t rest :
  quotable t = true -> String.length (esc t) + 1 < n ->
  parse_value n (lit (esc t) +:+ rest) = Some (JString t, rest).
Proof.
  intros Ht Hn. rewrite lit_app. destruct n as [|n]; [lia|]. cbn [parse_value skip_ws].
  change (is_ws quot) with false. cbv iota. change (quot == quot) with true. cbv iota.
  rewrite parse_chars_esc by (done || lia). done.
Qed.

(** A space in front of a value does not matter. *)
Lemma read_space n s : parse_value n (" " +:+ s) = parse_value n s.
Proof. by destruct n. Qed.

(** A member with a literal key: the value follows, then the end or the next
    member. *)
Lemma read_member n k v s r (more : bool) :
  plain k = true -> String.length k < n ->
  parse_value n s = Some (v, String (if more then "," else "}")%char r) ->
  parse_members (S n) (lit k +:+ ":" +:+ s) =
    if more then match parse_members n r with Some (l, r') => Some ((k, v) :: l, r') | None => None end
    else Some ([(k, v)], r).
Proof.
  intros Hk Hn Hv. rewrite lit_app. cbn [parse_members skip_ws]. change (is_ws quot) with false. cbv iota.
  cbn [eat]. change (quot == quot) with true. cbv iota.
  rewrite parse_chars_plain by done. cbn [String.append skip_ws].
  change (is_ws ":") with false. cbv iota. cbn [eat]. change (":" == ":")%char with true. cbv iota.
  rewrite Hv. by destruct more.
Qed.

Lemma read_object n k s ms r :
  parse_members n (lit k +:+ s) = Some (ms, r) ->
  parse_value (S n) ("{" +:+ lit k +:+ s) = Some (JObject ms, r).
Proof.
  rewrite lit_app. intros H. cbn [String.append parse_value skip_ws].
  change (is_ws "{") with false. cbv iota.
  change ("{" == quot)%char with false. change ("{" == "[")%char with false.
  change ("{" == "{")%char with true. cbv iota. cbn [skip_ws]. change (is_ws quot) with false. cbv iota.
  cbn [eat]. change (quot == "}")%char with false. cbv iota. by rewrite H.
Qed.

Lemma members_space n s : parse_members n (" " +:+ s) = parse_members n s.
Proof. by destruct n. Qed.

(** ** Objects of strings *)

(** The text of one member, and of a member list. *)
Definition member_text (kv : string * string) : string := lit kv.1 +:+ ":" +:+ lit kv.2.

(** A member of the annotation: white space around it, key and value. *)
Record member := { before : bool; inside : bool; mkey : string; mval : string }.
Definition sp (b : bool) : string := if b then " " else "".
Definition show_member (m : member) : string :=
  sp (before m) +:+ lit (mkey m) +:+ ":" +:+ sp (inside m) +:+ lit (mval m).
Definition plain_member (m : member) : bool := plain (mkey m) && plain (mval m).
Definition pair_of (m : member) : string * Json := (mkey m, JString (mval m)).

Fixpoint show_members (ms : list member) (rest : string) : string :=
  match ms with
  | [] => rest
  | [m] => show_member m +:+ "}" +:+ rest
  | m :: ms' => show_member m +:+ "," +:+ show_members ms' rest
  end.

Lemma length_lit t : String.length (lit t) = String.length t + 2.
Proof. unfold lit, dq. rewrite !length_append. simpl. lia. Qed.

Lemma read_members ms n rest :
  ms <> [] -> forallb plain_member ms = true -> String.length (show_members ms rest) < n ->
  parse_members n (show_members ms rest) = Some (map pair_of ms, rest).
Proof.
  revert n. induction ms as [|m ms IH]; intros n Hne Hp Hn; [done|].
  simpl in Hp. apply andb_true_iff in Hp as [[Hk Hv]%andb_true_iff Hms].
  destruct n as [|n]; [lia|].
  assert (Hread : forall c r, String.length (mval m) + 1 < n ->
    parse_value n (sp (inside m) +:+ lit (mval m) +:+ String c r) = Some (JString (mval m), String c r)).
  { intros c r Hl. unfold sp. destruct (inside m); [rewrite read_space|change ("" +:+ ?x) with x];
      rewrite <- (esc_plain (mval m)) at 1 by done; apply read_lit; rewrite ?esc_plain by done;
      auto using quotable_plain. }
  assert (Hsp : forall x, parse_members (S n) (sp (before m) +:+ x) = parse_members (S n) x)
    by (intros x; by destruct (before m)).
  destruct ms as [|m2 ms].
  - cbn [show_members] in Hn |- *. unfold show_member in Hn |- *.
    rewrite !length_append, !length_lit in Hn. simpl String.length in Hn. rewrite !append_assoc, Hsp.
    rewrite (read_member n (mkey m) (JString (mval m)) _ rest false); [done|done|lia|].
    apply Hread. lia.
  - change (show_members (m :: m2 :: ms) rest)
      with (show_member m +:+ "," +:+ show_members (m2 :: ms) rest) in Hn |- *.
    unfold show_member in Hn |- *. rewrite !length_append, !length_lit in Hn.
    change (String.length ":") with 1 in Hn. change (String.length ",") with 1 in Hn.
    rewrite !append_assoc, Hsp.
    rewrite (read_member n (mkey m) (JString (mval m)) _ (show_members (m2 :: ms) rest) true);
      [|done|lia|apply Hread; lia].
    rewrite IH; [done|done|done|lia].
Qed.

(** ** The annotation *)

Definition port_members (a : port_addrs) (asked : option string * string) : list member :=
  [ Build_member false false "ip_address" (pa_ip a +:+ "/" +:+ pa_mask a);
    Build_member true false "mac_address" (pa_mac a);
    Build_member true true "gateway_ip" (pa_gw a) ]
  ++ match asked.1 with Some g => [ Build_member false false "defaultGateway" g ] | None => [] end
  ++ [ Build_member false false "interface" asked.2 ].

Definition port_text (a : port_addrs) (asked : option string * string) (rest : string) : string :=
  "{" +:+ show_members (port_members a asked) rest.

(** The fields of a port whose text needs no escape. *)
Definition plain_port (a : port_addrs) (asked : option string * string) : bool :=
  plain (pa_ip a) && plain (pa_mask a) && plain (pa_mac a) && plain (pa_gw a)
  && plain (default "" asked.1) && plain asked.2.

Lemma plain_port_members a asked :
  plain_port a asked = true -> forallb plain_member (port_members a asked) = true.
Proof.
  unfold plain_port, port_members, plain_member. rewrite !andb_true_iff.
  intros (((((H1 & H2) & H3) & H4) & H5) & H6). destruct asked as [[g|] i]; cbn [fst snd default] in *;
    cbv [id] in *; cbn [app forallb mkey mval]; unfold plain in *;
    rewrite ?string_forall_app, ?H1, ?H2, ?H3, ?H4, ?H5, ?H6; reflexivity.
Qed.

Lemma read_port n a asked rest :
  plain_port a asked = true -> String.length (port_text a asked rest) < n ->
  parse_value n (port_text a asked rest) = Some (JObject (map pair_of (port_members a asked)), rest).
Proof.
  intros Hp Hn. destruct n as [|n]; [lia|]. unfold port_text in *.
  assert (Hm := read_members (port_members a asked) n rest ltac:(done) (plain_port_members _ _ Hp)
                  ltac:(rewrite length_append in Hn; change (String.length "{") with 1 in Hn; lia)).
  assert (Hs : exists s, show_members (port_members a asked) rest = lit "ip_address" +:+ s).
  { destruct asked as [[g|] i]; cbn [port_members app show_members fst]; unfold show_member;
      cbn [before inside mkey mval sp]; change ("" +:+ ?x) with x; rewrite !append_assoc; by eexists. }
  destruct Hs as [s Hs]. rewrite Hs in *. by apply read_object.
Qed.

(** The text of the whole annotation, as the CNI server gets it. *)
Fixpoint ports_text (addrs : list port_addrs) (reqs : list (option string * string)) : string :=
  match addrs, reqs with
  | [a], r :: _ => port_text a r "]"
  | a :: addrs', r :: reqs' => port_text a r ("," +:+ ports_text addrs' reqs')
  | _, _ => "]"
  end.
Definition annotation_text addrs reqs : string := "[" +:+ ports_text addrs reqs.

Definition plain_ports (addrs : list port_addrs) (reqs : list (option string * string)) : Prop :=
  Forall2 (fun a r => plain_port a r = true) addrs reqs.

Lemma port_text_open a r rest : exists s, port_text a r rest = String "{" s.
Proof. by eexists. Qed.

Lemma port_text_length a r rest : String.length rest < String.length (port_text a r rest).
Proof.
  unfold port_text. rewrite length_append. change (String.length "{") with 1.
  enough (String.length rest <= String.length (show_members (port_members a r) rest)) by lia.
  generalize (port_members a r) as ms. intros ms. induction ms as [|m [|m2 ms] IH]; [simpl; lia| |].
  - cbn [show_members]. rewrite !length_append. lia.
  - change (show_members (m :: m2 :: ms) rest) with (show_member m +:+ "," +:+ show_members (m2 :: ms) rest).
    rewrite !length_append. lia.
Qed.

Lemma read_ports addrs reqs n :
  addrs <> [] -> plain_ports addrs reqs -> String.length (ports_text addrs reqs) + 1 < n ->
  parse_elems n (ports_text addrs reqs) =
    Some (zip_with (fun a r => JObject (map pair_of (port_members a r))) addrs reqs, "").
Proof.
  intros Hne Hp. revert n Hne. induction Hp as [|a r addrs reqs Har Hp IH]; intros n Hne Hn; [done|].
  destruct n as [|n]; [lia|]. destruct Hp as [|a2 r2 addrs reqs Har2 Hp].
  - cbn [ports_text zip_with parse_elems] in *. rewrite read_port by (done || lia). done.
  - change (ports_text (a :: a2 :: addrs) (r :: r2 :: reqs))
      with (port_text a r ("," +:+ ports_text (a2 :: addrs) (r2 :: reqs))) in Hn |- *.
    assert (Hl := port_text_length a r ("," +:+ ports_text (a2 :: addrs) (r2 :: reqs))).
    rewrite length_append in Hl. change (String.length ",") with 1 in Hl.
    cbn [parse_elems]. rewrite read_port by (done || lia).
    cbn [String.append skip_ws]. change (is_ws ",") with false. cbv iota. cbn [eat].
    change ("," == ",")%char with true. cbv iota. rewrite IH by (done || lia). done.
Qed.

(** What a read annotation says of one interface. *)
Definition port_map (a : port_addrs) (asked : option string * string) : gmap string string :=
  <["interface" := asked.2]>
  (match asked.1 with Some g => <["defaultGateway" := g]> | None => id end
   (<["gateway_ip" := pa_gw a]> (<["mac_address" := pa_mac a]>
    (<["ip_address" := pa_ip a +:+ "/" +:+ pa_mask a]> ∅)))).

Lemma decode_port a r :
  decode_map (JObject (map pair_of (port_members a r))) = Some (port_map a r).
Proof. by destruct r as [[g|] i]. Qed.

Lemma decode_ports addrs reqs :
  mapM decode_map (zip_with (fun a r => JObject (map pair_of (port_members a r))) addrs reqs)
  = Some (zip_with port_map addrs reqs).
Proof.
  revert reqs. induction addrs as [|a addrs IH]; intros [|r reqs]; [done..|].
  cbn [zip_with]. apply mapM_Some. constructor; [apply decode_port|]. by apply mapM_Some.
Qed.

Lemma parse_annotation_text addrs reqs :
  addrs <> [] -> plain_ports addrs reqs ->
  parseOvnNetworkObject (annotation_text addrs reqs) = Some (zip_with port_map addrs reqs).
Proof.
  intros Hne Hp. unfold parseOvnNetworkObject. unfold annotation_text at 1.
  rewrite bool_decide_eq_false_2 by done. unfold Unmarshal_maps.
  set (N := S (2 * String.length (annotation_text addrs reqs))).
  rewrite (parse_json_fuel (S N)) by (unfold N; lia).
  assert (Hr := read_ports addrs reqs N Hne Hp
    ltac:(unfold N, annotation_text; rewrite length_append; change (String.length "[") with 1; lia)).
  assert (Hopen : exists s, ports_text addrs reqs = String "{" s).
  { destruct Hp as [|a r addrs reqs _ Hp]; [done|]. destruct Hp; apply port_text_open. }
  destruct Hopen as [s Hs]. clearbody N. unfold annotation_text. rewrite Hs in *.
  cbn [String.append parse_value skip_ws].
  change (is_ws "[") with false. cbv iota. change ("[" == quot)%char with false.
  change ("[" == "[")%char with true. cbv iota. cbn [skip_ws]. change (is_ws "{") with false. cbv iota.
  cbn [eat]. change ("{" == "]")%char with false. cbv iota.
  rewrite Hr. change (skip_ws "" == "") with true. cbv iota. apply decode_ports.
Qed.

(** ** The text that [AddLogicalPorts] prints *)

Lemma esc_dq : esc dq = bq.
Proof. done. Qed.

Lemma esc_lit t : plain t = true -> esc (lit t) = bq +:+ t +:+ bq.
Proof. intros Ht. unfold lit. by rewrite !esc_app, (esc_plain t) by done. Qed.

Lemma esc_port_text a r rest :
  plain_port a r = true -> esc (port_text a r rest) = render a r +:+ esc rest.
Proof.
  unfold plain_port. rewrite !andb_true_iff. intros (((((H1 & H2) & H3) & H4) & H5) & H6).
  unfold port_text, render, port_body, with_gateway, with_interface.
  destruct r as [[g|] i]; cbn [fst snd default] in *; cbv [id] in *.
  all: cbn [port_members app show_members fst snd]; unfold show_member, lit;
    cbn [before inside mkey mval sp]; change ("" +:+ ?x) with x;
    rewrite !esc_app, ?(esc_plain (pa_ip a)), ?(esc_plain (pa_mask a)), ?(esc_plain (pa_mac a)),
      ?(esc_plain (pa_gw a)), ?(esc_plain i), ?(esc_plain g), esc_dq by done.
  all: rewrite !append_assoc; reflexivity.
Qed.

Lemma esc_annotation addrs reqs :
  addrs <> [] -> plain_ports addrs reqs -> esc (annotation_text addrs reqs) = annotation addrs reqs.
Proof.
  intros Hne Hp. unfold annotation_text, annotation. rewrite esc_app. f_equal.
  induction Hp as [|a r addrs reqs Har Hp IH]; [done|].
  destruct Hp as [|a2 r2 addrs reqs Har2 Hp].
  - cbn [ports_text zip_with Join]. by rewrite esc_port_text by done.
  - change (ports_text (a :: a2 :: addrs) (r :: r2 :: reqs))
      with (port_text a r ("," +:+ ports_text (a2 :: addrs) (r2 :: reqs))).
    rewrite esc_port_text, esc_app, IH by done. cbn [zip_with].
    change (Join (render a r :: render a2 r2 :: zip_with render addrs reqs) ",")
      with (render a r +:+ "," +:+ Join (render a2 r2 :: zip_with render addrs reqs) ",").
    by rewrite !append_assoc.
Qed.

Lemma quotable_port_text a r rest :
  plain_port a r = true -> quotable (port_text a r rest) = quotable rest.
Proof.
  unfold plain_port. rewrite !andb_true_iff. intros (((((H1 & H2) & H3) & H4) & H5) & H6).
  apply quotable_plain in H1, H2, H3, H4, H5, H6. unfold port_text.
  destruct r as [[g|] i]; cbn [fst snd default] in *; cbv [id] in *.
  all: cbn [port_members app show_members fst snd]; unfold show_member, lit;
    cbn [before inside mkey mval sp]; rewrite !quotable_app, ?H1, ?H2, ?H3, ?H4, ?H5, ?H6; reflexivity.
Qed.

Lemma quotable_annotation addrs reqs :
  plain_ports addrs reqs -> quotable (annotation_text addrs reqs) = true.
Proof.
  intros Hp. unfold annotation_text. rewrite quotable_app. change (quotable "[") with true. cbn [andb].
  induction Hp as [|a r addrs reqs Har Hp IH]; [done|]. destruct Hp as [|a2 r2 addrs reqs Har2 Hp].
  - cbn [ports_text]. by rewrite quotable_port_text.
  - change (ports_text (a :: a2 :: addrs) (r :: r2 :: reqs))
      with (port_text a r ("," +:+ ports_text (a2 :: addrs) (r2 :: reqs))).
    by rewrite quotable_port_text, quotable_app, IH by done.
Qed.

(** An object with one member. *)
Lemma read_single n k v s r :
  plain k = true -> String.length k < n -> parse_value n s = Some (v, String "}" r) ->
  parse_value (S (S n)) ("{" +:+ lit k +:+ ":" +:+ s) = Some (JObject [(k, v)], r).
Proof.
  intros Hk Hn Hv. apply read_object. by rewrite (read_member n k v s r false).
Qed.

Lemma parse_patch key t :
  plain key = true -> quotable t = true ->
  parse_json (patch_text key (esc t)) =
    Some (JObject [("metadata", JObject [("annotations", JObject [(key, JString t)])])]).
Proof.
  intros Hk Ht.
  assert (Hp : patch_text key (esc t) = "{" +:+ lit "metadata" +:+ ":" +:+ "{" +:+ lit "annotations" +:+ ":"
    +:+ "{" +:+ lit key +:+ ":" +:+ lit (esc t) +:+ "}}}").
  { unfold patch_text, lit. rewrite !append_assoc. reflexivity. }
  set (n := String.length key + String.length (esc t) + 30 + 2 * String.length (patch_text key (esc t))).
  rewrite (parse_json_fuel (S (S (S (S (S (S n))))))) by lia. rewrite Hp.
  rewrite (read_single (S (S (S (S n)))) "metadata" (JObject [("annotations", JObject [(key, JString t)])]) _ "");
    [done|done|simpl; lia|].
  apply (read_single (S (S n)) "annotations" (JObject [(key, JString t)]) _ "}"); [done|simpl; lia|].
  apply (read_single n key (JString t) _ "}}"); [done|lia|].
  apply read_lit; [done|lia].
Qed.

(** ** Property *)

Lemma annotation_read addrs reqs :
  addrs <> [] -> plain_ports addrs reqs ->
  exists t,
    parse_json (patch_text Ovn4nfvAnnotationTag (annotation addrs reqs)) =
      Some (JObject [("metadata", JObject [("annotations", JObject [(Ovn4nfvAnnotationTag, JString t)])])]) /\
    parseOvnNetworkObject t = Some (zip_with port_map addrs reqs).
Proof.
  intros Hne Hp. exists (annotation_text addrs reqs). split; [|by apply parse_annotation_text].
  rewrite <- (esc_annotation addrs reqs) by done. apply parse_patch; [done|by apply quotable_annotation].
Qed.


