(* ===== verification/CniProps.v ===== *)
(** * CniProps: what the CNI server answers, and what it removes
    (internal/pkg/cniserver/cni.go) *)

From S2P Require Import Prelude.
From S2P Require Import GoStrings.
From S2P Require Import GoNet.
From S2P Require Import Types.
From S2P Require Import World.
From S2P Require Import History.
From S2P Require Import Sha1.
From S2P Require Import Runner.
From S2P Require Import Traces.
From S2P Require Import Safety.
From S2P Require Import OvnCommon.
From S2P Require Import OvnController.
From S2P Require Import OvnPorts.
From S2P Require Import IpTables.
From S2P Require Import Iface.
From S2P Require Import HelperLinux.
From S2P Require Import Json.
From S2P Require Import CniServer.
From S2P Require Import Annotation.
From S2P Require Import AgentProps.
From Stdlib Require Import Ascii.

#[local] Open Scope string_scope.
#[local] Open Scope list_scope.

(** [current.NewResultFromResult] keeps what a result says; only the version
    may change. *)
Class CniLaws (E : Type) `{!CniWorld E} := {
  new_result_from_law : forall r : CniResult, exists v,
    new_result_from r = inl (mkResult v (res_Interfaces r) (res_IPs r) (res_Routes r) (res_DNS r))
}.

(** ** Results *)
Section results.
Context {E : Type} `{!ExecWorld E, !LinkWorld E, !IPTWorld E, !RouteWorld E, !NodeWorld E, !CniWorld E,
  !CniLaws E}.
Variable MTU : Z.
Implicit Types s : St E.

(** A configured interface has its two ends: the host's and the container's. *)
Lemma ConfigureInterface_two a b c d e f g h i j k l m :
  returns (E:=E) (fun r => r.2 = None -> length r.1 = 2%nat) (ConfigureInterface a b c d e f g h i j k l m).
Proof.
  unfold ConfigureInterface. apply returns_bind_any. intros [x|]; [by apply returns_ret|].
  apply returns_bind_any. intros [ifs [x|]]; [by apply returns_ret|].
  apply returns_bind_any. intros [hostIface contIface].
  apply returns_bind_any. intros [out [x|]]; by apply returns_ret.
Qed.

(** The default gateway marks as the loop settles them. *)
Fixpoint gateways (ifName : string) (isDefaultGW : bool) (nets : list (gmap string string)) : list string :=
  match nets with
  | [] => []
  | net :: nets' =>
      let '(gw, b) := choose_gateway (at_key net "interface") ifName (at_key net "defaultGateway") isDefaultGW in
      gw :: gateways ifName b nets'
  end.
Fixpoint gateway_state (ifName : string) (isDefaultGW : bool) (nets : list (gmap string string)) : bool :=
  match nets with
  | [] => isDefaultGW
  | net :: nets' =>
      gateway_state ifName
        (choose_gateway (at_key net "interface") ifName (at_key net "defaultGateway") isDefaultGW).2 nets'
  end.

Lemma gateways_snoc ifName b nets net :
  gateways ifName b (nets ++ [net]) = gateways ifName b nets ++
    [(choose_gateway (at_key net "interface") ifName (at_key net "defaultGateway") (gateway_state ifName b nets)).1].
Proof.
  revert b. induction nets as [|n nets IH]; intros b; simpl.
  - by destruct (choose_gateway _ _ _ _).
  - destruct (choose_gateway (at_key n _) _ _ _) as [gw b'] eqn:Hc. simpl. by rewrite IH.
Qed.

Lemma gateway_state_snoc ifName b nets net :
  gateway_state ifName b (nets ++ [net]) =
    (choose_gateway (at_key net "interface") ifName (at_key net "defaultGateway") (gateway_state ifName b nets)).2.
Proof. revert b. induction nets as [|n nets IH]; intros b; simpl; [done|]. by rewrite IH. Qed.

(** The address that the result gives an interface. *)
Definition addressed (net : gmap string string) (ip : IPConfig) : Prop :=
  exists addr n, ParseCIDR (at_key net "ip_address") = Some (addr, n) /\
    ip_Address ip = {| net_ip := addr; net_mask := net_mask n |}.

(** The shape of a result for the networks [nets]. *)
Definition result_shape (ifName : string) (nets : list (gmap string string)) (res : CniResult) : Prop :=
  length (res_Interfaces res) = (2 * length nets)%nat /\
  map ip_Interface (res_IPs res) = map (fun k => Some (2 * Z.of_nat k + 1)%Z) (seq 0 (length nets)) /\
  Forall2 addressed nets (res_IPs res) /\
  length (res_Routes res) = length (filter (fun g => g = "true") (gateways ifName false nets)).

Lemma addressed_shift net ip k : addressed net ip -> addressed net (shift_ip k ip).
Proof.
  intros (addr & n & Hp & Ha). exists addr, n. split; [done|]. unfold shift_ip. by repeat case_match.
Qed.

Definition loop_shape (ifName : string) (dn : list (gmap string string)) (v : Z * bool * option CniResult) : Prop :=
  let '(_, b, res) := v in
  b = gateway_state ifName false dn /\
  match res with Some r => result_shape ifName dn r | None => dn = [] end.

(** One more interface. *)
Lemma merge_shape ifName dn net ifs addr n gw g b dst :
  loop_shape ifName dn (0%Z, b, dst) -> length ifs = 2%nat ->
  ParseCIDR (at_key net "ip_address") = Some (addr, n) ->
  g = (choose_gateway (at_key net "interface") ifName (at_key net "defaultGateway") b).1 ->
  exists res, mergeWithResult (E:=E) (interface_result ifs addr (net_mask n) gw g) dst = (Some res, None) /\
              result_shape ifName (dn ++ [net]) res.
Proof.
  intros [-> Hdst] Hifs Hp Hg. unfold mergeWithResult. set (src := interface_result _ _ _ _ _).
  assert (Hroutes : length (res_Routes src) = length (filter (fun g => g = "true") [g])).
  { subst src. simpl. case_bool_decide as Ht; [by rewrite Ht|]. by rewrite filter_cons_False. }
  assert (Haddr : forall i, Forall2 addressed [net] [shift_ip i (hd (Build_IPConfig "" None (Build_IPNet [] []) []) (res_IPs src))]).
  { intros i. constructor; [|constructor]. apply addressed_shift. by exists addr, n. }
  destruct dst as [r|].
  - destruct Hdst as (Hi & Hx & Ha & Hr).
    destruct (new_result_from_law src) as [v1 ->]. destruct (new_result_from_law r) as [v2 ->].
    cbn [res_Interfaces res_IPs res_Routes res_DNS]. eexists. split; [reflexivity|].
    unfold result_shape. cbn [res_Interfaces res_IPs res_Routes].
    rewrite !length_app, gateways_snoc, filter_app, <- Hg, length_app, Hr, <- Hroutes.
    split; [subst src; simpl; lia|]. split; [|split; [|done]].
    + rewrite map_app, Hx, seq_app, map_app. f_equal. subst src. simpl. do 2 f_equal. lia.
    + apply Forall2_app; [done|]. apply (Haddr (Z.of_nat (length (res_Interfaces r)))).
  - subst dn. eexists. split; [reflexivity|]. split; [|split; [|split]]; [by subst src|by subst src| |].
    + apply (Haddr (-1)%Z) || (constructor; [by exists addr, n|constructor]).
    + rewrite Hroutes. cbn [app gateways gateway_state] in *. rewrite (surjective_pairing (choose_gateway _ _ _ _)). by rewrite <- Hg.
Qed.

Lemma add_interface_shape cr ns pod dn net v :
  loop_shape (IfName cr) dn v ->
  returns (E:=E) (fun r => match r with
    | inl v' => loop_shape (IfName cr) (dn ++ [net]) v'
    | inr ret => ret = None
    end) (add_interface MTU cr ns pod net v).
Proof.
  destruct v as [[index b] dst]. intros HI. unfold add_interface.
  case_match; [by apply returns_ret|]. case_match; [by apply returns_ret|].
  destruct (choose_gateway _ _ _ _) as [g b'] eqn:Hc.
  eapply returns_bind; [apply ConfigureInterface_two|]. intros [ifs [x|]] Hifs; [by apply returns_ret|].
  specialize (Hifs eq_refl). destruct (ParseCIDR _) as [[addr n]|] eqn:Hp; [|by apply returns_ret].
  destruct (merge_shape (IfName cr) dn net ifs addr n (at_key net "gateway_ip") g b dst HI Hifs Hp)
    as (res & -> & Hres); [by rewrite Hc|].
  apply returns_ret. split; [|done]. destruct HI as [-> _]. by rewrite gateway_state_snoc, Hc.
Qed.

Lemma addMultipleInterfaces_shape cr annotation ns pod nets s res :
  parseOvnNetworkObject annotation = Some nets ->
  (addMultipleInterfaces MTU cr annotation ns pod s).1.1 = Val (Some res) ->
  result_shape (IfName cr) nets res.
Proof.
  intros Hparse. enough (H : returns (E:=E) (fun o => forall res, o = Some res -> result_shape (IfName cr) nets res)
    (addMultipleInterfaces MTU cr annotation ns pod)).
  { specialize (H s). destruct (addMultipleInterfaces _ _ _ _ _ s) as [[r s'] es]. simpl. intros ->. by eapply H. }
  unfold addMultipleInterfaces. rewrite Hparse. case_match; [by apply returns_ret|].
  eapply returns_bind.
  { apply (returns_for_range (loop_shape (IfName cr)) (fun ret => ret = None)); [done|].
    intros. by apply add_interface_shape. }
  intros [[[i b] dst]|ret].
  - intros [_ Hd]. apply returns_ret. by intros res' ->.
  - intros ->. by apply returns_ret.
Qed.

End results.

(** An annotation whose last interface, and no other, is the one that the
    operator adds on the default network. *)
Definition default_last (nets : list (gmap string string)) : Prop :=
  exists pre last, nets = pre ++ [last] /\ at_key last "interface" = "*" /\
    Forall (fun net => at_key net "interface" <> "*") pre.

Lemma choose_other i ifName g b :
  i <> "*" ->
  choose_gateway i ifName g b =
    (if (g == "true") && b then "false" else g, b || (g == "true")).
Proof.
  intros Hi. unfold choose_gateway. rewrite (bool_decide_eq_false_2 (i = "*")) by done. cbn [negb andb].
  destruct (g == "true"), b; done.
Qed.

Lemma count_others ifName b pre :
  Forall (fun net => at_key net "interface" <> "*") pre ->
  length (filter (fun g => g = "true") (gateways ifName b pre)) =
    (if negb b && gateway_state ifName b pre then 1 else 0)%nat /\
  (b = true -> gateway_state ifName b pre = true).
Proof.
  intros Hp. revert b. induction Hp as [|net pre Hn _ IH]; intros b; simpl; [by destruct b|].
  rewrite choose_other by done. cbn [snd].
  destruct (bool_decide_reflect (at_key net "defaultGateway" = "true")) as [Hg|Hg], b; cbn [andb orb].
  - rewrite filter_cons_False by done. by destruct (IH true).
  - rewrite Hg, filter_cons_True by done. destruct (IH true) as [IH1 IH2]. split; [|done].
    simpl. rewrite IH1, IH2 by done. done.
  - rewrite filter_cons_False by done. by destruct (IH true).
  - rewrite filter_cons_False by done. by destruct (IH false).
Qed.

(** For an annotation that the operator writes when it adds the default
    interface last, exactly one interface of a pod's eth0 request becomes the
    default gateway: the first that asks for it, or the default interface when
    none asks. *)
Lemma one_default_gateway nets :
  default_last nets -> length (filter (fun g => g = "true") (gateways "eth0" false nets)) = 1%nat.
Proof.
  intros (pre & last & -> & Hstar & Hpre). rewrite gateways_snoc, filter_app, length_app.
  destruct (count_others "eth0" false pre Hpre) as [-> _]. cbn [negb andb].
  unfold choose_gateway. rewrite Hstar. destruct (gateway_state "eth0" false pre); done.
Qed.

(** ** Removal *)
Section removal.
Context {E : Type} `{!ExecWorld E, !LinkWorld E, !IPTWorld E, !RouteWorld E, !NodeWorld E, !CniWorld E}.
Implicit Types s : St E.

Definition del_port_event (pre : string) (i : Z) (out : string) (err : option error) : Event :=
  ECmd "ovs-vsctl" ["del-port"; "br-int"; pre +:+ itoa i] out "" err.

(** An answer after which the loop goes on. *)
Definition tolerated (out : string) (err : option error) : bool :=
  negb (bool_decide (err <> None) && negb (Contains out "no port named")).

Lemma wp_delete_interface cr i s :
  (14 <= String.length (SandboxID cr))%nat ->
  wp (delete_interface cr i ()) (fun r s' es => glob s' = glob s /\ exists out err,
    es = [del_port_event (take_string 14 (SandboxID cr)) i out err] /\
    r = Val (if tolerated out err then inl () else inr ())) s.
Proof.
  intros Hlen. unfold delete_interface, slice_to. rewrite (proj2 (Nat.leb_le _ _)) by done.
  wp_steps. unfold PlatformSpecificCleanup, CombinedOutput, tolerated. wp_step. apply wp_ask.
  intros [out err] e'. split; [done|]. cbn [after].
  destruct (bool_decide (err <> None) && negb (Contains out "no port named")) eqn:Ht.
  - wp_steps. split; [done|]. exists out, err. by rewrite Ht.
  - wp_steps. split; [done|]. exists out, err. by rewrite Ht.
Qed.

Lemma wp_delete_interfaces cr l s :
  (14 <= String.length (SandboxID cr))%nat ->
  wp (for_range (delete_interface cr) l ()) (fun r s' es => glob s' = glob s /\
    exists answers,
      es = zip_with (fun i a => del_port_event (take_string 14 (SandboxID cr)) i a.1 a.2) l answers /\
      match r with
      | Val (inl _) => length answers = length l /\ forallb (fun a => tolerated a.1 a.2) answers = true
      | Val (inr _) => exists init a, answers = init ++ [a] /\ (length answers <= length l)%nat /\
          forallb (fun a => tolerated a.1 a.2) init = true /\ tolerated a.1 a.2 = false
      | _ => False
      end) s.
Proof.
  intros Hlen. revert s. induction l as [|i l IH]; intros s; cbn [for_range].
  { apply wp_ret. split; [done|]. by exists []. }
  wp_step. eapply wp_mono; [|by apply (wp_delete_interface cr i s)].
  intros r s1 es1 (Hg1 & out & err & -> & ->). cbn [after]. destruct (tolerated out err) eqn:Ht.
  - eapply wp_mono; [|apply (IH s1)]. intros r s2 es2 (Hg & answers & -> & H).
    split; [congruence|]. exists ((out, err) :: answers). split; [done|].
    destruct r as [[[]|[]]|w|]; [| |done..].
    + destruct H as [Hl Hf]. simpl. by rewrite Ht, Hl.
    + destruct H as (init & a & -> & Hl & Hf & Ha). exists ((out, err) :: init), a.
      split; [done|]. split; [simpl; lia|]. simpl. by rewrite Ht.
  - wp_steps. split; [done|]. exists [(out, err)]. split; [by destruct l|].
    exists [], (out, err). simpl. split; [done|]. split; [lia|]. done.
Qed.

(** a DEL request never fails and runs at most ten commands: the port
    of each index from 0 on, named by the first fourteen characters of the
    sandbox id, is removed until an answer is an error that does not say that
    the port is missing. *)
Theorem cmdDel_ports cr s :
  (14 <= String.length (SandboxID cr))%nat ->
  wp (cmdDel cr) (fun r s' es => r = Val ("", None) /\ glob s' = glob s /\
    exists answers, (length answers <= 10)%nat /\
      es = zip_with (fun i a => del_port_event (take_string 14 (SandboxID cr)) i a.1 a.2)
                    [0;1;2;3;4;5;6;7;8;9]%Z answers /\
      forallb (fun a => tolerated a.1 a.2) (removelast answers) = true /\
      ((length answers < 10)%nat -> exists a, last answers = Some a /\ tolerated a.1 a.2 = false)) s.
Proof.
  intros Hlen. unfold cmdDel. wp_step.
  eapply wp_mono; [|by apply (wp_delete_interfaces cr [0;1;2;3;4;5;6;7;8;9]%Z s Hlen)].
  intros r s' es (Hg & answers & -> & H). destruct r as [[[]|[]]|w|]; cbn [after]; [| |done..].
  - destruct H as [Hl Hf]. wp_steps. split; [done|]. split; [done|]. exists answers.
    split; [rewrite Hl; simpl; lia|]. split; [by rewrite app_nil_r|]. simpl in Hl. split; [|lia].
    clear Hl. induction answers as [|a [|a2 l] IH]; [done..|].
    cbn [forallb removelast] in *. apply andb_true_iff in Hf as [-> Hf]. by apply IH.
  - destruct H as (init & a & -> & Hl & Hf & Ha). wp_steps. split; [done|]. split; [done|].
    exists (init ++ [a]). split; [done|]. split; [by rewrite app_nil_r|].
    rewrite removelast_last. split; [done|]. intros _. exists a. by rewrite last_snoc.
Qed.
End removal.

(** ** A concrete server *)

Definition cni_links : LinkWorld Z := {| link_by_name _ e := (None, e); link_list e := ([], e) |}.

(** The condition is tried once: enough for runs whose pod is annotated. *)
Definition cni_world (pod : Pod) : CniWorld Z := {|
  new_result_from r := inl r;
  new_result _ := inl (mkResult "" [] [] [] zeroDns);
  marshal_result _ := inl "{}";
  unmarshal_netconf _ := inl {| CNIVersion := "0.3.1"; RawPrevResult := false; other_fields := "" |};
  parse_prev_result c := inl c;
  marshal_request _ := inl "";
  unmarshal_request _ := inl {| ArgEnv := ∅; NetConfig := "" |};
  show_request _ := "&{}";
  status_code _ := None;
  client_get_pod _ _ e := ((pod, None), e);
  environ e := ([], e);
  http_post _ e := (inl (200%Z, "{}", None), e);
  print_result _ _ e := (None, e);
  ExponentialBackoff L cond l :=
    '(ok, err, l) ← cond l;
    mret (if (ok : bool) then None else match err with Some e => Some e | None => Errorf "timed out" end, l)
|}.

Definition cni_laws pod : @CniLaws Z (cni_world pod).
Proof.
  refine (@Build_CniLaws Z (cni_world pod) _). intros r. exists (res_CNIVersion r).
  destruct r. reflexivity.
Defined.

Definition cni_ports : list port_addrs :=
  [ Build_port_addrs "10.1.0.5" "16" "0a:00:00:00:00:01" "10.1.0.1";
    Build_port_addrs "10.154.142.9" "18" "0a:00:00:00:00:02" "10.154.142.3" ].
Definition cni_text : string := annotation_text cni_ports [(Some "false", "net1"); (None, "*")].
Definition cni_nets : list (gmap string string) :=
  zip_with port_map cni_ports [(Some "false", "net1"); (None, "*")].
Definition cni_pod : Pod := demo_pod (<[ovn4nfvAnnotationTag := cni_text]> ∅).
Definition cni_request : CNIServerRequest := {|
  Command := "ADD"; PodNamespace := "default"; PodName := "pod1";
  SandboxID := "0123456789abcdef"; Netns := "/proc/1/ns/net"; IfName := "eth0";
  CNIConf := {| CNIVersion := "0.3.1"; RawPrevResult := false; other_fields := "" |} |}.

Definition cni_add := @addMultipleInterfaces Z node_exec cni_links node_routes node_rest (cni_world cni_pod)
  1400 cni_request cni_text "default" "pod1".

Definition cni_result : CniResult := {|
  res_CNIVersion := "";
  res_Interfaces :=
    [ {| if_Name := "0123456789abcd1"; if_Mac := ""; if_Sandbox := "" |};
      {| if_Name := "eth0"; if_Mac := "0a:00:00:00:00:01"; if_Sandbox := "/proc/1/ns/net" |};
      {| if_Name := "0123456789abcd2"; if_Mac := ""; if_Sandbox := "" |};
      {| if_Name := "eth0"; if_Mac := "0a:00:00:00:00:02"; if_Sandbox := "/proc/1/ns/net" |} ];
  res_IPs :=
    [ {| ip_Version := "4"; ip_Interface := Some 1%Z;
         ip_Address := {| net_ip := v4InV6Prefix ++ [10;1;0;5]%Z; net_mask := CIDRMask 16 4 |};
         ip_Gateway := v4InV6Prefix ++ [10;1;0;1]%Z |};
      {| ip_Version := "4"; ip_Interface := Some 3%Z;
         ip_Address := {| net_ip := v4InV6Prefix ++ [10;154;142;9]%Z; net_mask := CIDRMask 18 4 |};
         ip_Gateway := v4InV6Prefix ++ [10;154;142;3]%Z |} ];
  res_Routes := [ {| cr_Dst := zero_net; cr_GW := v4InV6Prefix ++ [10;154;142;3]%Z |} ];
  res_DNS := zeroDns
|}.


Lemma one_default_gateway_witness :
  length (filter (fun g => g = "true") (gateways "eth0" false cni_nets)) = 1%nat /\
  gateways "eth0" false cni_nets = ["false"; "true"].
Proof.
  split; [|vm_compute; reflexivity]. apply one_default_gateway.
  exists (take 1 cni_nets), (nth 1 cni_nets ∅). split; [reflexivity|].
  split; [reflexivity|]. constructor; [|constructor]. discriminate.
Defined.

Lemma cmdDel_ports_witness :
  let run := @cmdDel Z node_rest cni_request in
  wp run (fun r s' es => r = Val ("", None) /\ glob s' = glob node_start /\
      exists answers, (length answers <= 10)%nat /\
        es = zip_with (fun i a => del_port_event (take_string 14 (SandboxID cni_request)) i a.1 a.2)
                      [0;1;2;3;4;5;6;7;8;9]%Z answers /\
        forallb (fun a => tolerated a.1 a.2) (removelast answers) = true /\
        ((length answers < 10)%nat -> exists a, last answers = Some a /\ tolerated a.1 a.2 = false)) node_start /\
  length (run node_start).2 = 10%nat.
Proof.
  split; [|vm_compute; reflexivity].
  apply (@cmdDel_ports Z node_rest cni_request node_start). vm_compute. lia.
Defined.
