(* ===== verification/CniWait.v ===== *)
(** * CniWait: the wait of [cmdAdd] for the pod's annotation (cniserver/cni.go)

    [wait.ExponentialBackoff] is the library's; [BackoffLaws] states what its
    documentation says of a back-off with fourteen steps, and [cmdAdd] is shown
    to read the pod at most fourteen times. *)

From S2P Require Import Prelude.
From S2P Require Import GoStrings.
From S2P Require Import Types.
From S2P Require Import World.
From S2P Require Import Runner.
From S2P Require Import IpTables.
From S2P Require Import Iface.
From S2P Require Import OvnCommon.
From S2P Require Import OvnNetworks.
From S2P Require Import OvnPorts.
From S2P Require Import HelperLinux.
From S2P Require Import AgentProps.
From S2P Require Import CniServer.
From S2P Require Import CniProps.

#[local] Open Scope string_scope.
#[local] Open Scope list_scope.

(** [wait.ErrWaitTimeout]. *)
Definition ErrWaitTimeout : error := ErrorString "timed out waiting for the condition".

(** [annotationBackoff.Steps]. *)
Definition annotationSteps : nat := 14.

Section waits.
Context {E L : Type} (cond : L -> M E (bool * option error * L)).

(** A wait with so many checks left: it ends at the first check that is true or
    fails, with the time-out after the last one, and time passes between two
    checks. *)
Inductive waits : nat -> L -> St E -> option error * L -> St E -> list Event -> Prop :=
| waits_done n l s l' s' es :
    cond l s = (Val (true, None, l'), s', es) -> waits (S n) l s (None, l') s' es
| waits_error n l s b x l' s' es :
    cond l s = (Val (b, Some x, l'), s', es) -> waits (S n) l s (Some x, l') s' es
| waits_timeout l s l' s' es :
    cond l s = (Val (false, None, l'), s', es) -> waits 1 l s (Some ErrWaitTimeout, l') s' es
| waits_again n l s l1 s1 es1 e a s' es :
    cond l s = (Val (false, None, l1), s1, es1) -> waits (S n) l1 (mkSt (glob s1) e) a s' es ->
    waits (S (S n)) l s a s' (es1 ++ es).
End waits.

(** The library, for conditions that return. *)
Class BackoffLaws (E : Type) `{!CniWorld E} :=
  backoff_waits L (cond : L -> M E (bool * option error * L)) l s :
    (forall l s, exists a s' es, cond l s = (Val a, s', es)) ->
    exists a s' es, ExponentialBackoff L cond l s = (Val a, s', es) /\
      waits cond annotationSteps l s a s' es.

Section cmdAdd.
Context {E : Type} `{!ExecWorld E, !LinkWorld E, !RouteWorld E, !NodeWorld E, !CniWorld E,
  !BackoffLaws E}.
Variable MTU : Z.

(** What [cmdAdd] does once it has the annotations. *)
Definition cmdAdd_answer (cr : CNIServerRequest) (annotation : gmap string string) : M E (string * option error) :=
  match annotation !! ovn4nfvAnnotationTag with
  | None => mret ("", Errorf "Error while obtaining pod annotations")
  | Some ovnAnnotation =>
      result ← addMultipleInterfaces MTU cr ovnAnnotation (PodNamespace cr) (PodName cr);
      result ← match annotation !! "ovnNetworkRoutes" with
               | Some ovnRouteAnnotation => addRoutes cr ovnRouteAnnotation result
               | None => mret result
               end;
      match result with
      | None => mret ("", Errorf "result is nil from cni server response")
      | Some result =>
          match marshal_result result with
          | inr e => mret ("", Errorf ("failed to marshal pod request response: " +:+ Error e))
          | inl responseBytes => mret (responseBytes, None)
          end
      end
  end.

Definition ready_answer (a : Pod * option error) : bool * option error * gmap string string :=
  match a.2 with
  | Some e => if isNotFoundError e then (false, Errorf ("Error - pod not found - " +:+ Error e), ∅)
              else (false, None, ∅)
  | None => (bool_decide (is_Some (Annotations a.1 !! ovn4nfvAnnotationTag)), None, Annotations a.1)
  end.

(** One check reads the pod once. *)
Lemma ready_run namespace podname l (s : St E) :
  annotation_ready namespace podname l s =
    let '(a, e') := client_get_pod namespace podname (env s) in
    (Val (ready_answer a), mkSt (glob s) e', [EQuery "Get"]).
Proof.
  unfold annotation_ready, GetAnnotationsOnPod, mbind, M_bind, prim, ready_answer.
  destruct (client_get_pod _ _ _) as [[pod [x|]] e']; cbn; [|done]. by destruct (isNotFoundError x).
Qed.

(** What the wait ends with, after [j] reads of [n]. *)
Definition waited (namespace podname : string) (n j : nat) (err : option error) (annotation : gmap string string) : Prop :=
  match err with
  | None => is_Some (annotation !! ovn4nfvAnnotationTag) /\
      exists e pod e', client_get_pod namespace podname e = ((pod, None), e') /\ annotation = Annotations pod
  | Some x =>
      (exists e pod y e', client_get_pod namespace podname e = ((pod, Some y), e') /\
         isNotFoundError y = true /\ x = ErrorString ("Error - pod not found - " +:+ Error y)) \/
      (x = ErrWaitTimeout /\ j = n)
  end.

Lemma waits_ready namespace podname n l s a s' es :
  waits (annotation_ready namespace podname) n l s a s' es ->
  glob s' = glob s /\ exists j, (1 <= j <= n)%nat /\ es = repeat (EQuery "Get") j /\
    waited namespace podname n j a.1 a.2.
Proof.
  induction 1 as [n l s l' s' es Hc|n l s b x l' s' es Hc|l s l' s' es Hc
    |n l s l1 s1 es1 e a s' es Hc _ (Hg & j & Hj & -> & Hw)];
    rewrite ready_run in Hc; destruct (client_get_pod _ _ _) as [[pod err] e1] eqn:Hget; injection Hc as Ha <- <-.
  - split; [done|]. exists 1%nat. split; [lia|]. split; [done|]. cbn.
    unfold ready_answer in Ha. cbn in Ha. destruct err as [y|]; [by destruct (isNotFoundError y)|].
    injection Ha as Hb <-. apply bool_decide_eq_true in Hb. eauto 6.
  - split; [done|]. exists 1%nat. split; [lia|]. split; [done|]. left.
    unfold ready_answer in Ha. cbn in Ha. destruct err as [y|]; [|done].
    destruct (isNotFoundError y) eqn:Hy; [|done]. injection Ha as <- <- <-. eauto 8.
  - split; [done|]. exists 1%nat. split; [lia|]. split; [done|]. by right.
  - cbn [glob] in Hg. split; [done|]. exists (S j). split; [lia|]. split; [done|].
    unfold waited in *. destruct a.1 as [x|]; [|done]. destruct Hw as [Hw|[-> ->]]; [by left|by right].
Qed.

Lemma cmdAdd_unfold cr :
  cmdAdd MTU cr =
  if (PodNamespace cr == "") || (PodName cr == "") then mret ("", Errorf "required CNI variable missing") else
  '(err, annotation) ← ExponentialBackoff _ (annotation_ready (PodNamespace cr) (PodName cr)) ∅;
  match err with Some e => mret ("", Errorf ("failed to get pod annotation - " +:+ Error e)) | None =>
    cmdAdd_answer cr annotation end.
Proof. reflexivity. Qed.

(** ** Properties *)

(** C38: [cmdAdd] reads the pod at least once and at most fourteen times.  It fails
    before it touches the node when the pod is not found, or when fourteen reads
    have shown no annotation; otherwise it goes on, once, with the annotations
    of a pod that the API server returned, and that pod has the annotation. *)
Theorem cmdAdd_waits cr (s : St E) :
  PodNamespace cr <> "" -> PodName cr <> "" ->
  exists j err annotation s1 r s' es, (1 <= j <= 14)%nat /\
    waited (PodNamespace cr) (PodName cr) 14 j err annotation /\ glob s1 = glob s /\
    cmdAdd MTU cr s = (r, s', repeat (EQuery "Get") j ++ es) /\
    match err with
    | Some x => r = Val ("", Errorf ("failed to get pod annotation - " +:+ Error x)) /\ s' = s1 /\ es = []
    | None => cmdAdd_answer cr annotation s1 = (r, s', es)
    end.
Proof.
  intros Hns Hpn. rewrite cmdAdd_unfold, !bool_decide_eq_false_2 by done. cbn [orb].
  destruct (backoff_waits _ (annotation_ready (PodNamespace cr) (PodName cr)) ∅ s)
    as ([err annotation] & s1 & es1 & Hb & (Hg & j & Hj & -> & Hw)%waits_ready).
  { intros l s2. rewrite ready_run. destruct (client_get_pod _ _ _) as [a e']. eauto. }
  cbn [fst snd] in Hw. exists j, err, annotation, s1.
  assert (Hrun : forall k : option error * gmap string string -> M E (string * option error),
    (ExponentialBackoff _ (annotation_ready (PodNamespace cr) (PodName cr)) ∅ ≫= k) s =
    (let '(r, s2, e2) := k (err, annotation) s1 in (r, s2, repeat (EQuery "Get") j ++ e2)))
    by (intros k; unfold mbind, M_bind; by rewrite Hb).
  rewrite Hrun. destruct err as [x|].
  - do 3 eexists. split; [done|]. split; [done|]. split; [done|]. split; [done|]. done.
  - destruct (cmdAdd_answer cr annotation s1) as [[r s2] es2].
    do 3 eexists. split; [done|]. split; [done|]. split; [done|]. split; [done|]. done.
Qed.
End cmdAdd.

(** ** A concrete wait *)

(** The library's loop, with [n] checks; time is not counted. *)
Fixpoint backoff {E L} (n : nat) (cond : L -> M E (bool * option error * L)) (l : L) : M E (option error * L) :=
  match n with
  | O => mret (Some ErrWaitTimeout, l)
  | S n' =>
      '(ok, err, l) ← cond l;
      match err with
      | Some _ => mret (err, l)
      | None => if (ok : bool) then mret (None, l) else backoff n' cond l
      end
  end.

Lemma backoff_step {E L} n (cond : L -> M E (bool * option error * L)) l s ok err l1 s1 es1 :
  cond l s = (Val (ok, err, l1), s1, es1) ->
  backoff (S n) cond l s =
    match err with
    | Some _ => (Val (err, l1), s1, es1)
    | None => if ok then (Val (None, l1), s1, es1)
              else let '(r, s2, es2) := backoff n cond l1 s1 in (r, s2, es1 ++ es2)
    end.
Proof.
  intros Hc. cbn [backoff]. unfold mbind, M_bind. rewrite Hc.
  destruct err; [|destruct ok]; cbn; by rewrite ?app_nil_r.
Qed.

Lemma backoff_loop {E L} n (cond : L -> M E (bool * option error * L)) l s :
  (forall l s, exists a s' es, cond l s = (Val a, s', es)) ->
  exists a s' es, backoff (S n) cond l s = (Val a, s', es) /\ waits cond (S n) l s a s' es.
Proof.
  intros Htot. revert l s. induction n as [|n IH]; intros l s;
    destruct (Htot l s) as ([[ok err] l1] & s1 & es1 & Hc); rewrite (backoff_step _ _ _ _ _ _ _ _ _ Hc);
    (destruct err as [x|]; [do 3 eexists; split; [done|]; by eapply waits_error|]);
    (destruct ok; [do 3 eexists; split; [done|]; by apply waits_done|]).
  - cbn. rewrite app_nil_r. do 3 eexists. split; [done|]. by apply waits_timeout.
  - destruct (IH l1 s1) as (a & s' & es & Hb & Hw). rewrite Hb. do 3 eexists. split; [done|].
    destruct s1. eapply waits_again; [exact Hc|exact Hw].
Qed.

(** An API server whose pod has its annotation after [e] more reads. *)
Definition late_world (pod : Pod) : CniWorld Z :=
  let w := cni_world pod in {|
  new_result_from := @new_result_from Z w;
  new_result := @new_result Z w;
  marshal_result := @marshal_result Z w;
  unmarshal_netconf := @unmarshal_netconf Z w;
  parse_prev_result := @parse_prev_result Z w;
  marshal_request := @marshal_request Z w;
  unmarshal_request := @unmarshal_request Z w;
  show_request := @show_request Z w;
  status_code := @status_code Z w;
  client_get_pod _ _ e := if decide (e <= 0)%Z then ((pod, None), 0%Z) else ((demo_pod ∅, None), (e - 1)%Z);
  environ := @environ Z w;
  http_post := @http_post Z w;
  print_result := @print_result Z w;
  ExponentialBackoff L := backoff annotationSteps
|}.

Definition late_backoff pod : @BackoffLaws Z (late_world pod) := fun L cond l s => backoff_loop 13 cond l s.

Definition late_add := @cmdAdd Z node_exec cni_links node_routes node_rest (late_world cni_pod)
  1400 cni_request.

(** Three reads when the annotation takes two; the time-out after fourteen. *)
Lemma cmdAdd_waits_witness :
  (exists j err annotation s1 r s' es, (1 <= j <= 14)%nat /\
    @waited Z (late_world cni_pod) "default" "pod1" 14 j err annotation /\ glob s1 = glob (mkSt (glob node_start) 2%Z) /\
    late_add (mkSt (glob node_start) 2%Z) = (r, s', repeat (EQuery "Get") j ++ es) /\
    match err with
    | Some x => r = Val ("", Errorf ("failed to get pod annotation - " +:+ Error x)) /\ s' = s1 /\ es = []
    | None => @cmdAdd_answer Z node_exec cni_links node_routes node_rest (late_world cni_pod)
                1400 cni_request annotation s1 = (r, s', es)
    end) /\
  (late_add (mkSt (glob node_start) 2%Z)).1.1 = Val ("{}", None) /\
  late_add (mkSt (glob node_start) 20%Z) =
    (Val ("", Errorf "failed to get pod annotation - timed out waiting for the condition"),
     mkSt (glob node_start) 6%Z, repeat (EQuery "Get") 14).
Proof.
  split; [|split; vm_compute; reflexivity].
  apply (@cmdAdd_waits Z node_exec cni_links node_routes node_rest (late_world cni_pod)
    (late_backoff cni_pod) 1400 cni_request (mkSt (glob node_start) 2%Z)); discriminate.
Defined.
