(* ===== verification/PodToCni.v ===== *)
(** * PodToCni: from a pod's request to the interfaces in its namespace

    Two processes again: the operator reconciles the pod (pod_controller.go,
    ovn.go) and writes the annotation; the API server merges the patch; the CNI
    server of the node (cni.go) reads the annotation and plugs the interfaces.
    The theorem follows one pod through all of them. *)

From S2P Require Import Prelude.
From S2P Require Import GoStrings.
From S2P Require Import GoNet.
From S2P Require Import Types.
From S2P Require Import World.
From S2P Require Import Runner.
From S2P Require Import Traces.
From S2P Require Import OvnCommon.
From S2P Require Import OvnController.
From S2P Require Import OvnNetworks.
From S2P Require Import OvnPorts.
From S2P Require Import IpTables.
From S2P Require Import Iface.
From S2P Require Import HelperLinux.
From S2P Require Import Json.
From S2P Require Import AgentProps.
From S2P Require Import PodController.
From S2P Require Import CniServer.
From S2P Require Import Annotation.
From S2P Require Import CniProps.
From Stdlib Require Import Ascii.

#[local] Open Scope string_scope.
#[local] Open Scope list_scope.

(** The value that a merge patch gives to the annotation [k]. *)
Definition merged_annotation (k patch : string) : option string :=
  match parse_json patch with
  | Some (JObject [("metadata", JObject [("annotations", JObject [(k', JString t)])])]) =>
      if k' == k then Some t else None
  | _ => None
  end.

(** The annotation that the operator writes when the default network is added:
    one map per request, the one of the default interface last. *)
Lemma at_port_interface a r : at_key (port_map a r) "interface" = r.2.
Proof. unfold at_key, port_map. by rewrite lookup_insert_eq. Qed.

Lemma at_port_address a r : at_key (port_map a r) "ip_address" = pa_ip a +:+ "/" +:+ pa_mask a.
Proof. by destruct r as [[g|] i]. Qed.

Lemma default_last_ports addrs pre :
  length addrs = S (length pre) -> Forall (fun r : option string * string => r.2 <> "*") pre ->
  default_last (zip_with port_map addrs (pre ++ [(None, "*")])).
Proof.
  intros Hl Hpre. destruct (exists_last (l := addrs)) as (ads & a & ->); [by destruct addrs|].
  rewrite length_app, Nat.add_1_r in Hl. injection Hl as Hl.
  rewrite zip_with_app by done. exists (zip_with port_map ads pre), (port_map a (None, "*")).
  split; [done|]. split; [apply at_port_interface|].
  clear a. revert ads Hl. induction Hpre as [|r pre Hr _ IH]; intros [|a ads] Hl; try done.
  constructor; [by rewrite at_port_interface|]. apply IH. simpl in Hl. lia.
Qed.

Section pod_to_cni.
Context {EO : Type} `{!ExecWorld EO, !PodWorld EO}.
Variable Decode : Json -> netInterface -> netInterface * option error.
Context {EN : Type} `{!ExecWorld EN, !LinkWorld EN, !IPTWorld EN, !RouteWorld EN, !NodeWorld EN,
  !CniWorld EN, !CniLaws EN}.
Variable MTU : Z.

(** The interfaces that a pod asks for, the default one included. *)
Definition pod_requests (pod : Pod) : list (option string * string) :=
  requested Decode (nfn_Interface (asked_for pod)).

(** The pod names its interfaces itself, none of them with the mark of the
    default interface. *)
Definition default_added (pod : Pod) : Prop :=
  asks_default Decode (nfn_Interface (asked_for pod)) = false /\
  Forall (fun ns => Interface ns <> "*") (decode_all Decode zeroNetInterface (nfn_Interface (asked_for pod))).

(** What a CNI result says for the requests [reqs] and the addresses [addrs]
    that OVN gave: two interfaces per request, with the address of the request
    on the container's end; and one default route when the default interface
    was added. *)
Definition serves (pod : Pod) (addrs : list port_addrs) (ifName : string) (res : CniResult) : Prop :=
  length (res_Interfaces res) = (2 * length (pod_requests pod))%nat /\
  map ip_Interface (res_IPs res) =
    map (fun k => Some (2 * Z.of_nat k + 1)%Z) (seq 0 (length (pod_requests pod))) /\
  Forall2 (fun a ip => exists addr n, ParseCIDR (pa_ip a +:+ "/" +:+ pa_mask a) = Some (addr, n) /\
             ip_Address ip = {| net_ip := addr; net_mask := net_mask n |}) addrs (res_IPs res) /\
  (default_added pod -> ifName = "eth0" -> length (res_Routes res) = 1%nat).

(** Every CNI request that reads the annotation [t] and gets a result. *)
Definition cni_serves (pod : Pod) (addrs : list port_addrs) (t : string) : Prop :=
  forall cr ns name (s : St EN) res,
    (addMultipleInterfaces MTU cr t ns name s).1.1 = Val (Some res) -> serves pod addrs (IfName cr) res.

Lemma addressed_ports addrs reqs ips :
  length addrs = length reqs -> Forall2 addressed (zip_with port_map addrs reqs) ips ->
  Forall2 (fun a ip => exists addr n, ParseCIDR (pa_ip a +:+ "/" +:+ pa_mask a) = Some (addr, n) /\
             ip_Address ip = {| net_ip := addr; net_mask := net_mask n |}) addrs ips.
Proof.
  revert reqs ips. induction addrs as [|a addrs IH]; intros [|r reqs] ips Hl; try done.
  - intros H. inversion H. constructor.
  - cbn [zip_with]. intros (ip & ips' & Ha & Hrest & ->)%Forall2_cons_inv_l. constructor.
    + destruct Ha as (addr & n & Hp & Hi). exists addr, n. split; [|done].
      by rewrite at_port_address in Hp.
    + apply (IH reqs); [simpl in Hl; lia|done].
Qed.

Lemma shape_serves pod addrs ifName res :
  length addrs = length (pod_requests pod) ->
  result_shape ifName (zip_with port_map addrs (pod_requests pod)) res -> serves pod addrs ifName res.
Proof.
  intros Hl (Hi & Hx & Ha & Hr). rewrite length_zip_with, Hl, Nat.min_id in Hi, Hx.
  split; [done|]. split; [done|]. split; [by eapply addressed_ports|].
  intros [Hno Hst] ->. rewrite Hr. apply one_default_gateway. unfold pod_requests, requested in *.
  rewrite Hno in *. apply default_last_ports; [rewrite Hl, length_app; simpl; lia|].
  by apply Forall_map, Hst.
Qed.

End pod_to_cni.

(** A pod that asks for an interface net1 on nw1, from its annotation to the
    two pairs of interfaces in its namespace. *)
Definition asking_pod : Pod := demo_pod (<[nfnNetworkAnnotation := nfn_text]> ∅).
Definition asking_run : St Z -> Res (bool * option error) * St Z * list Event :=
  @ReconcilePod_Reconcile Z port_db (static_pod asking_pod None) demo_Decode "default" "pod1".
Definition asking_patches : list string :=
  omap (fun e => match e with EPatchPod _ p None => Some p | _ => None end) (asking_run demo_ctl_state).2.
Definition asking_text : string :=
  default "" (merged_annotation Ovn4nfvAnnotationTag (hd "" asking_patches)).
Definition asking_result : Res (option CniResult) :=
  (@addMultipleInterfaces Z node_exec cni_links node_routes node_rest (cni_world cni_pod) 1400 cni_request
     asking_text "default" "pod1" node_start).1.1.

