(* ===== verification/Kube.v ===== *)
(** * Kube: reading and annotating Kubernetes objects (internal/pkg/kube/kube.go)

    Each function is one call of the client library, which is the environment
    ([KubeClient]); objects other than pods are opaque.  What a successful patch
    of one annotation does to a pod is [MergePatch].  ([GetAnnotationsOnPod] is
    in CniServer.v.) *)

From S2P Require Import Prelude.
From S2P Require Import GoStrings.
From S2P Require Import Types.
From S2P Require Import World.
From S2P Require Import Runner.
From S2P Require Import Json.
From S2P Require Import PodController.
From S2P Require Import CniServer.
From S2P Require Import Annotation.

#[local] Open Scope string_scope.
#[local] Open Scope list_scope.

Class KubeClient (E : Type) := {
  Node : Type; node_Name : Node -> string;
  KNamespace : Type; ns_Name : KNamespace -> string;
  Service : Type; Endpoints : Type; NetworkPolicy : Type;
  pods_Patch : string -> string -> string -> E -> option error * E;   (* namespace, name, merge patch *)
  nodes_Patch : string -> string -> E -> option error * E;
  namespaces_Patch : string -> string -> E -> option error * E;
  pods_Get : string -> string -> E -> (option Pod * option error) * E;
  pods_List : string -> string -> E -> (list Pod * option error) * E; (* namespace, label selector *)
  nodes_List : E -> (list Node * option error) * E;
  nodes_Get : string -> E -> (option Node * option error) * E;
  services_Get : string -> string -> E -> (option Service * option error) * E;
  endpoints_List : string -> E -> (list Endpoints * option error) * E;
  namespaces_Get : string -> E -> (option KNamespace * option error) * E;
  namespaces_List : E -> (list KNamespace * option error) * E;
  networkpolicies_List : string -> E -> (list NetworkPolicy * option error) * E
}.

Section kube.
Context {E : Type} `{!KubeClient E}.

(** ** Setting an annotation

    The patch is printed without escaping ([patch_text] of the pod controller
    prints the same text). *)

Definition SetAnnotationOnPod (pod : Pod) (key value : string) : M E (option error) :=
  let patchData := patch_text key value in
  prim (pods_Patch (pod_Namespace pod) (pod_Name pod) patchData) (EPatchPod (pod_Name pod) patchData).

Definition SetAnnotationOnNode (node : Node) (key value : string) : M E (option error) :=
  let patchData := patch_text key value in
  prim (nodes_Patch (node_Name node) patchData) (EPatch "node" (node_Name node) patchData).

Definition SetAnnotationOnNamespace (ns : KNamespace) (key value : string) : M E (option error) :=
  let patchData := patch_text key value in
  prim (namespaces_Patch (ns_Name ns) patchData) (EPatch "namespace" (ns_Name ns) patchData).

(** ** Reading *)

Definition GetPod (namespace name : string) : M E (option Pod * option error) :=
  prim (pods_Get namespace name) (fun _ => EQuery "Pods.Get").
Definition GetPods (namespace : string) : M E (list Pod * option error) :=
  prim (pods_List namespace "") (fun _ => EQuery "Pods.List").
(** [selector] is the text of the selector. *)
Definition GetPodsByLabels (namespace selector : string) : M E (list Pod * option error) :=
  prim (pods_List namespace selector) (fun _ => EQuery "Pods.List").
Definition GetNodes : M E (list Node * option error) := prim nodes_List (fun _ => EQuery "Nodes.List").
Definition GetNode (name : string) : M E (option Node * option error) :=
  prim (nodes_Get name) (fun _ => EQuery "Nodes.Get").
Definition GetService (namespace name : string) : M E (option Service * option error) :=
  prim (services_Get namespace name) (fun _ => EQuery "Services.Get").
Definition GetEndpoints (namespace : string) : M E (list Endpoints * option error) :=
  prim (endpoints_List namespace) (fun _ => EQuery "Endpoints.List").
Definition GetNamespace (name : string) : M E (option KNamespace * option error) :=
  prim (namespaces_Get name) (fun _ => EQuery "Namespaces.Get").
Definition GetNamespaces : M E (list KNamespace * option error) :=
  prim namespaces_List (fun _ => EQuery "Namespaces.List").
Definition GetNetworkPolicies (namespace : string) : M E (list NetworkPolicy * option error) :=
  prim (networkpolicies_List namespace) (fun _ => EQuery "NetworkPolicies.List").
End kube.

(** ** What is set is read back *)

Definition with_annotation (key value : string) (p : Pod) : Pod :=
  {| pod_Name := pod_Name p; pod_Namespace := pod_Namespace p; HostNetwork := HostNetwork p;
     NodeName := NodeName p; Annotations := <[key := value]> (Annotations p); ContainerIDs := ContainerIDs p |}.

(** The patch that sets one annotation. *)
Definition one_annotation (key value : string) : Json :=
  JObject [("metadata", JObject [("annotations", JObject [(key, JString value)])])].

(** JSON merge patch (RFC 7386), for such a patch: when it is accepted the pod
    has the annotation, and nothing else has changed for later reads. *)
Class MergePatch (E : Type) `{!KubeClient E, !CniWorld E} := {
  merge_patch_law : forall ns name text key value e p,
    parse_json text = Some (one_annotation key value) ->
    (pods_Patch ns name text e).1 = None -> (client_get_pod ns name e).1 = (p, None) ->
    let e' := (pods_Patch ns name text e).2 in
    (client_get_pod ns name e').1 = (with_annotation key value p, None) /\
    forall ns2 name2, (ns2, name2) <> (ns, name) -> (client_get_pod ns2 name2 e').1 = (client_get_pod ns2 name2 e).1
}.

Section readback.
Context {E : Type} `{!KubeClient E, !CniWorld E, !MergePatch E}.

(** Annotate a pod, then read the annotations of a pod. *)
Definition set_then_get (pod : Pod) (key value ns name : string) : M E (gmap string string * option error) :=
  err ← SetAnnotationOnPod pod key value;
  match err with Some e => mret (∅, Some e) | None => GetAnnotationsOnPod ns name end.

(** C33: an annotation of plain text that is set without an error is read back,
    with all the others the pod had; other pods read as before.  An error of the
    API server is returned as it is. *)
Theorem annotation_set_and_get pod key value ns name p s :
  plain key = true -> plain value = true ->
  (client_get_pod (pod_Namespace pod) (pod_Name pod) (env s)).1 = (p, None) ->
  wp (set_then_get pod key value ns name) (fun r _ es =>
    (exists e, r = Val (∅, Some e) /\ es = [EPatchPod (pod_Name pod) (patch_text key value) (Some e)]) \/
    if bool_decide ((ns, name) = (pod_Namespace pod, pod_Name pod))
    then r = Val (<[key := value]> (Annotations p), None)
    else let '(p2, err) := (client_get_pod ns name (env s)).1 in
         r = Val (match err with Some e => (∅, Some e) | None => (Annotations p2, None) end)) s.
Proof.
  intros Hk Hv Hp. unfold set_then_get, SetAnnotationOnPod. wp_steps. apply wp_prim. intros err e' He.
  split; [done|]. wp_steps. destruct err as [x|]; [wp_steps; left; by exists x|].
  assert (Hparse : parse_json (patch_text key value) = Some (one_annotation key value)).
  { rewrite <- (esc_plain value Hv) at 1. apply parse_patch; [done|by apply quotable_plain]. }
  assert (Hl := merge_patch_law (pod_Namespace pod) (pod_Name pod) _ key value (env s) p Hparse).
  rewrite He in Hl. destruct (Hl eq_refl Hp) as [Hset Hothers]. unfold GetAnnotationsOnPod. wp_steps.
  apply wp_prim. intros [p2 err2] e2 Hget. split; [done|]. wp_steps. cbn [env] in Hget.
  case_bool_decide as Hsame.
  - injection Hsame as -> ->. simpl in Hset. rewrite Hget in Hset. injection Hset as -> ->. wp_steps. by right.
  - assert (Ho := Hothers ns name Hsame). simpl in Ho. rewrite Hget in Ho. simpl in Ho. rewrite <- Ho.
    destruct err2; wp_steps; by right.
Qed.
End readback.

(** A value with a quote is not what is set: here it brings an annotation of
    its own. *)
Example unescaped_value :
  let v := "x" +:+ dq +:+ "," +:+ dq +:+ "k8s.plugin.opnfv.org/ovnInterfaces" +:+ dq +:+ ":" +:+ dq +:+ "[]" in
  parse_json (patch_text "note" v) = Some (JObject [("metadata", JObject [("annotations",
    JObject [("note", JString "x"); ("k8s.plugin.opnfv.org/ovnInterfaces", JString "[]")])])]).
Proof. vm_compute. reflexivity. Qed.

(** ** A server that keeps pods *)

Abbreviation Pods := (gmap (string * string) Pod).
Definition not_found : option error := Errorf "not found".

Definition apply_annotations (j : option Json) (p : Pod) : Pod :=
  match j with
  | Some (JObject [("metadata", JObject [("annotations", JObject kvs)])]) =>
      foldl (fun p kv => match kv with (k, JString v) => with_annotation k v p | _ => p end) p kvs
  | _ => p
  end.

#[export] Instance pods_client : KubeClient Pods := {|
  Node := (); node_Name _ := ""; KNamespace := (); ns_Name _ := ""; Service := (); Endpoints := ();
  NetworkPolicy := ();
  pods_Patch ns name text m :=
    match m !! (ns, name) with
    | Some p => (None, <[(ns, name) := apply_annotations (parse_json text) p]> m)
    | None => (not_found, m)
    end;
  nodes_Patch _ _ m := (None, m); namespaces_Patch _ _ m := (None, m);
  pods_Get ns name m := (match m !! (ns, name) with Some p => (Some p, None) | None => (None, not_found) end, m);
  pods_List ns _ m := ((filter (fun kv => kv.1.1 = ns) (map_to_list m)).*2, None, m);
  nodes_List m := ([], None, m); nodes_Get _ m := (None, not_found, m);
  services_Get _ _ m := (None, not_found, m); endpoints_List _ m := ([], None, m);
  namespaces_Get _ m := (None, not_found, m); namespaces_List m := ([], None, m);
  networkpolicies_List _ m := ([], None, m)
|}.

Definition no_pod : Pod := Build_Pod "" "" false "" ∅ [].

#[export] Instance pods_cni : CniWorld Pods := {|
  new_result_from r := inl r; new_result _ := inr (ErrorString "no result"); marshal_result _ := inl "";
  unmarshal_netconf _ := inr (ErrorString "no configuration"); parse_prev_result n := inl n;
  marshal_request _ := inl ""; unmarshal_request _ := inr (ErrorString "no request"); show_request _ := "";
  status_code _ := None;
  client_get_pod ns name m :=
    (match m !! (ns, name) with Some p => (p, None) | None => (no_pod, not_found) end, m);
  environ m := ([], m); http_post _ m := (inr (ErrorString "refused"), m); print_result _ _ m := (None, m);
  ExponentialBackoff L _ l := mret (None, l)
|}.

#[export] Instance pods_merge : MergePatch Pods.
Proof.
  split. intros ns name text key value e p Hparse. simpl.
  destruct (e !! (ns, name)) as [q|] eqn:Hq; simpl; [|done]. intros _ [= ->]. rewrite Hparse. split.
  - by rewrite lookup_insert_eq.
  - intros ns2 name2 Hne. by rewrite lookup_insert_ne.
Qed.

Lemma annotation_set_and_get_witness :
  let pod := Build_Pod "pod1" "default" false "node1" (<["kept" := "yes"]> ∅) [] in
  let s := mkSt initGlobals (<[("default", "pod1") := pod]> ∅ : Pods) in
  wp (set_then_get pod "note" "two words" "default" "pod1") (fun r _ es =>
    (exists e, r = Val (∅, Some e) /\ es = [EPatchPod "pod1" (patch_text "note" "two words") (Some e)]) \/
    if bool_decide (("default", "pod1") = ("default", "pod1"))
    then r = Val (<["note" := "two words"]> (Annotations pod), None)
    else let '(p2, err) := (client_get_pod "default" "pod1" (env s)).1 in
         r = Val (match err with Some e => (∅, Some e) | None => (Annotations p2, None) end)) s /\
  (set_then_get pod "note" "two words" "default" "pod1" s).1.1 =
    Val (<["note" := "two words"]> (<["kept" := "yes"]> ∅), None).
Proof.
  intros pod s. split; [|vm_compute; reflexivity].
  exact (@annotation_set_and_get Pods pods_client pods_cni pods_merge pod "note" "two words" "default" "pod1" pod s
    eq_refl eq_refl eq_refl).
Defined.
