(* ===== verification/Shim.v ===== *)
(** * Shim: the request of the CNI plugin, as the CNI server understands it

    The CNI plugin (internal/pkg/cnishim/cnishim.go) packs its environment and
    its standard input into a JSON request; the server (internal/pkg/
    cniserver/cniserver.go) takes it apart again.  encoding/json is the
    environment, with the documented round trip as [JsonLaws]. *)

From S2P Require Import Prelude.
From S2P Require Import GoStrings.
From S2P Require Import GoNet.
From S2P Require Import Types.
From S2P Require Import World.
From S2P Require Import Runner.
From S2P Require Import OvnCommon.
From S2P Require Import OvnController.
From S2P Require Import IpTables.
From S2P Require Import Iface.
From S2P Require Import HelperLinux.
From S2P Require Import Json.
From S2P Require Import CniServer.
From S2P Require Import Annotation.
From S2P Require Import AgentProps.
From S2P Require Import CniProps.
From Stdlib Require Import Ascii.

#[local] Open Scope string_scope.
#[local] Open Scope list_scope.

Definition is_ascii (c : ascii) : bool := (nat_of_ascii c <? 128)%nat.

(** A request whose environment JSON can carry: encoding/json replaces bytes
    that are not UTF-8. *)
Definition ascii_request (r : CNIEndpointRequest) : Prop :=
  map_Forall (fun k v => string_forall is_ascii k && string_forall is_ascii v = true) (ArgEnv r).

Class JsonLaws (E : Type) `{!CniWorld E} := {
  marshal_law : forall r, ascii_request r ->
    exists b, marshal_request r = inl b /\ unmarshal_request b = inl r
}.

(** ** Lists of key=value *)

Definition pair_text (kv : string * string) : string := kv.1 +:+ String "=" kv.2.
Definition good_key (k : string) : bool := negb (k == "") && free "=" k && no_space k.
(** Later bindings win. *)
Definition bindings (kvs : list (string * string)) : gmap string string :=
  foldl (fun m kv => <[kv.1 := kv.2]> m) ∅ kvs.

Lemma index_of_app k v : free "=" k = true -> index_of "=" (k +:+ String "=" v) = Some (String.length k).
Proof.
  unfold free. induction k as [|c k IH]; [done|]. simpl. intros [Hc Hk]%andb_true_iff.
  apply negb_true_iff in Hc. rewrite bool_decide_eq_false_2, IH; [done|done|].
  intros ->. by rewrite Ascii.eqb_refl in Hc.
Qed.

Lemma drop_string_app a b : drop_string (String.length a) (a +:+ b) = b.
Proof. induction a as [|c a IH]; [by destruct b|]. exact IH. Qed.

Lemma env_item_pair m kv : good_key kv.1 = true -> env_item m (pair_text kv) = <[kv.1 := kv.2]> m.
Proof.
  destruct kv as [k v]. unfold good_key, pair_text. cbn [fst snd].
  intros [[Hne Hf]%andb_true_iff Hs]%andb_true_iff. apply negb_true_iff, bool_decide_eq_false in Hne.
  unfold env_item. rewrite index_of_app by done. destruct k as [|c k]; [done|]. cbn [String.length].
  change (S (String.length k)) with (String.length (String c k)). rewrite take_string_app.
  rewrite TrimSpace_no_space by done. f_equal.
  change (S (String.length (String c k))) with (1 + String.length (String c k))%nat.
  rewrite Nat.add_comm. change (String c k +:+ String "=" v) with (String c k +:+ String "=" "" +:+ v).
  rewrite <- append_assoc. rewrite <- (drop_string_app (String c k +:+ "=") v) at 2.
  by rewrite length_append.
Qed.

Lemma env_items kvs m :
  Forall (fun kv => good_key kv.1 = true) kvs ->
  foldl env_item m (map pair_text kvs) = foldl (fun m kv => <[kv.1 := kv.2]> m) m kvs.
Proof.
  intros Hk. revert m. induction Hk as [|kv kvs H _ IH]; intros m; [done|]. simpl.
  by rewrite env_item_pair, IH.
Qed.

(** An argument of CNI_ARGS. *)
Definition good_arg (kv : string * string) : bool :=
  good_key kv.1 && free ";" kv.1 && free "=" kv.2 && free ";" kv.2 && no_space kv.2.

Lemma shim_arg_pair kv m : good_arg kv = true -> shim_arg (pair_text kv) m = inl (<[kv.1 := kv.2]> m).
Proof.
  destruct kv as [k v]. unfold good_arg, good_key, pair_text. cbn [fst snd]. rewrite !andb_true_iff.
  intros [[[[[[_ H1] H2] _] H3] _] H4]. unfold shim_arg. rewrite Split_cons, Split_free by done.
  by rewrite !TrimSpace_no_space.
Qed.

Lemma shim_args_pairs kvs m :
  Forall (fun kv => good_arg kv = true) kvs ->
  shim_args (map pair_text kvs) m = inl (foldl (fun m kv => <[kv.1 := kv.2]> m) m kvs).
Proof.
  intros Hk. revert m. induction Hk as [|kv kvs H _ IH]; intros m; [done|]. cbn [map shim_args foldl].
  by rewrite shim_arg_pair.
Qed.

Lemma pair_no_semicolon kv : good_arg kv = true -> free ";" (pair_text kv) = true.
Proof.
  destruct kv as [k v]. unfold good_arg, pair_text. cbn [fst snd]. rewrite !andb_true_iff.
  intros [[[[_ H1] _] H2] _]. rewrite free_app, H1. exact H2.
Qed.

Lemma loadCNIShimArgs_pairs env args :
  args <> [] -> Forall (fun kv => good_arg kv = true) args ->
  env !! "CNI_ARGS" = Some (Join (map pair_text args) ";") ->
  loadCNIShimArgs env = inl (bindings args).
Proof.
  intros Hne Hargs Henv. unfold loadCNIShimArgs. rewrite Henv. rewrite Split_Join.
  - by apply shim_args_pairs.
  - by destruct args.
  - apply Forall_map. eapply Forall_impl; [exact Hargs|]. apply pair_no_semicolon.
Qed.

Section roundtrip.
Context {E : Type} `{!ExecWorld E, !LinkWorld E, !IPTWorld E, !RouteWorld E, !NodeWorld E, !CniWorld E,
  !JsonLaws E}.
Variable MTU : Z.

(** The answer to a handled request. *)
Definition reply (r : string * option error) : Z * string :=
  match r with (_, Some e) => bad_request (Error e) | (result, None) => (200%Z, result) end.

Lemma bindings_forall (P : string -> string -> Prop) kvs :
  Forall (fun kv => P kv.1 kv.2) kvs -> map_Forall P (bindings kvs).
Proof.
  unfold bindings. intros Hk. assert (H0 : map_Forall P (∅ : gmap string string)) by apply map_Forall_empty.
  revert H0. generalize (∅ : gmap string string) as m. induction Hk as [|kv kvs H _ IH]; intros m Hm; [done|].
  simpl. apply IH. by apply map_Forall_insert_2.
Qed.

(** C30: the request survives the way from the CNI plugin to the server: for a
    plugin started with the environment variables that the CNI specification
    asks for, the server that receives the posted body handles exactly the
    request with these values, the pod's namespace and name being those of
    CNI_ARGS, and answers with its result. *)
Theorem shim_request_served kvs args stdin command sandbox netns ifname ns pod conf (s : St E) e1 :
  environ (env s) = (map pair_text kvs, e1) ->
  Forall (fun kv => good_key kv.1 = true /\ string_forall is_ascii kv.1 && string_forall is_ascii kv.2 = true) kvs ->
  args <> [] -> Forall (fun kv => good_arg kv = true) args ->
  bindings kvs !! "CNI_COMMAND" = Some command -> bindings kvs !! "CNI_CONTAINERID" = Some sandbox ->
  bindings kvs !! "CNI_NETNS" = Some netns -> bindings kvs !! "CNI_IFNAME" = Some ifname ->
  bindings kvs !! "CNI_ARGS" = Some (Join (map pair_text args) ";") ->
  bindings args !! "K8S_POD_NAMESPACE" = Some ns -> bindings args !! "K8S_POD_NAME" = Some pod ->
  ConfigureNetConf stdin = inl conf ->
  let req := {| Command := command; PodNamespace := ns; PodName := pod; SandboxID := sandbox;
                Netns := netns; IfName := ifname; CNIConf := conf |} in
  exists r b, cniEndpointRequest stdin s = (Val r, mkSt (glob s) e1, [EQuery "Environ"]) /\
    marshal_request r = inl b /\
    forall s2, handleCNIShimRequest MTU b s2 = (a ← HandleCNIcommandRequest MTU req; mret (reply a)) s2.
Proof.
  intros Henv Hkvs Hne Hargs Hcmd Hsb Hnet Hif Hcni Hns Hpod Hconf req.
  set (r := {| ArgEnv := bindings kvs; NetConfig := stdin |}).
  apply Forall_and in Hkvs as [Hkeys Hascii].
  destruct (marshal_law r) as (b & Hm & Hu); [by apply bindings_forall|].
  exists r, b. split; [|split; [done|]].
  - unfold cniEndpointRequest, prim, mbind, M_bind. rewrite Henv. rewrite env_items by done. done.
  - intros s2. unfold handleCNIShimRequest. rewrite Hu. unfold loadCNIRequestToCNIServer, required. cbn [ArgEnv r NetConfig].
    rewrite Hcmd, Hsb, Hnet, Hif. rewrite (loadCNIShimArgs_pairs _ args) by done. rewrite Hns, Hpod, Hconf.
    fold req. unfold mbind, M_bind. by destruct (HandleCNIcommandRequest MTU req s2) as [[[[res [x|]]|w|] s3] e3].
Qed.
End roundtrip.

(** An encoding of requests that keeps them, for the example. *)
Fixpoint bits_of (p : positive) : string :=
  match p with xO p => String "0" (bits_of p) | xI p => String "1" (bits_of p) | xH => "" end.
Fixpoint of_bits (s : string) : positive :=
  match s with
  | String c s => if Ascii.eqb c "0" then xO (of_bits s) else xI (of_bits s)
  | EmptyString => xH
  end.
Lemma of_bits_of p : of_bits (bits_of p) = p.
Proof. induction p as [p IH|p IH|]; simpl; [by rewrite IH..|done]. Qed.

Definition shim_items : list (string * string) :=
  [("CNI_COMMAND", "ADD"); ("CNI_CONTAINERID", "0123456789abcdef"); ("CNI_NETNS", "/proc/1/ns/net");
   ("CNI_IFNAME", "eth0"); ("CNI_ARGS", "IgnoreUnknown=1;K8S_POD_NAMESPACE=default;K8S_POD_NAME=pod1")].
Definition shim_pod_args : list (string * string) :=
  [("IgnoreUnknown", "1"); ("K8S_POD_NAMESPACE", "default"); ("K8S_POD_NAME", "pod1")].

Definition shim_world : CniWorld Z :=
  let w := cni_world cni_pod in {|
  new_result_from := @new_result_from Z w;
  new_result := @new_result Z w;
  marshal_result := @marshal_result Z w;
  unmarshal_netconf := @unmarshal_netconf Z w;
  parse_prev_result := @parse_prev_result Z w;
  marshal_request r := inl (bits_of (encode (ArgEnv r, NetConfig r)));
  unmarshal_request b := match decode (of_bits b) with
                         | Some (m, c) => inl {| ArgEnv := m; NetConfig := c |}
                         | None => inr (ErrorString "invalid")
                         end;
  show_request := @show_request Z w;
  status_code := @status_code Z w;
  client_get_pod := @client_get_pod Z w;
  environ e := (map pair_text shim_items, e);
  http_post := @http_post Z w;
  print_result := @print_result Z w;
  ExponentialBackoff := @ExponentialBackoff Z w
|}.

Definition shim_laws : @JsonLaws Z shim_world.
Proof.
  refine (@Build_JsonLaws Z shim_world _). intros [m c] _. eexists. split; [reflexivity|].
  cbn. by rewrite of_bits_of, decode_encode.
Defined.

Definition shim_handle := @handleCNIShimRequest Z node_exec cni_links node_routes node_rest shim_world 1400.

Lemma shim_request_served_witness :
  (exists r b, @cniEndpointRequest Z shim_world "{}" node_start = (Val r, node_start, [EQuery "Environ"]) /\
    @marshal_request Z shim_world r = inl b /\
    forall s2, shim_handle b s2 =
      (a ← @HandleCNIcommandRequest Z node_exec cni_links node_routes node_rest shim_world 1400 cni_request;
       mret (reply a)) s2) /\
  match (@cniEndpointRequest Z shim_world "{}" node_start).1.1 with
  | Val r => match @marshal_request Z shim_world r with
             | inl b => (shim_handle b node_start).1.1 = Val (200%Z, "{}")
             | inr _ => False
             end
  | _ => False
  end.
Proof.
  split; [|vm_compute; reflexivity].
  apply (@shim_request_served Z node_exec cni_links node_routes node_rest shim_world shim_laws 1400
    shim_items shim_pod_args "{}" "ADD" "0123456789abcdef" "/proc/1/ns/net" "eth0" "default" "pod1"
    (CNIConf cni_request) node_start 0%Z); try reflexivity; [repeat constructor|discriminate|repeat constructor].
Defined.
